(* ===== verification/_CoqProject ===== *)
-Q . S2P
Prelude.v
Bits.v
Gdt.v
Idt.v
MemRegions.v
VM.v
Regs.v
Paging.v
Layout.v
Status.v
Vp.v
Tables.v
Interrupts.v
Arch.v
Debug.v
KvmRegs.v
KvmVp.v
KvmVm.v
Platform.v
KvmCreate.v
HaxmRegs.v
HaxmVp.v
HaxmVm.v
WhpxRegs.v
WhpxVp.v
WhpxVm.v
WhpxLoad.v
GuestView.v
GuestLinear.v
GuestTables.v
InterruptDelivery.v
SysLinux.v
LinuxFiles.v
SysVersions.v
HaxmSys.v
Lifecycle.v
Hvf.v
Bitmask.v
PlatformCheck.v
