(* ===== verification/Prelude.v ===== *)
(** * virt86: a verification development

    virt86 is a C++17 library that gives one interface to several hypervisors.  Its core
    (src/modules/core) has abstract classes for a platform, a virtual machine and a
    virtual processor, with all behaviour that does not depend on the hypervisor: guest
    memory regions, linear memory access through the guest's page tables, descriptor
    tables, registers, and the interrupt queue.  Each hypervisor has a module that
    implements the virtual functions: KVM (src/modules/kvm), HAXM (src/modules/haxm), the
    Windows Hypervisor Platform (src/modules/whpx) and an outline for
    Hypervisor.framework (src/modules/hvf).

    ** The files

    Foundations:
    - Prelude.v (this file): bit operators in C++ notation, conversions to the fixed
      widths, little-endian bytes, and the tactics that decide equations between them;
    - Bits.v: unions and structs of bit-fields as integers, with [fget] and [fset] for
      their members;
    - Status.v (vp/status.hpp, vmexit.hpp): status codes and the monad of operations that
      change a processor and may fail;
    - Regs.v (vp/regs.hpp): the register enumeration and the union RegValue;
    - Arch.v (util/bytemanip.hpp): what the registers mean, as parts of a file of full
      registers; this is the specification that the register files of the platforms refine;
    - Layout.v (vp/fpregs.hpp, the HAXM interface and vcpu_state.hpp, and the unions of gdt.hpp,
      idt.hpp, paging.hpp and regs.hpp): the declarations as values and the rule by which they
      are laid out, from which the fields of the other files follow
      ([modelled_fields_are_members]);
    - Bitmask.v (util/bitmask_enum.hpp): the operators and checks of flag enumerations.

    The core:
    - Gdt.v, Idt.v (vp/gdt.hpp, vp/idt.hpp and their .cpp): descriptors and gates;
    - MemRegions.v (vm/mem.hpp, vm/vm.cpp): the list of guest memory regions, reads and
      writes through it, and the subtraction of a range;
    - VM.v (vm/vm.hpp, vm/vm.cpp, vm/io.cpp): the machine over the class [VMBackend] of
      the functions that a platform implements, and the transition system of its calls;
    - Paging.v (vp/paging.hpp, vp/vp.cpp): the three page walks;
    - Vp.v (vp/vp.cpp, vp/cpu.hpp): processor modes, address translation and linear
      memory over the class [VPRegs] of register access, whose laws [VPRegsLaws] are
      what a platform owes the core;
    - Tables.v (vp/vp.cpp): entries of descriptor tables in guest memory, and segments;
    - Interrupts.v (vp/vp.cpp): Run, Step and the interrupt queue over the class
      [VPInterrupts], sequentially and interleaved with threads that enqueue;
    - Debug.v (vp/fpregs.hpp, vp/hwbp.hpp): floating point control, breakpoints;
    - Platform.v (platform/*.hpp, platform.cpp, util/host_info.cpp): features, host
      information, the list of machines.

    The platforms.  The kernel, driver or system library is always a class whose
    operations are its entry points ([KVM], [KVMMachine], [KVMCreation], [HAXM],
    [HAXMachine], [Posix], [Win32], [WHPX], [WHPXPartition], [Loader], [Files]); what it is
    documented to do is a second class ([KVMLaws], [KVMMemory], [KVMDirtyLog], [KVMDescriptors],
    [KVMInterrupts], [HAXMLaws], [HAXMMemory], [WHPXMemory],
    [HAXMMsrLaws], [HAXMInterrupts], [PosixLaws], [Win32Laws], [WHPXLaws], [WHPXPartitionLaws],
    [LoaderLaws], [FilesLaws]), required only by the theorems that rest on it and given an
    instance by their witnesses.
    - KvmRegs.v, HaxmRegs.v, WhpxRegs.v: register structures and conversions
      (kvm_helpers.cpp, haxm_helpers.cpp, whpx_regs.cpp and the register switches);
    - KvmVp.v, HaxmVp.v, WhpxVp.v: the processors (kvm_vp.cpp, haxm_vp.cpp with the Linux
      layer haxm_sys_vp.cpp, whpx_vp.cpp), with instances of [VPRegs], [VPRegsLaws] and
      [VPInterrupts], so that the theorems of the core hold of them;
    - KvmVm.v, HaxmVm.v, WhpxVm.v: guest memory as instances of [VMBackend] (kvm_vm.cpp,
      haxm_vm.cpp, haxm_sys_vm.cpp, whpx_vm.cpp); the last two also hold the creation of
      machines and the published features (haxm_platform.cpp, whpx_platform.cpp);
    - KvmCreate.v: the same for KVM (kvm_platform.cpp and the Initialize functions).
    - GuestView.v: the contract of guest memory, [GuestMemory]: what the guest finds at an
      address, and how mapping and unmapping change it.  HAXM, WHPX and KVM are
      instances, by the documented effect of each request, and the machine of VM.v is
      composed with any of them;
    - GuestLinear.v: the same for linear addresses: the processor of Vp.v with any registers that
      keep [VPRegsLaws], on the machine over any platform that keeps [GuestMemory];
    - GuestTables.v: the entries of Tables.v against the descriptors and gates that the processor
      loads through its page tables, on the same machine;
    - InterruptDelivery.v: the queue of Interrupts.v over the class [InterruptSink] of what a
      hypervisor promises of an injection.  KVM and HAXM are instances, with the operations of
      clients between runs; WHPX is not;
    - HaxmSys.v (the haxm_sys_*.cpp of macOS, Windows and Linux, haxm_platform_impl.cpp, the
      request codes of interface/): the calls of each system below the HAXM
      processor and machine, as implementations of [HAXM] and [HAXMachine];
    - Lifecycle.v (platform.cpp, and the destructors of machines and platforms): the objects
      that a platform creates, frees and destroys, over the class [MachineFactory]; KVM,
      HAXM with its system layers, and WHPX are instances;
    - WhpxLoad.v (whpx_dispatch.cpp): loading the libraries of WHPX;
    - Hvf.v (hvf_vp.cpp, hvf_vm.cpp, hvf_platform.cpp): the outline, as instances of the same classes;
    - PlatformCheck.v (virt86.hpp, apps/platform-check): the list of platforms and the program
      that prints their features;
    - SysVersions.v (kext.cpp, version_info.cpp, GetVersion of macOS and Windows): the other
      queries of a version;
    - SysLinux.v (src/modules/sys/linux, and GetVersion of haxm_sys_platform.cpp): how the
      version of the HAXM driver is read from the bytes of its module file, with a reference
      encoder of ELF images;
    - LinuxFiles.v (readFile and mmapKernelModuleFile of util.cpp): finding, opening and
      mapping that file, over the class [Files], and the whole query.

    ** How the code is represented

    An integer of w bits is a Z between 0 and 2^w, with the wrap-around of the code
    written out by [u8] to [u64]; a union is the integer of its bytes.  A pointer to host
    memory is an address, host memory a function from addresses to bytes, so that two
    regions may share memory.  An object is a record with the members of the class;
    a member function is a function from the object to its result and the changed object,
    with the early returns of the code in their order.  Values that C++ leaves
    uninitialised are parameters ([uninit]), and so is the world that callbacks change.
    Where the code uses a container the model keeps the container's order.

    ** What the theorems show

    - Data: every member that a descriptor, gate or register conversion stores is found
      by its accessor; a register access of each platform is an access of a part of the
      architectural register, with the exceptions listed in the statements.
    - Guest memory: the regions stay non-empty and page-aligned under every sequence of calls, and
      well formed if no range wraps and each unmapped range meets or borders all
      regions, which the code does not check.  A range that is unmapped cannot be accessed; reads and writes go to
      the newest region that covers them.  Subtracting a range ends, but for certain
      ranges that wrap, for which it is shown that it does not.
    - The guest and the program, on every platform that keeps its contract, in three steps
      of restrictions on the calls ([guest_reachable]): wherever the guest finds a byte the program has an
      address; it is the same byte; the two have the same memory, so that reads return what the
      guest sees, but for ranges that a newer region covers in part.  Under the strictest restrictions, and
      outside PAE mode, linear reads return what the guest loads through its own tables, linear
      writes store where the guest finds it, and entries of descriptor tables are those that the processor
      loads where the tables are mapped to themselves, but for the low bits of a selector and
      the gates of IA-32e mode.
    - Address translation: each walk equals the translation that the architecture
      defines; linear reads and writes transfer the bytes at the translation of every
      address, page by page, whatever platform implements the registers.
    - Processors: with the caches of KVM and HAXM, and without one on WHPX, reading,
      writing and running behave as one register file shared with the hypervisor; what failing
      runs, and failing writes on WHPX, leave behind is part of the statements.  The files of registers are written from
      the structures of the hypervisors, without the conversions of the code.
    - Interrupts: for every interleaving the platform's InjectInterrupt is called once for each vector that has left
      the queue, in order, whatever it answers; and if the processor opens an interrupt window within N
      runs, the queue is empty after at most N + 1 runs per vector.  On KVM and HAXM the
      hypervisor takes each of them if no run fails; on WHPX one that the guest has not taken yet is overwritten.
    - I/O exits, MSR batches, dirty bitmaps: termination, bounds, and what is transferred.
    - Files: sections, parameters and versions that are encoded in a module file are
      found again, in either byte order, from the files on the disk to the version; every mapping
      is released with its size.
    - Resources: descriptors, handles, partitions and libraries that exist after a creation or
      a load, failed or not; over the whole life of a platform, what is open is what its
      machines hold, and its destruction closes all of it.
    - Systems: the layers of HAXM for macOS and Windows are the same operations as the one
      for Linux, over other calls; the buffers for device names and what they hold.
    - Layouts: members neither overlap nor leave their structure; the FXSAVE image is that of the
      hardware, the XSAVE header is not; the packing attribute changes nothing in the HAXM interface.
    Where the code does not do what it means to, the theorem states what it does and
    its comment says so.

    ** Fuel

    Loops that are not structural take fuel.  [SubtractMemoryRange] is given twice the
    number of regions and one, which suffices whenever any number does ([loop_terminates],
    [loop_diverges]); [lmem_fuel] is one step per page that the range
    touches, and [lmem_read_correct] and [lmem_write_correct] include that it
    suffices.  The theorems on the MSR batches of HAXM and on the CPUID query of KVM
    are for any fuel above a bound they state.  [Windows.windows_path] of SysVersions.v takes a step
    for every 260 characters of the path, for which [windows_path_found] shows it to suffice.

    ** Not modelled

    Other threads, but for the interrupt queue; allocation failure, but where the
    code tests for it; null pointer arguments of the array accessors; exceptions of the C++
    library; what is done once per process: the [Instance] functions.  Layouts follow the compilers for
    x86-64, where float, double and the integer types have the sizes that the code asserts or
    names. *)
From Stdlib Require Export ZArith Lia Bool Btauto.
From stdpp Require Export prelude.
#[global] Set Default Goal Selector "!".
#[global] Open Scope Z_scope.
#[global] Unset Lia Cache.

#[global] Arguments Z.testbit : simpl never.

(** ** Notations for the bit operators of C++ *)
Declare Scope cint_scope.
Delimit Scope cint_scope with cint.
Notation "x &&& y" := (Z.land x y) (at level 40, left associativity) : cint_scope.
Notation "x ||| y" := (Z.lor x y) (at level 50, left associativity) : cint_scope.
Notation "x ^^^ y" := (Z.lxor x y) (at level 46, left associativity) : cint_scope.
Notation "x <<< n" := (Z.shiftl x n) (at level 38, left associativity) : cint_scope.
Notation "x >>> n" := (Z.shiftr x n) (at level 38, left associativity) : cint_scope.
#[global] Open Scope cint_scope.

(** ** Fixed-width integers: conversion to uintN_t / int32_t / int64_t *)
Definition u8 (z : Z) : Z := z mod 2 ^ 8.
Definition u16 (z : Z) : Z := z mod 2 ^ 16.
Definition u32 (z : Z) : Z := z mod 2 ^ 32.
Definition u64 (z : Z) : Z := z mod 2 ^ 64.
Definition sext (w z : Z) : Z :=
  let r := z mod 2 ^ w in if r <? 2 ^ (w - 1) then r else r - 2 ^ w.
Definition s32 (z : Z) : Z := sext 32 z.
Definition s64 (z : Z) : Z := sext 64 z.

(** [bit n x]: the C++ idiom [x & (1 << n)] as a condition. *)
Definition bit (n x : Z) : bool := Z.testbit x n.
(** C++ [~x] on uint64_t. *)
Definition lnot64 (x : Z) : Z := u64 (Z.lnot x).
Definition lnot32 (x : Z) : Z := u32 (Z.lnot x).
(** A C++ integer as a condition. *)
Definition nz (x : Z) : bool := negb (x =? 0).

Create HintDb virt discriminated.
Create Rewrite HintDb cint.

(** [lia] with division and modulo by constants. *)
Ltac zlia := Z.div_mod_to_equations; lia.

Section Ints.
Lemma u8_range z : 0 <= u8 z < 2 ^ 8.
Proof. unfold u8; zlia. Qed.
Lemma u16_range z : 0 <= u16 z < 2 ^ 16.
Proof. unfold u16; zlia. Qed.
Lemma u32_range z : 0 <= u32 z < 2 ^ 32.
Proof. unfold u32; zlia. Qed.
Lemma u64_range z : 0 <= u64 z < 2 ^ 64.
Proof. unfold u64; zlia. Qed.
Lemma u8_small z : 0 <= z < 2 ^ 8 -> u8 z = z.
Proof. unfold u8; zlia. Qed.
Lemma u16_small z : 0 <= z < 2 ^ 16 -> u16 z = z.
Proof. unfold u16; zlia. Qed.
Lemma u32_small z : 0 <= z < 2 ^ 32 -> u32 z = z.
Proof. unfold u32; zlia. Qed.
Lemma u64_small z : 0 <= z < 2 ^ 64 -> u64 z = z.
Proof. unfold u64; zlia. Qed.
End Ints.
#[export] Hint Resolve u8_range u16_range u32_range u64_range : virt.
#[export] Hint Rewrite u8_small u16_small u32_small u64_small using lia : cint.

(** ** Tactics *)

(** Destruct the scrutinee of the first [if] or [match] of the goal. *)
Ltac case_if :=
  match goal with
  | |- context [if ?b then _ else _] => let E := fresh "E" in destruct b eqn:E
  end.
Ltac case_match_hyp H :=
  match type of H with
  | context [if ?b then _ else _] => let E := fresh "E" in destruct b eqn:E
  | context [match ?x with _ => _ end] => let E := fresh "E" in destruct x eqn:E
  end.
(** Boolean comparisons to propositions, in all hypotheses. *)
Ltac breflect :=
  repeat match goal with
  | H : (_ =? _) = true |- _ => apply Z.eqb_eq in H
  | H : (_ =? _) = false |- _ => apply Z.eqb_neq in H
  | H : (_ <? _) = true |- _ => apply Z.ltb_lt in H
  | H : (_ <? _) = false |- _ => apply Z.ltb_ge in H
  | H : (_ <=? _) = true |- _ => apply Z.leb_le in H
  | H : (_ <=? _) = false |- _ => apply Z.leb_gt in H
  | H : (_ && _) = true |- _ => apply andb_true_iff in H as [? ?]
  | H : (_ && _) = false |- _ => apply andb_false_iff in H
  | H : (_ || _) = true |- _ => apply orb_true_iff in H
  | H : (_ || _) = false |- _ => apply orb_false_iff in H as [? ?]
  | H : negb _ = true |- _ => apply negb_true_iff in H
  | H : negb _ = false |- _ => apply negb_false_iff in H
  | H : nz _ = true |- _ => unfold nz in H
  | H : nz _ = false |- _ => unfold nz in H
  end.

(** ** Bits of an integer *)
Lemma testbit_range x n i : 0 <= x < 2 ^ n -> n <= i -> Z.testbit x i = false.
Proof.
  intros Hx Hi. destruct (Z.ltb_spec i 0); [apply Z.testbit_neg_r; lia|].
  destruct (Z.eq_dec x 0) as [->|]; [apply Z.bits_0|].
  apply Z.bits_above_log2; [lia|].
  apply Z.log2_lt_pow2; [lia|].
  assert (2 ^ n <= 2 ^ i) by (apply Z.pow_le_mono_r; lia). lia.
Qed.

(** Sign extension repeats bit [w-1]. *)
Lemma sext_testbit w x i : 0 < w -> 0 <= i ->
  Z.testbit (sext w x) i = Z.testbit x (Z.min i (w - 1)).
Proof.
  intros Hw Hi. unfold sext.
  pose proof (Z.pow_pos_nonneg 2 w). pose proof (Z.pow_pos_nonneg 2 (w - 1)).
  pose proof (Z.mod_pos_bound x (2 ^ w)).
  assert (Hp : 2 ^ w = 2 * 2 ^ (w - 1)) by (rewrite <- Z.pow_succ_r by lia; f_equal; lia).
  assert (Htop : Z.testbit x (w - 1) = negb (x mod 2 ^ w <? 2 ^ (w - 1))).
  { rewrite <- (Z.mod_pow2_bits_low x w (w - 1)) by lia. destruct (Z.ltb_spec (x mod 2 ^ w) (2 ^ (w - 1))).
    - apply testbit_range with (w - 1); lia.
    - simpl. apply Z.testbit_true; [lia|].
      rewrite <- (Z.div_unique (x mod 2 ^ w) (2 ^ (w - 1)) 1 (x mod 2 ^ w - 2 ^ (w - 1))); [done|lia|lia]. }
  case_if; breflect; simpl in Htop.
  - rewrite Z.testbit_mod_pow2 by lia. destruct (Z.ltb_spec i w); simpl.
    + f_equal; lia.
    + by rewrite Z.min_r by lia.
  - assert (Heq : x mod 2 ^ w - 2 ^ w = Z.lor (x mod 2 ^ w) (Z.shiftl (-1) w)).
    { rewrite <- Z.add_nocarry_lor; [rewrite Z.shiftl_mul_pow2 by lia; lia|]. 
      apply Z.bits_inj'; intros j Hj. rewrite Z.land_spec, Z.shiftl_spec, Z.testbit_mod_pow2, Z.bits_0 by lia.
      destruct (Z.ltb_spec j w); simpl; [|done]. rewrite (Z.testbit_neg_r (-1)) by lia. apply andb_false_r. }
    rewrite Heq, Z.lor_spec, Z.shiftl_spec, Z.testbit_mod_pow2 by lia.
    destruct (Z.ltb_spec i w); simpl.
    + rewrite (Z.testbit_neg_r (-1)) by lia. rewrite orb_false_r. f_equal; lia.
    + rewrite Z.min_r by lia. rewrite Z.bits_m1 by lia. done.
Qed.

Lemma sext32_testbit x i : 0 <= i -> Z.testbit (sext 32 x) i = Z.testbit x (Z.min i 31).
Proof. intros; by rewrite sext_testbit by lia. Qed.
Lemma sext64_testbit x i : 0 <= i -> Z.testbit (sext 64 x) i = Z.testbit x (Z.min i 63).
Proof. intros; by rewrite sext_testbit by lia. Qed.

(** Push [Z.testbit] through the bit operators; side conditions by [lia]. *)
Ltac tb_step :=
  first [ rewrite Z.land_spec | rewrite Z.lor_spec | rewrite Z.lxor_spec
        | rewrite Z.ldiff_spec | rewrite Z.bits_0
        | rewrite Z.shiftr_spec by lia | rewrite Z.shiftl_spec by lia
        | rewrite Z.testbit_mod_pow2 by lia | rewrite Z.lnot_spec by lia
        | rewrite Z.testbit_ones by lia
        | rewrite sext32_testbit by lia | rewrite sext64_testbit by lia ].
Ltac bool_cases :=
  repeat match goal with
    | |- context [Z.min ?a ?b] =>
        first [ rewrite (Z.min_l a b) by lia | rewrite (Z.min_r a b) by lia
              | destruct (Z.min_spec a b) as [[? ->]|[? ->]] ]
    | |- context [?a <=? ?b] =>
        first [ rewrite (proj2 (Z.leb_le a b)) by lia
              | rewrite (proj2 (Z.leb_gt a b)) by lia | destruct (Z.leb_spec a b) ]
    | |- context [?a <? ?b] =>
        first [ rewrite (proj2 (Z.ltb_lt a b)) by lia
              | rewrite (proj2 (Z.ltb_ge a b)) by lia | destruct (Z.ltb_spec a b) ]
    end.
Ltac bool_simpl :=
  repeat first [ rewrite andb_true_r | rewrite andb_false_r | rewrite orb_true_r
               | rewrite orb_false_r | rewrite andb_true_l | rewrite andb_false_l
               | rewrite orb_true_l | rewrite orb_false_l | progress simpl negb ].
Ltac tb_neg := repeat match goal with
  | |- context [Z.testbit ?a ?i] => rewrite (Z.testbit_neg_r a i) by lia
  | H : 0 <= ?a < 2 ^ ?n |- context [Z.testbit ?a ?i] =>
      rewrite (testbit_range a n i H) by lia end.
Ltac tb_norm := repeat tb_step; bool_cases; tb_neg; bool_simpl.
Ltac tb_finish := first [ reflexivity | lia | f_equal; lia | btauto ].
(** Split on whether a bit is inside the range of a bounded integer, or at a
    negative position. *)
Ltac tb_split := match goal with
  | H : 0 <= ?a < 2 ^ ?n |- context [Z.testbit ?a ?i] =>
      assert_fails (assert (i < n) by lia); assert_fails (assert (n <= i) by lia);
      destruct (Z.le_gt_cases n i)
  | |- context [Z.testbit _ ?i] =>
      assert_fails (assert (i < 0) by lia); assert_fails (assert (0 <= i) by lia);
      destruct (Z.lt_ge_cases i 0)
  end.
(** Literal masks [2^n - 1] as [Z.ones n]. *)
Ltac mask_ones :=
  repeat match goal with
  | |- context [Z.land ?x (Z.pos ?p)] =>
      let n := eval vm_compute in (Z.log2 (Z.pos p)  + 1) in
      let ok := eval vm_compute in (2 ^ n =? Z.pos p + 1) in
      constr_eq ok true; change (Z.land x (Z.pos p)) with (Z.land x (Z.ones n))
  end.
Ltac tb_solve :=
  mask_ones; unfold u8, u16, u32, u64, s32, s64; tb_norm; repeat progress tb_norm;
  try first [ tb_finish | progress (repeat tb_split); repeat progress tb_norm; tb_finish ].
(** Prove an equation between integers bit by bit. *)
Ltac bitwise :=
  apply Z.bits_inj'; let i := fresh "i" in let Hi := fresh "Hi" in
  intros i Hi; tb_solve.


(** ** Shared facts about masks *)
Lemma land_ones_mod x n : 0 <= n -> x &&& Z.ones n = x mod 2 ^ n.
Proof. intros; apply Z.land_ones; lia. Qed.

Lemma land_fff x : x &&& 0xFFF = x mod 4096.
Proof. apply (Z.land_ones x 12); lia. Qed.

(** Clearing the low [n] bits rounds down to a multiple of [2^n]. *)
Lemma ldiff_ones_down x n : 0 <= n -> Z.ldiff x (Z.ones n) = x - x mod 2 ^ n.
Proof.
  intros Hn. rewrite Z.ldiff_ones_r, Z.shiftl_mul_pow2, Z.shiftr_div_pow2 by lia.
  pose proof (Z.pow_pos_nonneg 2 n). pose proof (Z.div_mod x (2 ^ n) ltac:(lia)). lia.
Qed.

Lemma range_of_testbit x n :
  0 <= n -> (forall i, n <= i -> Z.testbit x i = false) -> 0 <= x < 2 ^ n.
Proof.
  intros Hn H. assert (x = x mod 2 ^ n) as ->; [|apply Z.mod_pos_bound; lia].
  apply Z.bits_inj'; intros i Hi. rewrite Z.testbit_mod_pow2 by lia.
  destruct (Z.ltb_spec i n); simpl; [done|apply H; lia].
Qed.

(** The test [x & (1 << n)]. *)
Lemma nz_land_bit x n : 0 <= n -> nz (x &&& (1 <<< n)) = bit n x.
Proof.
  intros Hn. unfold nz, bit.
  assert (x &&& (1 <<< n) = if Z.testbit x n then 1 <<< n else 0) as ->.
  { apply Z.bits_inj'; intros i Hi. rewrite Z.land_spec.
    destruct (Z.eq_dec i n) as [->|Hne].
    - destruct (Z.testbit x n) eqn:E; simpl; [done|by rewrite Z.bits_0].
    - rewrite !Z.shiftl_1_l, (Z.pow2_bits_false n i), andb_false_r by lia.
      destruct (Z.testbit x n); [|by rewrite Z.bits_0].
      by rewrite Z.pow2_bits_false by lia. }
  destruct (Z.testbit x n); [|done].
  rewrite Z.shiftl_1_l. pose proof (Z.pow_pos_nonneg 2 n).
  destruct (Z.eqb_spec (2 ^ n) 0); [lia|done].
Qed.

(** Concatenation: the high part shifted over the low part. *)
Lemma lor_shiftl_add a b n : 0 <= n -> 0 <= b < 2 ^ n ->
  (a <<< n) ||| b = a * 2 ^ n + b.
Proof.
  intros Hn Hb. rewrite <- Z.shiftl_mul_pow2 by lia. symmetry; apply Z.add_nocarry_lor.
  bitwise.
Qed.

(** ** Little-endian bytes *)
Fixpoint le_combine (bs : list Z) : Z :=
  match bs with
  | [] => 0
  | b :: bs => u8 b ||| (le_combine bs <<< 8)
  end.
Fixpoint le_split (n : nat) (z : Z) : list Z :=
  match n with
  | O => []
  | S n => u8 z :: le_split n (z >>> 8)
  end.

Lemma length_le_split n z : length (le_split n z) = n.
Proof. revert z; induction n; intros; simpl; [done|by f_equal]. Qed.

Lemma le_combine_nonneg bs : 0 <= le_combine bs.
Proof.
  induction bs as [|b bs IH]; simpl; [lia|]. apply Z.lor_nonneg. split.
  - apply u8_range.
  - by apply Z.shiftl_nonneg.
Qed.

Lemma le_combine_split n z : le_combine (le_split n z) = z mod 2 ^ (8 * Z.of_nat n).
Proof.
  revert z; induction n as [|n IH]; intros z; simpl le_combine.
  - by rewrite Z.mod_1_r.
  - rewrite IH. rewrite Nat2Z.inj_succ.
    replace (8 * Z.succ (Z.of_nat n)) with (8 * Z.of_nat n + 8) by lia. bitwise.
Qed.

Lemma le_combine_range bs : 0 <= le_combine bs < 2 ^ (8 * Z.of_nat (length bs)).
Proof.
  induction bs as [|b bs IH]; simpl le_combine; [simpl; lia|]. simpl length.
  rewrite Nat2Z.inj_succ. apply range_of_testbit; [lia|]. intros i Hi.
  assert (0 <= le_combine bs < 2 ^ (8 * Z.of_nat (length bs))) as Hr by done.
  unfold u8. rewrite Z.lor_spec, Z.shiftl_spec, Z.testbit_mod_pow2 by lia.
  rewrite (testbit_range _ _ (i - 8) Hr) by lia. by rewrite (proj2 (Z.ltb_ge i 8)) by lia.
Qed.

Lemma take_le_split n k z : (n <= k)%nat -> take n (le_split k z) = le_split n z.
Proof.
  revert k z; induction n as [|n IH]; intros k z Hk; [done|].
  destruct k as [|k]; [lia|]. simpl. f_equal. apply IH. lia.
Qed.
