(* ===== verification/Bits.v ===== *)
(** * Packed bit-fields and unions

    A C++ union of plain data (RegValue) or a struct of bit-fields (a segment
    descriptor, a page-table entry, a control register) is modelled by the
    unsigned integer with the same bytes in the little-endian order of x86; its
    members are [field]s: a bit offset and a width.  Reading and assigning a
    member are [fget] and [fset]. *)
From S2P Require Import Prelude.

Record field := Field { f_off : Z; f_width : Z }.

Definition fget (f : field) (x : Z) : Z := (x >>> f_off f) &&& Z.ones (f_width f).
Definition fset (f : field) (v x : Z) : Z :=
  Z.ldiff x (Z.ones (f_width f) <<< f_off f)
  ||| ((v &&& Z.ones (f_width f)) <<< f_off f).

#[global] Arguments fget : simpl never.
#[global] Arguments fset : simpl never.

Definition fwf (f : field) : bool := (0 <=? f_off f) && (0 <=? f_width f).
Definition fdisj (f g : field) : bool :=
  (f_off f + f_width f <=? f_off g) || (f_off g + f_width g <=? f_off f).
Definition fwithin (f g : field) : bool :=
  (f_off g <=? f_off f) && (f_off f + f_width f <=? f_off g + f_width g).
(** The member [f] of the union seen inside its enclosing member [g]. *)
Definition frel (f g : field) : field := Field (f_off f - f_off g) (f_width f).

Lemma fwf_spec f : fwf f = true -> 0 <= f_off f /\ 0 <= f_width f.
Proof. unfold fwf; intros; breflect; lia. Qed.

Lemma fget_mod f x : fwf f = true -> fget f x = x / 2 ^ f_off f mod 2 ^ f_width f.
Proof.
  intros [? ?]%fwf_spec. unfold fget.
  rewrite Z.land_ones, Z.shiftr_div_pow2 by lia. done.
Qed.

Lemma fget_range f x : fwf f = true -> 0 <= fget f x < 2 ^ f_width f.
Proof. intros Hf; rewrite fget_mod by done. apply fwf_spec in Hf. apply Z.mod_pos_bound; lia. Qed.

Lemma fget_testbit f x i : fwf f = true -> 0 <= i ->
  Z.testbit (fget f x) i = (i <? f_width f) && Z.testbit x (i + f_off f).
Proof. intros [? ?]%fwf_spec ?. unfold fget. tb_solve. Qed.

Lemma fset_testbit f v x i : fwf f = true -> 0 <= i ->
  Z.testbit (fset f v x) i =
  if (f_off f <=? i) && (i <? f_off f + f_width f)
  then Z.testbit v (i - f_off f) else Z.testbit x i.
Proof.
  intros [? ?]%fwf_spec ?. unfold fset. tb_solve.
Qed.

Lemma fget_fset_same f v x : fwf f = true -> fget f (fset f v x) = v mod 2 ^ f_width f.
Proof.
  intros Hf. pose proof (fwf_spec f Hf). apply Z.bits_inj'; intros i Hi.
  rewrite fget_testbit, fset_testbit by (done || lia). tb_solve.
Qed.

Lemma fget_fset_other f g v x : fwf f = true -> fwf g = true -> fdisj f g = true ->
  fget g (fset f v x) = fget g x.
Proof.
  intros Hf Hg Hd. pose proof (fwf_spec f Hf). pose proof (fwf_spec g Hg).
  unfold fdisj in Hd; breflect.
  apply Z.bits_inj'; intros i Hi. rewrite !fget_testbit, fset_testbit by (done || lia).
  destruct Hd; breflect; tb_solve.
Qed.

(** Reading a member of the union inside a larger one just assigned. *)
Lemma fget_fset_within f g v x : fwf f = true -> fwf g = true -> fwithin f g = true ->
  fget f (fset g v x) = fget (frel f g) v.
Proof.
  intros Hf Hg Hd. pose proof (fwf_spec f Hf). pose proof (fwf_spec g Hg).
  unfold fwithin in Hd; breflect.
  assert (fwf (frel f g) = true) by (unfold fwf, frel; simpl; lia).
  apply Z.bits_inj'; intros i Hi. rewrite !fget_testbit, fset_testbit by (done || lia).
  simpl. tb_solve.
Qed.

Lemma fset_range f v x n : fwf f = true -> f_off f + f_width f <= n ->
  0 <= x < 2 ^ n -> 0 <= fset f v x < 2 ^ n.
Proof.
  intros Hf ? Hx. pose proof (fwf_spec f Hf). apply range_of_testbit; [lia|].
  intros i Hi. rewrite fset_testbit by (done || lia). case_if; breflect; [lia|].
  apply testbit_range with n; lia.
Qed.

(** An unsigned integer is determined by members that cover its bits: two
    values that agree on every bit of the covering fields are equal. *)
Lemma fset_fget_id f x : fwf f = true -> fset f (fget f x) x = x.
Proof.
  intros Hf. pose proof (fwf_spec f Hf). apply Z.bits_inj'; intros i Hi.
  rewrite fset_testbit by done. case_if; [|done]. breflect.
  rewrite fget_testbit by (done || lia). tb_solve.
Qed.

Lemma fset_fset_same f v w x : fwf f = true -> fset f v (fset f w x) = fset f v x.
Proof.
  intros Hf. pose proof (fwf_spec f Hf). apply Z.bits_inj'; intros i Hi.
  rewrite !fset_testbit by done. case_if; done.
Qed.

Lemma fget_0 f : fget f 0 = 0.
Proof. unfold fget. by rewrite Z.shiftr_0_l, Z.land_0_l. Qed.

Lemma fget_u64 f x : fwf f = true -> f_off f + f_width f <= 64 -> fget f (u64 x) = fget f x.
Proof.
  intros Hf ?. pose proof (fwf_spec f Hf). apply Z.bits_inj'; intros i Hi.
  rewrite !fget_testbit by done. unfold u64. tb_solve.
Qed.

(** Reading a larger member after assigning one inside it. *)
Lemma fget_fset_outer f g v x : fwf f = true -> fwf g = true -> fwithin f g = true ->
  fget g (fset f v x) = fset (frel f g) v (fget g x).
Proof.
  intros Hf Hg Hd. pose proof (fwf_spec f Hf). pose proof (fwf_spec g Hg).
  unfold fwithin in Hd; breflect.
  assert (fwf (frel f g) = true) by (unfold fwf, frel; simpl; lia).
  apply Z.bits_inj'; intros i Hi. rewrite fset_testbit, !fget_testbit, fset_testbit by (done || lia).
  simpl. tb_solve.
Qed.

(** A member of a member. *)
Lemma fget_fget f g x : fwf f = true -> fwf g = true ->
  (f_off f + f_width f <=? f_width g) = true ->
  fget f (fget g x) = fget (Field (f_off g + f_off f) (f_width f)) x.
Proof.
  intros Hf Hg Hd. pose proof (fwf_spec f Hf). pose proof (fwf_spec g Hg). breflect.
  assert (fwf (Field (f_off g + f_off f) (f_width f)) = true) by (unfold fwf; simpl; lia).
  apply Z.bits_inj'; intros i Hi. rewrite !fget_testbit by (done || lia). simpl.
  destruct (Z.ltb_spec i (f_width f)); simpl; [|done].
  rewrite (proj2 (Z.ltb_lt (i + f_off f) (f_width g))) by lia. simpl. f_equal. lia.
Qed.

Lemma fget_lor f x y : fwf f = true -> fget f (x ||| y) = fget f x ||| fget f y.
Proof.
  intros Hf. unfold fget. by rewrite Z.shiftr_lor, Z.land_lor_distr_l.
Qed.

(** A value shifted to the position of a member, seen in that member and in
    another one. *)
Lemma fget_shift_same v n w : 0 <= n -> 0 <= w -> 0 <= v < 2 ^ w -> fget (Field n w) (v <<< n) = v.
Proof.
  intros Hn Hw Hv. rewrite fget_mod by (unfold fwf; cbn [f_off f_width]; lia). cbn [f_off f_width].
  rewrite Z.shiftl_mul_pow2, Z.div_mul, Z.mod_small by (lia || (apply Z.pow_nonzero; lia)). done.
Qed.
Lemma fget_shift_disj f v n w : fwf f = true -> 0 <= n -> 0 <= w -> 0 <= v < 2 ^ w ->
  fdisj f (Field n w) = true -> fget f (v <<< n) = 0.
Proof.
  intros Hf Hn Hw Hv Hd. pose proof (fwf_spec f Hf). unfold fdisj in Hd; cbn [f_off f_width] in Hd.
  apply Z.bits_inj'; intros i Hi. rewrite fget_testbit, Z.bits_0 by done.
  destruct (Z.ltb_spec i (f_width f)); [|done]. cbn [andb]. breflect.
  rewrite Z.shiftl_spec by lia. destruct Hd as [Hd|Hd]; breflect.
  - apply Z.testbit_neg_r; lia.
  - apply testbit_range with w; lia.
Qed.

Lemma fget_mod_id f x n : fwf f = true -> f_width f = n -> fget f x mod 2 ^ n = fget f x.
Proof. intros Hf <-. apply Z.mod_small, fget_range. done. Qed.

Lemma fget_whole x n : 0 <= n -> 0 <= x < 2 ^ n -> fget (Field 0 n) x = x.
Proof.
  intros Hn Hx. rewrite fget_mod by (unfold fwf; simpl; lia). simpl.
  by rewrite Z.div_1_r, Z.mod_small.
Qed.

#[export] Hint Resolve fget_range : virt.

(** Normalise reads of members after assignments of members, and evaluate the
    offsets and widths. *)
Ltac fsimpl :=
  repeat match goal with
    | |- context [fget ?g (fset ?f ?v ?x)] =>
        first [ constr_eq f g; rewrite (fget_fset_same f v x) by reflexivity
              | rewrite (fget_fset_other f g v x) by reflexivity
              | rewrite (fget_fset_within g f v x) by reflexivity ]
    | |- context [fget ?f 0] => rewrite (fget_0 f)
    end;
  repeat match goal with
    | |- context [f_width ?f] => let w := eval vm_compute in (f_width f) in change (f_width f) with w
    | |- context [f_off ?f] => let w := eval vm_compute in (f_off f) in change (f_off f) with w
    end.
(** Also through larger members and members of members. *)
Ltac fsimpl_nested :=
  repeat first
    [ progress fsimpl
    | match goal with
      | |- context [fget ?g (fset ?f ?v ?x)] => rewrite (fget_fset_outer f g v x) by reflexivity
      | |- context [fget ?f (fget ?g ?x)] => rewrite (fget_fget f g x) by reflexivity
      end ].

(** Truncations as members. *)
Lemma u8_fget x : u8 x = fget (Field 0 8) x.
Proof. rewrite fget_mod by done. cbn. by rewrite Z.div_1_r. Qed.
Lemma u16_fget x : u16 x = fget (Field 0 16) x.
Proof. rewrite fget_mod by done. cbn. by rewrite Z.div_1_r. Qed.
Lemma u32_fget x : u32 x = fget (Field 0 32) x.
Proof. rewrite fget_mod by done. cbn. by rewrite Z.div_1_r. Qed.
Lemma u64_fget x : u64 x = fget (Field 0 64) x.
Proof. rewrite fget_mod by done. cbn. by rewrite Z.div_1_r. Qed.

(** Assigning the lowest member that is not zero yet adds it. *)
Lemma fset_below n w v y : 0 <= n -> 0 <= w -> 0 <= v < 2 ^ w ->
  fset (Field n w) v (y * 2 ^ (n + w)) = y * 2 ^ (n + w) + v * 2 ^ n.
Proof.
  intros Hn Hw Hv. rewrite <- !Z.shiftl_mul_pow2 by lia.
  rewrite (Z.add_nocarry_lor (y <<< (n + w)) (v <<< n)).
  - apply Z.bits_inj'. intros i Hi. rewrite fset_testbit by (unfold fwf; cbn; lia). cbn [f_off f_width].
    rewrite Z.lor_spec, !Z.shiftl_spec by lia.
    destruct (Z.leb_spec n i), (Z.ltb_spec i (n + w)); cbn [andb].
    + by rewrite (Z.testbit_neg_r y) by lia.
    + by rewrite (testbit_range v w), orb_false_r by lia.
    + by rewrite (Z.testbit_neg_r y), (Z.testbit_neg_r v) by lia.
    + lia.
  - apply Z.bits_inj'. intros i Hi. rewrite Z.land_spec, !Z.shiftl_spec, Z.bits_0 by lia.
    destruct (Z.ltb_spec i (n + w)).
    + by rewrite (Z.testbit_neg_r y) by lia.
    + by rewrite (testbit_range v w), andb_false_r by lia.
Qed.

(** The union of a 64-bit integer and four 16-bit members. *)
Definition quad16 (a b c d : Z) : Z :=
  fset (Field 0 16) a (fset (Field 16 16) b (fset (Field 32 16) c (fset (Field 48 16) d 0))).
Lemma quad16_sum a b c d : 0 <= a < 2 ^ 16 -> 0 <= b < 2 ^ 16 -> 0 <= c < 2 ^ 16 -> 0 <= d < 2 ^ 16 ->
  quad16 a b c d = d * 2 ^ 48 + c * 2 ^ 32 + b * 2 ^ 16 + a.
Proof.
  intros H1 H2 H3 H4. unfold quad16.
  pose proof (fset_below 48 16 d 0 ltac:(lia) ltac:(lia) H4) as E4. rewrite !Z.mul_0_l in E4.
  pose proof (fset_below 32 16 c d ltac:(lia) ltac:(lia) H3) as E3.
  pose proof (fset_below 16 16 b (d * 2 ^ 16 + c) ltac:(lia) ltac:(lia) H2) as E2.
  pose proof (fset_below 0 16 a ((d * 2 ^ 16 + c) * 2 ^ 16 + b)
    ltac:(lia) ltac:(lia) H1) as E1.
  change (48 + 16) with 64 in *. change (32 + 16) with 48 in *. change (16 + 16) with 32 in *.
  change (0 + 16) with 16 in *.
  rewrite E4. replace (0 + d * 2 ^ 48) with (d * 2 ^ 48) by lia. rewrite E3.
  replace (d * 2 ^ 48 + c * 2 ^ 32) with ((d * 2 ^ 16 + c) * 2 ^ 32) by lia.
  rewrite E2. replace ((d * 2 ^ 16 + c) * 2 ^ 32 + b * 2 ^ 16)
    with (((d * 2 ^ 16 + c) * 2 ^ 16 + b) * 2 ^ 16) by lia.
  rewrite E1. lia.
Qed.
