(* ===== verification/Gdt.v ===== *)
(** * Segment descriptors and gates (vp/gdt.hpp, vp/gdt.cpp)

    A descriptor is the integer of its bytes: 64 bits for the GDT code/data and
    task-gate descriptors, 128 bits for the LDT/TSS and gate descriptors and for
    the union [GDTEntry].  Each member of the C++ structs is a [field]. *)
From S2P Require Import Prelude Bits.

Definition GDT_FL_GRANULARITY : Z := 1 <<< 3.
Definition GDT_FL_SIZE : Z := 1 <<< 2.
Definition GDT_FL_LONG : Z := 1 <<< 1.

Module GenericGDTDescriptor.
Definition type := Field 40 4.
Definition system := Field 44 1.
Definition privilegeLevel := Field 45 2.
Definition present := Field 47 1.
End GenericGDTDescriptor.

Module GDTDescriptor.
Definition limitLow := Field 0 16.
Definition baseLow := Field 16 16.
Definition baseMid := Field 32 8.
Definition access := Field 40 8.
Definition limitHigh := Field 48 4.
Definition flags := Field 52 4.
Definition baseHigh := Field 56 8.

(** [GDTDescriptor::Set]; the arguments are a uint32_t, a uint32_t and two
    uint8_t.  The result is the 64-bit [descriptor]. *)
Definition set (base limit acc fl : Z) : Z :=
  let d := 0 in
  let d := fset baseLow (base &&& 0xFFFF) d in
  let d := fset baseMid ((base >>> 16) &&& 0xFF) d in
  let d := fset baseHigh (base >>> 24) d in
  let d := fset limitLow (limit &&& 0xFFFF) d in
  let d := fset limitHigh ((limit >>> 16) &&& 0xF) d in
  let d := fset access acc d in
  fset flags (fl &&& 0xF) d.

Definition GetBase (d : Z) : Z :=
  u32 (fget baseLow d ||| s32 (fget baseMid d <<< 16) ||| s32 (fget baseHigh d <<< 24)).

Definition GetLimit (d : Z) : Z :=
  let limit := u32 (fget limitLow d ||| s32 (fget limitHigh d <<< 16)) in
  if nz (fget flags d &&& GDT_FL_GRANULARITY)
  then u32 (limit <<< 12) ||| 0xfff else limit.

Definition GetAttributes (d : Z) : Z :=
  u16 (fget access d ||| s32 (fget flags d <<< 12)).
End GDTDescriptor.

(** [TSSDescriptor] is an alias of [LDTDescriptor]. *)
Module LDTDescriptor.
Definition limitLow := Field 0 16.
Definition baseLow := Field 16 16.
Definition baseMid := Field 32 8.
Definition access := Field 40 8.
Definition limitHigh := Field 48 4.
Definition flags := Field 52 4.
Definition baseHigh := Field 56 8.
Definition baseTop := Field 64 32.

Definition set (base limit acc fl : Z) : Z :=
  let d := 0 in
  let d := fset baseLow (base &&& 0xFFFF) d in
  let d := fset baseMid ((base >>> 16) &&& 0xFF) d in
  let d := fset baseHigh (base >>> 24) d in
  let d := fset baseTop (base >>> 32) d in
  let d := fset limitLow (limit &&& 0xFFFF) d in
  let d := fset limitHigh ((limit >>> 16) &&& 0xF) d in
  let d := fset access acc d in
  fset flags (fl &&& 0xF) d.

(** The first three operands are promoted to [int]; their disjunction is
    converted to [uint64_t] with its sign. *)
Definition GetBase (d : Z) : Z :=
  u64 (fget baseLow d ||| s32 (fget baseMid d <<< 16) ||| s32 (fget baseHigh d <<< 24))
  ||| u64 (fget baseTop d <<< 32).

Definition GetLimit (d : Z) : Z :=
  let limit := u32 (fget limitLow d ||| s32 (fget limitHigh d <<< 16)) in
  if nz (fget flags d &&& GDT_FL_GRANULARITY)
  then u32 (limit <<< 12) ||| 0xfff else limit.

Definition GetAttributes (d : Z) : Z :=
  u16 (fget access d ||| s32 (fget flags d <<< 12)).
End LDTDescriptor.

Module NonTaskGateDescriptor.
Definition offsetLow := Field 0 16.
Definition csSelector := Field 16 16.
Definition access := Field 40 8.
Definition offsetHigh := Field 48 16.
Definition offsetTop := Field 64 32.

Definition SetOffset (offset d : Z) : Z :=
  let d := fset offsetLow (offset &&& 0xFFFF) d in
  let d := fset offsetHigh ((offset >>> 16) &&& 0xFFFF) d in
  fset offsetTop (offset >>> 32) d.

Definition GetOffset (d : Z) : Z :=
  u64 (fget offsetLow d ||| s32 (fget offsetHigh d <<< 16)) ||| u64 (fget offsetTop d <<< 32).
End NonTaskGateDescriptor.


(** ** Splitting and assembling the pieces of an integer *)

Lemma limit_split limit : 0 <= limit < 2 ^ 20 ->
  u32 ((limit &&& 0xFFFF) mod 2 ^ 16 ||| s32 (((limit >>> 16 &&& 0xF) mod 2 ^ 4) <<< 16)) = limit.
Proof. intros. change 0xFFFF with (Z.ones 16); change 0xF with (Z.ones 4). bitwise. Qed.

Lemma granular_limit limit : 0 <= limit < 2 ^ 20 ->
  (u32 (limit <<< 12) ||| 0xfff) = limit * 4096 + 4095.
Proof.
  intros. change 4096 with (2 ^ 12). rewrite <- (lor_shiftl_add limit 4095 12) by lia. f_equal.
  apply u32_small. rewrite Z.shiftl_mul_pow2; lia.
Qed.

Lemma attributes_split acc fl : 0 <= acc < 2 ^ 8 -> 0 <= fl < 2 ^ 4 ->
  u16 (acc mod 2 ^ 8 ||| s32 (((fl &&& 0xF) mod 2 ^ 4) <<< 12)) = acc + fl * 4096.
Proof.
  intros. rewrite (Z.add_comm acc). change 4096 with (2 ^ 12).
  rewrite <- lor_shiftl_add by lia. change 0xF with (Z.ones 4). bitwise.
Qed.

Lemma granularity_flag fl : nz ((fl &&& 0xF) mod 2 ^ 4 &&& GDT_FL_GRANULARITY) = bit 3 fl.
Proof.
  unfold GDT_FL_GRANULARITY. rewrite nz_land_bit by lia. unfold bit.
  change 0xF with (Z.ones 4). tb_solve.
Qed.

Lemma gdt_set_get_lemma base limit acc fl :
  0 <= base < 2 ^ 32 -> 0 <= limit < 2 ^ 20 -> 0 <= acc < 2 ^ 8 -> 0 <= fl < 2 ^ 4 ->
  let d := GDTDescriptor.set base limit acc fl in
  GDTDescriptor.GetBase d = base
  /\ GDTDescriptor.GetLimit d = (if bit 3 fl then limit * 4096 + 4095 else limit)
  /\ GDTDescriptor.GetAttributes d = acc + fl * 4096
  /\ 0 <= d < 2 ^ 64 /\ Z.testbit d 44 = Z.testbit acc 4.
Proof.
  intros Hb Hl Ha Hf d. subst d. split; [|split; [|split; [|split]]].
  - unfold GDTDescriptor.GetBase, GDTDescriptor.set. fsimpl.
    change 0xFFFF with (Z.ones 16); change 0xFF with (Z.ones 8). bitwise.
  - unfold GDTDescriptor.GetLimit, GDTDescriptor.set. fsimpl.
    rewrite granularity_flag, limit_split, granular_limit by done. done.
  - unfold GDTDescriptor.GetAttributes, GDTDescriptor.set. fsimpl. by apply attributes_split.
  - unfold GDTDescriptor.set. repeat (apply fset_range; [done|cbn; lia|]). lia.
  - unfold GDTDescriptor.set. rewrite !fset_testbit by done. done.
Qed.


(** Encoding a base, a limit, an access byte and flags into a GDT descriptor
    and reading them back gives the base unchanged, the 20-bit limit (scaled to
    4 KiB pages, with the low 12 bits set, when the granularity flag is set) and
    the attributes word with the access byte and the flags; the descriptor is a
    64-bit value. *)
Theorem gdt_set_get base limit acc fl :
  0 <= base < 2 ^ 32 -> 0 <= limit < 2 ^ 20 -> 0 <= acc < 2 ^ 8 -> 0 <= fl < 2 ^ 4 ->
  let d := GDTDescriptor.set base limit acc fl in
  GDTDescriptor.GetBase d = base
  /\ GDTDescriptor.GetLimit d = (if bit 3 fl then limit * 4096 + 4095 else limit)
  /\ GDTDescriptor.GetAttributes d = acc + fl * 4096
  /\ 0 <= d < 2 ^ 64.
Proof. intros Hb Hl Ha Hf d. destruct (gdt_set_get_lemma base limit acc fl Hb Hl Ha Hf) as (?&?&?&?&_). done. Qed.

Lemma gdt_set_get_witness :
  let d := GDTDescriptor.set 0x12345678 0xFFFFF 0x9A 0xC in
  GDTDescriptor.GetBase d = 0x12345678 /\ GDTDescriptor.GetLimit d = 0xFFFFFFFF
  /\ GDTDescriptor.GetAttributes d = 0xC09A /\ 0 <= d < 2 ^ 64.
Proof. exact (gdt_set_get 0x12345678 0xFFFFF 0x9A 0xC ltac:(lia) ltac:(lia) ltac:(lia) ltac:(lia)). Defined.

(** The promotion of the pieces to [int] assembles the low half with its sign. *)
Lemma int_assemble base :
  ((base &&& 0xFFFF) mod 2 ^ 16 ||| s32 (((base >>> 16 &&& 0xFF) mod 2 ^ 8) <<< 16)
   ||| s32 ((base >>> 24 mod 2 ^ 8) <<< 24)) = s32 base.
Proof. change 0xFFFF with (Z.ones 16); change 0xFF with (Z.ones 8). bitwise. Qed.

Lemma int_assemble2 x :
  ((x &&& 0xFFFF) mod 2 ^ 16 ||| s32 (((x >>> 16 &&& 0xFFFF) mod 2 ^ 16) <<< 16)) = s32 x.
Proof. change 0xFFFF with (Z.ones 16). bitwise. Qed.

Lemma sign_extended_or x : 0 <= x < 2 ^ 64 ->
  (u64 (s32 x) ||| u64 (((x >>> 32) mod 2 ^ 32) <<< 32))
  = if bit 31 x then x ||| (Z.ones 32 <<< 32) else x.
Proof.
  intros Hx. unfold bit. destruct (Z.testbit x 31) eqn:E;
    apply Z.bits_inj'; intros i Hi; destruct (Z.lt_ge_cases i 32); tb_solve.
  all: rewrite ?E; tb_solve.
Qed.

(** The 64-bit base of an LDT or TSS descriptor survives encoding and
    decoding exactly when bit 31 is clear; when it is set, [GetBase] returns the
    base with its upper 32 bits replaced by ones, whatever they were, because
    the low half is assembled as a signed [int]. *)
Theorem ldt_base_roundtrip base limit acc fl :
  0 <= base < 2 ^ 64 ->
  LDTDescriptor.GetBase (LDTDescriptor.set base limit acc fl)
  = if bit 31 base then base ||| (Z.ones 32 <<< 32) else base.
Proof.
  intros Hb. unfold LDTDescriptor.GetBase, LDTDescriptor.set. fsimpl.
  rewrite int_assemble. by apply sign_extended_or.
Qed.

Lemma ldt_base_roundtrip_witness :
  LDTDescriptor.GetBase (LDTDescriptor.set 0x180000000 0 0x82 0) = 0xFFFFFFFF80000000.
Proof. exact (ldt_base_roundtrip 0x180000000 0 0x82 0 ltac:(lia)). Defined.

(** A gate's offset: [SetOffset] then [GetOffset] returns the offset when
    bit 31 of it is clear and otherwise the offset with its upper 32 bits set;
    the selector and the access byte keep their values. *)
Theorem gate_offset_roundtrip offset d :
  0 <= offset < 2 ^ 64 ->
  let d' := NonTaskGateDescriptor.SetOffset offset d in
  NonTaskGateDescriptor.GetOffset d'
  = (if bit 31 offset then offset ||| (Z.ones 32 <<< 32) else offset)
  /\ fget NonTaskGateDescriptor.csSelector d' = fget NonTaskGateDescriptor.csSelector d
  /\ fget NonTaskGateDescriptor.access d' = fget NonTaskGateDescriptor.access d.
Proof.
  intros Ho d'. subst d'.
  unfold NonTaskGateDescriptor.GetOffset, NonTaskGateDescriptor.SetOffset. fsimpl.
  split; [|done]. rewrite int_assemble2. by apply sign_extended_or.
Qed.

Lemma gate_offset_roundtrip_witness :
  let d' := NonTaskGateDescriptor.SetOffset 0xFFFF800080001000 0x8E0000080000 in
  NonTaskGateDescriptor.GetOffset d' = 0xFFFFFFFF80001000
  /\ fget NonTaskGateDescriptor.csSelector d' = 8
  /\ fget NonTaskGateDescriptor.access d' = 0x8E.
Proof. exact (gate_offset_roundtrip 0xFFFF800080001000 0x8E0000080000 ltac:(lia)). Defined.

(** The accessors as concatenations of slices of the descriptor. *)
Lemma gdt_base_slices d : GDTDescriptor.GetBase d = fget (Field 16 24) d ||| (fget (Field 56 8) d <<< 24).
Proof. unfold GDTDescriptor.GetBase, fget; cbn. bitwise. Qed.

Lemma gdt_attributes_slices d :
  GDTDescriptor.GetAttributes d = fget (Field 40 8) d ||| (fget (Field 52 4) d <<< 12).
Proof. unfold GDTDescriptor.GetAttributes, fget; cbn. bitwise. Qed.

Lemma gdt_limit_slices d :
  GDTDescriptor.GetLimit d =
  let l := fget (Field 0 16) d ||| (fget (Field 48 4) d <<< 16) in
  if bit 3 (fget GDTDescriptor.flags d) then (l <<< 12) ||| 0xfff else l.
Proof.
  unfold GDTDescriptor.GetLimit, GDT_FL_GRANULARITY. rewrite nz_land_bit by lia.
  change 0xfff with (Z.ones 12). case_if; unfold fget; cbn; bitwise.
Qed.

Lemma gdt_raw_limit d :
  (if bit 3 (fget GDTDescriptor.flags d)
   then GDTDescriptor.GetLimit d >>> 12 else GDTDescriptor.GetLimit d)
  = fget (Field 0 16) d ||| (fget (Field 48 4) d <<< 16).
Proof.
  rewrite gdt_limit_slices. cbv zeta. case_if; [|done].
  by rewrite Z.shiftr_lor, Z.shiftr_shiftl_l, Z.sub_diag, Z.shiftl_0_r, Z.lor_0_r by lia.
Qed.

(** Decoding then encoding is the identity on 64-bit descriptors: a GDT
    descriptor is rebuilt bit for bit from the values its accessors return (the
    limit taken back to its 20-bit page count when granularity is set). *)
Theorem gdt_get_set d :
  0 <= d < 2 ^ 64 ->
  let fl := fget GDTDescriptor.flags d in
  let limit := GDTDescriptor.GetLimit d in
  GDTDescriptor.set (GDTDescriptor.GetBase d)
    (if bit 3 fl then limit >>> 12 else limit)
    (GDTDescriptor.GetAttributes d &&& 0xFF) (GDTDescriptor.GetAttributes d >>> 12) = d.
Proof.
  intros Hd fl limit. subst fl limit.
  rewrite gdt_raw_limit, gdt_base_slices, gdt_attributes_slices.
  apply Z.bits_inj'; intros i Hi. unfold GDTDescriptor.set.
  change 0xFFFF with (Z.ones 16); change 0xFF with (Z.ones 8); change 0xF with (Z.ones 4).
  repeat (rewrite fset_testbit by done; cbn [f_off f_width
    GDTDescriptor.limitLow GDTDescriptor.baseLow GDTDescriptor.baseMid GDTDescriptor.access
    GDTDescriptor.limitHigh GDTDescriptor.flags GDTDescriptor.baseHigh]).
  unfold fget; cbn [f_off f_width].
  repeat case_if; breflect; tb_solve.
Qed.

Lemma gdt_get_set_witness :
  let d := 0x00CF9A000000FFFF in
  GDTDescriptor.set 0 0xFFFFF (GDTDescriptor.GetAttributes d &&& 0xFF)
    (GDTDescriptor.GetAttributes d >>> 12) = d.
Proof. exact (gdt_get_set 0x00CF9A000000FFFF ltac:(lia)). Defined.
