(* ===== verification/Idt.v ===== *)
(** * Interrupt descriptor table entries (vp/idt.hpp, vp/idt.cpp) *)
From S2P Require Import Prelude Bits.

(** The enumerators with their values. *)
Inductive IDTType := Null00 | Task32 | Intr32 | Trap32.
Definition IDTType_value (t : IDTType) : Z :=
  match t with Null00 => 0x0 | Task32 => 0x5 | Intr32 => 0xE | Trap32 => 0xF end.

Module IDTEntry.
Definition offsetLow := Field 0 16.
Definition selector := Field 16 16.
Definition zero := Field 32 8.
Definition type := Field 40 4.
Definition storageSegment := Field 44 1.
Definition privilegeLevel := Field 45 2.
Definition present := Field 47 1.
Definition offsetHigh := Field 48 16.

(** [IDTEntry::Set]; [type] is the enumerator, [attributes] holds the storage
    segment bit, the privilege level and the present bit. *)
Definition set (offset sel : Z) (t : IDTType) (attributes : Z) : Z :=
  let d := 0 in
  let d := fset offsetLow (offset &&& 0xFFFF) d in
  let d := fset offsetHigh (offset >>> 16) d in
  let d := fset selector sel d in
  let d := fset type (IDTType_value t &&& 0xF) d in
  let d := fset storageSegment (attributes &&& 0x1) d in
  let d := fset privilegeLevel ((attributes >>> 1) &&& 0x3) d in
  fset present ((attributes >>> 3) &&& 0x1) d.

Definition GetOffset (d : Z) : Z :=
  u32 (fget offsetLow d) ||| u32 (u32 (fget offsetHigh d) <<< 16).

Definition SetOffset (offset d : Z) : Z :=
  let d := fset offsetLow (offset &&& 0xFFFF) d in
  fset offsetHigh (offset >>> 16) d.
End IDTEntry.

Lemma idt_offset_assemble offset : 0 <= offset < 2 ^ 32 ->
  u32 ((offset &&& 0xFFFF) mod 2 ^ 16) ||| u32 (u32 ((offset >>> 16) mod 2 ^ 16) <<< 16) = offset.
Proof. intros. change 0xFFFF with (Z.ones 16). bitwise. Qed.

(** [IDTEntry::Set] stores every argument where the accessors find it (the
    offset is unsplit by [GetOffset]; type, storage segment, privilege level and
    present bit hold the requested bits, the reserved byte is zero), and
    [SetOffset] on any entry changes the offset [GetOffset] returns and no other
    member. *)
Theorem idt_set_get offset sel t attributes d offset' :
  0 <= offset < 2 ^ 32 -> 0 <= sel < 2 ^ 16 -> 0 <= offset' < 2 ^ 32 ->
  let e := IDTEntry.set offset sel t attributes in
  let d' := IDTEntry.SetOffset offset' d in
  IDTEntry.GetOffset e = offset
  /\ fget IDTEntry.selector e = sel
  /\ fget IDTEntry.type e = IDTType_value t
  /\ fget (Field 44 4) e = attributes mod 16
  /\ fget IDTEntry.zero e = 0
  /\ IDTEntry.GetOffset d' = offset'
  /\ fget (Field 16 32) d' = fget (Field 16 32) d.
Proof.
  intros Ho Hs Ho' e d'. subst e d'.
  unfold IDTEntry.GetOffset, IDTEntry.set, IDTEntry.SetOffset. fsimpl.
  rewrite !idt_offset_assemble by done. repeat split.
  - by apply Z.mod_small.
  - by destruct t.
  - apply Z.bits_inj'; intros i Hi. rewrite fget_testbit by done.
    repeat (rewrite fset_testbit by (done || cbn; lia)); cbn.
    change 16 with (2 ^ 4). repeat case_if; breflect; mask_ones; tb_norm; tb_finish.
Qed.

Lemma idt_set_get_witness :
  let e := IDTEntry.set 0xC0101234 0x8 Intr32 0xE in
  let d' := IDTEntry.SetOffset 0xFFFFFFFF 0x8E0000080000 in
  IDTEntry.GetOffset e = 0xC0101234 /\ fget IDTEntry.selector e = 0x8
  /\ fget IDTEntry.type e = IDTType_value Intr32 /\ fget (Field 44 4) e = 0xE
  /\ fget IDTEntry.zero e = 0 /\ IDTEntry.GetOffset d' = 0xFFFFFFFF
  /\ fget (Field 16 32) d' = fget (Field 16 32) 0x8E0000080000.
Proof.
  exact (idt_set_get 0xC0101234 0x8 Intr32 0xE 0x8E0000080000 0xFFFFFFFF
           ltac:(lia) ltac:(lia) ltac:(lia)).
Defined.
