(* ===== verification/MemRegions.v ===== *)
(** * Guest memory regions (vm/mem.hpp; the region list of vm/vm.cpp)

    The list [m_memoryRegions] in vector order, the lookups of
    [VirtualMachine::GetMemoryRegion], [MemRead] and [MemWrite] over it, and
    [SubtractMemoryRange].  Host memory is a function from 64-bit addresses to
    byte values; a host pointer is its address. *)
From S2P Require Import Prelude.

Record MemoryRegion := MkMemoryRegion {
  mr_baseAddress : Z;
  mr_size : Z;
  mr_hostMemory : Z
}.
#[global] Instance MemoryRegion_eq_dec : EqDecision MemoryRegion.
Proof. solve_decision. Defined.

(** ** Host memory *)
Definition hmem := Z -> Z.
(** [memcpy] of [n] bytes from host address [p], and to it. *)
Definition host_read (m : hmem) (p n : Z) : list Z :=
  (fun i => m (u64 (p + i))) <$> seqZ 0 n.
Definition host_write (m : hmem) (p : Z) (bs : list Z) : hmem :=
  fun a =>
    let i := u64 (a - p) in
    if i <? Z.of_nat (length bs) then default (m a) (bs !! Z.to_nat i) else m a.

(** ** Operations *)

(** Inclusive final address, computed on uint64_t. *)
Definition finalRegionAddress (r : MemoryRegion) : Z :=
  u64 (u64 (mr_baseAddress r + mr_size r) - 1).

(** The loops of [MemRead] and [MemWrite] over the regions from the newest. *)
Fixpoint MemRead_loop (m : hmem) (rs : list MemoryRegion) (paddr finalPAddr size : Z)
    : option (list Z) :=
  match rs with
  | [] => None
  | r :: rs =>
      if (mr_baseAddress r <=? paddr) && (finalPAddr <=? finalRegionAddress r) then
        if size <=? mr_size r
        then Some (host_read m (u64 (u64 (mr_hostMemory r + paddr) - mr_baseAddress r)) size)
        else MemRead_loop m rs paddr finalPAddr (u64 (size - mr_size r))
      else MemRead_loop m rs paddr finalPAddr size
  end.

Definition MemRead (m : hmem) (regions : list MemoryRegion) (paddr size : Z)
    : option (list Z) :=
  let finalPAddr := u64 (u64 (paddr + size) - 1) in
  MemRead_loop m (reverse regions) paddr finalPAddr size.

(** [value] is the caller's buffer; [memcpy] takes the first [size] bytes. *)
Fixpoint MemWrite_loop (m : hmem) (rs : list MemoryRegion) (paddr finalPAddr size : Z)
    (value : list Z) : option hmem :=
  match rs with
  | [] => None
  | r :: rs =>
      if (mr_baseAddress r <=? paddr) && (finalPAddr <=? finalRegionAddress r) then
        if size <=? mr_size r
        then Some (host_write m (u64 (u64 (mr_hostMemory r + paddr) - mr_baseAddress r))
                     (take (Z.to_nat size) value))
        else MemWrite_loop m rs paddr finalPAddr (u64 (size - mr_size r)) value
      else MemWrite_loop m rs paddr finalPAddr size value
  end.

Definition MemWrite (m : hmem) (regions : list MemoryRegion) (paddr size : Z)
    (value : list Z) : option hmem :=
  let finalPAddr := u64 (u64 (paddr + size) - 1) in
  MemWrite_loop m (reverse regions) paddr finalPAddr size value.

(** [GetMemoryRegion]: the first region, in vector order, that contains the
    address. *)
Definition region_contains (address : Z) (r : MemoryRegion) : bool :=
  (mr_baseAddress r <=? address) && (address <=? finalRegionAddress r).
Definition GetMemoryRegion (regions : list MemoryRegion) (address : Z) : option MemoryRegion :=
  snd <$> list_find (fun r => region_contains address r = true) regions.

(** [SubtractMemoryRange]: the iterator is the index [i]; [erase] keeps it on the
    next element, [insert] puts the second portion before the first one. *)
Fixpoint SubtractMemoryRange_loop (fuel : nat) (baseAddress size : Z)
    (regions : list MemoryRegion) (i : nat) : option (list MemoryRegion) :=
  match fuel with
  | O => None
  | S fuel =>
    let finalAddress := u64 (u64 (baseAddress + size) - 1) in
    match regions !! i with
    | None => Some regions
    | Some r =>
      let finalRegion := finalRegionAddress r in
      if (baseAddress <=? mr_baseAddress r) && (finalRegion <=? finalAddress) then
        SubtractMemoryRange_loop fuel baseAddress size (delete i regions) i
      else if (mr_baseAddress r <? baseAddress) && (finalRegion <=? finalAddress) then
        let r' := MkMemoryRegion (mr_baseAddress r) (u64 (baseAddress - mr_baseAddress r))
                    (mr_hostMemory r) in
        SubtractMemoryRange_loop fuel baseAddress size (<[i := r']> regions) (S i)
      else if (baseAddress <=? mr_baseAddress r) && (finalAddress <? finalRegion) then
        let baseAddressDelta := u64 (u64 (finalAddress + 1) - mr_baseAddress r) in
        let r' := MkMemoryRegion (u64 (finalAddress + 1)) (u64 (finalRegion - finalAddress))
                    (u64 (mr_hostMemory r + baseAddressDelta)) in
        SubtractMemoryRange_loop fuel baseAddress size (<[i := r']> regions) (S i)
      else
        let size1 := u64 (baseAddress - mr_baseAddress r) in
        let r' := MkMemoryRegion (mr_baseAddress r) size1 (mr_hostMemory r) in
        let second := MkMemoryRegion (u64 (finalAddress + 1)) (u64 (finalRegion - finalAddress))
                        (u64 (u64 (mr_hostMemory r + size1) + size)) in
        let regions := <[i := r']> regions in
        SubtractMemoryRange_loop fuel baseAddress size
          (take i regions ++ second :: drop i regions) (S i)
    end
  end.

(** A region is visited at most twice if the loop ends, see [loop_terminates]. *)
Definition SubtractMemoryRange (baseAddress size : Z) (regions : list MemoryRegion)
    : option (list MemoryRegion) :=
  SubtractMemoryRange_loop (2 * length regions + 1) baseAddress size regions 0.

(** ** Specification-level vocabulary *)

(** The guest range does not wrap; [region_wf] adds that the host block does not. *)
Definition region_gwf (r : MemoryRegion) : Prop :=
  0 <= mr_baseAddress r /\ 0 < mr_size r /\ mr_baseAddress r + mr_size r <= 2 ^ 64.
Definition region_wf (r : MemoryRegion) : Prop :=
  region_gwf r
  /\ 0 <= mr_hostMemory r /\ mr_hostMemory r + mr_size r <= 2 ^ 64.

(** The region covers the whole range [paddr, paddr + size). *)
Definition covers (r : MemoryRegion) (paddr size : Z) : bool :=
  (mr_baseAddress r <=? paddr) && (paddr + size <=? mr_baseAddress r + mr_size r).

(** The newest region that covers the range. *)
Fixpoint locate (rs : list MemoryRegion) (paddr size : Z) : option MemoryRegion :=
  match rs with
  | [] => None
  | r :: rs =>
      match locate rs paddr size with
      | Some r' => Some r'
      | None => if covers r paddr size then Some r else None
      end
  end.

Definition host_addr (r : MemoryRegion) (paddr : Z) : Z :=
  u64 (mr_hostMemory r + (paddr - mr_baseAddress r)).

(** Guest-physical to host translation of one address: newest region first. *)
Definition translate (rs : list MemoryRegion) (a : Z) : option Z :=
  (fun r => host_addr r a) <$> locate rs a 1.

Lemma region_wf_gwf rs : Forall region_wf rs -> Forall region_gwf rs.
Proof. intros Hwf. eapply Forall_impl; [exact Hwf|]. by intros ? [? _]. Qed.

Definition range_ok (base size : Z) : Prop := 0 <= base /\ 0 < size /\ base + size <= 2 ^ 64.

(** The per-region effect that [SubtractMemoryRange] has. *)
Definition subtract1 (B S : Z) (r : MemoryRegion) : list MemoryRegion :=
  let b := mr_baseAddress r in
  let e := b + mr_size r in
  let lower := MkMemoryRegion b (B - b) (mr_hostMemory r) in
  let upper := MkMemoryRegion (B + S) (e - (B + S)) (u64 (mr_hostMemory r + (B + S - b))) in
  match b <? B, B + S <? e with
  | false, false => []
  | true, false => [lower]
  | false, true => [upper]
  | true, true => [upper; lower]
  end.

(** The region and the range share an address or are adjacent. *)
Definition touches (B S : Z) (r : MemoryRegion) : Prop :=
  mr_baseAddress r <= B + S /\ B <= mr_baseAddress r + mr_size r.

(** ** Lemmas *)

Lemma u64_final b s : 0 <= b -> 0 < s -> b + s <= 2 ^ 64 -> u64 (u64 (b + s) - 1) = b + s - 1.
Proof. unfold u64; intros; zlia. Qed.

Lemma final_wf r : region_gwf r -> finalRegionAddress r = mr_baseAddress r + mr_size r - 1.
Proof. intros (?&?&?). by apply u64_final. Qed.

Lemma insert_middle {A} (pre : list A) x y rest :
  <[length pre := y]> (pre ++ x :: rest) = pre ++ y :: rest.
Proof. induction pre; simpl; [done|by f_equal]. Qed.

Lemma app_cons_snoc {A} (pre : list A) x rest : pre ++ x :: rest = (pre ++ [x]) ++ rest.
Proof. by rewrite <- app_assoc. Qed.

Lemma S_length_snoc {A} (pre : list A) x : S (length pre) = length (pre ++ [x]).
Proof. rewrite length_app; simpl; lia. Qed.

(** One visit of an element of the vector, as in the source's four cases. *)
Lemma subtract_step fuel B S pre r rest :
  range_ok B S -> region_gwf r ->
  let i := length pre in
  SubtractMemoryRange_loop (Datatypes.S fuel) B S (pre ++ r :: rest) i =
  match subtract1 B S r with
  | [] => SubtractMemoryRange_loop fuel B S (pre ++ rest) i
  | [r'] => SubtractMemoryRange_loop fuel B S ((pre ++ [r']) ++ rest) (length (pre ++ [r']))
  | upper :: lower :: _ =>
      SubtractMemoryRange_loop fuel B S ((pre ++ [upper]) ++ lower :: rest) (length (pre ++ [upper]))
  end.
Proof.
  intros (HB&HS&HBS) Hwf i. pose proof Hwf as (Hb&Hs&Hbs). subst i.
  cbn [SubtractMemoryRange_loop]. rewrite list_lookup_middle by done.
  rewrite final_wf, u64_final by done. unfold subtract1. cbv zeta.
  destruct (Z.ltb_spec (mr_baseAddress r) B), (Z.ltb_spec (B + S) (mr_baseAddress r + mr_size r));
    rewrite ?(proj2 (Z.leb_le B (mr_baseAddress r))), ?(proj2 (Z.leb_gt B (mr_baseAddress r))) by lia;
    rewrite ?(proj2 (Z.leb_le (mr_baseAddress r + mr_size r - 1) (B + S - 1))),
      ?(proj2 (Z.leb_gt (mr_baseAddress r + mr_size r - 1) (B + S - 1))),
      ?(proj2 (Z.ltb_lt (B + S - 1) (mr_baseAddress r + mr_size r - 1))) by lia; simpl andb; cbv iota.
  - rewrite insert_middle, take_app_length, drop_app_length.
    rewrite <- S_length_snoc, <- app_cons_snoc. repeat first [solve [unfold u64; zlia] | f_equal].
  - rewrite insert_middle, <- S_length_snoc, <- app_cons_snoc. repeat first [solve [unfold u64; zlia] | f_equal].
  - rewrite insert_middle, <- S_length_snoc, <- app_cons_snoc. repeat first [solve [unfold u64; zlia] | f_equal].
  - by rewrite delete_middle.
Qed.

(** The truncated region left behind by case 4 is reached again by the iterator
    and is left as it is. *)
Lemma subtract1_lower B S b h : 0 <= S -> b < B ->
  subtract1 B S (MkMemoryRegion b (B - b) h) = [MkMemoryRegion b (B - b) h].
Proof.
  intros. unfold subtract1; simpl. rewrite (proj2 (Z.ltb_lt b B)) by lia.
  by rewrite (proj2 (Z.ltb_ge (B + S) (b + (B - b)))) by lia.
Qed.

(** Every region of the result of one step is well formed. *)
Lemma subtract1_wf B S r : range_ok B S -> region_wf r -> touches B S r ->
  Forall region_wf (subtract1 B S r).
Proof.
  intros (?&?&?) ((?&?&?)&?&?) [? ?]. unfold subtract1.
  case_if; case_if; breflect; repeat (apply Forall_nil_2 || apply Forall_cons_2); unfold region_wf, region_gwf; simpl;
    rewrite ?u64_small by lia; lia.
Qed.

Lemma subtract_loop_spec B S rest : range_ok B S -> Forall region_gwf rest ->
  forall fuel pre, (2 * length rest + 1 <= fuel)%nat ->
  SubtractMemoryRange_loop fuel B S (pre ++ rest) (length pre)
  = Some (pre ++ flat_map (subtract1 B S) rest).
Proof.
  intros HBS. induction 1 as [|r rest Hr Hrest IH]; intros fuel pre Hf; simpl in Hf.
  - destruct fuel as [|fuel]; [lia|]. simpl. rewrite app_nil_r.
    by rewrite lookup_ge_None_2.
  - destruct fuel as [|[|fuel]]; [lia|lia|]. rewrite subtract_step by done.
    simpl flat_map. destruct (subtract1 B S r) as [|x [|y l]] eqn:E.
    + apply IH; lia.
    + rewrite IH by lia. by rewrite <- app_assoc.
    + assert (l = [] /\ mr_baseAddress y < B /\ y = MkMemoryRegion (mr_baseAddress y) (B - mr_baseAddress y) (mr_hostMemory y) /\ region_gwf y) as (->&Hy&Hye&Hyw).
      { unfold subtract1 in E. destruct HBS as (?&?&?), Hr as (?&?&?).
        repeat case_match; simplify_eq; breflect; simpl; repeat split; simpl; lia. }
      rewrite subtract_step by done. rewrite Hye, subtract1_lower by (destruct HBS; lia).
      rewrite IH by lia. by rewrite <- !app_assoc.
Qed.

Lemma subtract_spec B S rs : range_ok B S -> Forall region_gwf rs ->
  SubtractMemoryRange B S rs = Some (flat_map (subtract1 B S) rs).
Proof. intros. apply (subtract_loop_spec B S rs) with (pre := []); [done|done|lia]. Qed.

(** *** Lookup *)

Lemma covers_spec r p n : covers r p n = true <->
  mr_baseAddress r <= p /\ p + n <= mr_baseAddress r + mr_size r.
Proof. unfold covers. rewrite andb_true_iff, !Z.leb_le. done. Qed.

Lemma locate_app l1 l2 p n :
  locate (l1 ++ l2) p n = match locate l2 p n with Some r => Some r | None => locate l1 p n end.
Proof.
  induction l1 as [|r l1 IH]; simpl; [by destruct (locate l2 p n)|].
  rewrite IH. by destruct (locate l2 p n).
Qed.

Lemma locate_Some rs p n r : locate rs p n = Some r -> r ∈ rs /\ covers r p n = true.
Proof.
  induction rs as [|r' rs IH]; simpl; [done|]. destruct (locate rs p n) eqn:E.
  - intros [= ->]. destruct IH; [done|]. by split; [right|].
  - case_if; intros; simplify_eq. by split; [left|].
Qed.

Lemma locate_wf (P : MemoryRegion -> Prop) rs p n r : Forall P rs -> locate rs p n = Some r ->
  P r /\ covers r p n = true.
Proof.
  intros Hwf [Hin Hc]%locate_Some. split; [|done]. by eapply Forall_forall in Hwf.
Qed.

Lemma locate_None rs p n : locate rs p n = None <-> Forall (fun r => covers r p n = false) rs.
Proof.
  induction rs as [|r rs IH]; simpl; [by split|]. rewrite Forall_cons, <- IH.
  destruct (locate rs p n), (covers r p n); intuition congruence.
Qed.

(** The condition of the source's loops is [covers], for regions that do not
    wrap; then the size fits, and the decrement is never reached. *)
Lemma read_condition r p n : region_gwf r -> range_ok p n ->
  (mr_baseAddress r <=? p) && (p + n - 1 <=? finalRegionAddress r) = covers r p n.
Proof.
  intros Hr Hp. rewrite final_wf by done. unfold covers.
  destruct Hr as (?&?&?). f_equal. apply Bool.eq_iff_eq_true. rewrite !Z.leb_le. lia.
Qed.

Lemma covers_size r p n : covers r p n = true -> (n <=? mr_size r) = true.
Proof. intros ?%covers_spec. apply Z.leb_le. lia. Qed.

Lemma host_pointer r p : u64 (u64 (mr_hostMemory r + p) - mr_baseAddress r) = host_addr r p.
Proof. unfold host_addr, u64. rewrite Zminus_mod_idemp_l. f_equal. lia. Qed.

Lemma MemRead_spec m rs p n : Forall region_gwf rs -> range_ok p n ->
  MemRead m rs p n = (fun r => host_read m (host_addr r p) n) <$> locate rs p n.
Proof.
  intros Hwf Hp. unfold MemRead. rewrite u64_final by (destruct Hp; lia).
  induction rs as [|r rs IH] using rev_ind; [done|].
  apply Forall_app in Hwf as [Hwf Hr]. rewrite Forall_singleton in Hr.
  rewrite reverse_snoc, locate_app. simpl. rewrite read_condition by done.
  destruct (covers r p n) eqn:E.
  - rewrite (covers_size _ _ _ E), host_pointer. done.
  - by apply IH.
Qed.

Lemma MemWrite_spec m rs p n v : Forall region_gwf rs -> range_ok p n ->
  MemWrite m rs p n v
  = (fun r => host_write m (host_addr r p) (take (Z.to_nat n) v)) <$> locate rs p n.
Proof.
  intros Hwf Hp. unfold MemWrite. rewrite u64_final by (destruct Hp; lia).
  induction rs as [|r rs IH] using rev_ind; [done|].
  apply Forall_app in Hwf as [Hwf Hr]. rewrite Forall_singleton in Hr.
  rewrite reverse_snoc, locate_app. simpl. rewrite read_condition by done.
  destruct (covers r p n) eqn:E.
  - rewrite (covers_size _ _ _ E), host_pointer. done.
  - by apply IH.
Qed.

(** *** Host copies *)

Lemma host_addr_wf r p n : region_wf r -> covers r p n = true -> 0 < n ->
  host_addr r p = mr_hostMemory r + (p - mr_baseAddress r)
  /\ 0 <= host_addr r p /\ host_addr r p + n <= mr_hostMemory r + mr_size r.
Proof.
  intros ((?&?&?)&?&?) ?%covers_spec ?. unfold host_addr. rewrite u64_small by lia. lia.
Qed.

Lemma length_host_read m p n : length (host_read m p n) = Z.to_nat n.
Proof. unfold host_read. by rewrite length_fmap, length_seqZ. Qed.

Lemma host_read_lookup m p n i : (i < Z.to_nat n)%nat ->
  host_read m p n !! i = Some (m (u64 (p + Z.of_nat i))).
Proof.
  intros Hi. unfold host_read. rewrite list_lookup_fmap, lookup_seqZ_lt by lia. simpl.
  do 3 f_equal; lia.
Qed.

Lemma host_read_write_same m p bs : 0 <= p -> p + Z.of_nat (length bs) <= 2 ^ 64 ->
  host_read (host_write m p bs) p (Z.of_nat (length bs)) = bs.
Proof.
  intros Hp Hl. apply list_eq; intros i.
  destruct (Nat.lt_ge_cases i (length bs)) as [Hi|Hi].
  - rewrite host_read_lookup by lia. unfold host_write.
    replace (u64 (u64 (p + Z.of_nat i) - p)) with (Z.of_nat i) by (unfold u64; zlia).
    rewrite (proj2 (Z.ltb_lt _ _)), Nat2Z.id by lia.
    by destruct (lookup_lt_is_Some_2 bs i Hi) as [b ->].
  - rewrite !lookup_ge_None_2; [done|lia|rewrite length_host_read; lia].
Qed.

(** A copy leaves every host range alone that it does not meet. *)
Lemma host_read_write_disjoint m p bs q n : 0 <= p -> p + Z.of_nat (length bs) <= 2 ^ 64 ->
  0 <= q -> q + n <= 2 ^ 64 -> (q + n <= p \/ p + Z.of_nat (length bs) <= q) ->
  host_read (host_write m p bs) q n = host_read m q n.
Proof.
  intros Hp Hl Hq Hn Hd. apply list_eq; intros i.
  destruct (Nat.lt_ge_cases i (Z.to_nat n)) as [Hi|Hi].
  - rewrite !host_read_lookup by lia. unfold host_write. f_equal.
    rewrite (proj2 (Z.ltb_ge _ _)); [done|]. unfold u64. zlia.
  - rewrite !lookup_ge_None_2; [done|rewrite length_host_read; lia..].
Qed.

Lemma host_read_app m p a b : 0 <= a -> 0 <= b ->
  host_read m p (a + b) = host_read m p a ++ host_read m (u64 (p + a)) b.
Proof.
  intros Ha Hb. unfold host_read. rewrite seqZ_app, fmap_app by lia. f_equal.
  rewrite Z.add_0_l, <- (Z.add_0_r a) at 1. rewrite <- fmap_add_seqZ, <- list_fmap_compose.
  apply list_fmap_ext. intros i x _. unfold compose, u64. f_equal.
  rewrite Zplus_mod_idemp_l. f_equal. lia.
Qed.

Lemma host_read_0 m p : host_read m p 0 = [].
Proof. done. Qed.

(** *** Subtraction, address by address *)

Lemma covers1 r a : covers r a 1 = true <-> mr_baseAddress r <= a < mr_baseAddress r + mr_size r.
Proof. rewrite covers_spec. lia. Qed.

Lemma not_covers1 r a : covers r a 1 = false <-> a < mr_baseAddress r \/ mr_baseAddress r + mr_size r <= a.
Proof. rewrite <- not_true_iff_false, covers1. lia. Qed.

Lemma translate_app l1 l2 a :
  translate (l1 ++ l2) a
  = match translate l2 a with Some h => Some h | None => translate l1 a end.
Proof. unfold translate. rewrite locate_app. by destruct (locate l2 a 1). Qed.

Lemma translate_single r a :
  translate [r] a = if covers r a 1 then Some (host_addr r a) else None.
Proof. unfold translate; simpl. by destruct (covers r a 1). Qed.

(** The host address an upper portion gives to an address. *)
Lemma host_addr_upper b s h b' a :
  host_addr (MkMemoryRegion b' s (u64 (h + (b' - b)))) a
  = host_addr (MkMemoryRegion b s h) a.
Proof. unfold host_addr, u64; simpl. rewrite Zplus_mod_idemp_l. f_equal. lia. Qed.

(** Inside the range nothing of the region is left; outside it, what the region
    covered is still covered, with the same host address. *)
Lemma subtract1_translate B S r a : range_ok B S -> region_gwf r ->
  translate (subtract1 B S r) a =
  if (B <=? a) && (a <? B + S) then None
  else if covers r a 1 then Some (host_addr r a)
  else if (mr_baseAddress r <=? a) && (a <? B) then Some (host_addr r a)
  else if (B + S <=? a) && (a <? mr_baseAddress r + mr_size r) then Some (host_addr r a)
  else None.
Proof.
  intros (?&?&?) (?&?&?). destruct r as [b s h]; simpl in *. unfold subtract1; simpl.
  assert (Hhl : host_addr (MkMemoryRegion b (B - b) h) a = host_addr (MkMemoryRegion b s h) a)
    by done.
  pose proof (host_addr_upper b (b + s - (B + S)) h (B + S) a) as Hhu.
  assert (Hhu' : host_addr (MkMemoryRegion b (b + s - (B + S)) h) a = host_addr (MkMemoryRegion b s h) a) by done.
  rewrite Hhu' in Hhu. clear Hhu'.
  destruct (Z.ltb_spec b B), (Z.ltb_spec (B + S) (b + s));
    unfold translate; simpl; unfold covers; simpl.
  all: rewrite <- ?Hhl in *.
  all: repeat (bool_cases; simpl); rewrite ?Hhu; try done; lia.
Qed.

Lemma subtract1_wf_all B S rs : range_ok B S -> Forall region_wf rs -> Forall (touches B S) rs ->
  Forall region_wf (flat_map (subtract1 B S) rs).
Proof.
  intros HB. induction 1 as [|r rs Hr Hrs IH]; simpl; [constructor|].
  intros [Ht Hts]%Forall_cons. apply Forall_app. split; [by apply subtract1_wf|by apply IH].
Qed.

Lemma flat_map_inside B S rs a : range_ok B S -> Forall region_gwf rs -> B <= a < B + S ->
  translate (flat_map (subtract1 B S) rs) a = None.
Proof.
  intros HB Hwf Ha. induction Hwf as [|r rs Hr Hrs IH]; simpl; [done|].
  rewrite translate_app, IH, subtract1_translate by done.
  rewrite (proj2 (Z.leb_le B a)), (proj2 (Z.ltb_lt a (B + S))) by lia. done.
Qed.

Lemma translate_cons r rs a : translate (r :: rs) a =
  match translate rs a with Some h => Some h
  | None => if covers r a 1 then Some (host_addr r a) else None end.
Proof. rewrite (translate_app [r] rs). by rewrite translate_single. Qed.

Lemma outside_range B S a : ~ (B <= a < B + S) -> (B <=? a) && (a <? B + S) = false.
Proof. intros. apply not_true_iff_false. rewrite andb_true_iff, Z.leb_le, Z.ltb_lt. lia. Qed.

Lemma flat_map_outside B S rs a : range_ok B S -> Forall region_gwf rs -> ~ (B <= a < B + S) ->
  is_Some (translate rs a) -> is_Some (translate (flat_map (subtract1 B S) rs) a).
Proof.
  intros HB Hwf Ha. induction Hwf as [|r rs Hr Hrs IH]; simpl; [done|].
  rewrite translate_cons, translate_app, subtract1_translate, outside_range by done.
  intros Hs. destruct (translate (flat_map _ rs) a); [done|].
  destruct (translate rs a); [by destruct IH|].
  destruct (covers r a 1); [done|by destruct Hs].
Qed.

Lemma subtract1_covered B S r a : range_ok B S -> ~ (B <= a < B + S) -> covers r a 1 = true ->
  is_Some (translate (subtract1 B S r) a).
Proof.
  intros (HB & HS & HBS) Ha Hc. apply covers_spec in Hc. unfold translate. apply fmap_is_Some, not_eq_None_Some.
  intros Hn%locate_None. revert Hn. unfold subtract1. cbv zeta.
  case_if; case_if; rewrite ?Forall_cons; intros Hn; breflect;
    repeat match goal with Hx : _ /\ _ |- _ => destruct Hx end;
    repeat match goal with Hx : covers _ _ _ = false |- _ => apply not_true_iff_false in Hx; rewrite covers_spec in Hx; cbn in Hx end;
    lia.
Qed.
(** Outside the range nothing is lost, whatever the gaps. *)
Lemma flat_map_outside_covered B S rs a : range_ok B S -> Forall region_gwf rs -> ~ (B <= a < B + S) ->
  is_Some (translate rs a) -> is_Some (translate (flat_map (subtract1 B S) rs) a).
Proof.
  intros HB Hwf Ha. induction Hwf as [|r rs Hr _ IH]; [done|]. cbn [flat_map]. rewrite translate_cons, translate_app.
  destruct (translate (flat_map _ rs) a); [done|]. destruct (translate rs a); [by destruct IH|].
  destruct (covers r a 1) eqn:E; [|by intros []]. intros _. by apply subtract1_covered.
Qed.
Lemma flat_map_outside_touching B S rs a :
  range_ok B S -> Forall region_gwf rs -> Forall (touches B S) rs -> ~ (B <= a < B + S) ->
  translate (flat_map (subtract1 B S) rs) a = translate rs a.
Proof.
  intros HB Hwf Ht Ha. induction Hwf as [|r rs Hr Hrs IH]; simpl; [done|].
  apply Forall_cons in Ht as [[Ht1 Ht2] Hts].
  rewrite translate_cons, translate_app, IH, subtract1_translate, outside_range by done.
  destruct (translate rs a); [done|].
  destruct (covers r a 1) eqn:E; [done|]. apply not_covers1 in E.
  bool_cases; simpl; (done || lia).
Qed.

(** A region wholly outside the range, with a gap, is extended over the gap. *)
Lemma flat_map_gap B S rs r a : range_ok B S -> Forall region_gwf rs -> r ∈ rs ->
  (mr_baseAddress r + mr_size r <= a < B \/ B + S <= a < mr_baseAddress r) ->
  is_Some (translate (flat_map (subtract1 B S) rs) a).
Proof.
  intros HB Hwf Hin Ha. induction Hwf as [|r' rs Hr Hrs IH]; [by apply elem_of_nil in Hin|].
  simpl. rewrite translate_app. apply elem_of_cons in Hin as [->|Hin].
  - destruct (translate (flat_map _ rs) a); [done|].
    destruct HB as (?&?&?), Hr as (?&?&?).
    rewrite subtract1_translate, outside_range by (repeat split; lia).
    case_if; [done|]. bool_cases; simpl; (done || lia).
  - destruct IH as [h ->]; done.
Qed.

(** *** Ranges that wrap

    The last address of the range is computed modulo 2^64.  A region that begins below a range that wraps
    and ends above its last address is split without end: its lower part meets the same test. *)
Definition final_of (B S : Z) : Z := u64 (u64 (B + S) - 1).
Definition is_split (B S : Z) (r : MemoryRegion) : Prop :=
  mr_baseAddress r < B /\ final_of B S < finalRegionAddress r.
Definition splits_forever (B S : Z) (r : MemoryRegion) : Prop := final_of B S + 1 < B /\ is_split B S r.
#[global] Instance is_split_dec B S r : Decision (is_split B S r).
Proof. unfold is_split. apply _. Defined.
#[global] Instance splits_forever_dec B S r : Decision (splits_forever B S r).
Proof. unfold splits_forever. apply _. Defined.

Section Wrapping.
Context (B S : Z) (HB : 0 <= B < 2 ^ 64).
Definition split_lower (r : MemoryRegion) : MemoryRegion :=
  MkMemoryRegion (mr_baseAddress r) (u64 (B - mr_baseAddress r)) (mr_hostMemory r).

Lemma final_lower r : 0 <= mr_baseAddress r < B -> finalRegionAddress (split_lower r) = B - 1.
Proof.
  intros. unfold finalRegionAddress; cbn. rewrite (u64_small (B - _)), Zplus_minus, (u64_small B), u64_small; lia.
Qed.

(** One visit of any element: it is split, or the iterator passes it. *)
Lemma visit_split fuel pre r rest : is_split B S r -> exists upper,
  SubtractMemoryRange_loop (Datatypes.S fuel) B S (pre ++ r :: rest) (length pre)
  = SubtractMemoryRange_loop fuel B S ((pre ++ [upper]) ++ split_lower r :: rest) (length (pre ++ [upper])).
Proof.
  intros [Hb Hf]. cbn [SubtractMemoryRange_loop]. rewrite list_lookup_middle by done. fold (final_of B S).
  rewrite (proj2 (Z.leb_gt B _)), (proj2 (Z.leb_gt (finalRegionAddress r) _)), !andb_false_r by done. cbn [andb].
  rewrite insert_middle, take_app_length, drop_app_length.
  eexists. rewrite <- app_cons_snoc, length_app. cbn [length]. by rewrite Nat.add_1_r.
Qed.
Lemma visit_pass fuel pre r rest : ~ is_split B S r -> exists pre',
  SubtractMemoryRange_loop (Datatypes.S fuel) B S (pre ++ r :: rest) (length pre)
  = SubtractMemoryRange_loop fuel B S (pre' ++ rest) (length pre').
Proof.
  unfold is_split. intros Hn. cbn [SubtractMemoryRange_loop]. rewrite list_lookup_middle by done. fold (final_of B S).
  destruct (Z.leb_spec B (mr_baseAddress r)), (Z.leb_spec (finalRegionAddress r) (final_of B S)); cbn [andb]; try lia.
  - exists pre. by rewrite delete_middle.
  - rewrite (proj2 (Z.ltb_ge _ B)), (proj2 (Z.ltb_lt (final_of B S) _)) by lia. cbn [andb].
    rewrite insert_middle. eexists (pre ++ [_]). rewrite <- app_cons_snoc, length_app. cbn [length]. by rewrite Nat.add_1_r.
  - rewrite (proj2 (Z.ltb_lt _ B)) by lia. cbn [andb].
    rewrite insert_middle. eexists (pre ++ [_]). rewrite <- app_cons_snoc, length_app. cbn [length]. by rewrite Nat.add_1_r.
Qed.

Lemma loop_diverges fuel : forall pre rest, Forall (fun r => 0 <= mr_baseAddress r) rest ->
  Exists (splits_forever B S) rest -> SubtractMemoryRange_loop fuel B S (pre ++ rest) (length pre) = None.
Proof.
  induction fuel as [|fuel IH]; intros pre rest Hc He; [done|].
  destruct rest as [|r rest]; [by apply Exists_nil in He|]. apply Forall_cons in Hc as [Hr Hc].
  destruct (decide (is_split B S r)) as [Hs|Hs].
  - destruct (visit_split fuel pre r rest Hs) as [upper ->]. apply IH; [by constructor|].
    apply Exists_cons in He as [[Hw _]|He]; [|by right]. left. split; [done|]. destruct Hs as [Hs _]. split; [done|].
    rewrite final_lower by done. lia.
  - destruct (visit_pass fuel pre r rest Hs) as [pre' ->]. apply IH; [done|].
    apply Exists_cons in He as [[_ ?]|He]; done.
Qed.
Lemma loop_terminates rest : Forall (fun r => 0 <= mr_baseAddress r) rest -> ~ Exists (splits_forever B S) rest ->
  forall fuel pre, (2 * length rest + 1 <= fuel)%nat ->
  is_Some (SubtractMemoryRange_loop fuel B S (pre ++ rest) (length pre)).
Proof.
  induction 1 as [|r rest Hr _ IH]; intros He fuel pre Hf; cbn [length] in Hf.
  - destruct fuel as [|fuel]; [lia|]. cbn. by rewrite app_nil_r, lookup_ge_None_2.
  - rewrite Exists_cons in He. specialize (IH (fun X => He (or_intror X))).
    destruct fuel as [|[|fuel]]; [lia|lia|]. destruct (decide (is_split B S r)) as [Hs|Hs].
    + destruct (visit_split (Datatypes.S fuel) pre r rest Hs) as [upper ->].
      destruct (visit_pass fuel (pre ++ [upper]) (split_lower r) rest) as [pre' ->]; [|apply IH; lia].
      intros [_ Hl]. destruct Hs as [Hb Hf']. rewrite final_lower in Hl by done.
      apply He. left. split; [lia|done].
    + destruct (visit_pass (Datatypes.S fuel) pre r rest Hs) as [pre' ->]. apply IH; lia.
Qed.
End Wrapping.

(** ** Theorems *)

(** C34: unmapping is complete and loses nothing else.  [SubtractMemoryRange]
    terminates on every list of well-formed regions with the list obtained by
    cutting each region by itself; afterwards no address of the range translates
    to a host address, and every address outside it that was mapped still is. *)
Theorem subtract_terminates_and_unmaps B S rs :
  range_ok B S -> Forall region_gwf rs ->
  exists rs', SubtractMemoryRange B S rs = Some rs' /\ rs' = flat_map (subtract1 B S) rs
    /\ (forall a, B <= a < B + S -> translate rs' a = None)
    /\ (forall a, ~ (B <= a < B + S) -> is_Some (translate rs a) -> is_Some (translate rs' a)).
Proof.
  intros HB Hwf. eexists. split; [by apply subtract_spec|]. split; [done|]. split; intros.
  - by apply flat_map_inside.
  - by apply flat_map_outside.
Qed.

(** C33: [SubtractMemoryRange] for every list of regions and every range, also those that wrap.  It
    returns unless the range runs over the top of the address space, the address after its last one
    lies below its base, and some region begins below its base and ends above its last address; then, and
    only then, its loop takes more steps than any number. *)
Theorem subtract_terminates_iff B S rs :
  0 <= B < 2 ^ 64 -> Forall (fun r => 0 <= mr_baseAddress r) rs ->
  let never := forall fuel, SubtractMemoryRange_loop fuel B S rs 0 = None in
  (never <-> Exists (splits_forever B S) rs)
  /\ (SubtractMemoryRange B S rs = None <-> never).
Proof.
  intros HB Hc never.
  assert (H1 : Exists (splits_forever B S) rs -> never).
  { intros He fuel. by apply (loop_diverges B S HB fuel [] rs). }
  assert (H2 : SubtractMemoryRange B S rs = None -> Exists (splits_forever B S) rs).
  { intros Hn. destruct (decide (Exists (splits_forever B S) rs)) as [|Hno]; [done|].
    destruct (loop_terminates B S HB rs Hc Hno (2 * length rs + 1) []) as [x Hx]; [lia|].
    unfold SubtractMemoryRange in Hn. cbn [app length] in Hx. congruence. }
  assert (H3 : never -> SubtractMemoryRange B S rs = None) by (intros Hn; apply Hn).
  tauto.
Qed.

(** C13: when every region meets or borders the unmapped range, the new list is
    exactly the old mapping without the range: well formed, with the same host
    address for every guest address outside the range. *)
Theorem subtract_exact B S rs :
  range_ok B S -> Forall region_wf rs -> Forall (touches B S) rs ->
  exists rs', SubtractMemoryRange B S rs = Some rs' /\ Forall region_wf rs'
    /\ forall a, translate rs' a = if (B <=? a) && (a <? B + S) then None else translate rs a.
Proof.
  intros HB Hwf Ht. pose proof (region_wf_gwf rs Hwf) as Hg. eexists. split; [by apply subtract_spec|].
  split; [by apply subtract1_wf_all|]. intros a. case_if; breflect.
  - by apply flat_map_inside.
  - apply flat_map_outside_touching; [done..|]. lia.
Qed.

(** A region with a gap between it and the unmapped range is not left alone:
    its size (or its base and host pointer) is moved up to the range, so every
    address of the gap becomes mapped, to host memory outside the region's own
    block. *)
Theorem subtract_maps_the_gap B S rs r a :
  range_ok B S -> Forall region_gwf rs -> r ∈ rs ->
  (mr_baseAddress r + mr_size r <= a < B \/ B + S <= a < mr_baseAddress r) ->
  exists rs', SubtractMemoryRange B S rs = Some rs' /\ is_Some (translate rs' a).
Proof.
  intros HB Hwf Hin Ha. eexists. split; [by apply subtract_spec|]. by eapply flat_map_gap.
Qed.

(** C22: [MemRead] reads from the newest region that covers the whole range, byte
    by byte at the translated addresses, and fails exactly when no single region
    covers it (also when the range is mapped by two adjacent regions). *)
Theorem memread_newest_covering_region m rs p n :
  range_ok p n -> Forall region_gwf rs ->
  match MemRead m rs p n with
  | Some bs => exists r, locate rs p n = Some r /\ length bs = Z.to_nat n
      /\ forall i, (i < Z.to_nat n)%nat -> bs !! i = Some (m (host_addr r (p + Z.of_nat i)))
  | None => Forall (fun r => covers r p n = false) rs
  end.
Proof.
  intros Hp Hwf. rewrite MemRead_spec by done. destruct (locate rs p n) as [r|] eqn:E; simpl.
  - exists r. split; [done|]. split; [apply length_host_read|]. intros i Hi.
    rewrite host_read_lookup by done. do 2 f_equal. unfold host_addr, u64.
    rewrite Zplus_mod_idemp_l. f_equal. lia.
  - by apply locate_None.
Qed.

(** C23: [MemWrite] succeeds exactly when [MemRead] of the range does; a read of
    the range then returns the written bytes, and a read that lands in other
    host bytes is not affected. *)
Theorem memwrite_memread m rs p n v :
  range_ok p n -> Forall region_wf rs -> Z.of_nat (length v) = n ->
  match MemWrite m rs p n v with
  | Some m' => MemRead m' rs p n = Some v
      /\ forall q k r r', range_ok q k -> locate rs p n = Some r -> locate rs q k = Some r' ->
           (host_addr r' q + k <= host_addr r p \/ host_addr r p + n <= host_addr r' q) ->
           MemRead m' rs q k = MemRead m rs q k
  | None => MemRead m rs p n = None
  end.
Proof.
  intros Hp Hwf Hv. pose proof (region_wf_gwf rs Hwf) as Hg. rewrite MemWrite_spec by done.
  destruct (locate rs p n) as [r|] eqn:E; simpl; rewrite ?MemRead_spec by done; rewrite E; [|done].
  destruct (locate_wf _ _ _ _ _ Hwf E) as [Hr Hc].
  destruct (host_addr_wf r p n Hr Hc) as (_&?&?); [destruct Hp; lia|]. destruct Hr as ((?&?&?)&?&?).
  rewrite take_ge by lia. split.
  - simpl. rewrite <- Hv at 1. by rewrite host_read_write_same by lia.
  - intros q k r1 r' Hq [= <-] E' Hd. rewrite !MemRead_spec, E' by done. simpl.
    destruct (locate_wf _ _ _ _ _ Hwf E') as [Hr' Hc'].
    destruct (host_addr_wf r' q k Hr' Hc') as (_&?&?); [destruct Hq; lia|].
    destruct Hr' as ((?&?&?)&?&?). by rewrite host_read_write_disjoint by lia.
Qed.

(** ** Concrete instances *)

Definition example_regions : list MemoryRegion :=
  [MkMemoryRegion 0x0 0x1000 0x700000; MkMemoryRegion 0x1000 0x4000 0x800000].
Definition example_mem : hmem := fun a => a mod 251.

Lemma example_regions_wf : Forall region_wf example_regions.
Proof. repeat (apply Forall_nil_2 || apply Forall_cons_2); unfold region_wf, region_gwf; simpl; lia. Qed.

Lemma subtract_terminates_and_unmaps_witness :
  exists rs', SubtractMemoryRange 0x2000 0x1000 example_regions = Some rs'
    /\ rs' = [MkMemoryRegion 0x0 0x2000 0x700000; MkMemoryRegion 0x3000 0x2000 0x802000;
              MkMemoryRegion 0x1000 0x1000 0x800000]
    /\ (forall a, 0x2000 <= a < 0x2000 + 0x1000 -> translate rs' a = None)
    /\ (forall a, ~ (0x2000 <= a < 0x2000 + 0x1000) ->
          is_Some (translate example_regions a) -> is_Some (translate rs' a)).
Proof.
  exact (subtract_terminates_and_unmaps 0x2000 0x1000 example_regions
           ltac:(unfold range_ok; lia) (region_wf_gwf _ example_regions_wf)).
Defined.

(** Unmapping 2^64 - 0x1000 bytes from 0x2000 on beside a region of 0x4000 bytes at 0x1000. *)
Lemma subtract_terminates_iff_witness :
  (forall fuel, SubtractMemoryRange_loop fuel 0x2000 0xFFFFFFFFFFFFF000 example_regions 0 = None)
  /\ SubtractMemoryRange 0x2000 0x1000 example_regions <> None.
Proof.
  assert (Hc : Forall (fun r => 0 <= mr_baseAddress r) example_regions) by (repeat constructor; cbn; lia).
  split.
  - apply (proj1 (subtract_terminates_iff 0x2000 0xFFFFFFFFFFFFF000 example_regions ltac:(lia) Hc)).
    right. left. vm_compute. repeat split; discriminate.
  - intros Hn. pose proof (proj1 (proj2 (subtract_terminates_iff 0x2000 0x1000 example_regions ltac:(lia) Hc)) Hn) as Hd.
    specialize (Hd 10%nat). vm_compute in Hd. discriminate.
Defined.

Lemma subtract_exact_witness :
  exists rs', SubtractMemoryRange 0x800 0x1000 example_regions = Some rs' /\ Forall region_wf rs'
    /\ forall a, translate rs' a
         = if (0x800 <=? a) && (a <? 0x800 + 0x1000) then None else translate example_regions a.
Proof.
  refine (subtract_exact 0x800 0x1000 example_regions _ example_regions_wf _).
  - unfold range_ok; lia.
  - repeat (apply Forall_nil_2 || apply Forall_cons_2); unfold touches; simpl; lia.
Defined.

(** Unmapping 0x10000..0x11000 beside a page at 0 makes address 0x5000 readable. *)
Lemma subtract_maps_the_gap_witness :
  translate [MkMemoryRegion 0x0 0x1000 0x700000] 0x5000 = None
  /\ exists rs', SubtractMemoryRange 0x10000 0x1000 [MkMemoryRegion 0x0 0x1000 0x700000] = Some rs'
    /\ is_Some (translate rs' 0x5000).
Proof.
  split; [done|].
  refine (subtract_maps_the_gap 0x10000 0x1000 _ (MkMemoryRegion 0x0 0x1000 0x700000) 0x5000 _ _ _ _).
  - unfold range_ok; lia.
  - apply Forall_singleton. unfold region_gwf; simpl; lia.
  - by left.
  - simpl; lia.
Defined.

Lemma memread_newest_covering_region_witness :
  MemRead example_mem example_regions 0xFFE 4 = None
  /\ Forall (fun r => covers r 0xFFE 4 = false) example_regions
  /\ exists r, locate example_regions 0x1FFE 4 = Some r.
Proof.
  split; [reflexivity|]. split.
  - exact (memread_newest_covering_region example_mem example_regions 0xFFE 4
             ltac:(unfold range_ok; lia) (region_wf_gwf _ example_regions_wf)).
  - destruct (memread_newest_covering_region example_mem example_regions 0x1FFE 4
             ltac:(unfold range_ok; lia) (region_wf_gwf _ example_regions_wf)) as (r & Hr & _).
    by exists r.
Defined.

Lemma memwrite_memread_witness :
  exists m', MemWrite example_mem example_regions 0x1FFE 4 [1; 2; 3; 4] = Some m'
  /\ MemRead m' example_regions 0x1FFE 4 = Some [1; 2; 3; 4].
Proof.
  eexists. split; [reflexivity|].
  exact (proj1 (memwrite_memread example_mem example_regions 0x1FFE 4 [1; 2; 3; 4]
           ltac:(unfold range_ok; lia) example_regions_wf eq_refl)).
Defined.
