(* ===== verification/VM.v ===== *)
(** * The virtual machine (vm/vm.hpp, vm/vm.cpp, vm/io.hpp, vm/status.hpp)

    The argument checks of the public operations, the region list and the I/O
    handlers; the operations a platform implements are the class [VMBackend],
    whose defaults are the "optional features" of vm.cpp. *)
From S2P Require Import Prelude MemRegions.

Inductive MemoryMappingStatus :=
| MM_OK | MM_Unsupported | MM_MisalignedHostMemory | MM_MisalignedAddress | MM_MisalignedSize
| MM_EmptyRange | MM_PartialUnmapUnsupported | MM_AlreadyAllocated | MM_InvalidFlags
| MM_InvalidRange | MM_Failed | MM_OutOfBounds.
#[global] Instance MemoryMappingStatus_eq_dec : EqDecision MemoryMappingStatus.
Proof. solve_decision. Defined.

Inductive DirtyPageTrackingStatus :=
| DP_OK | DP_Unsupported | DP_MisalignedAddress | DP_MisalignedSize | DP_MisalignedBitmap
| DP_EmptyRange | DP_BitmapTooSmall | DP_NotEnabled | DP_InvalidRange | DP_Failed.

(** [MemoryFlags]: values of the bitmask enum. *)
Definition MF_None : Z := 0.
Definition MF_Read : Z := 1 <<< 0.
Definition MF_Write : Z := 1 <<< 1.
Definition MF_Execute : Z := 1 <<< 2.
Definition MF_DirtyPageTracking : Z := 1 <<< 3.

Definition PAGE_SIZE : Z := 0x1000.

(** ** I/O handlers

    A callback is a C function pointer with side effects on a world [W]: it
    takes the context pointer, the port or address, the size and, for writes,
    the value. *)
Section Io.
Context {W : Type}.

Definition IOReadFunc_t := Z -> Z -> Z -> W -> Z * W.
Definition IOWriteFunc_t := Z -> Z -> Z -> Z -> W -> W.

Record IOHandlers := MkIOHandlers {
  IOReadFunc : IOReadFunc_t;
  IOWriteFunc : IOWriteFunc_t;
  MMIOReadFunc : IOReadFunc_t;
  MMIOWriteFunc : IOWriteFunc_t;
  io_context : Z
}.

Definition nullIORead : IOReadFunc_t := fun _ _ _ w => (0, w).
Definition nullIOWrite : IOWriteFunc_t := fun _ _ _ _ w => w.
Definition nullMMIORead : IOReadFunc_t := fun _ _ _ w => (0, w).
Definition nullMMIOWrite : IOWriteFunc_t := fun _ _ _ _ w => w.

(** uint32_t and uint64_t results, uint16_t port. *)
Definition IORead (io : IOHandlers) (port size : Z) (w : W) : Z * W :=
  let '(v, w) := IOReadFunc io (io_context io) (u16 port) size w in (u32 v, w).
Definition IOWrite (io : IOHandlers) (port size value : Z) (w : W) : W :=
  IOWriteFunc io (io_context io) (u16 port) size (u32 value) w.
Definition MMIORead (io : IOHandlers) (address size : Z) (w : W) : Z * W :=
  let '(v, w) := MMIOReadFunc io (io_context io) (u64 address) size w in (u64 v, w).
Definition MMIOWrite (io : IOHandlers) (address size value : Z) (w : W) : W :=
  MMIOWriteFunc io (io_context io) (u64 address) size (u64 value) w.

(** [RegisterIOReadCallback] and the others; [None] is [nullptr]. *)
Definition RegisterIOReadCallback (func : option IOReadFunc_t) (io : IOHandlers) : IOHandlers :=
  MkIOHandlers (default nullIORead func) (IOWriteFunc io) (MMIOReadFunc io) (MMIOWriteFunc io)
    (io_context io).
Definition RegisterIOWriteCallback (func : option IOWriteFunc_t) (io : IOHandlers) : IOHandlers :=
  MkIOHandlers (IOReadFunc io) (default nullIOWrite func) (MMIOReadFunc io) (MMIOWriteFunc io)
    (io_context io).
Definition RegisterMMIOReadCallback (func : option IOReadFunc_t) (io : IOHandlers) : IOHandlers :=
  MkIOHandlers (IOReadFunc io) (IOWriteFunc io) (default nullMMIORead func) (MMIOWriteFunc io)
    (io_context io).
Definition RegisterMMIOWriteCallback (func : option IOWriteFunc_t) (io : IOHandlers) : IOHandlers :=
  MkIOHandlers (IOReadFunc io) (IOWriteFunc io) (MMIOReadFunc io) (default nullMMIOWrite func)
    (io_context io).
Definition RegisterIOContext (context : Z) (io : IOHandlers) : IOHandlers :=
  MkIOHandlers (IOReadFunc io) (IOWriteFunc io) (MMIOReadFunc io) (MMIOWriteFunc io) context.

(** The handlers a new virtual machine starts with. *)
Definition initialIO : IOHandlers :=
  MkIOHandlers nullIORead nullIOWrite nullMMIORead nullMMIOWrite 0.
End Io.
Arguments IOHandlers : clear implicits.

(** ** The platform interface

    [B] is the state of the platform's virtual machine object and of the kernel
    objects behind it.  [QueryDirtyPagesImpl] also writes the caller's bitmap,
    which lives in host memory. *)
Class VMBackend (B : Type) := {
  MapGuestMemoryImpl (baseAddress size flags memory : Z) : B -> MemoryMappingStatus * B;
  UnmapGuestMemoryImpl (baseAddress size : Z) : B -> MemoryMappingStatus * B;
  SetGuestMemoryFlagsImpl (baseAddress size flags : Z) : B -> MemoryMappingStatus * B;
  QueryDirtyPagesImpl (baseAddress size bitmap bitmapSize : Z)
    : B * hmem -> DirtyPageTrackingStatus * (B * hmem);
  ClearDirtyPagesImpl (baseAddress size : Z) : B -> DirtyPageTrackingStatus * B
}.

(** The optional features a platform does not override (vm.cpp). *)
Definition default_UnmapGuestMemoryImpl {B} (baseAddress size : Z) (b : B)
  : MemoryMappingStatus * B := (MM_Unsupported, b).
Definition default_SetGuestMemoryFlagsImpl {B} (baseAddress size flags : Z) (b : B)
  : MemoryMappingStatus * B := (MM_Unsupported, b).
Definition default_QueryDirtyPagesImpl {B} (baseAddress size bitmap bitmapSize : Z) (b : B * hmem)
  : DirtyPageTrackingStatus * (B * hmem) := (DP_Unsupported, b).
Definition default_ClearDirtyPagesImpl {B} (baseAddress size : Z) (b : B)
  : DirtyPageTrackingStatus * B := (DP_Unsupported, b).

(** ** The virtual machine object

    [V] is the type of virtual processors, [W] the world of the callbacks. *)
Record VirtualMachine (B V W : Type) := MkVirtualMachine {
  m_vps : list V;
  m_memoryRegions : list MemoryRegion;
  m_io : IOHandlers W;
  m_backend : B
}.
Arguments MkVirtualMachine {B V W}.
Arguments m_vps {B V W}.
Arguments m_memoryRegions {B V W}.
Arguments m_io {B V W}.
Arguments m_backend {B V W}.

Section VM.
Context {B V W : Type} `{VMBackend B}.
(** [m_platform.GetFeatures().largeMemoryAllocation] and [HostInfo.gpa.mask]. *)
Context (largeMemoryAllocation : bool) (gpa_mask : Z).
Abbreviation VM := (VirtualMachine B V W).

Definition newVM (b : B) : VM := MkVirtualMachine [] [] initialIO b.
Definition set_backend (b : B) (vm : VM) : VM :=
  MkVirtualMachine (m_vps vm) (m_memoryRegions vm) (m_io vm) b.
Definition set_regions (rs : list MemoryRegion) (vm : VM) : VM :=
  MkVirtualMachine (m_vps vm) rs (m_io vm) (m_backend vm).
Definition set_vps (vps : list V) (vm : VM) : VM :=
  MkVirtualMachine vps (m_memoryRegions vm) (m_io vm) (m_backend vm).

Definition GetVirtualProcessor (index : Z) (vm : VM) : option V :=
  if index <? Z.of_nat (length (m_vps vm)) then m_vps vm !! Z.to_nat index else None.
Definition GetVirtualProcessorCount (vm : VM) : Z := Z.of_nat (length (m_vps vm)).
Definition RegisterVP (vp : V) (vm : VM) : VM := set_vps (m_vps vm ++ [vp]) vm.
Definition DestroyVPs (vm : VM) : VM := set_vps [] vm.

Definition MapGuestMemory (baseAddress size flags memory : Z) (vm : VM)
    : MemoryMappingStatus * VM :=
  if nz (memory &&& 0xFFF) then (MM_MisalignedHostMemory, vm)
  else if nz (baseAddress &&& 0xFFF) then (MM_MisalignedAddress, vm)
  else if size =? 0 then (MM_EmptyRange, vm)
  else if nz (size &&& 0xFFF) then (MM_MisalignedSize, vm)
  else if (0xFFFFFFFF <? size) && negb largeMemoryAllocation then (MM_Unsupported, vm)
  else if nz (baseAddress &&& lnot64 gpa_mask)
          || nz (u64 (u64 (baseAddress + size) - 1) &&& lnot64 gpa_mask)
  then (MM_OutOfBounds, vm)
  else
    let '(status, b) := MapGuestMemoryImpl baseAddress size flags memory (m_backend vm) in
    let vm := set_backend b vm in
    match status with
    | MM_OK => (status, set_regions (m_memoryRegions vm ++ [MkMemoryRegion baseAddress size memory]) vm)
    | _ => (status, vm)
    end.

(** [None] would be a loop of [SubtractMemoryRange] that does not end. *)
Definition UnmapGuestMemory (baseAddress size : Z) (vm : VM)
    : option (MemoryMappingStatus * VM) :=
  if nz (baseAddress &&& 0xFFF) then Some (MM_MisalignedAddress, vm)
  else if size =? 0 then Some (MM_EmptyRange, vm)
  else if nz (size &&& 0xFFF) then Some (MM_MisalignedSize, vm)
  else if (0xFFFFFFFF <? size) && negb largeMemoryAllocation then Some (MM_Unsupported, vm)
  else
    let '(status, b) := UnmapGuestMemoryImpl baseAddress size (m_backend vm) in
    let vm := set_backend b vm in
    match status with
    | MM_OK =>
        rs ← SubtractMemoryRange baseAddress size (m_memoryRegions vm);
        Some (status, set_regions rs vm)
    | _ => Some (status, vm)
    end.

Definition SetGuestMemoryFlags (baseAddress size flags : Z) (vm : VM) : MemoryMappingStatus * VM :=
  if nz (baseAddress &&& 0xFFF) then (MM_MisalignedAddress, vm)
  else if size =? 0 then (MM_EmptyRange, vm)
  else if nz (size &&& 0xFFF) then (MM_MisalignedSize, vm)
  else if (0xFFFFFFFF <? size) && negb largeMemoryAllocation then (MM_Unsupported, vm)
  else
    let '(status, b) := SetGuestMemoryFlagsImpl baseAddress size flags (m_backend vm) in
    (status, set_backend b vm).

Definition QueryDirtyPages (baseAddress size bitmap bitmapSize : Z) (vm : VM) (m : hmem)
    : DirtyPageTrackingStatus * VM * hmem :=
  if nz (baseAddress &&& 0xFFF) then (DP_MisalignedAddress, vm, m)
  else if size =? 0 then (DP_EmptyRange, vm, m)
  else if nz (size &&& 0xFFF) then (DP_MisalignedSize, vm, m)
  else if nz (bitmap &&& 0x7) then (DP_MisalignedBitmap, vm, m)
  else
    let requiredSize := u64 (u64 (size / PAGE_SIZE + 8) - 1) / 8 in
    if bitmapSize <? requiredSize then (DP_BitmapTooSmall, vm, m)
    else
      let '(status, (b, m)) := QueryDirtyPagesImpl baseAddress size bitmap bitmapSize (m_backend vm, m) in
      (status, set_backend b vm, m).

Definition ClearDirtyPages (baseAddress size : Z) (vm : VM) : DirtyPageTrackingStatus * VM :=
  if nz (baseAddress &&& 0xFFF) then (DP_MisalignedAddress, vm)
  else if size =? 0 then (DP_EmptyRange, vm)
  else if nz (size &&& 0xFFF) then (DP_MisalignedSize, vm)
  else
    let '(status, b) := ClearDirtyPagesImpl baseAddress size (m_backend vm) in
    (status, set_backend b vm).

(** [VirtualMachine::MemRead] and [MemWrite] on the object's regions. *)
Definition VMMemRead (vm : VM) (m : hmem) (paddr size : Z) : option (list Z) :=
  MemRead m (m_memoryRegions vm) paddr size.
Definition VMMemWrite (vm : VM) (m : hmem) (paddr size : Z) (value : list Z) : option hmem :=
  MemWrite m (m_memoryRegions vm) paddr size value.
End VM.

(** ** Invariant and reachable states *)

Definition page_aligned (x : Z) : Prop := x mod 4096 = 0.

(** What holds of every mapped region: it is not empty, page-aligned in the guest and in the
    host, and its members are 64-bit numbers. *)
Definition region_cell (r : MemoryRegion) : Prop :=
  page_aligned (mr_baseAddress r) /\ page_aligned (mr_size r) /\ page_aligned (mr_hostMemory r)
  /\ 0 <= mr_baseAddress r < 2 ^ 64 /\ 0 < mr_size r < 2 ^ 64 /\ 0 <= mr_hostMemory r < 2 ^ 64.
(** In addition it does not wrap, in the guest and in the host, and lies inside the guest-physical
    limit [limit]. *)
Definition region_inv (limit : Z) (r : MemoryRegion) : Prop :=
  region_wf r /\ page_aligned (mr_baseAddress r) /\ page_aligned (mr_size r)
  /\ page_aligned (mr_hostMemory r) /\ mr_baseAddress r + mr_size r <= limit.

Section Steps.
Context {B V W : Type} `{VMBackend B}.
Context (largeMemoryAllocation : bool) (gpa_mask : Z).
(** Restrictions on the client: [nowrap] keeps it to guest ranges and host blocks that do not run over the
    top of the address space (see [wrapping_range_passes_bounds_check]), [gapless] to unmapping
    ranges that leave no gap to a mapped region (see [subtract_maps_the_gap]). *)
Context (nowrap gapless : bool).

(** The client's calls, with arguments of 64 bits. *)
Inductive vm_step : VirtualMachine B V W * hmem -> VirtualMachine B V W * hmem -> Prop :=
| step_map vm m base size flags memory :
    0 <= base < 2 ^ 64 -> 0 <= size < 2 ^ 64 -> 0 <= memory < 2 ^ 64 ->
    (nowrap = true -> base + size <= 2 ^ 64 /\ memory + size <= 2 ^ 64) ->
    vm_step (vm, m)
      (snd (MapGuestMemory largeMemoryAllocation gpa_mask base size flags memory vm), m)
| step_unmap vm m base size st vm' :
    0 <= base < 2 ^ 64 -> 0 <= size < 2 ^ 64 ->
    (nowrap = true -> base + size <= 2 ^ 64) ->
    (gapless = true -> Forall (touches base size) (m_memoryRegions vm)) ->
    UnmapGuestMemory largeMemoryAllocation base size vm = Some (st, vm') ->
    vm_step (vm, m) (vm', m)
| step_set_flags vm m base size flags :
    vm_step (vm, m) (snd (SetGuestMemoryFlags largeMemoryAllocation base size flags vm), m)
| step_query vm m base size bitmap bitmapSize st vm' m' :
    QueryDirtyPages base size bitmap bitmapSize vm m = (st, vm', m') ->
    vm_step (vm, m) (vm', m')
| step_clear vm m base size :
    vm_step (vm, m) (snd (ClearDirtyPages base size vm), m)
| step_write vm m m' paddr size value :
    VMMemWrite vm m paddr size value = Some m' -> vm_step (vm, m) (vm, m').

Definition vm_reachable (b : B) (m0 : hmem) (s : VirtualMachine B V W * hmem) : Prop :=
  rtc vm_step (newVM b, m0) s.
End Steps.

(** ** Lemmas *)

Lemma nz_fff x : nz (x &&& 0xFFF) = false <-> page_aligned x.
Proof. unfold nz, page_aligned. rewrite land_fff, negb_false_iff, Z.eqb_eq. done. Qed.

(** [x & ~mask] is zero exactly below the limit, for the mask of [k] bits. *)
Lemma land_lnot_mask x k : 0 <= x < 2 ^ 64 -> 0 <= k <= 64 ->
  nz (x &&& lnot64 (Z.ones k)) = false <-> x < 2 ^ k.
Proof.
  intros Hx Hk. assert (x &&& lnot64 (Z.ones k) = Z.ldiff x (Z.ones k)) as ->.
  { unfold lnot64. bitwise. }
  rewrite ldiff_ones_down by lia. unfold nz. rewrite negb_false_iff, Z.eqb_eq.
  pose proof (Z.pow_pos_nonneg 2 k). pose proof (Z.mod_pos_bound x (2 ^ k)).
  split; [lia|]. intros. rewrite Z.mod_small; lia.
Qed.

Lemma subtract1_inv B S limit r : range_ok B S -> page_aligned B -> page_aligned S ->
  touches B S r -> region_inv limit r -> Forall (region_inv limit) (subtract1 B S r).
Proof.
  intros HB HaB HaS Ht (Hr&Hab&Has&Hah&Hl).
  pose proof (subtract1_wf B S r HB Hr Ht) as Hw.
  unfold subtract1 in *. destruct Hr as ((?&?&?)&?&?), HB as (?&?&?), Ht as [? ?]. unfold page_aligned in *.
  repeat case_match; repeat match goal with
    | H : Forall region_wf (_ :: _) |- _ => apply Forall_cons in H as [? ?] end;
  repeat (apply Forall_nil_2 || apply Forall_cons_2); unfold region_inv, page_aligned; simpl in *;
  breflect; (split; [done|]); rewrite ?u64_small by (unfold region_wf, region_gwf in *; simpl in *; lia);
  repeat split; first [done | lia | zlia].
Qed.

Lemma subtract1_gwf B' S r : range_ok B' S -> region_gwf r -> Forall region_gwf (subtract1 B' S r).
Proof.
  intros (?&?&?) (?&?&?). unfold subtract1. case_if; case_if; breflect;
    repeat (apply Forall_nil_2 || apply Forall_cons_2); unfold region_gwf; simpl; lia.
Qed.

Lemma subtract1_gwf_all B' S rs : range_ok B' S -> Forall region_gwf rs ->
  Forall region_gwf (flat_map (subtract1 B' S) rs).
Proof.
  intros HB. induction 1 as [|r rs Hr Hrs IH]; simpl; [constructor|].
  apply Forall_app. split; [by apply subtract1_gwf|done].
Qed.
(** Subtraction with any arguments: the arithmetic modulo 2^64 keeps pages. *)
Lemma page_aligned_u64 x : page_aligned x -> page_aligned (u64 x).
Proof. unfold page_aligned, u64. intros. zlia. Qed.
Lemma final_page x : page_aligned x -> u64 (u64 x - 1) mod 4096 = 4095.
Proof. unfold page_aligned, u64. intros. zlia. Qed.

Lemma subtract_loop_cells B' S rs' fuel : page_aligned B' -> page_aligned S -> 0 <= B' < 2 ^ 64 ->
  forall rs i, Forall region_cell rs -> SubtractMemoryRange_loop fuel B' S rs i = Some rs' -> Forall region_cell rs'.
Proof.
  intros HB HS HBr. induction fuel as [|fuel IH]; intros rs i Hc; cbn [SubtractMemoryRange_loop]; [done|]. cbv zeta.
  destruct (rs !! i) as [r|] eqn:E; [|by intros [= <-]].
  pose proof (Forall_lookup_1 _ _ _ _ Hc E) as (H1 & H2 & H3 & H4 & H5 & H6).
  assert (Hf : finalRegionAddress r mod 4096 = 4095).
  { apply final_page. unfold page_aligned in *. zlia. }
  assert (Hg : u64 (u64 (B' + S) - 1) mod 4096 = 4095) by (apply final_page; unfold page_aligned in *; zlia).
  assert (Hfr : 0 <= finalRegionAddress r < 2 ^ 64) by apply u64_range.
  pose proof (u64_range (u64 (B' + S) - 1)) as Hgr.
  set (fR := finalRegionAddress r) in *. set (fA := u64 (u64 (B' + S) - 1)) in *. clearbody fR fA.
  assert (Hlow : mr_baseAddress r < B' -> region_cell
            (MkMemoryRegion (mr_baseAddress r) (u64 (B' - mr_baseAddress r)) (mr_hostMemory r))).
  { intros. unfold region_cell, page_aligned in *; cbn. rewrite u64_small by lia. split_and!; (lia || zlia). }
  assert (Hup : fA < fR -> forall h, page_aligned h -> region_cell (MkMemoryRegion (u64 (fA + 1)) (u64 (fR - fA)) (u64 h))).
  { intros Hlt h Hh. pose proof (u64_range h). unfold region_cell, page_aligned in *; cbn.
    rewrite (u64_small (fA + 1)), (u64_small (fR - fA)) by lia. split_and!; try lia; try zlia. by apply page_aligned_u64. }
  destruct ((B' <=? mr_baseAddress r) && (fR <=? fA)) eqn:C1; [|destruct ((mr_baseAddress r <? B') && (fR <=? fA)) eqn:C2;
    [|destruct ((B' <=? mr_baseAddress r) && (fA <? fR)) eqn:C3]].
  - apply IH. by apply Forall_delete.
  - apply IH. breflect. apply Forall_insert; [done|]. apply Hlow. lia.
  - apply IH. breflect. apply Forall_insert; [done|]. apply Hup; [lia|]. unfold page_aligned, u64 in *. zlia.
  - apply IH.
    assert (mr_baseAddress r < B' /\ fA < fR) as [L1 L2].
    { destruct (Z.leb_spec B' (mr_baseAddress r)), (Z.leb_spec fR fA), (Z.ltb_spec (mr_baseAddress r) B'), (Z.ltb_spec fA fR);
        cbn in *; (done || lia). }
    assert (Hi : Forall region_cell (<[i := MkMemoryRegion (mr_baseAddress r) (u64 (B' - mr_baseAddress r)) (mr_hostMemory r)]> rs)).
    { apply Forall_insert; [done|]. by apply Hlow. }
    apply Forall_app. split; [by apply Forall_take|]. apply Forall_cons. split; [|by apply Forall_drop].
    apply Hup; [done|]. unfold page_aligned, u64 in *. zlia.
Qed.

Section Facts.
Context {B V W : Type} `{VMBackend B}.
Context (largeMemoryAllocation : bool) (k : Z) (Hk : 12 <= k <= 64).
Abbreviation mask := (Z.ones k).
Abbreviation VM := (VirtualMachine B V W).

(** A mapping that is accepted satisfies the checks. *)
Lemma map_cases base size flags memory (vm : VM) :
  0 <= base < 2 ^ 64 -> 0 <= size < 2 ^ 64 ->
  let vm' := snd (MapGuestMemory largeMemoryAllocation mask base size flags memory vm) in
  m_memoryRegions vm' = m_memoryRegions vm
  \/ (page_aligned memory /\ page_aligned base /\ page_aligned size /\ 0 < size
      /\ base < 2 ^ k /\ u64 (u64 (base + size) - 1) < 2 ^ k
      /\ m_memoryRegions vm' = m_memoryRegions vm ++ [MkMemoryRegion base size memory]).
Proof.
  intros Hb Hs. unfold MapGuestMemory.
  repeat (case_if; [by left|]).
  destruct (MapGuestMemoryImpl base size flags memory (m_backend vm)) as [st b'].
  destruct st; try (by left). right.
  rewrite <- !nz_fff. rewrite <- (land_lnot_mask base), <- (land_lnot_mask (u64 _)) by (lia || apply u64_range).
  repeat match goal with Hx : _ || _ = false |- _ => apply orb_false_iff in Hx as [? ?] end.
  split_and!; try done. apply Z.eqb_neq in E1. lia.
Qed.


Lemma unmap_cases base size (vm : VM) st vm' :
  UnmapGuestMemory largeMemoryAllocation base size vm = Some (st, vm') ->
  m_memoryRegions vm' = m_memoryRegions vm /\ st <> MM_OK
  \/ (st = MM_OK /\ page_aligned base /\ page_aligned size /\ size <> 0
      /\ SubtractMemoryRange base size (m_memoryRegions vm) = Some (m_memoryRegions vm')).
Proof.
  unfold UnmapGuestMemory.
  repeat (case_if; [intros [= <- <-]; by left|]).
  destruct (UnmapGuestMemoryImpl base size (m_backend vm)) as [st' b'].
  destruct st'; intros Heq; simplify_eq; try by left.
  right. destruct (SubtractMemoryRange _ _ _) as [rs|] eqn:Hs; simpl in Heq; [|done].
  injection Heq as <- <-. rewrite <- !nz_fff. apply Z.eqb_neq in E0. by split_and!.
Qed.

Lemma unchanged_regions (vm vm' : VM) limit :
  m_memoryRegions vm' = m_memoryRegions vm ->
  Forall (region_inv limit) (m_memoryRegions vm) -> Forall (region_inv limit) (m_memoryRegions vm').
Proof. by intros ->. Qed.

Lemma set_flags_regions base size flags (vm : VM) :
  m_memoryRegions (snd (SetGuestMemoryFlags largeMemoryAllocation base size flags vm))
  = m_memoryRegions vm.
Proof.
  unfold SetGuestMemoryFlags. repeat (case_if; [done|]).
  by destruct (SetGuestMemoryFlagsImpl base size flags (m_backend vm)).
Qed.

Lemma query_regions base size bitmap bitmapSize (vm : VM) m :
  m_memoryRegions (fst (QueryDirtyPages base size bitmap bitmapSize vm m)).2 = m_memoryRegions vm.
Proof.
  unfold QueryDirtyPages. cbv zeta. repeat (case_if; [done|]).
  by destruct (QueryDirtyPagesImpl base size bitmap bitmapSize (m_backend vm, m)) as [? [? ?]].
Qed.

Lemma clear_regions base size (vm : VM) :
  m_memoryRegions (snd (ClearDirtyPages base size vm)) = m_memoryRegions vm.
Proof.
  unfold ClearDirtyPages. repeat (case_if; [done|]).
  by destruct (ClearDirtyPagesImpl base size (m_backend vm)).
Qed.

(** The platform's answers do not matter: the list is as it was, has one more region, or is the
    result of a subtraction. *)
Lemma vm_step_regions nowrap gapless (s s' : VM * hmem) :
  vm_step largeMemoryAllocation mask nowrap gapless s s' ->
  let rs := m_memoryRegions s.1 in let rs' := m_memoryRegions s'.1 in
  rs' = rs
  \/ (exists base size memory, 0 <= base < 2 ^ 64 /\ 0 < size < 2 ^ 64 /\ 0 <= memory < 2 ^ 64
      /\ page_aligned memory /\ page_aligned base /\ page_aligned size
      /\ (nowrap = true -> base + size <= 2 ^ k /\ memory + size <= 2 ^ 64)
      /\ rs' = rs ++ [MkMemoryRegion base size memory])
  \/ (exists base size, 0 <= base < 2 ^ 64 /\ 0 < size < 2 ^ 64 /\ page_aligned base /\ page_aligned size
      /\ (nowrap = true -> base + size <= 2 ^ 64) /\ (gapless = true -> Forall (touches base size) rs)
      /\ SubtractMemoryRange base size rs = Some rs').
Proof.
  assert (Hk64 : 2 ^ k <= 2 ^ 64) by (apply Z.pow_le_mono_r; lia).
  intros Hstep. destruct Hstep as
    [vm m base size flags memory Hb Hs Hm Hw|vm m base size st vm' Hb Hs Hw Ht He| |vm m base size bitmap bitmapSize st vm' m' Hqu|vm m base size|]; simpl in *.
  - destruct (map_cases base size flags memory vm) as [He|(?&?&?&?&?&He'&->)]; [lia|lia|by left|].
    right; left. exists base, size, memory. split_and!; try (done || lia). intros Hn. destruct (Hw Hn) as [Hw1 Hw2].
    rewrite u64_final in He' by lia. lia.
  - destruct (unmap_cases _ _ _ _ _ He) as [[Heq _]|(_&?&?&?&Hsub)]; [by left|].
    right; right. exists base, size. split_and!; (done || lia).
  - left. apply set_flags_regions.
  - left. pose proof (query_regions base size bitmap bitmapSize vm m) as Hq. rewrite Hqu in Hq. exact Hq.
  - left. apply clear_regions.
  - by left.
Qed.

Lemma vm_step_cells nowrap gapless (s s' : VM * hmem) :
  vm_step largeMemoryAllocation mask nowrap gapless s s' ->
  Forall region_cell (m_memoryRegions s.1) -> Forall region_cell (m_memoryRegions s'.1).
Proof.
  intros Hs Hc. destruct (vm_step_regions _ _ _ _ Hs)
    as [->|[(base&size&memory&?&?&?&?&?&?&_&->)|(base&size&?&?&?&?&_&_&Hsub)]]; [done| |].
  - apply Forall_app. split; [done|]. apply Forall_singleton. unfold region_cell; cbn. split_and!; (done || lia).
  - unfold SubtractMemoryRange in Hsub. eapply (subtract_loop_cells base size); [done|done|lia|exact Hc|exact Hsub].
Qed.

Lemma vm_step_gwf gapless (s s' : VM * hmem) :
  vm_step largeMemoryAllocation mask true gapless s s' ->
  Forall region_gwf (m_memoryRegions s.1) -> Forall region_gwf (m_memoryRegions s'.1).
Proof.
  assert (Hk64 : 2 ^ k <= 2 ^ 64) by (apply Z.pow_le_mono_r; lia).
  intros Hs Hc. destruct (vm_step_regions _ _ _ _ Hs)
    as [->|[(base&size&memory&?&?&?&?&?&?&Hw&->)|(base&size&?&?&?&?&Hw&_&Hsub)]]; [done| |].
  - apply Forall_app. split; [done|]. apply Forall_singleton. destruct (Hw eq_refl). unfold region_gwf; cbn. lia.
  - specialize (Hw eq_refl). assert (Hr : range_ok base size) by (unfold range_ok; lia).
    rewrite subtract_spec in Hsub by done. injection Hsub as <-. by apply subtract1_gwf_all.
Qed.

Lemma vm_step_inv (s s' : VM * hmem) :
  vm_step largeMemoryAllocation mask true true s s' ->
  Forall (region_inv (2 ^ k)) (m_memoryRegions s.1) ->
  Forall (region_inv (2 ^ k)) (m_memoryRegions s'.1).
Proof.
  assert (Hk64 : 2 ^ k <= 2 ^ 64) by (apply Z.pow_le_mono_r; lia).
  intros Hs Hinv. destruct (vm_step_regions _ _ _ _ Hs)
    as [->|[(base&size&memory&?&?&?&?&?&?&Hw&->)|(base&size&?&?&?&?&Hw&Ht&Hsub)]]; [done| |].
  - destruct (Hw eq_refl). apply Forall_app. split; [done|]. apply Forall_singleton.
    unfold region_inv, region_wf, region_gwf; simpl. split_and!; (done || lia).
  - specialize (Hw eq_refl). specialize (Ht eq_refl). assert (Hr : range_ok base size) by (unfold range_ok; lia).
    assert (Hwf : Forall region_gwf (m_memoryRegions s.1)).
    { eapply Forall_impl; [exact Hinv|]. by intros ? [[? _] _]. }
    rewrite subtract_spec in Hsub by done. injection Hsub as <-. clear Hwf.
    induction (m_memoryRegions s.1) as [|r rs IH]; simpl; [constructor|].
    apply Forall_cons in Hinv as [? ?], Ht as [? ?].
    apply Forall_app. split; [by apply subtract1_inv|by apply IH].
Qed.
(** An invariant of the region list. *)
Lemma vm_reachable_ind (P : MemoryRegion -> Prop) nowrap gapless (b : B) m0 (vm : VM) m :
  (forall s s' : VM * hmem, vm_step largeMemoryAllocation mask nowrap gapless s s' ->
     Forall P (m_memoryRegions s.1) -> Forall P (m_memoryRegions s'.1)) ->
  vm_reachable largeMemoryAllocation mask nowrap gapless b m0 (vm, m) -> Forall P (m_memoryRegions vm).
Proof.
  intros Hstep Hr. change vm with (vm, m).1. unfold vm_reachable in Hr.
  remember (newVM b, m0) as s0 eqn:E0. remember (vm, m) as s.
  assert (Hi : Forall P (m_memoryRegions s0.1)) by (subst; constructor).
  clear E0 Heqs. induction Hr as [|s1 s2 s3 Hs _ IH]; [done|]. apply IH. by eapply Hstep.
Qed.

Lemma covers_trans r p n a : covers r p n = true -> p <= a < p + n -> covers r a 1 = true.
Proof. rewrite !covers_spec. lia. Qed.

(** A lookup that meets an untranslated address finds nothing. *)
Lemma locate_untranslated rs p n a : p <= a < p + n -> translate rs a = None ->
  locate rs p n = None.
Proof.
  intros Ha Ht. apply locate_None. unfold translate in Ht. apply fmap_None, locate_None in Ht.
  eapply Forall_impl; [exact Ht|]. intros r Hr.
  apply not_true_iff_false. intros Hc%(covers_trans _ _ _ a); congruence.
Qed.

End Facts.

(** ** Theorems *)

(** C1: the region list in every state that calls can reach from a new virtual machine, whatever the
    platform answers.  After any calls with 64-bit arguments, each region is non-empty and
    page-aligned in the guest and in the host.  If no mapped block and no unmapped range runs over the
    top of the address space (which the bounds check lets through), no region wraps in the guest.  If in
    addition every unmapped range meets or borders all regions (else regions are extended over the
    gap), each region lies inside the guest-physical limit and its block does not wrap. *)
Theorem reachable_regions_invariant {B V W} `{VMBackend B} large k (b : B) m0
    (vm : VirtualMachine B V W) m : 12 <= k <= 64 ->
  (vm_reachable large (Z.ones k) false false b m0 (vm, m) -> Forall region_cell (m_memoryRegions vm))
  /\ (vm_reachable large (Z.ones k) true false b m0 (vm, m) -> Forall region_gwf (m_memoryRegions vm))
  /\ (vm_reachable large (Z.ones k) true true b m0 (vm, m) -> Forall (region_inv (2 ^ k)) (m_memoryRegions vm)).
Proof.
  intros Hk. split; [|split]; apply vm_reachable_ind.
  - intros s s'. by apply vm_step_cells.
  - intros s s'. by apply vm_step_gwf.
  - intros s s'. by apply vm_step_inv.
Qed.

(** C4: after [UnmapGuestMemory] returns OK, no guest memory read or write that
    meets the unmapped range succeeds any more. *)
Theorem unmapped_range_is_inaccessible {B V W} `{VMBackend B} large
    (vm vm' : VirtualMachine B V W) base size p n m v :
  Forall region_gwf (m_memoryRegions vm) -> range_ok base size ->
  UnmapGuestMemory large base size vm = Some (MM_OK, vm') ->
  range_ok p n -> p < base + size -> base < p + n ->
  VMMemRead vm' m p n = None /\ VMMemWrite vm' m p n v = None.
Proof.
  intros Hwf Hb Hu Hp Hlt1 Hlt2.
  destruct (unmap_cases large _ _ _ _ _ Hu) as [[_ ?]|(_&_&_&_&Hs)]; [done|].
  rewrite subtract_spec in Hs by done. injection Hs as Hs.
  assert (Hl : locate (m_memoryRegions vm') p n = None).
  { apply locate_untranslated with (Z.max p base); [destruct Hp, Hb; lia|].
    rewrite <- Hs. apply flat_map_inside; [done|done|destruct Hp, Hb; lia]. }
  assert (Hg : Forall region_gwf (m_memoryRegions vm')) by (rewrite <- Hs; by apply subtract1_gwf_all).
  unfold VMMemRead, VMMemWrite. by rewrite MemRead_spec, MemWrite_spec, Hl by done.
Qed.

(** C21: after [MapGuestMemory] returns OK, reads and writes inside the new range
    go to the block that was given, even where an older region covers the same
    addresses; and what the guest range holds is what the block holds. *)
Theorem mapped_range_is_the_host_block {B V W} `{VMBackend B} large mask
    (vm vm' : VirtualMachine B V W) base size flags memory p n m v :
  Forall region_gwf (m_memoryRegions vm) -> range_ok base size -> size < 2 ^ 64 ->
  0 <= memory -> memory + size <= 2 ^ 64 ->
  MapGuestMemory large mask base size flags memory vm = (MM_OK, vm') ->
  range_ok p n -> base <= p -> p + n <= base + size ->
  VMMemRead vm' m p n = Some (host_read m (memory + (p - base)) n)
  /\ VMMemWrite vm' m p n v
     = Some (host_write m (memory + (p - base)) (take (Z.to_nat n) v)).
Proof.
  intros Hwf Hb Hs64 Hm Hms Hmap Hp Hlo Hhi.
  assert (m_memoryRegions vm' = m_memoryRegions vm ++ [MkMemoryRegion base size memory]) as Hr.
  { revert Hmap. unfold MapGuestMemory. repeat (case_if; [done|]).
    destruct (MapGuestMemoryImpl base size flags memory (m_backend vm)) as [[] b']; try done.
    by intros [= <-]. }
  assert (Hg : Forall region_gwf (m_memoryRegions vm')).
  { rewrite Hr. apply Forall_app. split; [done|]. by apply Forall_singleton. }
  assert (Hl : locate (m_memoryRegions vm') p n = Some (MkMemoryRegion base size memory)).
  { rewrite Hr, locate_app. simpl. by rewrite (proj2 (covers_spec _ p n)) by (simpl; lia). }
  assert (Ha : host_addr (MkMemoryRegion base size memory) p = memory + (p - base)).
  { unfold host_addr; simpl. apply u64_small. destruct Hp; lia. }
  unfold VMMemRead, VMMemWrite. rewrite MemRead_spec, MemWrite_spec, Hl by done. simpl. by rewrite Ha.
Qed.

(** The bounds check computes the last address modulo 2^64: a range that runs
    over the top of the address space passes it when its wrapped end is below
    the limit, and the platform is asked to map it. *)
Theorem wrapping_range_passes_bounds_check {B V W} `{VMBackend B} k
    (vm : VirtualMachine B V W) base size flags memory :
  12 <= k <= 64 -> page_aligned memory -> page_aligned base -> page_aligned size ->
  0 <= base < 2 ^ k -> 0 < size < 2 ^ 64 -> 2 ^ 64 < base + size -> base + size - 2 ^ 64 <= 2 ^ k ->
  fst (MapGuestMemory true (Z.ones k) base size flags memory vm)
  = fst (MapGuestMemoryImpl base size flags memory (m_backend vm)).
Proof.
  intros Hk Hm Hb Hs Hbr Hsr Hw Hl. unfold MapGuestMemory.
  assert (2 ^ k <= 2 ^ 64) by (apply Z.pow_le_mono_r; lia).
  rewrite (proj2 (nz_fff memory)), (proj2 (nz_fff base)), (proj2 (nz_fff size)) by done.
  destruct (Z.eqb_spec size 0); [lia|]. rewrite andb_false_r.
  assert (He : u64 (u64 (base + size) - 1) = base + size - 2 ^ 64 - 1) by (unfold u64; zlia).
  rewrite He. rewrite (proj2 (land_lnot_mask base k ltac:(lia) ltac:(lia))) by lia.
  rewrite (proj2 (land_lnot_mask (base + size - 2 ^ 64 - 1) k ltac:(lia) ltac:(lia))) by lia. simpl.
  by destruct (MapGuestMemoryImpl base size flags memory (m_backend vm)) as [[] b'].
Qed.

(** ** A concrete platform: maps and unmaps anything, no optional features *)
Definition permissive_backend : VMBackend unit := {|
  MapGuestMemoryImpl _ _ _ _ b := (MM_OK, b);
  UnmapGuestMemoryImpl _ _ b := (MM_OK, b);
  SetGuestMemoryFlagsImpl := default_SetGuestMemoryFlagsImpl;
  QueryDirtyPagesImpl := default_QueryDirtyPagesImpl;
  ClearDirtyPagesImpl := default_ClearDirtyPagesImpl
|}.
#[local] Existing Instance permissive_backend.

Definition example_vm : VirtualMachine unit unit unit :=
  snd (MapGuestMemory true (Z.ones 48) 0x0 0x4000 7 0x700000 (newVM tt)).

Lemma example_vm_gwf : Forall region_gwf (m_memoryRegions example_vm).
Proof. apply Forall_singleton. unfold region_gwf; simpl; lia. Qed.

(** A block mapped at 0 and one that wraps: the first is within the limit, and both are cells. *)
Lemma reachable_regions_invariant_witness :
  let wrapping := snd (MapGuestMemory true (Z.ones 48) 0x2000 0xFFFFFFFFFFFFF000 7 0x700000 example_vm) in
  Forall (region_inv (2 ^ 48)) (m_memoryRegions example_vm)
  /\ m_memoryRegions example_vm = [MkMemoryRegion 0x0 0x4000 0x700000]
  /\ Forall region_cell (m_memoryRegions wrapping) /\ length (m_memoryRegions wrapping) = 2%nat.
Proof.
  intros wrapping. split; [|split; [reflexivity|split; [|reflexivity]]].
  - refine (proj2 (proj2 (reachable_regions_invariant true 48 tt example_mem example_vm example_mem ltac:(lia))) _).
    apply rtc_once. apply (step_map true (Z.ones 48) true true (newVM tt) example_mem 0x0 0x4000 7 0x700000); lia.
  - refine (proj1 (reachable_regions_invariant true 48 tt example_mem wrapping example_mem ltac:(lia)) _).
    eapply rtc_l; [apply (step_map true (Z.ones 48) false false (newVM tt) example_mem 0x0 0x4000 7 0x700000); (lia || done)|].
    apply rtc_once. apply (step_map true (Z.ones 48) false false example_vm example_mem 0x2000 0xFFFFFFFFFFFFF000 7 0x700000); (lia || done).
Defined.

Lemma unmapped_range_is_inaccessible_witness :
  exists vm', UnmapGuestMemory true 0x1000 0x1000 example_vm = Some (MM_OK, vm')
  /\ VMMemRead vm' example_mem 0xFFC 8 = None.
Proof.
  eexists. split; [reflexivity|].
  refine (proj1 (unmapped_range_is_inaccessible true example_vm _ 0x1000 0x1000 0xFFC 8 example_mem []
            example_vm_gwf _ eq_refl _ _ _)); unfold range_ok; lia.
Defined.

Lemma mapped_range_is_the_host_block_witness :
  exists vm', MapGuestMemory true (Z.ones 48) 0x1000 0x1000 7 0x900000 example_vm = (MM_OK, vm')
  /\ VMMemRead vm' example_mem 0x1010 4 = Some (host_read example_mem 0x900010 4).
Proof.
  eexists. split; [reflexivity|].
  refine (proj1 (mapped_range_is_the_host_block true (Z.ones 48) example_vm _ 0x1000 0x1000 7 0x900000
            0x1010 4 example_mem [] example_vm_gwf _ _ _ _ eq_refl _ _ _)); unfold range_ok; lia.
Defined.

(** Base 0x2000 with 2^64 - 0x1000 bytes: the last address wraps to 0xFFF. *)
Lemma wrapping_range_passes_bounds_check_witness :
  fst (MapGuestMemory true (Z.ones 48) 0x2000 0xFFFFFFFFFFFFF000 7 0x700000
         (newVM tt : VirtualMachine unit unit unit)) = MM_OK.
Proof.
  refine (wrapping_range_passes_bounds_check 48 _ 0x2000 0xFFFFFFFFFFFFF000 7 0x700000
            _ _ _ _ _ _ _ _); (done || lia).
Defined.
