(* ===== verification/Regs.v ===== *)
(** * Registers (vp/regs.hpp)

    The register enumeration with its numbering, the union [RegValue] as the
    512-bit integer of its bytes, and the bits of the control registers. *)
From S2P Require Import Prelude Bits.

Module Reg.
(** The enumerators of [Reg], in order. *)
Inductive t :=
| CS | SS | DS | ES | FS | GS | LDTR | TR | GDTR | IDTR | AL | AH | CL | CH | DL | DH
| BL | BH | SPL | BPL | SIL | DIL | R8B | R9B | R10B | R11B | R12B | R13B | R14B | R15B
| AX | CX | DX | BX | SP | BP | SI | DI | R8W | R9W | R10W | R11W | R12W | R13W | R14W
| R15W | IP | FLAGS | EAX | ECX | EDX | EBX | ESP | EBP | ESI | EDI | R8D | R9D | R10D
| R11D | R12D | R13D | R14D | R15D | EIP | EFLAGS | RAX | RCX | RDX | RBX | RSP | RBP
| RSI | RDI | R8 | R9 | R10 | R11 | R12 | R13 | R14 | R15 | RIP | RFLAGS | CR0 | CR2
| CR3 | CR4 | CR8 | EFER | XCR0 | DR0 | DR1 | DR2 | DR3 | DR6 | DR7 | ST0 | ST1 | ST2
| ST3 | ST4 | ST5 | ST6 | ST7 | MM0 | MM1 | MM2 | MM3 | MM4 | MM5 | MM6 | MM7 | XMM0
| XMM1 | XMM2 | XMM3 | XMM4 | XMM5 | XMM6 | XMM7 | XMM8 | XMM9 | XMM10 | XMM11 | XMM12
| XMM13 | XMM14 | XMM15 | XMM16 | XMM17 | XMM18 | XMM19 | XMM20 | XMM21 | XMM22 | XMM23
| XMM24 | XMM25 | XMM26 | XMM27 | XMM28 | XMM29 | XMM30 | XMM31 | YMM0 | YMM1 | YMM2
| YMM3 | YMM4 | YMM5 | YMM6 | YMM7 | YMM8 | YMM9 | YMM10 | YMM11 | YMM12 | YMM13
| YMM14 | YMM15 | YMM16 | YMM17 | YMM18 | YMM19 | YMM20 | YMM21 | YMM22 | YMM23 | YMM24
| YMM25 | YMM26 | YMM27 | YMM28 | YMM29 | YMM30 | YMM31 | ZMM0 | ZMM1 | ZMM2 | ZMM3
| ZMM4 | ZMM5 | ZMM6 | ZMM7 | ZMM8 | ZMM9 | ZMM10 | ZMM11 | ZMM12 | ZMM13 | ZMM14
| ZMM15 | ZMM16 | ZMM17 | ZMM18 | ZMM19 | ZMM20 | ZMM21 | ZMM22 | ZMM23 | ZMM24 | ZMM25
| ZMM26 | ZMM27 | ZMM28 | ZMM29 | ZMM30 | ZMM31.

(** The value of an enumerator. *)
Definition idx (r : t) : Z :=
  match r with
  | CS => 0 | SS => 1 | DS => 2 | ES => 3 | FS => 4 | GS => 5 | LDTR => 6 | TR => 7
  | GDTR => 8 | IDTR => 9 | AL => 10 | AH => 11 | CL => 12 | CH => 13 | DL => 14
  | DH => 15 | BL => 16 | BH => 17 | SPL => 18 | BPL => 19 | SIL => 20 | DIL => 21
  | R8B => 22 | R9B => 23 | R10B => 24 | R11B => 25 | R12B => 26 | R13B => 27
  | R14B => 28 | R15B => 29 | AX => 30 | CX => 31 | DX => 32 | BX => 33 | SP => 34
  | BP => 35 | SI => 36 | DI => 37 | R8W => 38 | R9W => 39 | R10W => 40 | R11W => 41
  | R12W => 42 | R13W => 43 | R14W => 44 | R15W => 45 | IP => 46 | FLAGS => 47
  | EAX => 48 | ECX => 49 | EDX => 50 | EBX => 51 | ESP => 52 | EBP => 53 | ESI => 54
  | EDI => 55 | R8D => 56 | R9D => 57 | R10D => 58 | R11D => 59 | R12D => 60 | R13D => 61
  | R14D => 62 | R15D => 63 | EIP => 64 | EFLAGS => 65 | RAX => 66 | RCX => 67
  | RDX => 68 | RBX => 69 | RSP => 70 | RBP => 71 | RSI => 72 | RDI => 73 | R8 => 74
  | R9 => 75 | R10 => 76 | R11 => 77 | R12 => 78 | R13 => 79 | R14 => 80 | R15 => 81
  | RIP => 82 | RFLAGS => 83 | CR0 => 84 | CR2 => 85 | CR3 => 86 | CR4 => 87 | CR8 => 88
  | EFER => 89 | XCR0 => 90 | DR0 => 91 | DR1 => 92 | DR2 => 93 | DR3 => 94 | DR6 => 95
  | DR7 => 96 | ST0 => 97 | ST1 => 98 | ST2 => 99 | ST3 => 100 | ST4 => 101 | ST5 => 102
  | ST6 => 103 | ST7 => 104 | MM0 => 105 | MM1 => 106 | MM2 => 107 | MM3 => 108
  | MM4 => 109 | MM5 => 110 | MM6 => 111 | MM7 => 112 | XMM0 => 113 | XMM1 => 114
  | XMM2 => 115 | XMM3 => 116 | XMM4 => 117 | XMM5 => 118 | XMM6 => 119 | XMM7 => 120
  | XMM8 => 121 | XMM9 => 122 | XMM10 => 123 | XMM11 => 124 | XMM12 => 125 | XMM13 => 126
  | XMM14 => 127 | XMM15 => 128 | XMM16 => 129 | XMM17 => 130 | XMM18 => 131
  | XMM19 => 132 | XMM20 => 133 | XMM21 => 134 | XMM22 => 135 | XMM23 => 136
  | XMM24 => 137 | XMM25 => 138 | XMM26 => 139 | XMM27 => 140 | XMM28 => 141
  | XMM29 => 142 | XMM30 => 143 | XMM31 => 144 | YMM0 => 145 | YMM1 => 146 | YMM2 => 147
  | YMM3 => 148 | YMM4 => 149 | YMM5 => 150 | YMM6 => 151 | YMM7 => 152 | YMM8 => 153
  | YMM9 => 154 | YMM10 => 155 | YMM11 => 156 | YMM12 => 157 | YMM13 => 158
  | YMM14 => 159 | YMM15 => 160 | YMM16 => 161 | YMM17 => 162 | YMM18 => 163
  | YMM19 => 164 | YMM20 => 165 | YMM21 => 166 | YMM22 => 167 | YMM23 => 168
  | YMM24 => 169 | YMM25 => 170 | YMM26 => 171 | YMM27 => 172 | YMM28 => 173
  | YMM29 => 174 | YMM30 => 175 | YMM31 => 176 | ZMM0 => 177 | ZMM1 => 178 | ZMM2 => 179
  | ZMM3 => 180 | ZMM4 => 181 | ZMM5 => 182 | ZMM6 => 183 | ZMM7 => 184 | ZMM8 => 185
  | ZMM9 => 186 | ZMM10 => 187 | ZMM11 => 188 | ZMM12 => 189 | ZMM13 => 190
  | ZMM14 => 191 | ZMM15 => 192 | ZMM16 => 193 | ZMM17 => 194 | ZMM18 => 195
  | ZMM19 => 196 | ZMM20 => 197 | ZMM21 => 198 | ZMM22 => 199 | ZMM23 => 200
  | ZMM24 => 201 | ZMM25 => 202 | ZMM26 => 203 | ZMM27 => 204 | ZMM28 => 205
  | ZMM29 => 206 | ZMM30 => 207 | ZMM31 => 208
  end.

(** All enumerators, in order. *)
Definition all : list t :=
  [CS; SS; DS; ES; FS; GS; LDTR; TR; GDTR; IDTR; AL; AH; CL; CH; DL; DH; BL; BH; SPL;
   BPL; SIL; DIL; R8B; R9B; R10B; R11B; R12B; R13B; R14B; R15B; AX; CX; DX; BX; SP; BP;
   SI; DI; R8W; R9W; R10W; R11W; R12W; R13W; R14W; R15W; IP; FLAGS; EAX; ECX; EDX; EBX;
   ESP; EBP; ESI; EDI; R8D; R9D; R10D; R11D; R12D; R13D; R14D; R15D; EIP; EFLAGS; RAX;
   RCX; RDX; RBX; RSP; RBP; RSI; RDI; R8; R9; R10; R11; R12; R13; R14; R15; RIP; RFLAGS;
   CR0; CR2; CR3; CR4; CR8; EFER; XCR0; DR0; DR1; DR2; DR3; DR6; DR7; ST0; ST1; ST2; ST3;
   ST4; ST5; ST6; ST7; MM0; MM1; MM2; MM3; MM4; MM5; MM6; MM7; XMM0; XMM1; XMM2; XMM3;
   XMM4; XMM5; XMM6; XMM7; XMM8; XMM9; XMM10; XMM11; XMM12; XMM13; XMM14; XMM15; XMM16;
   XMM17; XMM18; XMM19; XMM20; XMM21; XMM22; XMM23; XMM24; XMM25; XMM26; XMM27; XMM28;
   XMM29; XMM30; XMM31; YMM0; YMM1; YMM2; YMM3; YMM4; YMM5; YMM6; YMM7; YMM8; YMM9;
   YMM10; YMM11; YMM12; YMM13; YMM14; YMM15; YMM16; YMM17; YMM18; YMM19; YMM20; YMM21;
   YMM22; YMM23; YMM24; YMM25; YMM26; YMM27; YMM28; YMM29; YMM30; YMM31; ZMM0; ZMM1;
   ZMM2; ZMM3; ZMM4; ZMM5; ZMM6; ZMM7; ZMM8; ZMM9; ZMM10; ZMM11; ZMM12; ZMM13; ZMM14;
   ZMM15; ZMM16; ZMM17; ZMM18; ZMM19; ZMM20; ZMM21; ZMM22; ZMM23; ZMM24; ZMM25; ZMM26;
   ZMM27; ZMM28; ZMM29; ZMM30; ZMM31].

(** [static_cast<Reg>] of an integer: defined on the values of enumerators. *)
Definition of_idx (i : Z) : option t := if i <? 0 then None else all !! Z.to_nat i.

(** Aliases. *)
Abbreviation R0B := AL.
Abbreviation R1B := CL.
Abbreviation R2B := DL.
Abbreviation R3B := BL.
Abbreviation R4B := SPL.
Abbreviation R5B := BPL.
Abbreviation R6B := SIL.
Abbreviation R7B := DIL.
Abbreviation R0W := AX.
Abbreviation R1W := CX.
Abbreviation R2W := DX.
Abbreviation R3W := BX.
Abbreviation R4W := SP.
Abbreviation R5W := BP.
Abbreviation R6W := SI.
Abbreviation R7W := DI.
Abbreviation R0D := EAX.
Abbreviation R1D := ECX.
Abbreviation R2D := EDX.
Abbreviation R3D := EBX.
Abbreviation R4D := ESP.
Abbreviation R5D := EBP.
Abbreviation R6D := ESI.
Abbreviation R7D := EDI.
Abbreviation R0 := RAX.
Abbreviation R1 := RCX.
Abbreviation R2 := RDX.
Abbreviation R3 := RBX.
Abbreviation R4 := RSP.
Abbreviation R5 := RBP.
Abbreviation R6 := RSI.
Abbreviation R7 := RDI.

Lemma of_idx_idx r : of_idx (idx r) = Some r.
Proof. by destruct r. Qed.

Lemma idx_inj r1 r2 : idx r1 = idx r2 -> r1 = r2.
Proof.
  intros H. pose proof (of_idx_idx r1) as H1. rewrite H, of_idx_idx in H1. by injection H1.
Qed.

#[global] Instance eq_dec : EqDecision t.
Proof.
  intros r1 r2. destruct (Z.eq_dec (idx r1) (idx r2)) as [H|H].
  - left. by apply idx_inj.
  - right. congruence.
Defined.
End Reg.

(** [RegOffset], [RegAdd] and [RegBetween]; [w] is the width of the integer type
    [T] the template is used with. *)
Definition RegOffset (w : Z) (base reg : Reg.t) : Z := (Reg.idx reg - Reg.idx base) mod 2 ^ w.
Definition RegAdd (base : Reg.t) (offset : Z) : option Reg.t := Reg.of_idx (Reg.idx base + offset).
Definition RegBetween (reg first last : Reg.t) : bool :=
  (Reg.idx first <=? Reg.idx reg) && (Reg.idx reg <=? Reg.idx last).

(** ** [union RegValue] *)
Definition RegValue := Z.

Module RV.
(** Little-endian members, at the offsets of the x86-64 layout. *)
Definition u8 := Field 0 8.
Definition u16 := Field 0 16.
Definition u32 := Field 0 32.
Definition u64 := Field 0 64.
(** [segment]: selector, base, limit and attributes. *)
Definition selector := Field 0 16.
Definition segbase := Field 64 64.
Definition seglimit := Field 128 32.
Definition attributes := Field 160 16.
Definition attr_type := Field 160 4.
Definition attr_system := Field 164 1.
Definition attr_privilegeLevel := Field 165 2.
Definition attr_present := Field 167 1.
Definition attr_available := Field 172 1.
Definition attr_longMode := Field 173 1.
Definition attr_defaultSize := Field 174 1.
Definition attr_granularity := Field 175 1.
(** [table]: base and limit. *)
Definition tbase := Field 0 64.
Definition tlimit := Field 64 16.
(** [st]: significand, exponent and sign. *)
Definition significand := Field 0 64.
Definition exponentSign := Field 64 16.
(** [mm.i64], [xmm.i64[i]], [ymm.i64[i]], [zmm.i64[i]]. *)
Definition i64 (i : Z) := Field (64 * i) 64.
End RV.

(** The constructors [RegValue(const uintN_t&)] and [RegValue(const intN_t&)]
    assign the member [u64] of a fresh value. *)
Definition RegValue_of_u64 (v : Z) : RegValue := fset RV.u64 v 0.
Definition RegValue_of_i64 (v : Z) : RegValue := fset RV.u64 v 0.

Inductive SegmentSize := SegSize_Invalid | SegSize_16 | SegSize_32 | SegSize_64.

(** ** Register bits and masks *)
Definition RFLAGS_CF : Z := 1 <<< 0.
Definition RFLAGS_PF : Z := 1 <<< 2.
Definition RFLAGS_AF : Z := 1 <<< 4.
Definition RFLAGS_ZF : Z := 1 <<< 6.
Definition RFLAGS_SF : Z := 1 <<< 7.
Definition RFLAGS_TF : Z := 1 <<< 8.
Definition RFLAGS_IF : Z := 1 <<< 9.
Definition RFLAGS_DF : Z := 1 <<< 10.
Definition RFLAGS_OF : Z := 1 <<< 11.
Definition RFLAGS_IOPL : Z := 3 <<< 12.
Definition RFLAGS_IOPL_SHIFT : Z := 12.
Definition RFLAGS_NT : Z := 1 <<< 14.
Definition RFLAGS_RF : Z := 1 <<< 16.
Definition RFLAGS_VM : Z := 1 <<< 17.
Definition RFLAGS_AC : Z := 1 <<< 18.
Definition RFLAGS_VIF : Z := 1 <<< 19.
Definition RFLAGS_VIP : Z := 1 <<< 20.
Definition RFLAGS_ID : Z := 1 <<< 21.
Definition SEG_TYPE_ACCESSED : Z := 1 <<< 0.
Definition SEG_TYPE_READABLE : Z := 1 <<< 1.
Definition SEG_TYPE_WRITABLE : Z := 1 <<< 1.
Definition SEG_TYPE_CONFORMING : Z := 1 <<< 2.
Definition SEG_TYPE_EXPANDDOWN : Z := 1 <<< 2.
Definition SEG_TYPE_CODE : Z := 1 <<< 3.
Definition CR0_PE : Z := 1 <<< 0.
Definition CR0_MP : Z := 1 <<< 1.
Definition CR0_EM : Z := 1 <<< 2.
Definition CR0_TS : Z := 1 <<< 3.
Definition CR0_ET : Z := 1 <<< 4.
Definition CR0_NE : Z := 1 <<< 5.
Definition CR0_WP : Z := 1 <<< 16.
Definition CR0_AM : Z := 1 <<< 18.
Definition CR0_NW : Z := 1 <<< 29.
Definition CR0_CD : Z := 1 <<< 30.
Definition CR0_PG : Z := 1 <<< 31.
Definition CR4_VME : Z := 1 <<< 0.
Definition CR4_PVI : Z := 1 <<< 1.
Definition CR4_TSD : Z := 1 <<< 2.
Definition CR4_DE : Z := 1 <<< 3.
Definition CR4_PSE : Z := 1 <<< 4.
Definition CR4_PAE : Z := 1 <<< 5.
Definition CR4_MCE : Z := 1 <<< 6.
Definition CR4_PGE : Z := 1 <<< 7.
Definition CR4_PCE : Z := 1 <<< 8.
Definition CR4_OSFXSR : Z := 1 <<< 9.
Definition CR4_OSXMMEXCPT : Z := 1 <<< 10.
Definition CR4_UMIP : Z := 1 <<< 11.
Definition CR4_VMXE : Z := 1 <<< 13.
Definition CR4_SMXE : Z := 1 <<< 14.
Definition CR4_PCID : Z := 1 <<< 17.
Definition CR4_OSXSAVE : Z := 1 <<< 18.
Definition CR4_SMEP : Z := 1 <<< 20.
Definition CR4_SMAP : Z := 1 <<< 21.
Definition CR8_TPR : Z := 0xF <<< 0.
Definition EFER_SCE : Z := 1 <<< 0.
Definition EFER_LME : Z := 1 <<< 8.
Definition EFER_LMA : Z := 1 <<< 10.
Definition EFER_NXE : Z := 1 <<< 11.
Definition EFER_SVME : Z := 1 <<< 12.
Definition EFER_LMSLE : Z := 1 <<< 13.
Definition EFER_FFXSR : Z := 1 <<< 14.
Definition EFER_TCE : Z := 1 <<< 15.
Definition XCR0_FP : Z := 1 <<< 0.
Definition XCR0_SSE : Z := 1 <<< 1.
Definition XCR0_AVX : Z := 1 <<< 2.
Definition XCR0_BNDREG : Z := 1 <<< 3.
Definition XCR0_BNDCSR : Z := 1 <<< 4.
Definition XCR0_opmask : Z := 1 <<< 5.
Definition XCR0_ZMM_Hi256 : Z := 1 <<< 6.
Definition XCR0_Hi16_ZMM : Z := 1 <<< 7.
Definition XCR0_PKRU : Z := 1 <<< 9.
Definition DR6_BP0 : Z := 1 <<< 0.
Definition DR6_BP1 : Z := 1 <<< 1.
Definition DR6_BP2 : Z := 1 <<< 2.
Definition DR6_BP3 : Z := 1 <<< 3.

(** DR7 fields of breakpoint [index]. *)
Definition DR7_LOCAL (index : Z) : Z := u64 (1 <<< (index <<< 1)).
Definition DR7_GLOBAL (index : Z) : Z := u64 (1 <<< ((index <<< 1) + 1)).
Definition DR7_COND_SHIFT (index : Z) : Z := u64 ((index <<< 2) + 16).
Definition DR7_COND (index : Z) : Z := u64 (3 <<< DR7_COND_SHIFT index).
Definition DR7_SIZE_SHIFT (index : Z) : Z := u64 ((index <<< 2) + 18).
Definition DR7_SIZE (index : Z) : Z := u64 (3 <<< DR7_SIZE_SHIFT index).
Definition DR7_COND_EXEC : Z := 0.
Definition DR7_COND_WRITE : Z := 1.
Definition DR7_COND_WIDTH8 : Z := 2.
Definition DR7_COND_READWRITE : Z := 3.
Definition DR7_SIZE_BYTE : Z := 0.
Definition DR7_SIZE_WORD : Z := 1.
Definition DR7_SIZE_QWORD : Z := 2.
Definition DR7_SIZE_DWORD : Z := 3.
