(* ===== verification/Paging.v ===== *)
(** * Paging structures and page walks (vp/paging.hpp; vp/vp.cpp, linear memory)

    The page-table entries as bit-fields of one integer, [BuildAddress],
    [GetEntry] and the three walks of [VirtualProcessor::LinearToPhysical*] once
    CR3 (and CR4) have been read.  Guest-physical memory is reached through the
    virtual machine's regions.  A [false] result is [None]. *)
From S2P Require Import Prelude Bits MemRegions Regs.

(** ** Entries *)
Module PTE32.
Definition valid := Field 0 1.
Definition write := Field 1 1.
Definition owner := Field 2 1.
Definition writeThrough := Field 3 1.
Definition cacheDisable := Field 4 1.
Definition accessed := Field 5 1.
Definition dirty := Field 6 1.
Definition PAT := Field 7 1.
Definition global := Field 8 1.
Definition guard := Field 9 1.
Definition persist := Field 10 1.
Definition pageFrameNumber := Field 12 20.
End PTE32.

Module PDE32.
Definition valid := Field 0 1.
Definition write := Field 1 1.
Definition owner := Field 2 1.
Definition writeThrough := Field 3 1.
Definition accessed := Field 5 1.
Definition dirty := Field 6 1.
Definition largePage := Field 7 1.
Definition global := Field 8 1.
Definition guard := Field 9 1.
Definition persist := Field 10 1.
Definition table_cacheDisable := Field 4 1.
Definition table_pageFrameNumber := Field 12 20.
Definition large_PAT := Field 12 1.
Definition large_addrHigh := Field 13 8.
Definition large_addrLow := Field 22 10.
End PDE32.

Module PTE64.
Definition valid := Field 0 1.
Definition write := Field 1 1.
Definition owner := Field 2 1.
Definition writeThrough := Field 3 1.
Definition cacheDisable := Field 4 1.
Definition accessed := Field 5 1.
Definition dirty := Field 6 1.
Definition PAT := Field 7 1.
Definition global := Field 8 1.
Definition guard := Field 9 1.
Definition persist := Field 10 1.
Definition address := Field 12 40.
Definition protectionKey := Field 59 4.
Definition executeDisable := Field 63 1.
End PTE64.

Module PDE64.
Definition valid := Field 0 1.
Definition write := Field 1 1.
Definition owner := Field 2 1.
Definition writeThrough := Field 3 1.
Definition cacheDisable := Field 4 1.
Definition accessed := Field 5 1.
Definition largePage := Field 7 1.
Definition executeDisable := Field 63 1.
Definition table_address := Field 12 40.
Definition table_protectionKey := Field 59 4.
Definition large_dirty := Field 6 1.
Definition large_global := Field 8 1.
Definition large_PAT := Field 12 1.
Definition large_address := Field 21 31.
Definition large_protectionKey := Field 59 4.
End PDE64.

Module PDPTE.
Definition valid := Field 0 1.
Definition write := Field 1 1.
Definition owner := Field 2 1.
Definition writeThrough := Field 3 1.
Definition cacheDisable := Field 4 1.
Definition accessed := Field 5 1.
Definition largePage := Field 7 1.
Definition executeDisable := Field 63 1.
Definition table_address := Field 12 40.
Definition large_dirty := Field 6 1.
Definition large_global := Field 8 1.
Definition large_PAT := Field 12 1.
Definition large_address := Field 30 22.
Definition large_protectionKey := Field 59 4.
End PDPTE.

Module PML4E.
Definition valid := Field 0 1.
Definition write := Field 1 1.
Definition owner := Field 2 1.
Definition writeThrough := Field 3 1.
Definition cacheDisable := Field 4 1.
Definition accessed := Field 5 1.
Definition address := Field 12 40.
Definition executeDisable := Field 63 1.
End PML4E.

(** ** Addresses and walks *)

Definition BuildAddress (linAddrBits tableBits : Z) (linAddr tableAddr : Z) : Z :=
  let linAddrMask := 0xFFFFFFFFFFFFFFFF >>> (64 - linAddrBits) in
  let tableMask := 0xFFFFFFFFFFFFFFFF >>> (64 - tableBits) in
  let tableShift := linAddrBits in
  u64 ((tableAddr &&& tableMask) <<< tableShift) ||| (linAddr &&& linAddrMask).

Section Walks.
Context (m : hmem) (regions : list MemoryRegion).

(** [GetEntry<linAddrBits, tableBits>] for an entry of [bytes] bytes with its
    [valid] member: [None] when it returns false. *)
Definition GetEntry (linAddrBits tableBits bytes : Z) (valid : field) (linAddr tableAddr : Z)
    : option Z :=
  let entryAddr := BuildAddress linAddrBits tableBits linAddr tableAddr in
  match MemRead m regions entryAddr bytes with
  | None => None
  | Some bs => let entry := le_combine bs in
      if nz (fget valid entry) then Some entry else None
  end.

Definition LinearToPhysical32 (cr3 cr4 : RegValue) (laddr : Z) : option Z :=
  match GetEntry 12 20 4 PDE32.valid ((laddr >>> 22) <<< 2) (fget RV.u32 cr3 >>> 12) with
  | None => None
  | Some pde =>
    if nz (fget PDE32.largePage pde) && nz (fget RV.u64 cr4 &&& CR4_PSE) then
      Some (BuildAddress 22 18 laddr
              ((fget PDE32.large_addrHigh pde <<< 10) ||| fget PDE32.large_addrLow pde))
    else
      match GetEntry 12 20 4 PTE32.valid ((laddr >>> 12) <<< 2)
              (fget PDE32.table_pageFrameNumber pde) with
      | None => None
      | Some pte => Some (BuildAddress 12 20 laddr (fget PTE32.pageFrameNumber pte))
      end
  end.

Definition LinearToPhysicalPAE (cr3 : RegValue) (laddr : Z) : option Z :=
  let pdpteIndex := u8 (laddr >>> 30) in
  match GetEntry 5 27 8 PDPTE.valid (pdpteIndex <<< 3) (fget RV.u64 cr3 >>> 5) with
  | None => None
  | Some pdpte =>
    (* [~0b111] is an int, converted to uint64_t with its sign *)
    match GetEntry 12 40 8 PDE64.valid (laddr &&& u64 (Z.lnot 7)) (fget PDPTE.table_address pdpte) with
    | None => None
    | Some pde =>
      if nz (fget PDE64.largePage pde) then
        Some (BuildAddress 21 31 laddr (fget PDE64.large_address pde))
      else
        match GetEntry 12 40 8 PTE64.valid ((laddr >>> 12) <<< 3) (fget PDE64.table_address pde) with
        | None => None
        | Some pte => Some (BuildAddress 12 40 laddr (fget PTE64.address pte))
        end
    end
  end.

Definition LinearToPhysical4Level (cr3 : RegValue) (laddr : Z) : option Z :=
  match GetEntry 12 40 8 PML4E.valid (u64 ((laddr >>> 39) <<< 3)) (fget RV.u64 cr3 >>> 12) with
  | None => None
  | Some pml4e =>
    match GetEntry 12 40 8 PDPTE.valid (u64 ((laddr >>> 30) <<< 3)) (fget PML4E.address pml4e) with
    | None => None
    | Some pdpte =>
      if nz (fget PDPTE.largePage pdpte) then
        Some (BuildAddress 30 22 laddr (fget PDPTE.large_address pdpte))
      else
        match GetEntry 12 40 8 PDE64.valid (u64 ((laddr >>> 21) <<< 3)) (fget PDPTE.table_address pdpte) with
        | None => None
        | Some pde =>
          if nz (fget PDE64.largePage pde) then
            Some (BuildAddress 21 31 laddr (fget PDE64.large_address pde))
          else
            match GetEntry 12 40 8 PTE64.valid (u64 ((laddr >>> 12) <<< 3)) (fget PDE64.table_address pde) with
            | None => None
            | Some pte => Some (BuildAddress 12 40 laddr (fget PTE64.address pte))
            end
        end
    end
  end.

End Walks.

(** ** Reference walk

    The x86 walk over a list of levels, with physical memory as the function [loads] that gives the
    bytes of a range.  A level is the position and the width
    of its index in the linear address, the size of the page its entries map
    when they may map one, and whether they may (their bit 7).  Tables are
    addressed arithmetically. *)
Record level := Level { lv_index : Z; lv_bits : Z; lv_page : Z; lv_large : bool }.

Section Reference.
Context (loads : Z -> Z -> option (list Z)).

(** [esize] bytes per entry; [addr_hi] is the end of the address bits. *)
Definition entry_at (esize table index : Z) : option Z :=
  bs ← loads (table + index * esize) esize;
  let e := le_combine bs in if Z.testbit e 0 then Some e else None.

(** Bits [lo, hi) of an entry, in place. *)
Definition frame (lo hi e : Z) : Z := (e / 2 ^ lo mod 2 ^ (hi - lo)) * 2 ^ lo.

Fixpoint walk (esize addr_hi : Z) (levels : list level) (table laddr : Z) : option Z :=
  match levels with
  | [] => Some (table + laddr mod 2 ^ 12)
  | l :: levels =>
      e ← entry_at esize table (laddr / 2 ^ lv_index l mod 2 ^ lv_bits l);
      if lv_large l && Z.testbit e 7
      then Some (frame (lv_page l) addr_hi e + laddr mod 2 ^ lv_page l)
      else walk esize addr_hi levels (frame 12 addr_hi e) laddr
  end.

Definition levels4 : list level :=
  [Level 39 9 39 false; Level 30 9 30 true; Level 21 9 21 true; Level 12 9 12 false].
Definition walk4 (cr3 laddr : Z) : option Z := walk 8 52 levels4 (frame 12 52 cr3) laddr.

(** The PAE levels; the first table has four entries and 32-byte alignment.
    [pde_index] is the position of the page-directory index: bit 21 in the
    architecture. *)
Definition levelsPAE (pde_index : Z) : list level :=
  [Level 30 2 30 false; Level pde_index 9 21 true; Level 12 9 12 false].
Definition walkPAE (pde_index cr3 laddr : Z) : option Z :=
  walk 8 52 (levelsPAE pde_index) (frame 5 32 cr3) laddr.

(** 32-bit paging, with 4 MiB pages and 40-bit addresses under CR4.PSE. *)
Definition walk32 (pse : bool) (cr3 laddr : Z) : option Z :=
  pde ← entry_at 4 (frame 12 32 cr3) (laddr / 2 ^ 22 mod 2 ^ 10);
  if Z.testbit pde 7 && pse
  then Some ((pde / 2 ^ 13 mod 2 ^ 8) * 2 ^ 32 + frame 22 32 pde + laddr mod 2 ^ 22)
  else pte ← entry_at 4 (frame 12 32 pde) (laddr / 2 ^ 12 mod 2 ^ 10);
       Some (frame 12 32 pte + laddr mod 2 ^ 12).
End Reference.

(** ** Lemmas *)

Lemma mask_shift n : 0 <= n <= 64 -> 0xFFFFFFFFFFFFFFFF >>> (64 - n) = Z.ones n.
Proof. intros. change 0xFFFFFFFFFFFFFFFF with (Z.ones 64). bitwise. Qed.

(** The composed address: the table part over the linear part, each cut to its
    width. *)
Lemma BuildAddress_arith lb tb lin tbl : 0 <= lb -> 0 <= tb -> lb + tb <= 64 ->
  BuildAddress lb tb lin tbl = (tbl mod 2 ^ tb) * 2 ^ lb + lin mod 2 ^ lb.
Proof.
  intros. unfold BuildAddress. rewrite !mask_shift, !Z.land_ones by lia.
  pose proof (Z.mod_pos_bound lin (2 ^ lb)). pose proof (Z.mod_pos_bound tbl (2 ^ tb)).
  pose proof (Z.pow_pos_nonneg 2 lb). pose proof (Z.pow_pos_nonneg 2 tb).
  assert (2 ^ (lb + tb) <= 2 ^ 64) by (apply Z.pow_le_mono_r; lia).
  rewrite Z.pow_add_r in * by lia. rewrite u64_small.
  - rewrite lor_shiftl_add by lia. done.
  - rewrite Z.shiftl_mul_pow2 by lia. nia.
Qed.

Lemma BuildAddress_range lb tb lin tbl : 0 <= lb -> 0 <= tb -> lb + tb <= 64 ->
  0 <= BuildAddress lb tb lin tbl < 2 ^ (lb + tb).
Proof.
  intros. rewrite BuildAddress_arith by lia. rewrite Z.pow_add_r by lia.
  pose proof (Z.mod_pos_bound lin (2 ^ lb)). pose proof (Z.mod_pos_bound tbl (2 ^ tb)).
  pose proof (Z.pow_pos_nonneg 2 lb). pose proof (Z.pow_pos_nonneg 2 tb). nia.
Qed.

Lemma nz_fget_bit k e : 0 <= k -> nz (fget (Field k 1) e) = Z.testbit e k.
Proof.
  intros. unfold fget; cbn [f_off f_width]. rewrite Z.land_ones, Z.shiftr_div_pow2 by lia.
  change (2 ^ 1) with 2. rewrite <- Z.testbit_spec' by lia. by destruct (Z.testbit e k).
Qed.

(** An index scaled by the entry size is a slice of the linear address. *)
Lemma index_slice laddr s k b n : 0 <= s -> 0 <= k -> 0 <= b -> n = b + k ->
  ((laddr >>> s) <<< k) mod 2 ^ n = (laddr / 2 ^ s mod 2 ^ b) * 2 ^ k.
Proof.
  intros ? ? ? ->. rewrite <- Z.shiftl_mul_pow2, <- Z.shiftr_div_pow2 by lia. bitwise.
Qed.

Lemma frame_fget lo w e : 0 <= lo -> 0 <= w ->
  (fget (Field lo w) e mod 2 ^ w) * 2 ^ lo = frame lo (lo + w) e.
Proof.
  intros. rewrite fget_mod by (unfold fwf; simpl; lia). unfold frame; simpl.
  rewrite Z.mod_mod by (pose proof (Z.pow_pos_nonneg 2 w); lia).
  do 4 f_equal. lia.
Qed.

Lemma frame_shiftr n lo w x : 0 <= lo -> 0 <= w -> lo + w <= n ->
  ((fget (Field 0 n) x >>> lo) mod 2 ^ w) * 2 ^ lo = frame lo (lo + w) x.
Proof.
  intros. unfold frame, fget; cbn [f_off f_width]. replace (lo + w - lo) with w by lia.
  rewrite <- !Z.shiftl_mul_pow2, <- !Z.shiftr_div_pow2 by lia. bitwise.
Qed.

Section WalkFacts.
Context (m : hmem) (regions : list MemoryRegion).

Lemma GetEntry_entry_at lb tb k lin tbl : 0 <= lb -> 0 <= tb -> lb + tb <= 64 ->
  GetEntry m regions lb tb (2 ^ k) (Field 0 1) lin tbl =
  match MemRead m regions ((tbl mod 2 ^ tb) * 2 ^ lb + lin mod 2 ^ lb) (2 ^ k) with
  | None => None
  | Some bs => if Z.testbit (le_combine bs) 0 then Some (le_combine bs) else None
  end.
Proof.
  intros. unfold GetEntry. rewrite BuildAddress_arith by lia.
  destruct (MemRead _ _ _ _); [|done]. by rewrite nz_fget_bit by lia.
Qed.

(** One level of the 64-bit walks. *)
Lemma GetEntry64 laddr s tbl t : 0 <= s -> (tbl mod 2 ^ 40) * 2 ^ 12 = t ->
  GetEntry m regions 12 40 8 (Field 0 1) ((laddr >>> s) <<< 3) tbl
  = entry_at (MemRead m regions) 8 t (laddr / 2 ^ s mod 2 ^ 9).
Proof.
  intros Hs <-. change 8 with (2 ^ 3). rewrite GetEntry_entry_at by lia.
  rewrite (index_slice laddr s 3 9 12) by lia. unfold entry_at. by destruct (MemRead _ _ _ _).
Qed.

(** The final address of a mapping: page frame over page offset. *)
Lemma page_address lb w laddr e : 0 <= lb -> 0 <= w -> lb + w <= 64 ->
  BuildAddress lb w laddr (fget (Field lb w) e) = frame lb (lb + w) e + laddr mod 2 ^ lb.
Proof. intros. by rewrite BuildAddress_arith, frame_fget by lia. Qed.

Lemma u64_mod_low x k : 0 <= k <= 64 -> u64 x mod 2 ^ k = x mod 2 ^ k.
Proof. intros. bitwise. Qed.

Lemma GetEntry_u64 lb tb n v lin tbl : 0 <= lb <= 64 -> 0 <= tb -> lb + tb <= 64 ->
  GetEntry m regions lb tb n v (u64 lin) tbl = GetEntry m regions lb tb n v lin tbl.
Proof. intros. unfold GetEntry. by rewrite !BuildAddress_arith, u64_mod_low by lia. Qed.

Lemma GetEntry64_u64 laddr s tbl t : 0 <= s -> (tbl mod 2 ^ 40) * 2 ^ 12 = t ->
  GetEntry m regions 12 40 8 (Field 0 1) (u64 ((laddr >>> s) <<< 3)) tbl
  = entry_at (MemRead m regions) 8 t (laddr / 2 ^ s mod 2 ^ 9).
Proof. intros. rewrite GetEntry_u64 by lia. by apply GetEntry64. Qed.

Lemma LinearToPhysical4Level_walk cr3 laddr :
  LinearToPhysical4Level m regions cr3 laddr = walk4 (MemRead m regions) cr3 laddr.
Proof.
  unfold LinearToPhysical4Level, walk4, levels4. cbn [walk lv_index lv_bits lv_page lv_large].
  rewrite (GetEntry64_u64 laddr 39 _ (frame 12 52 cr3)) by (try apply (frame_shiftr 64 12 40); lia).
  destruct (entry_at _ _ _ _) as [e4|]; cbn [mbind option_bind andb]; [|done].
  rewrite (GetEntry64_u64 laddr 30 _ (frame 12 52 e4)) by (try apply (frame_fget 12 40); lia).
  destruct (entry_at _ _ _ _) as [e3|]; cbn [mbind option_bind andb]; [|done].
  unfold PDPTE.largePage, PDPTE.large_address. rewrite nz_fget_bit, page_address by lia.
  destruct (Z.testbit e3 7); [done|].
  rewrite (GetEntry64_u64 laddr 21 _ (frame 12 52 e3)) by (try apply (frame_fget 12 40); lia).
  destruct (entry_at _ _ _ _) as [e2|]; cbn [mbind option_bind andb]; [|done].
  unfold PDE64.largePage, PDE64.large_address. rewrite nz_fget_bit, page_address by lia.
  destruct (Z.testbit e2 7); [done|].
  rewrite (GetEntry64_u64 laddr 12 _ (frame 12 52 e2)) by (try apply (frame_fget 12 40); lia).
  destruct (entry_at _ _ _ _) as [e1|]; cbn [mbind option_bind andb]; [|done].
  unfold PTE64.address. by rewrite page_address by lia.
Qed.

Lemma GetEntry32 laddr s tbl t : 0 <= s -> (tbl mod 2 ^ 20) * 2 ^ 12 = t ->
  GetEntry m regions 12 20 4 (Field 0 1) ((laddr >>> s) <<< 2) tbl
  = entry_at (MemRead m regions) 4 t (laddr / 2 ^ s mod 2 ^ 10).
Proof.
  intros Hs <-. change 4 with (2 ^ 2). rewrite GetEntry_entry_at by lia.
  rewrite (index_slice laddr s 2 10 12) by lia. unfold entry_at. by destruct (MemRead _ _ _ _).
Qed.

(** The 4 MiB page address assembled from the two pieces of the entry. *)
Lemma large32_address laddr e :
  BuildAddress 22 18 laddr ((fget PDE32.large_addrHigh e <<< 10) ||| fget PDE32.large_addrLow e)
  = (e / 2 ^ 13 mod 2 ^ 8) * 2 ^ 32 + frame 22 32 e + laddr mod 2 ^ 22.
Proof.
  pose proof (fget_range PDE32.large_addrLow e eq_refl) as Hl.
  pose proof (fget_range PDE32.large_addrHigh e eq_refl) as Hh. simpl in Hl, Hh.
  rewrite BuildAddress_arith, lor_shiftl_add by lia.
  rewrite Z.mod_small by lia. rewrite (fget_mod PDE32.large_addrHigh), (fget_mod PDE32.large_addrLow) by done.
  unfold frame, PDE32.large_addrHigh, PDE32.large_addrLow; cbn [f_off f_width].
  change (32 - 22) with 10. change (2 ^ 32) with (2 ^ 10 * 2 ^ 22). ring.
Qed.

Lemma LinearToPhysical32_walk cr3 cr4 laddr :
  LinearToPhysical32 m regions cr3 cr4 laddr = walk32 (MemRead m regions) (Z.testbit (fget RV.u64 cr4) 4) cr3 laddr.
Proof.
  unfold LinearToPhysical32, walk32, RV.u32.
  rewrite (GetEntry32 laddr 22 _ (frame 12 32 cr3)) by (try apply (frame_shiftr 32 12 20); lia).
  destruct (entry_at _ _ _ _) as [e|]; cbn [mbind option_bind]; [|done].
  unfold PDE32.largePage, CR4_PSE. rewrite nz_fget_bit, nz_land_bit, large32_address by lia. unfold bit.
  destruct (Z.testbit e 7 && _); [done|].
  rewrite (GetEntry32 laddr 12 _ (frame 12 32 e)) by (try apply (frame_fget 12 20); lia).
  destruct (entry_at _ _ _ _) as [e1|]; cbn [mbind option_bind]; [|done].
  unfold PTE32.pageFrameNumber. by rewrite page_address by lia.
Qed.

(** The PDPTE of the PAE walk. *)
Lemma GetEntry_pdpte cr3 laddr : 0 <= laddr < 2 ^ 32 ->
  GetEntry m regions 5 27 8 (Field 0 1) (u8 (laddr >>> 30) <<< 3) (fget RV.u64 cr3 >>> 5)
  = entry_at (MemRead m regions) 8 (frame 5 32 cr3) (laddr / 2 ^ 30 mod 2 ^ 2).
Proof.
  intros Hl. change 8 with (2 ^ 3). rewrite GetEntry_entry_at by lia.
  rewrite (frame_shiftr 64 5 27) by lia.
  assert ((u8 (laddr >>> 30) <<< 3) mod 2 ^ 5 = laddr / 2 ^ 30 mod 2 ^ 2 * 2 ^ 3) as ->.
  { rewrite <- Z.shiftl_mul_pow2, <- Z.shiftr_div_pow2 by lia. bitwise. }
  unfold entry_at. by destruct (MemRead _ _ _ _).
Qed.

(** The PDE of the PAE walk: its index is taken at bit 3 of the address. *)
Lemma GetEntry_pae_pde laddr tbl t : 0 <= laddr < 2 ^ 32 -> (tbl mod 2 ^ 40) * 2 ^ 12 = t ->
  GetEntry m regions 12 40 8 (Field 0 1) (laddr &&& u64 (Z.lnot 7)) tbl
  = entry_at (MemRead m regions) 8 t (laddr / 2 ^ 3 mod 2 ^ 9).
Proof.
  intros Hl <-. change 8 with (2 ^ 3). rewrite GetEntry_entry_at by lia.
  assert ((laddr &&& u64 (Z.lnot 7)) mod 2 ^ 12 = laddr / 2 ^ 3 mod 2 ^ 9 * 2 ^ 3) as ->.
  { rewrite <- Z.shiftl_mul_pow2, <- Z.shiftr_div_pow2 by lia. change 7 with (Z.ones 3). bitwise. }
  unfold entry_at. by destruct (MemRead _ _ _ _).
Qed.

Lemma LinearToPhysicalPAE_walk cr3 laddr : 0 <= laddr < 2 ^ 32 ->
  LinearToPhysicalPAE m regions cr3 laddr = walkPAE (MemRead m regions) 3 cr3 laddr.
Proof.
  intros Hl. unfold LinearToPhysicalPAE, walkPAE, levelsPAE. cbn [walk lv_index lv_bits lv_page lv_large].
  unfold PDPTE.valid. rewrite GetEntry_pdpte by done.
  destruct (entry_at _ _ _ _) as [e3|]; cbn [mbind option_bind andb]; [|done].
  rewrite (GetEntry_pae_pde laddr _ (frame 12 52 e3)) by (try apply (frame_fget 12 40); lia).
  destruct (entry_at _ _ _ _) as [e2|]; cbn [mbind option_bind andb]; [|done].
  unfold PDE64.largePage, PDE64.large_address. rewrite nz_fget_bit, page_address by lia.
  destruct (Z.testbit e2 7); [done|].
  rewrite (GetEntry64 laddr 12 _ (frame 12 52 e2)) by (try apply (frame_fget 12 40); lia).
  destruct (entry_at _ _ _ _) as [e1|]; cbn [mbind option_bind andb]; [|done].
  unfold PTE64.address. by rewrite page_address by lia.
Qed.
End WalkFacts.

(** *** Shape of a walk's result *)

Lemma frame_range lo hi e : 0 <= lo <= hi -> 0 <= frame lo hi e /\ frame lo hi e + 2 ^ lo <= 2 ^ hi
  /\ frame lo hi e mod 2 ^ lo = 0.
Proof.
  intros. unfold frame. pose proof (Z.pow_pos_nonneg 2 lo). pose proof (Z.pow_pos_nonneg 2 (hi - lo)).
  pose proof (Z.mod_pos_bound (e / 2 ^ lo) (2 ^ (hi - lo))).
  replace (2 ^ hi) with (2 ^ (hi - lo) * 2 ^ lo) by (rewrite <- Z.pow_add_r by lia; f_equal; lia).
  split; [nia|]. split; [nia|]. by apply Z.mod_mul; lia.
Qed.

Lemma pow2_multiple k : 12 <= k -> exists q, 2 ^ k = q * 4096.
Proof.
  intros. exists (2 ^ (k - 12)). change 4096 with (2 ^ 12).
  rewrite <- Z.pow_add_r by lia. f_equal; lia.
Qed.

(** A page address: frame and offset below the limit, with the low bits of the
    linear address. *)
Lemma page_result_ok lo hi e laddr : 12 <= lo <= hi ->
  0 <= frame lo hi e + laddr mod 2 ^ lo < 2 ^ hi
  /\ (frame lo hi e + laddr mod 2 ^ lo) mod 4096 = laddr mod 4096.
Proof.
  intros. destruct (frame_range lo hi e) as (?&?&Hf); [lia|].
  pose proof (Z.mod_pos_bound laddr (2 ^ lo) ltac:(apply Z.pow_pos_nonneg; lia)).
  split; [lia|]. destruct (pow2_multiple lo) as [q Hq]; [lia|].
  apply Z.mod_divide in Hf as [f Hf]; [|lia]. rewrite Hf.
  rewrite (Z.mod_eq laddr (2 ^ lo)) by lia. rewrite Hq.
  replace (f * (q * 4096) + (laddr - q * 4096 * (laddr / (q * 4096))))
    with (laddr + (f * q - q * (laddr / (q * 4096))) * 4096) by ring.
  by rewrite Z.mod_add by lia.
Qed.

Definition level_ok (hi : Z) (l : level) : Prop := 12 <= lv_page l <= hi.

Lemma walk_result loads esize hi levels table laddr p :
  12 <= hi -> Forall (level_ok hi) levels ->
  0 <= table -> table + 4096 <= 2 ^ hi -> table mod 4096 = 0 ->
  walk loads esize hi levels table laddr = Some p ->
  0 <= p < 2 ^ hi /\ p mod 4096 = laddr mod 4096.
Proof.
  intros Hhi. revert table. induction levels as [|l levels IH]; intros table Hl Ht0 Ht1 Htm; simpl.
  - intros [= <-]. change 4096 with (2 ^ 12) in *. pose proof (Z.mod_pos_bound laddr (2 ^ 12)).
    split; [lia|]. rewrite Z.add_mod, Htm, Z.add_0_l, !Z.mod_mod by lia. done.
  - apply Forall_cons in Hl as [Hl Hls].
    destruct (entry_at _ _ _ _) as [e|]; simpl; [|done]. case_if.
    + intros [= <-]. by apply page_result_ok.
    + destruct (frame_range 12 hi e) as (?&?&?); [lia|]. by apply IH.
Qed.

(** Within a page the walk visits the same entries. *)
Lemma div_same_page laddr d s : 12 <= s -> 0 <= d -> laddr mod 4096 + d < 4096 ->
  (laddr + d) / 2 ^ s = laddr / 2 ^ s /\ (laddr + d) mod 2 ^ s = laddr mod 2 ^ s + d.
Proof.
  intros Hs Hd Hp. destruct (pow2_multiple s) as [q Hq]; [lia|]. rewrite Hq.
  assert (0 < q) by (pose proof (Z.pow_pos_nonneg 2 s); lia).
  pose proof (Z.div_mod laddr (q * 4096) ltac:(lia)) as Hdm.
  pose proof (Z.mod_pos_bound laddr (q * 4096) ltac:(lia)).
  assert (Hlow : (laddr mod (q * 4096)) mod 4096 = laddr mod 4096).
  { rewrite Z.mul_comm, Z.rem_mul_r by lia.
    rewrite (Z.mul_comm 4096), Z.mod_add by lia. by rewrite Z.mod_mod by lia. }
  pose proof (Z.div_mod (laddr mod (q * 4096)) 4096 ltac:(lia)) as Hdm2. rewrite Hlow in Hdm2.
  set (r := laddr mod (q * 4096)) in *. set (t := r / 4096) in *.
  assert (t < q) by (apply Z.div_lt_upper_bound; lia).
  assert (r + d < q * 4096) by lia.
  split.
  - symmetry. apply Z.div_unique with (r + d); lia.
  - symmetry. apply Z.mod_unique with (laddr / (q * 4096)); lia.
Qed.

Lemma walk_page_local loads esize hi levels table laddr d :
  Forall (fun l => 12 <= lv_index l /\ 12 <= lv_page l) levels ->
  0 <= d -> laddr mod 4096 + d < 4096 ->
  walk loads esize hi levels table (laddr + d)
  = (fun p => p + d) <$> walk loads esize hi levels table laddr.
Proof.
  intros Hl Hd Hp. revert table. induction Hl as [|l levels [Hi Hpg] Hls IH]; intros table; simpl.
  - destruct (div_same_page laddr d 12) as [_ Hm]; [lia..|]. simpl in Hm. rewrite Hm. f_equal. lia.
  - destruct (div_same_page laddr d (lv_index l)) as [-> _]; [lia..|].
    destruct (entry_at _ _ _ _) as [e|]; simpl; [|done].
    case_if; [|by apply IH].
    destruct (div_same_page laddr d (lv_page l)) as [_ ->]; [lia..|]. simpl. f_equal. lia.
Qed.

(** *** Ranges of the translations *)

Lemma four_level_range m regions cr3 laddr p :
  LinearToPhysical4Level m regions cr3 laddr = Some p -> 0 <= p < 2 ^ 52 /\ p mod 4096 = laddr mod 4096.
Proof.
  rewrite LinearToPhysical4Level_walk. destruct (frame_range 12 52 cr3) as (?&?&?); [lia|].
  apply walk_result; try done; try lia. repeat constructor; simpl; lia.
Qed.

Lemma thirty_two_bit_result m regions cr3 cr4 laddr p :
  LinearToPhysical32 m regions cr3 cr4 laddr = Some p -> 0 <= p < 2 ^ 40 /\ p mod 4096 = laddr mod 4096.
Proof.
  rewrite LinearToPhysical32_walk. unfold walk32.
  destruct (entry_at _ _ _ _) as [e|]; simpl; [|done]. case_if.
  - intros [= <-]. destruct (page_result_ok 22 32 e laddr) as [? Hm]; [lia|].
    pose proof (Z.mod_pos_bound (e / 2 ^ 13) (2 ^ 8)). split; [simpl in *; lia|].
    rewrite <- Hm. rewrite <- Z.add_assoc, (Z.add_comm (_ * _)).
    replace (2 ^ 32) with (1048576 * 4096) by done. rewrite Z.mul_assoc. by rewrite Z.mod_add by lia.
  - destruct (entry_at _ _ _ _) as [e'|]; simpl; [|done]. intros [= <-].
    destruct (page_result_ok 12 32 e' laddr) as [? ?]; [lia|]. simpl in *. split; [lia|done].
Qed.

Lemma pae_result m regions cr3 laddr p : 0 <= laddr < 2 ^ 32 ->
  LinearToPhysicalPAE m regions cr3 laddr = Some p -> 0 <= p < 2 ^ 52 /\ p mod 4096 = laddr mod 4096.
Proof.
  intros Hl. rewrite LinearToPhysicalPAE_walk by done.
  unfold walkPAE, levelsPAE. cbn [walk lv_index lv_bits lv_page lv_large andb].
  destruct (entry_at _ _ _ _) as [e3|]; cbn [mbind option_bind]; [|done].
  destruct (frame_range 12 52 e3) as (?&?&?); [lia|]. intros Hw.
  apply (walk_result (MemRead m regions) 8 52 [Level 3 9 21 true; Level 12 9 12 false] (frame 12 52 e3));
    try done; try lia. repeat constructor; simpl; lia.
Qed.

(** ** Theorems *)

(** C12: the 4-level translation is the architectural walk over the PML4, PDPT,
    PD and PT with 1 GiB and 2 MiB pages, for any memory and any tables; a
    physical address it returns is below 2^52, has the page offset of the linear
    address, and moves with the linear address within the page. *)
Theorem four_level_translation m regions cr3 laddr :
  LinearToPhysical4Level m regions cr3 laddr = walk4 (MemRead m regions) cr3 laddr
  /\ (forall p, LinearToPhysical4Level m regions cr3 laddr = Some p ->
        0 <= p < 2 ^ 52 /\ p mod 4096 = laddr mod 4096)
  /\ (forall d, 0 <= d -> laddr mod 4096 + d < 4096 ->
        LinearToPhysical4Level m regions cr3 (laddr + d)
        = (fun p => p + d) <$> LinearToPhysical4Level m regions cr3 laddr).
Proof.
  rewrite LinearToPhysical4Level_walk. split; [done|]. split.
  - intros p. rewrite <- LinearToPhysical4Level_walk. apply four_level_range.
  - intros. rewrite LinearToPhysical4Level_walk. apply walk_page_local; [|done..].
    repeat (apply Forall_nil_2 || apply Forall_cons_2); simpl; lia.
Qed.

(** C25: the 32-bit translation is the architectural two-level walk; a page
    directory entry maps a 4 MiB page of the 40-bit space exactly when its large
    page bit and CR4.PSE are both set. *)
Theorem thirty_two_bit_translation m regions cr3 cr4 laddr :
  LinearToPhysical32 m regions cr3 cr4 laddr
  = walk32 (MemRead m regions) (Z.testbit (fget RV.u64 cr4) 4) cr3 laddr
  /\ (forall p, LinearToPhysical32 m regions cr3 cr4 laddr = Some p ->
        0 <= p < 2 ^ 40 /\ p mod 4096 = laddr mod 4096).
Proof.
  split; [apply LinearToPhysical32_walk|]. apply thirty_two_bit_result.
Qed.

(** C24: the PAE translation indexes the page directory with bits 11..3 of the
    linear address instead of bits 29..21: it is the architectural walk with
    that index, so it agrees with it when the two slices happen to be equal. *)
Theorem pae_translation m regions cr3 laddr :
  0 <= laddr < 2 ^ 32 ->
  LinearToPhysicalPAE m regions cr3 laddr = walkPAE (MemRead m regions) 3 cr3 laddr
  /\ (laddr / 2 ^ 3 mod 2 ^ 9 = laddr / 2 ^ 21 mod 2 ^ 9 ->
      LinearToPhysicalPAE m regions cr3 laddr = walkPAE (MemRead m regions) 21 cr3 laddr)
  /\ (forall p, LinearToPhysicalPAE m regions cr3 laddr = Some p ->
        0 <= p < 2 ^ 52 /\ p mod 4096 = laddr mod 4096).
Proof.
  intros Hl. rewrite LinearToPhysicalPAE_walk by done. split; [done|]. split.
  - intros Heq. unfold walkPAE, levelsPAE. cbn [walk lv_index lv_bits lv_page lv_large].
    by rewrite Heq.
  - intros p. rewrite <- LinearToPhysicalPAE_walk by done. by apply pae_result.
Qed.

(** ** Concrete page tables

    Guest memory 0..0x10000 at host 0x100000.  A PDPT at 0x1000, a page
    directory at 0x2000 whose entry 2 maps the 2 MiB page 0x40000000 and whose
    entry 0 maps 0x80000000. *)
Definition pae_example_regions : list MemoryRegion := [MkMemoryRegion 0 0x10000 0x100000].
Definition pae_example_mem : hmem :=
  let m0 : hmem := fun _ => 0 in
  let m1 := host_write m0 0x101000 (le_split 8 0x2001) in
  let m2 := host_write m1 0x102010 (le_split 8 0x40000081) in
  host_write m2 0x102000 (le_split 8 0x80000081).

(** Linear address 0x400000 (directory entry 2) is translated through entry 0. *)
Lemma pae_translation_witness :
  LinearToPhysicalPAE pae_example_mem pae_example_regions 0x1000 0x400000 = Some 0x80000000
  /\ walkPAE (MemRead pae_example_mem pae_example_regions) 21 0x1000 0x400000 = Some 0x40000000
  /\ LinearToPhysicalPAE pae_example_mem pae_example_regions 0x1000 0x400010 = Some 0x40000010
  /\ LinearToPhysicalPAE pae_example_mem pae_example_regions 0x1000 0x400010
     = walkPAE (MemRead pae_example_mem pae_example_regions) 21 0x1000 0x400010.
Proof.
  split; [vm_compute; reflexivity|]. split; [vm_compute; reflexivity|].
  split; [vm_compute; reflexivity|].
  apply (pae_translation pae_example_mem pae_example_regions 0x1000 0x400010); [lia|reflexivity].
Defined.
