(* ===== verification/Layout.v ===== *)
(** * Layouts of the structures shared with hardware and drivers

    The declarations of vp/fpregs.hpp, of the HAXM driver interface (interface/hax_interface.hpp and
    vcpu_state.hpp) and of the descriptors of vp/gdt.hpp and vp/idt.hpp, as values of a type of C++
    declarations, and the rule by which the compilers for x86-64 lay such a declaration out:
    members in order, each at the next multiple of its alignment, bit-fields in the next
    bits of a unit of their type; [packed] members at the next byte.  The model of a component
    reads the members of such a structure by name; this file shows at which bits they are. *)
From Stdlib Require Import String Sorted.
From stdpp Require Import strings.
From S2P Require Import Prelude Bits Regs Gdt Idt Paging.
Open Scope Z_scope.

(** ** Declarations

    A base type is its size in bytes.  A member without a name has the empty name: an anonymous
    structure or union, whose members are members of the enclosing one, or padding bits. *)
Inductive ctype :=
| CInt (bytes : Z)
| CArray (elem : ctype) (count : Z)
| CStruct (packed : bool) (members : fields)
| CUnion (packed : bool) (members : fields)
| CAligned (a : Z) (t : ctype)
with fields :=
| FNil
| FField (name : string) (t : ctype) (rest : fields)
| FBits (name : string) (bytes width : Z) (rest : fields).

Declare Scope layout_scope.
Delimit Scope layout_scope with layout.
Notation "n ~: t ;; r" := (FField n%string t r) (at level 80, t at level 40, r at level 80) : layout_scope.
Notation "n ~: b # w ;; r" := (FBits n%string b w r) (at level 80, b at level 40, w at level 40, r at level 80) : layout_scope.
Notation "'end_'" := FNil : layout_scope.

Scheme ctype_mut := Induction for ctype Sort Prop
  with fields_mut := Induction for fields Sort Prop.
Combined Scheme ctype_fields_ind from ctype_mut, fields_mut.

(** ** Sizes, alignments and places *)

Definition round_up (n a : Z) : Z := (n + a - 1) / a * a.

(** In bytes.  Padding bits do not raise the alignment. *)
Fixpoint alignof (t : ctype) : Z :=
  match t with
  | CInt b => b
  | CArray t _ => alignof t
  | CStruct p fs | CUnion p fs => if p then 1 else align_members fs
  | CAligned a t => Z.max a (alignof t)
  end
with align_members (fs : fields) : Z :=
  match fs with
  | FNil => 1
  | FField _ t r => Z.max (alignof t) (align_members r)
  | FBits n b _ r => if String.eqb n "" then align_members r else Z.max b (align_members r)
  end.

(** Where a member starts, in bits, when the members before it end at bit [o]: a bit-field does
    not straddle two units of its type. *)
Definition member_at (p : bool) (o : Z) (t : ctype) : Z := round_up o (if p then 8 else 8 * alignof t).
Definition bits_at (p : bool) (o b w : Z) : Z :=
  if p || (o mod (8 * b) + w <=? 8 * b) then o else round_up o (8 * b).

(** In bits: of an object, of the members of a structure that start at bit [o] or after it, and of
    the longest member of a union. *)
Fixpoint bits_of (t : ctype) : Z :=
  match t with
  | CInt b => 8 * b
  | CArray t n => n * bits_of t
  | CStruct p fs => round_up (struct_end p 0 fs) (8 * if p then 1 else align_members fs)
  | CUnion p fs => round_up (union_end fs) (8 * if p then 1 else align_members fs)
  | CAligned a t => round_up (bits_of t) (8 * Z.max a (alignof t))
  end
with struct_end (p : bool) (o : Z) (fs : fields) : Z :=
  match fs with
  | FNil => o
  | FField _ t r => struct_end p (member_at p o t + bits_of t) r
  | FBits _ b w r => struct_end p (bits_at p o b w + w) r
  end
with union_end (fs : fields) : Z :=
  match fs with
  | FNil => 0
  | FField _ t r => Z.max (bits_of t) (union_end r)
  | FBits _ _ w r => Z.max w (union_end r)
  end.
Definition sizeof (t : ctype) : Z := bits_of t / 8.

(** The named members of an object at bit [o] that are not themselves made of members: path, first
    bit and width.  An array is one of them. *)
Definition place : Type := string * Z * Z.
Definition join (prefix n : string) : string :=
  if String.eqb n "" then prefix else if String.eqb prefix "" then n else prefix +:+ "." +:+ n.
Fixpoint places (prefix : string) (o : Z) (t : ctype) : list place :=
  match t with
  | CInt _ | CArray _ _ => [(prefix, o, bits_of t)]
  | CStruct p fs => struct_places prefix p o 0 fs
  | CUnion _ fs => union_places prefix o fs
  | CAligned _ t => places prefix o t
  end
with struct_places (prefix : string) (p : bool) (base o : Z) (fs : fields) : list place :=
  match fs with
  | FNil => []
  | FField n t r => places (join prefix n) (base + member_at p o t) t
                    ++ struct_places prefix p base (member_at p o t + bits_of t) r
  | FBits n b w r => (if String.eqb n "" then [] else [(join prefix n, base + bits_at p o b w, w)])
                     ++ struct_places prefix p base (bits_at p o b w + w) r
  end
with union_places (prefix : string) (base : Z) (fs : fields) : list place :=
  match fs with
  | FNil => []
  | FField n t r => places (join prefix n) base t ++ union_places prefix base r
  | FBits n b w r => (if String.eqb n "" then [] else [(join prefix n, base, w)]) ++ union_places prefix base r
  end.
Definition members (t : ctype) : list place := places "" 0 t.
(** The first byte of a member, as offsetof gives it. *)
Definition offsetof (t : ctype) (path : string) : option Z :=
  option_map (fun m => snd (fst m) / 8) (List.find (fun m => String.eqb (fst (fst m)) path) (members t)).

Definition arr := CArray.
Definition struct := CStruct false.
Definition union := CUnion false.
Definition packed := CStruct true.
Definition packed_union := CUnion true.
Definition uint8_t : ctype := CInt 1.
Definition uint16_t : ctype := CInt 2.
Definition uint32_t : ctype := CInt 4.
Definition uint64_t : ctype := CInt 8.

(** ** What every layout satisfies *)

Definition is_empty (fs : fields) : bool := match fs with FNil => true | _ => false end.
(** Base types, unions and bit-fields are not empty, and a bit-field fits its type. *)
Fixpoint wf (t : ctype) : bool :=
  match t with
  | CInt b => 0 <? b
  | CArray t n => wf t && (0 <=? n)
  | CStruct _ fs => wf_members fs
  | CUnion _ fs => negb (is_empty fs) && wf_members fs
  | CAligned a t => (0 <? a) && wf t
  end
with wf_members (fs : fields) : bool :=
  match fs with
  | FNil => true
  | FField _ t r => wf t && wf_members r
  | FBits _ b w r => (0 <? w) && (w <=? 8 * b) && wf_members r
  end.

(** The places of the members when one member of every union is in use. *)
Fixpoint selections (prefix : string) (o : Z) (t : ctype) : list (list place) :=
  match t with
  | CInt _ | CArray _ _ => [[(prefix, o, bits_of t)]]
  | CStruct p fs => struct_selections prefix p o 0 fs
  | CUnion _ fs => union_selections prefix o fs
  | CAligned _ t => selections prefix o t
  end
with struct_selections (prefix : string) (p : bool) (base o : Z) (fs : fields) : list (list place) :=
  match fs with
  | FNil => [[]]
  | FField n t r =>
      s ← selections (join prefix n) (base + member_at p o t) t;
      s' ← struct_selections prefix p base (member_at p o t + bits_of t) r;
      [s ++ s']
  | FBits n b w r =>
      s ← struct_selections prefix p base (bits_at p o b w + w) r;
      [if String.eqb n "" then s else (join prefix n, base + bits_at p o b w, w) :: s]
  end
with union_selections (prefix : string) (base : Z) (fs : fields) : list (list place) :=
  match fs with
  | FNil => []
  | FField n t r => selections (join prefix n) base t ++ union_selections prefix base r
  | FBits n b w r =>
      [if String.eqb n "" then [] else [(join prefix n, base, w)]] ++ union_selections prefix base r
  end.

Definition start (m : place) : Z := snd (fst m).
Definition stop (m : place) : Z := snd (fst m) + snd m.
Definition within (lo hi : Z) (m : place) : Prop := lo <= start m /\ stop m <= hi.
(** Every member ends where the next ones start, or before. *)
Definition in_order (s : list place) : Prop := StronglySorted (fun a b => stop a <= start b) s.

Lemma round_up_spec n a : 0 < a -> n <= round_up n a < n + a /\ (a | round_up n a).
Proof.
  intros Ha. unfold round_up. split; [|apply Z.divide_factor_r].
  pose proof (Z.div_mod (n + a - 1) a ltac:(lia)). pose proof (Z.mod_pos_bound (n + a - 1) a ltac:(lia)). lia.
Qed.
Lemma bits_at_le p o b w : 0 < w -> w <= 8 * b -> o <= bits_at p o b w.
Proof.
  intros Hw Hb. unfold bits_at. destruct (p || _); [lia|]. pose proof (round_up_spec o (8 * b) ltac:(lia)). lia.
Qed.
Ltac bools := repeat match goal with H : _ && _ = true |- _ => apply andb_true_iff in H as [? ?] end.
Lemma alignof_pos :
  (forall t, wf t = true -> 0 < alignof t) /\ (forall fs, wf_members fs = true -> 0 < align_members fs).
Proof.
  apply ctype_fields_ind; cbn; [intros; lia|intros t IH n Hw|intros [] fs IH Hw|intros [] fs IH Hw|intros a t IH Hw|lia
    |intros n t IH r IHr Hw|intros n b w r IHr Hw]; bools; try lia.
  all: try specialize (IH ltac:(done)); try lia.
  - specialize (IHr ltac:(done)). destruct (String.eqb _ _); lia.
Qed.
Lemma member_at_le p o t : wf t = true -> o <= member_at p o t.
Proof.
  intros Hw. unfold member_at. pose proof (proj1 alignof_pos t Hw).
  pose proof (round_up_spec o (if p then 8 else 8 * alignof t) ltac:(destruct p; lia)). lia.
Qed.
(** The unit to which the size of a structure or union is rounded up. *)
Lemma unit_pos (p : bool) fs : wf_members fs = true -> 0 < 8 * (if p then 1 else align_members fs).
Proof. intros Hw. pose proof (proj2 alignof_pos fs Hw). destruct p; lia. Qed.
Lemma sizes :
  (forall t, wf t = true -> 0 <= bits_of t)
  /\ (forall fs, wf_members fs = true -> (forall p o, o <= struct_end p o fs) /\ 0 <= union_end fs).
Proof.
  apply ctype_fields_ind; cbn [wf wf_members bits_of struct_end union_end];
    [intros; lia|intros t IH n Hw|intros p fs IH Hw|intros p fs IH Hw|intros a t IH Hw|done
    |intros n t IH r IHr Hw|intros n b w r IHr Hw]; bools.
  - specialize (IH ltac:(done)). lia.
  - specialize (IH Hw) as [IH _]. specialize (IH p 0).
    pose proof (round_up_spec (struct_end p 0 fs) _ (unit_pos p fs Hw)). lia.
  - specialize (IH ltac:(done)) as [_ IH]. pose proof (round_up_spec (union_end fs) _ (unit_pos p fs ltac:(done))). lia.
  - specialize (IH ltac:(done)). pose proof (round_up_spec (bits_of t) (8 * Z.max a (alignof t)) ltac:(lia)). lia.
  - specialize (IH ltac:(done)). specialize (IHr ltac:(done)) as [IHr ?]. split; [|lia]. intros p o.
    pose proof (member_at_le p o t ltac:(done)). specialize (IHr p (member_at p o t + bits_of t)). lia.
  - specialize (IHr ltac:(done)) as [IHr ?]. split; [|lia]. intros p o.
    pose proof (bits_at_le p o b w ltac:(lia) ltac:(lia)). specialize (IHr p (bits_at p o b w + w)). lia.
Qed.

Lemma in_order_app s s' (mid : Z) lo hi :
  in_order s -> in_order s' -> Forall (within lo mid) s -> Forall (within mid hi) s' -> in_order (s ++ s').
Proof.
  intros Hs Hs' Hl Hr. induction s as [|m s IH]; [done|]. apply StronglySorted_inv in Hs as [Hs Hm].
  apply Forall_cons in Hl as [[_ Hml] Hl]. cbn. apply SSorted_cons; [by apply IH|]. apply Forall_app. split; [done|].
  eapply Forall_impl; [exact Hr|]. intros m' [H _]. lia.
Qed.
Lemma within_mono lo hi lo' hi' s :
  lo' <= lo -> hi <= hi' -> Forall (within lo hi) s -> Forall (within lo' hi') s.
Proof. intros H1 H2 Hs. eapply Forall_impl; [exact Hs|]. intros m [? ?]. split; lia. Qed.

Definition sound (lo hi : Z) (s : list place) : Prop := in_order s /\ Forall (within lo hi) s.
Lemma sound_mono lo hi lo' hi' s : lo' <= lo -> hi <= hi' -> sound lo hi s -> sound lo' hi' s.
Proof. intros H1 H2 [Ho Hw]. split; [done|]. by eapply within_mono. Qed.
Lemma sound_app lo mid mid' hi s s' :
  lo <= mid -> mid <= mid' -> mid' <= hi -> sound lo mid s -> sound mid' hi s' -> sound lo hi (s ++ s').
Proof.
  intros H1 H2 H3 [Ho Hw] [Ho' Hw']. split.
  - apply in_order_app with (mid := mid) (lo := lo) (hi := hi); [done..|]. eapply within_mono; [..|exact Hw']; lia.
  - apply Forall_app; split; (eapply within_mono; [..|eassumption]); lia.
Qed.
Lemma sound_one lo hi n o w : lo <= o -> o + w <= hi -> sound lo hi [(n, o, w)].
Proof. intros H1 H2. split; [repeat constructor|]. apply Forall_singleton. by split. Qed.
Lemma sound_nil lo hi : sound lo hi [].
Proof. split; constructor. Qed.

(** Whichever members of the unions are in use, the members of an object lie within it, in order and
    without overlap. *)
Lemma selections_sound :
  (forall t, wf t = true -> forall prefix o s, s ∈ selections prefix o t -> sound o (o + bits_of t) s)
  /\ (forall fs, wf_members fs = true ->
        (forall prefix p base o s, s ∈ struct_selections prefix p base o fs ->
           sound (base + o) (base + struct_end p o fs) s)
        /\ (forall prefix base s, s ∈ union_selections prefix base fs -> sound base (base + union_end fs) s)).
Proof.
  apply ctype_fields_ind; cbn [wf wf_members selections struct_selections union_selections bits_of struct_end union_end].
  - intros b Hw prefix o s ->%list_elem_of_singleton. apply sound_one; cbn; lia.
  - intros t IH n Hw prefix o s ->%list_elem_of_singleton. apply sound_one; cbn; lia.
  - intros p fs IH Hw prefix o s Hs. apply IH in Hs; [|done].
    pose proof (round_up_spec (struct_end p 0 fs) _ (unit_pos p fs Hw)). by eapply sound_mono; [..|exact Hs]; lia.
  - intros p fs IH Hw prefix o s Hs. bools. apply IH in Hs; [|done].
    pose proof (round_up_spec (union_end fs) _ (unit_pos p fs ltac:(done))). by eapply sound_mono; [..|exact Hs]; lia.
  - intros a t IH Hw prefix o s Hs. bools. apply IH in Hs; [|done].
    pose proof (round_up_spec (bits_of t) (8 * Z.max a (alignof t)) ltac:(lia)). by eapply sound_mono; [..|exact Hs]; lia.
  - intros _. split; [intros prefix p base o s ->%list_elem_of_singleton; apply sound_nil|].
    intros prefix base s Hs. by apply elem_of_nil in Hs.
  - intros n t IH r IHr Hw. bools. specialize (IH ltac:(done)). specialize (IHr ltac:(done)) as [IHr IHu].
    pose proof (proj1 sizes t ltac:(done)). pose proof (proj2 sizes r ltac:(done)) as [Hend Hu]. split.
    + intros prefix p base o s (s1 & (s2 & ->%list_elem_of_singleton & Hb)%list_elem_of_bind & Ha)%list_elem_of_bind.
      apply IH in Ha. apply IHr in Hb. pose proof (member_at_le p o t ltac:(done)).
      specialize (Hend p (member_at p o t + bits_of t)).
      apply (sound_app _ (base + member_at p o t + bits_of t) (base + (member_at p o t + bits_of t)));
        [lia..|eapply sound_mono; [..|exact Ha]; lia|exact Hb].
    + intros prefix base s [Hs|Hs]%elem_of_app; [apply IH in Hs|apply IHu in Hs];
        (eapply sound_mono; [..|exact Hs]); lia.
  - intros n b w r IHr Hw. bools. specialize (IHr ltac:(done)) as [IHr IHu].
    pose proof (proj2 sizes r ltac:(done)) as [Hend Hu]. split.
    + intros prefix p base o s (s2 & ->%list_elem_of_singleton & Hb)%list_elem_of_bind. apply IHr in Hb.
      pose proof (bits_at_le p o b w ltac:(lia) ltac:(lia)). specialize (Hend p (bits_at p o b w + w)).
      destruct (String.eqb n ""); [eapply sound_mono; [..|exact Hb]; lia|].
      apply (sound_app _ (base + (bits_at p o b w + w)) (base + (bits_at p o b w + w)) _ [_]); [lia..| |exact Hb].
      apply sound_one; lia.
    + intros prefix base s [Hs|Hs]%elem_of_app; [|apply IHu in Hs; eapply sound_mono; [..|exact Hs]; lia].
      apply list_elem_of_singleton in Hs as ->. destruct (String.eqb n ""); [apply sound_nil|apply sound_one; lia].
Qed.

(** The selections together have all members. *)
Definition covers (l : list place) (ss : list (list place)) : Prop :=
  ss <> [] /\ forall m, m ∈ l -> exists s, s ∈ ss /\ m ∈ s.
Lemma covers_product (l l' : list place) ss ss' : covers l ss -> covers l' ss' ->
  covers (l ++ l') (s ← ss; s' ← ss'; [s ++ s']).
Proof.
  intros [N C] [N' C'].
  assert (Hin : forall s s', s ∈ ss -> s' ∈ ss' -> (s ++ s') ∈ (s ← ss; s' ← ss'; [s ++ s'])).
  { intros s s' Hs Hs'. apply list_elem_of_bind. exists s. split; [|done].
    apply list_elem_of_bind. exists s'. split; [by apply list_elem_of_singleton|done]. }
  destruct ss as [|s0 ss]; [done|]. destruct ss' as [|s0' ss']; [done|]. split.
  - intros E. apply (not_elem_of_nil (s0 ++ s0')). rewrite <- E. apply Hin; left.
  - intros m [(s & Hs & Hm)%C|(s & Hs & Hm)%C']%elem_of_app.
    + exists (s ++ s0'). split; [apply Hin; [done|left]|]. apply elem_of_app. by left.
    + exists (s0 ++ s). split; [apply Hin; [left|done]|]. apply elem_of_app. by right.
Qed.
Lemma covers_sum l ss l' ss' : covers l ss -> (l' = [] \/ covers l' ss') -> covers (l ++ l') (ss ++ ss').
Proof.
  intros [N C] C'. split; [by intros [-> _]%app_eq_nil|].
  intros m [(s & Hs & Hm)%C|Hm]%elem_of_app; [exists s; rewrite elem_of_app; by auto|].
  destruct C' as [->|[_ C']]; [by apply elem_of_nil in Hm|].
  destruct (C' m Hm) as (s & Hs & Hms). exists s. rewrite elem_of_app. by auto.
Qed.
Lemma covers_self l : covers l [l].
Proof. split; [done|]. intros m Hm. exists l. split; [by apply list_elem_of_singleton|done]. Qed.
Lemma selections_cover :
  (forall t, wf t = true -> forall prefix o, covers (places prefix o t) (selections prefix o t))
  /\ (forall fs, wf_members fs = true ->
        (forall prefix p base o, covers (struct_places prefix p base o fs) (struct_selections prefix p base o fs))
        /\ (is_empty fs = false -> forall prefix base, covers (union_places prefix base fs) (union_selections prefix base fs))).
Proof.
  apply ctype_fields_ind; cbn [wf wf_members places struct_places union_places selections struct_selections union_selections is_empty].
  - intros. apply covers_self.
  - intros. apply covers_self.
  - intros p fs IH Hw prefix o. by apply IH.
  - intros p fs IH Hw prefix o. bools. apply IH; [done|]. by apply negb_true_iff.
  - intros a t IH Hw prefix o. bools. by apply IH.
  - intros _. split; [|done]. intros. apply covers_self.
  - intros n t IH r IHr Hw. bools. split.
    + intros. apply covers_product; [by apply IH|by apply IHr].
    + intros _ prefix base. apply covers_sum; [by apply IH|]. destruct r; [by left|right..]; by apply IHr.
  - intros n b w r IHr Hw. bools. specialize (IHr ltac:(done)) as [IHr IHu]. split.
    + intros prefix p base o. pose proof (covers_product _ _ _ _
        (covers_self (if String.eqb n "" then [] else [(join prefix n, base + bits_at p o b w, w)]))
        (IHr prefix p base (bits_at p o b w + w))) as C.
      cbn in C. rewrite app_nil_r in C. by destruct (String.eqb n "").
    + intros _ prefix base. apply covers_sum; [apply covers_self|]. destruct r; [by left|right..]; by apply IHu.
Qed.

(** ** vp/fpregs.hpp *)

Open Scope layout_scope.
Definition int8_t : ctype := CInt 1.
Definition int16_t : ctype := CInt 2.
Definition int32_t : ctype := CInt 4.
Definition int64_t : ctype := CInt 8.
Definition double : ctype := CInt 8.
Definition float : ctype := CInt 4.

Module FpRegs.
Definition FPUControl : ctype := struct (
  "cw" ~: uint16_t;; "sw" ~: uint16_t;; "tw" ~: uint16_t;; "op" ~: uint16_t;;
  "" ~: struct ("cs" ~: uint16_t;; "" ~: union ("ip" ~: uint32_t;; "rip" ~: uint64_t;; end_);; end_);;
  "" ~: struct ("ds" ~: uint16_t;; "" ~: union ("dp" ~: uint32_t;; "rdp" ~: uint64_t;; end_);; end_);; end_).
Definition MXCSR : ctype := union (
  "" ~: struct (
    "ie" ~: 4 # 1;; "de" ~: 4 # 1;; "ze" ~: 4 # 1;; "oe" ~: 4 # 1;; "ue" ~: 4 # 1;; "pe" ~: 4 # 1;;
    "daz" ~: 4 # 1;; "im" ~: 4 # 1;; "dm" ~: 4 # 1;; "zm" ~: 4 # 1;; "om" ~: 4 # 1;; "um" ~: 4 # 1;; "pm" ~: 4 # 1;;
    "rc" ~: 4 # 2;; "fz" ~: 4 # 1;; "" ~: 4 # 16;; end_);;
  "u32" ~: uint32_t;; end_).
Definition STValue : ctype := packed ("significand" ~: uint64_t;; "exponentSign" ~: uint16_t;; end_).
Definition MMValue : ctype := union (
  "i64" ~: arr int64_t 1;; "i32" ~: arr int32_t 2;; "i16" ~: arr int16_t 4;; "i8" ~: arr int8_t 8;; end_).
Definition XMMValue : ctype := union (
  "i64" ~: arr int64_t 2;; "i32" ~: arr int32_t 4;; "i16" ~: arr int16_t 8;; "i8" ~: arr int8_t 16;;
  "f64" ~: arr double 2;; "f32" ~: arr float 4;; end_).
Definition YMMHighValue : ctype := union (
  "i64" ~: arr int64_t 2;; "i32" ~: arr int32_t 4;; "i16" ~: arr int16_t 8;; "i8" ~: arr int8_t 16;;
  "f64" ~: arr double 2;; "f32" ~: arr float 4;; end_).
Definition YMMValue : ctype := union (
  "partitions" ~: struct ("low" ~: XMMValue;; "high" ~: YMMHighValue;; end_);;
  "i64" ~: arr int64_t 4;; "i32" ~: arr int32_t 8;; "i16" ~: arr int16_t 16;; "i8" ~: arr int8_t 32;;
  "f64" ~: arr double 4;; "f32" ~: arr float 8;; end_).
Definition ZMMHighValue : ctype := union (
  "i64" ~: arr int64_t 4;; "i32" ~: arr int32_t 8;; "i16" ~: arr int16_t 16;; "i8" ~: arr int8_t 32;;
  "f64" ~: arr double 4;; "f32" ~: arr float 8;; end_).
Definition ZMMValue : ctype := union (
  "partitions" ~: struct ("low" ~: YMMValue;; "high" ~: ZMMHighValue;; end_);;
  "i64" ~: arr int64_t 8;; "i32" ~: arr int32_t 16;; "i16" ~: arr int16_t 32;; "i8" ~: arr int8_t 64;;
  "f64" ~: arr double 8;; "f32" ~: arr float 16;; end_).

Definition FXSAVEArea : ctype := struct (
  "fcw" ~: uint16_t;; "fsw" ~: uint16_t;; "ftw" ~: uint8_t;; "" ~: 1 # 8;; "fop" ~: uint16_t;;
  "" ~: union (
    "ip32" ~: struct ("fip" ~: uint32_t;; "fcs" ~: uint16_t;; "" ~: 2 # 16;; end_);;
    "ip64" ~: struct ("fip" ~: uint64_t;; end_);; end_);;
  "" ~: union (
    "dp32" ~: struct ("fdp" ~: uint32_t;; "fds" ~: uint16_t;; "" ~: 2 # 16;; end_);;
    "dp64" ~: struct ("fdp" ~: uint64_t;; end_);; end_);;
  "mxcsr" ~: MXCSR;; "mxcsr_mask" ~: MXCSR;;
  "st_mm" ~: arr (union ("st" ~: STValue;; "mm" ~: MMValue;; "_padding" ~: arr uint8_t 16;; end_)) 8;;
  "xmm" ~: arr XMMValue 16;; "_reserved" ~: arr uint8_t 48;; "_unused" ~: arr uint8_t 48;; end_).

(** The header follows the legacy area. *)
Definition XSAVEHeader : ctype := struct (
  "xstate_bv" ~: union (
    "data" ~: struct (
      "x87" ~: 8 # 1;; "SSE" ~: 8 # 1;; "AVX" ~: 8 # 1;; "MPX_bndregs" ~: 8 # 1;; "MPX_bndcsr" ~: 8 # 1;;
      "AVX512_opmask" ~: 8 # 1;; "ZMM_Hi256" ~: 8 # 1;; "Hi16_ZMM" ~: 8 # 1;; "PT" ~: 8 # 1;; "PKRU" ~: 8 # 1;;
      "" ~: 8 # 3;; "HDC" ~: 8 # 1;; end_);;
    "u64" ~: uint64_t;; end_);;
  "xcomp_bv" ~: union (
    "data" ~: struct (
      "x87" ~: 8 # 1;; "SSE" ~: 8 # 1;; "AVX" ~: 8 # 1;; "MPX_bndregs" ~: 8 # 1;; "MPX_bndcsr" ~: 8 # 1;;
      "AVX512_opmask" ~: 8 # 1;; "ZMM_Hi256" ~: 8 # 1;; "Hi16_ZMM" ~: 8 # 1;; "PT" ~: 8 # 1;; "PKRU" ~: 8 # 1;;
      "" ~: 8 # 3;; "HDC" ~: 8 # 1;; "" ~: 8 # 50;; "format" ~: 8 # 1;; end_);;
    "u64" ~: uint64_t;; end_);;
  "_reserved" ~: arr uint8_t 48;; end_).
Definition XSAVEArea : ctype := struct ("fxsave" ~: FXSAVEArea;; "header" ~: XSAVEHeader;; end_).

Definition XSAVE_AVX : ctype := struct ("ymmHigh" ~: arr YMMHighValue 16;; end_).
Definition XSAVE_MPX_BNDREGS : ctype := struct (
  "bnd" ~: arr (struct ("low" ~: uint64_t;; "high" ~: uint64_t;; end_)) 4;; end_).
Definition XSAVE_MPX_BNDCSR : ctype := struct ("BNDCFGU" ~: uint64_t;; "BNDSTATUS" ~: uint64_t;; end_).
Definition XSAVE_AVX512_Opmask : ctype := struct ("k" ~: arr uint64_t 8;; end_).
Definition XSAVE_AVX512_ZMM_Hi256 : ctype := struct ("zmmHigh" ~: arr ZMMHighValue 16;; end_).
Definition XSAVE_AVX512_Hi16_ZMM : ctype := struct ("zmm" ~: arr ZMMValue 16;; end_).
Definition XSAVE_PT : ctype := struct (
  "IA32_RTIT_CTL" ~: uint64_t;; "IA32_RTIT_OUTPUT_BASE" ~: uint64_t;; "IA32_RTIT_OUTPUT_MASK_PTRS" ~: uint64_t;;
  "IA32_RTIT_STATUS" ~: uint64_t;; "IA32_RTIT_CR3_MATCH" ~: uint64_t;; "IA32_RTIT_ADDR0_A" ~: uint64_t;;
  "IA32_RTIT_ADDR0_B" ~: uint64_t;; "IA32_RTIT_ADDR1_A" ~: uint64_t;; "IA32_RTIT_ADDR1_B" ~: uint64_t;; end_).
Definition XSAVE_PKRU : ctype := struct ("pkru" ~: uint32_t;; end_).
Definition XSAVE_HDC : ctype := struct ("IA32_PM_CTL1" ~: uint64_t;; end_).

Definition declared : list ctype :=
  [FPUControl; MXCSR; STValue; MMValue; XMMValue; YMMHighValue; YMMValue; ZMMHighValue; ZMMValue; FXSAVEArea;
   XSAVEArea; XSAVE_AVX; XSAVE_MPX_BNDREGS; XSAVE_MPX_BNDCSR; XSAVE_AVX512_Opmask; XSAVE_AVX512_ZMM_Hi256;
   XSAVE_AVX512_Hi16_ZMM; XSAVE_PT; XSAVE_PKRU; XSAVE_HDC].
(** The assertions of the header. *)
Definition static_asserts : list (Z * Z) :=
  [(sizeof float, 4); (sizeof double, 8); (sizeof STValue, 10); (sizeof MMValue, 8); (sizeof XMMValue, 16);
   (sizeof YMMHighValue, 16); (sizeof YMMValue, 32); (sizeof ZMMHighValue, 32); (sizeof ZMMValue, 64);
   (sizeof FXSAVEArea, 512); (sizeof XSAVE_AVX, 256); (sizeof XSAVE_MPX_BNDREGS, 64); (sizeof XSAVE_MPX_BNDCSR, 16);
   (sizeof XSAVE_AVX512_Opmask, 64); (sizeof XSAVE_AVX512_ZMM_Hi256, 512); (sizeof XSAVE_AVX512_Hi16_ZMM, 1024);
   (sizeof XSAVE_PT, 72); (sizeof XSAVE_PKRU, 4); (sizeof XSAVE_HDC, 8)].
End FpRegs.

(** ** The HAXM driver interface

    [pack] is how the compiler takes PACKED (hax_types.hpp): as the attribute of GCC and Clang, or, with
    MSVC, as nothing. *)
Module Hax.
Section Declarations.
Context (pack : bool).
Definition PACKED_struct : fields -> ctype := CStruct pack.
Definition PACKED_union : fields -> ctype := CUnion pack.
Definition ALIGNED : Z -> ctype -> ctype := CAligned.
Definition int : ctype := CInt 4.
Definition hax_vaddr_t : ctype := uint64_t.
Definition hax_paddr_t : ctype := uint64_t.
Definition HAX_MAX_MSR_ARRAY : Z := 0x20.

Definition vmx_msr : ctype := PACKED_struct ("entry" ~: uint64_t;; "value" ~: uint64_t;; end_).
Definition fx_layout : ctype := ALIGNED 16 (struct (
  "fcw" ~: uint16_t;; "fsw" ~: uint16_t;; "ftw" ~: uint8_t;; "res1" ~: uint8_t;; "fop" ~: uint16_t;;
  "" ~: union ("" ~: struct ("fip" ~: uint32_t;; "fcs" ~: uint16_t;; "res2" ~: uint16_t;; end_);; "fpu_ip" ~: uint64_t;; end_);;
  "" ~: union ("" ~: struct ("fdp" ~: uint32_t;; "fds" ~: uint16_t;; "res3" ~: uint16_t;; end_);; "fpu_dp" ~: uint64_t;; end_);;
  "mxcsr" ~: uint32_t;; "mxcsr_mask" ~: uint32_t;;
  "st_mm" ~: arr (arr uint8_t 16) 8;; "mmx_1" ~: arr (arr uint8_t 16) 8;; "mmx_2" ~: arr (arr uint8_t 16) 8;;
  "pad" ~: arr uint8_t 96;; end_)).
Definition hax_msr_data : ctype := PACKED_struct (
  "nr_msr" ~: uint16_t;; "done" ~: uint16_t;; "pad" ~: arr uint16_t 2;; "entries" ~: arr vmx_msr HAX_MAX_MSR_ARRAY;; end_).
Definition hax_tunnel : ctype := PACKED_struct (
  "_exit_reason" ~: uint32_t;; "pad0" ~: uint32_t;; "_exit_status" ~: uint32_t;; "user_event_pending" ~: uint32_t;;
  "ready_for_interrupt_injection" ~: int;; "request_interrupt_window" ~: int;;
  "" ~: union (
    "io" ~: struct (
      "_direction" ~: uint8_t;; "_df" ~: uint8_t;; "_size" ~: uint16_t;; "_port" ~: uint16_t;; "_count" ~: uint16_t;;
      "_flags" ~: uint8_t;; "_pad0" ~: uint8_t;; "_pad1" ~: uint16_t;; "_pad2" ~: uint32_t;; "_vaddr" ~: hax_vaddr_t;; end_);;
    "mmio" ~: struct ("gla" ~: hax_paddr_t;; end_);;
    "pagefault" ~: struct ("gpa" ~: hax_paddr_t;; "flags" ~: uint32_t;; "reserved1" ~: uint32_t;; "reserved2" ~: uint64_t;; end_);;
    "state" ~: struct ("dummy" ~: hax_paddr_t;; end_);;
    "debug" ~: struct ("rip" ~: uint64_t;; "dr6" ~: uint64_t;; "dr7" ~: uint64_t;; end_);; end_);;
  "apic_base" ~: uint64_t;; end_).
Definition hax_fastmmio : ctype := PACKED_struct (
  "gpa" ~: hax_paddr_t;; "" ~: union ("value" ~: uint64_t;; "gpa2" ~: hax_paddr_t;; end_);;
  "size" ~: uint8_t;; "direction" ~: uint8_t;; "reg_index" ~: uint16_t;; "pad0" ~: uint32_t;;
  "_cr0" ~: uint64_t;; "_cr2" ~: uint64_t;; "_cr3" ~: uint64_t;; "_cr4" ~: uint64_t;; end_).
Definition hax_module_version : ctype := PACKED_struct ("compat_version" ~: uint32_t;; "cur_version" ~: uint32_t;; end_).
Definition hax_capabilityinfo : ctype := PACKED_struct (
  "wstatus" ~: uint16_t;; "winfo" ~: uint16_t;; "win_refcount" ~: uint32_t;; "mem_quota" ~: uint64_t;; end_).
Definition hax_tunnel_info : ctype := PACKED_struct (
  "va" ~: uint64_t;; "io_va" ~: uint64_t;; "size" ~: uint16_t;; "pad" ~: arr uint16_t 3;; end_).
Definition hax_set_memlimit : ctype := PACKED_struct (
  "enable_memlimit" ~: uint8_t;; "pad" ~: arr uint8_t 7;; "memory_limit" ~: uint64_t;; end_).
Definition hax_alloc_ram_info : ctype := PACKED_struct ("size" ~: uint32_t;; "pad" ~: uint32_t;; "va" ~: uint64_t;; end_).
Definition hax_ramblock_info : ctype := PACKED_struct (
  "start_va" ~: uint64_t;; "size" ~: uint64_t;; "reserved" ~: uint64_t;; end_).
Definition hax_set_ram_info : ctype := PACKED_struct (
  "pa_start" ~: uint64_t;; "size" ~: uint32_t;; "flags" ~: uint8_t;; "pad" ~: arr uint8_t 3;; "va" ~: uint64_t;; end_).
Definition hax_set_ram_info2 : ctype := PACKED_struct (
  "pa_start" ~: uint64_t;; "size" ~: uint64_t;; "va" ~: uint64_t;; "flags" ~: uint32_t;; "reserved1" ~: uint32_t;;
  "reserved2" ~: uint64_t;; end_).
Definition hax_protect_ram_info : ctype := PACKED_struct (
  "pa_start" ~: uint64_t;; "size" ~: uint64_t;; "flags" ~: uint32_t;; "reserved" ~: uint32_t;; end_).
Definition hax_qemu_version : ctype := PACKED_struct ("cur_version" ~: uint32_t;; "least_version" ~: uint32_t;; end_).
Definition hax_debug_t : ctype := PACKED_struct ("control" ~: uint32_t;; "reserved" ~: uint32_t;; "dr" ~: arr uint64_t 8;; end_).

(** vcpu_state.hpp *)
Definition interruptibility_state_t : ctype := PACKED_union (
  "raw" ~: uint32_t;;
  "" ~: struct ("sti_blocking" ~: 4 # 1;; "movss_blocking" ~: 4 # 1;; "smi_blocking" ~: 4 # 1;; "nmi_blocking" ~: 4 # 1;;
                "reserved" ~: 4 # 28;; end_);;
  "pad" ~: uint64_t;; end_).
Definition segment_desc_t : ctype := PACKED_struct (
  "selector" ~: uint16_t;; "_dummy" ~: uint16_t;; "limit" ~: uint32_t;; "base" ~: uint64_t;;
  "" ~: union (
    "" ~: struct ("type" ~: 4 # 4;; "desc" ~: 4 # 1;; "dpl" ~: 4 # 2;; "present" ~: 4 # 1;; "" ~: 4 # 4;;
                  "available" ~: 4 # 1;; "long_mode" ~: 4 # 1;; "operand_size" ~: 4 # 1;; "granularity" ~: 4 # 1;;
                  "null" ~: 4 # 1;; "" ~: 4 # 15;; end_);;
    "ar" ~: uint32_t;; end_);;
  "ipad" ~: uint32_t;; end_).
(** The union of a register that has byte registers, and of one that has none. *)
Definition reg_abcd (l h x e r : string) : ctype := union (
  "" ~: struct (l ~: uint8_t;; h ~: uint8_t;; end_);; x ~: uint16_t;; e ~: uint32_t;; r ~: uint64_t;; end_).
Definition reg_index (x e r : string) : ctype := union (x ~: uint16_t;; e ~: uint32_t;; r ~: uint64_t;; end_).
Definition vcpu_state_t : ctype := PACKED_struct (
  "" ~: union (
    "_regs" ~: arr uint64_t 16;;
    "" ~: struct (
      "" ~: reg_abcd "_al" "_ah" "_ax" "_eax" "_rax";; "" ~: reg_abcd "_cl" "_ch" "_cx" "_ecx" "_rcx";;
      "" ~: reg_abcd "_dl" "_dh" "_dx" "_edx" "_rdx";; "" ~: reg_abcd "_bl" "_bh" "_bx" "_ebx" "_rbx";;
      "" ~: reg_index "_sp" "_esp" "_rsp";; "" ~: reg_index "_bp" "_ebp" "_rbp";;
      "" ~: reg_index "_si" "_esi" "_rsi";; "" ~: reg_index "_di" "_edi" "_rdi";;
      "_r8" ~: uint64_t;; "_r9" ~: uint64_t;; "_r10" ~: uint64_t;; "_r11" ~: uint64_t;;
      "_r12" ~: uint64_t;; "_r13" ~: uint64_t;; "_r14" ~: uint64_t;; "_r15" ~: uint64_t;; end_);; end_);;
  "" ~: union ("_eip" ~: uint32_t;; "_rip" ~: uint64_t;; end_);;
  "" ~: union ("_eflags" ~: uint32_t;; "_rflags" ~: uint64_t;; end_);;
  "_cs" ~: segment_desc_t;; "_ss" ~: segment_desc_t;; "_ds" ~: segment_desc_t;; "_es" ~: segment_desc_t;;
  "_fs" ~: segment_desc_t;; "_gs" ~: segment_desc_t;; "_ldt" ~: segment_desc_t;; "_tr" ~: segment_desc_t;;
  "_gdt" ~: segment_desc_t;; "_idt" ~: segment_desc_t;;
  "_cr0" ~: uint64_t;; "_cr2" ~: uint64_t;; "_cr3" ~: uint64_t;; "_cr4" ~: uint64_t;;
  "_dr0" ~: uint64_t;; "_dr1" ~: uint64_t;; "_dr2" ~: uint64_t;; "_dr3" ~: uint64_t;; "_dr6" ~: uint64_t;;
  "_dr7" ~: uint64_t;; "_pde" ~: uint64_t;; "_efer" ~: uint32_t;;
  "_sysenter_cs" ~: uint32_t;; "_sysenter_eip" ~: uint64_t;; "_sysenter_esp" ~: uint64_t;;
  "_activity_state" ~: uint32_t;; "pad" ~: uint32_t;; "_interruptibility_state" ~: interruptibility_state_t;; end_).

Definition declared : list ctype :=
  [vmx_msr; fx_layout; hax_msr_data; hax_tunnel; hax_fastmmio; hax_module_version; hax_capabilityinfo; hax_tunnel_info;
   hax_set_memlimit; hax_alloc_ram_info; hax_ramblock_info; hax_set_ram_info; hax_set_ram_info2; hax_protect_ram_info;
   hax_qemu_version; hax_debug_t; interruptibility_state_t; segment_desc_t; vcpu_state_t].
End Declarations.
End Hax.

(** ** Descriptors, page-table entries and register values *)

(** Bit-fields that are declared together, with one type. *)
Definition bits (b : Z) (l : list (string * Z)) (r : fields) : fields :=
  foldr (fun '(n, w) r => FBits n b w r) r l.

Module Desc.
Open Scope string_scope.
Definition GenericGDTDescriptor : ctype := struct ("" ~: union (
  "data" ~: struct ("_data1" ~: uint32_t;;
    bits 4 [("_data2", 8); ("type", 4); ("system", 1); ("privilegeLevel", 2); ("present", 1)] end_);;
  "descriptor" ~: uint64_t;; end_);; end_).
Definition GDTDescriptor : ctype := struct ("" ~: union (
  "data" ~: struct (
    "limitLow" ~: 2 # 16;; "baseLow" ~: 2 # 16;; "baseMid" ~: 1 # 8;;
    "access" ~: union (
      "common" ~: struct (bits 1 [("accessed", 1); ("", 1); ("", 1); ("executable", 1); ("system", 1);
                                  ("privilegeLevel", 2); ("present", 1)] end_);;
      "code" ~: struct (bits 1 [("accessed", 1); ("readable", 1); ("conforming", 1); ("executable", 1); ("system", 1);
                                ("privilegeLevel", 2); ("present", 1)] end_);;
      "data" ~: struct (bits 1 [("accessed", 1); ("writable", 1); ("direction", 1); ("executable", 1); ("system", 1);
                                ("privilegeLevel", 2); ("present", 1)] end_);;
      "u8" ~: 1 # 8;; end_);;
    "limitHigh" ~: 1 # 4;; "flags" ~: 1 # 4;; "baseHigh" ~: 1 # 8;; end_);;
  "descriptor" ~: uint64_t;; end_);; end_).
(** Also [TSSDescriptor]. *)
Definition LDTDescriptor : ctype := struct ("" ~: union (
  "data" ~: struct (
    "limitLow" ~: 2 # 16;; "baseLow" ~: 2 # 16;; "baseMid" ~: 1 # 8;;
    "access" ~: union (
      "data" ~: struct (bits 1 [("type", 4); ("system", 1); ("privilegeLevel", 2); ("present", 1)] end_);;
      "u8" ~: 1 # 8;; end_);;
    "limitHigh" ~: 1 # 4;; "flags" ~: 1 # 4;; "baseHigh" ~: 1 # 8;;
    "baseTop" ~: uint32_t;; "_reserved" ~: uint32_t;; end_);;
  "descriptor" ~: arr uint64_t 2;; end_);; end_).
Definition NonTaskGateDescriptor : ctype := struct ("" ~: union (
  "data" ~: struct (
    "offsetLow" ~: uint16_t;; "csSelector" ~: uint16_t;;
    "params" ~: union (
      "paramCount" ~: 1 # 5;; "" ~: 1 # 3;; "interruptStackTable" ~: 1 # 3;; "" ~: 1 # 5;; end_);;
    "access" ~: union (
      "data" ~: struct (bits 1 [("type", 4); ("system", 1); ("privilegeLevel", 2); ("present", 1)] end_);;
      "u8" ~: uint8_t;; end_);;
    "offsetHigh" ~: uint16_t;; "offsetTop" ~: uint32_t;; "_reserved" ~: uint32_t;; end_);;
  "descriptor" ~: arr uint64_t 2;; end_);; end_).
Definition TaskGateDescriptor : ctype := struct ("" ~: union (
  "data" ~: struct (
    "_reserved1" ~: uint16_t;; "tssSelector" ~: uint16_t;; "_reserved2" ~: uint8_t;;
    "access" ~: union (
      "data" ~: struct (bits 1 [("type", 4); ("system", 1); ("privilegeLevel", 2); ("present", 1)] end_);;
      "u8" ~: uint8_t;; end_);;
    "_reserved3" ~: uint16_t;; end_);;
  "descriptor" ~: uint64_t;; end_);; end_).
Definition GDTEntry : ctype := union (
  "generic" ~: GenericGDTDescriptor;; "gdt" ~: GDTDescriptor;; "ldt" ~: LDTDescriptor;; "tss" ~: LDTDescriptor;;
  "nonTaskGate" ~: NonTaskGateDescriptor;; "taskGate" ~: TaskGateDescriptor;; end_).
Definition IDTEntry : ctype := struct ("" ~: union (
  "data" ~: struct (
    "offsetLow" ~: 2 # 16;; "selector" ~: 2 # 16;; "zero" ~: 1 # 8;; "type" ~: 1 # 4;; "storageSegment" ~: 1 # 1;;
    "privilegeLevel" ~: 1 # 2;; "present" ~: 1 # 1;; "offsetHigh" ~: 2 # 16;; end_);;
  "descriptor" ~: uint64_t;; end_);; end_).

Definition PTE32 : ctype := struct (bits 4
  [("valid", 1); ("write", 1); ("owner", 1); ("writeThrough", 1); ("cacheDisable", 1); ("accessed", 1); ("dirty", 1);
   ("PAT", 1); ("global", 1); ("guard", 1); ("persist", 1); ("", 1); ("pageFrameNumber", 20)] end_).
Definition PDE32 : ctype := union (
  "" ~: struct (bits 4
    [("valid", 1); ("write", 1); ("owner", 1); ("writeThrough", 1); ("", 1); ("accessed", 1); ("dirty", 1);
     ("largePage", 1); ("global", 1); ("guard", 1); ("persist", 1); ("", 1); ("pageFrameNumber", 20)] end_);;
  "table" ~: struct (bits 4
    [("valid", 1); ("write", 1); ("owner", 1); ("writeThrough", 1); ("cacheDisable", 1); ("accessed", 1); ("dirty", 1);
     ("largePage", 1); ("global", 1); ("guard", 1); ("persist", 1); ("", 1); ("pageFrameNumber", 20)] end_);;
  "large" ~: struct (bits 4
    [("valid", 1); ("write", 1); ("owner", 1); ("writeThrough", 1); ("cacheDisable", 1); ("accessed", 1); ("dirty", 1);
     ("largePage", 1); ("global", 1); ("guard", 1); ("persist", 1); ("", 1); ("PAT", 1); ("addrHigh", 8); ("", 1);
     ("addrLow", 10)] end_);; end_).
Definition PTE64 : ctype := struct (bits 8
  [("valid", 1); ("write", 1); ("owner", 1); ("writeThrough", 1); ("cacheDisable", 1); ("accessed", 1); ("dirty", 1);
   ("PAT", 1); ("global", 1); ("guard", 1); ("persist", 1); ("", 1); ("address", 40); ("", 7); ("protectionKey", 4);
   ("executeDisable", 1)] end_).
Definition PDE64 : ctype := union (
  "" ~: struct (bits 8
    [("valid", 1); ("write", 1); ("owner", 1); ("writeThrough", 1); ("cacheDisable", 1); ("accessed", 1); ("", 1);
     ("largePage", 1); ("", 1); ("", 3); ("", 51); ("executeDisable", 1)] end_);;
  "table" ~: struct (bits 8
    [("valid", 1); ("write", 1); ("owner", 1); ("writeThrough", 1); ("cacheDisable", 1); ("accessed", 1); ("", 1);
     ("largePage", 1); ("", 1); ("", 3); ("address", 40); ("", 7); ("protectionKey", 4); ("executeDisable", 1)] end_);;
  "large" ~: struct (bits 8
    [("valid", 1); ("write", 1); ("owner", 1); ("writeThrough", 1); ("cacheDisable", 1); ("accessed", 1); ("dirty", 1);
     ("largePage", 1); ("global", 1); ("", 3); ("PAT", 1); ("", 8); ("address", 31); ("", 7); ("protectionKey", 4);
     ("executeDisable", 1)] end_);; end_).
Definition PDPTE : ctype := union (
  "" ~: struct (bits 8
    [("valid", 1); ("write", 1); ("owner", 1); ("writeThrough", 1); ("cacheDisable", 1); ("accessed", 1); ("", 1);
     ("largePage", 1); ("", 4); ("", 40); ("", 11); ("executeDisable", 1)] end_);;
  "table" ~: struct (bits 8
    [("valid", 1); ("write", 1); ("owner", 1); ("writeThrough", 1); ("cacheDisable", 1); ("accessed", 1); ("", 1);
     ("largePage", 1); ("", 4); ("address", 40); ("", 11); ("executeDisable", 1)] end_);;
  "large" ~: struct (bits 8
    [("valid", 1); ("write", 1); ("owner", 1); ("writeThrough", 1); ("cacheDisable", 1); ("accessed", 1); ("dirty", 1);
     ("largePage", 1); ("global", 1); ("", 3); ("PAT", 1); ("", 17); ("address", 22); ("", 7); ("protectionKey", 4);
     ("executeDisable", 1)] end_);; end_).
Definition PML4E : ctype := struct (bits 8
  [("valid", 1); ("write", 1); ("owner", 1); ("writeThrough", 1); ("cacheDisable", 1); ("accessed", 1); ("", 1);
   ("", 1); ("", 4); ("address", 40); ("", 11); ("executeDisable", 1)] end_).

Definition RegValue : ctype := union (
  "u8" ~: uint8_t;; "u16" ~: uint16_t;; "u32" ~: uint32_t;; "u64" ~: uint64_t;;
  "segment" ~: struct (
    "selector" ~: uint16_t;; "base" ~: uint64_t;; "limit" ~: uint32_t;;
    "attributes" ~: union (
      "" ~: struct (bits 2 [("type", 4); ("system", 1); ("privilegeLevel", 2); ("present", 1); ("", 4); ("available", 1);
                            ("longMode", 1); ("defaultSize", 1); ("granularity", 1)] end_);;
      "u16" ~: uint16_t;; end_);; end_);;
  "table" ~: struct ("base" ~: uint64_t;; "limit" ~: uint16_t;; end_);;
  "st" ~: struct ("significand" ~: uint64_t;; "exponentSign" ~: uint16_t;; end_);;
  "mm" ~: FpRegs.MMValue;; "xmm" ~: FpRegs.XMMValue;;
  "ymm" ~: union (
    "i64" ~: arr int64_t 4;; "i32" ~: arr int32_t 8;; "i16" ~: arr int16_t 16;; "i8" ~: arr int8_t 32;;
    "f64" ~: arr double 4;; "f32" ~: arr float 8;; end_);;
  "zmm" ~: union (
    "i64" ~: arr int64_t 8;; "i32" ~: arr int32_t 16;; "i16" ~: arr int16_t 32;; "i8" ~: arr int8_t 64;;
    "f64" ~: arr double 8;; "f32" ~: arr float 16;; end_);; end_).
Definition declared : list ctype :=
  [GenericGDTDescriptor; GDTDescriptor; LDTDescriptor; NonTaskGateDescriptor; TaskGateDescriptor; GDTEntry; IDTEntry;
   PTE32; PDE32; PTE64; PDE64; PDPTE; PML4E; RegValue].
End Desc.

(** ** The layouts of the declared structures *)

Definition all_declared (pack : bool) : list ctype := FpRegs.declared ++ Hax.declared pack ++ Desc.declared.
Lemma all_declared_wf pack : forallb wf (all_declared pack) = true.
Proof. destruct pack; vm_compute; reflexivity. Qed.
Lemma round_up_divides n a : (a | round_up n a).
Proof. apply Z.divide_factor_r. Qed.
Lemma bits_of_sizeof t : wf t = true -> 8 * sizeof t = bits_of t.
Proof.
  intros Hw. unfold sizeof. cut (8 | bits_of t); [intros [k ->]; rewrite Z.div_mul by lia; lia|].
  revert Hw. induction t using ctype_mut with (P0 := fun _ => True); cbn; try done; intros Hw; bools.
  - by apply Z.divide_factor_l.
  - apply Z.divide_mul_r. by apply IHt.
  - by eapply Z.divide_trans; [|apply round_up_divides]; apply Z.divide_factor_l.
  - by eapply Z.divide_trans; [|apply round_up_divides]; apply Z.divide_factor_l.
  - by eapply Z.divide_trans; [|apply round_up_divides]; apply Z.divide_factor_l.
Qed.

(** The declared structures are laid out soundly.  In every structure of fpregs.hpp, of the HAXM
    interface (with the packing attribute or without), of the descriptors, the page-table entries and
    RegValue: whichever member of each union is in use, the members follow each other in
    order, none overlaps another, and all lie within sizeof; and each named member occurs
    in such a selection. *)
Theorem layouts_are_sound pack t : t ∈ all_declared pack ->
  (forall s, s ∈ selections "" 0 t -> in_order s /\ Forall (within 0 (8 * sizeof t)) s)
  /\ (forall m, m ∈ members t -> exists s, s ∈ selections "" 0 t /\ m ∈ s).
Proof.
  intros Ht. assert (Hw : wf t = true).
  { pose proof (all_declared_wf pack) as Ha. rewrite forallb_forall in Ha. apply Ha. by apply list_elem_of_In. }
  split.
  - intros s Hs. rewrite bits_of_sizeof by done. by apply (proj1 selections_sound t Hw "" 0).
  - apply (proj2 (proj1 selections_cover t Hw "" 0)).
Qed.
Lemma layouts_are_sound_witness :
  exists t s, t ∈ all_declared true /\ s ∈ selections "" 0 t /\ length s = 42%nat /\ in_order s.
Proof.
  exists FpRegs.FXSAVEArea. exists (hd [] (selections "" 0 FpRegs.FXSAVEArea)).
  assert (Hs : hd [] (selections "" 0 FpRegs.FXSAVEArea) ∈ selections "" 0 FpRegs.FXSAVEArea)
    by (vm_compute; left).
  assert (Ht : FpRegs.FXSAVEArea ∈ all_declared true) by (apply list_elem_of_In; vm_compute; tauto).
  split; [exact Ht|]. split; [exact Hs|]. split; [vm_compute; reflexivity|].
  exact (proj1 (proj1 (layouts_are_sound true _ Ht) _ Hs)).
Defined.

(** The bits of a member. *)
Definition member (t : ctype) (path : string) : option (Z * Z) :=
  option_map (fun m => (snd (fst m), snd m)) (List.find (fun m => String.eqb (fst (fst m)) path) (members t)).
Definition at_bytes (t : ctype) (l : list (string * Z * Z)) : Prop :=
  Forall (fun '(path, offset, size) => member t path = Some (8 * offset, 8 * size)) l.

(** The structures of fpregs.hpp have the layouts of the hardware, except the XSAVE header.  All
    assertions of the header hold; the members of FXSAVEArea are at the offsets and with the
    sizes of the FXSAVE image, an x87 register has its significand first, the flags and masks of MXCSR at the bits of the register; the
    XSAVE header starts after the 512 bytes, with XSTATE_BV first, each state component at its bit.  But 14 bits and 50 of padding fill
    the first unit of xcomp_bv, so that its bit [format] is in a second one: at bit 64 of XCOMP_BV and
    not 63, the header has 72 bytes and not 64, and the area 584 and not 576. *)
Theorem fpregs_layouts :
  Forall (fun a => fst a = snd a) FpRegs.static_asserts
  /\ at_bytes FpRegs.FXSAVEArea
       [("fcw", 0, 2); ("fsw", 2, 2); ("ftw", 4, 1); ("fop", 6, 2); ("ip32.fip", 8, 4); ("ip32.fcs", 12, 2);
        ("ip64.fip", 8, 8); ("dp32.fdp", 16, 4); ("dp32.fds", 20, 2); ("dp64.fdp", 16, 8); ("mxcsr.u32", 24, 4);
        ("mxcsr_mask.u32", 28, 4); ("st_mm", 32, 8 * 16); ("xmm", 160, 16 * 16)]%string
  /\ List.map (member FpRegs.MXCSR)
       ["ie"; "de"; "ze"; "oe"; "ue"; "pe"; "daz"; "im"; "dm"; "zm"; "om"; "um"; "pm"; "rc"; "fz"]%string
     = List.map Some
       [(0, 1); (1, 1); (2, 1); (3, 1); (4, 1); (5, 1); (6, 1); (7, 1); (8, 1); (9, 1); (10, 1); (11, 1); (12, 1); (13, 2); (15, 1)]
  /\ at_bytes FpRegs.XSAVEArea [("header.xstate_bv.u64", 512, 8); ("header.xcomp_bv.u64", 520, 8)]%string
  /\ at_bytes FpRegs.STValue [("significand", 0, 8); ("exponentSign", 8, 2)]%string
  /\ List.map (fun name => member FpRegs.XSAVEArea ("header.xstate_bv.data." ++ name))%string
       ["x87"; "SSE"; "AVX"; "MPX_bndregs"; "MPX_bndcsr"; "AVX512_opmask"; "ZMM_Hi256"; "Hi16_ZMM"; "PT"; "PKRU"; "HDC"]%string
     = List.map (fun i => Some (8 * 512 + i, 1)) [0; 1; 2; 3; 4; 5; 6; 7; 8; 9; 13]
  /\ member FpRegs.XSAVEArea "header.xcomp_bv.data.format" = Some (8 * 520 + 64, 1)
  /\ offsetof FpRegs.XSAVEArea "header._reserved" = Some 536
  /\ sizeof FpRegs.XSAVEHeader = 72 /\ sizeof FpRegs.XSAVEArea = 584.
Proof.
  split; [repeat constructor|]. split; [repeat constructor|].
  split; [vm_compute; reflexivity|]. split; [repeat constructor|]. split; [repeat constructor|].
  split_and!; vm_compute; reflexivity.
Qed.

(** The packing attribute does not matter for the HAXM interface.  MSVC takes PACKED as nothing
    and the other compilers as the attribute; each structure that goes through a
    request has the same size, and the same members at the same bits, either way, so that all builds
    exchange the same bytes with the driver.  The FPU state that HAXM transfers is the image that
    fpregs.hpp declares: the same members at the same offsets, with XMM0 to XMM15 in mmx_1 and mmx_2. *)
Theorem haxm_packing_immaterial :
  List.map sizeof (Hax.declared true) = List.map sizeof (Hax.declared false)
  /\ List.map members (Hax.declared true) = List.map members (Hax.declared false)
  /\ List.map (member (Hax.fx_layout))
       ["fcw"; "fsw"; "ftw"; "fop"; "fip"; "fcs"; "fpu_ip"; "fdp"; "fds"; "fpu_dp"; "mxcsr"; "mxcsr_mask"; "st_mm"]%string
     = List.map (member FpRegs.FXSAVEArea)
       ["fcw"; "fsw"; "ftw"; "fop"; "ip32.fip"; "ip32.fcs"; "ip64.fip"; "dp32.fdp"; "dp32.fds"; "dp64.fdp"; "mxcsr.u32";
        "mxcsr_mask.u32"; "st_mm"]%string
  /\ offsetof Hax.fx_layout "mmx_1" = offsetof FpRegs.FXSAVEArea "xmm"
  /\ offsetof Hax.fx_layout "mmx_2" = option_map (Z.add (8 * sizeof FpRegs.XMMValue)) (offsetof FpRegs.FXSAVEArea "xmm")
  /\ sizeof Hax.fx_layout = sizeof FpRegs.FXSAVEArea
  /\ sizeof (Hax.vcpu_state_t true) = 512.
Proof. split_and!; vm_compute; reflexivity. Qed.

(** The fields by which the other files read descriptors, page-table entries and register values are the
    members of the declarations: path and field, for each declaration. *)
Definition modelled_fields : list (ctype * list (string * field)) :=
  [ (Desc.GenericGDTDescriptor,
      [("data.type", GenericGDTDescriptor.type); ("data.system", GenericGDTDescriptor.system);
       ("data.privilegeLevel", GenericGDTDescriptor.privilegeLevel); ("data.present", GenericGDTDescriptor.present)]);
    (Desc.GDTDescriptor,
      [("data.limitLow", GDTDescriptor.limitLow); ("data.baseLow", GDTDescriptor.baseLow);
       ("data.baseMid", GDTDescriptor.baseMid); ("data.access.u8", GDTDescriptor.access);
       ("data.limitHigh", GDTDescriptor.limitHigh); ("data.flags", GDTDescriptor.flags); ("data.baseHigh", GDTDescriptor.baseHigh)]);
    (Desc.LDTDescriptor,
      [("data.limitLow", LDTDescriptor.limitLow); ("data.baseLow", LDTDescriptor.baseLow);
       ("data.baseMid", LDTDescriptor.baseMid); ("data.access.u8", LDTDescriptor.access);
       ("data.limitHigh", LDTDescriptor.limitHigh); ("data.flags", LDTDescriptor.flags);
       ("data.baseHigh", LDTDescriptor.baseHigh); ("data.baseTop", LDTDescriptor.baseTop)]);
    (Desc.NonTaskGateDescriptor,
      [("data.offsetLow", NonTaskGateDescriptor.offsetLow); ("data.csSelector", NonTaskGateDescriptor.csSelector);
       ("data.access.u8", NonTaskGateDescriptor.access); ("data.offsetHigh", NonTaskGateDescriptor.offsetHigh);
       ("data.offsetTop", NonTaskGateDescriptor.offsetTop)]);
    (Desc.IDTEntry,
      [("data.offsetLow", IDTEntry.offsetLow); ("data.selector", IDTEntry.selector); ("data.zero", IDTEntry.zero);
       ("data.type", IDTEntry.type); ("data.storageSegment", IDTEntry.storageSegment);
       ("data.privilegeLevel", IDTEntry.privilegeLevel); ("data.present", IDTEntry.present);
       ("data.offsetHigh", IDTEntry.offsetHigh)]);
    (Desc.PTE32, [("valid", PTE32.valid); ("pageFrameNumber", PTE32.pageFrameNumber)]);
    (Desc.PDE32,
      [("valid", PDE32.valid); ("largePage", PDE32.largePage); ("table.pageFrameNumber", PDE32.table_pageFrameNumber);
       ("large.PAT", PDE32.large_PAT); ("large.addrHigh", PDE32.large_addrHigh); ("large.addrLow", PDE32.large_addrLow)]);
    (Desc.PTE64, [("valid", PTE64.valid); ("address", PTE64.address); ("protectionKey", PTE64.protectionKey);
                  ("executeDisable", PTE64.executeDisable)]);
    (Desc.PDE64,
      [("valid", PDE64.valid); ("largePage", PDE64.largePage); ("executeDisable", PDE64.executeDisable);
       ("table.address", PDE64.table_address); ("large.PAT", PDE64.large_PAT); ("large.address", PDE64.large_address)]);
    (Desc.PDPTE,
      [("valid", PDPTE.valid); ("largePage", PDPTE.largePage); ("executeDisable", PDPTE.executeDisable);
       ("table.address", PDPTE.table_address); ("large.PAT", PDPTE.large_PAT); ("large.address", PDPTE.large_address)]);
    (Desc.PML4E, [("valid", PML4E.valid); ("address", PML4E.address); ("executeDisable", PML4E.executeDisable)]);
    (Desc.RegValue,
      [("u8", RV.u8); ("u16", RV.u16); ("u32", RV.u32); ("u64", RV.u64); ("segment.selector", RV.selector);
       ("segment.base", RV.segbase); ("segment.limit", RV.seglimit); ("segment.attributes.u16", RV.attributes);
       ("segment.attributes.type", RV.attr_type); ("segment.attributes.system", RV.attr_system);
       ("segment.attributes.privilegeLevel", RV.attr_privilegeLevel); ("segment.attributes.present", RV.attr_present);
       ("segment.attributes.available", RV.attr_available); ("segment.attributes.longMode", RV.attr_longMode);
       ("segment.attributes.defaultSize", RV.attr_defaultSize); ("segment.attributes.granularity", RV.attr_granularity);
       ("table.base", RV.tbase); ("table.limit", RV.tlimit); ("st.significand", RV.significand);
       ("st.exponentSign", RV.exponentSign)]) ]%string.
Lemma modelled_fields_are_members :
  Forall (fun '(t, l) => Forall (fun '(path, f) => member t path = Some (f_off f, f_width f)) l) modelled_fields.
Proof. repeat (apply Forall_cons; split; [repeat constructor|]). apply Forall_nil. exact I. Qed.
