(* ===== verification/Status.v ===== *)
(** * Virtual processor status codes and the state-and-error monad (vp/status.hpp)

    An operation that returns a [VPOperationStatus] and threads the processor
    state [S] is a value of [M S A]: on [VP_OK] it yields its output arguments
    [A], otherwise it stops with the status, which is what CHECK_RESULT does. *)
From S2P Require Import Prelude.

Inductive VPExecutionStatus := VPE_OK | VPE_Failed | VPE_Unsupported.
#[global] Instance VPExecutionStatus_eq_dec : EqDecision VPExecutionStatus.
Proof. solve_decision. Defined.

Inductive VPOperationStatus :=
| VP_OK | VP_Failed | VP_InvalidArguments | VP_InvalidSelector | VP_InvalidRegister
| VP_BreakpointNeverHit | VP_Unsupported.
#[global] Instance VPOperationStatus_eq_dec : EqDecision VPOperationStatus.
Proof. solve_decision. Defined.

Inductive VMExitReason :=
| Exit_Normal | Exit_Cancelled | Exit_Interrupt | Exit_PIO | Exit_MMIO | Exit_Step
| Exit_SoftwareBreakpoint | Exit_HardwareBreakpoint | Exit_HLT | Exit_CPUID | Exit_MSRAccess
| Exit_Exception | Exit_Shutdown | Exit_Error | Exit_Unhandled.
#[global] Instance VMExitReason_eq_dec : EqDecision VMExitReason.
Proof. solve_decision. Defined.

(** The members of the union that describe an exit, by exit. *)
Inductive VMExitDetails :=
| Details_None
| Details_exceptionCode (exceptionCode : Z)
| Details_msr (isWrite : bool) (msrNumber rax rdx : Z)
| Details_cpuid (rax rcx rdx rbx defaultRax defaultRcx defaultRdx defaultRbx : Z).

Record VMExitInfo := MkVMExitInfo { reason : VMExitReason; details : VMExitDetails }.

(** ** The monad *)
Definition M (S A : Type) : Type := S -> (VPOperationStatus + A) * S.

#[global] Instance M_ret S : MRet (M S) := fun A a s => (inr a, s).
#[global] Instance M_bind S : MBind (M S) := fun A B f c s =>
  match c s with
  | (inl e, s) => (inl e, s)
  | (inr a, s) => f a s
  end.

Section Ops.
Context {S : Type}.
(** [return status] for a status other than OK. *)
Definition fail {A} (st : VPOperationStatus) : M S A := fun s => (inl st, s).
(** CHECK_RESULT_MEM, and the general early return on a missing value. *)
Definition or_fail {A} (st : VPOperationStatus) (o : option A) : M S A :=
  match o with Some a => mret a | None => fail st end.
Definition get_state : M S S := fun s => (inr s, s).
Definition put_state (s : S) : M S unit := fun _ => (inr tt, s).
(** The status a call returns. *)
Definition status_of {A} (r : VPOperationStatus + A) : VPOperationStatus :=
  match r with inl e => e | inr _ => VP_OK end.
End Ops.

Lemma bind_inr {S A B} (f : A -> M S B) (c : M S A) s a s' :
  c s = (inr a, s') -> (c ≫= f) s = f a s'.
Proof. unfold mbind, M_bind. by intros ->. Qed.

Lemma bind_inl {S A B} (f : A -> M S B) (c : M S A) s e s' :
  c s = (inl e, s') -> (c ≫= f) s = (inl e, s').
Proof. unfold mbind, M_bind. by intros ->. Qed.
