(* ===== verification/Vp.v ===== *)
(** * The virtual processor base class (vp/vp.hpp, vp/vp.cpp, vp/mode.hpp)

    Everything the base class does with registers and memory.  A platform's
    register access is the class [VPRegs]; what the base class relies on is
    [VPRegsLaws].  The state of a processor is the platform's state [S] paired
    with host memory.  [uninit] stands for the contents of local variables that
    the code leaves uninitialised: every theorem holds for all of them. *)
From S2P Require Import Prelude Bits MemRegions Regs Gdt Idt Paging Status.

(** ** Execution and paging modes (vp/mode.hpp) *)
Inductive CPUExecutionMode :=
| Mode_Unknown | Mode_RealAddress | Mode_Virtual8086 | Mode_Protected | Mode_IA32e.
Inductive CPUPagingMode :=
| Paging_Unknown | Paging_Invalid | Paging_None | Paging_NoneLME | Paging_NonePAE
| Paging_NonePAEandLME | Paging_ThirtyTwoBit | Paging_PAE | Paging_FourLevel.

(** ** Platform register access *)
Class VPRegs (S : Type) := {
  RegRead (reg : Reg.t) (value : RegValue) : M S RegValue;
  RegWrite (reg : Reg.t) (value : RegValue) : M S unit;
  (** [RegRead(regs, values, numRegs)]; the arrays survive a failure. *)
  RegReadN (regs : list Reg.t) (values : list RegValue)
    : S -> VPOperationStatus * list RegValue * S;
  RegWriteN (regs : list Reg.t) (values : list RegValue) : S -> VPOperationStatus * S;
  GetMSR (msr value : Z) : M S Z;
  SetMSR (msr value : Z) : M S unit
}.

(** The members of the union that a register's value occupies. *)
Definition reg_fields (r : Reg.t) : list field :=
  let i := Reg.idx r in
  if i <=? 7 then [RV.selector; RV.segbase; RV.seglimit; RV.attributes]
  else if i <=? 9 then [RV.tbase; RV.tlimit]
  else if i <=? 29 then [RV.u8]
  else if i <=? 47 then [RV.u16]
  else if i <=? 65 then [RV.u32]
  else if i <=? 96 then [RV.u64]
  else if i <=? 104 then [RV.significand; RV.exponentSign]
  else if i <=? 112 then [RV.i64 0]
  else if i <=? 144 then [RV.i64 0; RV.i64 1]
  else if i <=? 176 then RV.i64 <$> [0; 1; 2; 3]
  else RV.i64 <$> [0; 1; 2; 3; 4; 5; 6; 7].

(** Two values are the same as contents of register [r]. *)
Definition agree (r : Reg.t) (v w : RegValue) : Prop :=
  Forall (fun f => fget f v = fget f w) (reg_fields r).
#[global] Instance agree_equivalence r : Equivalence (agree r).
Proof.
  split.
  - intros v. unfold agree. by apply Forall_forall.
  - intros v w H. eapply Forall_impl; [exact H|]. by intros f ->.
  - intros u v w H1 H2. unfold agree in *. rewrite Forall_forall in *.
    intros f Hf. by rewrite H1, H2.
Qed.

Section Default.
Context {S : Type}.
Context (read : Reg.t -> RegValue -> M S RegValue) (write : Reg.t -> RegValue -> M S unit).

(** The base class's array versions: they stop at the first failure. *)
Fixpoint RegReadN_loop (regs : list Reg.t) (values : list RegValue) (s : S)
    : VPOperationStatus * list RegValue * S :=
  match regs, values with
  | reg :: regs, value :: values =>
      match read reg value s with
      | (inl status, s) => (status, value :: values, s)
      | (inr value, s) =>
          let '(status, values, s) := RegReadN_loop regs values s in (status, value :: values, s)
      end
  | _, _ => (VP_OK, values, s)
  end.
Fixpoint RegWriteN_loop (regs : list Reg.t) (values : list RegValue) (s : S)
    : VPOperationStatus * S :=
  match regs, values with
  | reg :: regs, value :: values =>
      match write reg value s with
      | (inl status, s) => (status, s)
      | (inr _, s) => RegWriteN_loop regs values s
      end
  | _, _ => (VP_OK, s)
  end.
(** With the null-pointer checks. *)
Definition default_RegReadN (regs : option (list Reg.t)) (values : option (list RegValue)) (s : S)
    : VPOperationStatus * list RegValue * S :=
  match regs, values with
  | Some regs, Some values => RegReadN_loop regs values s
  | _, _ => (VP_InvalidArguments, default [] values, s)
  end.
Definition default_RegWriteN (regs : option (list Reg.t)) (values : option (list RegValue)) (s : S)
    : VPOperationStatus * S :=
  match regs, values with
  | Some regs, Some values => RegWriteN_loop regs values s
  | _, _ => (VP_InvalidArguments, s)
  end.

(** [GetMSRs] and [SetMSRs] of the base class. *)
Fixpoint GetMSRs_loop (getmsr : Z -> Z -> M S Z) (msrs values : list Z) (s : S)
    : VPOperationStatus * list Z * S :=
  match msrs, values with
  | msr :: msrs, value :: values =>
      match getmsr msr value s with
      | (inl status, s) => (status, value :: values, s)
      | (inr value, s) =>
          let '(status, values, s) := GetMSRs_loop getmsr msrs values s in (status, value :: values, s)
      end
  | _, _ => (VP_OK, values, s)
  end.
Fixpoint SetMSRs_loop (setmsr : Z -> Z -> M S unit) (msrs values : list Z) (s : S)
    : VPOperationStatus * S :=
  match msrs, values with
  | msr :: msrs, value :: values =>
      match setmsr msr value s with
      | (inl status, s) => (status, s)
      | (inr _, s) => SetMSRs_loop setmsr msrs values s
      end
  | _, _ => (VP_OK, s)
  end.
Definition default_GetMSRs (getmsr : Z -> Z -> M S Z) (msrs values : option (list Z)) (s : S)
    : VPOperationStatus * list Z * S :=
  match msrs, values with
  | Some msrs, Some values => GetMSRs_loop getmsr msrs values s
  | _, _ => (VP_InvalidArguments, default [] values, s)
  end.
Definition default_SetMSRs (setmsr : Z -> Z -> M S unit) (msrs values : option (list Z)) (s : S)
    : VPOperationStatus * S :=
  match msrs, values with
  | Some msrs, Some values => SetMSRs_loop setmsr msrs values s
  | _, _ => (VP_InvalidArguments, s)
  end.

(** Operations a platform need not implement. *)
Definition default_GetVirtualTSCOffset (offset : Z) : M S Z := fail VP_Unsupported.
Definition default_SetVirtualTSCOffset (offset : Z) : M S unit := fail VP_Unsupported.
Definition default_EnableSoftwareBreakpoints (enable : bool) : M S unit := fail VP_Unsupported.
Definition default_SetHardwareBreakpoints {HB} (breakpoints : HB) : M S unit := fail VP_Unsupported.
Definition default_ClearHardwareBreakpoints : M S unit := fail VP_Unsupported.
Definition default_GetBreakpointAddress : M S Z := fail VP_Unsupported.
Definition default_StepImpl (s : S) : VPExecutionStatus * S := (VPE_Unsupported, s).
End Default.

(** ** What the base class relies on

    [rview s r] is the value of register [r] when it can be read; reading it
    succeeds, returns that value and changes no register. *)
Class VPRegsLaws (S : Type) `{VPRegs S} := {
  rview : S -> Reg.t -> option RegValue;
  rview_read : forall s r w v, rview s r = Some v ->
    exists v' s', RegRead r w s = (inr v', s') /\ agree r v' v
      /\ forall r', rview s' r' = rview s r';
  rview_readN : forall s regs ws vs, regs <> [] -> length ws = length regs ->
    Forall2 (fun r v => rview s r = Some v) regs vs ->
    exists xs s', RegReadN regs ws s = (VP_OK, xs, s') /\ Forall3 agree regs xs vs
      /\ forall r', rview s' r' = rview s r';
  rview_readN_fails : forall r regs w ws s e s1, RegRead r w s = (inl e, s1) -> e <> VP_OK ->
    exists e' xs, RegReadN (r :: regs) (w :: ws) s = (e', xs, s1) /\ e' <> VP_OK
}.

(** A platform that reads arrays one register after the other has the laws. *)
Section Loop.
Context {S : Type} `{VPRegs S} (view : S -> Reg.t -> option RegValue).
Context (view_read : forall s r w v, view s r = Some v ->
  exists v' s', RegRead r w s = (inr v', s') /\ agree r v' v /\ forall r', view s' r' = view s r').
Context (by_loop : forall r regs w ws s,
  RegReadN (r :: regs) (w :: ws) s = RegReadN_loop RegRead (r :: regs) (w :: ws) s).

Lemma loop_view s regs ws vs : length ws = length regs ->
  Forall2 (fun r v => view s r = Some v) regs vs ->
  exists xs s', RegReadN_loop RegRead regs ws s = (VP_OK, xs, s') /\ Forall3 agree regs xs vs
    /\ forall r', view s' r' = view s r'.
Proof.
  intros Hl Hf. revert ws s Hl Hf.
  induction vs as [|v vs IH] in regs |- *; intros ws s Hl Hf; inversion Hf as [|r ? regs' ? Hv Hvs]; subst.
  - destruct ws; [|done]. exists [], s. split; [done|]. split; [constructor|done].
  - destruct ws as [|w ws]; [done|]. cbn. destruct (view_read s r w v Hv) as (x & s1 & -> & Ha & Hs1).
    destruct (IH regs' ws s1) as (xs & s2 & -> & Hxs & Hs2); [by injection Hl| |].
    + eapply Forall2_impl; [exact Hvs|]. intros r' v' <-. apply Hs1.
    + exists (x :: xs), s2. split; [done|]. split; [by constructor|]. intros r'. by rewrite Hs2, Hs1.
Qed.

Lemma loop_readN s regs ws vs : regs <> [] -> length ws = length regs ->
  Forall2 (fun r v => view s r = Some v) regs vs ->
  exists xs s', RegReadN regs ws s = (VP_OK, xs, s') /\ Forall3 agree regs xs vs
    /\ forall r', view s' r' = view s r'.
Proof.
  intros Hne Hl Hf. destruct regs as [|r regs]; [done|]. destruct ws as [|w ws]; [done|].
  rewrite by_loop. by apply loop_view.
Qed.

Lemma loop_readN_fails r regs w ws s e s1 : RegRead r w s = (inl e, s1) -> e <> VP_OK ->
  exists e' xs, RegReadN (r :: regs) (w :: ws) s = (e', xs, s1) /\ e' <> VP_OK.
Proof. intros He Hne. rewrite by_loop. cbn. rewrite He. by eexists e, _. Qed.
End Loop.

Section Vp.
Context {S : Type} `{VPRegs S}.
(** The virtual machine's regions, and uninitialised storage. *)
Context (regions : list MemoryRegion) (uninit : RegValue).
Definition vstate : Type := (S * hmem).

(** ** Lifting register access to the processor state; memory *)
Definition lift {A} (c : M S A) : M vstate A := fun s =>
  let '(r, s') := c s.1 in (r, (s', s.2)).
Definition vRegRead (reg : Reg.t) (value : RegValue) : M vstate RegValue := lift (RegRead reg value).
Definition vRegWrite (reg : Reg.t) (value : RegValue) : M vstate unit := lift (RegWrite reg value).

(** [VirtualProcessor::MemRead] and [MemWrite]; [false] becomes [Failed], as in
    CHECK_RESULT_MEM. *)
Definition check_MemRead (paddr size : Z) : M vstate (list Z) := fun s =>
  match MemRead s.2 regions paddr size with
  | Some bs => (inr bs, s)
  | None => (inl VP_Failed, s)
  end.
Definition check_MemWrite (paddr size : Z) (value : list Z) : M vstate unit := fun s =>
  match MemWrite s.2 regions paddr size value with
  | Some m => (inr tt, (s.1, m))
  | None => (inl VP_Failed, s)
  end.

(** ** CPU modes *)
Definition GetExecutionMode (s : vstate) : CPUExecutionMode * vstate :=
  let '(regStatus, vals, s1) := RegReadN [Reg.CR0; Reg.RFLAGS; Reg.EFER] [uninit; uninit; uninit] s.1 in
  let s := (s1, s.2) in
  match regStatus, vals with
  | VP_OK, [v0; v1; v2] =>
      let cr0_pe := nz (fget RV.u64 v0 &&& CR0_PE) in
      let rflags_vm := nz (fget RV.u64 v1 &&& RFLAGS_VM) in
      let efer_lma := nz (fget RV.u64 v2 &&& EFER_LMA) in
      (if negb cr0_pe then Mode_RealAddress
       else if rflags_vm then Mode_Virtual8086
       else if efer_lma then Mode_IA32e
       else Mode_Protected, s)
  | _, _ => (Mode_Unknown, s)
  end.

Definition GetPagingMode (s : vstate) : CPUPagingMode * vstate :=
  let '(regStatus, vals, s1) := RegReadN [Reg.CR0; Reg.CR4; Reg.EFER] [uninit; uninit; uninit] s.1 in
  let s := (s1, s.2) in
  match regStatus, vals with
  | VP_OK, [v0; v1; v2] =>
      let cr0_pg := nz (fget RV.u64 v0 &&& CR0_PG) in
      let cr4_pae := nz (fget RV.u64 v1 &&& CR4_PAE) in
      let efer_lme := nz (fget RV.u64 v2 &&& EFER_LME) in
      let pagingModeBits := (if cr0_pg then 1 <<< 2 else 0) ||| (if cr4_pae then 1 <<< 1 else 0)
                            ||| (if efer_lme then 1 <<< 0 else 0) in
      (match pagingModeBits with
       | 0 => Paging_None | 1 => Paging_NoneLME | 2 => Paging_NonePAE | 3 => Paging_NonePAEandLME
       | 4 => Paging_ThirtyTwoBit | 5 => Paging_Invalid | 6 => Paging_PAE | 7 => Paging_FourLevel
       | _ => Paging_Unknown
       end, s)
  | _, _ => (Paging_Unknown, s)
  end.

Definition IsIA32eMode (s : vstate) : bool * vstate :=
  let '(mode, s) := GetExecutionMode s in
  (match mode with Mode_IA32e => true | _ => false end, s).

(** ** Linear memory

    [LinearToPhysical] with a non-null [paddr]; [None] is [false].  The status
    of a failed register read is dropped. *)
Definition vLinearToPhysical32 (laddr : Z) (s : vstate) : option Z * vstate :=
  match (cr3 ← vRegRead Reg.CR3 uninit; cr4 ← vRegRead Reg.CR4 uninit; mret (cr3, cr4)) s with
  | (inl _, s) => (None, s)
  | (inr (cr3, cr4), s) => (LinearToPhysical32 s.2 regions cr3 cr4 laddr, s)
  end.
Definition vLinearToPhysicalPAE (laddr : Z) (s : vstate) : option Z * vstate :=
  match vRegRead Reg.CR3 uninit s with
  | (inl _, s) => (None, s)
  | (inr cr3, s) => (LinearToPhysicalPAE s.2 regions cr3 laddr, s)
  end.
Definition vLinearToPhysical4Level (laddr : Z) (s : vstate) : option Z * vstate :=
  match vRegRead Reg.CR3 uninit s with
  | (inl _, s) => (None, s)
  | (inr cr3, s) => (LinearToPhysical4Level s.2 regions cr3 laddr, s)
  end.

Definition LinearToPhysical (laddr : Z) (s : vstate) : option Z * vstate :=
  match (cr0 ← vRegRead Reg.CR0 uninit; cr4 ← vRegRead Reg.CR4 uninit;
         efer ← vRegRead Reg.EFER uninit; mret (cr0, cr4, efer)) s with
  | (inl _, s) => (None, s)
  | (inr (cr0, cr4, efer), s) =>
      if negb (nz (fget RV.u64 cr0 &&& CR0_PG)) then (Some (laddr &&& 0xFFFFFFFF), s)
      else if negb (nz (fget RV.u64 cr4 &&& CR4_PAE)) then vLinearToPhysical32 (u32 laddr) s
      else if negb (nz (fget RV.u64 efer &&& EFER_LME)) then vLinearToPhysicalPAE (u32 laddr) s
      else vLinearToPhysical4Level laddr s
  end.

Definition PAGE_SIZE : Z := 4 * 1024.

(** The loop of [LMemRead]: the bytes copied so far are [acc], so [pos] is their
    number.  The outer [option] is the fuel. *)
Fixpoint LMemRead_loop (fuel : nat) (size srcAddrStart srcAddrEnd copySize : Z) (acc : list Z)
    (s : vstate) : option (bool * list Z * vstate) :=
  let pos := Z.of_nat (length acc) in
  if pos <? size then
    match fuel with
    | O => None
    | Datatypes.S fuel =>
      match LinearToPhysical srcAddrStart s with
      | (None, s) => Some (false, acc, s)
      | (Some physAddr, s) =>
        match MemRead s.2 regions physAddr copySize with
        | None => Some (false, acc, s)
        | Some bs =>
          let acc := acc ++ bs in
          let pos := u64 (pos + copySize) in
          let srcAddrStart := u64 (srcAddrEnd + 1) in
          let srcAddrEnd := u64 (srcAddrEnd + PAGE_SIZE) in
          let copySize := u64 (size - pos) in
          let copySize := if PAGE_SIZE <? copySize then PAGE_SIZE else copySize in
          LMemRead_loop fuel size srcAddrStart srcAddrEnd copySize acc s
        end
      end
    end
  else Some (true, acc, s).

(** The end of the first page and the first chunk. *)
Definition lmem_srcAddrEnd (laddr : Z) : Z :=
  u64 ((u64 (laddr + PAGE_SIZE) &&& u64 (Z.lnot (PAGE_SIZE - 1))) - 1).
Definition lmem_copySize (laddr size : Z) : Z :=
  let copySize := u64 (u64 (lmem_srcAddrEnd laddr - laddr) + 1) in
  if size <? copySize then size else copySize.
Definition lmem_fuel (size : Z) : nat := Z.to_nat (size / PAGE_SIZE + 2).

(** [value] is null or not.  The result is the returned flag, the bytes stored
    in [value] and, on success, [*bytesRead]. *)
Definition LMemRead (laddr size : Z) (value_null : bool) (s : vstate)
    : option (bool * list Z * option Z * vstate) :=
  if value_null then Some (false, [], None, s)
  else
    match LMemRead_loop (lmem_fuel size) size laddr (lmem_srcAddrEnd laddr)
            (lmem_copySize laddr size) [] s with
    | None => None
    | Some (ok, bs, s) =>
        Some (ok, bs, if (ok : bool) then Some (Z.of_nat (length bs)) else None, s)
    end.

Fixpoint LMemWrite_loop (fuel : nat) (size srcAddrStart srcAddrEnd copySize pos : Z)
    (value : list Z) (s : vstate) : option (bool * Z * vstate) :=
  if pos <? size then
    match fuel with
    | O => None
    | Datatypes.S fuel =>
      match LinearToPhysical srcAddrStart s with
      | (None, s) => Some (false, pos, s)
      | (Some physAddr, s) =>
        match MemWrite s.2 regions physAddr copySize (drop (Z.to_nat pos) value) with
        | None => Some (false, pos, s)
        | Some m =>
          let s := (s.1, m) in
          let pos := u64 (pos + copySize) in
          let srcAddrStart := u64 (srcAddrEnd + 1) in
          let srcAddrEnd := u64 (srcAddrEnd + PAGE_SIZE) in
          let copySize := u64 (size - pos) in
          let copySize := if PAGE_SIZE <? copySize then PAGE_SIZE else copySize in
          LMemWrite_loop fuel size srcAddrStart srcAddrEnd copySize pos value s
        end
      end
    end
  else Some (true, pos, s).

Definition LMemWrite (laddr size : Z) (value : option (list Z)) (s : vstate)
    : option (bool * option Z * vstate) :=
  match value with
  | None => Some (false, None, s)
  | Some value =>
      match LMemWrite_loop (lmem_fuel size) size laddr (lmem_srcAddrEnd laddr)
              (lmem_copySize laddr size) 0 value s with
      | None => None
      | Some (ok, pos, s) => Some (ok, if (ok : bool) then Some pos else None, s)
      end
  end.

(** ** Register copies *)
Definition RegCopy (dst src : Reg.t) : M vstate unit :=
  tmp ← vRegRead src uninit; vRegWrite dst tmp.
Fixpoint RegCopyN_loop (dsts srcs : list Reg.t) : M vstate unit :=
  match dsts, srcs with
  | dst :: dsts, src :: srcs => RegCopy dst src ≫= fun _ => RegCopyN_loop dsts srcs
  | _, _ => mret tt
  end.
Definition RegCopyN (dsts srcs : option (list Reg.t)) : M vstate unit :=
  match dsts, srcs with
  | Some dsts, Some srcs => RegCopyN_loop dsts srcs
  | _, _ => fail VP_InvalidArguments
  end.
End Vp.

(** ** Specification: mode tables *)

(** The execution mode of CR0.PE, RFLAGS.VM and EFER.LMA, as documented. *)
Definition exec_mode (pe vm lma : bool) : CPUExecutionMode :=
  match pe, vm, lma with
  | false, _, _ => Mode_RealAddress
  | true, true, _ => Mode_Virtual8086
  | true, false, false => Mode_Protected
  | true, false, true => Mode_IA32e
  end.
(** The paging mode of CR0.PG, CR4.PAE and EFER.LME, as documented. *)
Definition paging_mode (pg pae lme : bool) : CPUPagingMode :=
  match pg, pae, lme with
  | false, false, false => Paging_None
  | false, false, true => Paging_NoneLME
  | false, true, false => Paging_NonePAE
  | false, true, true => Paging_NonePAEandLME
  | true, false, false => Paging_ThirtyTwoBit
  | true, false, true => Paging_Invalid
  | true, true, false => Paging_PAE
  | true, true, true => Paging_FourLevel
  end.

(** The translation that the code makes in each paging mode, with the control registers: the walks of
    Paging.v, the one of PAE with the index that the code takes for the page directory (bits 11 to 3;
    GuestLinear.v compares it with the architecture's). *)
Definition translation (loads : Z -> Z -> option (list Z)) (mode : CPUPagingMode)
    (cr3 cr4 : RegValue) (laddr : Z) : option Z :=
  match mode with
  | Paging_None | Paging_NoneLME | Paging_NonePAE | Paging_NonePAEandLME => Some (laddr mod 2 ^ 32)
  | Paging_ThirtyTwoBit | Paging_Invalid =>
      walk32 loads (Z.testbit (fget RV.u64 cr4) 4) cr3 (u32 laddr)
  | Paging_PAE => walkPAE loads 3 cr3 (u32 laddr)
  | Paging_FourLevel => walk4 loads cr3 laddr
  | Paging_Unknown => None
  end.

(** ** Lemmas *)

Lemma agree_u64 r v w : 66 <= Reg.idx r <= 96 -> agree r v w -> fget RV.u64 v = fget RV.u64 w.
Proof.
  intros Hr. unfold agree, reg_fields.
  rewrite (proj2 (Z.leb_gt (Reg.idx r) 7)), (proj2 (Z.leb_gt (Reg.idx r) 9)),
    (proj2 (Z.leb_gt (Reg.idx r) 29)), (proj2 (Z.leb_gt (Reg.idx r) 47)),
    (proj2 (Z.leb_gt (Reg.idx r) 65)), (proj2 (Z.leb_le (Reg.idx r) 96)) by lia.
  by intros [? _]%Forall_cons.
Qed.

Lemma fget_u32_u64 v w : fget RV.u64 v = fget RV.u64 w -> fget RV.u32 v = fget RV.u32 w.
Proof.
  intros Heq. apply Z.bits_inj'; intros i Hi. rewrite !fget_testbit by done.
  destruct (Z.ltb_spec i (f_width RV.u32)) as [Hlt|]; [|done]. simpl in *.
  assert (Hb : Z.testbit (fget RV.u64 v) i = Z.testbit (fget RV.u64 w) i) by congruence.
  rewrite !fget_testbit in Hb by done. simpl in Hb.
  by rewrite !(proj2 (Z.ltb_lt i 64)) in Hb by lia.
Qed.

(** The low [k] bits below 64 of two values with the same [u64]. *)
Lemma frame_u64_same lo hi v w : 0 <= lo <= hi -> hi <= 64 ->
  fget RV.u64 v = fget RV.u64 w -> frame lo hi v = frame lo hi w.
Proof.
  intros. replace hi with (lo + (hi - lo)) by lia.
  rewrite <- !(frame_shiftr 64 lo (hi - lo)) by lia. unfold RV.u64 in *. congruence.
Qed.

Lemma walk4_same loads v w l :
  fget RV.u64 v = fget RV.u64 w -> walk4 loads v l = walk4 loads w l.
Proof. intros He. unfold walk4. by rewrite (frame_u64_same 12 52 v w) by (done || lia). Qed.
Lemma walk32_same loads pse v w l :
  fget RV.u64 v = fget RV.u64 w -> walk32 loads pse v l = walk32 loads pse w l.
Proof. intros He. unfold walk32. by rewrite (frame_u64_same 12 32 v w) by (done || lia). Qed.
Lemma walkPAE_same loads k v w l :
  fget RV.u64 v = fget RV.u64 w -> walkPAE loads k v l = walkPAE loads k w l.
Proof. intros He. unfold walkPAE. by rewrite (frame_u64_same 5 32 v w) by (done || lia). Qed.

Section Facts.
Context {S : Type} `{VPRegsLaws S}.
Context (regions : list MemoryRegion) (uninit : RegValue).
Abbreviation V := (@vstate S).

(** Two states hold the same readable registers. *)
Definition same_regs (s s' : S) : Prop := forall r, rview s' r = rview s r.

#[global] Instance same_regs_preorder : PreOrder same_regs.
Proof.
  split.
  - by intros s r.
  - intros s1 s2 s3 H12 H23 r. by rewrite H23.
Qed.

Lemma vRegRead_ok s m r w v : rview s r = Some v ->
  exists v' s', vRegRead r w (s, m) = (inr v', (s', m)) /\ agree r v' v /\ same_regs s s'.
Proof.
  intros Hv. destruct (rview_read s r w v Hv) as (v' & s' & Hr & Ha & Hs).
  exists v', s'. split; [|done]. unfold vRegRead, lift. simpl. by rewrite Hr.
Qed.

(** Reading a 64-bit register. *)
Lemma vRegRead_u64 s m r w v : 66 <= Reg.idx r <= 96 -> rview s r = Some v ->
  exists v' s', vRegRead r w (s, m) = (inr v', (s', m)) /\ fget RV.u64 v' = fget RV.u64 v
    /\ same_regs s s'.
Proof.
  intros Hr Hv. destruct (vRegRead_ok s m r w v Hv) as (v' & s' & ? & ? & ?).
  exists v', s'. split_and!; try done. by eapply (agree_u64 r).
Qed.

(** Reading three 64-bit registers into an array. *)
Lemma RegReadN_3 s r1 r2 r3 w1 w2 w3 v1 v2 v3 :
  66 <= Reg.idx r1 <= 96 -> 66 <= Reg.idx r2 <= 96 -> 66 <= Reg.idx r3 <= 96 ->
  rview s r1 = Some v1 -> rview s r2 = Some v2 -> rview s r3 = Some v3 ->
  exists x1 x2 x3 s', RegReadN [r1; r2; r3] [w1; w2; w3] s = (VP_OK, [x1; x2; x3], s')
    /\ fget RV.u64 x1 = fget RV.u64 v1 /\ fget RV.u64 x2 = fget RV.u64 v2
    /\ fget RV.u64 x3 = fget RV.u64 v3 /\ same_regs s s'.
Proof.
  intros Hr1 Hr2 Hr3 H1 H2 H3.
  assert (Hf : Forall2 (fun r v => rview s r = Some v) [r1; r2; r3] [v1; v2; v3]) by (repeat (constructor; [assumption|]); constructor).
  destruct (rview_readN s [r1; r2; r3] [w1; w2; w3] [v1; v2; v3]) as (xs & s' & E & Ha & Hs);
    [done|done|exact Hf|].
  repeat match goal with Hf : Forall3 _ _ _ _ |- _ => inversion Hf; clear Hf; subst end.
  eexists _, _, _, s'. split; [exact E|]. split_and!; try by (eapply agree_u64; [|eassumption]).
  exact Hs.
Qed.

Lemma GetExecutionMode_ok s m cr0 rfl efer :
  rview s Reg.CR0 = Some cr0 -> rview s Reg.RFLAGS = Some rfl -> rview s Reg.EFER = Some efer ->
  exists s', GetExecutionMode uninit (s, m)
    = (exec_mode (Z.testbit (fget RV.u64 cr0) 0) (Z.testbit (fget RV.u64 rfl) 17)
         (Z.testbit (fget RV.u64 efer) 10), (s', m)) /\ same_regs s s'.
Proof.
  intros H1 H2 H3. unfold GetExecutionMode. simpl.
  destruct (RegReadN_3 s Reg.CR0 Reg.RFLAGS Reg.EFER uninit uninit uninit cr0 rfl efer)
    as (x1 & x2 & x3 & s' & -> & E1 & E2 & E3 & Hs); [simpl; lia..|done|done|done|].
  exists s'. split; [|done]. unfold CR0_PE, RFLAGS_VM, EFER_LMA.
  rewrite !nz_land_bit, E1, E2, E3 by lia. unfold bit, exec_mode. f_equal.
  by destruct (Z.testbit (fget RV.u64 cr0) 0), (Z.testbit (fget RV.u64 rfl) 17),
    (Z.testbit (fget RV.u64 efer) 10).
Qed.

Lemma GetPagingMode_ok s m cr0 cr4 efer :
  rview s Reg.CR0 = Some cr0 -> rview s Reg.CR4 = Some cr4 -> rview s Reg.EFER = Some efer ->
  exists s', GetPagingMode uninit (s, m)
    = (paging_mode (Z.testbit (fget RV.u64 cr0) 31) (Z.testbit (fget RV.u64 cr4) 5)
         (Z.testbit (fget RV.u64 efer) 8), (s', m)) /\ same_regs s s'.
Proof.
  intros H1 H2 H3. unfold GetPagingMode. simpl.
  destruct (RegReadN_3 s Reg.CR0 Reg.CR4 Reg.EFER uninit uninit uninit cr0 cr4 efer)
    as (x1 & x2 & x3 & s' & -> & E1 & E2 & E3 & Hs); [simpl; lia..|done|done|done|].
  exists s'. split; [|done]. unfold CR0_PG, CR4_PAE, EFER_LME.
  rewrite !nz_land_bit, E1, E2, E3 by lia. unfold bit, paging_mode. f_equal.
  by destruct (Z.testbit (fget RV.u64 cr0) 31), (Z.testbit (fget RV.u64 cr4) 5),
    (Z.testbit (fget RV.u64 efer) 8).
Qed.

(** [LinearToPhysical] makes the translation of the paging mode. *)
Lemma LinearToPhysical_ok s m laddr cr0 cr3 cr4 efer :
  rview s Reg.CR0 = Some cr0 -> rview s Reg.CR3 = Some cr3 ->
  rview s Reg.CR4 = Some cr4 -> rview s Reg.EFER = Some efer ->
  exists s', LinearToPhysical regions uninit laddr (s, m)
    = (translation (MemRead m regions)
         (paging_mode (Z.testbit (fget RV.u64 cr0) 31) (Z.testbit (fget RV.u64 cr4) 5)
            (Z.testbit (fget RV.u64 efer) 8)) cr3 cr4 laddr, (s', m)) /\ same_regs s s'.
Proof.
  intros Hc0 H3 H4 He. unfold LinearToPhysical, mbind, M_bind.
  destruct (vRegRead_u64 s m Reg.CR0 uninit cr0) as (v0 & s1 & -> & E0 & S1); [simpl; lia|done|].
  rewrite <- (S1 Reg.CR4) in H4. rewrite <- (S1 Reg.EFER) in He. rewrite <- (S1 Reg.CR3) in H3.
  destruct (vRegRead_u64 s1 m Reg.CR4 uninit cr4) as (v4 & s2 & -> & E4 & S2); [simpl; lia|done|].
  rewrite <- (S2 Reg.EFER) in He. rewrite <- (S2 Reg.CR3) in H3. rewrite <- (S2 Reg.CR4) in H4.
  destruct (vRegRead_u64 s2 m Reg.EFER uninit efer) as (ve & s3 & -> & Ee & S3); [simpl; lia|done|].
  rewrite <- (S3 Reg.CR3) in H3. rewrite <- (S3 Reg.CR4) in H4. unfold mret, M_ret.
  unfold CR0_PG, CR4_PAE, EFER_LME. rewrite !nz_land_bit, E0, E4, Ee by lia. unfold bit.
  assert (Hs3 : same_regs s s3) by (do 3 (etransitivity; [|eassumption]); reflexivity).
  destruct (Z.testbit (fget RV.u64 cr0) 31); simpl.
  2: { exists s3. split; [|done].
       change 4294967295 with (Z.ones 32). rewrite Z.land_ones by lia.
       by destruct (Z.testbit (fget RV.u64 cr4) 5), (Z.testbit (fget RV.u64 efer) 8). }
  destruct (vRegRead_u64 s3 m Reg.CR3 uninit cr3) as (v3 & s4 & R3 & E3 & S4); [simpl; lia|done|].
  assert (Hs4 : same_regs s s4) by (etransitivity; [exact Hs3|exact S4]).
  destruct (Z.testbit (fget RV.u64 cr4) 5); simpl.
  - destruct (Z.testbit (fget RV.u64 efer) 8); simpl.
    + unfold vLinearToPhysical4Level. rewrite R3. exists s4. split; [|done]. simpl.
      by rewrite LinearToPhysical4Level_walk, (walk4_same _ v3 cr3).
    + unfold vLinearToPhysicalPAE. rewrite R3. exists s4. split; [|done]. simpl.
      rewrite LinearToPhysicalPAE_walk by apply u32_range. by rewrite (walkPAE_same _ _ v3 cr3).
  - unfold vLinearToPhysical32, mbind, M_bind. rewrite R3. rewrite <- (S4 Reg.CR4) in H4.
    destruct (vRegRead_u64 s4 m Reg.CR4 uninit cr4) as (v4' & s5 & -> & E4' & S5); [simpl; lia|done|].
    exists s5. split; [|by etransitivity]. unfold mret, M_ret. simpl.
    rewrite LinearToPhysical32_walk, E4', (walk32_same _ _ v3 cr3) by done.
    by destruct (Z.testbit (fget RV.u64 efer) 8).
Qed.

(** *** Linear reads *)

Lemma walk32_page_local loads pse cr3 laddr d : 0 <= d -> laddr mod 4096 + d < 4096 ->
  walk32 loads pse cr3 (laddr + d) = (fun p => p + d) <$> walk32 loads pse cr3 laddr.
Proof.
  intros Hd Hp. unfold walk32.
  destruct (div_same_page laddr d 22) as [-> ->]; [lia..|].
  destruct (div_same_page laddr d 12) as [-> ->]; [lia..|].
  destruct (entry_at _ _ _ _) as [e|]; simpl; [|done]. case_if; simpl; [f_equal; lia|].
  destruct (entry_at _ _ _ _) as [e'|]; simpl; [f_equal; lia|done].
Qed.

Lemma u32_same_page laddr d : 0 <= d -> laddr mod 4096 + d < 4096 -> u32 (laddr + d) = u32 laddr + d.
Proof. intros. unfold u32. apply div_same_page; lia. Qed.

Lemma u32_page_offset laddr : u32 laddr mod 4096 = laddr mod 4096.
Proof. unfold u32. change (2 ^ 32) with (4096 * 1048576). rewrite Z.rem_mul_r by lia.
  rewrite (Z.mul_comm 4096), Z.mod_add by lia. by rewrite Z.mod_mod by lia. Qed.

(** Except under PAE, a translation moves with the address inside a page. *)
Lemma translation_page_local loads mode cr3 cr4 laddr d :
  mode <> Paging_PAE -> 0 <= d -> laddr mod 4096 + d < 4096 ->
  translation loads mode cr3 cr4 (laddr + d)
  = (fun p => p + d) <$> translation loads mode cr3 cr4 laddr.
Proof.
  intros Hm Hd Hp. destruct mode; simpl; try done.
  1, 6: rewrite u32_same_page by done; by rewrite walk32_page_local by (rewrite ?u32_page_offset; lia).
  1, 2, 3, 4: destruct (div_same_page laddr d 32) as [_ Hq]; [lia..|];
    simpl in *; congruence.
  apply walk_page_local; [|done..]. repeat (apply Forall_nil_2 || apply Forall_cons_2); simpl; lia.
Qed.

Lemma translation_range m mode cr3 cr4 laddr p :
  translation (MemRead m regions) mode cr3 cr4 laddr = Some p ->
  0 <= p < 2 ^ 52 /\ p mod 4096 = laddr mod 4096.
Proof.
  rewrite <- (u32_page_offset laddr). destruct mode; simpl; try done.
  1, 6: rewrite <- (LinearToPhysical32_walk m regions cr3 cr4); intros Hp;
    apply thirty_two_bit_result in Hp; lia.
  1, 2, 3, 4: intros [= <-]; pose proof (Z.mod_pos_bound laddr (2 ^ 32)); simpl in *; (split; [lia|done]).
  - rewrite <- LinearToPhysicalPAE_walk by apply u32_range. intros ?%pae_result; [done|apply u32_range].
  - rewrite u32_page_offset, <- LinearToPhysical4Level_walk. by intros ?%four_level_range.
Qed.

(** Byte [b] is what guest memory holds at linear address [a]: the address
    translates, and the newest region that holds some piece of a page around the
    physical address has that byte there. *)
Definition byte_at (T : Z -> option Z) (m : hmem) (a b : Z) : Prop :=
  exists p q n r, T a = Some p /\ 0 <= q <= p /\ p < q + n /\ q mod 4096 + n <= 4096
    /\ locate regions q n = Some r /\ b = m (host_addr r p).

(** A piece [a, a+n) of one page that cannot be accessed. *)
Definition blocked (T : Z -> option Z) (m : hmem) (a n : Z) : Prop :=
  0 < n /\ a mod 4096 + n <= 4096
  /\ match T a with Some p => MemRead m regions p n = None | None => True end.

(** The registers that control translation, with their values. *)
Definition ctrl (s : S) (cr0 cr3 cr4 efer : RegValue) : Prop :=
  rview s Reg.CR0 = Some cr0 /\ rview s Reg.CR3 = Some cr3
  /\ rview s Reg.CR4 = Some cr4 /\ rview s Reg.EFER = Some efer.

Lemma ctrl_same s s' cr0 cr3 cr4 efer : same_regs s s' -> ctrl s cr0 cr3 cr4 efer ->
  ctrl s' cr0 cr3 cr4 efer.
Proof. intros Hs (?&?&?&?). unfold ctrl. by rewrite !Hs. Qed.

(** The bytes of one chunk, read in one piece, are the bytes at its addresses. *)
Lemma chunk_bytes (T : Z -> option Z) m a n p bs :
  (forall d, 0 <= d -> a mod 4096 + d < 4096 -> T (a + d) = (fun p => p + d) <$> T a) ->
  Forall region_gwf regions -> 0 < n -> a mod 4096 + n <= 4096 -> T a = Some p ->
  0 <= p < 2 ^ 52 /\ p mod 4096 = a mod 4096 -> MemRead m regions p n = Some bs ->
  length bs = Z.to_nat n /\ forall i b, bs !! i = Some b -> byte_at T m (a + Z.of_nat i) b.
Proof.
  intros Hloc Hwf Hn Hpg HT [Hp Hpm] Hr.
  pose proof (Z.mod_pos_bound a 4096 ltac:(lia)) as Hoff.
  rewrite MemRead_spec in Hr by (done || (unfold range_ok; lia)).
  destruct (locate regions p n) as [r|] eqn:El; simpl in Hr; [|done]. injection Hr as <-.
  split; [apply length_host_read|]. intros i b Hb.
  assert (Hi : (i < Z.to_nat n)%nat).
  { rewrite <- (length_host_read m (host_addr r p) n). by eapply lookup_lt_Some. }
  rewrite host_read_lookup in Hb by done. injection Hb as <-.
  exists (p + Z.of_nat i), p, n, r. rewrite Hloc by lia. rewrite HT. split_and!; try done; try lia.
  f_equal. unfold host_addr, u64. rewrite Zplus_mod_idemp_l. f_equal. lia.
Qed.

(** The end of the page of [start], as the loop keeps it. *)
Definition page_end (a : Z) : Z := (a / 4096 + 1) * 4096 - 1.

Lemma page_end_first laddr : 0 <= laddr < 2 ^ 64 -> lmem_srcAddrEnd laddr = page_end laddr.
Proof.
  intros Hl. unfold lmem_srcAddrEnd, PAGE_SIZE, page_end. change (4 * 1024) with 4096.
  assert (Hm : u64 (laddr + 4096) &&& u64 (Z.lnot (4096 - 1))
               = u64 (laddr + 4096) - u64 (laddr + 4096) mod 2 ^ 12).
  { rewrite <- ldiff_ones_down by lia. change (4096 - 1) with (Z.ones 12). bitwise. }
  rewrite Hm. unfold u64. zlia.
Qed.

Lemma first_copySize laddr size : 0 <= laddr < 2 ^ 64 -> 0 <= size ->
  lmem_copySize laddr size = Z.min size (page_end laddr - laddr + 1).
Proof.
  intros Hl Hs. unfold lmem_copySize. rewrite page_end_first by done.
  assert (u64 (u64 (page_end laddr - laddr) + 1) = page_end laddr - laddr + 1) as ->.
  { unfold u64, page_end. zlia. }
  destruct (Z.ltb_spec size (page_end laddr - laddr + 1)); lia.
Qed.

(** The arithmetic of one iteration: the next chunk starts where this one ends. *)
Lemma next_chunk laddr size pos start copy :
  0 <= laddr -> laddr + size <= 2 ^ 64 -> size < 2 ^ 64 -> 0 <= pos < size -> start = laddr + pos ->
  copy = Z.min (size - pos) (page_end start - start + 1) ->
  let pos' := u64 (pos + copy) in
  let copy' := u64 (size - pos') in
  0 < copy /\ start mod 4096 + copy <= 4096 /\ pos' = pos + copy /\ pos' <= size
  /\ (pos' < size -> u64 (page_end start + 1) = laddr + pos'
        /\ u64 (page_end start + PAGE_SIZE) = page_end (laddr + pos')
        /\ (if PAGE_SIZE <? copy' then PAGE_SIZE else copy')
           = Z.min (size - pos') (page_end (laddr + pos') - (laddr + pos') + 1)
        /\ (laddr + pos') / 4096 = start / 4096 + 1).
Proof.
  intros Hl Hls Hs64 Hpos -> -> pos' copy'. subst pos' copy'.
  set (a := laddr + pos). set (c := Z.min (size - pos) (page_end a - a + 1)).
  assert (Hq : 0 <= a mod 4096 < 4096) by (apply Z.mod_pos_bound; lia).
  assert (Hdm : a = 4096 * (a / 4096) + a mod 4096) by (apply Z.div_mod; lia).
  assert (Hpe : page_end a = a - a mod 4096 + 4095) by (unfold page_end; lia).
  assert (Hc : 0 < c /\ c <= size - pos /\ a mod 4096 + c <= 4096) by (subst a; lia).
  assert (Hu : u64 (pos + c) = pos + c) by (apply u64_small; subst a; lia).
  rewrite Hu. split; [lia|]. split; [lia|]. split; [done|]. split; [lia|]. intros Hlt.
  assert (Hce : c = page_end a - a + 1) by lia.
  assert (Hn : laddr + (pos + c) = (a / 4096 + 1) * 4096) by (subst a; lia).
  assert (Hdiv : (laddr + (pos + c)) / 4096 = a / 4096 + 1) by (rewrite Hn; apply Z.div_mul; lia).
  assert (Hpe' : page_end (laddr + (pos + c)) = laddr + (pos + c) + 4095) by (unfold page_end; lia).
  change PAGE_SIZE with 4096. split; [rewrite u64_small; subst a; lia|].
  split; [|split; [|done]].
  - rewrite Hpe', u64_small; subst a; lia.
  - rewrite Hpe'. rewrite (u64_small (size - _)) by (subst a; lia).
    destruct (Z.ltb_spec 4096 (size - (pos + c))); lia.
Qed.

Lemma LMemRead_loop_ok m cr0 cr3 cr4 efer laddr size :
  let mode := paging_mode (Z.testbit (fget RV.u64 cr0) 31) (Z.testbit (fget RV.u64 cr4) 5)
                (Z.testbit (fget RV.u64 efer) 8) in
  let T := translation (MemRead m regions) mode cr3 cr4 in
  mode <> Paging_PAE -> Forall region_gwf regions -> 0 <= laddr -> laddr + size <= 2 ^ 64 ->
  size < 2 ^ 64 -> forall fuel acc start send copy s,
  let pos := Z.of_nat (length acc) in
  ctrl s cr0 cr3 cr4 efer -> pos <= size ->
  (pos < size -> start = laddr + pos /\ send = page_end start
     /\ copy = Z.min (size - pos) (page_end start - start + 1)
     /\ (laddr + size - 1) / 4096 - start / 4096 + 1 <= Z.of_nat fuel) ->
  exists ok bs s', LMemRead_loop regions uninit fuel size start send copy acc (s, m)
      = Some (ok, acc ++ bs, (s', m)) /\ same_regs s s'
    /\ (forall i b, bs !! i = Some b -> byte_at T m (laddr + pos + Z.of_nat i) b)
    /\ if (ok : bool) then Z.of_nat (length (acc ++ bs)) = size
       else exists a n, laddr <= a /\ a + n <= laddr + size /\ blocked T m a n.
Proof.
  intros mode T Hmode Hwf Hl Hls Hs64. induction fuel as [|fuel IH];
    intros acc start send copy s pos Hc Hpos Hinv; simpl;
    fold pos; destruct (Z.ltb_spec pos size) as [Hlt|Hge].
  - destruct (Hinv Hlt) as (-> & _ & _ & Hf). exfalso.
    assert ((laddr + pos) / 4096 <= (laddr + size - 1) / 4096) by (apply Z.div_le_mono; lia). lia.
  - exists true, [], s. rewrite app_nil_r. split_and!; try done. lia.
  - destruct (Hinv Hlt) as (Hst & -> & Hcp & Hf). pose proof Hc as (H0'&H3'&H4'&He').
    destruct (next_chunk laddr size pos start copy) as (Hc0 & Hpg & Hpos' & Hle & Hnext); [lia..|].
    destruct (LinearToPhysical_ok s m start cr0 cr3 cr4 efer) as (s1 & -> & Hs1); [done..|].
    fold mode. fold T. destruct (T start) as [p|] eqn:ET.
    2: { exists false, [], s1. rewrite app_nil_r. split_and!; try done.
         exists start, copy. split; [lia|]. split; [lia|]. unfold blocked. rewrite ET. split_and!; (done || lia). }
    cbn [snd]. destruct (MemRead m regions p copy) as [bs|] eqn:ER.
    2: { exists false, [], s1. rewrite app_nil_r. split_and!; try done.
         exists start, copy. split; [lia|]. split; [lia|]. unfold blocked. rewrite ET. split_and!; (done || lia). }
    destruct (chunk_bytes T m start copy p bs) as [Hlen Hbytes]; try done.
    { intros. by apply translation_page_local. }
    { by eapply translation_range. }
    assert (Hpl : Z.of_nat (length (acc ++ bs)) = pos + copy) by (rewrite length_app; lia).
    destruct (IH (acc ++ bs) (u64 (page_end start + 1)) (u64 (page_end start + PAGE_SIZE))
      (if PAGE_SIZE <? u64 (size - u64 (pos + copy)) then PAGE_SIZE else u64 (size - u64 (pos + copy))) s1)
      as (ok & bs' & s' & -> & Hs' & Hb' & Hok); [by eapply ctrl_same|lia| |].
    { rewrite Hpl. intros Hlt'. rewrite Hpos' in *. destruct Hnext as (-> & -> & -> & Hd); [lia|].
      split_and!; try done. rewrite Hd. lia. }
    exists ok, (bs ++ bs'), s'. rewrite app_assoc. split; [done|]. split; [by etransitivity|].
    split; [|done]. intros i b Hib. apply lookup_app_Some in Hib as [Hib|[Hge Hib]].
    + rewrite <- Hst. by apply Hbytes.
    + apply Hb' in Hib. rewrite Hpl in Hib.
      replace (laddr + pos + Z.of_nat i) with (laddr + (pos + copy) + Z.of_nat (i - length bs)) by lia. done.
  - exists true, [], s. rewrite app_nil_r. split_and!; try done. lia.
Qed.

(** *** Linear writes *)

Section Writes.
Context (mode : CPUPagingMode) (cr3 cr4 : RegValue).

(** The data [bs] has been stored from linear address [a] on, page by page; each
    piece goes where the tables point at that moment. *)
Inductive written : hmem -> Z -> list Z -> hmem -> Prop :=
| written_nil m a : written m a [] m
| written_chunk m m1 m' a p bs rest :
    bs <> [] -> a mod 4096 + Z.of_nat (length bs) <= 4096 ->
    translation (MemRead m regions) mode cr3 cr4 a = Some p ->
    MemWrite m regions p (Z.of_nat (length bs)) bs = Some m1 ->
    written m1 (a + Z.of_nat (length bs)) rest m' ->
    written m a (bs ++ rest) m'.

(** A piece of one page that cannot be written. *)
Definition write_blocked (m : hmem) (a n : Z) : Prop :=
  0 < n /\ a mod 4096 + n <= 4096
  /\ match translation (MemRead m regions) mode cr3 cr4 a with
     | Some p => forall v, MemWrite m regions p n v = None
     | None => True
     end.

Lemma MemWrite_take m p n v : Forall region_gwf regions -> range_ok p n ->
  MemWrite m regions p n v = MemWrite m regions p n (take (Z.to_nat n) v).
Proof. intros. rewrite !MemWrite_spec by done. by rewrite take_take, Nat.min_id. Qed.

Lemma MemWrite_None_any m p n v w : Forall region_gwf regions -> range_ok p n ->
  MemWrite m regions p n v = None -> MemWrite m regions p n w = None.
Proof. intros ? ?. rewrite !MemWrite_spec by done. by destruct (locate regions p n). Qed.
End Writes.

Lemma LMemWrite_loop_ok cr0 cr3 cr4 efer laddr size value :
  let mode := paging_mode (Z.testbit (fget RV.u64 cr0) 31) (Z.testbit (fget RV.u64 cr4) 5)
                (Z.testbit (fget RV.u64 efer) 8) in
  Forall region_gwf regions -> 0 <= laddr -> laddr + size <= 2 ^ 64 -> size < 2 ^ 64 ->
  size <= Z.of_nat (length value) ->
  forall fuel start send copy pos s m,
  ctrl s cr0 cr3 cr4 efer -> 0 <= pos <= size ->
  (pos < size -> start = laddr + pos /\ send = page_end start
     /\ copy = Z.min (size - pos) (page_end start - start + 1)
     /\ (laddr + size - 1) / 4096 - start / 4096 + 1 <= Z.of_nat fuel) ->
  exists ok k s' m', LMemWrite_loop regions uninit fuel size start send copy pos value (s, m)
      = Some (ok, pos + Z.of_nat k, (s', m')) /\ same_regs s s' /\ pos + Z.of_nat k <= size
    /\ written mode cr3 cr4 m (laddr + pos) (take k (drop (Z.to_nat pos) value)) m'
    /\ if (ok : bool) then pos + Z.of_nat k = size
       else exists a n, laddr <= a /\ a + n <= laddr + size /\ write_blocked mode cr3 cr4 m' a n.
Proof.
  intros mode Hwf Hl Hls Hs64 Hlen. induction fuel as [|fuel IH];
    intros start send copy pos s m Hc Hpos Hinv; simpl; destruct (Z.ltb_spec pos size) as [Hlt|Hge].
  - destruct (Hinv Hlt) as (-> & _ & _ & Hf). exfalso.
    assert ((laddr + pos) / 4096 <= (laddr + size - 1) / 4096) by (apply Z.div_le_mono; lia). lia.
  - exists true, 0%nat, s, m. rewrite Z.add_0_r. split_and!; try done; try lia; apply written_nil.
  - destruct (Hinv Hlt) as (Hst & -> & Hcp & Hf). pose proof Hc as (H0'&H3'&H4'&He').
    destruct (next_chunk laddr size pos start copy) as (Hc0 & Hpg & Hpos' & Hle & Hnext); [lia..|].
    destruct (LinearToPhysical_ok s m start cr0 cr3 cr4 efer) as (s1 & -> & Hs1); [done..|].
    fold mode. destruct (translation (MemRead m regions) mode cr3 cr4 start) as [p|] eqn:ET.
    2: { exists false, 0%nat, s1, m. rewrite Z.add_0_r. split_and!; try done; try lia; [apply written_nil|].
         exists start, copy. split; [lia|]. split; [lia|]. unfold write_blocked. rewrite ET. split_and!; (done || lia). }
    assert (Hr : range_ok p copy).
    { apply translation_range in ET. pose proof (Z.mod_pos_bound start 4096). unfold range_ok; lia. }
    cbn [fst snd]. destruct (MemWrite m regions p copy (drop (Z.to_nat pos) value)) as [m1|] eqn:ER.
    2: { exists false, 0%nat, s1, m. rewrite Z.add_0_r. split_and!; try done; try lia; [apply written_nil|].
         exists start, copy. split; [lia|]. split; [lia|]. unfold write_blocked. rewrite ET.
         split; [lia|]. split; [lia|]. intros v. by eapply MemWrite_None_any. }
    rewrite Hpos' in *.
    destruct (IH (u64 (page_end start + 1)) (u64 (page_end start + PAGE_SIZE))
      (if PAGE_SIZE <? u64 (size - (pos + copy)) then PAGE_SIZE else u64 (size - (pos + copy)))
      (pos + copy) s1 m1)
      as (ok & k & s' & m' & -> & Hs' & Hk & Hw & Hok); [by eapply ctrl_same|lia| |].
    { intros Hlt'. destruct Hnext as (-> & -> & -> & Hd); [lia|].
      split_and!; try done. rewrite Hd. lia. }
    exists ok, (Z.to_nat copy + k)%nat, s', m'.
    replace (pos + Z.of_nat (Z.to_nat copy + k)) with (pos + copy + Z.of_nat k) by lia.
    split; [done|]. split; [by etransitivity|]. split; [done|]. split; [|done].
    assert (Hl1 : length (take (Z.to_nat copy) (drop (Z.to_nat pos) value)) = Z.to_nat copy)
      by (rewrite length_take, length_drop; lia).
    rewrite <- (take_take_drop _ (Z.to_nat copy) k).
    replace (drop (Z.to_nat copy) (drop (Z.to_nat pos) value)) with (drop (Z.to_nat (pos + copy)) value)
      by (rewrite drop_drop; f_equal; lia).
    apply (written_chunk mode cr3 cr4 m m1 m' _ p); rewrite ?Hl1, ?Z2Nat.id by lia.
    + intros E. rewrite E in Hl1. simpl in Hl1. lia.
    + by rewrite <- Hst.
    + by rewrite <- Hst.
    + by rewrite <- MemWrite_take.
    + by rewrite <- Z.add_assoc.
  - exists true, 0%nat, s, m. rewrite Z.add_0_r. split_and!; try done; try lia; apply written_nil.
Qed.
End Facts.

Lemma lmem_read_ok {S} `{VPRegsLaws S} regions uninit (s : S) m laddr size cr0 cr3 cr4 efer :
  let mode := paging_mode (Z.testbit (fget RV.u64 cr0) 31) (Z.testbit (fget RV.u64 cr4) 5)
                (Z.testbit (fget RV.u64 efer) 8) in
  let T := translation (MemRead m regions) mode cr3 cr4 in
  ctrl s cr0 cr3 cr4 efer -> mode <> Paging_PAE -> Forall region_gwf regions ->
  0 <= laddr < 2 ^ 64 -> 0 <= size < 2 ^ 64 -> laddr + size <= 2 ^ 64 ->
  exists ok bs n s', LMemRead regions uninit laddr size false (s, m) = Some (ok, bs, n, (s', m))
    /\ same_regs s s'
    /\ (forall i b, bs !! i = Some b -> byte_at regions T m (laddr + Z.of_nat i) b)
    /\ if (ok : bool) then Z.of_nat (length bs) = size /\ n = Some size
       else n = None
         /\ exists a k, laddr <= a /\ a + k <= laddr + size /\ blocked regions T m a k.
Proof.
  intros mode T Hc Hmode Hwf Hl Hs Hls. unfold LMemRead.
  destruct (LMemRead_loop_ok regions uninit m cr0 cr3 cr4 efer laddr size Hmode Hwf ltac:(lia) Hls ltac:(lia)
              (lmem_fuel size) [] laddr (lmem_srcAddrEnd laddr) (lmem_copySize laddr size) s)
    as (ok & bs & s' & -> & Hs' & Hb & Hok); [done|simpl; lia| |].
  - intros _. rewrite page_end_first, first_copySize by lia. simpl. rewrite Z.sub_0_r.
    split_and!; try done; [lia|]. unfold lmem_fuel, PAGE_SIZE. change (4 * 1024) with 4096. zlia.
  - cbn [app length] in *. exists ok, bs, (if ok then Some (Z.of_nat (length bs)) else None), s'.
    split; [done|]. split; [done|]. split.
    + intros i b Hi. apply Hb in Hi. by rewrite Z.add_0_r in Hi.
    + destruct ok; [by rewrite Hok|done].
Qed.

Lemma lmem_write_ok {S} `{VPRegsLaws S} regions uninit (s : S) m laddr size value cr0 cr3 cr4 efer :
  let mode := paging_mode (Z.testbit (fget RV.u64 cr0) 31) (Z.testbit (fget RV.u64 cr4) 5)
                (Z.testbit (fget RV.u64 efer) 8) in
  ctrl s cr0 cr3 cr4 efer -> Forall region_gwf regions -> size <= Z.of_nat (length value) ->
  0 <= laddr < 2 ^ 64 -> 0 <= size < 2 ^ 64 -> laddr + size <= 2 ^ 64 ->
  exists ok k n s' m', LMemWrite regions uninit laddr size (Some value) (s, m) = Some (ok, n, (s', m'))
    /\ same_regs s s' /\ Z.of_nat k <= size
    /\ written regions mode cr3 cr4 m laddr (take k value) m'
    /\ if (ok : bool) then Z.of_nat k = size /\ n = Some size
       else n = None
         /\ exists a j, laddr <= a /\ a + j <= laddr + size /\ write_blocked regions mode cr3 cr4 m' a j.
Proof.
  intros mode Hc Hwf Hv Hl Hs Hls. unfold LMemWrite.
  destruct (LMemWrite_loop_ok regions uninit cr0 cr3 cr4 efer laddr size value Hwf ltac:(lia) Hls ltac:(lia) Hv
              (lmem_fuel size) laddr (lmem_srcAddrEnd laddr) (lmem_copySize laddr size) 0 s m)
    as (ok & k & s' & m' & -> & Hs' & Hk & Hw & Hok); [done|lia| |].
  - intros _. rewrite page_end_first, first_copySize by lia. rewrite Z.sub_0_r, Z.add_0_r.
    split_and!; try done. unfold lmem_fuel, PAGE_SIZE. change (4 * 1024) with 4096. zlia.
  - exists ok, k, (if ok then Some (0 + Z.of_nat k) else None), s', m'.
    rewrite Z.add_0_r in Hw. split_and!; try done. destruct ok; [|done]. by rewrite Hok.
Qed.

(** ** Theorems *)

(** C31: for any platform whose register reads are lawful, [GetExecutionMode] and
    [GetPagingMode] return the documented mode for every setting of CR0.PE,
    RFLAGS.VM, EFER.LMA and of CR0.PG, CR4.PAE, EFER.LME, whatever the local
    arrays contained, and change no register; if a register cannot be read they
    return Unknown. *)
Theorem cpu_modes {S} `{VPRegsLaws S} uninit (s : S) m :
  (forall cr0 rfl efer, rview s Reg.CR0 = Some cr0 -> rview s Reg.RFLAGS = Some rfl ->
     rview s Reg.EFER = Some efer ->
     exists s', GetExecutionMode uninit (s, m)
       = (exec_mode (Z.testbit (fget RV.u64 cr0) 0) (Z.testbit (fget RV.u64 rfl) 17)
            (Z.testbit (fget RV.u64 efer) 10), (s', m)) /\ same_regs s s')
  /\ (forall cr0 cr4 efer, rview s Reg.CR0 = Some cr0 -> rview s Reg.CR4 = Some cr4 ->
     rview s Reg.EFER = Some efer ->
     exists s', GetPagingMode uninit (s, m)
       = (paging_mode (Z.testbit (fget RV.u64 cr0) 31) (Z.testbit (fget RV.u64 cr4) 5)
            (Z.testbit (fget RV.u64 efer) 8), (s', m)) /\ same_regs s s')
  /\ (forall e s1, RegRead Reg.CR0 uninit s = (inl e, s1) -> e <> VP_OK ->
     GetExecutionMode uninit (s, m) = (Mode_Unknown, (s1, m))
     /\ GetPagingMode uninit (s, m) = (Paging_Unknown, (s1, m))).
Proof.
  split; [|split].
  - intros. by apply GetExecutionMode_ok.
  - intros. by apply GetPagingMode_ok.
  - intros e s1 He Hne. unfold GetExecutionMode, GetPagingMode. simpl.
    destruct (rview_readN_fails _ [Reg.RFLAGS; Reg.EFER] _ [uninit; uninit] _ _ _ He Hne) as (e1 & xs & -> & H1).
    destruct (rview_readN_fails _ [Reg.CR4; Reg.EFER] _ [uninit; uninit] _ _ _ He Hne) as (e2 & ys & -> & H2).
    by destruct e1, e2.
Qed.

(** [LinearToPhysical] translates by the mode [GetPagingMode] reports: with
    paging off the low 32 bits of the address, in 32-bit mode (also in the
    invalid mode with LME set and PAE clear) the 32-bit walk, in PAE mode the code's PAE
    walk, in 4-level mode the 4-level walk, each with the CR3 and CR4 that were
    read; it changes no register. *)
Theorem linear_to_physical_by_mode {S} `{VPRegsLaws S} regions uninit (s : S) m laddr cr0 cr3 cr4 efer :
  ctrl s cr0 cr3 cr4 efer ->
  exists mode s1 s2, GetPagingMode uninit (s, m) = (mode, (s1, m))
    /\ LinearToPhysical regions uninit laddr (s, m)
       = (translation (MemRead m regions) mode cr3 cr4 laddr, (s2, m))
    /\ same_regs s s1 /\ same_regs s s2.
Proof.
  intros (?&?&?&?).
  destruct (GetPagingMode_ok uninit s m cr0 cr4 efer) as (s1 & -> & Hs1); [done..|].
  destruct (LinearToPhysical_ok regions uninit s m laddr cr0 cr3 cr4 efer) as (s2 & -> & Hs2); [done..|].
  by eexists _, s1, s2.
Qed.

(** C5: outside PAE mode, for a range and regions that do not wrap, [LMemRead] always returns.  On success it stores exactly
    [size] bytes and reports [size], and every byte is the byte that the newest region around the
    translation of its own linear address holds, whatever page boundaries
    lie between; it fails only if some piece of a page in the range is not
    mapped, and then reports no count. *)
Theorem lmem_read_correct {S} `{VPRegsLaws S} regions uninit (s : S) m laddr size cr0 cr3 cr4 efer :
  let mode := paging_mode (Z.testbit (fget RV.u64 cr0) 31) (Z.testbit (fget RV.u64 cr4) 5)
                (Z.testbit (fget RV.u64 efer) 8) in
  let T := translation (MemRead m regions) mode cr3 cr4 in
  ctrl s cr0 cr3 cr4 efer -> mode <> Paging_PAE -> Forall region_gwf regions ->
  0 <= laddr < 2 ^ 64 -> 0 <= size < 2 ^ 64 -> laddr + size <= 2 ^ 64 ->
  exists ok bs n s', LMemRead regions uninit laddr size false (s, m) = Some (ok, bs, n, (s', m))
    /\ same_regs s s'
    /\ (forall i b, bs !! i = Some b -> byte_at regions T m (laddr + Z.of_nat i) b)
    /\ if (ok : bool) then Z.of_nat (length bs) = size /\ n = Some size
       else n = None
         /\ exists a k, laddr <= a /\ a + k <= laddr + size /\ blocked regions T m a k.
Proof. intros mode T. apply lmem_read_ok. Qed.

(** [LMemWrite] always returns; on success it has stored the [size] bytes of
    the buffer, in order and page by page, where the page tables map each piece
    when it is written, and reports [size]; on failure a prefix has been stored
    and the next piece of a page cannot be written. *)
Theorem lmem_write_correct {S} `{VPRegsLaws S} regions uninit (s : S) m laddr size value cr0 cr3 cr4 efer :
  let mode := paging_mode (Z.testbit (fget RV.u64 cr0) 31) (Z.testbit (fget RV.u64 cr4) 5)
                (Z.testbit (fget RV.u64 efer) 8) in
  ctrl s cr0 cr3 cr4 efer -> Forall region_gwf regions -> size <= Z.of_nat (length value) ->
  0 <= laddr < 2 ^ 64 -> 0 <= size < 2 ^ 64 -> laddr + size <= 2 ^ 64 ->
  exists ok k n s' m', LMemWrite regions uninit laddr size (Some value) (s, m) = Some (ok, n, (s', m'))
    /\ same_regs s s' /\ Z.of_nat k <= size
    /\ written regions mode cr3 cr4 m laddr (take k value) m'
    /\ if (ok : bool) then Z.of_nat k = size /\ n = Some size
       else n = None
         /\ exists a j, laddr <= a /\ a + j <= laddr + size /\ write_blocked regions mode cr3 cr4 m' a j.
Proof. intros mode. apply lmem_write_ok. Qed.

(** ** A concrete platform: a table of register values *)
Definition table_regs : Type := Reg.t -> option RegValue.
#[global] Instance table_VPRegs : VPRegs table_regs := {|
  RegRead r w s := match s r with Some v => (inr v, s) | None => (inl VP_Unsupported, s) end;
  RegWrite r v s := (inr tt, fun r' => if decide (r' = r) then Some v else s r');
  RegReadN := RegReadN_loop
    (fun r w s => match s r with Some v => (inr v, s) | None => (inl VP_Unsupported, s) end);
  RegWriteN := RegWriteN_loop (fun r v s => (inr tt, fun r' => if decide (r' = r) then Some v else s r'));
  GetMSR msr v s := (inl VP_Unsupported, s);
  SetMSR msr v s := (inl VP_Unsupported, s)
|}.

Lemma agree_refl r v : agree r v v.
Proof. unfold agree. by apply Forall_true. Qed.

#[global] Instance table_laws : VPRegsLaws table_regs.
Proof.
  assert (Hr : forall (s : table_regs) r w v, s r = Some v ->
    exists v' s', RegRead r w s = (inr v', s') /\ agree r v' v /\ forall r', s' r' = s r').
  { intros s r w v Hv. exists v, s. simpl. rewrite Hv. split; [done|]. split; [apply agree_refl|done]. }
  refine {| rview := fun s r => s r |}.
  - exact Hr.
  - by apply loop_readN.
  - by apply loop_readN_fails.
Defined.

(** 4-level paging with the tables of [pae_example_mem]'s memory: identity-free
    mapping of the 2 MiB page at 0x400000 through a PML4 at 0x5000. *)
Definition long_mode_regs : table_regs := fun r =>
  match r with
  | Reg.CR0 => Some 0x80000001 | Reg.CR3 => Some 0x5000 | Reg.CR4 => Some 0x20
  | Reg.EFER => Some 0x500 | Reg.RFLAGS => Some 2 | _ => None
  end.
Definition long_mode_mem : hmem :=
  let m := host_write (fun a => a mod 251) 0x105000 (le_split 8 0x6001) in
  let m := host_write m 0x106000 (le_split 8 0x7001) in
  let m := host_write m 0x107010 (le_split 8 0x8001) in
  let m := host_write m 0x108000 (le_split 8 0x2001) in
  host_write m 0x108008 (le_split 8 0x4001).
Definition long_mode_regions : list MemoryRegion := [MkMemoryRegion 0 0x10000 0x100000].

Lemma long_mode_regions_gwf : Forall region_gwf long_mode_regions.
Proof. apply Forall_singleton. unfold region_gwf; simpl; lia. Qed.
Lemma long_mode_ctrl : ctrl long_mode_regs 0x80000001 0x5000 0x20 0x500.
Proof. by unfold ctrl. Qed.

Lemma cpu_modes_witness :
  GetExecutionMode 0 (long_mode_regs, long_mode_mem)
  = (Mode_IA32e, (long_mode_regs, long_mode_mem)) /\
  exists s', GetPagingMode 0 (long_mode_regs, long_mode_mem) = (Paging_FourLevel, (s', long_mode_mem))
   /\ same_regs long_mode_regs s'.
Proof.
  split; [reflexivity|].
  exact (proj1 (proj2 (cpu_modes 0 long_mode_regs long_mode_mem)) 0x80000001 0x20 0x500
           eq_refl eq_refl eq_refl).
Defined.

Lemma linear_to_physical_by_mode_witness :
  fst (LinearToPhysical long_mode_regions 0 0x400123 (long_mode_regs, long_mode_mem)) = Some 0x2123
  /\ exists mode s1 s2, GetPagingMode 0 (long_mode_regs, long_mode_mem) = (mode, (s1, long_mode_mem))
    /\ LinearToPhysical long_mode_regions 0 0x400123 (long_mode_regs, long_mode_mem)
       = (translation (MemRead long_mode_mem long_mode_regions) mode 0x5000 0x20 0x400123, (s2, long_mode_mem))
    /\ same_regs long_mode_regs s1 /\ same_regs long_mode_regs s2.
Proof.
  split; [vm_compute; reflexivity|].
  exact (linear_to_physical_by_mode long_mode_regions 0 long_mode_regs long_mode_mem 0x400123
           0x80000001 0x5000 0x20 0x500 long_mode_ctrl).
Defined.

(** A read across the boundary of two pages that are not adjacent in memory. *)
Lemma lmem_read_correct_witness :
  exists ok bs n s', LMemRead long_mode_regions 0 0x400FFE 4 false (long_mode_regs, long_mode_mem)
    = Some (ok, bs, n, (s', long_mode_mem))
  /\ ok = true /\ bs = [0x102FFE mod 251; 0x102FFF mod 251; 0x104000 mod 251; 0x104001 mod 251]
  /\ n = Some 4.
Proof.
  destruct (lmem_read_correct long_mode_regions 0 long_mode_regs long_mode_mem 0x400FFE 4
              0x80000001 0x5000 0x20 0x500 long_mode_ctrl ltac:(done) long_mode_regions_gwf
              ltac:(lia) ltac:(lia) ltac:(lia)) as (ok & bs & n & s' & Heq & _).
  exists ok, bs, n, s'. split; [exact Heq|].
  assert (Hc : fst <$> LMemRead long_mode_regions 0 0x400FFE 4 false (long_mode_regs, long_mode_mem)
    = Some (true, [0x102FFE mod 251; 0x102FFF mod 251; 0x104000 mod 251; 0x104001 mod 251], Some 4))
    by (vm_compute; reflexivity).
  rewrite Heq in Hc. injection Hc as -> -> ->. by split_and!.
Defined.

Lemma lmem_write_correct_witness :
  exists ok k n s' m', LMemWrite long_mode_regions 0 0x400FFE 4 (Some [1; 2; 3; 4])
      (long_mode_regs, long_mode_mem) = Some (ok, n, (s', m'))
    /\ Z.of_nat k <= 4
    /\ written long_mode_regions Paging_FourLevel 0x5000 0x20 long_mode_mem 0x400FFE (take k [1; 2; 3; 4]) m'.
Proof.
  destruct (lmem_write_correct long_mode_regions 0 long_mode_regs long_mode_mem 0x400FFE 4 [1; 2; 3; 4]
              0x80000001 0x5000 0x20 0x500 long_mode_ctrl long_mode_regions_gwf
              ltac:(simpl; lia) ltac:(lia) ltac:(lia) ltac:(lia)) as (ok & k & n & s' & m' & Heq & _ & Hk & Hw & _).
  exists ok, k, n, s', m'. split; [exact Heq|]. split; [exact Hk|exact Hw].
Defined.
