(* ===== verification/Tables.v ===== *)
(** * Descriptor tables in guest memory and segment registers (vp/vp.cpp 595-801)

    [GetGDTEntry], [SetGDTEntry], [GetIDTEntry], [SetIDTEntry], [ReadSegment] and
    [GetSegmentSize] on top of the register interface and guest memory. *)
From S2P Require Import Prelude Bits MemRegions Regs Gdt Idt Paging Status Vp.

(** [union GDTEntry] as a 128-bit integer, and its sizes in bytes. *)
Definition GDTEntry := Z.
Definition sizeof_GenericGDTDescriptor : Z := 8.
Definition sizeof_GDTEntry : Z := 16.
Definition sizeof_IDTEntry : Z := 8.

(** The type switches: descriptors extended to 16 bytes in IA-32e mode, and the
    reserved types outside it. *)
Definition extended_type (t : Z) : bool :=
  match t with 2 | 9 | 11 | 12 | 14 | 15 => true | _ => false end.
Definition reserved_type (t : Z) : bool :=
  match t with 0 | 8 | 10 | 13 => true | _ => false end.

Section Tables.
Context {S : Type} `{VPRegs S}.
Context (regions : list MemoryRegion) (uninit : RegValue).
Abbreviation V := (@vstate S).

(** A call of [IsIA32eMode] inside an operation. *)
Definition check_IA32e : M V bool := fun s =>
  let '(b, s) := IsIA32eMode uninit s in (inr b, s).

Definition ComputeSegmentSize (value : RegValue) : M V SegmentSize :=
  ia32e ← check_IA32e;
  mret (if (ia32e : bool) && nz (fget RV.attr_longMode value) then SegSize_64
        else if nz (fget RV.attr_defaultSize value) then SegSize_32
        else SegSize_16).

Definition GetGDTEntry (selector : Z) (entry : GDTEntry) : M V GDTEntry :=
  gdt ← vRegRead Reg.GDTR uninit;
  let base := fget RV.tbase gdt in
  let limit := fget RV.tlimit gdt in
  if limit <? selector + sizeof_GenericGDTDescriptor then fail VP_InvalidSelector
  else
    bs ← check_MemRead regions (u64 (base + selector)) sizeof_GenericGDTDescriptor;
    let entry := fset (Field 0 64) (le_combine bs) entry in
    if nz (fget GenericGDTDescriptor.system entry) then mret entry
    else
      ia32e ← check_IA32e;
      if (ia32e : bool) then
        if extended_type (fget GenericGDTDescriptor.type entry) then
          if limit <? selector + sizeof_GDTEntry then fail VP_InvalidSelector
          else
            bs ← check_MemRead regions (u64 (base + selector)) sizeof_GDTEntry;
            mret (le_combine bs)
        else fail VP_InvalidSelector
      else if reserved_type (fget GenericGDTDescriptor.type entry) then fail VP_InvalidSelector
      else mret entry.

Definition SetGDTEntry (selector : Z) (entry : GDTEntry) : M V unit :=
  gdt ← vRegRead Reg.GDTR uninit;
  let base := fget RV.tbase gdt in
  let limit := fget RV.tlimit gdt in
  if limit <? selector + sizeof_GenericGDTDescriptor then fail VP_InvalidSelector
  else
    check_MemWrite regions (u64 (base + selector)) sizeof_GenericGDTDescriptor (le_split 16 entry) ≫= fun _ =>
    if nz (fget GenericGDTDescriptor.system entry) then mret tt
    else
      ia32e ← check_IA32e;
      if (ia32e : bool) then
        if extended_type (fget GenericGDTDescriptor.type entry) then
          if limit <? selector + sizeof_GDTEntry then fail VP_InvalidSelector
          else
            check_MemWrite regions (u64 (base + selector)) sizeof_GDTEntry (le_split 16 entry)
        else fail VP_InvalidSelector
      else if reserved_type (fget GenericGDTDescriptor.type entry) then fail VP_InvalidSelector
      else mret tt.

Definition GetIDTEntry (vector : Z) : M V Z :=
  idt ← vRegRead Reg.IDTR uninit;
  if fget RV.tlimit idt <? vector * sizeof_IDTEntry then fail VP_InvalidSelector
  else
    bs ← check_MemRead regions (u64 (fget RV.tbase idt + vector * sizeof_IDTEntry)) sizeof_IDTEntry;
    mret (le_combine bs).

Definition SetIDTEntry (vector : Z) (entry : Z) : M V unit :=
  idt ← vRegRead Reg.IDTR uninit;
  if fget RV.tlimit idt <? vector * sizeof_IDTEntry then fail VP_InvalidSelector
  else
    check_MemWrite regions (u64 (fget RV.tbase idt + vector * sizeof_IDTEntry)) sizeof_IDTEntry
      (le_split 8 entry).

(** The four assignments to [value.segment]. *)
Definition fill_segment (selector base limit attributes : Z) (value : RegValue) : RegValue :=
  let value := fset RV.selector selector value in
  let value := fset RV.segbase base value in
  let value := fset RV.seglimit limit value in
  fset RV.attributes attributes value.

Definition ReadSegment (selector : Z) (value : RegValue) : M V RegValue :=
  gdtEntry ← GetGDTEntry selector uninit;
  let type := fget GenericGDTDescriptor.type gdtEntry in
  if negb (nz (fget GenericGDTDescriptor.system gdtEntry)) then
    match type with
    | 2 =>
        mret (fill_segment selector (LDTDescriptor.GetBase gdtEntry) (LDTDescriptor.GetLimit gdtEntry)
                (LDTDescriptor.GetAttributes gdtEntry) value)
    | 1 | 3 | 9 | 11 =>
        (* [(type & 0b1000) == 0 && IsIA32eMode()] *)
        bad ← (if (type &&& 8) =? 0 then check_IA32e else mret false);
        if (bad : bool) then fail VP_InvalidSelector
        else
          mret (fill_segment selector (LDTDescriptor.GetBase gdtEntry) (LDTDescriptor.GetLimit gdtEntry)
                  (LDTDescriptor.GetAttributes gdtEntry) value)
    | _ => fail VP_InvalidSelector
    end
  else
    mret (fill_segment selector (GDTDescriptor.GetBase gdtEntry) (GDTDescriptor.GetLimit gdtEntry)
            (GDTDescriptor.GetAttributes gdtEntry) value).

(** The two overloads of [GetSegmentSize]. *)
Definition GetSegmentSize (selector : Z) : M V SegmentSize :=
  value ← ReadSegment selector uninit;
  ComputeSegmentSize value.
Definition GetSegmentSize_reg (segmentReg : Reg.t) : M V SegmentSize :=
  if negb (RegBetween segmentReg Reg.CS Reg.TR) then fail VP_InvalidRegister
  else
    value ← vRegRead segmentReg uninit;
    ComputeSegmentSize value.
End Tables.

(** ** Specification vocabulary *)

(** The bytes of a descriptor that is stored and loaded, in a mode: 8, or 16 for
    the extended system descriptors of IA-32e mode; [None] for reserved types. *)
Definition entry_size (ia32e : bool) (entry : GDTEntry) : option Z :=
  let t := fget GenericGDTDescriptor.type entry in
  if Z.testbit entry 44 then Some 8
  else if ia32e then (if extended_type t then Some 16 else None)
  else if reserved_type t then None else Some 8.

Definition is_ia32e (cr0 rfl efer : RegValue) : bool :=
  match exec_mode (Z.testbit (fget RV.u64 cr0) 0) (Z.testbit (fget RV.u64 rfl) 17)
          (Z.testbit (fget RV.u64 efer) 10) with Mode_IA32e => true | _ => false end.

(** ** Lemmas *)

Lemma system_bit entry : nz (fget GenericGDTDescriptor.system entry) = Z.testbit entry 44.
Proof. by apply nz_fget_bit. Qed.

(** The type and system bits are in the first 8 bytes. *)
Lemma low64_type e e' : fget (Field 0 64) e = fget (Field 0 64) e' ->
  Z.testbit e 44 = Z.testbit e' 44
  /\ fget GenericGDTDescriptor.type e = fget GenericGDTDescriptor.type e'.
Proof.
  intros Heq.
  assert (Hb : forall i, 0 <= i < 64 -> Z.testbit e i = Z.testbit e' i).
  { intros i Hi. assert (Hq : Z.testbit (fget (Field 0 64) e) i = Z.testbit (fget (Field 0 64) e') i) by congruence.
    rewrite !fget_testbit in Hq by (done || lia). simpl in Hq. rewrite Z.add_0_r in Hq.
    by rewrite (proj2 (Z.ltb_lt i 64)) in Hq by lia. }
  split; [by apply Hb|]. apply Z.bits_inj'; intros i Hi. rewrite !fget_testbit by done.
  destruct (Z.ltb_spec i (f_width GenericGDTDescriptor.type)) as [Hlt|]; [|done]. simpl in *.
  by rewrite Hb by lia.
Qed.

Section Facts.
Context {S : Type} `{VPRegsLaws S}.
Context (regions : list MemoryRegion) (uninit : RegValue).
Abbreviation V := (@vstate S).

(** What a processor state says about the tables: GDTR, and the three registers
    of the execution mode. *)
Definition table_view (s : S) (base limit : Z) (ia32e : bool) : Prop :=
  (exists g, rview s Reg.GDTR = Some g /\ fget RV.tbase g = base /\ fget RV.tlimit g = limit)
  /\ exists cr0 rfl efer, rview s Reg.CR0 = Some cr0 /\ rview s Reg.RFLAGS = Some rfl
       /\ rview s Reg.EFER = Some efer /\ is_ia32e cr0 rfl efer = ia32e.

Lemma table_view_same s s' base limit b : same_regs s s' -> table_view s base limit b ->
  table_view s' base limit b.
Proof.
  intros Hs [(g&?&?&?) (cr0&rfl&efer&?&?&?&?)]. split.
  - exists g. by rewrite Hs.
  - exists cr0, rfl, efer. by rewrite !Hs.
Qed.

Lemma read_table_reg s m r g : 8 <= Reg.idx r <= 9 -> rview s r = Some g ->
  exists g' s', vRegRead r uninit (s, m) = (inr g', (s', m)) /\ fget RV.tbase g' = fget RV.tbase g
    /\ fget RV.tlimit g' = fget RV.tlimit g /\ same_regs s s'.
Proof.
  intros Hr Hg. destruct (vRegRead_ok s m r uninit g Hg) as (g' & s' & Hv & Ha & Hs).
  exists g', s'. split; [done|]. unfold agree, reg_fields in Ha.
  rewrite (proj2 (Z.leb_gt (Reg.idx r) 7)), (proj2 (Z.leb_le (Reg.idx r) 9)) in Ha by lia.
  apply Forall_cons in Ha as [? [? _]%Forall_cons]. done.
Qed.

Lemma check_IA32e_ok s m base limit b : table_view s base limit b ->
  exists s', check_IA32e uninit (s, m) = (inr b, (s', m)) /\ same_regs s s'.
Proof.
  intros [_ (cr0&rfl&efer&H1&H2&H3&<-)]. unfold check_IA32e, IsIA32eMode.
  destruct (GetExecutionMode_ok uninit s m cr0 rfl efer) as (s' & -> & Hs); [done..|].
  exists s'. by split.
Qed.

(** [GetGDTEntry], by cases on the limit, the memory and the descriptor. *)
Lemma GetGDTEntry_cases s m selector entry base limit b : table_view s base limit b ->
  exists s', same_regs s s' /\ GetGDTEntry regions uninit selector entry (s, m) =
  if limit <? selector + 8 then (inl VP_InvalidSelector, (s', m))
  else match MemRead m regions (u64 (base + selector)) 8 with
       | None => (inl VP_Failed, (s', m))
       | Some bs =>
         let e := fset (Field 0 64) (le_combine bs) entry in
         match entry_size b e with
         | None => (inl VP_InvalidSelector, (s', m))
         | Some 8 => (inr e, (s', m))
         | Some _ =>
           if limit <? selector + 16 then (inl VP_InvalidSelector, (s', m))
           else match MemRead m regions (u64 (base + selector)) 16 with
                | None => (inl VP_Failed, (s', m))
                | Some bs => (inr (le_combine bs), (s', m))
                end
         end
       end.
Proof.
  intros Hv. pose proof Hv as [(g&Hg&<-&<-) _].
  destruct (read_table_reg s m Reg.GDTR g) as (g' & s1 & HR & Hb & Hl & Hs1); [simpl; lia|done|].
  unfold GetGDTEntry, mbind, M_bind, sizeof_GenericGDTDescriptor, sizeof_GDTEntry. rewrite HR, Hb, Hl.
  case_if; [by exists s1|]. unfold check_MemRead; cbn [fst snd].
  destruct (MemRead m regions (u64 (fget RV.tbase g + selector)) 8) as [bs|]; [|by exists s1].
  set (e := fset (Field 0 64) (le_combine bs) entry). rewrite system_bit. unfold entry_size.
  destruct (Z.testbit e 44); [by exists s1|].
  destruct (check_IA32e_ok s1 m _ _ b (table_view_same _ _ _ _ _ Hs1 Hv)) as (s2 & -> & Hs2).
  exists s2. split; [by etransitivity|]. destruct b.
  - destruct (extended_type _); [|done]. case_if; [done|]. cbn [fst snd].
    by destruct (MemRead m regions (u64 (fget RV.tbase g + selector)) 16).
  - by destruct (reserved_type _).
Qed.

Lemma SetGDTEntry_cases s m selector entry base limit b : table_view s base limit b ->
  exists s', same_regs s s' /\ SetGDTEntry regions uninit selector entry (s, m) =
  if limit <? selector + 8 then (inl VP_InvalidSelector, (s', m))
  else match MemWrite m regions (u64 (base + selector)) 8 (le_split 16 entry) with
       | None => (inl VP_Failed, (s', m))
       | Some m1 =>
         match entry_size b entry with
         | None => (inl VP_InvalidSelector, (s', m1))
         | Some 8 => (inr tt, (s', m1))
         | Some _ =>
           if limit <? selector + 16 then (inl VP_InvalidSelector, (s', m1))
           else match MemWrite m1 regions (u64 (base + selector)) 16 (le_split 16 entry) with
                | None => (inl VP_Failed, (s', m1))
                | Some m2 => (inr tt, (s', m2))
                end
         end
       end.
Proof.
  intros Hv. pose proof Hv as [(g&Hg&<-&<-) _].
  destruct (read_table_reg s m Reg.GDTR g) as (g' & s1 & HR & Hb & Hl & Hs1); [simpl; lia|done|].
  unfold SetGDTEntry, mbind, M_bind, sizeof_GenericGDTDescriptor, sizeof_GDTEntry. rewrite HR, Hb, Hl.
  case_if; [by exists s1|]. unfold check_MemWrite; cbn [fst snd].
  destruct (MemWrite m regions _ 8 _) as [m1|]; [|by exists s1].
  rewrite system_bit. unfold entry_size.
  destruct (Z.testbit entry 44); [by exists s1|].
  destruct (check_IA32e_ok s1 m1 _ _ b (table_view_same _ _ _ _ _ Hs1 Hv)) as (s2 & -> & Hs2).
  exists s2. split; [by etransitivity|]. destruct b.
  - destruct (extended_type _); [|done]. case_if; [done|]. cbn [fst snd].
    by destruct (MemWrite m1 regions _ 16 _).
  - by destruct (reserved_type _).
Qed.
End Facts.

Lemma fget_low n x : 0 <= n -> fget (Field 0 n) x = x mod 2 ^ n.
Proof. intros. rewrite fget_mod by (unfold fwf; simpl; lia). by rewrite Z.div_1_r. Qed.

Lemma extended_type_value e : extended_type (fget GenericGDTDescriptor.type e) = true ->
  entry_size true e = Some 8 \/ entry_size true e = Some 16.
Proof. intros He. unfold entry_size. rewrite He. destruct (Z.testbit e 44); auto. Qed.

Lemma entry_size_low64 b e e' : fget (Field 0 64) e = fget (Field 0 64) e' ->
  entry_size b e = entry_size b e'.
Proof. intros [H1 H2]%low64_type. unfold entry_size. by rewrite H1, H2. Qed.

Lemma entry_size_values b e k : entry_size b e = Some k -> k = 8 \/ k = 16.
Proof. unfold entry_size. repeat case_if; intros; simplify_eq; auto. Qed.

(** A write followed by a read of the same guest range. *)
Lemma MemWrite_MemRead m regions p n v m' : Forall region_wf regions -> range_ok p n ->
  n <= Z.of_nat (length v) -> MemWrite m regions p n v = Some m' ->
  MemRead m' regions p n = Some (take (Z.to_nat n) v).
Proof.
  intros Hwf Hp Hv. pose proof (region_wf_gwf _ Hwf). rewrite MemWrite_spec, MemRead_spec by done.
  destruct (locate regions p n) as [r|] eqn:E; simpl; [|done]. intros [= <-]. f_equal.
  destruct (locate_wf _ _ _ _ _ Hwf E) as [Hr Hc]. destruct Hp as (?&?&?).
  destruct (host_addr_wf r p n Hr Hc) as (_&?&?); [lia|]. destruct Hr as ((?&?&?)&?&?).
  assert (Hl : Z.of_nat (length (take (Z.to_nat n) v)) = n) by (rewrite length_take; lia).
  rewrite <- Hl at 2. apply host_read_write_same; lia.
Qed.

(** The first bytes of a longer range in the same region. *)
Lemma MemRead_prefix m regions p n k : Forall region_gwf regions -> range_ok p n -> 0 < k <= n ->
  locate regions p k = locate regions p n ->
  MemRead m regions p k = take (Z.to_nat k) <$> MemRead m regions p n.
Proof.
  intros Hwf Hp Hk Hl. rewrite !MemRead_spec by (done || (unfold range_ok in *; lia)). rewrite Hl.
  destruct (locate regions p n) as [r|]; simpl; [|done]. f_equal.
  apply list_eq; intros i. destruct (Nat.lt_ge_cases i (Z.to_nat k)).
  - rewrite lookup_take_lt, !host_read_lookup by lia. done.
  - rewrite !lookup_ge_None_2; [done|rewrite length_take; lia|rewrite length_host_read; lia].
Qed.

(** ** Theorems *)

(** C32: [GetGDTEntry] of an entry that [SetGDTEntry] has stored returns it: all
    8 bytes of a code or data descriptor, a gate or a 32-bit system descriptor,
    and all 16 bytes of the system descriptors that IA-32e mode extends. *)
Theorem gdt_entry_roundtrip {S} `{VPRegsLaws S} regions uninit (s s1 : S) m m1 selector entry e0 base limit b k :
  Forall region_wf regions -> table_view s base limit b -> same_regs s s1 ->
  entry_size b entry = Some k -> range_ok (u64 (base + selector)) k ->
  locate regions (u64 (base + selector)) 8 = locate regions (u64 (base + selector)) k ->
  (exists s1', SetGDTEntry regions uninit selector entry (s, m) = (inr tt, (s1', m1))) ->
  exists e s2, GetGDTEntry regions uninit selector e0 (s1, m1) = (inr e, (s2, m1))
    /\ fget (Field 0 (8 * k)) e = fget (Field 0 (8 * k)) entry.
Proof.
  intros Hwf Hv Hsame Hk Hr Hloc [s1' Hset]. pose proof (region_wf_gwf _ Hwf) as Hg.
  destruct (SetGDTEntry_cases regions uninit s m selector entry base limit b Hv) as (s' & _ & Hc).
  rewrite Hc in Hset. clear Hc. destruct (limit <? selector + 8) eqn:E; [done|]. set (a := u64 (base + selector)) in *.
  destruct (MemWrite m regions a 8 (le_split 16 entry)) as [mw|] eqn:EW; [|done].
  destruct (GetGDTEntry_cases regions uninit s1 m1 selector e0 base limit b) as (s2 & _ & Hget);
    [by eapply table_view_same|]. fold a in Hget. rewrite E in Hget. rewrite Hget. clear Hget.
  rewrite Hk in Hset.
  assert (H8 : range_ok a 8) by (unfold range_ok in *; destruct (entry_size_values _ _ _ Hk); subst; lia).
  destruct (entry_size_values _ _ _ Hk) as [-> | ->].
  - injection Hset as _ <-.
    rewrite (MemWrite_MemRead m regions a 8 (le_split 16 entry) mw) by (done || (rewrite ?length_le_split; lia)).
    rewrite take_le_split by lia. change (Z.to_nat 8) with 8%nat. set (e := fset (Field 0 64) _ e0).
    assert (He : fget (Field 0 64) e = fget (Field 0 64) entry).
    { subst e. rewrite fget_fset_same, fget_low, le_combine_split by (done || lia).
      change (8 * Z.of_nat 8) with 64. cbn [f_width]. by rewrite Z.mod_mod by lia. }
    cbv zeta. rewrite (entry_size_low64 b e entry He), Hk. by exists e, s2.
  - destruct (limit <? selector + 16) eqn:E16; [done|].
    destruct (MemWrite mw regions a 16 (le_split 16 entry)) as [mw2|] eqn:EW2; [|done].
    injection Hset as _ <-.
    assert (HR : MemRead mw2 regions a 16 = Some (le_split 16 entry)).
    { rewrite (MemWrite_MemRead mw regions a 16 (le_split 16 entry) mw2)
        by (done || (rewrite ?length_le_split; lia)). by rewrite take_le_split by lia. }
    rewrite (MemRead_prefix mw2 regions a 16 8), HR by (done || lia). cbn [fmap option_fmap option_map]. change (Z.to_nat 8) with 8%nat.
    rewrite take_le_split by lia. set (e := fset (Field 0 64) _ e0).
    assert (He : fget (Field 0 64) e = fget (Field 0 64) entry).
    { subst e. rewrite fget_fset_same, fget_low, le_combine_split by (done || lia).
      change (8 * Z.of_nat 8) with 64. cbn [f_width]. by rewrite Z.mod_mod by lia. }
    cbv zeta. rewrite (entry_size_low64 b e entry He), Hk.
    eexists _, s2. split; [done|]. rewrite !fget_low, le_combine_split by lia.
    change (8 * Z.of_nat 16) with (8 * 16). by rewrite Z.mod_mod by lia.
Qed.

(** An entry whose type is reserved in the current mode is refused by
    [SetGDTEntry] with InvalidSelector only after its first 8 bytes have been
    stored in the table; likewise a 16-byte entry that fits the limit only with
    its first half. *)
Theorem rejected_gdt_entry_is_written {S} `{VPRegsLaws S} regions uninit (s : S) m selector entry base limit b m1 :
  Forall region_wf regions -> table_view s base limit b ->
  range_ok (u64 (base + selector)) 8 -> selector + 8 <= limit ->
  MemWrite m regions (u64 (base + selector)) 8 (le_split 8 entry) = Some m1 ->
  entry_size b entry = None \/ (entry_size b entry = Some 16 /\ limit < selector + 16) ->
  exists s', SetGDTEntry regions uninit selector entry (s, m) = (inl VP_InvalidSelector, (s', m1))
    /\ MemRead m1 regions (u64 (base + selector)) 8 = Some (le_split 8 entry).
Proof.
  intros Hwf Hv Hr Hl Hw Hk. pose proof (region_wf_gwf _ Hwf) as Hg.
  destruct (SetGDTEntry_cases regions uninit s m selector entry base limit b Hv) as (s' & _ & ->).
  exists s'. rewrite (proj2 (Z.ltb_ge limit (selector + 8))) by lia.
  assert (HW : MemWrite m regions (u64 (base + selector)) 8 (le_split 16 entry) = Some m1).
  { rewrite MemWrite_take, take_le_split by (done || lia). exact Hw. }
  rewrite HW. split.
  - destruct Hk as [-> | [-> Hlt]]; [done|]. by rewrite (proj2 (Z.ltb_lt limit (selector + 16))) by lia.
  - rewrite (MemWrite_MemRead m regions (u64 (base + selector)) 8 (le_split 16 entry) m1) by (done || (rewrite ?length_le_split; lia)).
    by rewrite take_le_split by lia.
Qed.

(** [GetIDTEntry] by cases. *)
Lemma GetIDTEntry_cases {S} `{VPRegsLaws S} regions uninit (s : S) m vector g :
  rview s Reg.IDTR = Some g ->
  exists s', same_regs s s' /\ GetIDTEntry regions uninit vector (s, m) =
  if fget RV.tlimit g <? vector * 8 then (inl VP_InvalidSelector, (s', m))
  else match MemRead m regions (u64 (fget RV.tbase g + vector * 8)) 8 with
       | None => (inl VP_Failed, (s', m))
       | Some bs => (inr (le_combine bs), (s', m))
       end.
Proof.
  intros Hg. destruct (read_table_reg uninit s m Reg.IDTR g) as (g' & s1 & HR & Hb & Hl & Hs1); [simpl; lia|done|].
  exists s1. split; [done|].
  unfold GetIDTEntry, mbind, M_bind, sizeof_IDTEntry. rewrite HR, Hb, Hl. case_if; [done|].
  unfold check_MemRead; cbn [fst snd]. by destruct (MemRead m regions _ 8).
Qed.

(** How the table limits are enforced.  A limit is the offset of the last
    byte, so an n-entry table has limit 8n-1: [GetGDTEntry] then refuses the last
    entry; [GetIDTEntry] accepts exactly the vectors that start within the limit,
    so with a limit that cuts an entry it reads bytes beyond the table. *)
Theorem table_limit_checks {S} `{VPRegsLaws S} regions uninit (s : S) m base limit b gi :
  table_view s base limit b -> rview s Reg.IDTR = Some gi ->
  (forall n e0, limit = 8 * n - 1 -> exists s',
     GetGDTEntry regions uninit (8 * (n - 1)) e0 (s, m) = (inl VP_InvalidSelector, (s', m)))
  /\ (forall selector e0 e s', GetGDTEntry regions uninit selector e0 (s, m) = (inr e, s') ->
     selector + 8 <= limit)
  /\ (forall vector bs, MemRead m regions (u64 (fget RV.tbase gi + vector * 8)) 8 = Some bs ->
      exists s', GetIDTEntry regions uninit vector (s, m)
        = (if vector * 8 <=? fget RV.tlimit gi then inr (le_combine bs) else inl VP_InvalidSelector,
           (s', m))).
Proof.
  intros Hv Hi. split; [|split].
  - intros n e0 ->. destruct (GetGDTEntry_cases regions uninit s m (8 * (n - 1)) e0 base (8 * n - 1) b Hv)
      as (s' & _ & ->). exists s'. by rewrite (proj2 (Z.ltb_lt _ _)) by lia.
  - intros selector e0 e s' Hget.
    destruct (GetGDTEntry_cases regions uninit s m selector e0 base limit b Hv) as (s1 & _ & Hc).
    rewrite Hc in Hget. destruct (Z.ltb_spec limit (selector + 8)); [done|lia].
  - intros vector bs Hr. destruct (GetIDTEntry_cases regions uninit s m vector gi Hi) as (s' & _ & ->).
    exists s'. rewrite Hr. by destruct (Z.ltb_spec (fget RV.tlimit gi) (vector * 8)),
      (Z.leb_spec (vector * 8) (fget RV.tlimit gi)); try lia.
Qed.

Lemma fill_segment_fields sel base limit attr v :
  0 <= sel < 2 ^ 16 -> 0 <= base < 2 ^ 64 -> 0 <= limit < 2 ^ 32 -> 0 <= attr < 2 ^ 16 ->
  let w := fill_segment sel base limit attr v in
  fget RV.selector w = sel /\ fget RV.segbase w = base
  /\ fget RV.seglimit w = limit /\ fget RV.attributes w = attr.
Proof.
  intros Hs Hb Hl Ha w. subst w. unfold fill_segment. fsimpl.
  by rewrite !Z.mod_small.
Qed.

(** A stored code or data descriptor, read back as an entry. *)
Lemma GetGDTEntry_code {S} `{VPRegsLaws S} regions uninit (s : S) m selector base limit b d e0 :
  table_view s base limit b -> selector + 8 <= limit -> 0 <= d < 2 ^ 64 ->
  entry_size b d = Some 8 ->
  MemRead m regions (u64 (base + selector)) 8 = Some (le_split 8 d) ->
  exists e s', GetGDTEntry regions uninit selector e0 (s, m) = (inr e, (s', m))
    /\ same_regs s s' /\ e = fset (Field 0 64) d e0 /\ fget (Field 0 64) e = d.
Proof.
  intros Hv Hl Hd Hk Hr.
  destruct (GetGDTEntry_cases regions uninit s m selector e0 base limit b Hv) as (s' & Hs & ->).
  rewrite (proj2 (Z.ltb_ge limit (selector + 8))), Hr by lia. cbv zeta.
  assert (Hc : le_combine (le_split 8 d) = d).
  { rewrite le_combine_split. by apply Z.mod_small. }
  rewrite Hc.
  assert (He : fget (Field 0 64) (fset (Field 0 64) d e0) = fget (Field 0 64) d).
  { rewrite fget_fset_same, fget_low by (done || lia). done. }
  rewrite (entry_size_low64 b _ d He), Hk. eexists _, s'. split; [done|]. split; [done|]. split; [done|].
  rewrite He, fget_low by lia. by apply Z.mod_small.
Qed.

(** The 64-bit accessors only look at the low 64 bits of an entry. *)
Lemma fget_low64 f e d : fwf f = true -> f_off f + f_width f <= 64 ->
  fget (Field 0 64) e = d -> fget f e = fget f d.
Proof.
  intros Hf Hle <-. pose proof (fwf_spec f Hf). apply Z.bits_inj'; intros i Hi.
  rewrite !fget_testbit by (done || lia). simpl. rewrite Z.add_0_r.
  destruct (Z.ltb_spec i (f_width f)), (Z.ltb_spec (i + f_off f) 64); simpl; done || lia.
Qed.

Lemma gdt_accessors_low64 e d : fget (Field 0 64) e = d ->
  GDTDescriptor.GetBase e = GDTDescriptor.GetBase d
  /\ GDTDescriptor.GetLimit e = GDTDescriptor.GetLimit d
  /\ GDTDescriptor.GetAttributes e = GDTDescriptor.GetAttributes d.
Proof.
  intros He. unfold GDTDescriptor.GetBase, GDTDescriptor.GetLimit, GDTDescriptor.GetAttributes.
  rewrite !(fget_low64 _ e d) by (done || (simpl; lia)). done.
Qed.

(** Loading a code or data segment.  If the GDT holds at the selector the
    descriptor built from a base, a limit, an access byte (with its S bit set)
    and flags, [ReadSegment] fills the segment value with the selector, the base,
    the limit in bytes and the attributes, and [GetSegmentSize] says 64-bit
    exactly for the L flag in IA-32e mode, otherwise 32-bit exactly for the D
    flag. *)
Theorem read_code_segment {S} `{VPRegsLaws S} regions uninit (s : S) m selector value gbase glimit b
    base limit acc fl :
  table_view s gbase glimit b -> 0 <= selector < 2 ^ 16 -> selector + 8 <= glimit ->
  0 <= base < 2 ^ 32 -> 0 <= limit < 2 ^ 20 -> 0 <= acc < 2 ^ 8 -> 0 <= fl < 2 ^ 4 ->
  Z.testbit acc 4 = true ->
  MemRead m regions (u64 (gbase + selector)) 8 = Some (le_split 8 (GDTDescriptor.set base limit acc fl)) ->
  (exists v s', ReadSegment regions uninit selector value (s, m) = (inr v, (s', m)) /\ same_regs s s'
     /\ fget RV.selector v = selector /\ fget RV.segbase v = base
     /\ fget RV.seglimit v = (if bit 3 fl then limit * 4096 + 4095 else limit)
     /\ fget RV.attributes v = acc + fl * 4096)
  /\ exists s', GetSegmentSize regions uninit selector (s, m)
     = (inr (if b && Z.testbit fl 1 then SegSize_64 else if Z.testbit fl 2 then SegSize_32 else SegSize_16),
        (s', m)).
Proof.
  intros Hv Hsel Hgl Hb Hl Ha Hf Hs Hr.
  destruct (gdt_set_get_lemma base limit acc fl Hb Hl Ha Hf) as (Gb & Gl & Ga & Gd & Gs).
  set (d := GDTDescriptor.set base limit acc fl) in *.
  assert (Hsys : Z.testbit d 44 = true) by (rewrite Gs; done).
  assert (Hseg : forall value, exists v s', ReadSegment regions uninit selector value (s, m) = (inr v, (s', m))
     /\ same_regs s s' /\ v = fill_segment selector base (if bit 3 fl then limit * 4096 + 4095 else limit)
                               (acc + fl * 4096) value).
  { intros w. destruct (GetGDTEntry_code regions uninit s m selector gbase glimit b d uninit)
      as (e & s' & HG & Hs' & _ & He); try done.
    { unfold entry_size. by rewrite Hsys. }
    destruct (gdt_accessors_low64 e d He) as (Eb & El & Ea).
    assert (Hse : Z.testbit e 44 = true).
    { destruct (low64_type e d) as [-> _]; [|done]. rewrite He, fget_low by lia. by rewrite Z.mod_small. }
    unfold ReadSegment, mbind, M_bind. rewrite HG, system_bit, Hse. cbn [negb].
    rewrite Eb, El, Ea, Gb, Gl, Ga. by eexists _, s'. }
  assert (Hlim : 0 <= (if bit 3 fl then limit * 4096 + 4095 else limit) < 2 ^ 32) by (case_if; lia).
  pose proof (fill_segment_fields selector base _ (acc + fl * 4096) value Hsel ltac:(lia) Hlim ltac:(lia))
    as (F1 & F2 & F3 & F4).
  split.
  - destruct (Hseg value) as (v & s' & HR & Hs' & ->). eexists _, s'. by split_and!.
  - destruct (Hseg uninit) as (v & s1 & HR & Hs1 & ->). unfold GetSegmentSize, ComputeSegmentSize, mbind, M_bind.
    rewrite HR. destruct (check_IA32e_ok uninit s1 m gbase glimit b) as (s2 & -> & _);
      [by eapply table_view_same|]. exists s2. unfold mret, M_ret.
    clear F1 F2 F3 F4 value.
    pose proof (fill_segment_fields selector base _ (acc + fl * 4096) uninit Hsel ltac:(lia) Hlim ltac:(lia))
      as (_ & _ & _ & F4). set (w := fill_segment _ _ _ _ _) in *.
    unfold RV.attr_longMode, RV.attr_defaultSize. rewrite !nz_fget_bit by lia.
    assert (Hbit : forall i, 0 <= i < 16 -> Z.testbit w (160 + i) = Z.testbit (acc + fl * 4096) i).
    { intros i Hi. rewrite <- F4, fget_testbit by (done || lia). simpl.
      rewrite (proj2 (Z.ltb_lt i 16)) by lia. simpl. f_equal. lia. }
    change 173 with (160 + 13). change 174 with (160 + 14). rewrite !Hbit by lia.
    rewrite (Z.add_comm acc). change 4096 with (2 ^ 12). rewrite <- lor_shiftl_add by lia.
    rewrite !Z.lor_spec, !Z.shiftl_spec by lia.
    rewrite (testbit_range acc 8 13), (testbit_range acc 8 14) by lia. by rewrite !orb_false_r.
Qed.

(** Outside IA-32e mode only 8 of the 16 bytes of an LDT or TSS descriptor
    are read, but [ReadSegment] builds the base from all of them: the upper 32
    bits of the segment base are whatever the uninitialised local entry held
    (or all ones, when bit 31 of the base is set), never the zeros of a 32-bit
    base. *)
Theorem read_system_segment_base {S} `{VPRegsLaws S} regions uninit (s : S) m selector value gbase glimit d :
  table_view s gbase glimit false -> selector + 8 <= glimit -> 0 <= d < 2 ^ 64 ->
  Z.testbit d 44 = false ->
  (fget GenericGDTDescriptor.type d = 2 \/ fget GenericGDTDescriptor.type d = 9
   \/ fget GenericGDTDescriptor.type d = 11) ->
  MemRead m regions (u64 (gbase + selector)) 8 = Some (le_split 8 d) ->
  exists v s', ReadSegment regions uninit selector value (s, m) = (inr v, (s', m))
    /\ fget (Field 64 32) v = GDTDescriptor.GetBase d
    /\ fget (Field 96 32) v = if Z.testbit d 63 then 0xFFFFFFFF else fget LDTDescriptor.baseTop uninit.
Proof.
  intros Hv Hl Hd Hs Ht Hr.
  destruct (GetGDTEntry_code regions uninit s m selector gbase glimit false d uninit)
    as (e & s' & HG & Hs' & He & Hlow); try done.
  { unfold entry_size. rewrite Hs. destruct Ht as [-> | [-> | ->]]; done. }
  destruct (low64_type e d) as [He44 Hety]; [rewrite Hlow, fget_low by lia; by rewrite Z.mod_small|].
  assert (HRS : ReadSegment regions uninit selector value (s, m)
    = (inr (fill_segment selector (LDTDescriptor.GetBase e) (LDTDescriptor.GetLimit e)
              (LDTDescriptor.GetAttributes e) value), (s', m))).
  { unfold ReadSegment, mbind, M_bind. rewrite HG, system_bit, He44, Hs, Hety. cbn [negb].
    by destruct Ht as [-> | [-> | ->]]. }
  rewrite HRS. eexists _, s'. split; [done|]. unfold fill_segment. fsimpl.
  assert (Hbase : LDTDescriptor.GetBase e
    = u64 (s32 (GDTDescriptor.GetBase d)) ||| (fget LDTDescriptor.baseTop uninit <<< 32)).
  { unfold LDTDescriptor.GetBase. rewrite gdt_base_slices.
    rewrite !(fget_low64 _ e d) by (done || (simpl; lia)).
    assert (fget LDTDescriptor.baseTop e = fget LDTDescriptor.baseTop uninit) as ->
      by (rewrite He; by rewrite fget_fset_other).
    pose proof (fget_range LDTDescriptor.baseTop uninit eq_refl) as Hru. simpl in Hru.
    f_equal.
    - f_equal. unfold fget; cbn. bitwise.
    - apply u64_small. rewrite Z.shiftl_mul_pow2; lia. }
  rewrite Hbase. clear HRS Hbase.
  pose proof (fget_range LDTDescriptor.baseTop uninit eq_refl) as Hru. simpl in Hru.
  assert (Hgb : 0 <= GDTDescriptor.GetBase d < 2 ^ 32) by apply u32_range.
  assert (H63 : Z.testbit (GDTDescriptor.GetBase d) 31 = Z.testbit d 63).
  { rewrite gdt_base_slices. unfold fget; cbn. tb_solve. }
  set (g := GDTDescriptor.GetBase d) in *. set (t := fget LDTDescriptor.baseTop uninit) in *.
  rewrite <- H63. clearbody g t. clear - Hru Hgb. unfold frel, fget; cbn.
  split.
  - bitwise.
  - destruct (Z.testbit g 31) eqn:E.
    + change 4294967295 with (Z.ones 32). bitwise; rewrite ?E; tb_solve.
    + bitwise; rewrite ?E; tb_solve.
Qed.

(** ** Concrete tables: a GDT at 0x1000 with limit 0x3F, an IDT at 0x2000 *)
Definition desc_regs (efer : Z) : table_regs := fun r =>
  match r with
  | Reg.GDTR => Some (0x1000 + (0x3F <<< 64)) | Reg.IDTR => Some (0x2000 + (0x7FF <<< 64))
  | Reg.CR0 => Some 1 | Reg.RFLAGS => Some 2 | Reg.EFER => Some efer | _ => None
  end.
Definition desc_mem : hmem :=
  let m := host_write (fun _ => 0) 0x101008 (le_split 8 0x00AF9A000000FFFF) in
  host_write m 0x101018 (le_split 8 0x0000890012340067).

Lemma desc_view32 : table_view (desc_regs 0) 0x1000 0x3F false.
Proof. split; [by eexists|]. by eexists _, _, _. Qed.
Lemma desc_view64 : table_view (desc_regs 0x500) 0x1000 0x3F true.
Proof. split; [by eexists|]. by eexists _, _, _. Qed.
Lemma desc_regions_wf : Forall region_wf long_mode_regions.
Proof. apply Forall_singleton. unfold region_wf, region_gwf; simpl; lia. Qed.

(** A 16-byte TSS descriptor stored at selector 0x20 in IA-32e mode. *)
Lemma gdt_entry_roundtrip_witness :
  let d := LDTDescriptor.set 0xFFFF800012345678 0x67 0x89 0 in
  exists m1 e s2, GetGDTEntry long_mode_regions 0 0x20 0 (desc_regs 0x500, m1) = (inr e, (s2, m1))
    /\ fget (Field 0 (8 * 16)) e = fget (Field 0 (8 * 16)) d.
Proof.
  intros d.
  assert (Hs : exists m1, exists s1', SetGDTEntry long_mode_regions 0 0x20 d (desc_regs 0x500, desc_mem)
                 = (inr tt, (s1', m1))).
  { assert (Hf : fst (SetGDTEntry long_mode_regions 0 0x20 d (desc_regs 0x500, desc_mem)) = inr tt)
      by (vm_compute; reflexivity).
    destruct (SetGDTEntry _ _ _ _ _) as [r [s1' m1]]. simpl in Hf. subst r. by exists m1, s1'. }
  destruct Hs as [m1 Hs]. exists m1.
  refine (gdt_entry_roundtrip long_mode_regions 0 (desc_regs 0x500) (desc_regs 0x500) desc_mem m1 0x20 d 0
           0x1000 0x3F true 16 desc_regions_wf desc_view64 ltac:(reflexivity) _ _ _ Hs).
  - reflexivity.
  - unfold range_ok; vm_compute; split_and!; congruence.
  - reflexivity.
Defined.

(** Type 0 is reserved. *)
Lemma rejected_gdt_entry_is_written_witness :
  exists m1 s', SetGDTEntry long_mode_regions 0 0x10 0xFF (desc_regs 0, desc_mem)
      = (inl VP_InvalidSelector, (s', m1))
    /\ MemRead m1 long_mode_regions 0x1010 8 = Some (le_split 8 0xFF).
Proof.
  assert (Hw : exists m1, MemWrite desc_mem long_mode_regions (u64 (0x1000 + 0x10)) 8 (le_split 8 0xFF)
                 = Some m1).
  { eexists. reflexivity. }
  destruct Hw as [m1 Hw]. exists m1.
  refine (rejected_gdt_entry_is_written long_mode_regions 0 (desc_regs 0) desc_mem 0x10 0xFF 0x1000 0x3F false
            m1 desc_regions_wf desc_view32 _ _ Hw _).
  - unfold range_ok; vm_compute; split_and!; congruence.
  - lia.
  - left. reflexivity.
Defined.

(** The eighth entry of the table with limit 0x3F is refused. *)
Lemma table_limit_checks_witness :
  exists s', GetGDTEntry long_mode_regions 0 (8 * (8 - 1)) 0 (desc_regs 0, desc_mem)
             = (inl VP_InvalidSelector, (s', desc_mem)).
Proof.
  exact (proj1 (table_limit_checks long_mode_regions 0 (desc_regs 0) desc_mem 0x1000 0x3F false
           (0x2000 + (0x7FF <<< 64)) desc_view32 eq_refl) 8 0 eq_refl).
Defined.

Lemma read_code_segment_witness :
  exists s', GetSegmentSize long_mode_regions 0 8 (desc_regs 0x500, desc_mem)
    = (inr SegSize_64, (s', desc_mem)).
Proof.
  refine (proj2 (read_code_segment long_mode_regions 0 (desc_regs 0x500) desc_mem 8 0 0x1000 0x3F true
           0 0xFFFFF 0x9A 0xA desc_view64 _ _ _ _ _ _ _ _)); lia || reflexivity.
Defined.

(** With 0xDEADBEEF in the uninitialised bytes, the TSS base is 0xDEADBEEF00001234. *)
Lemma read_system_segment_base_witness :
  exists v s', ReadSegment long_mode_regions (0xDEADBEEF <<< 64) 0x18 0 (desc_regs 0, desc_mem)
      = (inr v, (s', desc_mem))
    /\ fget (Field 64 32) v = 0x1234 /\ fget (Field 96 32) v = 0xDEADBEEF.
Proof.
  refine (read_system_segment_base long_mode_regions (0xDEADBEEF <<< 64) (desc_regs 0) desc_mem 0x18 0
            0x1000 0x3F 0x0000890012340067 desc_view32 _ _ _ _ _); try (lia || reflexivity).
  right; left; reflexivity.
Defined.
