(* ===== verification/Interrupts.v ===== *)
(** * The interrupt queue and the run loop of a virtual processor (vp/vp.cpp)

    [Run], [Step], [EnqueueInterrupt], [HandleInterruptQueue] and
    [InjectPendingInterrupt] over the platform operations of [VPInterrupts],
    first as sequential functions and then as the steps of a machine in which
    any number of threads enqueue while one thread runs the processor.  The
    mutex makes a push, and a pop with its injection, atomic; the two size tests
    of the running thread are outside it, and each is taken as one atomic read. *)
From S2P Require Import Prelude Status.

Class VPInterrupts (S : Type) := {
  RunImpl : S -> VPExecutionStatus * S;
  StepImpl : S -> VPExecutionStatus * S;
  PrepareInterrupt (vector : Z) : S -> bool * S;
  InjectInterrupt (vector : Z) : S -> VPOperationStatus * S;
  CanInjectInterrupt : S -> bool;
  RequestInterruptWindow : S -> S
}.

(** The processor object: platform state and pending vectors. *)
Record VP (S : Type) := MkVP { vp_state : S; m_pendingInterrupts : list Z }.
Arguments MkVP {S}.
Arguments vp_state {S}.
Arguments m_pendingInterrupts {S}.

Section Queue.
Context {S : Type} `{VPInterrupts S}.
(** [m_vm.GetPlatform().GetFeatures().guestDebugging]. *)
Context (guestDebugging : bool).

(** The block that holds the mutex; [front] and [pop] of an empty queue are
    undefined, here they do nothing. *)
Definition pop_and_inject (vp : VP S) : VP S :=
  match m_pendingInterrupts vp with
  | [] => vp
  | vector :: rest => MkVP (snd (InjectInterrupt vector (vp_state vp))) rest
  end.
Definition InjectPendingInterrupt (vp : VP S) : VP S :=
  if Z.of_nat (length (m_pendingInterrupts vp)) =? 0 then vp else pop_and_inject vp.

Definition request_window (vp : VP S) : VP S :=
  MkVP (RequestInterruptWindow (vp_state vp)) (m_pendingInterrupts vp).
Definition HandleInterruptQueue (vp : VP S) : VP S :=
  if (0 <? Z.of_nat (length (m_pendingInterrupts vp))) then
    if CanInjectInterrupt (vp_state vp) then InjectPendingInterrupt vp
    else request_window vp
  else vp.

Definition run_impl (vp : VP S) : VPExecutionStatus * VP S :=
  let '(status, s) := RunImpl (vp_state vp) in (status, MkVP s (m_pendingInterrupts vp)).
Definition Run (vp : VP S) : VPExecutionStatus * VP S := run_impl (HandleInterruptQueue vp).

Definition Step (vp : VP S) : VPExecutionStatus * VP S :=
  if negb guestDebugging then (VPE_Unsupported, vp)
  else
    let vp := HandleInterruptQueue vp in
    let '(status, s) := StepImpl (vp_state vp) in (status, MkVP s (m_pendingInterrupts vp)).

Definition EnqueueInterrupt (vector : Z) (vp : VP S) : bool * VP S :=
  let vector := u8 vector in
  let queue := m_pendingInterrupts vp ++ [vector] in
  let '(ok, s) := PrepareInterrupt vector (vp_state vp) in (ok, MkVP s queue).

(** ** Interleavings

    Where the running thread is: between its accesses to the queue and to the
    platform other threads can enqueue.  An enqueuing thread holds the mutex for
    its push and its [PrepareInterrupt], so that these are one step, as are the
    pop and the injection; [RunImpl] is one step. *)
Inductive pc :=
| PC_outside      (* before the first size test *)
| PC_nonempty     (* the first test found a vector *)
| PC_window       (* the processor cannot take an interrupt; about to request a window *)
| PC_inject       (* the processor can take an interrupt; before the second test *)
| PC_pop          (* the second test found a vector; about to lock and pop *)
| PC_run.         (* the queue has been handled; about to call [RunImpl] *)

(** Machine state: object, program point, and the history of the vectors enqueued. *)
Record mstate := MkM { m_vp : VP S; m_pc : pc; m_enqueued : list Z }.

Inductive mstep : mstate -> mstate -> Prop :=
| ms_enqueue vp c enq vector :
    mstep (MkM vp c enq) (MkM (snd (EnqueueInterrupt vector vp)) c (enq ++ [u8 vector]))
| ms_test1_empty vp enq :
    m_pendingInterrupts vp = [] -> mstep (MkM vp PC_outside enq) (MkM vp PC_run enq)
| ms_test1 vp enq :
    m_pendingInterrupts vp <> [] -> mstep (MkM vp PC_outside enq) (MkM vp PC_nonempty enq)
| ms_can vp enq :
    CanInjectInterrupt (vp_state vp) = true -> mstep (MkM vp PC_nonempty enq) (MkM vp PC_inject enq)
| ms_cannot vp enq :
    CanInjectInterrupt (vp_state vp) = false -> mstep (MkM vp PC_nonempty enq) (MkM vp PC_window enq)
| ms_window vp enq :
    mstep (MkM vp PC_window enq) (MkM (request_window vp) PC_run enq)
| ms_test2_empty vp enq :
    m_pendingInterrupts vp = [] -> mstep (MkM vp PC_inject enq) (MkM vp PC_run enq)
| ms_test2 vp enq :
    m_pendingInterrupts vp <> [] -> mstep (MkM vp PC_inject enq) (MkM vp PC_pop enq)
| ms_pop vp enq :
    m_pendingInterrupts vp <> [] -> mstep (MkM vp PC_pop enq) (MkM (pop_and_inject vp) PC_run enq)
| ms_run vp enq :
    mstep (MkM vp PC_run enq) (MkM (snd (run_impl vp)) PC_outside enq).

Definition minit (s : S) : mstate := MkM (MkVP s []) PC_outside [].

(** Past a size test the queue is not empty. *)
Definition tested (c : pc) : Prop :=
  match c with PC_nonempty | PC_window | PC_inject | PC_pop => True | _ => False end.
Definition minv (st : mstate) : Prop :=
  (tested (m_pc st) -> m_pendingInterrupts (m_vp st) <> [])
  /\ Forall (fun v => 0 <= v < 256) (m_enqueued st)
  /\ m_pendingInterrupts (m_vp st) `suffix_of` m_enqueued st.

Lemma enqueue_queue vector vp :
  m_pendingInterrupts (snd (EnqueueInterrupt vector vp)) = m_pendingInterrupts vp ++ [u8 vector].
Proof. unfold EnqueueInterrupt. by destruct (PrepareInterrupt _ _). Qed.

Lemma run_impl_queue vp : m_pendingInterrupts (snd (run_impl vp)) = m_pendingInterrupts vp.
Proof. unfold run_impl. by destruct (RunImpl _). Qed.
Lemma pop_queue vp : m_pendingInterrupts (pop_and_inject vp) = tail (m_pendingInterrupts vp).
Proof. unfold pop_and_inject. by destruct vp as [s [|v rest]]. Qed.

Lemma mstep_inv st st' : mstep st st' -> minv st -> minv st'.
Proof.
  intros Hs (Hne & Hr & Hq). unfold minv in *.
  destruct Hs as [vp c enq v| | | | | | | |vp enq Hn|]; simpl in *; rewrite ?run_impl_queue; try (split_and!; tauto).
  - rewrite enqueue_queue. split; [intros _ E; by apply app_eq_nil in E as [_ ?]|]. split.
    + apply Forall_app. split; [done|]. apply Forall_singleton. apply u8_range.
    + destruct Hq as [l ->]. exists l. by rewrite app_assoc.
  - rewrite pop_queue. split; [done|]. split; [done|]. destruct (m_pendingInterrupts vp) as [|x rest]; [done|].
    destruct Hq as [l ->]. exists (l ++ [x]). by rewrite <- app_assoc.
Qed.

Lemma reachable_inv s st : rtc mstep (minit s) st -> minv st.
Proof.
  intros Hr. remember (minit s) as st0 eqn:E.
  assert (Hi : minv st0) by (subst; unfold minv; simpl; by split_and!).
  clear E. induction Hr as [|a b c Hab _ IH]; [done|]. apply IH. by eapply mstep_inv.
Qed.

(** *** Undisturbed runs *)
Lemma HandleInterruptQueue_cases vp :
  HandleInterruptQueue vp = match m_pendingInterrupts vp with
                            | [] => vp
                            | _ :: _ => if CanInjectInterrupt (vp_state vp) then pop_and_inject vp
                                        else request_window vp
                            end.
Proof.
  unfold HandleInterruptQueue, InjectPendingInterrupt. destruct (m_pendingInterrupts vp) as [|v rest]; [done|].
  cbn [length]. rewrite (proj2 (Z.ltb_lt 0 _)), (proj2 (Z.eqb_neq _ 0)) by lia. done.
Qed.

(** A run without other threads is a path of the machine. *)
Lemma Run_steps vp enq : rtc mstep (MkM vp PC_outside enq) (MkM (snd (Run vp)) PC_outside enq).
Proof.
  unfold Run. rewrite HandleInterruptQueue_cases.
  destruct (m_pendingInterrupts vp) as [|v rest] eqn:E.
  - eapply rtc_l; [by apply ms_test1_empty|]. apply rtc_once, ms_run.
  - eapply rtc_l; [apply ms_test1; by rewrite E|]. destruct (CanInjectInterrupt (vp_state vp)) eqn:Hc.
    + eapply rtc_l; [by apply ms_can|]. eapply rtc_l; [apply ms_test2; by rewrite E|].
      eapply rtc_l; [apply ms_pop; by rewrite E|]. apply rtc_once, ms_run.
    + eapply rtc_l; [by apply ms_cannot|]. eapply rtc_l; [apply ms_window|]. apply rtc_once, ms_run.
Qed.

(** What a run does to the platform while the processor cannot take an interrupt. *)
Definition wait (s : S) : S := snd (RunImpl (RequestInterruptWindow s)).
Definition runs (n : nat) (vp : VP S) : VP S := Nat.iter n (fun vp => snd (Run vp)) vp.

Lemma runs_steps n vp enq : rtc mstep (MkM vp PC_outside enq) (MkM (runs n vp) PC_outside enq).
Proof. induction n as [|n IH]; [done|]. etrans; [exact IH|apply Run_steps]. Qed.
Lemma runs_add n m vp : runs (n + m) vp = runs n (runs m vp).
Proof. apply Nat.iter_add. Qed.
Lemma run_impl_state vp : vp_state (snd (run_impl vp)) = snd (RunImpl (vp_state vp)).
Proof. unfold run_impl. by destruct (RunImpl _). Qed.
Lemma VP_eta (vp vp' : VP S) :
  vp_state vp = vp_state vp' -> m_pendingInterrupts vp = m_pendingInterrupts vp' -> vp = vp'.
Proof. destruct vp, vp'; cbn. by intros -> ->. Qed.

Lemma Run_wait s v rest : CanInjectInterrupt s = false ->
  snd (Run (MkVP s (v :: rest))) = MkVP (wait s) (v :: rest).
Proof.
  intros Hc. unfold Run. rewrite HandleInterruptQueue_cases; cbn [m_pendingInterrupts vp_state].
  rewrite Hc. apply VP_eta; [by rewrite run_impl_state|by rewrite run_impl_queue].
Qed.
Lemma Run_inject s v rest : CanInjectInterrupt s = true ->
  snd (Run (MkVP s (v :: rest))) = MkVP (snd (RunImpl (snd (InjectInterrupt v s)))) rest.
Proof.
  intros Hc. unfold Run. rewrite HandleInterruptQueue_cases; cbn [m_pendingInterrupts vp_state].
  rewrite Hc. apply VP_eta; [by rewrite run_impl_state|by rewrite run_impl_queue].
Qed.

(** A processor that takes an interrupt after at most [N] runs with a window. *)
Context (P : S -> Prop) (N : nat).
Context (P_run : forall s, P s -> P (snd (RunImpl s))).
Context (P_inject : forall v s, P s -> P (snd (InjectInterrupt v s))).
Context (P_window : forall s, P s -> P (RequestInterruptWindow s)).
Context (P_opens : forall s, P s -> exists k, (k <= N)%nat /\ CanInjectInterrupt (Nat.iter k wait s) = true).

(** The oldest vector is injected within [N + 1] runs. *)
Lemma oldest_injected k : forall s v rest, P s -> CanInjectInterrupt (Nat.iter k wait s) = true ->
  exists n s', (n <= k + 1)%nat /\ P s' /\ runs n (MkVP s (v :: rest)) = MkVP s' rest.
Proof.
  induction k as [|k IH]; intros s v rest HP Hk; destruct (CanInjectInterrupt s) eqn:Hc.
  1, 3: exists 1%nat, (snd (RunImpl (snd (InjectInterrupt v s)))); split; [lia|]; split; [auto|apply (Run_inject s v rest Hc)].
  - cbn in Hk. congruence.
  - destruct (IH (wait s) v rest) as (n & s' & Hn & Hs' & Hruns); [unfold wait; auto|by rewrite <- Nat.iter_succ_r|].
    exists (n + 1)%nat, s'. split; [lia|]. split; [done|]. rewrite runs_add.
    change (runs 1 (MkVP s (v :: rest))) with (snd (Run (MkVP s (v :: rest)))). by rewrite (Run_wait s v rest Hc).
Qed.

Lemma all_injected q : forall s, P s ->
  exists n s', (n <= length q * (N + 1))%nat /\ runs n (MkVP s q) = MkVP s' [].
Proof.
  induction q as [|v q IH]; intros s HP; [by exists 0%nat, s|].
  destruct (P_opens s HP) as (k & Hk & Hc). destruct (oldest_injected k s v q HP Hc) as (n & s1 & Hn & HP1 & Hr1).
  destruct (IH s1 HP1) as (m & s2 & Hm & Hr2).
  exists (m + n)%nat, s2. split; [cbn [length]; lia|]. by rewrite runs_add, Hr1.
Qed.
End Queue.

(** ** What is passed to the platform

    The platform with a log of the calls of [InjectInterrupt] that are made on it, each with the vector and
    the status that it returns.  Nothing else writes the log, and no operation reads it. *)
Section Log.
Context {S : Type} `{VPInterrupts S}.
Definition log : Type := list (Z * VPOperationStatus).

#[export] Instance logged : VPInterrupts (S * log) := {
  RunImpl x := let '(status, s) := RunImpl (fst x) in (status, (s, snd x));
  StepImpl x := let '(status, s) := StepImpl (fst x) in (status, (s, snd x));
  PrepareInterrupt vector x := let '(ok, s) := PrepareInterrupt vector (fst x) in (ok, (s, snd x));
  InjectInterrupt vector x :=
    let '(status, s) := InjectInterrupt vector (fst x) in (status, (s, snd x ++ [(vector, status)]));
  CanInjectInterrupt x := CanInjectInterrupt (fst x);
  RequestInterruptWindow x := (RequestInterruptWindow (fst x), snd x)
}.
Implicit Types (vp : VP (S * log)) (st : mstate (S := S * log)).

(** The machine without its log, and the vectors of the calls. *)
Definition unlogged vp : VP S := MkVP (fst (vp_state vp)) (m_pendingInterrupts vp).
Definition unlogged_state st : mstate (S := S) := MkM (unlogged (m_vp st)) (m_pc st) (m_enqueued st).
Definition calls vp : list Z := fst <$> snd (vp_state vp).

Lemma unlogged_enqueue v vp : unlogged (snd (EnqueueInterrupt v vp)) = snd (EnqueueInterrupt v (unlogged vp))
  /\ calls (snd (EnqueueInterrupt v vp)) = calls vp.
Proof. unfold EnqueueInterrupt. cbn. by destruct (PrepareInterrupt _ _). Qed.
Lemma unlogged_run vp : unlogged (snd (run_impl vp)) = snd (run_impl (unlogged vp)) /\ calls (snd (run_impl vp)) = calls vp.
Proof. unfold run_impl. cbn. by destruct (RunImpl _). Qed.
Lemma unlogged_pop vp : unlogged (pop_and_inject vp) = pop_and_inject (unlogged vp)
  /\ calls (pop_and_inject vp) = calls vp ++ take 1 (m_pendingInterrupts vp).
Proof.
  unfold pop_and_inject, unlogged, calls. destruct vp as [[s l] [|v rest]]; cbn; [by rewrite app_nil_r|].
  destruct (InjectInterrupt v s) as [status s']. cbn. by rewrite fmap_app.
Qed.

(** The calls made and the vectors that wait are those enqueued. *)
Definition passed_on st : Prop := calls (m_vp st) ++ m_pendingInterrupts (m_vp st) = m_enqueued st.

Lemma logged_step st st' : mstep st st' -> passed_on st -> passed_on st' /\ mstep (unlogged_state st) (unlogged_state st').
Proof.
  unfold passed_on. intros Hs Hp. destruct Hs as [vp c enq v| | | | | | | |vp enq Hn|vp enq]; cbn in *;
    try (by split; [|econstructor]).
  - destruct (unlogged_enqueue v vp) as [E1 E2]. rewrite E2, enqueue_queue, app_assoc, Hp. split; [done|].
    unfold unlogged_state. cbn. rewrite E1. apply ms_enqueue.
  - destruct (unlogged_pop vp) as [E1 E2]. rewrite E2, pop_queue. unfold unlogged_state. cbn. rewrite E1. split.
    + rewrite <- Hp. destruct (m_pendingInterrupts vp) as [|x rest]; [done|]. change (take 1 (x :: rest)) with [x]. by rewrite <- app_assoc.
    + by apply ms_pop.
  - destruct (unlogged_run vp) as [E1 E2]. rewrite E2, run_impl_queue. unfold unlogged_state. cbn. rewrite E1.
    split; [done|apply ms_run].
Qed.
Lemma logged_reachable s st : rtc mstep (minit (s, [])) st ->
  passed_on st /\ rtc mstep (minit s) (unlogged_state st).
Proof.
  intros Hr. change (minit s) with (unlogged_state (minit (s, []))). remember (minit (s, [])) as st0 eqn:E.
  assert (Hi : passed_on st0) by by subst. clear E. induction Hr as [|a b c Hab _ IH]; [done|].
  destruct (logged_step a b Hab Hi) as [Hb Hs]. destruct (IH Hb) as [Hc Hr]. split; [done|]. by eapply rtc_l.
Qed.
(** Every step of the machine is one of the machine with its log. *)
Lemma logged_lift (l : mstate (S := S * log)) (st : mstate (S := S)) : mstep (unlogged_state l) st -> exists l', mstep l l' /\ unlogged_state l' = st.
Proof.
  destruct l as [vp c enq]. remember (unlogged_state (MkM vp c enq)) as l0 eqn:E0.
  destruct 1 as [vp0 c0 enq0 v|vp0 enq0 Hn|vp0 enq0 Hn|vp0 enq0 Hn|vp0 enq0 Hn|vp0 enq0|vp0 enq0 Hn|vp0 enq0 Hn
    |vp0 enq0 Hn|vp0 enq0]; unfold unlogged_state in E0; cbn in E0; injection E0; intros; subst; clear E0.
  - eexists. split; [apply (ms_enqueue _ _ _ v)|]. unfold unlogged_state. cbn. by rewrite (proj1 (unlogged_enqueue v vp)).
  - eexists. split; [by apply ms_test1_empty|done].
  - eexists. split; [by apply ms_test1|done].
  - eexists. split; [by apply ms_can|done].
  - eexists. split; [by apply ms_cannot|done].
  - eexists. split; [apply ms_window|done].
  - eexists. split; [by apply ms_test2_empty|done].
  - eexists. split; [by apply ms_test2|done].
  - eexists. split; [by apply ms_pop|]. unfold unlogged_state. cbn. by rewrite (proj1 (unlogged_pop vp)).
  - eexists. split; [apply ms_run|]. unfold unlogged_state. cbn. by rewrite (proj1 (unlogged_run vp)).
Qed.
Lemma logged_lift_reachable s (st : mstate (S := S)) : rtc mstep (minit s) st ->
  exists l, rtc mstep (minit (s, [] : log)) l /\ unlogged_state l = st.
Proof.
  intros Hr. change (minit s) with (unlogged_state (minit (s, [] : log))) in Hr.
  remember (unlogged_state (minit (s, [] : log))) as st0 eqn:E. revert E. generalize (minit (s, [] : log)).
  induction Hr as [x|x y z Hxy _ IH]; intros l ->; [by exists l|].
  destruct (logged_lift l y Hxy) as (l1 & H1 & E1). destruct (IH l1 (eq_sym E1)) as (l2 & H2 & E2).
  exists l2. split; [by eapply rtc_l|done].
Qed.
Lemma logged_wait k : forall s l, fst (Nat.iter k wait (s, l)) = Nat.iter k wait s.
Proof.
  induction k as [|k IH]; intros s l; [done|].
  change (fst (wait (Nat.iter k wait (s, l))) = wait (Nat.iter k wait s)). rewrite <- (IH s l).
  unfold wait. cbn. by destruct (RunImpl _).
Qed.
End Log.

(** ** Theorems *)

(** C6: under every interleaving of enqueuing threads with the running thread,
    the vectors for which [InjectInterrupt] has been called, followed by those still pending, are exactly
    the vectors enqueued, in order: each is passed to the platform once, whatever the platform
    answers (the status is not looked at, so that a vector the platform refuses is not
    passed again).  The calls are those in the log of [logged]; every execution of the
    machine is one with a log.  The pop, which is reached past two unlocked size tests, always finds a
    vector, so the running thread never takes the front of an empty queue. *)
Theorem interrupts_fifo_any_interleaving {S} `{VPInterrupts S} (s : S) st :
  rtc mstep (minit s) st ->
  (exists l, rtc mstep (minit (s, [])) l /\ unlogged_state l = st)
  /\ (forall l, rtc mstep (minit (s, [])) l -> unlogged_state l = st ->
       calls (m_vp l) ++ m_pendingInterrupts (m_vp st) = m_enqueued st
       /\ Forall (fun v => 0 <= v < 256) (calls (m_vp l)))
  /\ (m_pc st = PC_pop -> m_pendingInterrupts (m_vp st) <> []).
Proof.
  intros Hr. destruct (reachable_inv s st Hr) as (Hne & Hf & _). split; [by apply logged_lift_reachable|]. split.
  - intros l Hl <-. destruct (logged_reachable s l Hl) as [Hp _]. split; [exact Hp|].
    cbn in Hf. rewrite <- Hp in Hf. by apply Forall_app in Hf as [? _].
  - intros Hpc. apply Hne. by rewrite Hpc.
Qed.

(** C26: every interrupt is passed to the platform.  If the processor takes an interrupt after at
    most [N] runs with an interrupt window open, then from every state that any
    interleaving can reach outside of a run, at most [N + 1] further runs per
    pending vector empty the queue, and [InjectInterrupt] has been called once for each vector that
    was ever enqueued, in order. *)
Theorem every_interrupt_is_injected {S} `{VPInterrupts S} (P : S -> Prop) N (s : S) (l : mstate (S := S * log)) :
  (forall s, P s -> P (snd (RunImpl s))) -> (forall v s, P s -> P (snd (InjectInterrupt v s))) ->
  (forall s, P s -> P (RequestInterruptWindow s)) ->
  (forall s, P s -> exists k, (k <= N)%nat /\ CanInjectInterrupt (Nat.iter k wait s) = true) ->
  rtc mstep (minit (s, [])) l -> m_pc l = PC_outside -> P (fst (vp_state (m_vp l))) ->
  exists n l', (n <= length (m_pendingInterrupts (m_vp l)) * (N + 1))%nat
    /\ rtc mstep l l' /\ m_vp l' = runs n (m_vp l)
    /\ m_pendingInterrupts (m_vp l') = [] /\ calls (m_vp l') = m_enqueued l.
Proof.
  intros HR HI HW HO Hr Hpc HP. destruct l as [[x q] c enq]; simpl in *. subst c.
  destruct (all_injected (fun x : S * log => P (fst x)) N) with (q := q) (s := x) as (n & s' & Hn & Hruns); [..|done|].
  - intros [s1 l1] HP1. specialize (HR s1 HP1). cbn. by destruct (RunImpl s1).
  - intros v [s1 l1] HP1. specialize (HI v s1 HP1). cbn. by destruct (InjectInterrupt v s1).
  - intros [s1 l1] HP1. by apply HW.
  - intros [s1 l1] HP1. destruct (HO s1 HP1) as (k & Hk & Hc). exists k. split; [done|].
    cbn. by rewrite logged_wait.
  - pose proof (runs_steps n (MkVP x q) enq) as Hs. rewrite Hruns in Hs.
    exists n, (MkM (MkVP s' []) PC_outside enq). split; [done|]. split; [done|]. split; [done|]. split; [done|].
    destruct (logged_reachable s (MkM (MkVP s' []) PC_outside enq)) as [Hp _]; [by etrans|].
    unfold passed_on in Hp. cbn in *. by rewrite app_nil_r in Hp.
Qed.

(** One call of [Run]: with nothing pending it only runs; with a vector
    pending it injects the oldest one, and no other, if the processor can take
    it, removing it from the queue even when the platform fails to inject it;
    otherwise it keeps the queue and asks for an interrupt window. [Step] does
    the same, or nothing at all without guest debugging. *)
Theorem run_handles_one_interrupt {S} `{VPInterrupts S} (vp : VP S) guestDebugging :
  let q := m_pendingInterrupts vp in
  let s := vp_state vp in
  let '(s1, q1) := match q with
                   | [] => (s, [])
                   | v :: rest => if CanInjectInterrupt s then (snd (InjectInterrupt v s), rest)
                                  else (RequestInterruptWindow s, v :: rest)
                   end in
  Run vp = (fst (RunImpl s1), MkVP (snd (RunImpl s1)) q1)
  /\ Step guestDebugging vp
     = if guestDebugging then (fst (StepImpl s1), MkVP (snd (StepImpl s1)) q1) else (VPE_Unsupported, vp).
Proof.
  destruct vp as [s q]. unfold Run, Step. rewrite HandleInterruptQueue_cases.
  unfold pop_and_inject, request_window, run_impl; cbn [m_pendingInterrupts vp_state].
  destruct q as [|v rest]; [|destruct (CanInjectInterrupt s)]; cbn [m_pendingInterrupts vp_state];
    destruct (RunImpl _), (StepImpl _), guestDebugging; done.
Qed.

(** ** A concrete platform that injects when its flag is set *)
Definition flag_platform : VPInterrupts (bool * list Z) := {|
  RunImpl s := (VPE_OK, s);
  StepImpl s := (VPE_OK, s);
  PrepareInterrupt _ s := (true, s);
  InjectInterrupt v s := (VP_OK, (fst s, snd s ++ [v]));
  CanInjectInterrupt s := fst s;
  RequestInterruptWindow s := (true, snd s)
|}.
#[local] Existing Instance flag_platform.

(** Two vectors enqueued around the run thread's tests. *)
Lemma interrupts_fifo_any_interleaving_witness :
  exists st l, rtc mstep (minit (true, [])) st /\ rtc mstep (minit (true, [], [])) l /\ unlogged_state l = st
    /\ calls (m_vp l) = [0x21] /\ m_pendingInterrupts (m_vp st) = [0x22] /\ m_enqueued st = [0x21; 0x22].
Proof.
  assert (Hr : rtc mstep (minit (true, []))
    (MkM (MkVP (true, [0x21]) [0x22]) PC_outside [0x21; 0x22])).
  { eapply rtc_l; [apply (ms_enqueue _ _ _ 0x21)|]. cbn.
    eapply rtc_l; [apply ms_test1; done|]. eapply rtc_l; [apply ms_can; done|].
    eapply rtc_l; [apply (ms_enqueue _ _ _ 0x22)|]. cbn.
    eapply rtc_l; [apply ms_test2; done|]. eapply rtc_l; [by apply ms_pop|]. eapply rtc_l; [apply ms_run|]. cbn. reflexivity. }
  destruct (interrupts_fifo_any_interleaving (true, []) _ Hr) as ((l & Hl & E) & Hall & _).
  exists (MkM (MkVP (true, [0x21]) [0x22]) PC_outside [0x21; 0x22]), l. destruct (Hall l Hl E) as [Hc _].
  split; [exact Hr|]. split; [exact Hl|]. split; [exact E|]. split; [|by split].
  cbn in Hc. by apply (app_inv_tail [0x22] (calls (m_vp l)) [0x21]).
Defined.

(** A processor that is not ready, with two vectors: each needs a window first. *)
Lemma every_interrupt_is_injected_witness :
  exists n (l' : mstate (S := (bool * list Z) * log)), (n <= 4)%nat
    /\ m_vp l' = runs n (MkVP (false, [], []) [0x30; 0x31]) /\ calls (m_vp l') = [0x30; 0x31].
Proof.
  assert (Hr : rtc mstep (minit (false, [], [])) (MkM (MkVP (false, [], [] : log) [0x30; 0x31]) PC_outside [0x30; 0x31])).
  { eapply rtc_l; [apply (ms_enqueue _ _ _ 0x30)|]. cbn.
    eapply rtc_l; [apply (ms_enqueue _ _ _ 0x31)|]. cbn. reflexivity. }
  assert (HO : forall s : bool * list Z, True ->
                 exists k, (k <= 1)%nat /\ CanInjectInterrupt (Nat.iter k wait s) = true).
  { intros s _. exists 1%nat. split; [lia|reflexivity]. }
  destruct (every_interrupt_is_injected (fun _ => True) 1 (false, []) _
              (fun _ _ => I) (fun _ _ _ => I) (fun _ _ => I) HO Hr eq_refl I)
    as (n & l' & Hn & _ & Hv & _ & Hc).
  exists n, l'. by split_and!.
Defined.
