(* ===== verification/Arch.v ===== *)
(** * The architectural register file

    What the enumerators of [Reg] name, independently of any platform: every
    enumerator is a part (a bit-field) of one full register, and writing it
    either merges into the full register or replaces it.  The register caches of
    the platforms are proved to refine this file.  The byte manipulation of
    util/bytemanip.hpp is here too. *)
From S2P Require Import Prelude Bits Regs Vp.

(** ** util/bytemanip.hpp *)
Definition SetLowByte (lhs rhs : Z) : Z := (lhs &&& 0xFFFFFFFFFFFFFF00) ||| rhs.
Definition SetHighByte (lhs rhs : Z) : Z := (lhs &&& 0xFFFFFFFFFFFF00FF) ||| (rhs <<< 8).
Definition SetLowWord (lhs rhs : Z) : Z := (lhs &&& 0xFFFFFFFFFFFF0000) ||| rhs.

(** ** Registers and their parts

    The full register that [r] is a part of. *)
Definition full (r : Reg.t) : Reg.t :=
  match r with
  | Reg.AL | Reg.AH | Reg.AX | Reg.EAX => Reg.RAX
  | Reg.CL | Reg.CH | Reg.CX | Reg.ECX => Reg.RCX
  | Reg.DL | Reg.DH | Reg.DX | Reg.EDX => Reg.RDX
  | Reg.BL | Reg.BH | Reg.BX | Reg.EBX => Reg.RBX
  | Reg.SPL | Reg.SP | Reg.ESP => Reg.RSP
  | Reg.BPL | Reg.BP | Reg.EBP => Reg.RBP
  | Reg.SIL | Reg.SI | Reg.ESI => Reg.RSI
  | Reg.DIL | Reg.DI | Reg.EDI => Reg.RDI
  | Reg.R8B | Reg.R8W | Reg.R8D => Reg.R8
  | Reg.R9B | Reg.R9W | Reg.R9D => Reg.R9
  | Reg.R10B | Reg.R10W | Reg.R10D => Reg.R10
  | Reg.R11B | Reg.R11W | Reg.R11D => Reg.R11
  | Reg.R12B | Reg.R12W | Reg.R12D => Reg.R12
  | Reg.R13B | Reg.R13W | Reg.R13D => Reg.R13
  | Reg.R14B | Reg.R14W | Reg.R14D => Reg.R14
  | Reg.R15B | Reg.R15W | Reg.R15D => Reg.R15
  | Reg.IP | Reg.EIP => Reg.RIP
  | Reg.FLAGS | Reg.EFLAGS => Reg.RFLAGS
  | Reg.MM0 => Reg.ST0
  | Reg.MM1 => Reg.ST1
  | Reg.MM2 => Reg.ST2
  | Reg.MM3 => Reg.ST3
  | Reg.MM4 => Reg.ST4
  | Reg.MM5 => Reg.ST5
  | Reg.MM6 => Reg.ST6
  | Reg.MM7 => Reg.ST7
  | Reg.XMM0 | Reg.YMM0 => Reg.ZMM0
  | Reg.XMM1 | Reg.YMM1 => Reg.ZMM1
  | Reg.XMM2 | Reg.YMM2 => Reg.ZMM2
  | Reg.XMM3 | Reg.YMM3 => Reg.ZMM3
  | Reg.XMM4 | Reg.YMM4 => Reg.ZMM4
  | Reg.XMM5 | Reg.YMM5 => Reg.ZMM5
  | Reg.XMM6 | Reg.YMM6 => Reg.ZMM6
  | Reg.XMM7 | Reg.YMM7 => Reg.ZMM7
  | Reg.XMM8 | Reg.YMM8 => Reg.ZMM8
  | Reg.XMM9 | Reg.YMM9 => Reg.ZMM9
  | Reg.XMM10 | Reg.YMM10 => Reg.ZMM10
  | Reg.XMM11 | Reg.YMM11 => Reg.ZMM11
  | Reg.XMM12 | Reg.YMM12 => Reg.ZMM12
  | Reg.XMM13 | Reg.YMM13 => Reg.ZMM13
  | Reg.XMM14 | Reg.YMM14 => Reg.ZMM14
  | Reg.XMM15 | Reg.YMM15 => Reg.ZMM15
  | Reg.XMM16 | Reg.YMM16 => Reg.ZMM16
  | Reg.XMM17 | Reg.YMM17 => Reg.ZMM17
  | Reg.XMM18 | Reg.YMM18 => Reg.ZMM18
  | Reg.XMM19 | Reg.YMM19 => Reg.ZMM19
  | Reg.XMM20 | Reg.YMM20 => Reg.ZMM20
  | Reg.XMM21 | Reg.YMM21 => Reg.ZMM21
  | Reg.XMM22 | Reg.YMM22 => Reg.ZMM22
  | Reg.XMM23 | Reg.YMM23 => Reg.ZMM23
  | Reg.XMM24 | Reg.YMM24 => Reg.ZMM24
  | Reg.XMM25 | Reg.YMM25 => Reg.ZMM25
  | Reg.XMM26 | Reg.YMM26 => Reg.ZMM26
  | Reg.XMM27 | Reg.YMM27 => Reg.ZMM27
  | Reg.XMM28 | Reg.YMM28 => Reg.ZMM28
  | Reg.XMM29 | Reg.YMM29 => Reg.ZMM29
  | Reg.XMM30 | Reg.YMM30 => Reg.ZMM30
  | Reg.XMM31 | Reg.YMM31 => Reg.ZMM31
  | r => r
  end.

(** The bits of the full register that [r] denotes. *)
Definition part (r : Reg.t) : field :=
  let i := Reg.idx r in
  if i <=? 9 then Field 0 512
  else if RegBetween r Reg.AL Reg.BH then (if i mod 2 =? 0 then Field 0 8 else Field 8 8)
  else if RegBetween r Reg.SPL Reg.R15B then Field 0 8
  else if RegBetween r Reg.AX Reg.FLAGS then Field 0 16
  else if RegBetween r Reg.EAX Reg.EFLAGS then Field 0 32
  else if RegBetween r Reg.RAX Reg.DR7 then Field 0 64
  else if RegBetween r Reg.ST0 Reg.ST7 then Field 0 80
  else if RegBetween r Reg.MM0 Reg.MM7 then Field 0 64
  else if RegBetween r Reg.XMM0 Reg.XMM31 then Field 0 128
  else if RegBetween r Reg.YMM0 Reg.YMM31 then Field 0 256
  else Field 0 512.

(** Does a write of [r] keep the other bits of the full register? *)
Definition merges (r : Reg.t) : bool :=
  RegBetween r Reg.AL Reg.FLAGS || RegBetween r Reg.MM0 Reg.MM7
  || RegBetween r Reg.XMM0 Reg.YMM31.

(** The contents [X] of the full register after [v] is written to [r], and the
    value of [r] when the contents are [X]. *)
Definition arch_write (r : Reg.t) (v : RegValue) (X : Z) : Z :=
  if merges r then fset (part r) v X else fget (Field 0 (f_width (part r))) v.
Definition arch_read (r : Reg.t) (X : Z) : RegValue := fget (part r) X.

(** The value with the given members, and the one whose members are those of another one. *)
Definition join (members : list (field * Z)) : Z := fold_left (fun v p => fset (fst p) (snd p) v) members 0.
Definition assemble (members : list (field * field)) (x : Z) : Z :=
  join ((fun p => (fst p, fget (snd p) x)) <$> members).
Definition segment_members : list field := [RV.selector; RV.segbase; RV.seglimit; RV.attributes].
Definition table_members : list field := [RV.tbase; RV.tlimit].
(** The members [fs] of a value, and nothing else. *)
Definition only (fs : list field) (v : RegValue) : RegValue := assemble ((fun f => (f, f)) <$> fs) v.

(** A file of full registers. *)
Definition archfile := Reg.t -> Z.
Definition arch_upd (F : archfile) (r : Reg.t) (v : RegValue) : archfile :=
  fun R => if decide (R = full r) then arch_write r v (F R) else F R.

Lemma full_idem r : full (full r) = full r.
Proof. by destruct r. Qed.

Lemma part_wf r : fwf (part r) = true.
Proof. by destruct r. Qed.

Lemma arch_upd_same F r v : arch_upd F r v (full r) = arch_write r v (F (full r)).
Proof. unfold arch_upd. by rewrite decide_True. Qed.

Lemma arch_upd_other F r v R : R <> full r -> arch_upd F r v R = F R.
Proof. intros. unfold arch_upd. by rewrite decide_False. Qed.

(** Reading a register just written gives the value written. *)
Lemma arch_read_write r v X : agree r (arch_read r (arch_write r v X)) v.
Proof.
  unfold agree, arch_read, arch_write. destruct r; cbn -[fget fset];
    repeat constructor; fsimpl; unfold fget; simpl; bitwise.
Qed.

(** Evaluates the test of [part] for the two kinds of 8-bit registers. *)
Ltac parity :=
  repeat match goal with |- context [?a mod 2 =? 0] =>
    let b := eval vm_compute in (a mod 2 =? 0) in change (a mod 2 =? 0) with b end; cbv iota.

(** Equations between members of register values, bit by bit. *)
Ltac fld := cbn [f_off f_width RV.u8 RV.u16 RV.u32 RV.u64 RV.selector RV.segbase RV.seglimit RV.attributes
  RV.tbase RV.tlimit RV.significand RV.exponentSign RV.i64] in *.
Ltac fbits :=
  apply Z.bits_inj'; let i := fresh "i" in let Hi := fresh "Hi" in intros i Hi;
  repeat (first
    [ match goal with
      | |- context [Z.testbit (fset ?f ?v ?x) ?j] => rewrite (fset_testbit f v x j) by (reflexivity || lia)
      | |- context [Z.testbit (fget ?f ?x) ?j] => rewrite (fget_testbit f x j) by (reflexivity || lia)
      end ]; fld; bool_cases; cbn [andb]);
  rewrite ?Z.bits_0; first [reflexivity | f_equal; lia | lia].

(** ** The members of a cache as parts of the file

    What reads of a 64-bit member give. *)
Lemma load_low8 x : u8 x mod 2 ^ 8 = fget RV.u8 (fget (Field 0 8) (u64 x)).
Proof. unfold fget. simpl. bitwise. Qed.
Lemma load_high8 x : u8 (x >>> 8) mod 2 ^ 8 = fget RV.u8 (fget (Field 8 8) (u64 x)).
Proof. unfold fget. simpl. bitwise. Qed.
Lemma load_low16 x : u16 x mod 2 ^ 16 = fget RV.u16 (fget (Field 0 16) (u64 x)).
Proof. unfold fget. simpl. bitwise. Qed.
Lemma load_low32 x : u32 x mod 2 ^ 32 = fget RV.u32 (fget (Field 0 32) (u64 x)).
Proof. unfold fget. simpl. bitwise. Qed.
Lemma load_64 x : x mod 2 ^ 64 = fget RV.u64 (fget (Field 0 64) (u64 x)).
Proof. unfold fget. simpl. bitwise. Qed.

Lemma agree_arch_whole r X : Reg.idx r <= 9 -> agree r (arch_read r X) X.
Proof.
  intros Hp. unfold agree, arch_read. destruct r; try (exfalso; cbn in Hp; lia);
    cbn -[fget fset]; repeat constructor; fsimpl_nested; reflexivity.
Qed.

(** The values that merging and replacing writes store. *)
Lemma store_low8 x v : u64 (SetLowByte x (fget RV.u8 v)) = fset (Field 0 8) v (u64 x).
Proof.
  unfold SetLowByte, fset, fget. change 0xFFFFFFFFFFFFFF00 with (Z.ones 56 <<< 8).
  cbn [f_off f_width RV.u8 RV.u16]. bitwise.
Qed.
Lemma store_high8 x v : u64 (SetHighByte x (fget RV.u8 v)) = fset (Field 8 8) v (u64 x).
Proof.
  unfold SetHighByte, fset, fget.
  change 0xFFFFFFFFFFFF00FF with ((Z.ones 48 <<< 16) ||| Z.ones 8). cbn [f_off f_width RV.u8 RV.u16]. bitwise.
Qed.
Lemma store_low16 x v : u64 (SetLowWord x (fget RV.u16 v)) = fset (Field 0 16) v (u64 x).
Proof.
  unfold SetLowWord, fset, fget. change 0xFFFFFFFFFFFF0000 with (Z.ones 48 <<< 16).
  cbn [f_off f_width RV.u8 RV.u16]. bitwise.
Qed.
Lemma store_16 v : u64 (fget RV.u16 v) = fget (Field 0 64) (fget RV.u16 v).
Proof. unfold fget. simpl. bitwise. Qed.
Lemma store_32 v : u64 (fget RV.u32 v) = fget (Field 0 32) v.
Proof. unfold fget. simpl. bitwise. Qed.
Lemma store_64 v : u64 (fget RV.u64 v) = fget (Field 0 64) v.
Proof. unfold fget. simpl. bitwise. Qed.
Lemma store_efer v : u64 (fget RV.u32 v) = fget (Field 0 64) (fget RV.u32 v).
Proof. unfold fget. simpl. bitwise. Qed.

(** ** Members that hold full registers

    [cell_of] gives the member of a cache that holds a full register.  Different
    full registers are in different members if the list of their members has no
    duplicate, which a computation decides. *)
Definition held {C} (cell_of : Reg.t -> option C) : list Reg.t :=
  List.filter (fun R => bool_decide (full R = R) && match cell_of R with Some _ => true | None => false end)
    Reg.all.

Lemma all_complete R : R ∈ Reg.all.
Proof.
  pose proof (Reg.of_idx_idx R) as H. unfold Reg.of_idx in H.
  destruct (Reg.idx R <? 0); [done|]. by eapply list_elem_of_lookup_2.
Qed.

Lemma held_inj {C} (cell_of : Reg.t -> option C) R R' : NoDup (cell_of <$> held cell_of) ->
  full R = R -> full R' = R' -> cell_of R = cell_of R' -> is_Some (cell_of R) -> R = R'.
Proof.
  intros Hn H1 H2 He [k Hk].
  assert (Hin : forall x, full x = x -> cell_of x = Some k -> x ∈ held cell_of).
  { intros x Hf Hx. apply list_elem_of_In, List.filter_In. split.
    - apply list_elem_of_In, all_complete.
    - by rewrite bool_decide_true, Hx by done. }
  destruct (proj1 (list_elem_of_lookup _ _) (Hin R H1 Hk)) as [i Hi].
  destruct (proj1 (list_elem_of_lookup _ _) (Hin R' H2 (eq_trans (eq_sym He) Hk))) as [j Hj].
  assert (i = j) as ->; [|congruence].
  apply (NoDup_lookup _ i j (Some k) Hn); rewrite list_lookup_fmap; [rewrite Hi|rewrite Hj]; cbn;
    f_equal; congruence.
Qed.
