(* ===== verification/Debug.v ===== *)
(** * Floating point control and hardware breakpoints (vp/fpregs.hpp, vp/hwbp.hpp)

    The data that the platforms exchange with the host program, and the loop that
    both the KVM and the HAXM platform use to build the debug registers. *)
From S2P Require Import Prelude Bits Regs.

(** ** vp/fpregs.hpp, vp/hwbp.hpp *)
Record FPUControl := MkFPUControl {
  cw : Z; sw : Z; tw : Z; op : Z; fpu_cs : Z; rip : Z; fpu_ds : Z; rdp : Z
}.
Inductive HardwareBreakpointTrigger := Trigger_Execution | Trigger_DataWrite | Trigger_Width8
                                     | Trigger_DataReadWrite.
Inductive HardwareBreakpointLength := Length_Byte | Length_Word | Length_Qword | Length_Dword.
Definition trigger_value (t : HardwareBreakpointTrigger) : Z :=
  match t with
  | Trigger_Execution => DR7_COND_EXEC | Trigger_DataWrite => DR7_COND_WRITE
  | Trigger_Width8 => DR7_COND_WIDTH8 | Trigger_DataReadWrite => DR7_COND_READWRITE
  end.
Definition length_value (l : HardwareBreakpointLength) : Z :=
  match l with
  | Length_Byte => DR7_SIZE_BYTE | Length_Word => DR7_SIZE_WORD
  | Length_Qword => DR7_SIZE_QWORD | Length_Dword => DR7_SIZE_DWORD
  end.
(** One of the four elements of [HardwareBreakpoints::bp]. *)
Record HardwareBreakpoint := MkBp {
  bp_address : Z; localEnable : bool; globalEnable : bool;
  bp_trigger : HardwareBreakpointTrigger; bp_length : HardwareBreakpointLength
}.

(** The loop over the breakpoints. *)
Definition dr7_bits (i : Z) (bp : HardwareBreakpoint) (dr7 : Z) : Z :=
  let dr7 := dr7 ||| ((if localEnable bp then 1 else 0) <<< (0 + i * 2)) in
  let dr7 := dr7 ||| ((if globalEnable bp then 1 else 0) <<< (1 + i * 2)) in
  let dr7 := dr7 ||| ((trigger_value (bp_trigger bp) &&& 0x3) <<< (16 + i * 4)) in
  dr7 ||| ((length_value (bp_length bp) &&& 0x3) <<< (18 + i * 4)).
Fixpoint set_breakpoints (i : nat) (bps : list HardwareBreakpoint) (regs : list Z) : list Z :=
  match bps with
  | [] => regs
  | bp :: bps =>
      let regs := <[i := bp_address bp]> regs in
      let regs := <[7%nat := dr7_bits (Z.of_nat i) bp (default 0 (regs !! 7%nat))]> regs in
      set_breakpoints (Datatypes.S i) bps regs
  end.
(** ** The debug registers built *)
Definition fired (bp : HardwareBreakpoint) : bool := localEnable bp || globalEnable bp.

Lemma enable_range (b : bool) : 0 <= (if b then 1 else 0) < 2 ^ 1.
Proof. destruct b; lia. Qed.
Lemma trigger_range t : 0 <= trigger_value t &&& 0x3 < 2 ^ 2.
Proof. destruct t; vm_compute; split; congruence. Qed.
Lemma length_range l : 0 <= length_value l &&& 0x3 < 2 ^ 2.
Proof. destruct l; vm_compute; split; congruence. Qed.

(** The fields of DR7 after the loop of [SetHardwareBreakpoints]. *)
Ltac dr7_field :=
  rewrite !fget_lor by reflexivity;
  repeat match goal with
  | |- context [fget (Field ?n ?w) ((if ?b then 1 else 0) <<< ?m)] =>
      first [ rewrite (fget_shift_same _ n 1) by (lia || apply enable_range)
            | rewrite (fget_shift_disj _ _ m 1) by (reflexivity || lia || apply enable_range) ]
  | |- context [fget (Field ?n ?w) ((trigger_value ?t &&& 3) <<< ?m)] =>
      first [ rewrite (fget_shift_same _ n 2) by (lia || apply trigger_range)
            | rewrite (fget_shift_disj _ _ m 2) by (reflexivity || lia || apply trigger_range) ]
  | |- context [fget (Field ?n ?w) ((length_value ?t &&& 3) <<< ?m)] =>
      first [ rewrite (fget_shift_same _ n 2) by (lia || apply length_range)
            | rewrite (fget_shift_disj _ _ m 2) by (reflexivity || lia || apply length_range) ]
  end; rewrite ?Z.lor_0_r; reflexivity.

Lemma set_breakpoints_spec b0 b1 b2 b3 r0 r1 r2 r3 r4 r5 r6 old :
  exists dr7, set_breakpoints 0 [b0; b1; b2; b3] [r0; r1; r2; r3; r4; r5; r6; old]
    = [bp_address b0; bp_address b1; bp_address b2; bp_address b3; r4; r5; r6; dr7]
  /\ forall i bp, [b0; b1; b2; b3] !! i = Some bp ->
       let n := Z.of_nat i in
       fget (Field (2 * n) 1) dr7 = fget (Field (2 * n) 1) old ||| (if localEnable bp then 1 else 0)
       /\ fget (Field (2 * n + 1) 1) dr7
          = fget (Field (2 * n + 1) 1) old ||| (if globalEnable bp then 1 else 0)
       /\ fget (Field (16 + 4 * n) 2) dr7
          = fget (Field (16 + 4 * n) 2) old ||| (trigger_value (bp_trigger bp) &&& 3)
       /\ fget (Field (18 + 4 * n) 2) dr7
          = fget (Field (18 + 4 * n) 2) old ||| (length_value (bp_length bp) &&& 3).
Proof.
  eexists. split; [reflexivity|]. intros i bp Hi.
  destruct i as [|[|[|[|i]]]]; try discriminate Hi; injection Hi as <-; unfold dr7_bits;
    cbn -[fget Z.lor Z.shiftl Z.land trigger_value length_value];
    change (Z.of_nat 0) with 0; change (Z.of_nat 1) with 1; change (Z.of_nat 2) with 2;
    change (Z.of_nat 3) with 3; cbn [Z.add Z.mul Pos.add Pos.mul Pos.succ];
    split_and!; dr7_field.
Qed.
