(* ===== verification/KvmRegs.v ===== *)
(** * The register cache of the KVM platform (kvm_vp.hpp, kvm_vp.cpp, kvm_helpers.cpp)

    The kernel's register structures as far as the code names their members
    (with the widths of the kernel's C interface), the conversions of
    kvm_helpers.cpp, and the two register switches of kvm_vp.cpp. *)
From stdpp Require Import functions.
From S2P Require Import Prelude Bits Regs Vp Arch.

(** ** Members of the kernel's structures *)
Module G.
Inductive t := rax | rbx | rcx | rdx | rsi | rdi | rsp | rbp | r8 | r9 | r10 | r11 | r12
             | r13 | r14 | r15 | rip | rflags.
#[global] Instance eq_dec : EqDecision t.
Proof. solve_decision. Defined.
End G.
Module SR.
Inductive seg := cs | ds | es | fs | gs | ss | tr | ldt.
Inductive table := gdt | idt.
Inductive ctl := cr0 | cr2 | cr3 | cr4 | efer.
#[global] Instance seg_eq_dec : EqDecision seg.
Proof. solve_decision. Defined.
#[global] Instance table_eq_dec : EqDecision table.
Proof. solve_decision. Defined.
#[global] Instance ctl_eq_dec : EqDecision ctl.
Proof. solve_decision. Defined.
End SR.
Module DB.
Inductive t := db0 | db1 | db2 | db3 | dr6 | dr7.
#[global] Instance eq_dec : EqDecision t.
Proof. solve_decision. Defined.
End DB.

Abbreviation kvm_regs := (G.t -> Z) (only parsing).
(** The members [.._other] stand for those that the code passes on without naming. *)
Record kvm_segment := MkSegment {
  sg_base : Z; sg_limit : Z; sg_selector : Z; sg_type : Z; sg_present : Z; sg_dpl : Z;
  sg_db : Z; sg_s : Z; sg_l : Z; sg_g : Z; sg_avl : Z; sg_other : list Z
}.
Record kvm_dtable := MkDtable { dt_base : Z; dt_limit : Z }.
Record kvm_sregs := MkSregs {
  sr_seg : SR.seg -> kvm_segment; sr_table : SR.table -> kvm_dtable; sr_ctl : SR.ctl -> Z;
  sr_other : list Z
}.
Record kvm_debugregs := MkDebugregs { db_reg : DB.t -> Z; db_other : list Z }.
(** The entries of [fpr] and [xmm] are 16 bytes each. *)
Record kvm_fpu := MkFpu {
  fpr : Z -> Z; xmm : Z -> Z; fcw : Z; fsw : Z; ftwx : Z; last_opcode : Z; last_ip : Z;
  last_dp : Z; mxcsr : Z
}.

(** The register cache of [KvmVirtualProcessor]. *)
Record cache := MkCache {
  m_regsDirty : bool; m_regsChanged : bool; m_sregsChanged : bool;
  m_debugRegsChanged : bool; m_fpuRegsChanged : bool;
  m_regs : kvm_regs; m_sregs : kvm_sregs; m_debugRegs : kvm_debugregs; m_fpuRegs : kvm_fpu
}.

(** ** kvm_helpers.cpp *)
Definition LoadSegment (value : RegValue) (segment : kvm_segment) : RegValue :=
  let value := fset RV.selector (sg_selector segment) value in
  let value := fset RV.segbase (sg_base segment) value in
  let value := fset RV.seglimit (sg_limit segment) value in
  let value := fset RV.attributes 0 value in
  let value := fset RV.attr_type (sg_type segment) value in
  let value := fset RV.attr_present (sg_present segment) value in
  let value := fset RV.attr_privilegeLevel (sg_dpl segment) value in
  let value := fset RV.attr_system (sg_s segment) value in
  let value := fset RV.attr_defaultSize (sg_db segment) value in
  let value := fset RV.attr_longMode (sg_l segment) value in
  let value := fset RV.attr_granularity (sg_g segment) value in
  fset RV.attr_available (sg_avl segment) value.
Definition StoreSegment (value : RegValue) (segment : kvm_segment) : kvm_segment := {|
  sg_selector := fget RV.selector value;
  sg_base := fget RV.segbase value;
  sg_limit := fget RV.seglimit value;
  sg_type := fget RV.attr_type value;
  sg_present := fget RV.attr_present value;
  sg_dpl := fget RV.attr_privilegeLevel value;
  sg_db := fget RV.attr_defaultSize value;
  sg_s := fget RV.attr_system value;
  sg_l := fget RV.attr_longMode value;
  sg_g := fget RV.attr_granularity value;
  sg_avl := fget RV.attr_available value;
  sg_other := sg_other segment
|}.
Definition LoadTable (value : RegValue) (table : kvm_dtable) : RegValue :=
  fset RV.tlimit (dt_limit table) (fset RV.tbase (dt_base table) value).
Definition StoreTable (value : RegValue) : kvm_dtable :=
  MkDtable (fget RV.tbase value) (fget RV.tlimit value).

Definition set_fpr (f : Z -> Z) (fpu : kvm_fpu) : kvm_fpu :=
  MkFpu f (xmm fpu) (fcw fpu) (fsw fpu) (ftwx fpu) (last_opcode fpu) (last_ip fpu) (last_dp fpu)
    (mxcsr fpu).
Definition set_xmm (f : Z -> Z) (fpu : kvm_fpu) : kvm_fpu :=
  MkFpu (fpr fpu) f (fcw fpu) (fsw fpu) (ftwx fpu) (last_opcode fpu) (last_ip fpu) (last_dp fpu)
    (mxcsr fpu).

(** Bytes 0 to 7 and 8 to 9 (or 15) of an entry. *)
Definition LoadSTRegister (value : RegValue) (index : Z) (fpuRegs : kvm_fpu) : RegValue :=
  let value := fset RV.significand (fget (Field 0 64) (fpr fpuRegs index)) value in
  fset RV.exponentSign (fget (Field 64 16) (fpr fpuRegs index)) value.
Definition StoreSTRegister (value : RegValue) (index : Z) (fpuRegs : kvm_fpu) : kvm_fpu :=
  let entry := fset (Field 0 64) (fget RV.significand value) (fpr fpuRegs index) in
  let entry := fset (Field 64 16) (fget RV.exponentSign value) entry in
  set_fpr (<[index := entry]> (fpr fpuRegs)) fpuRegs.
Definition LoadMMRegister (value : RegValue) (index : Z) (fpuRegs : kvm_fpu) : RegValue :=
  fset (RV.i64 0) (fget (Field 0 64) (fpr fpuRegs index)) value.
Definition StoreMMRegister (value : RegValue) (index : Z) (fpuRegs : kvm_fpu) : kvm_fpu :=
  set_fpr (<[index := fset (Field 0 64) (fget (RV.i64 0) value) (fpr fpuRegs index)]> (fpr fpuRegs))
    fpuRegs.
Definition LoadXMMRegister (value : RegValue) (index : Z) (fpuRegs : kvm_fpu) : RegValue :=
  if index <? 16 then
    let value := fset (RV.i64 0) (fget (Field 0 64) (xmm fpuRegs index)) value in
    fset (RV.i64 1) (fget (Field 64 64) (xmm fpuRegs index)) value
  else value.
Definition StoreXMMRegister (value : RegValue) (index : Z) (fpuRegs : kvm_fpu) : kvm_fpu :=
  if index <? 16 then
    let entry := fset (Field 0 64) (fget (RV.i64 0) value) (xmm fpuRegs index) in
    let entry := fset (Field 64 64) (fget (RV.i64 1) value) entry in
    set_xmm (<[index := entry]> (xmm fpuRegs)) fpuRegs
  else fpuRegs.

(** ** The register switches

    An assignment to a member together with its "changed" flag. *)
Definition write_regs (g : G.t) (v : Z) (c : cache) : cache :=
  MkCache (m_regsDirty c) true (m_sregsChanged c) (m_debugRegsChanged c) (m_fpuRegsChanged c)
    (<[g := v]> (m_regs c)) (m_sregs c) (m_debugRegs c) (m_fpuRegs c).
Definition write_sregs (sregs : kvm_sregs) (c : cache) : cache :=
  MkCache (m_regsDirty c) (m_regsChanged c) true (m_debugRegsChanged c) (m_fpuRegsChanged c)
    (m_regs c) sregs (m_debugRegs c) (m_fpuRegs c).
Definition write_segment (s : SR.seg) (value : RegValue) (c : cache) : cache :=
  let r := m_sregs c in
  write_sregs
    (MkSregs (<[s := StoreSegment value (sr_seg r s)]> (sr_seg r)) (sr_table r) (sr_ctl r) (sr_other r)) c.
Definition write_table (t : SR.table) (value : RegValue) (c : cache) : cache :=
  let r := m_sregs c in
  write_sregs (MkSregs (sr_seg r) (<[t := StoreTable value]> (sr_table r)) (sr_ctl r) (sr_other r)) c.
Definition write_ctl (k : SR.ctl) (v : Z) (c : cache) : cache :=
  let r := m_sregs c in
  write_sregs (MkSregs (sr_seg r) (sr_table r) (<[k := v]> (sr_ctl r)) (sr_other r)) c.
Definition write_debugRegs (d : DB.t) (v : Z) (c : cache) : cache :=
  MkCache (m_regsDirty c) (m_regsChanged c) (m_sregsChanged c) true (m_fpuRegsChanged c)
    (m_regs c) (m_sregs c)
    (MkDebugregs (<[d := v]> (db_reg (m_debugRegs c))) (db_other (m_debugRegs c))) (m_fpuRegs c).
Definition write_fpu (fpu : kvm_fpu) (c : cache) : cache :=
  MkCache (m_regsDirty c) (m_regsChanged c) (m_sregsChanged c) (m_debugRegsChanged c) true
    (m_regs c) (m_sregs c) (m_debugRegs c) fpu.

(** [KvmRegRead] and [KvmRegWrite]; [None] is [Unsupported]. *)
Definition KvmRegRead (reg : Reg.t) (value : RegValue) (c : cache) : option RegValue :=
  match reg with
  | Reg.CS => Some (LoadSegment value (sr_seg (m_sregs c) SR.cs))
  | Reg.SS => Some (LoadSegment value (sr_seg (m_sregs c) SR.ss))
  | Reg.DS => Some (LoadSegment value (sr_seg (m_sregs c) SR.ds))
  | Reg.ES => Some (LoadSegment value (sr_seg (m_sregs c) SR.es))
  | Reg.FS => Some (LoadSegment value (sr_seg (m_sregs c) SR.fs))
  | Reg.GS => Some (LoadSegment value (sr_seg (m_sregs c) SR.gs))
  | Reg.LDTR => Some (LoadSegment value (sr_seg (m_sregs c) SR.ldt))
  | Reg.TR => Some (LoadSegment value (sr_seg (m_sregs c) SR.tr))
  | Reg.GDTR => Some (LoadTable value (sr_table (m_sregs c) SR.gdt))
  | Reg.IDTR => Some (LoadTable value (sr_table (m_sregs c) SR.idt))
  | Reg.AH => Some (fset RV.u8 (u8 (m_regs c G.rax >>> 8)) value)
  | Reg.AL => Some (fset RV.u8 (u8 (m_regs c G.rax)) value)
  | Reg.CH => Some (fset RV.u8 (u8 (m_regs c G.rcx >>> 8)) value)
  | Reg.CL => Some (fset RV.u8 (u8 (m_regs c G.rcx)) value)
  | Reg.DH => Some (fset RV.u8 (u8 (m_regs c G.rdx >>> 8)) value)
  | Reg.DL => Some (fset RV.u8 (u8 (m_regs c G.rdx)) value)
  | Reg.BH => Some (fset RV.u8 (u8 (m_regs c G.rbx >>> 8)) value)
  | Reg.BL => Some (fset RV.u8 (u8 (m_regs c G.rbx)) value)
  | Reg.SPL => Some (fset RV.u8 (u8 (m_regs c G.rsp)) value)
  | Reg.BPL => Some (fset RV.u8 (u8 (m_regs c G.rbp)) value)
  | Reg.SIL => Some (fset RV.u8 (u8 (m_regs c G.rsi)) value)
  | Reg.DIL => Some (fset RV.u8 (u8 (m_regs c G.rdi)) value)
  | Reg.R8B => Some (fset RV.u8 (u8 (m_regs c G.r8)) value)
  | Reg.R9B => Some (fset RV.u8 (u8 (m_regs c G.r9)) value)
  | Reg.R10B => Some (fset RV.u8 (u8 (m_regs c G.r10)) value)
  | Reg.R11B => Some (fset RV.u8 (u8 (m_regs c G.r11)) value)
  | Reg.R12B => Some (fset RV.u8 (u8 (m_regs c G.r12)) value)
  | Reg.R13B => Some (fset RV.u8 (u8 (m_regs c G.r13)) value)
  | Reg.R14B => Some (fset RV.u8 (u8 (m_regs c G.r14)) value)
  | Reg.R15B => Some (fset RV.u8 (u8 (m_regs c G.r15)) value)
  | Reg.AX => Some (fset RV.u16 (u16 (m_regs c G.rax)) value)
  | Reg.CX => Some (fset RV.u16 (u16 (m_regs c G.rcx)) value)
  | Reg.DX => Some (fset RV.u16 (u16 (m_regs c G.rdx)) value)
  | Reg.BX => Some (fset RV.u16 (u16 (m_regs c G.rbx)) value)
  | Reg.SI => Some (fset RV.u16 (u16 (m_regs c G.rsi)) value)
  | Reg.DI => Some (fset RV.u16 (u16 (m_regs c G.rdi)) value)
  | Reg.SP => Some (fset RV.u16 (u16 (m_regs c G.rsp)) value)
  | Reg.BP => Some (fset RV.u16 (u16 (m_regs c G.rbp)) value)
  | Reg.R8W => Some (fset RV.u16 (u16 (m_regs c G.r8)) value)
  | Reg.R9W => Some (fset RV.u16 (u16 (m_regs c G.r9)) value)
  | Reg.R10W => Some (fset RV.u16 (u16 (m_regs c G.r10)) value)
  | Reg.R11W => Some (fset RV.u16 (u16 (m_regs c G.r11)) value)
  | Reg.R12W => Some (fset RV.u16 (u16 (m_regs c G.r12)) value)
  | Reg.R13W => Some (fset RV.u16 (u16 (m_regs c G.r13)) value)
  | Reg.R14W => Some (fset RV.u16 (u16 (m_regs c G.r14)) value)
  | Reg.R15W => Some (fset RV.u16 (u16 (m_regs c G.r15)) value)
  | Reg.IP => Some (fset RV.u16 (u16 (m_regs c G.rip)) value)
  | Reg.FLAGS => Some (fset RV.u16 (u16 (m_regs c G.rflags)) value)
  | Reg.EAX => Some (fset RV.u32 (u32 (m_regs c G.rax)) value)
  | Reg.ECX => Some (fset RV.u32 (u32 (m_regs c G.rcx)) value)
  | Reg.EDX => Some (fset RV.u32 (u32 (m_regs c G.rdx)) value)
  | Reg.EBX => Some (fset RV.u32 (u32 (m_regs c G.rbx)) value)
  | Reg.ESI => Some (fset RV.u32 (u32 (m_regs c G.rsi)) value)
  | Reg.EDI => Some (fset RV.u32 (u32 (m_regs c G.rdi)) value)
  | Reg.ESP => Some (fset RV.u32 (u32 (m_regs c G.rsp)) value)
  | Reg.EBP => Some (fset RV.u32 (u32 (m_regs c G.rbp)) value)
  | Reg.R8D => Some (fset RV.u32 (u32 (m_regs c G.r8)) value)
  | Reg.R9D => Some (fset RV.u32 (u32 (m_regs c G.r9)) value)
  | Reg.R10D => Some (fset RV.u32 (u32 (m_regs c G.r10)) value)
  | Reg.R11D => Some (fset RV.u32 (u32 (m_regs c G.r11)) value)
  | Reg.R12D => Some (fset RV.u32 (u32 (m_regs c G.r12)) value)
  | Reg.R13D => Some (fset RV.u32 (u32 (m_regs c G.r13)) value)
  | Reg.R14D => Some (fset RV.u32 (u32 (m_regs c G.r14)) value)
  | Reg.R15D => Some (fset RV.u32 (u32 (m_regs c G.r15)) value)
  | Reg.EIP => Some (fset RV.u32 (u32 (m_regs c G.rip)) value)
  | Reg.EFLAGS => Some (fset RV.u32 (u32 (m_regs c G.rflags)) value)
  | Reg.RAX => Some (fset RV.u64 (m_regs c G.rax) value)
  | Reg.RCX => Some (fset RV.u64 (m_regs c G.rcx) value)
  | Reg.RDX => Some (fset RV.u64 (m_regs c G.rdx) value)
  | Reg.RBX => Some (fset RV.u64 (m_regs c G.rbx) value)
  | Reg.RSI => Some (fset RV.u64 (m_regs c G.rsi) value)
  | Reg.RDI => Some (fset RV.u64 (m_regs c G.rdi) value)
  | Reg.RSP => Some (fset RV.u64 (m_regs c G.rsp) value)
  | Reg.RBP => Some (fset RV.u64 (m_regs c G.rbp) value)
  | Reg.R8 => Some (fset RV.u64 (m_regs c G.r8) value)
  | Reg.R9 => Some (fset RV.u64 (m_regs c G.r9) value)
  | Reg.R10 => Some (fset RV.u64 (m_regs c G.r10) value)
  | Reg.R11 => Some (fset RV.u64 (m_regs c G.r11) value)
  | Reg.R12 => Some (fset RV.u64 (m_regs c G.r12) value)
  | Reg.R13 => Some (fset RV.u64 (m_regs c G.r13) value)
  | Reg.R14 => Some (fset RV.u64 (m_regs c G.r14) value)
  | Reg.R15 => Some (fset RV.u64 (m_regs c G.r15) value)
  | Reg.RIP => Some (fset RV.u64 (m_regs c G.rip) value)
  | Reg.RFLAGS => Some (fset RV.u64 (m_regs c G.rflags) value)
  | Reg.CR0 => Some (fset RV.u64 (sr_ctl (m_sregs c) SR.cr0) value)
  | Reg.CR2 => Some (fset RV.u64 (sr_ctl (m_sregs c) SR.cr2) value)
  | Reg.CR3 => Some (fset RV.u64 (sr_ctl (m_sregs c) SR.cr3) value)
  | Reg.CR4 => Some (fset RV.u64 (sr_ctl (m_sregs c) SR.cr4) value)
  | Reg.DR0 => Some (fset RV.u64 (db_reg (m_debugRegs c) DB.db0) value)
  | Reg.DR1 => Some (fset RV.u64 (db_reg (m_debugRegs c) DB.db1) value)
  | Reg.DR2 => Some (fset RV.u64 (db_reg (m_debugRegs c) DB.db2) value)
  | Reg.DR3 => Some (fset RV.u64 (db_reg (m_debugRegs c) DB.db3) value)
  | Reg.DR6 => Some (fset RV.u64 (db_reg (m_debugRegs c) DB.dr6) value)
  | Reg.DR7 => Some (fset RV.u64 (db_reg (m_debugRegs c) DB.dr7) value)
  | Reg.EFER => Some (fset RV.u64 (sr_ctl (m_sregs c) SR.efer) value)
  | Reg.ST0 | Reg.ST1 | Reg.ST2 | Reg.ST3 | Reg.ST4 | Reg.ST5 | Reg.ST6 | Reg.ST7 => Some (LoadSTRegister value (RegOffset 8 Reg.ST0 reg) (m_fpuRegs c))
  | Reg.MM0 | Reg.MM1 | Reg.MM2 | Reg.MM3 | Reg.MM4 | Reg.MM5 | Reg.MM6 | Reg.MM7 => Some (LoadMMRegister value (RegOffset 8 Reg.MM0 reg) (m_fpuRegs c))
  | Reg.XMM0 | Reg.XMM1 | Reg.XMM2 | Reg.XMM3 | Reg.XMM4 | Reg.XMM5 | Reg.XMM6 | Reg.XMM7
    | Reg.XMM8 | Reg.XMM9 | Reg.XMM10 | Reg.XMM11 | Reg.XMM12 | Reg.XMM13 | Reg.XMM14
    | Reg.XMM15 => Some (LoadXMMRegister value (RegOffset 8 Reg.XMM0 reg) (m_fpuRegs c))
  | _ => None
  end.
Definition KvmRegWrite (reg : Reg.t) (value : RegValue) (c : cache) : option cache :=
  match reg with
  | Reg.CS => Some (write_segment SR.cs value c)
  | Reg.SS => Some (write_segment SR.ss value c)
  | Reg.DS => Some (write_segment SR.ds value c)
  | Reg.ES => Some (write_segment SR.es value c)
  | Reg.FS => Some (write_segment SR.fs value c)
  | Reg.GS => Some (write_segment SR.gs value c)
  | Reg.LDTR => Some (write_segment SR.ldt value c)
  | Reg.TR => Some (write_segment SR.tr value c)
  | Reg.GDTR => Some (write_table SR.gdt value c)
  | Reg.IDTR => Some (write_table SR.idt value c)
  | Reg.AH => Some (write_regs G.rax (SetHighByte (m_regs c G.rax) (fget RV.u8 value)) c)
  | Reg.AL => Some (write_regs G.rax (SetLowByte (m_regs c G.rax) (fget RV.u8 value)) c)
  | Reg.CH => Some (write_regs G.rcx (SetHighByte (m_regs c G.rcx) (fget RV.u8 value)) c)
  | Reg.CL => Some (write_regs G.rcx (SetLowByte (m_regs c G.rcx) (fget RV.u8 value)) c)
  | Reg.DH => Some (write_regs G.rdx (SetHighByte (m_regs c G.rdx) (fget RV.u8 value)) c)
  | Reg.DL => Some (write_regs G.rdx (SetLowByte (m_regs c G.rdx) (fget RV.u8 value)) c)
  | Reg.BH => Some (write_regs G.rbx (SetHighByte (m_regs c G.rbx) (fget RV.u8 value)) c)
  | Reg.BL => Some (write_regs G.rbx (SetLowByte (m_regs c G.rbx) (fget RV.u8 value)) c)
  | Reg.SPL => Some (write_regs G.rsp (SetLowByte (m_regs c G.rsp) (fget RV.u8 value)) c)
  | Reg.BPL => Some (write_regs G.rbp (SetLowByte (m_regs c G.rbp) (fget RV.u8 value)) c)
  | Reg.SIL => Some (write_regs G.rsi (SetLowByte (m_regs c G.rsi) (fget RV.u8 value)) c)
  | Reg.DIL => Some (write_regs G.rdi (SetLowByte (m_regs c G.rdi) (fget RV.u8 value)) c)
  | Reg.R8B => Some (write_regs G.r8 (SetLowByte (m_regs c G.r8) (fget RV.u8 value)) c)
  | Reg.R9B => Some (write_regs G.r9 (SetLowByte (m_regs c G.r9) (fget RV.u8 value)) c)
  | Reg.R10B => Some (write_regs G.r10 (SetLowByte (m_regs c G.r10) (fget RV.u8 value)) c)
  | Reg.R11B => Some (write_regs G.r11 (SetLowByte (m_regs c G.r11) (fget RV.u8 value)) c)
  | Reg.R12B => Some (write_regs G.r12 (SetLowByte (m_regs c G.r12) (fget RV.u8 value)) c)
  | Reg.R13B => Some (write_regs G.r13 (SetLowByte (m_regs c G.r13) (fget RV.u8 value)) c)
  | Reg.R14B => Some (write_regs G.r14 (SetLowByte (m_regs c G.r14) (fget RV.u8 value)) c)
  | Reg.R15B => Some (write_regs G.r15 (SetLowByte (m_regs c G.r15) (fget RV.u8 value)) c)
  | Reg.AX => Some (write_regs G.rax (SetLowWord (m_regs c G.rax) (fget RV.u16 value)) c)
  | Reg.CX => Some (write_regs G.rcx (SetLowWord (m_regs c G.rcx) (fget RV.u16 value)) c)
  | Reg.DX => Some (write_regs G.rdx (SetLowWord (m_regs c G.rdx) (fget RV.u16 value)) c)
  | Reg.BX => Some (write_regs G.rbx (SetLowWord (m_regs c G.rbx) (fget RV.u16 value)) c)
  | Reg.SI => Some (write_regs G.rsi (SetLowWord (m_regs c G.rsi) (fget RV.u16 value)) c)
  | Reg.DI => Some (write_regs G.rdi (SetLowWord (m_regs c G.rdi) (fget RV.u16 value)) c)
  | Reg.SP => Some (write_regs G.rsp (SetLowWord (m_regs c G.rsp) (fget RV.u16 value)) c)
  | Reg.BP => Some (write_regs G.rbp (SetLowWord (m_regs c G.rbp) (fget RV.u16 value)) c)
  | Reg.R8W => Some (write_regs G.r8 (SetLowWord (m_regs c G.r8) (fget RV.u16 value)) c)
  | Reg.R9W => Some (write_regs G.r9 (SetLowWord (m_regs c G.r9) (fget RV.u16 value)) c)
  | Reg.R10W => Some (write_regs G.r10 (SetLowWord (m_regs c G.r10) (fget RV.u16 value)) c)
  | Reg.R11W => Some (write_regs G.r11 (SetLowWord (m_regs c G.r11) (fget RV.u16 value)) c)
  | Reg.R12W => Some (write_regs G.r12 (SetLowWord (m_regs c G.r12) (fget RV.u16 value)) c)
  | Reg.R13W => Some (write_regs G.r13 (SetLowWord (m_regs c G.r13) (fget RV.u16 value)) c)
  | Reg.R14W => Some (write_regs G.r14 (SetLowWord (m_regs c G.r14) (fget RV.u16 value)) c)
  | Reg.R15W => Some (write_regs G.r15 (SetLowWord (m_regs c G.r15) (fget RV.u16 value)) c)
  | Reg.IP => Some (write_regs G.rip (fget RV.u16 value) c)
  | Reg.FLAGS => Some (write_regs G.rflags (fget RV.u16 value) c)
  | Reg.EAX => Some (write_regs G.rax (fget RV.u32 value) c)
  | Reg.ECX => Some (write_regs G.rcx (fget RV.u32 value) c)
  | Reg.EDX => Some (write_regs G.rdx (fget RV.u32 value) c)
  | Reg.EBX => Some (write_regs G.rbx (fget RV.u32 value) c)
  | Reg.ESI => Some (write_regs G.rsi (fget RV.u32 value) c)
  | Reg.EDI => Some (write_regs G.rdi (fget RV.u32 value) c)
  | Reg.ESP => Some (write_regs G.rsp (fget RV.u32 value) c)
  | Reg.EBP => Some (write_regs G.rbp (fget RV.u32 value) c)
  | Reg.R8D => Some (write_regs G.r8 (fget RV.u32 value) c)
  | Reg.R9D => Some (write_regs G.r9 (fget RV.u32 value) c)
  | Reg.R10D => Some (write_regs G.r10 (fget RV.u32 value) c)
  | Reg.R11D => Some (write_regs G.r11 (fget RV.u32 value) c)
  | Reg.R12D => Some (write_regs G.r12 (fget RV.u32 value) c)
  | Reg.R13D => Some (write_regs G.r13 (fget RV.u32 value) c)
  | Reg.R14D => Some (write_regs G.r14 (fget RV.u32 value) c)
  | Reg.R15D => Some (write_regs G.r15 (fget RV.u32 value) c)
  | Reg.EIP => Some (write_regs G.rip (fget RV.u32 value) c)
  | Reg.EFLAGS => Some (write_regs G.rflags (fget RV.u32 value) c)
  | Reg.EFER => Some (write_ctl SR.efer (fget RV.u32 value) c)
  | Reg.RAX => Some (write_regs G.rax (fget RV.u64 value) c)
  | Reg.RCX => Some (write_regs G.rcx (fget RV.u64 value) c)
  | Reg.RDX => Some (write_regs G.rdx (fget RV.u64 value) c)
  | Reg.RBX => Some (write_regs G.rbx (fget RV.u64 value) c)
  | Reg.RSI => Some (write_regs G.rsi (fget RV.u64 value) c)
  | Reg.RDI => Some (write_regs G.rdi (fget RV.u64 value) c)
  | Reg.RSP => Some (write_regs G.rsp (fget RV.u64 value) c)
  | Reg.RBP => Some (write_regs G.rbp (fget RV.u64 value) c)
  | Reg.R8 => Some (write_regs G.r8 (fget RV.u64 value) c)
  | Reg.R9 => Some (write_regs G.r9 (fget RV.u64 value) c)
  | Reg.R10 => Some (write_regs G.r10 (fget RV.u64 value) c)
  | Reg.R11 => Some (write_regs G.r11 (fget RV.u64 value) c)
  | Reg.R12 => Some (write_regs G.r12 (fget RV.u64 value) c)
  | Reg.R13 => Some (write_regs G.r13 (fget RV.u64 value) c)
  | Reg.R14 => Some (write_regs G.r14 (fget RV.u64 value) c)
  | Reg.R15 => Some (write_regs G.r15 (fget RV.u64 value) c)
  | Reg.RIP => Some (write_regs G.rip (fget RV.u64 value) c)
  | Reg.RFLAGS => Some (write_regs G.rflags (fget RV.u64 value) c)
  | Reg.CR0 => Some (write_ctl SR.cr0 (fget RV.u64 value) c)
  | Reg.CR2 => Some (write_ctl SR.cr2 (fget RV.u64 value) c)
  | Reg.CR3 => Some (write_ctl SR.cr3 (fget RV.u64 value) c)
  | Reg.CR4 => Some (write_ctl SR.cr4 (fget RV.u64 value) c)
  | Reg.DR0 => Some (write_debugRegs DB.db0 (fget RV.u64 value) c)
  | Reg.DR1 => Some (write_debugRegs DB.db1 (fget RV.u64 value) c)
  | Reg.DR2 => Some (write_debugRegs DB.db2 (fget RV.u64 value) c)
  | Reg.DR3 => Some (write_debugRegs DB.db3 (fget RV.u64 value) c)
  | Reg.DR6 => Some (write_debugRegs DB.dr6 (fget RV.u64 value) c)
  | Reg.DR7 => Some (write_debugRegs DB.dr7 (fget RV.u64 value) c)
  | Reg.ST0 | Reg.ST1 | Reg.ST2 | Reg.ST3 | Reg.ST4 | Reg.ST5 | Reg.ST6 | Reg.ST7 => Some (write_fpu (StoreSTRegister value (RegOffset 8 Reg.ST0 reg) (m_fpuRegs c)) c)
  | Reg.MM0 | Reg.MM1 | Reg.MM2 | Reg.MM3 | Reg.MM4 | Reg.MM5 | Reg.MM6 | Reg.MM7 => Some (write_fpu (StoreMMRegister value (RegOffset 8 Reg.MM0 reg) (m_fpuRegs c)) c)
  | Reg.XMM0 | Reg.XMM1 | Reg.XMM2 | Reg.XMM3 | Reg.XMM4 | Reg.XMM5 | Reg.XMM6 | Reg.XMM7
    | Reg.XMM8 | Reg.XMM9 | Reg.XMM10 | Reg.XMM11 | Reg.XMM12 | Reg.XMM13 | Reg.XMM14
    | Reg.XMM15 => Some (write_fpu (StoreXMMRegister value (RegOffset 8 Reg.XMM0 reg) (m_fpuRegs c)) c)
  | _ => None
  end.

(** ** The cache as a file of architectural registers

    The member that holds a full register.  XMM registers are the low parts of
    ZMM registers. *)
Inductive cell :=
| C_gpr (g : G.t) | C_seg (s : SR.seg) | C_table (t : SR.table) | C_ctl (k : SR.ctl)
| C_dbg (d : DB.t) | C_fpr (i : Z) | C_xmm (i : Z).
#[global] Instance cell_eq_dec : EqDecision cell.
Proof. solve_decision. Defined.

Definition cell_of (r : Reg.t) : option cell :=
  match r with
  | Reg.CS => Some (C_seg SR.cs) | Reg.SS => Some (C_seg SR.ss) | Reg.DS => Some (C_seg SR.ds)
  | Reg.ES => Some (C_seg SR.es) | Reg.FS => Some (C_seg SR.fs) | Reg.GS => Some (C_seg SR.gs)
  | Reg.LDTR => Some (C_seg SR.ldt) | Reg.TR => Some (C_seg SR.tr)
  | Reg.GDTR => Some (C_table SR.gdt) | Reg.IDTR => Some (C_table SR.idt)
  | Reg.RAX => Some (C_gpr G.rax) | Reg.RCX => Some (C_gpr G.rcx) | Reg.RDX => Some (C_gpr G.rdx)
  | Reg.RBX => Some (C_gpr G.rbx) | Reg.RSP => Some (C_gpr G.rsp) | Reg.RBP => Some (C_gpr G.rbp)
  | Reg.RSI => Some (C_gpr G.rsi) | Reg.RDI => Some (C_gpr G.rdi) | Reg.R8 => Some (C_gpr G.r8)
  | Reg.R9 => Some (C_gpr G.r9) | Reg.R10 => Some (C_gpr G.r10) | Reg.R11 => Some (C_gpr G.r11)
  | Reg.R12 => Some (C_gpr G.r12) | Reg.R13 => Some (C_gpr G.r13) | Reg.R14 => Some (C_gpr G.r14)
  | Reg.R15 => Some (C_gpr G.r15) | Reg.RIP => Some (C_gpr G.rip)
  | Reg.RFLAGS => Some (C_gpr G.rflags)
  | Reg.CR0 => Some (C_ctl SR.cr0) | Reg.CR2 => Some (C_ctl SR.cr2) | Reg.CR3 => Some (C_ctl SR.cr3)
  | Reg.CR4 => Some (C_ctl SR.cr4) | Reg.EFER => Some (C_ctl SR.efer)
  | Reg.DR0 => Some (C_dbg DB.db0) | Reg.DR1 => Some (C_dbg DB.db1) | Reg.DR2 => Some (C_dbg DB.db2)
  | Reg.DR3 => Some (C_dbg DB.db3) | Reg.DR6 => Some (C_dbg DB.dr6) | Reg.DR7 => Some (C_dbg DB.dr7)
  | r => if RegBetween r Reg.ST0 Reg.ST7 then Some (C_fpr (RegOffset 8 Reg.ST0 r))
         else if RegBetween r Reg.ZMM0 Reg.ZMM15 then Some (C_xmm (RegOffset 8 Reg.ZMM0 r))
         else None
  end.

(** Bits of a segment's attributes, by their places in a descriptor: the type is bits 0 to 3, then S, DPL
    and P; bits 8 to 11 are those of the limit; then AVL, L, D/B and G. *)
Definition attr (o w : Z) : field := Field (f_off RV.attributes + o) w.
(** What a member holds, in the terms of the kernel's structures: the members of a segment and a table,
    bytes 0 to 9 of an x87 entry and an SSE entry. *)
Definition segment_content (d : kvm_segment) : Z :=
  join [(RV.selector, sg_selector d); (RV.segbase, sg_base d); (RV.seglimit, sg_limit d);
        (attr 0 4, sg_type d); (attr 4 1, sg_s d); (attr 5 2, sg_dpl d); (attr 7 1, sg_present d);
        (attr 12 1, sg_avl d); (attr 13 1, sg_l d); (attr 14 1, sg_db d); (attr 15 1, sg_g d)].
Definition cell_get (k : cell) (c : cache) : Z :=
  match k with
  | C_gpr g => u64 (m_regs c g)
  | C_seg s => segment_content (sr_seg (m_sregs c) s)
  | C_table t => join [(RV.tbase, dt_base (sr_table (m_sregs c) t)); (RV.tlimit, dt_limit (sr_table (m_sregs c) t))]
  | C_ctl k => u64 (sr_ctl (m_sregs c) k)
  | C_dbg d => u64 (db_reg (m_debugRegs c) d)
  | C_fpr i => fget (Field 0 80) (fpr (m_fpuRegs c) i)
  | C_xmm i => if i <? 16 then fget (Field 0 128) (xmm (m_fpuRegs c) i) else 0
  end.

(** The contents of the full registers; 0 for those the cache does not hold. *)
Definition kvm_file (c : cache) : archfile := fun R =>
  match cell_of R with Some k => cell_get k c | None => 0 end.

(** The registers that the switches support. *)
Definition kvm_supported (r : Reg.t) : bool :=
  (RegBetween r Reg.CS Reg.DR7 && negb (bool_decide (r = Reg.CR8))
   && negb (bool_decide (r = Reg.XCR0)))
  || RegBetween r Reg.ST0 Reg.XMM15.

(** What a write amounts to: IP and FLAGS are written as RIP and RFLAGS with the
    value zero-extended; the kernel's segment has no room for the reserved
    attribute bits 8 to 11; and EFER is written through the member [u32]. *)
Definition kvm_target (r : Reg.t) : Reg.t :=
  match r with Reg.IP => Reg.RIP | Reg.FLAGS => Reg.RFLAGS | r => r end.
Definition kvm_value (r : Reg.t) (v : RegValue) : RegValue :=
  match r with
  | Reg.IP | Reg.FLAGS => fget RV.u16 v
  | Reg.EFER => fget RV.u32 v
  | Reg.GDTR | Reg.IDTR => only table_members v
  | Reg.CS | Reg.SS | Reg.DS | Reg.ES | Reg.FS | Reg.GS | Reg.LDTR | Reg.TR =>
      only [RV.selector; RV.segbase; RV.seglimit; attr 0 8; attr 12 4] v
  | _ => v
  end.

(** *** The switches' own terms

    The same, written with the helpers that the switches call. *)
Definition cell_load (k : cell) (c : cache) : Z :=
  match k with
  | C_gpr g => u64 (m_regs c g)
  | C_seg s => LoadSegment 0 (sr_seg (m_sregs c) s)
  | C_table t => LoadTable 0 (sr_table (m_sregs c) t)
  | C_ctl k => u64 (sr_ctl (m_sregs c) k)
  | C_dbg d => u64 (db_reg (m_debugRegs c) d)
  | C_fpr i => LoadSTRegister 0 i (m_fpuRegs c)
  | C_xmm i => LoadXMMRegister 0 i (m_fpuRegs c)
  end.
Definition value_stored (r : Reg.t) (v : RegValue) : RegValue :=
  match r with
  | Reg.GDTR | Reg.IDTR => LoadTable 0 (StoreTable v)
  | Reg.CS | Reg.SS | Reg.DS | Reg.ES | Reg.FS | Reg.GS | Reg.LDTR | Reg.TR =>
      LoadSegment 0 (StoreSegment v (MkSegment 0 0 0 0 0 0 0 0 0 0 0 []))
  | _ => kvm_value r v
  end.
Ltac attrs := cbv [attr RV.attr_type RV.attr_present RV.attr_privilegeLevel RV.attr_system RV.attr_defaultSize
  RV.attr_longMode RV.attr_granularity RV.attr_available RV.attributes RV.selector RV.segbase RV.seglimit].
Lemma segment_load d : segment_content d = LoadSegment 0 d.
Proof. unfold segment_content, LoadSegment, join. cbn -[fget fset]. attrs. fbits. Qed.
Lemma cell_load_get k c : cell_get k c = cell_load k c.
Proof.
  destruct k as [g|s|t|k|d|i|i]; cbn [cell_get cell_load]; [reflexivity|apply segment_load|reflexivity..| |].
  - unfold LoadSTRegister. fbits.
  - unfold LoadXMMRegister. destruct (i <? 16); [fbits|done].
Qed.
Lemma value_stored_spec r v : value_stored r v = kvm_value r v.
Proof.
  destruct r; try reflexivity; cbn [value_stored kvm_value].
  all: unfold only, assemble, join, LoadSegment, StoreSegment, LoadTable, StoreTable; cbn -[fget fset].
  all: attrs; fbits.
Qed.

(** ** Reading *)
Lemma load_segment_agree w s : agree Reg.CS (LoadSegment w s) (LoadSegment 0 s).
Proof.
  unfold agree, reg_fields, LoadSegment; cbn -[fget fset].
  repeat constructor; fsimpl_nested; reflexivity.
Qed.

Lemma load_table_agree w t : agree Reg.GDTR (LoadTable w t) (LoadTable 0 t).
Proof. unfold agree, LoadTable. cbn -[fget fset]. repeat constructor; by fsimpl. Qed.

(** A register reads as its part of the file. *)
Lemma kvm_read_file r w c : kvm_supported r = true ->
  exists v, KvmRegRead r w c = Some v /\ agree r v (arch_read r (kvm_file c (full r))).
Proof.
  intros Hs. destruct (Z_le_gt_dec (Reg.idx r) 9) as [Hp|Hp].
  { assert (exists v, KvmRegRead r w c = Some v /\ agree r v (kvm_file c (full r))) as (v & H1 & H2).
    - destruct r; try (exfalso; cbn in Hp; lia); eexists; (split; [reflexivity|]);
      unfold kvm_file; cbn -[fget fset cell_get LoadSegment LoadTable]; rewrite cell_load_get;
      first [apply load_segment_agree | apply load_table_agree].
    - exists v. split; [done|]. etrans; [exact H2|]. symmetry. by apply agree_arch_whole. }
  destruct r; try discriminate Hs; try (exfalso; cbn in Hp; lia); eexists; (split; [reflexivity|]);
    unfold agree, arch_read, kvm_file; cbn -[fget fset cell_get]; rewrite cell_load_get; cbn -[fget fset]; repeat constructor.
  all: unfold LoadSTRegister, LoadMMRegister, LoadXMMRegister; cbn -[fget fset];
    repeat match goal with |- context [?a <? 16] => change (a <? 16) with true end;
    cbv iota; fsimpl.
  all: first [apply load_low8 | apply load_high8 | apply load_low16 | apply load_low32
             | apply load_64
             | fsimpl_nested; rewrite ?fget_mod_id by reflexivity; reflexivity].
Qed.

Lemma kvm_read_unsupported r w c : kvm_supported r = false -> KvmRegRead r w c = None.
Proof. by destruct r. Qed.

(** ** Writing *)
Ltac cell_cbn := cbn [cell_load write_regs write_sregs write_segment write_table write_ctl
  write_debugRegs write_fpu set_fpr set_xmm m_regs m_sregs m_debugRegs m_fpuRegs sr_seg sr_table
  sr_ctl db_reg fpr xmm].
Ltac other := rewrite decide_False by discriminate; cell_cbn; reflexivity.
Lemma cell_load_write_regs g v c k :
  cell_load k (write_regs g v c) = if decide (k = C_gpr g) then u64 v else cell_load k c.
Proof.
  destruct k as [g'| | | | | |]; try other. cell_cbn.
  destruct (decide _) as [[= ->]|Hne].
  - by rewrite fn_lookup_insert.
  - rewrite fn_lookup_insert_ne; [done|]. by intros ->.
Qed.
Lemma cell_load_write_ctl g v c k :
  cell_load k (write_ctl g v c) = if decide (k = C_ctl g) then u64 v else cell_load k c.
Proof.
  destruct k as [| | |g'| | |]; try other. cell_cbn.
  destruct (decide _) as [[= ->]|Hne].
  - by rewrite fn_lookup_insert.
  - rewrite fn_lookup_insert_ne; [done|]. by intros ->.
Qed.
Lemma cell_load_write_debugRegs g v c k :
  cell_load k (write_debugRegs g v c) = if decide (k = C_dbg g) then u64 v else cell_load k c.
Proof.
  destruct k as [| | | |g'| |]; try other. cell_cbn.
  destruct (decide _) as [[= ->]|Hne].
  - by rewrite fn_lookup_insert.
  - rewrite fn_lookup_insert_ne; [done|]. by intros ->.
Qed.
Lemma cell_load_write_segment s v c k :
  cell_load k (write_segment s v c)
  = if decide (k = C_seg s) then LoadSegment 0 (StoreSegment v (sr_seg (m_sregs c) s))
    else cell_load k c.
Proof.
  destruct k as [|s'| | | | |]; try other. cell_cbn.
  destruct (decide _) as [[= ->]|Hne].
  - by rewrite fn_lookup_insert.
  - rewrite fn_lookup_insert_ne; [done|]. by intros ->.
Qed.
Lemma cell_load_write_table t v c k :
  cell_load k (write_table t v c)
  = if decide (k = C_table t) then LoadTable 0 (StoreTable v) else cell_load k c.
Proof.
  destruct k as [| |t'| | | |]; try other. cell_cbn.
  destruct (decide _) as [[= ->]|Hne].
  - by rewrite fn_lookup_insert.
  - rewrite fn_lookup_insert_ne; [done|]. by intros ->.
Qed.
Lemma cell_load_write_fpr i e c k :
  cell_load k (write_fpu (set_fpr (<[i := e]> (fpr (m_fpuRegs c))) (m_fpuRegs c)) c)
  = if decide (k = C_fpr i)
    then fset RV.exponentSign (fget (Field 64 16) e) (fset RV.significand (fget (Field 0 64) e) 0)
    else cell_load k c.
Proof.
  destruct k as [| | | | |j|]; try other. cell_cbn. unfold LoadSTRegister; cell_cbn.
  destruct (decide _) as [[= ->]|Hne].
  - by rewrite fn_lookup_insert.
  - rewrite fn_lookup_insert_ne; [done|]. by intros ->.
Qed.
Lemma cell_load_write_xmm i e c k : i < 16 ->
  cell_load k (write_fpu (set_xmm (<[i := e]> (xmm (m_fpuRegs c))) (m_fpuRegs c)) c)
  = if decide (k = C_xmm i)
    then fset (RV.i64 1) (fget (Field 64 64) e) (fset (RV.i64 0) (fget (Field 0 64) e) 0)
    else cell_load k c.
Proof.
  intros Hi. destruct k as [| | | | | |j]; try other. cell_cbn. unfold LoadXMMRegister; cell_cbn.
  destruct (decide _) as [[= ->]|Hne].
  - rewrite fn_lookup_insert. by rewrite (proj2 (Z.ltb_lt i 16)) by lia.
  - rewrite fn_lookup_insert_ne; [done|]. by intros ->.
Qed.

Lemma store_segment v o : LoadSegment 0 (StoreSegment v o)
  = fget (Field 0 512) (LoadSegment 0 (StoreSegment v (MkSegment 0 0 0 0 0 0 0 0 0 0 0 []))).
Proof.
  unfold LoadSegment, StoreSegment.
  cbn [sg_base sg_limit sg_selector sg_type sg_present sg_dpl sg_db sg_s sg_l sg_g sg_avl].
  rewrite fget_whole; [reflexivity|lia|].
  repeat (apply fset_range; [reflexivity|simpl; lia|]). lia.
Qed.
Lemma store_table v : LoadTable 0 (StoreTable v) = fget (Field 0 512) (LoadTable 0 (StoreTable v)).
Proof. unfold LoadTable, StoreTable; cbn [dt_base dt_limit]. fbits. Qed.
Lemma store_st v e :
  fset RV.exponentSign (fget (Field 64 16) (fset (Field 64 16) (fget RV.exponentSign v)
      (fset (Field 0 64) (fget RV.significand v) e)))
    (fset RV.significand (fget (Field 0 64) (fset (Field 64 16) (fget RV.exponentSign v)
      (fset (Field 0 64) (fget RV.significand v) e))) 0)
  = fget (Field 0 80) v.
Proof. fbits. Qed.
Lemma store_mm v e :
  fset RV.exponentSign (fget (Field 64 16) (fset (Field 0 64) (fget (RV.i64 0) v) e))
    (fset RV.significand (fget (Field 0 64) (fset (Field 0 64) (fget (RV.i64 0) v) e)) 0)
  = fset (Field 0 64) v
      (fset RV.exponentSign (fget (Field 64 16) e) (fset RV.significand (fget (Field 0 64) e) 0)).
Proof. fbits. Qed.
Lemma store_xmm v e :
  fset (RV.i64 1) (fget (Field 64 64) (fset (Field 64 64) (fget (RV.i64 1) v)
      (fset (Field 0 64) (fget (RV.i64 0) v) e)))
    (fset (RV.i64 0) (fget (Field 0 64) (fset (Field 64 64) (fget (RV.i64 1) v)
      (fset (Field 0 64) (fget (RV.i64 0) v) e))) 0)
  = fset (Field 0 128) v
      (fset (RV.i64 1) (fget (Field 64 64) e) (fset (RV.i64 0) (fget (Field 0 64) e) 0)).
Proof. fbits. Qed.

(** Evaluate the indices of x87 and SSE registers. *)
Ltac offsets :=
  repeat match goal with |- context [RegOffset 8 ?a ?b] =>
    let n := eval vm_compute in (RegOffset 8 a b) in change (RegOffset 8 a b) with n end;
  repeat match goal with |- context [?a <? 16] => change (a <? 16) with true end; cbv iota.

(** The effect of a write on every member. *)
Lemma kvm_write_cell r v c : kvm_supported r = true ->
  exists c' k, KvmRegWrite r v c = Some c' /\ cell_of (full r) = Some k
    /\ forall k', cell_get k' c' = if decide (k' = k)
                then arch_write (kvm_target r) (kvm_value r v) (cell_get k c) else cell_get k' c.
Proof.
  intros Hs. destruct r; try discriminate Hs; (eexists _, _; split; [reflexivity|split; [reflexivity|]]);
    intros k'; rewrite !cell_load_get, <- value_stored_spec; cbn [value_stored kvm_value].
  all: unfold StoreSTRegister, StoreMMRegister, StoreXMMRegister; cbn [full]; offsets.
  all: first [ rewrite cell_load_write_regs | rewrite cell_load_write_ctl
             | rewrite cell_load_write_debugRegs | rewrite cell_load_write_segment
             | rewrite cell_load_write_table | rewrite cell_load_write_fpr
             | rewrite cell_load_write_xmm by reflexivity ].
  all: case_decide; [|reflexivity]; unfold arch_write; cbn -[fget fset u64 LoadSegment LoadTable].
  all: lazymatch goal with
    | |- u64 (SetLowByte _ _) = _ => apply store_low8
    | |- u64 (SetHighByte _ _) = _ => apply store_high8
    | |- u64 (SetLowWord _ _) = _ => apply store_low16
    | |- u64 (fget RV.u16 _) = _ => apply store_16
    | |- u64 (fget RV.u32 _) = fget _ (fget _ _) => apply store_efer
    | |- u64 (fget RV.u32 _) = _ => apply store_32
    | |- u64 (fget RV.u64 _) = _ => apply store_64
    | |- LoadSegment _ _ = _ => apply store_segment
    | |- LoadTable _ _ = _ => apply store_table
    | |- fset RV.exponentSign _ _ = fget _ _ => apply store_st
    | |- fset RV.exponentSign _ _ = _ => unfold LoadSTRegister; apply store_mm
    | |- _ => unfold LoadXMMRegister; offsets; apply store_xmm
    end.
Qed.

Lemma kvm_write_unsupported r v c : kvm_supported r = false -> KvmRegWrite r v c = None.
Proof. by destruct r. Qed.

(** Different full registers are held by different members. *)
Lemma cell_of_inj R R' : full R = R -> full R' = R' -> cell_of R = cell_of R' ->
  is_Some (cell_of R) -> R = R'.
Proof. apply held_inj. apply (bool_decide_unpack (NoDup _)). vm_compute. exact I. Qed.

Lemma kvm_write_file r v c : kvm_supported r = true ->
  exists c', KvmRegWrite r v c = Some c'
    /\ forall R, kvm_file c' (full R) = arch_upd (kvm_file c) (kvm_target r) (kvm_value r v) (full R).
Proof.
  intros Hs. destruct (kvm_write_cell r v c Hs) as (c' & k & Hw & Hk & Hc). exists c'.
  split; [done|]. intros R. unfold arch_upd.
  assert (Ht : full (kvm_target r) = full r) by (by destruct r). rewrite Ht.
  destruct (decide (full R = full r)) as [E|Hne].
  - unfold kvm_file. rewrite E, Hk, Hc. by rewrite decide_True.
  - unfold kvm_file. destruct (cell_of (full R)) as [k'|] eqn:Ek; [|done].
    rewrite Hc, decide_False; [done|]. intros ->. apply Hne.
    apply cell_of_inj; try apply full_idem; [congruence|by rewrite Ek].
Qed.

(** A write leaves the dirty flag and flags every structure that it changes. *)
Definition flagged (c c' : cache) : Prop :=
  m_regsDirty c' = m_regsDirty c
  /\ (m_regsChanged c' = m_regsChanged c /\ m_regs c' = m_regs c \/ m_regsChanged c' = true)
  /\ (m_sregsChanged c' = m_sregsChanged c /\ m_sregs c' = m_sregs c \/ m_sregsChanged c' = true)
  /\ (m_debugRegsChanged c' = m_debugRegsChanged c /\ m_debugRegs c' = m_debugRegs c
      \/ m_debugRegsChanged c' = true)
  /\ (m_fpuRegsChanged c' = m_fpuRegsChanged c /\ m_fpuRegs c' = m_fpuRegs c
      \/ m_fpuRegsChanged c' = true).

Lemma kvm_write_flagged r v c c' : KvmRegWrite r v c = Some c' -> flagged c c'.
Proof.
  intros Hw. assert (kvm_supported r = true) as Hs
    by (destruct (kvm_supported r) eqn:E; [done|by rewrite kvm_write_unsupported in Hw]).
  destruct r; try discriminate Hs; injection Hw as <-; unfold flagged;
    cbn [m_regsDirty m_regsChanged m_sregsChanged m_debugRegsChanged m_fpuRegsChanged m_regs m_sregs
         m_debugRegs m_fpuRegs write_regs write_sregs write_segment write_table write_ctl
         write_debugRegs write_fpu];
    (split; [reflexivity|]; split; [|split; [|split]]); (by left) || (by right).
Qed.

(** Reading a register just written. *)
Lemma kvm_readback r v X :
  agree r (arch_read r (arch_write (kvm_target r) (kvm_value r v) X)) (kvm_value r v).
Proof.
  destruct (decide (kvm_target r = r)) as [E|Hne]; [rewrite E; apply arch_read_write|].
  destruct r; try (exfalso; by apply Hne); unfold agree, arch_read, arch_write;
    cbn -[fget fset]; repeat constructor; fsimpl_nested; reflexivity.
Qed.

(** ** Theorems *)

(** C28: the register switches of the KVM platform implement the architectural
    register file.  A supported register reads as its part of the full register
    and a write of it changes that full register as the architecture does (8-bit
    and 16-bit writes and MMX and SSE writes merge, 32-bit writes zero-extend) and
    no other full register, and reads back; but IP and FLAGS are written as RIP
    and RFLAGS, the reserved attribute bits of a segment are dropped and EFER is
    truncated to 32 bits.  Every other register is refused by both switches. *)
Theorem kvm_register_file r c :
  if kvm_supported r then
    (forall w, exists v, KvmRegRead r w c = Some v /\ agree r v (arch_read r (kvm_file c (full r))))
    /\ (forall v, exists c', KvmRegWrite r v c = Some c' /\ flagged c c'
         /\ (forall R, kvm_file c' (full R)
                       = arch_upd (kvm_file c) (kvm_target r) (kvm_value r v) (full R))
         /\ (forall w, exists v', KvmRegRead r w c' = Some v' /\ agree r v' (kvm_value r v)))
  else forall w v, KvmRegRead r w c = None /\ KvmRegWrite r v c = None.
Proof.
  destruct (kvm_supported r) eqn:Hs.
  - split; [intros w; by apply kvm_read_file|]. intros v.
    destruct (kvm_write_file r v c Hs) as (c' & Hw & Hf). exists c'. split; [done|].
    split; [by eapply kvm_write_flagged|]. split; [done|]. intros w.
    destruct (kvm_read_file r w c' Hs) as (v' & Hr & Ha). exists v'. split; [done|].
    etrans; [exact Ha|]. rewrite Hf. assert (full r = full (kvm_target r)) as -> by (by destruct r).
    rewrite arch_upd_same. apply kvm_readback.
  - intros w v. split; [by apply kvm_read_unsupported | by apply kvm_write_unsupported].
Qed.
