(* ===== verification/KvmVp.v ===== *)
(** * The virtual processor of the KVM platform (kvm_vp.hpp, kvm_vp.cpp)

    The operations of [KvmVirtualProcessor] over the register cache of
    KvmRegs.v.  The kernel is the class [KVM]: one operation per ioctl on the
    processor's file descriptor, each returning whether it succeeded and, where
    the ioctl fills a structure, the structure. *)
From stdpp Require Import functions.
From S2P Require Import Prelude Bits MemRegions VM Regs Status Vp Interrupts Arch Debug KvmRegs.

(** ** The page shared with the kernel

    The exit reasons the code names; the members of the exit union at the offsets
    of the kernel's C interface; [run_data] is the mapping that [io.data_offset]
    points into. *)
Inductive kvm_exit :=
| KVM_EXIT_HLT | KVM_EXIT_INTR | KVM_EXIT_IRQ_WINDOW_OPEN | KVM_EXIT_EXCEPTION | KVM_EXIT_SHUTDOWN
| KVM_EXIT_UNKNOWN | KVM_EXIT_IO | KVM_EXIT_MMIO | KVM_EXIT_DEBUG | KVM_EXIT_OTHER (reason : Z).

Module X.
Definition ex_exception := Field 0 32.
Definition io_direction := Field 0 8.
Definition io_size := Field 8 8.
Definition io_port := Field 16 16.
Definition io_count := Field 32 32.
Definition io_data_offset := Field 64 64.
Definition mmio_phys_addr := Field 0 64.
Definition mmio_data := Field 64 64.
Definition mmio_len := Field 128 32.
Definition mmio_is_write := Field 160 8.
Definition debug_pc := Field 64 64.
Definition debug_dr6 := Field 128 64.
End X.

Record kvm_run := MkRun {
  exit_reason : kvm_exit; exit_union : Z; run_data : hmem;
  request_interrupt_window : Z; ready_for_interrupt_injection : Z
}.

(** [debugreg] is an array of eight. *)
Record kvm_guest_debug := MkGuestDebug { dbg_control : Z; debugreg : list Z }.

(** ** The kernel *)
Class KVM (K : Type) := {
  KVM_RUN : kvm_run -> K -> bool * kvm_run * K;
  KVM_GET_REGS : kvm_regs -> K -> bool * kvm_regs * K;
  KVM_SET_REGS : kvm_regs -> K -> bool * K;
  KVM_GET_SREGS : kvm_sregs -> K -> bool * kvm_sregs * K;
  KVM_SET_SREGS : kvm_sregs -> K -> bool * K;
  KVM_GET_DEBUGREGS : kvm_debugregs -> K -> bool * kvm_debugregs * K;
  KVM_SET_DEBUGREGS : kvm_debugregs -> K -> bool * K;
  KVM_GET_FPU : kvm_fpu -> K -> bool * kvm_fpu * K;
  KVM_SET_FPU : kvm_fpu -> K -> bool * K;
  KVM_SET_GUEST_DEBUG : kvm_guest_debug -> K -> bool * K;
  KVM_INTERRUPT : Z -> K -> bool * K;
  (** These two return the number of entries processed, or a negative value;
      the entries are pairs of index and data. *)
  KVM_GET_MSRS : list (Z * Z) -> K -> Z * list (Z * Z) * K;
  KVM_SET_MSRS : list (Z * Z) -> K -> Z * K;
  (** Constants of the kernel's interface. *)
  KVM_EXIT_IO_OUT : Z;
  KVM_GUESTDBG_ENABLE : Z;
  KVM_GUESTDBG_SINGLESTEP : Z;
  KVM_GUESTDBG_USE_SW_BP : Z;
  KVM_GUESTDBG_USE_HW_BP : Z
}.

(** ** The processor object *)
Record kvp (K W : Type) := MkKvp {
  k_cache : cache; m_kvmRun : kvm_run; m_debug : kvm_guest_debug; m_exitInfo : VMExitInfo;
  k_kernel : K; k_world : W
}.
Arguments MkKvp {K W}.
Arguments k_cache {K W}.
Arguments m_kvmRun {K W}.
Arguments m_debug {K W}.
Arguments m_exitInfo {K W}.
Arguments k_kernel {K W}.
Arguments k_world {K W}.

Section Kvm.
Context {K W : Type} `{KVM K}.
(** The machine's I/O handlers; [uninit] is an uninitialised local variable. *)
Context (io : IOHandlers W) (uninit : Z).
Abbreviation S := (kvp K W).

Definition with_cache (c : cache) (k : K) (s : S) : S :=
  MkKvp c (m_kvmRun s) (m_debug s) (m_exitInfo s) k (k_world s).
Definition with_run (r : kvm_run) (w : W) (s : S) : S :=
  MkKvp (k_cache s) r (m_debug s) (m_exitInfo s) (k_kernel s) w.
Definition with_debug (d : kvm_guest_debug) (k : K) (s : S) : S :=
  MkKvp (k_cache s) (m_kvmRun s) d (m_exitInfo s) k (k_world s).
Definition with_exit (x : VMExitInfo) (s : S) : S :=
  MkKvp (k_cache s) (m_kvmRun s) (m_debug s) x (k_kernel s) (k_world s).
Definition set_reason (r : VMExitReason) (s : S) : S :=
  with_exit (MkVMExitInfo r (details (m_exitInfo s))) s.

(** *** Register transfer

    Steps on the cache and the kernel; a failed step returns [false]. *)
Definition transfer : Type := cache * K -> bool * (cache * K).
Definition andthen (f g : transfer) : transfer := fun s =>
  let '(ok, s) := f s in if ok then g s else (false, s).

Definition flush_regs : transfer := fun '(c, k) =>
  if m_regsChanged c then
    let '(ok, k) := KVM_SET_REGS (m_regs c) k in
    (ok, (if ok then MkCache (m_regsDirty c) false (m_sregsChanged c) (m_debugRegsChanged c)
                       (m_fpuRegsChanged c) (m_regs c) (m_sregs c) (m_debugRegs c) (m_fpuRegs c)
          else c, k))
  else (true, (c, k)).
Definition flush_sregs : transfer := fun '(c, k) =>
  if m_sregsChanged c then
    let '(ok, k) := KVM_SET_SREGS (m_sregs c) k in
    (ok, (if ok then MkCache (m_regsDirty c) (m_regsChanged c) false (m_debugRegsChanged c)
                       (m_fpuRegsChanged c) (m_regs c) (m_sregs c) (m_debugRegs c) (m_fpuRegs c)
          else c, k))
  else (true, (c, k)).
Definition flush_debugRegs : transfer := fun '(c, k) =>
  if m_debugRegsChanged c then
    let '(ok, k) := KVM_SET_DEBUGREGS (m_debugRegs c) k in
    (ok, (if ok then MkCache (m_regsDirty c) (m_regsChanged c) (m_sregsChanged c) false
                       (m_fpuRegsChanged c) (m_regs c) (m_sregs c) (m_debugRegs c) (m_fpuRegs c)
          else c, k))
  else (true, (c, k)).
Definition flush_fpu : transfer := fun '(c, k) =>
  if m_fpuRegsChanged c then
    let '(ok, k) := KVM_SET_FPU (m_fpuRegs c) k in
    (ok, (if ok then MkCache (m_regsDirty c) (m_regsChanged c) (m_sregsChanged c)
                       (m_debugRegsChanged c) false (m_regs c) (m_sregs c) (m_debugRegs c) (m_fpuRegs c)
          else c, k))
  else (true, (c, k)).
Definition UpdateRegisters : transfer :=
  andthen flush_regs (andthen flush_sregs (andthen flush_debugRegs flush_fpu)).

(** A failed ioctl may have written the structure. *)
Definition set_files (r : kvm_regs) (sr : kvm_sregs) (d : kvm_debugregs) (f : kvm_fpu)
    (c : cache) : cache :=
  MkCache (m_regsDirty c) (m_regsChanged c) (m_sregsChanged c) (m_debugRegsChanged c)
    (m_fpuRegsChanged c) r sr d f.
Definition fetch_regs : transfer := fun '(c, k) =>
  let '(ok, r, k) := KVM_GET_REGS (m_regs c) k in
  (ok, (set_files r (m_sregs c) (m_debugRegs c) (m_fpuRegs c) c, k)).
Definition fetch_sregs : transfer := fun '(c, k) =>
  let '(ok, r, k) := KVM_GET_SREGS (m_sregs c) k in
  (ok, (set_files (m_regs c) r (m_debugRegs c) (m_fpuRegs c) c, k)).
Definition fetch_debugRegs : transfer := fun '(c, k) =>
  let '(ok, r, k) := KVM_GET_DEBUGREGS (m_debugRegs c) k in
  (ok, (set_files (m_regs c) (m_sregs c) r (m_fpuRegs c) c, k)).
Definition fetch_fpu : transfer := fun '(c, k) =>
  let '(ok, r, k) := KVM_GET_FPU (m_fpuRegs c) k in
  (ok, (set_files (m_regs c) (m_sregs c) (m_debugRegs c) r c, k)).
Definition set_dirty (b : bool) (c : cache) : cache :=
  MkCache b (m_regsChanged c) (m_sregsChanged c) (m_debugRegsChanged c) (m_fpuRegsChanged c)
    (m_regs c) (m_sregs c) (m_debugRegs c) (m_fpuRegs c).
Definition clear_dirty : transfer := fun '(c, k) => (true, (set_dirty false c, k)).
Definition RefreshRegisters : transfer := fun '(c, k) =>
  if m_regsDirty c then
    andthen fetch_regs (andthen fetch_sregs (andthen fetch_debugRegs (andthen fetch_fpu clear_dirty)))
      (c, k)
  else (true, (c, k)).

(** *** Register access *)
Definition REFRESH_REGISTERS : M S unit := fun s =>
  let '(ok, (c, k)) := RefreshRegisters (k_cache s, k_kernel s) in
  (if ok then inr tt else inl VP_Failed, with_cache c k s).
Definition get_reg (reg : Reg.t) (value : RegValue) : M S RegValue := fun s =>
  (match KvmRegRead reg value (k_cache s) with Some v => inr v | None => inl VP_Unsupported end, s).
Definition put_reg (reg : Reg.t) (value : RegValue) : M S unit := fun s =>
  match KvmRegWrite reg value (k_cache s) with
  | Some c => (inr tt, with_cache c (k_kernel s) s)
  | None => (inl VP_Unsupported, s)
  end.
Definition refreshed {A} (f : M S A) : M S A := REFRESH_REGISTERS ;; f.
Definition kvm_RegRead (reg : Reg.t) (value : RegValue) : M S RegValue :=
  refreshed (get_reg reg value).
Definition kvm_RegWrite (reg : Reg.t) (value : RegValue) : M S unit :=
  refreshed (put_reg reg value).
Definition kvm_RegReadN (regs : list Reg.t) (values : list RegValue) (s : S)
    : VPOperationStatus * list RegValue * S :=
  match REFRESH_REGISTERS s with
  | (inl status, s) => (status, values, s)
  | (inr _, s) => RegReadN_loop get_reg regs values s
  end.
Definition kvm_RegWriteN (regs : list Reg.t) (values : list RegValue) (s : S)
    : VPOperationStatus * S :=
  match REFRESH_REGISTERS s with
  | (inl status, s) => (status, s)
  | (inr _, s) => RegWriteN_loop put_reg regs values s
  end.

(** *** Floating point control and MXCSR *)
Definition set_fpu_silently (f : kvm_fpu) (s : S) : S :=
  let c := k_cache s in
  with_cache (set_files (m_regs c) (m_sregs c) (m_debugRegs c) f c) (k_kernel s) s.
Definition GetFPUControl : M S FPUControl :=
  refreshed (fun s =>
    let f := m_fpuRegs (k_cache s) in
    (inr (MkFPUControl (fcw f) (fsw f) (ftwx f) (last_opcode f) 0 (last_ip f) 0 (last_dp f)), s)).
Definition SetFPUControl (value : FPUControl) : M S unit :=
  refreshed (fun s =>
    let f := m_fpuRegs (k_cache s) in
    (inr tt, set_fpu_silently (MkFpu (fpr f) (xmm f) (cw value) (sw value) (u8 (tw value)) (op value)
                                 (rip value) (rdp value) (mxcsr f)) s)).
Definition GetMXCSR : M S Z := refreshed (fun s => (inr (mxcsr (m_fpuRegs (k_cache s))), s)).
Definition SetMXCSR (value : Z) : M S unit :=
  refreshed (fun s =>
    let f := m_fpuRegs (k_cache s) in
    (inr tt, with_cache (write_fpu (MkFpu (fpr f) (xmm f) (fcw f) (fsw f) (ftwx f) (last_opcode f)
                                      (last_ip f) (last_dp f) value) (k_cache s)) (k_kernel s) s)).
Definition GetMXCSRMask (value : Z) : M S Z := fail VP_Unsupported.
Definition SetMXCSRMask (value : Z) : M S unit := fail VP_Unsupported.

(** *** Model specific registers *)
Definition with_kernel (k : K) (s : S) : S := with_cache (k_cache s) k s.
Definition kvm_GetMSR (msr value : Z) : M S Z := fun s =>
  let '(n, entries, k) := KVM_GET_MSRS [(u32 msr, 0)] (k_kernel s) in
  if n <? 0 then (inl VP_Failed, with_kernel k s)
  else (inr (default 0 (snd <$> entries !! 0%nat)), with_kernel k s).
Definition kvm_SetMSR (msr value : Z) : M S unit := fun s =>
  let '(n, k) := KVM_SET_MSRS [(u32 msr, value)] (k_kernel s) in
  (if n <? 0 then inl VP_Failed else inr tt, with_kernel k s).
(** The kernel writes the data of the entries it was given; [values] survives a
    failure. *)
Definition kvm_GetMSRs (msrs values : list Z) (s : S) : VPOperationStatus * list Z * S :=
  let '(n, entries, k) := KVM_GET_MSRS ((fun msr => (u32 msr, 0)) <$> msrs) (k_kernel s) in
  if n <? 0 then (VP_Failed, values, with_kernel k s)
  else (VP_OK, snd <$> entries, with_kernel k s).
Definition kvm_SetMSRs (msrs values : list Z) (s : S) : VPOperationStatus * S :=
  let '(n, k) := KVM_SET_MSRS (zip (u32 <$> msrs) values) (k_kernel s) in
  (if n <? 0 then VP_Failed else VP_OK, with_kernel k s).

(** *** Guest debugging *)
Definition set_control (control : Z) (d : kvm_guest_debug) : kvm_guest_debug :=
  MkGuestDebug control (debugreg d).
Definition SetDebug (s : S) : bool * S :=
  let d := m_debug s in
  let enable := nz (dbg_control d &&& lnot32 KVM_GUESTDBG_ENABLE) in
  let d := set_control (if enable then dbg_control d ||| KVM_GUESTDBG_ENABLE
                        else dbg_control d &&& lnot32 KVM_GUESTDBG_ENABLE) d in
  let '(ok, k) := KVM_SET_GUEST_DEBUG d (k_kernel s) in
  (ok, with_debug d k s).
Definition with_control (f : Z -> Z) (s : S) : S :=
  with_debug (set_control (f (dbg_control (m_debug s))) (m_debug s)) (k_kernel s) s.
Definition SetDebug_status : M S unit := fun s =>
  let '(ok, s) := SetDebug s in (if ok then inr tt else inl VP_Failed, s).

Definition kvm_EnableSoftwareBreakpoints (enable : bool) : M S unit := fun s =>
  SetDebug_status (with_control (fun c => if enable then c ||| KVM_GUESTDBG_USE_SW_BP
                                          else c &&& lnot32 KVM_GUESTDBG_USE_SW_BP) s).
Definition kvm_ClearHardwareBreakpoints : M S unit := fun s =>
  let d := MkGuestDebug (dbg_control (m_debug s) &&& lnot32 KVM_GUESTDBG_USE_HW_BP) (replicate 8 0) in
  SetDebug_status (with_debug d (k_kernel s) s).

Definition kvm_SetHardwareBreakpoints (breakpoints : list HardwareBreakpoint) : M S unit := fun s =>
  if negb (existsb (fun bp => localEnable bp || globalEnable bp) breakpoints) then
    kvm_ClearHardwareBreakpoints s
  else
    let d := MkGuestDebug (dbg_control (m_debug s) ||| KVM_GUESTDBG_USE_HW_BP)
               (set_breakpoints 0 breakpoints (debugreg (m_debug s))) in
    SetDebug_status (with_debug d (k_kernel s) s).

Definition kvm_GetBreakpointAddress : M S Z := fun s =>
  let hardwareBP := fget X.debug_dr6 (exit_union (m_kvmRun s)) &&& 0xF in
  let pc := fget X.debug_pc (exit_union (m_kvmRun s)) in
  let reg := fun i : nat => default 0 (debugreg (m_debug s) !! i) in
  if (hardwareBP =? 0) && (pc =? 0) then (inl VP_BreakpointNeverHit, s)
  else (inr (if nz (hardwareBP &&& (1 <<< 0)) then reg 0%nat
             else if nz (hardwareBP &&& (1 <<< 1)) then reg 1%nat
             else if nz (hardwareBP &&& (1 <<< 2)) then reg 2%nat
             else if nz (hardwareBP &&& (1 <<< 3)) then reg 3%nat
             else pc), s).

(** *** Interrupts *)
Definition with_window (v : Z) (s : S) : S :=
  let r := m_kvmRun s in
  with_run (MkRun (exit_reason r) (exit_union r) (run_data r) v (ready_for_interrupt_injection r))
    (k_world s) s.
Definition kvm_PrepareInterrupt (vector : Z) (s : S) : bool * S := (true, s).
Definition kvm_InjectInterrupt (vector : Z) (s : S) : VPOperationStatus * S :=
  let '(ok, k) := KVM_INTERRUPT (u32 vector) (k_kernel s) in
  let s := with_kernel k s in
  if ok then (VP_OK, with_window 0 s) else (VP_Failed, s).
Definition kvm_CanInjectInterrupt (s : S) : bool := nz (ready_for_interrupt_injection (m_kvmRun s)).
Definition kvm_RequestInterruptWindow (s : S) : S := with_window 1 s.

(** *** Exits *)
Definition HandleException (s : S) : S :=
  with_exit (MkVMExitInfo Exit_Exception
    (Details_exceptionCode (fget X.ex_exception (exit_union (m_kvmRun s))))) s.

Definition run_get (f : field) (s : S) : Z := fget f (exit_union (m_kvmRun s)).
Definition with_data (m : hmem) (w : W) (s : S) : S :=
  let r := m_kvmRun s in
  with_run (MkRun (exit_reason r) (exit_union r) m (request_interrupt_window r)
              (ready_for_interrupt_injection r)) w s.
(** One round of the loop of [HandleIO]; a size other than 1, 2 and 4 leaves the
    local [value], or the buffer, as it is. *)
Definition HandleIO_one (ptr : Z) (s : S) : S :=
  let size := run_get X.io_size s in
  let data := run_data (m_kvmRun s) in
  let sized := (size =? 1) || (size =? 2) || (size =? 4) in
  if run_get X.io_direction s =? KVM_EXIT_IO_OUT then
    let value := if sized then le_combine (host_read data ptr size) else uninit in
    with_data data (IOWrite io (run_get X.io_port s) size value (k_world s)) s
  else
    let '(value, w) := IORead io (run_get X.io_port s) size (k_world s) in
    with_data (if sized then host_write data ptr (le_split (Z.to_nat size) value) else data) w s.
Fixpoint HandleIO_loop (fuel : nat) (i ptr : Z) (s : S) : option S :=
  if i <? run_get X.io_count s then
    match fuel with
    | O => None
    | Datatypes.S fuel =>
        HandleIO_loop fuel (u16 (i + 1)) (u64 (ptr + run_get X.io_size s)) (HandleIO_one ptr s)
    end
  else Some s.
Definition HandleIO (fuel : nat) (s : S) : option S :=
  let s := set_reason Exit_PIO s in
  HandleIO_loop fuel 0 (run_get X.io_data_offset s) s.

Definition with_union (u : Z) (w : W) (s : S) : S :=
  let r := m_kvmRun s in
  with_run (MkRun (exit_reason r) u (run_data r) (request_interrupt_window r)
              (ready_for_interrupt_injection r)) w s.
Definition HandleMMIO (s : S) : S :=
  let s := set_reason Exit_MMIO s in
  let u := exit_union (m_kvmRun s) in
  let addr := run_get X.mmio_phys_addr s in
  let len := run_get X.mmio_len s in
  if nz (run_get X.mmio_is_write s) then
    with_union u (MMIOWrite io addr len (run_get X.mmio_data s) (k_world s)) s
  else
    let '(value, w) := MMIORead io addr len (k_world s) in
    with_union (if (len =? 1) || (len =? 2) || (len =? 4) || (len =? 8)
                then fset (Field 64 (8 * len)) value u else u) w s.

(** [None] would be a loop of [HandleIO] that takes more than [fuel] rounds. *)
Definition HandleExecResult (fuel : nat) (s : S) : option (VPExecutionStatus * S) :=
  let s := with_cache (set_dirty true (k_cache s)) (k_kernel s) s in
  s ← match exit_reason (m_kvmRun s) with
      | KVM_EXIT_HLT => Some (set_reason Exit_HLT s)
      | KVM_EXIT_INTR => Some (set_reason Exit_Normal s)
      | KVM_EXIT_IRQ_WINDOW_OPEN => Some (set_reason Exit_Interrupt s)
      | KVM_EXIT_EXCEPTION => Some (HandleException s)
      | KVM_EXIT_SHUTDOWN => Some (set_reason Exit_Shutdown s)
      | KVM_EXIT_UNKNOWN => Some (set_reason Exit_Error s)
      | KVM_EXIT_IO => HandleIO fuel s
      | KVM_EXIT_MMIO => Some (HandleMMIO s)
      | KVM_EXIT_DEBUG =>
          Some (set_reason (if nz (run_get X.debug_dr6 s &&& 0xf) then Exit_HardwareBreakpoint
                            else Exit_SoftwareBreakpoint) s)
      | KVM_EXIT_OTHER _ => Some (set_reason Exit_Unhandled s)
      end;
  Some (VPE_OK, s).

Definition kvm_RunImpl (fuel : nat) (s : S) : option (VPExecutionStatus * S) :=
  let '(ok, (c, k)) := UpdateRegisters (k_cache s, k_kernel s) in
  let s := with_cache c k s in
  if negb ok then Some (VPE_Failed, s)
  else
    let '(ok, r, k) := KVM_RUN (m_kvmRun s) (k_kernel s) in
    let s := with_kernel k (with_run r (k_world s) s) in
    if negb ok then Some (VPE_Failed, s) else HandleExecResult fuel s.

Definition kvm_StepImpl (fuel : nat) (s : S) : option (VPExecutionStatus * S) :=
  let '(ok, s) := SetDebug (with_control (fun c => c ||| KVM_GUESTDBG_SINGLESTEP) s) in
  if negb ok then Some (VPE_Failed, s)
  else
    '(status, s) ← kvm_RunImpl fuel s;
    let '(ok, s) := SetDebug (with_control (fun c => c &&& lnot32 KVM_GUESTDBG_SINGLESTEP) s) in
    if negb ok then Some (VPE_Failed, s)
    else match status with
         | VPE_OK =>
             '(result, s) ← HandleExecResult fuel s;
             Some (result, match reason (m_exitInfo s) with
                           | Exit_SoftwareBreakpoint => set_reason Exit_Step s
                           | _ => s
                           end)
         | _ => Some (status, s)
         end.
End Kvm.

(** ** Laws of the kernel

    The registers a processor has in the kernel, and what the transfer ioctls do
    with them. *)
Record files := MkFiles {
  f_regs : kvm_regs; f_sregs : kvm_sregs; f_debugRegs : kvm_debugregs; f_fpu : kvm_fpu
}.
Class KVMLaws (K : Type) `{KVM K} := {
  kfiles : K -> files;
  get_regs_law r k : let '(ok, r', k') := KVM_GET_REGS r k in
    kfiles k' = kfiles k /\ (ok = true -> r' = f_regs (kfiles k));
  get_sregs_law r k : let '(ok, r', k') := KVM_GET_SREGS r k in
    kfiles k' = kfiles k /\ (ok = true -> r' = f_sregs (kfiles k));
  get_debugregs_law r k : let '(ok, r', k') := KVM_GET_DEBUGREGS r k in
    kfiles k' = kfiles k /\ (ok = true -> r' = f_debugRegs (kfiles k));
  get_fpu_law r k : let '(ok, r', k') := KVM_GET_FPU r k in
    kfiles k' = kfiles k /\ (ok = true -> r' = f_fpu (kfiles k));
  set_regs_law r k : let '(ok, k') := KVM_SET_REGS r k in
    let f := kfiles k in
    kfiles k' = if ok then MkFiles r (f_sregs f) (f_debugRegs f) (f_fpu f) else f;
  set_sregs_law r k : let '(ok, k') := KVM_SET_SREGS r k in
    let f := kfiles k in
    kfiles k' = if ok then MkFiles (f_regs f) r (f_debugRegs f) (f_fpu f) else f;
  set_debugregs_law r k : let '(ok, k') := KVM_SET_DEBUGREGS r k in
    let f := kfiles k in
    kfiles k' = if ok then MkFiles (f_regs f) (f_sregs f) r (f_fpu f) else f;
  set_fpu_law r k : let '(ok, k') := KVM_SET_FPU r k in
    let f := kfiles k in
    kfiles k' = if ok then MkFiles (f_regs f) (f_sregs f) (f_debugRegs f) r else f
}.

(** ** Coherence of the cache *)
Section Coherence.
Context {K W : Type} `{KVMLaws K}.
Abbreviation S := (kvp K W).
Implicit Types (c : cache) (k : K) (s : S).

Definition cfiles c : files := MkFiles (m_regs c) (m_sregs c) (m_debugRegs c) (m_fpuRegs c).
(** The registers of the processor: those of the kernel while the cache is dirty. *)
Definition effective c k : files := if m_regsDirty c then kfiles k else cfiles c.

(** A dirty cache has nothing to flush, and a structure that is not flagged is the
    kernel's. *)
Definition coherent c k : Prop :=
  if m_regsDirty c then
    m_regsChanged c = false /\ m_sregsChanged c = false /\ m_debugRegsChanged c = false
    /\ m_fpuRegsChanged c = false
  else
    (m_regsChanged c = false -> m_regs c = f_regs (kfiles k))
    /\ (m_sregsChanged c = false -> m_sregs c = f_sregs (kfiles k))
    /\ (m_debugRegsChanged c = false -> m_debugRegs c = f_debugRegs (kfiles k))
    /\ (m_fpuRegsChanged c = false -> m_fpuRegs c = f_fpu (kfiles k)).

(** A transfer that keeps the cache coherent and the registers the same. *)
Definition keeps (t : transfer) : Prop := forall c k, coherent c k ->
  let '(_, (c', k')) := t (c, k) in
  coherent c' k' /\ effective c' k' = effective c k /\ m_regsDirty c' = m_regsDirty c.

Lemma keeps_andthen t u : keeps t -> keeps u -> keeps (andthen t u).
Proof.
  intros Ht Hu c k Hc. unfold andthen. specialize (Ht c k Hc).
  destruct (t (c, k)) as [[] [c1 k1]]; [|done]. destruct Ht as (H1 & H2 & H3).
  specialize (Hu c1 k1 H1). destruct (u (c1, k1)) as [? [c2 k2]].
  destruct Hu as (? & ? & ?). split_and!; [done|congruence..].
Qed.

Ltac flush_case flag law file :=
  intros c k Hc; cbn; destruct (flag c) eqn:Hb; [|done];
  pose proof (law (file c) k) as Hl;
  match type of Hl with context [let '(_, _) := ?e in _] => destruct e as [[] k1] end;
  unfold coherent, effective, cfiles in *; cbn in *;
  destruct (m_regsDirty c) eqn:?; destruct Hc as (? & ? & ? & ?); try congruence;
  rewrite ?Hl; cbn; split_and!; auto; congruence.

Lemma keeps_flush_regs : keeps flush_regs.
Proof. flush_case m_regsChanged set_regs_law m_regs. Qed.
Lemma keeps_flush_sregs : keeps flush_sregs.
Proof. flush_case m_sregsChanged set_sregs_law m_sregs. Qed.
Lemma keeps_flush_debugRegs : keeps flush_debugRegs.
Proof. flush_case m_debugRegsChanged set_debugregs_law m_debugRegs. Qed.
Lemma keeps_flush_fpu : keeps flush_fpu.
Proof. flush_case m_fpuRegsChanged set_fpu_law m_fpuRegs. Qed.

Lemma keeps_UpdateRegisters : keeps UpdateRegisters.
Proof.
  apply keeps_andthen; [apply keeps_flush_regs|]. apply keeps_andthen; [apply keeps_flush_sregs|].
  apply keeps_andthen; [apply keeps_flush_debugRegs|apply keeps_flush_fpu].
Qed.

(** A completed update leaves nothing to flush. *)
Lemma flush_regs_clears c k : let '(ok, (c', k')) := flush_regs (c, k) in ok = true ->
  m_regsChanged c' = false /\ m_sregsChanged c' = m_sregsChanged c
  /\ m_debugRegsChanged c' = m_debugRegsChanged c /\ m_fpuRegsChanged c' = m_fpuRegsChanged c.
Proof. cbn. destruct (m_regsChanged c) eqn:?; [destruct (KVM_SET_REGS _ k) as [[] ?]|]; done. Qed.
Lemma flush_sregs_clears c k : let '(ok, (c', k')) := flush_sregs (c, k) in ok = true ->
  m_regsChanged c' = m_regsChanged c /\ m_sregsChanged c' = false
  /\ m_debugRegsChanged c' = m_debugRegsChanged c /\ m_fpuRegsChanged c' = m_fpuRegsChanged c.
Proof. cbn. destruct (m_sregsChanged c) eqn:?; [destruct (KVM_SET_SREGS _ k) as [[] ?]|]; done. Qed.
Lemma flush_debugRegs_clears c k : let '(ok, (c', k')) := flush_debugRegs (c, k) in ok = true ->
  m_regsChanged c' = m_regsChanged c /\ m_sregsChanged c' = m_sregsChanged c
  /\ m_debugRegsChanged c' = false /\ m_fpuRegsChanged c' = m_fpuRegsChanged c.
Proof. cbn. destruct (m_debugRegsChanged c) eqn:?; [destruct (KVM_SET_DEBUGREGS _ k) as [[] ?]|]; done. Qed.
Lemma flush_fpu_clears c k : let '(ok, (c', k')) := flush_fpu (c, k) in ok = true ->
  m_regsChanged c' = m_regsChanged c /\ m_sregsChanged c' = m_sregsChanged c
  /\ m_debugRegsChanged c' = m_debugRegsChanged c /\ m_fpuRegsChanged c' = false.
Proof. cbn. destruct (m_fpuRegsChanged c) eqn:?; [destruct (KVM_SET_FPU _ k) as [[] ?]|]; done. Qed.

Definition unflagged c : Prop :=
  m_regsChanged c = false /\ m_sregsChanged c = false /\ m_debugRegsChanged c = false
  /\ m_fpuRegsChanged c = false.

Lemma UpdateRegisters_clears c k c' k' :
  UpdateRegisters (c, k) = (true, (c', k')) -> unflagged c'.
Proof.
  unfold UpdateRegisters, andthen, unflagged.
  pose proof (flush_regs_clears c k) as L1. destruct (flush_regs (c, k)) as [[] [c1 k1]]; [|done].
  pose proof (flush_sregs_clears c1 k1) as L2. destruct (flush_sregs (c1, k1)) as [[] [c2 k2]]; [|done].
  pose proof (flush_debugRegs_clears c2 k2) as L3.
  destruct (flush_debugRegs (c2, k2)) as [[] [c3 k3]]; [|done].
  pose proof (flush_fpu_clears c3 k3) as L4. destruct (flush_fpu (c3, k3)) as [ok [c4 k4]].
  intros [= -> -> ->]. destruct L1 as (?&?&?&?), L2 as (?&?&?&?), L3 as (?&?&?&?), L4 as (?&?&?&?);
    [done..|]. split_and!; congruence.
Qed.

Lemma unflagged_effective c k : coherent c k -> unflagged c -> kfiles k = effective c k.
Proof.
  unfold coherent, effective, unflagged, cfiles. intros Hc (H1 & H2 & H3 & H4).
  destruct (m_regsDirty c); [done|]. destruct Hc as (E1 & E2 & E3 & E4).
  rewrite E1, E2, E3, E4 by done. by destruct (kfiles k).
Qed.

(** An unflagged FPU structure stays in the cache. *)
Lemma UpdateRegisters_keeps_fpu c k : m_fpuRegsChanged c = false ->
  let '(_, (_, k')) := UpdateRegisters (c, k) in f_fpu (kfiles k') = f_fpu (kfiles k).
Proof.
  intros Hf. unfold UpdateRegisters, andthen.
  assert (H1 : let '(_, (c1, k1)) := flush_regs (c, k) in
    m_fpuRegsChanged c1 = false /\ f_fpu (kfiles k1) = f_fpu (kfiles k)).
  { cbn. destruct (m_regsChanged c); [|done]. pose proof (set_regs_law (m_regs c) k) as L.
    destruct (KVM_SET_REGS _ _) as [[] k1]; cbn; by rewrite L. }
  destruct (flush_regs (c, k)) as [[] [c1 k1]]; destruct H1 as [F1 E1]; [|done].
  assert (H2 : let '(_, (c2, k2)) := flush_sregs (c1, k1) in
    m_fpuRegsChanged c2 = false /\ f_fpu (kfiles k2) = f_fpu (kfiles k1)).
  { cbn. destruct (m_sregsChanged c1); [|done]. pose proof (set_sregs_law (m_sregs c1) k1) as L.
    destruct (KVM_SET_SREGS _ _) as [[] k2]; cbn; by rewrite L. }
  destruct (flush_sregs (c1, k1)) as [[] [c2 k2]]; destruct H2 as [F2 E2]; [|congruence].
  assert (H3 : let '(_, (c3, k3)) := flush_debugRegs (c2, k2) in
    m_fpuRegsChanged c3 = false /\ f_fpu (kfiles k3) = f_fpu (kfiles k2)).
  { cbn. destruct (m_debugRegsChanged c2); [|done].
    pose proof (set_debugregs_law (m_debugRegs c2) k2) as L.
    destruct (KVM_SET_DEBUGREGS _ _) as [[] k3]; cbn; by rewrite L. }
  destruct (flush_debugRegs (c2, k2)) as [[] [c3 k3]]; destruct H3 as [F3 E3]; [|congruence].
  cbn. rewrite F3. congruence.
Qed.

(** The update hands the kernel exactly the registers of the processor. *)
Lemma UpdateRegisters_spec c k : coherent c k ->
  let '(ok, (c', k')) := UpdateRegisters (c, k) in
  coherent c' k' /\ effective c' k' = effective c k /\ m_regsDirty c' = m_regsDirty c
  /\ (ok = true -> unflagged c' /\ kfiles k' = effective c k).
Proof.
  intros Hc. pose proof (keeps_UpdateRegisters c k Hc) as Hk.
  destruct (UpdateRegisters (c, k)) as [ok [c' k']] eqn:E. destruct Hk as (H1 & H2 & H3).
  split_and!; try done. intros ->. pose proof (UpdateRegisters_clears _ _ _ _ E) as Hu.
  split; [done|]. rewrite <- H2. by apply unflagged_effective.
Qed.

Lemma RefreshRegisters_spec c k : coherent c k ->
  let '(ok, (c', k')) := RefreshRegisters (c, k) in
  coherent c' k' /\ effective c' k' = effective c k /\ m_regsDirty c' = negb ok.
Proof.
  intros Hc. cbn. destruct (m_regsDirty c) eqn:Hd; [|by rewrite Hd].
  unfold coherent in Hc. rewrite Hd in Hc. destruct Hc as (F1 & F2 & F3 & F4).
  unfold andthen, fetch_regs, fetch_sregs, fetch_debugRegs, fetch_fpu, clear_dirty.
  unfold coherent, effective. cbn -[kfiles].
  pose proof (get_regs_law (m_regs c) k) as L1.
  destruct (KVM_GET_REGS _ _) as [[[] r1] k1]; destruct L1 as [K1 G1]; cbn -[kfiles];
    [|by rewrite Hd, F1, F2, F3, F4].
  pose proof (get_sregs_law (m_sregs c) k1) as L2.
  destruct (KVM_GET_SREGS _ _) as [[[] r2] k2]; destruct L2 as [K2 G2]; cbn -[kfiles];
    [|by rewrite Hd, F1, F2, F3, F4, K2].
  pose proof (get_debugregs_law (m_debugRegs c) k2) as L3.
  destruct (KVM_GET_DEBUGREGS _ _) as [[[] r3] k3]; destruct L3 as [K3 G3]; cbn -[kfiles];
    [|by rewrite Hd, F1, F2, F3, F4, K3, K2].
  pose proof (get_fpu_law (m_fpuRegs c) k3) as L4.
  destruct (KVM_GET_FPU _ _) as [[[] r4] k4]; destruct L4 as [K4 G4]; cbn -[kfiles];
    [|by rewrite Hd, F1, F2, F3, F4, K4, K3, K2].
  rewrite Hd. unfold cfiles; cbn.
  rewrite G1, G2, G3, G4, K4, K3, K2, K1 by done. by destruct (kfiles k).
Qed.

Lemma coherent_flagged c c' k : m_regsDirty c = false -> coherent c k -> flagged c c' ->
  coherent c' k.
Proof.
  unfold coherent, flagged. intros Hd Hc (Hd' & H1 & H2 & H3 & H4). rewrite Hd', Hd in *.
  destruct Hc as (E1 & E2 & E3 & E4).
  destruct H1 as [[-> ->]|H1], H2 as [[-> ->]|H2], H3 as [[-> ->]|H3], H4 as [[-> ->]|H4];
    split_and!; congruence || done.
Qed.

(** ** The processor as an architectural register file *)
Definition as_cache (f : files) : cache :=
  MkCache false false false false false (f_regs f) (f_sregs f) (f_debugRegs f) (f_fpu f).
Definition file_of (f : files) : archfile := kvm_file (as_cache f).
Definition s_effective s : files := effective (k_cache s) (k_kernel s).
Definition s_coherent s : Prop := coherent (k_cache s) (k_kernel s).

Lemma file_of_cfiles c R : file_of (cfiles c) R = kvm_file c R.
Proof.
  unfold file_of, kvm_file, as_cache, cfiles. destruct (cell_of R) as [[]|]; cbn [cell_get];
    cbn [f_regs f_sregs f_debugRegs f_fpu]; reflexivity.
Qed.

Lemma refresh_state s : s_coherent s ->
  let '(res, s') := REFRESH_REGISTERS s in
  s_coherent s' /\ s_effective s' = s_effective s
  /\ match res with
     | inl e => e = VP_Failed
     | inr _ => m_regsDirty (k_cache s') = false /\ s_effective s = cfiles (k_cache s')
     end.
Proof.
  intros Hc. unfold REFRESH_REGISTERS, s_coherent, s_effective in *.
  pose proof (RefreshRegisters_spec _ _ Hc) as Hr.
  destruct (RefreshRegisters _) as [ok [c k]]. destruct Hr as (H1 & H2 & H3).
  destruct ok; cbn; split_and!; try done. rewrite <- H2. unfold effective. by rewrite H3.
Qed.

Lemma regread_state r w s : s_coherent s ->
  let '(res, s') := kvm_RegRead r w s in
  s_coherent s' /\ s_effective s' = s_effective s
  /\ match res with
     | inr v => kvm_supported r = true
                /\ agree r v (arch_read r (file_of (s_effective s) (full r)))
     | inl e => e = VP_Failed \/ e = VP_Unsupported /\ kvm_supported r = false
     end.
Proof.
  intros Hc. pose proof (refresh_state s Hc) as Hr. unfold kvm_RegRead, refreshed, mbind, M_bind.
  destruct (REFRESH_REGISTERS s) as [[e|[]] s1]; destruct Hr as (H1 & H2 & H3).
  { split_and!; try done. by left. }
  destruct H3 as [_ He]. unfold get_reg.
  destruct (kvm_supported r) eqn:Hs.
  - destruct (kvm_read_file r w (k_cache s1) Hs) as (v & -> & Ha). split_and!; try done.
    rewrite He, file_of_cfiles. done.
  - rewrite kvm_read_unsupported by done. split_and!; try done. by right.
Qed.

Lemma regwrite_state r v s : s_coherent s ->
  let '(res, s') := kvm_RegWrite r v s in
  s_coherent s'
  /\ match res with
     | inr _ => kvm_supported r = true
                /\ forall R, file_of (s_effective s') (full R)
                             = arch_upd (file_of (s_effective s)) (kvm_target r) (kvm_value r v) (full R)
     | inl e => s_effective s' = s_effective s
                /\ (e = VP_Failed \/ e = VP_Unsupported /\ kvm_supported r = false)
     end.
Proof.
  intros Hc. pose proof (refresh_state s Hc) as Hr. unfold kvm_RegWrite, refreshed, mbind, M_bind.
  destruct (REFRESH_REGISTERS s) as [[e|[]] s1]; destruct Hr as (H1 & H2 & H3).
  { split_and!; try done. by left. }
  destruct H3 as [Hd He]. unfold put_reg.
  destruct (kvm_supported r) eqn:Hs.
  - destruct (kvm_write_file r v (k_cache s1) Hs) as (c' & Hw & Hf). rewrite Hw.
    pose proof (kvm_write_flagged _ _ _ _ Hw) as Hfl.
    split; [by apply (coherent_flagged (k_cache s1))|]. split; [done|]. intros R.
    rewrite He. unfold s_effective, effective. cbn. destruct Hfl as (-> & _). rewrite Hd.
    rewrite file_of_cfiles, Hf. unfold arch_upd. case_decide; by rewrite file_of_cfiles.
  - rewrite kvm_write_unsupported by done. split_and!; try done. by right.
Qed.
End Coherence.

(** ** Exit handling *)
Section Exits.
Context {K W : Type} `{KVM K} (io : IOHandlers W) (uninit : Z).
Abbreviation S := (kvp K W).
Implicit Types s : S.

(** Handling an exit changes the exit information, the shared page's data and the
    world of the callbacks, and marks the cache dirty; nothing else. *)
Definition exit_frame s s' : Prop :=
  k_cache s' = k_cache s /\ k_kernel s' = k_kernel s /\ m_debug s' = m_debug s
  /\ exit_reason (m_kvmRun s') = exit_reason (m_kvmRun s).

Lemma HandleIO_one_frame ptr s :
  exit_frame s (HandleIO_one io uninit ptr s)
  /\ exit_union (m_kvmRun (HandleIO_one io uninit ptr s)) = exit_union (m_kvmRun s)
  /\ m_exitInfo (HandleIO_one io uninit ptr s) = m_exitInfo s.
Proof.
  unfold HandleIO_one, exit_frame. case_if; [done|]. by destruct (IORead _ _ _ _).
Qed.

Lemma HandleIO_loop_frame fuel i ptr s s' : HandleIO_loop io uninit fuel i ptr s = Some s' ->
  exit_frame s s' /\ m_exitInfo s' = m_exitInfo s.
Proof.
  revert i ptr s. induction fuel as [|fuel IH]; intros i ptr s; cbn.
  - destruct (_ <? _); [done|]. by intros [= <-].
  - destruct (_ <? _); [|by intros [= <-]]. intros Hl. apply IH in Hl as [(F1 & F2 & F3 & F4) F5].
    destruct (HandleIO_one_frame ptr s) as ((G1 & G2 & G3 & G4) & _ & G5).
    unfold exit_frame. split_and!; congruence.
Qed.

Lemma HandleMMIO_frame s : exit_frame s (HandleMMIO io s).
Proof.
  unfold HandleMMIO, exit_frame, with_union, with_run.
  destruct (nz _); [|destruct (MMIORead _ _ _ _)];
    cbn [k_cache k_kernel m_debug m_kvmRun exit_reason set_reason with_exit]; done.
Qed.

Lemma with_exit_frame x s : exit_frame s (with_exit x s).
Proof. done. Qed.

Lemma HandleExecResult_frame fuel s st s' : HandleExecResult io uninit fuel s = Some (st, s') ->
  st = VPE_OK /\ k_cache s' = set_dirty true (k_cache s) /\ k_kernel s' = k_kernel s
  /\ m_debug s' = m_debug s /\ exit_reason (m_kvmRun s') = exit_reason (m_kvmRun s).
Proof.
  unfold HandleExecResult. set (s0 := with_cache (set_dirty true (k_cache s)) (k_kernel s) s).
  intros Hr. apply bind_Some in Hr as (s1 & Hs1 & [= <- <-]).
  assert (exit_frame s0 s1) as (F1 & F2 & F3 & F4); [|by rewrite F1, F2, F3, F4].
  clearbody s0. destruct (exit_reason (m_kvmRun s0)).
  7: { unfold HandleIO in Hs1. by apply HandleIO_loop_frame in Hs1 as [F _]. }
  7: { injection Hs1 as <-. apply HandleMMIO_frame. }
  7: destruct (nz _).
  all: injection Hs1 as <-; unfold set_reason, HandleException; apply with_exit_frame.
Qed.
End Exits.

Section Run.
Context {K W : Type} `{KVMLaws K} (io : IOHandlers W) (uninit : Z).
Implicit Types s : kvp K W.

(** What a run does with the registers. *)
Lemma run_state fuel s : s_coherent s ->
  match UpdateRegisters (k_cache s, k_kernel s) with
  | (false, (c, k)) =>
      kvm_RunImpl io uninit fuel s = Some (VPE_Failed, with_cache c k s)
      /\ s_coherent (with_cache c k s) /\ s_effective (with_cache c k s) = s_effective s
  | (true, (c, k)) =>
      kfiles k = s_effective s
      /\ match KVM_RUN (m_kvmRun s) k with
         | (false, r, k') => exists s', kvm_RunImpl io uninit fuel s = Some (VPE_Failed, s')
              /\ k_kernel s' = k' /\ (m_regsDirty (k_cache s) = false -> s_effective s' = s_effective s)
         | (true, r, k') => forall st s', kvm_RunImpl io uninit fuel s = Some (st, s') ->
              st = VPE_OK /\ s_coherent s' /\ s_effective s' = kfiles k' /\ k_kernel s' = k'
         end
  end.
Proof.
  intros Hc. pose proof (UpdateRegisters_spec _ _ Hc) as Hu. unfold kvm_RunImpl.
  destruct (UpdateRegisters (k_cache s, k_kernel s)) as [[] [c k]]; destruct Hu as (H1 & H2 & H3 & H4);
    cbn -[HandleExecResult]; [|done].
  destruct (H4 eq_refl) as [Hf Hk]. split; [done|].
  destruct (KVM_RUN (m_kvmRun s) k) as [[[] r] k']; cbn -[HandleExecResult].
  - intros st s' Hr. apply HandleExecResult_frame in Hr as (-> & Ec & Ek & _). cbn in *.
    split; [done|]. unfold s_coherent, s_effective, coherent, effective. rewrite Ec, Ek. cbn. done.
  - eexists. split; [done|]. split; [done|]. intros Hd. unfold s_effective, effective in *; cbn.
    rewrite H3, Hd in *. done.
Qed.
End Run.

(** ** The interfaces of the base class *)
Section Interfaces.
Context {K W : Type} `{KVM K} (io : IOHandlers W) (uninit : Z).

#[export] Instance kvm_VPRegs : VPRegs (kvp K W) := {
  RegRead := kvm_RegRead; RegWrite := kvm_RegWrite; RegReadN := kvm_RegReadN;
  RegWriteN := kvm_RegWriteN; GetMSR := kvm_GetMSR; SetMSR := kvm_SetMSR
}.

(** The rounds of [HandleIO] are bounded by a 16-bit count (see [kvm_io_exit]); a
    loop that does not end has no state, and leaves it as it was here. *)
Definition io_fuel : nat := Z.to_nat (2 ^ 16).
#[export] Instance kvm_VPInterrupts : VPInterrupts (kvp K W) := {
  RunImpl s := default (VPE_Failed, s) (kvm_RunImpl io uninit io_fuel s);
  StepImpl s := default (VPE_Failed, s) (kvm_StepImpl io uninit io_fuel s);
  PrepareInterrupt := kvm_PrepareInterrupt; InjectInterrupt := kvm_InjectInterrupt;
  CanInjectInterrupt := kvm_CanInjectInterrupt;
  RequestInterruptWindow := kvm_RequestInterruptWindow
}.

Lemma refresh_clean (s : kvp K W) : m_regsDirty (k_cache s) = false -> REFRESH_REGISTERS s = (inr tt, s).
Proof.
  intros Hd. unfold REFRESH_REGISTERS, RefreshRegisters. rewrite Hd. by destruct s.
Qed.

Lemma refresh_then_clean (s s' : kvp K W) : REFRESH_REGISTERS s = (inr tt, s') ->
  m_regsDirty (k_cache s') = false.
Proof.
  unfold REFRESH_REGISTERS, RefreshRegisters. destruct (m_regsDirty (k_cache s)) eqn:Hd.
  - unfold andthen, fetch_regs, fetch_sregs, fetch_debugRegs, fetch_fpu, clear_dirty.
    destruct (KVM_GET_REGS _ _) as [[[] ?] ?]; [|done].
    destruct (KVM_GET_SREGS _ _) as [[[] ?] ?]; [|done].
    destruct (KVM_GET_DEBUGREGS _ _) as [[[] ?] ?]; [|done].
    destruct (KVM_GET_FPU _ _) as [[[] ?] ?]; [|done]. by intros [= <-].
  - by intros [= <-].
Qed.

Lemma kvm_read_agree r w w' c v : KvmRegRead r w c = Some v ->
  exists v', KvmRegRead r w' c = Some v' /\ agree r v' v.
Proof.
  intros Hr. assert (kvm_supported r = true) as Hs
    by (destruct (kvm_supported r) eqn:E; [done|by rewrite kvm_read_unsupported in Hr]).
  destruct (kvm_read_file r w c Hs) as (x & Hx & Ax). destruct (kvm_read_file r w' c Hs) as (x' & Hx' & Ax').
  rewrite Hr in Hx. injection Hx as <-. exists x'. split; [done|]. by rewrite Ax', Ax.
Qed.

Definition kvm_rview (s : kvp K W) (r : Reg.t) : option RegValue :=
  match REFRESH_REGISTERS s with
  | (inr _, s') => KvmRegRead r 0 (k_cache s')
  | (inl _, _) => None
  end.

Lemma kvm_rview_read (s : kvp K W) r w v : kvm_rview s r = Some v ->
  exists v' s', kvm_RegRead r w s = (inr v', s') /\ agree r v' v
    /\ forall r', kvm_rview s' r' = kvm_rview s r'.
Proof.
  unfold kvm_rview. destruct (REFRESH_REGISTERS s) as [[e|[]] s1] eqn:E; [done|]. intros Hv.
  destruct (kvm_read_agree _ _ w _ _ Hv) as (v' & Hr & Ha). exists v', s1.
  unfold kvm_RegRead, refreshed. rewrite (bind_inr _ _ _ _ _ E). unfold get_reg. rewrite Hr.
  split; [done|]. split; [done|]. intros r'. by rewrite refresh_clean by (by eapply refresh_then_clean).
Qed.

Lemma kvm_RegReadN_clean regs values (s : kvp K W) : m_regsDirty (k_cache s) = false ->
  RegReadN_loop get_reg regs values s = RegReadN_loop kvm_RegRead regs values s.
Proof.
  intros Hd. revert values. induction regs as [|r regs IH]; intros values; [done|].
  destruct values as [|v values]; [done|]. cbn.
  unfold kvm_RegRead at 1, refreshed. rewrite (bind_inr _ _ _ _ _ (refresh_clean s Hd)).
  unfold get_reg. destruct (KvmRegRead r v (k_cache s)); [|done]. by rewrite IH.
Qed.

Lemma kvm_readN_loop r regs v values (s : kvp K W) :
  RegReadN (r :: regs) (v :: values) s = RegReadN_loop RegRead (r :: regs) (v :: values) s.
Proof.
  cbn [RegReadN RegRead kvm_VPRegs]. unfold kvm_RegReadN.
  destruct (REFRESH_REGISTERS s) as [[e|[]] s1] eqn:E.
  - cbn. unfold kvm_RegRead at 1, refreshed. by rewrite (bind_inl _ _ _ _ _ E).
  - pose proof (refresh_then_clean _ _ E) as Hd. rewrite (kvm_RegReadN_clean _ _ s1 Hd). cbn.
    unfold kvm_RegRead at 1 3, refreshed.
    rewrite (bind_inr _ _ _ _ _ E), (bind_inr _ _ _ _ _ (refresh_clean s1 Hd)). done.
Qed.

#[export] Instance kvm_VPRegsLaws : VPRegsLaws (kvp K W).
Proof.
  refine {| rview := kvm_rview |}.
  - intros s r w v. apply kvm_rview_read.
  - apply loop_readN; [exact kvm_rview_read|exact kvm_readN_loop].
  - apply loop_readN_fails. exact kvm_readN_loop.
Defined.
End Interfaces.

(** ** The loop of [HandleIO] *)
Section Io.
Context {K W : Type} `{KVM K} (io : IOHandlers W) (uninit : Z).
Implicit Types s : kvp K W.

(** The loop as a fold over the positions of the items. *)
Definition io_rounds (ptrs : list Z) s : kvp K W :=
  fold_left (fun s ptr => HandleIO_one io uninit ptr s) ptrs s.
Definition io_ptrs (n ptr size : Z) : list Z := (fun i => u64 (ptr + i * size)) <$> seqZ 0 n.

Lemma io_ptrs_cons n ptr size : 0 < n -> 0 <= ptr < 2 ^ 64 ->
  io_ptrs n ptr size = ptr :: io_ptrs (n - 1) (u64 (ptr + size)) size.
Proof.
  intros Hn Hp. unfold io_ptrs. rewrite seqZ_cons by lia. cbn [fmap list_fmap]. f_equal.
  - rewrite Z.mul_0_l, Z.add_0_r. by apply u64_small.
  - replace (Z.succ 0) with (1 + 0) by lia. rewrite <- fmap_add_seqZ, <- list_fmap_compose.
    replace (Z.pred n) with (n - 1) by lia. apply list_fmap_ext. intros i x _. unfold compose, u64.
    rewrite Zplus_mod_idemp_l. f_equal. lia.
Qed.

Lemma HandleIO_loop_rounds fuel i ptr s : 0 <= i -> 0 <= ptr < 2 ^ 64 ->
  run_get X.io_count s < 2 ^ 16 -> i <= run_get X.io_count s ->
  run_get X.io_count s - i <= Z.of_nat fuel ->
  HandleIO_loop io uninit fuel i ptr s
  = Some (io_rounds (io_ptrs (run_get X.io_count s - i) ptr (run_get X.io_size s)) s).
Proof.
  revert i ptr s. induction fuel as [|fuel IH]; intros i ptr s Hi Hp Hc Hle Hf; cbn [HandleIO_loop].
  - rewrite (proj2 (Z.ltb_ge _ _)) by lia. by replace (run_get X.io_count s - i) with 0 by lia.
  - destruct (Z.ltb_spec i (run_get X.io_count s)) as [Hlt|Hge].
    + destruct (HandleIO_one_frame io uninit ptr s) as (_ & Hu & _).
      assert (Hg : forall f, run_get f (HandleIO_one io uninit ptr s) = run_get f s)
        by (intros f; unfold run_get; by rewrite Hu).
      rewrite u16_small by lia. rewrite IH by (rewrite ?Hg; auto using u64_range; lia).
      rewrite !Hg, (io_ptrs_cons (_ - i)) by lia. cbn. do 3 f_equal. lia.
    + by replace (run_get X.io_count s - i) with 0 by lia.
Qed.

Lemma HandleIO_loop_diverges fuel i ptr s : 2 ^ 16 <= run_get X.io_count s -> 0 <= i < 2 ^ 16 ->
  HandleIO_loop io uninit fuel i ptr s = None.
Proof.
  revert i ptr s. induction fuel as [|fuel IH]; intros i ptr s Hc Hi; cbn [HandleIO_loop];
    rewrite (proj2 (Z.ltb_lt _ _)) by lia; [done|].
  apply IH; [|apply u16_range]. destruct (HandleIO_one_frame io uninit ptr s) as (_ & Hu & _).
  unfold run_get in *. by rewrite Hu.
Qed.

(** Whether handling the exit would never end: an I/O exit whose count does not fit in the 16-bit
    counter of the loop. *)
Definition io_endless (r : kvm_run) : bool :=
  match exit_reason r with KVM_EXIT_IO => 2 ^ 16 <=? fget X.io_count (exit_union r) | _ => false end.
Lemma HandleExecResult_ends s :
  if io_endless (m_kvmRun s) then forall fuel, HandleExecResult io uninit fuel s = None
  else exists s', forall fuel, run_get X.io_count s <= Z.of_nat fuel ->
         HandleExecResult io uninit fuel s = Some (VPE_OK, s').
Proof.
  unfold io_endless, HandleExecResult. set (s0 := with_cache _ _ s). change (m_kvmRun s0) with (m_kvmRun s).
  destruct (exit_reason (m_kvmRun s)).
  7: {
    destruct (Z.leb_spec (2 ^ 16) (fget X.io_count (exit_union (m_kvmRun s)))) as [Hn|Hn].
    - intros fuel. unfold HandleIO. by rewrite HandleIO_loop_diverges.
    - set (s1 := set_reason Exit_PIO s0). set (ptr := run_get X.io_data_offset s1).
      exists (io_rounds (io_ptrs (run_get X.io_count s - 0) ptr (run_get X.io_size s)) s1). intros fuel Hf.
      unfold HandleIO. fold s1. fold ptr.
      assert (Hr : HandleIO_loop io uninit fuel 0 ptr s1
                   = Some (io_rounds (io_ptrs (run_get X.io_count s - 0) ptr (run_get X.io_size s)) s1)).
      { assert (0 <= run_get X.io_count s) by (apply fget_range; done).
        apply (HandleIO_loop_rounds fuel 0 ptr s1); [lia|apply fget_range; done|exact Hn|assumption|].
        rewrite Z.sub_0_r. exact Hf. }
      by rewrite Hr. }
  all: eexists; intros fuel _; reflexivity.
Qed.

(** What the rounds do: an output passes each item to the callback; an input
    stores the results of the calls one after the other. *)
Definition io_sized s : bool :=
  let size := run_get X.io_size s in (size =? 1) || (size =? 2) || (size =? 4).
Definition io_is_out s : bool := run_get X.io_direction s =? KVM_EXIT_IO_OUT.
Definition io_writes (data : hmem) (port size : Z) (ptrs : list Z) (w : W) : W :=
  fold_left (fun w ptr => IOWrite io port size (le_combine (host_read data ptr size)) w) ptrs w.
Fixpoint io_reads (n : nat) (port size : Z) (w : W) : list Z * W :=
  match n with
  | O => ([], w)
  | Datatypes.S n =>
      let '(v, w) := IORead io port size w in
      let '(vs, w) := io_reads n port size w in (v :: vs, w)
  end.

Lemma io_rounds_out ptrs s : io_is_out s = true -> io_sized s = true ->
  io_rounds ptrs s
  = with_data (run_data (m_kvmRun s))
      (io_writes (run_data (m_kvmRun s)) (run_get X.io_port s) (run_get X.io_size s) ptrs (k_world s)) s.
Proof.
  revert s. induction ptrs as [|ptr ptrs IH]; intros s Ho Hs; [by destruct s as [? [] ? ? ? ?]|].
  cbn [io_rounds io_writes fold_left]. unfold io_rounds in IH.
  assert (HandleIO_one io uninit ptr s
    = with_data (run_data (m_kvmRun s))
        (IOWrite io (run_get X.io_port s) (run_get X.io_size s)
           (le_combine (host_read (run_data (m_kvmRun s)) ptr (run_get X.io_size s))) (k_world s)) s) as ->.
  { unfold HandleIO_one. unfold io_is_out, io_sized in *. by rewrite Ho, Hs. }
  rewrite IH by done. done.
Qed.

Lemma HandleIO_one_in ptr s : io_is_out s = false -> io_sized s = true ->
  HandleIO_one io uninit ptr s
  = let '(v, w) := IORead io (run_get X.io_port s) (run_get X.io_size s) (k_world s) in
    with_data (host_write (run_data (m_kvmRun s)) ptr (le_split (Z.to_nat (run_get X.io_size s)) v)) w s.
Proof. intros Ho Hs. unfold HandleIO_one. unfold io_is_out, io_sized in *. by rewrite Ho, Hs. Qed.

Lemma io_sized_range s : io_sized s = true -> 1 <= run_get X.io_size s <= 4.
Proof.
  unfold io_sized. intros Hs. cbv zeta in Hs. breflect. destruct Hs as [Hs|Hs]; breflect; [|lia].
  destruct Hs as [Hs|Hs]; breflect; lia.
Qed.

Lemma io_rounds_in n ptr s : io_is_out s = false -> io_sized s = true ->
  0 <= ptr < 2 ^ 64 -> ptr + Z.of_nat n * run_get X.io_size s <= 2 ^ 64 ->
  let '(vs, w) := io_reads n (run_get X.io_port s) (run_get X.io_size s) (k_world s) in
  let s' := io_rounds (io_ptrs (Z.of_nat n) ptr (run_get X.io_size s)) s in
  k_world s' = w
  /\ host_read (run_data (m_kvmRun s')) ptr (Z.of_nat n * run_get X.io_size s)
     = concat (le_split (Z.to_nat (run_get X.io_size s)) <$> vs)
  /\ (forall q m, 0 <= q -> q + m <= ptr ->
        host_read (run_data (m_kvmRun s')) q m = host_read (run_data (m_kvmRun s)) q m).
Proof.
  intros Ho Hs. pose proof (io_sized_range s Hs) as Hz.
  revert ptr s Ho Hs Hz. induction n as [|n IH]; intros ptr s Ho Hs Hz Hp Hle; [done|].
  cbn [io_reads]. rewrite io_ptrs_cons by lia.
  replace (Z.of_nat (Datatypes.S n) - 1) with (Z.of_nat n) by lia.
  unfold io_rounds in *. cbn [fold_left]. rewrite (HandleIO_one_in ptr s Ho Hs).
  destruct (IORead io (run_get X.io_port s) (run_get X.io_size s) (k_world s)) as [v w1].
  set (bs := le_split (Z.to_nat (run_get X.io_size s)) v).
  set (s1 := with_data _ w1 s).
  assert (Hlen : Z.of_nat (length bs) = run_get X.io_size s) by (unfold bs; rewrite length_le_split; lia).
  assert (Hs1 : run_data (m_kvmRun s1) = host_write (run_data (m_kvmRun s)) ptr bs) by done.
  set (size := run_get X.io_size s) in *. set (port := run_get X.io_port s) in *.
  assert (Hrest : let '(vs, w) := io_reads n port size w1 in
    let s' := fold_left (fun s ptr => HandleIO_one io uninit ptr s)
                (io_ptrs (Z.of_nat n) (u64 (ptr + size)) size) s1 in
    k_world s' = w
    /\ host_read (run_data (m_kvmRun s')) (u64 (ptr + size)) (Z.of_nat n * size)
       = concat (le_split (Z.to_nat size) <$> vs)
    /\ forall q m, 0 <= q -> q + m <= ptr + size ->
         host_read (run_data (m_kvmRun s')) q m = host_read (run_data (m_kvmRun s1)) q m).
  { destruct n as [|n]; [done|].
    rewrite (u64_small (ptr + size)) by lia.
    change size with (run_get X.io_size s1). apply (IH (ptr + size) s1); try done.
    - lia.
    - change (run_get X.io_size s1) with size. lia. }
  clear IH. destruct (io_reads n port size w1) as [vs w].
  destruct Hrest as (-> & Hc & Hf). split; [done|]. cbn [fmap list_fmap concat]. split.
  - replace (Z.of_nat (Datatypes.S n) * size) with (size + Z.of_nat n * size) by lia.
    rewrite host_read_app by lia. f_equal; [|exact Hc].
    rewrite Hf, Hs1 by lia.
    pose proof (host_read_write_same (run_data (m_kvmRun s)) ptr bs) as Hsame.
    rewrite Hlen in Hsame. apply Hsame; lia.
  - intros q m Hq Hm. rewrite Hf, Hs1 by lia. apply host_read_write_disjoint; lia.
Qed.
End Io.

(** ** A concrete kernel

    Its guest adds one to RAX and exits as told; it knows no MSR, and KVM_RUN can
    be made to fail after the guest has run, as an interrupting signal does. *)
Record demo := MkDemo { d_files : files; d_interrupted : bool; d_exit : kvm_exit; d_union : Z }.
Definition demo_set (f : files) (d : demo) : demo :=
  MkDemo f (d_interrupted d) (d_exit d) (d_union d).
Definition demo_guest (f : files) : files :=
  MkFiles (<[G.rax := f_regs f G.rax + 1]> (f_regs f)) (f_sregs f) (f_debugRegs f) (f_fpu f).
#[export] Instance demo_KVM : KVM demo := {
  KVM_RUN r d := (negb (d_interrupted d),
    MkRun (d_exit d) (d_union d) (run_data r) (request_interrupt_window r)
      (ready_for_interrupt_injection r), demo_set (demo_guest (d_files d)) d);
  KVM_GET_REGS _ d := (true, f_regs (d_files d), d);
  KVM_GET_SREGS _ d := (true, f_sregs (d_files d), d);
  KVM_GET_DEBUGREGS _ d := (true, f_debugRegs (d_files d), d);
  KVM_GET_FPU _ d := (true, f_fpu (d_files d), d);
  KVM_SET_REGS r d := let f := d_files d in
    (true, demo_set (MkFiles r (f_sregs f) (f_debugRegs f) (f_fpu f)) d);
  KVM_SET_SREGS r d := let f := d_files d in
    (true, demo_set (MkFiles (f_regs f) r (f_debugRegs f) (f_fpu f)) d);
  KVM_SET_DEBUGREGS r d := let f := d_files d in
    (true, demo_set (MkFiles (f_regs f) (f_sregs f) r (f_fpu f)) d);
  KVM_SET_FPU r d := let f := d_files d in
    (true, demo_set (MkFiles (f_regs f) (f_sregs f) (f_debugRegs f) r) d);
  KVM_SET_GUEST_DEBUG _ d := (true, d);
  KVM_INTERRUPT _ d := (true, d);
  KVM_GET_MSRS entries d := (0, entries, d);
  KVM_SET_MSRS _ d := (0, d);
  KVM_EXIT_IO_OUT := 1; KVM_GUESTDBG_ENABLE := 1; KVM_GUESTDBG_SINGLESTEP := 2;
  KVM_GUESTDBG_USE_SW_BP := 0x10000; KVM_GUESTDBG_USE_HW_BP := 0x20000
}.
#[export] Instance demo_laws : KVMLaws demo.
Proof. by refine {| kfiles := d_files |}. Defined.

Definition zero_sregs : kvm_sregs :=
  MkSregs (fun _ => MkSegment 0 0 0 0 0 0 0 0 0 0 0 []) (fun _ => MkDtable 0 0) (fun _ => 0) [].
Definition zero_fpu : kvm_fpu := MkFpu (fun _ => 0) (fun _ => 0) 0 0 0 0 0 0 0.
Definition zero_debugregs : kvm_debugregs := MkDebugregs (fun _ => 0) [].
(** RIP and RFLAGS after a processor reset. *)
Definition reset_regs : kvm_regs := <[G.rip := 0xFFF0]> (<[G.rflags := 2]> (fun _ => 0)).
Definition demo_files : files := MkFiles reset_regs zero_sregs zero_debugregs zero_fpu.
Definition demo_kernel (interrupted : bool) (e : kvm_exit) (u : Z) : demo :=
  MkDemo demo_files interrupted e u.
Definition demo_run : kvm_run := MkRun KVM_EXIT_HLT 0 (fun _ => 0) 0 0.
(** Callbacks that record what they are given. *)
Definition demo_io : IOHandlers (list (Z * Z * Z)) :=
  MkIOHandlers (fun _ _ _ w => (0, w)) (fun _ p n v w => w ++ [(p, n, v)])
    (fun _ _ _ w => (0, w)) (fun _ p n v w => w ++ [(p, n, v)]) 0.
Definition demo_vp (dirty : bool) (k : demo) : kvp demo (list (Z * Z * Z)) :=
  MkKvp (MkCache dirty false false false false (f_regs (d_files k)) (f_sregs (d_files k))
           (f_debugRegs (d_files k)) (f_fpu (d_files k)))
    demo_run (MkGuestDebug 0 (replicate 8 0)) (MkVMExitInfo Exit_Normal Details_None) k [].

(** ** A run, with every outcome *)
Section RunSpec.
Context {K W : Type} `{KVMLaws K} (io : IOHandlers W) (uninit : Z).
Implicit Types s : kvp K W.

(** What the kernel did while the cache was not marked dirty. *)
Lemma stale_cache c k k' : coherent c k -> unflagged c ->
  (coherent c k' <-> kfiles k' = effective c k') /\ effective c k' = if m_regsDirty c then kfiles k' else effective c k.
Proof.
  unfold coherent, effective, unflagged. intros _ (H1 & H2 & H3 & H4). destruct (m_regsDirty c); [done|].
  split; [|done]. unfold cfiles. destruct (kfiles k') as [r sr d f]; cbn. split.
  - intros (E1 & E2 & E3 & E4). by rewrite E1, E2, E3, E4.
  - intros [= -> -> -> ->]. done.
Qed.

Lemma run_spec s : s_coherent s ->
  match UpdateRegisters (k_cache s, k_kernel s) with
  | (false, (c, k)) => let s' := with_cache c k s in
      (forall fuel, kvm_RunImpl io uninit fuel s = Some (VPE_Failed, s'))
      /\ s_coherent s' /\ s_effective s' = s_effective s
  | (true, (c, k)) =>
      kfiles k = s_effective s
      /\ let '(ok, r, k') := KVM_RUN (m_kvmRun s) k in
         if ok then
           if io_endless r then forall fuel, kvm_RunImpl io uninit fuel s = None
           else exists s', (forall fuel, fget X.io_count (exit_union r) <= Z.of_nat fuel ->
                              kvm_RunImpl io uninit fuel s = Some (VPE_OK, s'))
                /\ s_coherent s' /\ s_effective s' = kfiles k' /\ k_kernel s' = k'
         else exists s', (forall fuel, kvm_RunImpl io uninit fuel s = Some (VPE_Failed, s'))
              /\ k_kernel s' = k'
              /\ s_effective s' = (if m_regsDirty (k_cache s) then kfiles k' else s_effective s)
              /\ (s_coherent s' <-> kfiles k' = s_effective s')
  end.
Proof.
  intros Hc. pose proof (UpdateRegisters_spec _ _ Hc) as Hu.
  pose proof (fun fuel => run_state io uninit fuel s Hc) as Hrun.
  pose proof (UpdateRegisters_clears (k_cache s) (k_kernel s)) as Hcl. unfold kvm_RunImpl in *.
  destruct (UpdateRegisters (k_cache s, k_kernel s)) as [[] [c k]]; cbn -[HandleExecResult] in *.
  2: { split; [done|]. by destruct (Hrun 0%nat) as (_ & ?). }
  specialize (Hcl _ _ eq_refl). destruct Hu as (H1 & H2 & H3 & H4).
  split; [by destruct (Hrun 0%nat)|]. assert (Hr := fun fuel => proj2 (Hrun fuel)). clear Hrun.
  destruct (KVM_RUN (m_kvmRun s) k) as [[[] r] k']; cbn -[HandleExecResult] in *.
  - set (s1 := with_kernel k' (with_run r (k_world s) (with_cache c k s))) in *.
    pose proof (HandleExecResult_ends io uninit s1) as He. change (m_kvmRun s1) with r in He.
    destruct (io_endless r); [exact He|]. destruct He as (s' & He). exists s'. split; [exact He|].
    by destruct (Hr _ _ _ (He (Z.to_nat (fget X.io_count (exit_union r))) ltac:(unfold run_get; cbn; lia))) as (_ & ?).
  - eexists. split; [intros _; reflexivity|]. split; [done|].
    destruct (stale_cache c k k' H1 Hcl) as [HA HB]. unfold s_coherent, s_effective; cbn. split; [|exact HA].
    rewrite HB, H3. by destruct (m_regsDirty (k_cache s)).
Qed.
End RunSpec.

(** ** Theorems *)

(** C8: while the register cache is coherent, the KVM processor is the
    architectural register file of KvmRegs.v.  A read returns the register's
    value, or fails because the kernel's transfer failed or the register is
    unsupported, and changes nothing; a write changes the file as
    [kvm_register_file] says, or fails and changes nothing.  A run first hands
    the kernel exactly the current file, whatever mixture of structures was
    changed; if that fails the run fails and the file is kept.  When KVM_RUN succeeds the run returns OK,
    the file is then the kernel's and the cache coherent; only an I/O exit with a count of 2^16 or
    more is never handled to its end.  When KVM_RUN fails the run fails, and the cache is not marked
    dirty: if it was clean the processor keeps the old file whatever the guest did, and
    the cache stays coherent only if the kernel's registers did not change. *)
Theorem kvm_processor_refines {K W} `{KVMLaws K} (io : IOHandlers W) uninit (s : kvp K W) :
  s_coherent s ->
  (forall r w, let '(res, s') := kvm_RegRead r w s in
     s_coherent s' /\ s_effective s' = s_effective s
     /\ match res with
        | inr v => kvm_supported r = true
                   /\ agree r v (arch_read r (file_of (s_effective s) (full r)))
        | inl e => e = VP_Failed \/ e = VP_Unsupported /\ kvm_supported r = false
        end)
  /\ (forall r v, let '(res, s') := kvm_RegWrite r v s in
     s_coherent s'
     /\ match res with
        | inr _ => kvm_supported r = true
                   /\ forall R, file_of (s_effective s') (full R)
                        = arch_upd (file_of (s_effective s)) (kvm_target r) (kvm_value r v) (full R)
        | inl e => s_effective s' = s_effective s
                   /\ (e = VP_Failed \/ e = VP_Unsupported /\ kvm_supported r = false)
        end)
  /\ match UpdateRegisters (k_cache s, k_kernel s) with
     | (false, (c, k)) => let s' := with_cache c k s in
         (forall fuel, kvm_RunImpl io uninit fuel s = Some (VPE_Failed, s'))
         /\ s_coherent s' /\ s_effective s' = s_effective s
     | (true, (c, k)) =>
         kfiles k = s_effective s
         /\ let '(ok, r, k') := KVM_RUN (m_kvmRun s) k in
            if ok then
              if io_endless r then forall fuel, kvm_RunImpl io uninit fuel s = None
              else exists s', (forall fuel, fget X.io_count (exit_union r) <= Z.of_nat fuel ->
                                 kvm_RunImpl io uninit fuel s = Some (VPE_OK, s'))
                   /\ s_coherent s' /\ s_effective s' = kfiles k' /\ k_kernel s' = k'
            else exists s', (forall fuel, kvm_RunImpl io uninit fuel s = Some (VPE_Failed, s'))
                 /\ k_kernel s' = k'
                 /\ s_effective s' = (if m_regsDirty (k_cache s) then kfiles k' else s_effective s)
                 /\ (s_coherent s' <-> kfiles k' = s_effective s')
     end.
Proof.
  intros Hc. split; [intros; by apply regread_state|]. split; [intros; by apply regwrite_state|].
  by apply run_spec.
Qed.

Lemma kvm_processor_refines_witness :
  let s := demo_vp true (demo_kernel false KVM_EXIT_HLT 0) in
  s_coherent s /\ kfiles (k_kernel s) = s_effective s
  /\ exists s', fst (kvm_RegWrite Reg.EAX 7 s) = inr tt /\ s' = snd (kvm_RegWrite Reg.EAX 7 s)
     /\ s_coherent s' /\ file_of (s_effective s') Reg.RAX = 7.
Proof.
  intros s. assert (Hc : s_coherent s) by done. split; [done|]. split; [done|].
  pose proof (kvm_processor_refines demo_io 0 s Hc) as (_ & Hw & _).
  specialize (Hw Reg.EAX 7).
  assert (Hok : fst (kvm_RegWrite Reg.EAX 7 s) = inr tt) by reflexivity.
  destruct (kvm_RegWrite Reg.EAX 7 s) as [res s']. cbn [fst] in Hok. subst res.
  destruct Hw as (H1 & _ & H2). exists s'. split; [reflexivity|]. split; [reflexivity|].
  split; [exact H1|]. change Reg.RAX with (full Reg.RAX). rewrite (H2 Reg.RAX). vm_compute. reflexivity.
Defined.

(** The object as [KvmVirtualMachine] creates it, whatever the kernel's registers
    are: every structure zeroed, except the debug registers, which the constructor
    leaves uninitialised, and no flag set. *)
Definition new_kvp {K W} (debugRegs : kvm_debugregs) (run : kvm_run) (x : VMExitInfo) (k : K) (w : W)
    : kvp K W :=
  MkKvp (MkCache false false false false false (fun _ => 0) zero_sregs debugRegs zero_fpu)
    run (MkGuestDebug 0 (replicate 8 0)) x k w.

(** A new KVM processor does not know the registers the kernel gave it.  Until
    the first run every register but the debug registers reads as zero, whatever
    the kernel holds; and a first write to one general register makes the next run
    load all of them, so that RIP and RFLAGS become zero.  The cache starts clean
    although it has never been filled. *)
Theorem kvm_new_processor_reads_zero {K W} `{KVMLaws K} dbg run x (k : K) (w : W) r :
  let s := new_kvp dbg run x k w in
  (kvm_supported r && negb (RegBetween r Reg.DR0 Reg.DR7) = true ->
   exists v, kvm_RegRead r 0 s = (inr v, s) /\ agree r v 0)
  /\ (forall v, exists s', kvm_RegWrite Reg.RAX v s = (inr tt, s')
       /\ let '(ok, (_, k')) := UpdateRegisters (k_cache s', k_kernel s') in
          ok = true -> f_regs (kfiles k') = <[G.rax := fget RV.u64 v]> (fun _ => 0)).
Proof.
  intros s. split.
  - intros Hs. unfold kvm_RegRead, refreshed. rewrite (bind_inr _ _ _ _ _ (refresh_clean s eq_refl)).
    unfold get_reg. apply andb_true_iff in Hs as [Hs Hd].
    destruct (kvm_read_file r 0 (k_cache s) Hs) as (v & -> & Ha). exists v. split; [done|].
    rewrite Ha. unfold agree. apply Forall_forall. intros f _. rewrite fget_0.
    assert (kvm_file (k_cache s) (full r) = 0) as ->; [|by unfold arch_read; rewrite !fget_0].
    destruct r; try discriminate Hs; try discriminate Hd; reflexivity.
  - intros v. eexists. unfold kvm_RegWrite, refreshed.
    rewrite (bind_inr _ _ _ _ _ (refresh_clean s eq_refl)). split; [reflexivity|].
    unfold UpdateRegisters, andthen. cbn. pose proof (set_regs_law (<[G.rax := fget RV.u64 v]> (fun _ => 0)) k) as L.
    destruct (KVM_SET_REGS _ _) as [[] k']; cbn; [|done]. intros _. by rewrite L.
Qed.

(** With the reset values in the kernel: RIP reads 0, and a write of RAX loses it. *)
Lemma kvm_new_processor_reads_zero_witness :
  let s := new_kvp zero_debugregs demo_run (MkVMExitInfo Exit_Normal Details_None)
             (demo_kernel false KVM_EXIT_HLT 0) ([] : list Z) in
  f_regs (kfiles (k_kernel s)) G.rip = 0xFFF0
  /\ exists v, kvm_RegRead Reg.RIP 0 s = (inr v, s) /\ fget RV.u64 v = 0.
Proof.
  intros s. split; [reflexivity|].
  destruct (proj1 (kvm_new_processor_reads_zero zero_debugregs demo_run
    (MkVMExitInfo Exit_Normal Details_None) (demo_kernel false KVM_EXIT_HLT 0) ([] : list Z) Reg.RIP)
    eq_refl) as (v & Hr & Ha).
  exists v. split; [exact Hr|]. rewrite (agree_u64 Reg.RIP v 0); [reflexivity|cbn; lia|exact Ha].
Defined.

(** Two ways in which registers are lost.  When KVM_RUN fails, as it does on a
    pending signal, registers that the guest has changed by then are not fetched:
    with a clean cache, reads go on returning the old values.  And
    [SetFPUControl] changes the cache without flagging it: the value reads back
    but no run ever hands it to the kernel. *)
Theorem kvm_registers_lost {K W} `{KVMLaws K} (io : IOHandlers W) uninit fuel (s : kvp K W) :
  s_coherent s -> m_regsDirty (k_cache s) = false ->
  (forall c k r k' s', UpdateRegisters (k_cache s, k_kernel s) = (true, (c, k)) ->
     KVM_RUN (m_kvmRun s) k = (false, r, k') ->
     kvm_RunImpl io uninit fuel s = Some (VPE_Failed, s') ->
     k_kernel s' = k' /\ s_effective s' = s_effective s)
  /\ (forall value, m_fpuRegsChanged (k_cache s) = false ->
      exists s', SetFPUControl value s = (inr tt, s') /\ fcw (m_fpuRegs (k_cache s')) = cw value
      /\ let '(_, (_, k')) := UpdateRegisters (k_cache s', k_kernel s') in
         f_fpu (kfiles k') = f_fpu (kfiles (k_kernel s))).
Proof.
  intros Hc Hd. split.
  - intros c k r k' s' Hu Hr Hrun. pose proof (run_state io uninit fuel s Hc) as Hs.
    rewrite Hu, Hr in Hs. destruct Hs as (_ & s2 & Hs2 & Hk & He). rewrite Hrun in Hs2.
    injection Hs2 as <-. split; [done|]. by apply He.
  - intros value Hf. eexists. unfold SetFPUControl, refreshed.
    rewrite (bind_inr _ _ _ _ _ (refresh_clean s Hd)). split; [reflexivity|]. split; [done|].
    apply UpdateRegisters_keeps_fpu. exact Hf.
Qed.

(** The guest has set RAX to 1 when a signal makes KVM_RUN fail; the processor
    still reports 0. *)
Lemma kvm_registers_lost_witness :
  let s := demo_vp false (demo_kernel true KVM_EXIT_INTR 0) in
  s_coherent s /\ exists s', kvm_RunImpl demo_io 0 1 s = Some (VPE_Failed, s')
    /\ s_effective s' = s_effective s
    /\ f_regs (kfiles (k_kernel s')) G.rax = 1 /\ f_regs (s_effective s') G.rax = 0.
Proof.
  intros s. assert (Hc : s_coherent s) by done. split; [exact Hc|]. eexists. split; [reflexivity|].
  pose proof (proj1 (kvm_registers_lost demo_io 0 1 s Hc eq_refl) _ _ _ _ _ eq_refl eq_refl eq_refl)
    as [_ He].
  split; [exact He|]. split; [reflexivity|]. rewrite He. reflexivity.
Defined.

(** C35: the loop of [HandleIO] ends after exactly [io.count] rounds if the count
    fits in its 16-bit counter, and never if it does not.  An output passes the
    items of the buffer to the callback in order and leaves the buffer alone; an
    input calls the callback once per item and leaves the results, truncated to
    the item size, in the buffer in order, and what precedes the buffer as it
    was. *)
Theorem kvm_io_exit {K W} `{KVM K} (io : IOHandlers W) uninit (s : kvp K W) :
  let n := run_get X.io_count s in
  let size := run_get X.io_size s in
  let port := run_get X.io_port s in
  let ptr := run_get X.io_data_offset s in
  let data := run_data (m_kvmRun s) in
  (2 ^ 16 <= n -> forall fuel, HandleIO io uninit fuel s = None)
  /\ (n < 2 ^ 16 -> io_sized s = true -> ptr + n * size <= 2 ^ 64 ->
      exists s', (forall fuel, n <= Z.of_nat fuel -> HandleIO io uninit fuel s = Some s')
      /\ (io_is_out s = true ->
            run_data (m_kvmRun s') = data
            /\ k_world s' = io_writes io data port size (io_ptrs n ptr size) (k_world s))
      /\ (io_is_out s = false ->
            let '(vs, w) := io_reads io (Z.to_nat n) port size (k_world s) in
            k_world s' = w
            /\ host_read (run_data (m_kvmRun s')) ptr (n * size) = concat (le_split (Z.to_nat size) <$> vs)
            /\ forall q m, 0 <= q -> q + m <= ptr ->
                 host_read (run_data (m_kvmRun s')) q m = host_read data q m)).
Proof.
  intros n size port ptr data. set (s0 := set_reason Exit_PIO s).
  assert (Hptr : 0 <= ptr < 2 ^ 64) by (apply fget_range; done).
  assert (Hn0 : 0 <= n) by (apply fget_range; done).
  split.
  - intros Hn fuel. unfold HandleIO. apply HandleIO_loop_diverges; [exact Hn|lia].
  - intros Hn Hs Hend. exists (io_rounds io uninit (io_ptrs n ptr size) s0). split; [|split].
    + intros fuel Hf. unfold HandleIO.
      pose proof (HandleIO_loop_rounds io uninit fuel 0 ptr s0) as Hl.
      change (run_get X.io_count s0) with n in Hl. rewrite Z.sub_0_r in Hl.
      apply Hl; done || lia.
    + intros Ho. rewrite io_rounds_out by done. done.
    + intros Ho. pose proof (io_rounds_in io uninit (Z.to_nat n) ptr s0 Ho Hs Hptr) as Hin.
      rewrite Z2Nat.id in Hin by lia. exact (Hin Hend).
Qed.

(** Two bytes written to port 0x3f8. *)
Lemma kvm_io_exit_witness :
  let u := fset X.io_direction 1 (fset X.io_size 1 (fset X.io_port 0x3f8
             (fset X.io_count 2 (fset X.io_data_offset 0x1000 0)))) in
  let s := with_union u [] (with_data (fun a => a - 0x1000 + 0x41) []
             (demo_vp true (demo_kernel false KVM_EXIT_IO u))) in
  exists s', HandleIO demo_io 0 2 s = Some s'
    /\ k_world s' = [(0x3f8, 1, 0x41); (0x3f8, 1, 0x42)].
Proof.
  intros u s. destruct (proj2 (kvm_io_exit demo_io 0 s) eq_refl eq_refl) as (s' & Hf & Ho & _).
  { vm_compute. discriminate. }
  exists s'. split; [apply Hf; vm_compute; discriminate|].
  rewrite (proj2 (Ho eq_refl)). vm_compute. reflexivity.
Defined.

(** *** Stepping *)
Section Step.
Context {K W : Type} `{KVM K} (io : IOHandlers W) (uninit : Z).
Implicit Types s : kvp K W.

Definition mmio_write s (w : W) : W :=
  MMIOWrite io (run_get X.mmio_phys_addr s) (run_get X.mmio_len s) (run_get X.mmio_data s) w.

Lemma HandleMMIO_write s : nz (run_get X.mmio_is_write s) = true ->
  k_world (HandleMMIO io s) = mmio_write s (k_world s)
  /\ exit_union (m_kvmRun (HandleMMIO io s)) = exit_union (m_kvmRun s)
  /\ reason (m_exitInfo (HandleMMIO io s)) = Exit_MMIO.
Proof.
  intros Hw. unfold HandleMMIO. set (s0 := set_reason Exit_MMIO s).
  change (run_get X.mmio_is_write s0) with (run_get X.mmio_is_write s). by rewrite Hw.
Qed.

(** A read stores into the data member only. *)
Lemma HandleMMIO_is_write s :
  run_get X.mmio_is_write (HandleMMIO io s) = run_get X.mmio_is_write s.
Proof.
  unfold HandleMMIO. set (s0 := set_reason Exit_MMIO s).
  change (run_get X.mmio_is_write s) with (run_get X.mmio_is_write s0).
  destruct (nz _); [done|]. destruct (MMIORead _ _ _ _) as [v w]. unfold run_get at 1.
  cbn [with_union with_run m_kvmRun exit_union].
  destruct (run_get X.mmio_len s0 =? 1) eqn:E1; [apply Z.eqb_eq in E1; rewrite E1; cbn [orb]; fsimpl; done|].
  destruct (run_get X.mmio_len s0 =? 2) eqn:E2; [apply Z.eqb_eq in E2; rewrite E2; cbn [orb]; fsimpl; done|].
  destruct (run_get X.mmio_len s0 =? 4) eqn:E4; [apply Z.eqb_eq in E4; rewrite E4; cbn [orb]; fsimpl; done|].
  destruct (run_get X.mmio_len s0 =? 8) eqn:E8; [apply Z.eqb_eq in E8; rewrite E8; cbn [orb]; fsimpl; done|].
  done.
Qed.

Lemma exec_mmio fuel s : exit_reason (m_kvmRun s) = KVM_EXIT_MMIO ->
  HandleExecResult io uninit fuel s
  = Some (VPE_OK, HandleMMIO io (with_cache (set_dirty true (k_cache s)) (k_kernel s) s)).
Proof.
  intros E. unfold HandleExecResult. set (s0 := with_cache _ _ s).
  change (exit_reason (m_kvmRun s0)) with (exit_reason (m_kvmRun s)). by rewrite E.
Qed.

Lemma exec_debug fuel s : exit_reason (m_kvmRun s) = KVM_EXIT_DEBUG ->
  HandleExecResult io uninit fuel s
  = Some (VPE_OK, set_reason (if nz (run_get X.debug_dr6 s &&& 0xf) then Exit_HardwareBreakpoint
                              else Exit_SoftwareBreakpoint)
                    (with_cache (set_dirty true (k_cache s)) (k_kernel s) s)).
Proof.
  intros E. unfold HandleExecResult. set (s0 := with_cache _ _ s).
  change (exit_reason (m_kvmRun s0)) with (exit_reason (m_kvmRun s)). by rewrite E.
Qed.

(** Handling a memory-mapped write calls the callback once. *)
Lemma exec_mmio_write fuel s s' : HandleExecResult io uninit fuel s = Some (VPE_OK, s') ->
  exit_reason (m_kvmRun s') = KVM_EXIT_MMIO -> nz (run_get X.mmio_is_write s') = true ->
  k_world s' = mmio_write s' (k_world s) /\ reason (m_exitInfo s') = Exit_MMIO.
Proof.
  intros Hx E Hw. pose proof (HandleExecResult_frame _ _ _ _ _ _ Hx) as (_ & _ & _ & _ & Er).
  rewrite exec_mmio in Hx by congruence. set (s0 := with_cache _ _ s) in Hx.
  assert (s' = HandleMMIO io s0) as -> by congruence. clear Hx.
  rewrite HandleMMIO_is_write in Hw. destruct (HandleMMIO_write s0 Hw) as (H1 & H2 & H3).
  split; [|exact H3]. rewrite H1. unfold mmio_write, run_get. by rewrite H2.
Qed.

Lemma SetDebug_page s s' : SetDebug s = (true, s') ->
  m_kvmRun s' = m_kvmRun s /\ k_world s' = k_world s /\ k_cache s' = k_cache s
  /\ m_exitInfo s' = m_exitInfo s.
Proof. unfold SetDebug. destruct (KVM_SET_GUEST_DEBUG _ _) as [ok k]. by intros [= -> <-]. Qed.

(** A completed run has handled the exit of its last state. *)
Lemma run_handled fuel s s' : kvm_RunImpl io uninit fuel s = Some (VPE_OK, s') ->
  exists sR, HandleExecResult io uninit fuel sR = Some (VPE_OK, s') /\ k_world sR = k_world s.
Proof.
  unfold kvm_RunImpl. destruct (UpdateRegisters _) as [[] [c k]]; cbn -[HandleExecResult]; [|done].
  destruct (KVM_RUN _ _) as [[[] r] k']; cbn -[HandleExecResult]; [|done].
  intros Hr. eexists. split; [exact Hr|done].
Qed.
End Step.

(** A single step handles its exit twice.  When the step runs to an exit,
    [RunImpl] has already handled it and [StepImpl] handles it again on the same
    page: for a memory-mapped write the callback is called twice with the same
    arguments.  What it must not repeat, the exit reason, is idempotent: a debug
    exit without a hardware breakpoint becomes [Step]. *)
Theorem kvm_step_handles_exit_twice {K W} `{KVM K} (io : IOHandlers W) uninit fuel
    (s sA sB sC : kvp K W) :
  SetDebug (with_control (fun c => c ||| KVM_GUESTDBG_SINGLESTEP) s) = (true, sA) ->
  kvm_RunImpl io uninit fuel sA = Some (VPE_OK, sB) ->
  SetDebug (with_control (fun c => c &&& lnot32 KVM_GUESTDBG_SINGLESTEP) sB) = (true, sC) ->
  (exit_reason (m_kvmRun sB) = KVM_EXIT_MMIO -> nz (run_get X.mmio_is_write sB) = true ->
   exists s', kvm_StepImpl io uninit fuel s = Some (VPE_OK, s')
     /\ k_world s' = mmio_write io sB (mmio_write io sB (k_world s))
     /\ reason (m_exitInfo s') = Exit_MMIO)
  /\ (exit_reason (m_kvmRun sB) = KVM_EXIT_DEBUG ->
   exists s', kvm_StepImpl io uninit fuel s = Some (VPE_OK, s')
     /\ reason (m_exitInfo s')
        = if nz (run_get X.debug_dr6 sB &&& 0xf) then Exit_HardwareBreakpoint else Exit_Step).
Proof.
  intros HA HB HC. destruct (SetDebug_page _ _ HC) as (Hp & Hw & _ & _).
  destruct (SetDebug_page _ _ HA) as (_ & HwA & _ & _).
  change (k_world (with_control _ sB)) with (k_world sB) in Hw.
  change (k_world (with_control _ s)) with (k_world s) in HwA.
  assert (Hg : forall f, run_get f sC = run_get f sB) by (intros f; unfold run_get; by rewrite Hp).
  assert (HS : kvm_StepImpl io uninit fuel s
    = '(result, s) ← HandleExecResult io uninit fuel sC;
      Some (result, match reason (m_exitInfo s) with
                    | Exit_SoftwareBreakpoint => set_reason Exit_Step s | _ => s end)).
  { unfold kvm_StepImpl. rewrite HA. cbn [negb]. rewrite HB. cbn [mbind option_bind]. by rewrite HC. }
  rewrite HS. clear HS. split.
  - intros E Hmw. destruct (run_handled _ _ _ _ _ HB) as (sR & HR & HwR).
    destruct (exec_mmio_write _ _ _ _ _ HR E Hmw) as [HwB _].
    rewrite exec_mmio by (by rewrite Hp). set (s0 := with_cache _ _ sC). cbn [mbind option_bind].
    destruct (HandleMMIO_write io s0) as (H1 & _ & H3).
    { change (run_get X.mmio_is_write s0) with (run_get X.mmio_is_write sC). by rewrite Hg. }
    rewrite H3. eexists. split; [reflexivity|]. split; [|exact H3]. rewrite H1.
    change (mmio_write io s0 (k_world s0)) with (mmio_write io sC (k_world sC)).
    unfold mmio_write at 1. rewrite !Hg, Hw, HwB, HwR, HwA. done.
  - intros E. rewrite exec_debug by (by rewrite Hp). rewrite Hg. cbn [mbind option_bind].
    destruct (nz _); (eexists; split; [reflexivity|done]).
Qed.

(** A 4-byte write to a device, stepped over: the device sees it twice. *)
Lemma kvm_step_handles_exit_twice_witness :
  let u := fset X.mmio_phys_addr 0xFE000000 (fset X.mmio_data 5 (fset X.mmio_len 4
             (fset X.mmio_is_write 1 0))) in
  let s := demo_vp true (demo_kernel false KVM_EXIT_MMIO u) in
  exists s', kvm_StepImpl demo_io 0 1 s = Some (VPE_OK, s')
    /\ k_world s' = [(0xFE000000, 4, 5); (0xFE000000, 4, 5)].
Proof.
  intros u s.
  pose (sA := snd (SetDebug (with_control (fun c => c ||| KVM_GUESTDBG_SINGLESTEP) s))).
  pose (sB := match kvm_RunImpl demo_io 0 1 sA with Some (_, s) => s | None => s end).
  pose (sC := snd (SetDebug (with_control (fun c => c &&& lnot32 KVM_GUESTDBG_SINGLESTEP) sB))).
  assert (HA : SetDebug (with_control (fun c => c ||| KVM_GUESTDBG_SINGLESTEP) s) = (true, sA))
    by (vm_compute; reflexivity).
  assert (HB : kvm_RunImpl demo_io 0 1 sA = Some (VPE_OK, sB)) by (vm_compute; reflexivity).
  assert (HC : SetDebug (with_control (fun c => c &&& lnot32 KVM_GUESTDBG_SINGLESTEP) sB) = (true, sC))
    by (vm_compute; reflexivity).
  destruct (proj1 (kvm_step_handles_exit_twice demo_io 0 1 s sA sB sC HA HB HC)) as (s' & Hs & Hw & _);
    [vm_compute; reflexivity..|].
  exists s'. split; [exact Hs|]. rewrite Hw. vm_compute. reflexivity.
Defined.

(** *** Breakpoints *)

(** The guest debugging flags are different single bits of a 32-bit word. *)
Class KVMDebugLaws (K : Type) `{KVM K} := {
  guestdbg_bits : exists enable step sw hw : Z,
    KVM_GUESTDBG_ENABLE = 1 <<< enable /\ KVM_GUESTDBG_SINGLESTEP = 1 <<< step
    /\ KVM_GUESTDBG_USE_SW_BP = 1 <<< sw /\ KVM_GUESTDBG_USE_HW_BP = 1 <<< hw
    /\ Forall (fun b => 0 <= b < 32) [enable; step; sw; hw] /\ NoDup [enable; step; sw; hw]
}.

(** Setting a flag of guest debugging also sets the enable flag. *)
Lemma guestdbg_enabled {K} `{KVMDebugLaws K} c :
  nz ((c ||| KVM_GUESTDBG_USE_HW_BP) &&& lnot32 KVM_GUESTDBG_ENABLE) = true.
Proof.
  destruct guestdbg_bits as (en & st & sw & hw & -> & _ & _ & -> & Hr & Hn).
  rewrite !Forall_cons in Hr. destruct Hr as (? & _ & _ & ? & _).
  assert (Hne : en <> hw) by (intros ->; apply NoDup_cons_1_1 in Hn; apply Hn; set_solver).
  unfold nz. apply negb_true_iff, Z.eqb_neq. intros E.
  apply (f_equal (fun z => Z.testbit z hw)) in E. revert E.
  unfold lnot32, u32. rewrite Z.bits_0, Z.land_spec, Z.lor_spec, Z.testbit_mod_pow2 by lia.
  rewrite Z.lnot_spec, !Z.shiftl_1_l, Z.pow2_bits_true, Z.pow2_bits_false by lia.
  rewrite (proj2 (Z.ltb_lt hw 32)) by lia. rewrite orb_true_r. done.
Qed.

(** What [SetHardwareBreakpoints] hands the kernel.  If a breakpoint is
    enabled, the addresses go to DR0 to DR3, the enable, condition and size fields
    of DR7 are the old fields OR-ed with those of the breakpoints (so with
    registers that were cleared they are those of the breakpoints, but a field
    that was set before stays set), and hardware breakpoints are enabled; if none
    is enabled everything is cleared.  Then, of a debug exit whose DR6 reports
    breakpoint [i] and none before it, [GetBreakpointAddress] returns that
    breakpoint's address; but of an I/O exit that leaves DR6's member zero it
    returns the offset of the I/O buffer instead of reporting that no breakpoint
    was hit. *)
Theorem kvm_breakpoints {K W} `{KVMDebugLaws K} (s : kvp K W) (bps : list HardwareBreakpoint) :
  length bps = 4%nat -> length (debugreg (m_debug s)) = 8%nat ->
  let s' := snd (kvm_SetHardwareBreakpoints bps s) in
  let d := m_debug s' in
  (existsb fired bps = true ->
     dbg_control d = dbg_control (m_debug s) ||| KVM_GUESTDBG_USE_HW_BP ||| KVM_GUESTDBG_ENABLE
     /\ exists old dr7, debugreg (m_debug s) !! 7%nat = Some old /\ debugreg d !! 7%nat = Some dr7
        /\ forall i bp, bps !! i = Some bp ->
           let n := Z.of_nat i in
           debugreg d !! i = Some (bp_address bp)
           /\ fget (Field (2 * n) 1) dr7
              = fget (Field (2 * n) 1) old ||| (if localEnable bp then 1 else 0)
           /\ fget (Field (2 * n + 1) 1) dr7
              = fget (Field (2 * n + 1) 1) old ||| (if globalEnable bp then 1 else 0)
           /\ fget (Field (16 + 4 * n) 2) dr7
              = fget (Field (16 + 4 * n) 2) old ||| (trigger_value (bp_trigger bp) &&& 3)
           /\ fget (Field (18 + 4 * n) 2) dr7
              = fget (Field (18 + 4 * n) 2) old ||| (length_value (bp_length bp) &&& 3)
           /\ (forall u w, fget X.debug_dr6 u &&& 0xF = 2 ^ n ->
                 fst (kvm_GetBreakpointAddress (with_union u w s')) = inr (bp_address bp)))
  /\ (existsb fired bps = false -> debugreg d = replicate 8 0)
  /\ (forall u w, fget X.debug_dr6 u &&& 0xF = 0 -> fget X.io_data_offset u <> 0 ->
        fst (kvm_GetBreakpointAddress (with_union u w s')) = inr (fget X.io_data_offset u)).
Proof.
  intros Hl Hd s' d. subst s' d. split; [|split].
  - intros Hx. unfold kvm_SetHardwareBreakpoints, SetDebug_status, SetDebug.
    change (fun bp => localEnable bp || globalEnable bp) with fired. rewrite Hx. cbn [negb].
    destruct bps as [|b0 [|b1 [|b2 [|b3 [|]]]]]; try discriminate Hl.
    destruct (debugreg (m_debug s)) as [|r0 [|r1 [|r2 [|r3 [|r4 [|r5 [|r6 [|old [|]]]]]]]]];
      try discriminate Hd.
    destruct (set_breakpoints_spec b0 b1 b2 b3 r0 r1 r2 r3 r4 r5 r6 old) as (dr7 & Hs & Hf).
    rewrite Hs. cbn [with_debug m_debug dbg_control k_kernel].
    rewrite guestdbg_enabled. unfold set_control; cbn [debugreg].
    destruct (KVM_SET_GUEST_DEBUG _ _) as [ok k]. cbn [snd m_debug with_debug dbg_control debugreg].
    split; [done|]. exists old, dr7. split; [done|]. split; [done|]. intros i bp Hi.
    specialize (Hf i bp Hi). cbv zeta in Hf |- *. destruct Hf as (F1 & F2 & F3 & F4).
    assert (Ha : [bp_address b0; bp_address b1; bp_address b2; bp_address b3; r4; r5; r6; dr7] !! i
                 = Some (bp_address bp))
      by (destruct i as [|[|[|[|i]]]]; [injection Hi as <-; reflexivity..|discriminate Hi]).
    split; [exact Ha|]. split_and!; [exact F1|exact F2|exact F3|exact F4|].
    intros u w Hu. unfold kvm_GetBreakpointAddress.
    cbn [with_union with_run m_kvmRun exit_union m_debug debugreg]. rewrite Hu.
    destruct i as [|[|[|[|i]]]]; [injection Hi as <-; reflexivity..|discriminate Hi].
  - intros Hx. unfold kvm_SetHardwareBreakpoints, kvm_ClearHardwareBreakpoints, SetDebug_status, SetDebug.
    change (fun bp => localEnable bp || globalEnable bp) with fired. rewrite Hx. cbn [negb].
    by destruct (KVM_SET_GUEST_DEBUG _ _).
  - intros u w H6 Hpc. unfold kvm_GetBreakpointAddress.
    cbn [with_union with_run m_kvmRun exit_union]. rewrite H6.
    change X.debug_pc with X.io_data_offset. apply Z.eqb_neq in Hpc as ->. reflexivity.
Qed.

#[export] Instance demo_debug_laws : KVMDebugLaws demo.
Proof.
  constructor. exists 0, 1, 16, 17. split_and!; try reflexivity.
  - repeat constructor; lia.
  - apply (bool_decide_unpack (NoDup _)). vm_compute. exact I.
Defined.

(** Breakpoint 1 enabled after breakpoint 0 had been: both are enabled. *)
Lemma kvm_breakpoints_witness :
  let off := MkBp 0 false false Trigger_Execution Length_Byte in
  let on a := MkBp a true false Trigger_DataWrite Length_Dword in
  let s := snd (kvm_SetHardwareBreakpoints [on 0x1000; off; off; off]
                  (demo_vp true (demo_kernel false KVM_EXIT_DEBUG 0))) in
  let s' := snd (kvm_SetHardwareBreakpoints [off; on 0x2000; off; off] s) in
  exists dr7, debugreg (m_debug s') !! 7%nat = Some dr7
    /\ fget (Field 0 1) dr7 = 1 /\ fget (Field 2 1) dr7 = 1.
Proof.
  intros off on s s'.
  destruct (proj1 (kvm_breakpoints s [off; on 0x2000; off; off] eq_refl eq_refl) eq_refl)
    as (_ & old & dr7 & Ho & Hd & Hf).
  exists dr7. split; [exact Hd|]. assert (Hold : fget (Field 0 1) old = 1).
  { injection Ho as <-. vm_compute. reflexivity. }
  destruct (Hf 0%nat off eq_refl) as (_ & F0 & _). destruct (Hf 1%nat (on 0x2000) eq_refl) as (_ & F1 & _).
  cbn in F0, F1. change (2 * Z.of_nat 0) with 0 in F0. change (2 * Z.of_nat 1) with 2 in F1.
  rewrite F0, F1, Hold. injection Ho as <-. split; reflexivity.
Defined.

(** The MSR operations take every non-negative result of the ioctl for
    success, but the result is the number of registers processed.  For an MSR that
    the kernel does not know (result 0, data untouched) [GetMSR] returns OK and
    the value 0, whatever the destination held, and [SetMSR] returns OK without
    having set anything. *)
Theorem kvm_unknown_msr_succeeds {K W} `{KVM K} (s : kvp K W) msr value :
  (forall entries, KVM_GET_MSRS entries (k_kernel s) = (0, entries, k_kernel s)) ->
  (forall entries, KVM_SET_MSRS entries (k_kernel s) = (0, k_kernel s)) ->
  kvm_GetMSR msr value s = (inr 0, s) /\ kvm_SetMSR msr value s = (inr tt, s)
  /\ forall msrs values, kvm_GetMSRs msrs values s = (VP_OK, replicate (length msrs) 0, s)
     /\ kvm_SetMSRs msrs values s = (VP_OK, s).
Proof.
  intros Hg Hs. assert (Hid : with_kernel (k_kernel s) s = s) by (by destruct s).
  unfold kvm_GetMSR, kvm_SetMSR, kvm_GetMSRs, kvm_SetMSRs. rewrite Hg, Hs. cbn. rewrite !Hid.
  split; [done|]. split; [done|]. intros msrs values. rewrite Hg, Hs, Hid. split; [|done].
  cbn. do 2 f_equal. induction msrs as [|m msrs IH]; [done|]. cbn. by rewrite <- IH.
Qed.

Lemma kvm_unknown_msr_succeeds_witness :
  let s := demo_vp true (demo_kernel false KVM_EXIT_HLT 0) in
  kvm_GetMSR 0xDEADBEEF 42 s = (inr 0, s) /\ kvm_SetMSR 0xDEADBEEF 42 s = (inr tt, s).
Proof.
  intros s. destruct (kvm_unknown_msr_succeeds s 0xDEADBEEF 42) as (H1 & H2 & _); [reflexivity..|].
  split; [exact H1|exact H2].
Defined.
