(* ===== verification/KvmVm.v ===== *)
(** * The virtual machine of the KVM platform (kvm_vm.cpp, kvm_vm.hpp)

    Memory slots and dirty page queries as an instance of [VMBackend], so that the
    base class's theorems and the machine of calls [vm_step] apply to it.  The
    ioctls on the machine's file descriptor are the class [KVMMachine]. *)
From stdpp Require Import gmap.
From S2P Require Import Prelude Bits MemRegions VM.

Record kvm_userspace_memory_region := MkSlot {
  slot : Z; sl_flags : Z; guest_phys_addr : Z; memory_size : Z; userspace_addr : Z
}.

(** The kernel's side of a machine.  [KVM_GET_DIRTY_LOG] writes the bitmap of a
    slot to host memory. *)
Class KVMMachine (K : Type) := {
  KVM_SET_USER_MEMORY_REGION : kvm_userspace_memory_region -> K -> bool * K;
  KVM_GET_DIRTY_LOG (slot dirty_bitmap : Z) : K * hmem -> bool * (K * hmem);
  KVM_MEM_READONLY : Z;
  KVM_MEM_LOG_DIRTY_PAGES : Z
}.

(** The platform's part of the object, and the kernel.  [m_slots] is the member
    [m_memoryRegions] of [KvmVirtualMachine]. *)
Record kvm_vm (K : Type) := MkKvmVm {
  m_memSlot : Z; m_slots : list kvm_userspace_memory_region; vm_kernel : K
}.
Arguments MkKvmVm {K}.
Arguments m_memSlot {K}.
Arguments m_slots {K}.
Arguments vm_kernel {K}.

Section KvmVm.
Context {K : Type} `{KVMMachine K}.
(** The bytes at the address of the local iterator of [SetGuestMemoryFlagsImpl],
    read as a region; and the address of the bitmap that [ClearDirtyPagesImpl]
    allocates. *)
Context (iterator_bytes : kvm_userspace_memory_region) (new_bitmap : Z).

Definition regionEquals (rgn : kvm_userspace_memory_region) (baseAddress size : Z) : bool :=
  (guest_phys_addr rgn =? baseAddress) && (memory_size rgn =? size).

(** [BitmaskEnum::NoneOf] and [AnyOf] on the flags. *)
Definition slot_flags (flags : Z) : Z :=
  let f := 0 in
  let f := if flags &&& MF_Write =? 0 then f ||| KVM_MEM_READONLY else f in
  if negb (flags &&& MF_DirtyPageTracking =? 0) then f ||| KVM_MEM_LOG_DIRTY_PAGES else f.

(** Erases the first element with the given slot. *)
Fixpoint erase_slot (s : Z) (rgns : list kvm_userspace_memory_region)
    : list kvm_userspace_memory_region :=
  match rgns with
  | [] => []
  | r :: rgns => if slot r =? s then rgns else r :: erase_slot s rgns
  end.

Definition kvm_MapGuestMemoryImpl (baseAddress size flags memory : Z) (vm : kvm_vm K)
    : MemoryMappingStatus * kvm_vm K :=
  let rgn := MkSlot (m_memSlot vm) (slot_flags flags) baseAddress size memory in
  let next := u32 (m_memSlot vm + 1) in
  let rgns := m_slots vm ++ [rgn] in
  let '(ok, k) := KVM_SET_USER_MEMORY_REGION rgn (vm_kernel vm) in
  if ok then (MM_OK, MkKvmVm next rgns k)
  else (MM_Failed, MkKvmVm next (erase_slot (slot rgn) rgns) k).

(** Finds the first matching region and assigns its flags. *)
Fixpoint update_flags (baseAddress size flags : Z) (rgns : list kvm_userspace_memory_region)
    : option (list kvm_userspace_memory_region) :=
  match rgns with
  | [] => None
  | r :: rgns =>
      if regionEquals r baseAddress size
      then Some (MkSlot (slot r) (slot_flags flags) (guest_phys_addr r) (memory_size r) (userspace_addr r)
                   :: rgns)
      else cons r <$> update_flags baseAddress size flags rgns
  end.
Definition kvm_SetGuestMemoryFlagsImpl (baseAddress size flags : Z) (vm : kvm_vm K)
    : MemoryMappingStatus * kvm_vm K :=
  match update_flags baseAddress size flags (m_slots vm) with
  | None => (MM_InvalidRange, vm)
  | Some rgns =>
      (* the ioctl gets the address of the iterator, not of the region *)
      let '(ok, k) := KVM_SET_USER_MEMORY_REGION iterator_bytes (vm_kernel vm) in
      (if ok then MM_OK else MM_Failed, MkKvmVm (m_memSlot vm) rgns k)
  end.

Definition kvm_QueryDirtyPagesImpl (baseAddress size bitmap bitmapSize : Z) (s : kvm_vm K * hmem)
    : DirtyPageTrackingStatus * (kvm_vm K * hmem) :=
  let '(vm, m) := s in
  match List.find (fun r => regionEquals r baseAddress size) (m_slots vm) with
  | None => (DP_InvalidRange, (vm, m))
  | Some r =>
      let '(ok, (k, m)) := KVM_GET_DIRTY_LOG (slot r) bitmap (vm_kernel vm, m) in
      (if ok then DP_OK else DP_Failed, (MkKvmVm (m_memSlot vm) (m_slots vm) k, m))
  end.

(** The number of 64-bit words allocated; the buffer is freed afterwards. *)
Definition clear_bitmapSize (size : Z) : Z := u64 (u64 (size / PAGE_SIZE + 8) - 1) / 8.
Definition kvm_ClearDirtyPagesImpl (baseAddress size : Z) (vm : kvm_vm K)
    : DirtyPageTrackingStatus * kvm_vm K :=
  let '(status, (vm, _)) :=
    kvm_QueryDirtyPagesImpl baseAddress size new_bitmap (clear_bitmapSize size) (vm, fun _ => 0) in
  (status, vm).

#[export] Instance kvm_VMBackend : VMBackend (kvm_vm K) := {
  MapGuestMemoryImpl := kvm_MapGuestMemoryImpl;
  UnmapGuestMemoryImpl := default_UnmapGuestMemoryImpl;
  SetGuestMemoryFlagsImpl := kvm_SetGuestMemoryFlagsImpl;
  QueryDirtyPagesImpl := kvm_QueryDirtyPagesImpl;
  ClearDirtyPagesImpl := kvm_ClearDirtyPagesImpl
}.

(** ** Slots *)

(** The slot numbers are distinct and below the counter, which has not wrapped;
    and the platform's list is the base class's region list, in the same order. *)
Definition slots_inv (n : Z) (b : kvm_vm K) (rs : list MemoryRegion) : Prop :=
  0 <= m_memSlot b <= n
  /\ NoDup (slot <$> m_slots b) /\ Forall (fun r => 0 <= slot r < m_memSlot b) (m_slots b)
  /\ rs = (fun r => MkMemoryRegion (guest_phys_addr r) (memory_size r) (userspace_addr r)) <$> m_slots b.

Lemma erase_slot_last rgns r : Forall (fun x => slot x <> slot r) rgns ->
  erase_slot (slot r) (rgns ++ [r]) = rgns.
Proof.
  induction 1 as [|x rgns Hx _ IH]; cbn.
  - by rewrite Z.eqb_refl.
  - apply Z.eqb_neq in Hx as ->. by rewrite IH.
Qed.

Lemma slots_inv_map n base size flags memory b rs :
  slots_inv n b rs -> n < 2 ^ 32 - 1 ->
  let '(status, b') := kvm_MapGuestMemoryImpl base size flags memory b in
  slots_inv (n + 1) b' (match status with MM_OK => rs ++ [MkMemoryRegion base size memory] | _ => rs end)
  /\ (status <> MM_OK -> m_slots b' = m_slots b).
Proof.
  intros (Hc & Hn & Hf & Hr) Hlt. unfold kvm_MapGuestMemoryImpl.
  set (rgn := MkSlot _ _ _ _ _).
  assert (Hnot : Forall (fun x => slot x <> slot rgn) (m_slots b)).
  { eapply Forall_impl; [exact Hf|]. intros x Hx. cbn in Hx.
    change (slot rgn) with (m_memSlot b). lia. }
  assert (Hf' : Forall (fun r => 0 <= slot r < m_memSlot b + 1) (m_slots b)).
  { eapply Forall_impl; [exact Hf|]. cbn. lia. }
  destruct (KVM_SET_USER_MEMORY_REGION rgn (vm_kernel b)) as [[] k]; unfold slots_inv;
    cbn [m_memSlot m_slots].
  - rewrite u32_small by lia. split; [|done]. split_and!; [lia|lia| | |].
    + rewrite fmap_app. apply NoDup_app. split_and!; [done| |apply NoDup_singleton].
      intros x Hx. cbn. rewrite list_elem_of_singleton. intros ->.
      apply list_elem_of_fmap in Hx as (r & Hr1 & Hr2). rewrite Forall_forall in Hnot.
      by apply (Hnot r Hr2).
    + apply Forall_app. split; [done|]. apply Forall_singleton. cbn. lia.
    + rewrite fmap_app, Hr. done.
  - rewrite u32_small by lia. rewrite erase_slot_last by done. split; [|done].
    split_and!; [lia|lia|done|done|done].
Qed.

Lemma update_flags_spec base size flags rgns rgns' : update_flags base size flags rgns = Some rgns' ->
  slot <$> rgns' = slot <$> rgns
  /\ ((fun r => MkMemoryRegion (guest_phys_addr r) (memory_size r) (userspace_addr r)) <$> rgns')
     = ((fun r => MkMemoryRegion (guest_phys_addr r) (memory_size r) (userspace_addr r)) <$> rgns).
Proof.
  revert rgns'. induction rgns as [|r rgns IH]; intros rgns'; cbn; [done|].
  destruct (regionEquals r base size); [by intros [= <-]|].
  intros (l & Hl & ->)%fmap_Some. destruct (IH l Hl) as [IH1 IH2]. cbn. by rewrite IH1, IH2.
Qed.

(** Whether the range is found does not depend on the flags. *)
Lemma update_flags_None base size flags flags' rgns : update_flags base size flags' rgns = None ->
  update_flags base size flags rgns = None.
Proof.
  induction rgns as [|r rgns IH]; cbn; [done|]. destruct (regionEquals r base size); [done|].
  rewrite !fmap_None. exact IH.
Qed.

Lemma slots_inv_mono n n' b rs : n <= n' -> slots_inv n b rs -> slots_inv n' b rs.
Proof. intros Hn (H1 & H2). split; [lia|done]. Qed.

(** An operation that keeps the slot numbers and the ranges. *)
Lemma slots_inv_same n b b' rs : slots_inv n b rs -> m_memSlot b' = m_memSlot b ->
  slot <$> m_slots b' = slot <$> m_slots b ->
  ((fun r => MkMemoryRegion (guest_phys_addr r) (memory_size r) (userspace_addr r)) <$> m_slots b')
  = ((fun r => MkMemoryRegion (guest_phys_addr r) (memory_size r) (userspace_addr r)) <$> m_slots b) ->
  slots_inv n b' rs.
Proof.
  intros (H1 & H2 & H3 & H4) Hc Hs Hr. unfold slots_inv. rewrite Hc, Hs, Hr. split_and!; try done; try lia.
  assert (Hf : Forall (fun x => 0 <= x < m_memSlot b) (slot <$> m_slots b'))
    by (rewrite Hs; apply Forall_fmap; exact H3).
  by apply Forall_fmap in Hf.
Qed.

Lemma query_same base size bitmap bitmapSize b m :
  let '(_, (b', _)) := kvm_QueryDirtyPagesImpl base size bitmap bitmapSize (b, m) in
  m_memSlot b' = m_memSlot b /\ m_slots b' = m_slots b.
Proof.
  unfold kvm_QueryDirtyPagesImpl. destruct (List.find _ _); [|done].
  by destruct (KVM_GET_DIRTY_LOG _ _ _) as [? [? ?]].
Qed.

Lemma slots_step {V W} large mask n (s s' : VirtualMachine (kvm_vm K) V W * hmem) :
  vm_step large mask false false s s' -> n < 2 ^ 32 - 1 ->
  slots_inv n (m_backend s.1) (m_memoryRegions s.1) ->
  slots_inv (n + 1) (m_backend s'.1) (m_memoryRegions s'.1).
Proof.
  intros Hs Hn Hi. destruct Hs as
    [vm m base size flags memory|vm m base size st vm' _ _ _ _ He|vm m base size flags
    |vm m base size bitmap bitmapSize st vm' m' He|vm m base size|]; cbn in *;
    [|apply (slots_inv_mono n); [lia|]..].
  - unfold MapGuestMemory. repeat (case_if; [apply (slots_inv_mono n); [lia|done]|]). cbn.
    pose proof (slots_inv_map n base size flags memory _ _ Hi Hn) as Hm.
    destruct (kvm_MapGuestMemoryImpl base size flags memory (m_backend vm)) as [[] b'];
      destruct Hm as [Hm _]; exact Hm.
  - unfold UnmapGuestMemory in He. repeat (case_match_hyp He; [by injection He as <- <-|]).
    cbn in He. by injection He as <- <-.
  - unfold SetGuestMemoryFlags. repeat (case_if; [done|]). cbn. unfold kvm_SetGuestMemoryFlagsImpl.
    destruct (update_flags base size flags (m_slots (m_backend vm))) as [rgns|] eqn:Eu; [|done].
    destruct (update_flags_spec _ _ _ _ _ Eu) as [Eq1 Eq2].
    destruct (KVM_SET_USER_MEMORY_REGION _ _) as [ok k]. cbn. by eapply slots_inv_same.
  - unfold QueryDirtyPages in He. cbv zeta in He.
    repeat (case_match_hyp He; [by injection He as <- <- <-|]). cbn in He.
    pose proof (query_same base size bitmap bitmapSize (m_backend vm) m) as Hq.
    unfold kvm_QueryDirtyPagesImpl in *.
    destruct (List.find _ _); [|by injection He as <- <- <-].
    destruct (KVM_GET_DIRTY_LOG _ _ _) as [? [? ?]]. injection He as <- <- <-. done.
  - unfold ClearDirtyPages. repeat (case_if; [done|]). cbn. unfold kvm_ClearDirtyPagesImpl.
    pose proof (query_same base size new_bitmap (clear_bitmapSize size) (m_backend vm) (fun _ => 0)) as Hq.
    destruct (kvm_QueryDirtyPagesImpl _ _ _ _ _) as [st [b' m']]. destruct Hq as [H1 H2]. cbn.
    eapply slots_inv_same; [exact Hi|done|by rewrite H2|by rewrite H2].
  - done.
Qed.
End KvmVm.

(** ** Theorems on memory *)

(** C14: in every state that fewer than 2^32 - 1 calls reach on a KVM machine,
    whatever of them succeed, the slots of the mapped regions have different
    numbers below the counter, so that no call reuses the slot of another region,
    and the platform's list of slots is the base class's list of regions, entry by
    entry: the translation of [MemRead] and the kernel's are of the same
    ranges. *)
Theorem kvm_slots_invariant {K V W} `{KVMMachine K} it bm large mask n (k : K) m0
    (vm : VirtualMachine (kvm_vm K) V W) m :
  let _ := kvm_VMBackend it bm in
  nsteps (vm_step large mask false false) n (newVM (MkKvmVm 0 [] k), m0) (vm, m) -> Z.of_nat n < 2 ^ 32 - 1 ->
  let slots := m_slots (m_backend vm) in
  NoDup (slot <$> slots)
  /\ Forall (fun r => 0 <= slot r < m_memSlot (m_backend vm)) slots
  /\ m_memoryRegions vm
     = (fun r => MkMemoryRegion (guest_phys_addr r) (memory_size r) (userspace_addr r)) <$> slots.
Proof.
  intros B Hr Hn. assert (Hi : slots_inv (Z.of_nat n) (m_backend vm) (m_memoryRegions vm)).
  { change (slots_inv (Z.of_nat n) (m_backend (vm, m).1) (m_memoryRegions (vm, m).1)).
    revert Hr Hn. generalize (vm, m). clear vm m. induction n as [|n IH]; intros s Hr Hn.
    - inversion Hr; subst. unfold slots_inv; cbn. split_and!; try lia; constructor.
    - apply nsteps_inv_r in Hr as (s1 & H1 & H2).
      replace (Z.of_nat (S n)) with (Z.of_nat n + 1) by lia.
      eapply slots_step; [exact H2|lia|]. apply IH; [exact H1|lia]. }
  by destruct Hi as (_ & ? & ? & ?).
Qed.

(** What the kernel documents of [KVM_GET_DIRTY_LOG]: a bitmap of one bit per page of the slot, in
    words of 64 bits. *)
Definition kernel_bitmap_bytes (size : Z) : Z := 8 * ((size / PAGE_SIZE + 63) / 64).
Class KVMDirtyLog (K : Type) `{KVMMachine K} := {
  slot_size : K -> Z -> option Z;
  dirty_log_written s bitmap k m : let '(ok, (_, m')) := KVM_GET_DIRTY_LOG s bitmap (k, m) in
    ok = true -> exists size bs, slot_size k s = Some size
      /\ Z.of_nat (length bs) = kernel_bitmap_bytes size /\ m' = host_write m bitmap bs
}.

(** A kernel that keeps its slots by number.  It refuses a region with a user address of zero or one
    that overlaps another slot, and finds every page of a slot dirty. *)
Definition demo_machine : Type := gmap Z kvm_userspace_memory_region.
Definition apart (r r' : kvm_userspace_memory_region) : Prop :=
  guest_phys_addr r + memory_size r <= guest_phys_addr r'
  \/ guest_phys_addr r' + memory_size r' <= guest_phys_addr r.
#[global] Instance apart_dec r r' : Decision (apart r r').
Proof. unfold apart. apply _. Defined.
Definition slot_free (r : kvm_userspace_memory_region) (k : demo_machine) : Prop :=
  map_Forall (fun s r' => s = slot r \/ apart r r') k.
#[global] Instance slot_free_dec r k : Decision (slot_free r k).
Proof. unfold slot_free. apply _. Defined.
Definition demo_KVMMachine : KVMMachine demo_machine := {|
  KVM_SET_USER_MEMORY_REGION r k :=
    if (userspace_addr r =? 0) || negb (bool_decide (slot_free r k)) then (false, k)
    else (true, <[slot r := r]> k);
  KVM_GET_DIRTY_LOG s p km :=
    match km.1 !! s with
    | None => (false, km)
    | Some r => (true, (km.1, host_write km.2 p
                                (replicate (Z.to_nat (kernel_bitmap_bytes (memory_size r))) 0xFF)))
    end;
  KVM_MEM_READONLY := 2; KVM_MEM_LOG_DIRTY_PAGES := 1
|}.
#[local] Existing Instance demo_KVMMachine.
Definition demo_KVMDirtyLog : KVMDirtyLog demo_machine.
Proof.
  refine {| slot_size k s := Z.max 0 ∘ memory_size <$> k !! s |}. intros s p k m. cbn.
  destruct (k !! s) as [r|]; cbn; [|done]. intros _. eexists _, _. split; [done|].
  split; [|reflexivity]. rewrite length_replicate.
  assert (0 <= kernel_bitmap_bytes (Z.max 0 (memory_size r))
          /\ Z.max 0 (kernel_bitmap_bytes (memory_size r)) = kernel_bitmap_bytes (Z.max 0 (memory_size r))) as [? <-]; [|lia].
  unfold kernel_bitmap_bytes, PAGE_SIZE. destruct (Z.max_spec 0 (memory_size r)) as [[? ->]|[? ->]]; zlia.
Defined.
Definition demo_iterator : kvm_userspace_memory_region := MkSlot 7 7 7 7 7.

(** Two maps, the second of which the kernel refuses. *)
Lemma kvm_slots_invariant_witness :
  let B := kvm_VMBackend demo_iterator 0 in
  let m0 : hmem := fun _ => 0 in
  let vm0 : VirtualMachine (kvm_vm demo_machine) nat nat := newVM (MkKvmVm 0 [] (∅ : demo_machine)) in
  let vm1 := snd (MapGuestMemory true (Z.ones 40) 0x1000 0x1000 7 0x7000 vm0) in
  let vm2 := snd (MapGuestMemory true (Z.ones 40) 0x3000 0x1000 7 0 vm1) in
  m_memSlot (m_backend vm2) = 2 /\ m_memoryRegions vm2 = [MkMemoryRegion 0x1000 0x1000 0x7000]
  /\ m_memoryRegions vm2
     = (fun r => MkMemoryRegion (guest_phys_addr r) (memory_size r) (userspace_addr r))
         <$> m_slots (m_backend vm2).
Proof.
  intros B m0 vm0 vm1 vm2. split; [reflexivity|]. split; [reflexivity|].
  refine (proj2 (proj2 (kvm_slots_invariant demo_iterator 0 true (Z.ones 40) 2 (∅ : demo_machine) m0
    vm2 m0 _ _))); [|reflexivity].
  eapply nsteps_l; [apply (step_map true (Z.ones 40) false false vm0 m0 0x1000 0x1000 7 0x7000); (lia || done)|].
  eapply nsteps_l; [apply (step_map true (Z.ones 40) false false vm1 m0 0x3000 0x1000 7 0); (lia || done)|]. constructor.
Defined.

(** [SetGuestMemoryFlagsImpl] does not change what the kernel knows of a
    region: whatever the flags, the kernel is given the bytes at the address of a
    local iterator, so the state of the kernel and the status are the same for any
    two values of the flags, while the platform's list records the flags; and the
    status is OK for every found range if the kernel accepts those bytes. *)
Theorem kvm_set_flags_passes_no_flags {K} `{KVMMachine K} it base size flags flags' (vm : kvm_vm K) :
  let '(status, vm1) := kvm_SetGuestMemoryFlagsImpl it base size flags vm in
  let '(status', vm2) := kvm_SetGuestMemoryFlagsImpl it base size flags' vm in
  status = status' /\ vm_kernel vm1 = vm_kernel vm2
  /\ (vm_kernel vm1 = vm_kernel vm
      \/ vm_kernel vm1 = snd (KVM_SET_USER_MEMORY_REGION it (vm_kernel vm)))
  /\ (status <> MM_InvalidRange -> exists r, r ∈ m_slots vm1 /\ regionEquals r base size = true
        /\ sl_flags r = slot_flags flags).
Proof.
  unfold kvm_SetGuestMemoryFlagsImpl.
  assert (Hs : is_Some (update_flags base size flags (m_slots vm))
               <-> is_Some (update_flags base size flags' (m_slots vm))).
  { induction (m_slots vm) as [|r l IH]; cbn; [done|]. destruct (regionEquals r base size); [done|].
    by rewrite !fmap_is_Some. }
  destruct (update_flags base size flags (m_slots vm)) as [rgns|] eqn:E1;
    destruct (update_flags base size flags' (m_slots vm)) as [rgns'|] eqn:E2;
    [|by destruct (proj1 Hs ltac:(done))|by destruct (proj2 Hs ltac:(done))|].
  - destruct (KVM_SET_USER_MEMORY_REGION it (vm_kernel vm)) as [ok k] eqn:Ek. cbn.
    split; [done|]. split; [done|]. split; [by right|]. intros _.
    clear -E1. revert rgns E1. induction (m_slots vm) as [|r l IH]; intros rgns; cbn; [done|].
    destruct (regionEquals r base size) eqn:Er.
    + intros [= <-]. eexists. split; [apply list_elem_of_here|]. done.
    + intros (l' & Hl & ->)%fmap_Some. destruct (IH _ Hl) as (x & Hx & Hx').
      exists x. split; [by apply list_elem_of_further|done].
  - cbn. split; [done|]. split; [done|]. split; [by left|]. done.
Qed.

Definition required_bytes (size : Z) : Z := u64 (u64 (size / PAGE_SIZE + 8) - 1) / 8.

(** C38: [QueryDirtyPages] accepts a bitmap of one bit per page rounded up to
    bytes, but the kernel writes whole 64-bit words: for a range of [n] pages with
    [n mod 64] between 1 and 56 a bitmap of the required size is accepted, the
    kernel is handed its address, and it writes more bytes than the caller said
    there are.  When the kernel answers for a slot of the range's size, the host memory
    after the call is that before it with so many bytes written at the bitmap.  The bitmap that
    [ClearDirtyPages] allocates is always large enough. *)
Theorem kvm_dirty_bitmap_bounds {K V W} `{KVMMachine K} it bm (vm : VirtualMachine (kvm_vm K) V W)
    base size bitmap m r :
  let _ := kvm_VMBackend it bm in
  0 < size < 2 ^ 64 -> page_aligned base -> page_aligned size -> bitmap mod 8 = 0 ->
  List.find (fun r => regionEquals r base size) (m_slots (m_backend vm)) = Some r ->
  (required_bytes size < kernel_bitmap_bytes size <-> 1 <= (size / PAGE_SIZE) mod 64 <= 56)
  /\ kernel_bitmap_bytes size <= 8 * clear_bitmapSize size
  /\ (let '(status, vm', m') := QueryDirtyPages base size bitmap (required_bytes size) vm m in
      let '(ok, (k', m'')) := KVM_GET_DIRTY_LOG (slot r) bitmap (vm_kernel (m_backend vm), m) in
      status = (if ok then DP_OK else DP_Failed) /\ m' = m'' /\ vm_kernel (m_backend vm') = k')
  /\ (forall (L : KVMDirtyLog K) vm' m',
      slot_size (vm_kernel (m_backend vm)) (slot r) = Some size ->
      QueryDirtyPages base size bitmap (required_bytes size) vm m = (DP_OK, vm', m') ->
      exists bs, m' = host_write m bitmap bs /\ Z.of_nat (length bs) = kernel_bitmap_bytes size).
Proof.
  intros B Hs Hb Ha Hbm Hf. unfold required_bytes, kernel_bitmap_bytes, clear_bitmapSize.
  assert (Hp : 0 < size / PAGE_SIZE < 2 ^ 52).
  { unfold page_aligned, PAGE_SIZE in *. zlia. }
  assert (Hu : u64 (u64 (size / PAGE_SIZE + 8) - 1) = size / PAGE_SIZE + 7).
  { rewrite (u64_small (_ + 8)) by lia. rewrite u64_small; lia. }
  assert (Hq : let '(status, vm', m') := QueryDirtyPages base size bitmap (u64 (u64 (size / PAGE_SIZE + 8) - 1) / 8) vm m in
      let '(ok, (k', m'')) := KVM_GET_DIRTY_LOG (slot r) bitmap (vm_kernel (m_backend vm), m) in
      status = (if ok then DP_OK else DP_Failed) /\ m' = m'' /\ vm_kernel (m_backend vm') = k').
  { unfold QueryDirtyPages. apply nz_fff in Hb as ->.
    rewrite (proj2 (Z.eqb_neq size 0)) by lia. apply nz_fff in Ha as ->.
    assert (nz (bitmap &&& 0x7) = false) as ->.
    { unfold nz. change 7 with (Z.ones 3). rewrite Z.land_ones by lia. change (2 ^ 3) with 8.
      by rewrite Hbm. }
    cbv zeta. rewrite Z.ltb_irrefl. cbn [QueryDirtyPagesImpl B kvm_VMBackend].
    unfold kvm_QueryDirtyPagesImpl. rewrite Hf.
    destruct (KVM_GET_DIRTY_LOG _ _ _) as [ok [k' m'']]. by destruct ok. }
  rewrite Hu in Hq. rewrite Hu. split; [|split; [|split; [exact Hq|]]].
  - generalize (size / PAGE_SIZE). intros n. zlia.
  - generalize dependent (size / PAGE_SIZE). intros n Hn _. zlia.
  - intros L vm' m' Hsz E. rewrite E in Hq.
    pose proof (dirty_log_written (slot r) bitmap (vm_kernel (m_backend vm)) m) as Hw.
    destruct (KVM_GET_DIRTY_LOG _ _ _) as [ok [k' m'']]. destruct Hq as (Hst & -> & _).
    destruct ok; [|done]. destruct (Hw eq_refl) as (size' & bs & Hs' & Hlen & ->). rewrite Hs' in Hsz.
    injection Hsz as ->. by exists bs.
Qed.

(** One page: a bitmap of one byte at 0x8000 is accepted, and eight bytes are written. *)
Lemma kvm_dirty_bitmap_bounds_witness :
  let B := kvm_VMBackend demo_iterator 0 in
  let r := MkSlot 0 1 0x1000 0x1000 0x7000 in
  let vm : VirtualMachine (kvm_vm demo_machine) nat nat := newVM (MkKvmVm 1 [r] {[0 := r]}) in
  let m0 : hmem := fun _ => 0 in
  required_bytes 0x1000 = 1 /\ kernel_bitmap_bytes 0x1000 = 8
  /\ exists vm' m' bs, QueryDirtyPages 0x1000 0x1000 0x8000 1 vm m0 = (DP_OK, vm', m')
     /\ m' = host_write m0 0x8000 bs /\ length bs = 8%nat /\ m' 0x8007 = 0xFF.
Proof.
  intros B r vm m0. split; [reflexivity|]. split; [reflexivity|].
  pose proof (kvm_dirty_bitmap_bounds demo_iterator 0 vm 0x1000 0x1000 0x8000 m0
    r ltac:(lia) eq_refl eq_refl eq_refl eq_refl) as (_ & _ & _ & Hl).
  change (required_bytes 0x1000) with 1 in Hl.
  eexists _, _. destruct (Hl demo_KVMDirtyLog _ _ eq_refl eq_refl) as (bs & E & Hlen).
  exists bs. split; [reflexivity|]. split; [exact E|]. split; [|reflexivity].
  change (kernel_bitmap_bytes 0x1000) with 8 in Hlen. lia.
Defined.
