(* ===== verification/Platform.v ===== *)
(** * Platforms and the host (platform/features.hpp, platform/platform.cpp,
    util/host_info.cpp)

    The feature enumerations and record, the host information derived from CPUID
    and the platform's list of virtual machines. *)
From S2P Require Import Prelude.

(** ** platform/features.hpp

    [FloatingPointExtension] has the underlying type int64_t.  The initialiser of
    [FXSAVE] is a shift of the 32-bit int 1 into the sign bit. *)
Definition FP_None : Z := 0.
Definition FP_MMX : Z := 1 <<< 0.
Definition FP_SSE : Z := 1 <<< 1.
Definition FP_SSE2 : Z := 1 <<< 2.
Definition FP_SSE3 : Z := 1 <<< 3.
Definition FP_SSSE3 : Z := 1 <<< 4.
Definition FP_SSE4_1 : Z := 1 <<< 5.
Definition FP_SSE4_2 : Z := 1 <<< 6.
Definition FP_SSE4a : Z := 1 <<< 7.
Definition FP_XOP : Z := 1 <<< 8.
Definition FP_F16C : Z := 1 <<< 9.
Definition FP_FMA4 : Z := 1 <<< 10.
Definition FP_AVX : Z := 1 <<< 11.
Definition FP_FMA3 : Z := 1 <<< 12.
Definition FP_AVX2 : Z := 1 <<< 13.
Definition FP_AVX512F : Z := 1 <<< 14.
Definition FP_AVX512DQ : Z := 1 <<< 15.
Definition FP_AVX512IFMA : Z := 1 <<< 16.
Definition FP_AVX512PF : Z := 1 <<< 17.
Definition FP_AVX512ER : Z := 1 <<< 18.
Definition FP_AVX512CD : Z := 1 <<< 19.
Definition FP_AVX512BW : Z := 1 <<< 20.
Definition FP_AVX512VL : Z := 1 <<< 21.
Definition FP_AVX512VBMI : Z := 1 <<< 22.
Definition FP_AVX512VBMI2 : Z := 1 <<< 23.
Definition FP_AVX512GFNI : Z := 1 <<< 24.
Definition FP_AVX512VAES : Z := 1 <<< 25.
Definition FP_AVX512VNNI : Z := 1 <<< 26.
Definition FP_AVX512BITALG : Z := 1 <<< 27.
Definition FP_AVX512VPOPCNTDQ : Z := 1 <<< 28.
Definition FP_AVX512QVNNIW : Z := 1 <<< 29.
Definition FP_AVX512QFMA : Z := 1 <<< 30.
Definition FP_FXSAVE : Z := s32 (1 <<< 31).
Definition FP_XSAVE : Z := 1 <<< 32.

Definition ECR_None : Z := 0.
Definition ECR_XCR0 : Z := 1 <<< 0.
Definition ECR_CR8 : Z := 1 <<< 1.
Definition ECR_MXCSRMask : Z := 1 <<< 2.

Definition EVE_None : Z := 0.
Definition EVE_CPUID : Z := 1 <<< 0.
Definition EVE_MSRAccess : Z := 1 <<< 1.
Definition EVE_Exception : Z := 1 <<< 2.
Definition EVE_TSCAccess : Z := 1 <<< 3.

(** vp/exception.hpp *)
Definition ExceptionCode_None : Z := 0.
Definition ExceptionCode_All : Z := (1 <<< 20) - 1.

(** vp/cpuid.hpp *)
Record CPUIDResult := MkCPUID { cpuid_function : Z; eax : Z; ebx : Z; ecx : Z; edx : Z }.

(** [guestPhysicalAddress] has no initialiser: [uninit] is its contents. *)
Record GPAFeatures := MkGPA { maxBits : Z; maxAddress : Z; gpa_mask : Z }.
Record PlatformFeatures := MkFeatures {
  maxProcessorsGlobal : Z; maxProcessorsPerVM : Z; guestPhysicalAddress : GPAFeatures;
  unrestrictedGuest : bool; extendedPageTables : bool; guestDebugging : bool;
  guestMemoryProtection : bool; dirtyPageTracking : bool; partialDirtyBitmap : bool;
  largeMemoryAllocation : bool; memoryAliasing : bool; memoryUnmapping : bool;
  partialUnmapping : bool; partialMMIOInstructions : bool;
  floatingPointExtensions : Z; extendedControlRegisters : Z; extendedVMExits : Z;
  exceptionExits : Z; customCPUIDs : bool; supportedCustomCPUIDs : list CPUIDResult;
  guestTSCScaling : bool
}.
Definition default_features (uninit : GPAFeatures) : PlatformFeatures :=
  MkFeatures 0 0 uninit false false false false false false false false false false false
    FP_None ECR_None EVE_None ExceptionCode_None false [] false.

(** ** util/host_info.cpp

    [cpuid] is what the instruction returns, as EAX, EBX, ECX and EDX. *)
Definition cpuid_regs : Type := Z * Z * Z * Z.

Definition getMaxGPABits (cpuid : Z -> cpuid_regs) : Z :=
  let '(eax, _, _, _) := cpuid 0x80000008 in
  let maxGPABits := u8 (eax >>> 16) in
  if negb (maxGPABits =? 0) then maxGPABits else u8 eax.

(** The local variables of [getFPExts]. *)
Record fp_leaves := MkLeaves { ecx1 : Z; edx1 : Z; ebx7 : Z; ecx7 : Z; edx7 : Z; ecx81 : Z }.
Definition read_leaves (cpuid : Z -> cpuid_regs) : fp_leaves :=
  let '(_, _, c1, d1) := cpuid 0x1 in
  let '(_, b7, c7, d7) := cpuid 0x7 in
  let '(_, _, c81, _) := cpuid 0x80000001 in
  MkLeaves c1 d1 b7 c7 d7 c81.
(** The tests, in order: the register, the bit and the extension. *)
Abbreviation fp_test := ((fp_leaves -> Z) * Z * Z)%type (only parsing).
Definition fp_tests : list fp_test :=
  [(fun l => edx1 l, 23, FP_MMX); (fun l => edx1 l, 25, FP_SSE);
   (fun l => edx1 l, 26, FP_SSE2); (fun l => ecx1 l, 0, FP_SSE3);
   (fun l => ecx1 l, 9, FP_SSSE3); (fun l => ecx1 l, 19, FP_SSE4_1);
   (fun l => ecx1 l, 20, FP_SSE4_2); (fun l => ecx81 l, 6, FP_SSE4a);
   (fun l => ecx81 l, 11, FP_XOP); (fun l => ecx1 l, 29, FP_F16C);
   (fun l => ecx81 l, 16, FP_FMA4); (fun l => ecx1 l, 28, FP_AVX);
   (fun l => ecx1 l, 12, FP_FMA3); (fun l => ebx7 l, 5, FP_AVX2);
   (fun l => ebx7 l, 16, FP_AVX512F); (fun l => ebx7 l, 17, FP_AVX512DQ);
   (fun l => ebx7 l, 21, FP_AVX512IFMA); (fun l => ebx7 l, 26, FP_AVX512PF);
   (fun l => ebx7 l, 27, FP_AVX512ER); (fun l => ebx7 l, 28, FP_AVX512CD);
   (fun l => ebx7 l, 30, FP_AVX512BW); (fun l => ebx7 l, 31, FP_AVX512VL);
   (fun l => ecx7 l, 1, FP_AVX512VBMI); (fun l => ecx7 l, 6, FP_AVX512VBMI2);
   (fun l => ecx7 l, 8, FP_AVX512GFNI); (fun l => ecx7 l, 9, FP_AVX512VAES);
   (fun l => ecx7 l, 11, FP_AVX512VNNI); (fun l => ecx7 l, 12, FP_AVX512BITALG);
   (fun l => ecx7 l, 14, FP_AVX512VPOPCNTDQ); (fun l => edx7 l, 2, FP_AVX512QVNNIW);
   (fun l => edx7 l, 3, FP_AVX512QFMA); (fun l => edx1 l, 24, FP_FXSAVE);
   (fun l => ecx1 l, 26, FP_XSAVE)].
Definition fp_step (l : fp_leaves) (result : Z) (t : fp_test) : Z :=
  let '(reg, b, ext) := t in if nz (reg l &&& (1 <<< b)) then result ||| ext else result.
Definition getFPExts (cpuid : Z -> cpuid_regs) : Z :=
  fold_left (fp_step (read_leaves cpuid)) fp_tests FP_None.

Record HostInfo := MkHostInfo { gpa : GPAFeatures; host_fp : Z }.
Definition newHostInfo (cpuid : Z -> cpuid_regs) : HostInfo :=
  let bits := getMaxGPABits cpuid in
  let maxAddress := u64 (1 <<< bits) in
  MkHostInfo (MkGPA bits maxAddress (u64 (maxAddress - 1))) (getFPExts cpuid).

(** ** platform/platform.cpp *)
Inductive PlatformInitStatus := PI_Uninitialized | PI_OK | PI_Unavailable | PI_Unsupported | PI_Failed.

(** [V] is the type of virtual machines (their addresses), [S] a specification. *)
Section Platform.
Context {V S : Type} `{EqDecision V}.
Record Platform := MkPlatform {
  m_initStatus : PlatformInitStatus; m_features : PlatformFeatures; m_vms : list V
}.
Definition newPlatform (uninit : GPAFeatures) : Platform :=
  MkPlatform PI_Uninitialized (default_features uninit) [].
Definition set_vms (vms : list V) (p : Platform) : Platform :=
  MkPlatform (m_initStatus p) (m_features p) vms.

Definition CreateVM (CreateVMImpl : S -> option V) (specifications : S) (p : Platform)
    : option V * Platform :=
  match CreateVMImpl specifications with
  | Some vm => (Some vm, set_vms (m_vms p ++ [vm]) p)
  | None => (None, p)
  end.
Fixpoint erase_vm (vm : V) (vms : list V) : option (list V) :=
  match vms with
  | [] => None
  | v :: vms => if decide (v = vm) then Some vms else cons v <$> erase_vm vm vms
  end.
Definition FreeVM (vm : V) (p : Platform) : bool * Platform :=
  match erase_vm vm (m_vms p) with
  | Some vms => (true, set_vms vms p)
  | None => (false, p)
  end.
Definition DestroyVMs (p : Platform) : Platform := set_vms [] p.
End Platform.
Arguments Platform : clear implicits.

(** ** Facts *)

Definition fp_ext (t : fp_test) : Z := snd t.
Definition fp_cond (l : fp_leaves) (t : fp_test) : bool := nz (fst (fst t) l &&& (1 <<< snd (fst t))).

(** A bit of the result comes from a test that succeeds. *)
Lemma fp_fold_testbit l tests acc i : 0 <= i ->
  Z.testbit (fold_left (fp_step l) tests acc) i
  = Z.testbit acc i
    || existsb (fun t => fp_cond l t && Z.testbit (fp_ext t) i) tests.
Proof.
  intros Hi. revert acc. induction tests as [|[[reg b] ext] tests IH]; intros acc; cbn [fold_left existsb].
  - by rewrite orb_false_r.
  - rewrite IH. unfold fp_step, fp_cond, fp_ext. cbn [fst snd].
    destruct (nz _); cbn [andb]; [|done]. rewrite Z.lor_spec. by rewrite orb_assoc.
Qed.

(** A disjunction in which only one row's bit counts. *)
Lemma existsb_row {A} (c b : A -> bool) rows n t : rows !! n = Some t -> b t = true ->
  (forall m t', rows !! m = Some t' -> m <> n -> b t' = false) ->
  existsb (fun t => c t && b t) rows = c t.
Proof.
  revert n. induction rows as [|r rows IH]; intros n Hn Ht Ho; [done|]. cbn [existsb].
  destruct n as [|n].
  - injection Hn as ->. rewrite Ht, andb_true_r.
    assert (existsb (fun t => c t && b t) rows = false) as ->; [|by rewrite orb_false_r].
    apply not_true_is_false. intros (x & Hx & Hb)%existsb_exists.
    apply list_elem_of_In, list_elem_of_lookup in Hx as [m Hm].
    rewrite (Ho (Datatypes.S m) x Hm), andb_false_r in Hb by done. done.
  - rewrite (Ho 0%nat r eq_refl), andb_false_r by done. apply (IH n); [done..|].
    intros m t' Hm Hne. apply (Ho (Datatypes.S m)); [done|congruence].
Qed.

(** The first 31 extensions are the bits 0 to 30, and no other has those bits. *)
Lemma fp_ext_bits n m t : (n < 31)%nat -> fp_tests !! m = Some t ->
  Z.testbit (fp_ext t) (Z.of_nat n) = (m =? n)%nat.
Proof.
  intros Hn Hm. assert (Ht : (fp_ext <$> fp_tests) !! m = Some (fp_ext t)) by (by rewrite list_lookup_fmap, Hm).
  assert (Hall : forallb (fun n => forallb (fun '(m, e) => Bool.eqb (Z.testbit e (Z.of_nat n)) (m =? n)%nat)
    (imap pair (fp_ext <$> fp_tests))) (seq 0 31) = true) by (vm_compute; reflexivity).
  rewrite forallb_forall in Hall. specialize (Hall n ltac:(apply in_seq; lia)).
  rewrite forallb_forall in Hall. specialize (Hall (m, fp_ext t)).
  apply Bool.eqb_prop. apply Hall. apply list_elem_of_In, list_elem_of_lookup. exists m.
  rewrite list_lookup_imap, Ht. done.
Qed.

Lemma fp_bit_nonneg n reg b ext : fp_tests !! n = Some (reg, b, ext) -> 0 <= b.
Proof.
  intros Hn. assert (Hb : ((fun t : fp_test => snd (fst t)) <$> fp_tests) !! n = Some b)
    by (by rewrite list_lookup_fmap, Hn).
  apply list_elem_of_lookup_2 in Hb. revert b Hb Hn. intros b Hb _.
  assert (Hall : Forall (fun b => 0 <= b) ((fun t : fp_test => snd (fst t)) <$> fp_tests))
    by (unfold fp_tests; cbn; repeat constructor; lia).
  rewrite Forall_forall in Hall. by apply Hall.
Qed.

Lemma fp_bit_sign l i : 31 <= i ->
  Z.testbit (fold_left (fp_step l) fp_tests FP_None) i
  = bit 24 (edx1 l) || (bit 26 (ecx1 l) && (i =? 32)).
Proof.
  intros Hi. rewrite fp_fold_testbit by lia. unfold FP_None. rewrite Z.bits_0, orb_false_l.
  assert (Hlow : forall k, 0 <= k < 31 -> Z.testbit (1 <<< k) i = false)
    by (intros; rewrite Z.shiftl_1_l; apply Z.pow2_bits_false; lia).
  unfold fp_tests. cbn [existsb]. unfold fp_cond, fp_ext. cbn [fst snd].
  repeat match goal with
  | |- context [Z.testbit ?c i] => progress unfold c; rewrite Hlow by lia
  end.
  rewrite !andb_false_r, !orb_false_l, orb_false_r, !nz_land_bit by lia.
  assert (Z.testbit FP_FXSAVE i = true) as ->.
  { change FP_FXSAVE with (- 2 ^ 31). rewrite Z.bits_opp by lia.
    rewrite (testbit_range (Z.pred (2 ^ 31)) 31 i) by lia. done. }
  assert (Z.testbit FP_XSAVE i = (i =? 32)) as ->; [|by rewrite andb_true_r].
  unfold FP_XSAVE. rewrite Z.shiftl_1_l. destruct (Z.eqb_spec i 32) as [->|Hne]; [done|].
  apply Z.pow2_bits_false; lia.
Qed.

Lemma fp_ext_value n t : (n < 31)%nat -> fp_tests !! n = Some t -> fp_ext t = 1 <<< Z.of_nat n.
Proof.
  intros Hlt Hn.
  assert (Ht : (fp_ext <$> fp_tests) !! n = Some (fp_ext t)) by (by rewrite list_lookup_fmap, Hn).
  assert (Hall : forallb (fun n => bool_decide ((fp_ext <$> fp_tests) !! n = Some (1 <<< Z.of_nat n)))
    (seq 0 31) = true) by (vm_compute; reflexivity).
  rewrite forallb_forall in Hall. specialize (Hall n ltac:(apply in_seq; lia)).
  apply bool_decide_eq_true in Hall. rewrite Ht in Hall. by injection Hall.
Qed.

Lemma fp_row l n t : (n < 31)%nat -> fp_tests !! n = Some t ->
  existsb (fun t => fp_cond l t && Z.testbit (fp_ext t) (Z.of_nat n)) fp_tests = fp_cond l t.
Proof.
  intros Hlt Hn.
  apply (existsb_row (fp_cond l) (fun t => Z.testbit (fp_ext t) (Z.of_nat n)) fp_tests n t Hn).
  - rewrite (fp_ext_bits n n t Hlt Hn). apply Nat.eqb_refl.
  - intros m t' Hm Hne. rewrite (fp_ext_bits n m t' Hlt Hm). by apply Nat.eqb_neq.
Qed.

Lemma fp_low_bit l n t : (n < 31)%nat -> fp_tests !! n = Some t ->
  Z.testbit (fold_left (fp_step l) fp_tests FP_None) (Z.of_nat n) = fp_cond l t.
Proof.
  intros Hlt Hn. rewrite fp_fold_testbit, (fp_row l n t) by (done || lia).
  unfold FP_None. rewrite Z.bits_0. apply orb_false_l.
Qed.

Lemma fp_low_extension cpuid n t : (n < 31)%nat -> fp_tests !! n = Some t ->
  nz (getFPExts cpuid &&& fp_ext t) = fp_cond (read_leaves cpuid) t.
Proof.
  intros Hlt Hn. rewrite (fp_ext_value n t), nz_land_bit by (done || lia).
  exact (fp_low_bit (read_leaves cpuid) n t Hlt Hn).
Qed.

(** [FXSAVE] is every bit from 31 up. *)
Lemma fp_fxsave_testbit i : 0 <= i -> Z.testbit FP_FXSAVE i = (31 <=? i).
Proof.
  intros Hi. change FP_FXSAVE with (Z.lnot (Z.ones 31)).
  rewrite Z.lnot_spec, Z.testbit_ones_nonneg by lia. destruct (Z.ltb_spec i 31), (Z.leb_spec 31 i); lia || done.
Qed.

Lemma fp_high_bit cpuid i : 31 <= i -> Z.testbit (getFPExts cpuid) i
  = bit 24 (edx1 (read_leaves cpuid)) || (bit 26 (ecx1 (read_leaves cpuid)) && (i =? 32)).
Proof. intros Hi. unfold getFPExts. exact (fp_bit_sign (read_leaves cpuid) i Hi). Qed.

Lemma fp_fxsave cpuid : nz (getFPExts cpuid &&& FP_FXSAVE)
  = bit 24 (edx1 (read_leaves cpuid)) || bit 26 (ecx1 (read_leaves cpuid)).
Proof.
  pose proof (fp_high_bit cpuid) as Hhigh. revert Hhigh. generalize (getFPExts cpuid) as r.
  generalize (bit 24 (edx1 (read_leaves cpuid))) as a, (bit 26 (ecx1 (read_leaves cpuid))) as b.
  intros a b r Hr. unfold nz. destruct (Z.eqb_spec (r &&& FP_FXSAVE) 0) as [E|Hne]; cbn [negb].
  - apply (f_equal (fun z => Z.testbit z 32)) in E.
    rewrite Z.land_spec, Z.bits_0, fp_fxsave_testbit, Hr in E by lia. by destruct a, b.
  - destruct a, b; try done. exfalso. apply Hne. apply Z.bits_inj'. intros i Hi.
    rewrite Z.land_spec, Z.bits_0, fp_fxsave_testbit by lia.
    destruct (Z.leb_spec 31 i); [by rewrite Hr|apply andb_false_r].
Qed.

Lemma fp_xsave cpuid : nz (getFPExts cpuid &&& FP_XSAVE)
  = bit 24 (edx1 (read_leaves cpuid)) || bit 26 (ecx1 (read_leaves cpuid)).
Proof.
  unfold FP_XSAVE. rewrite nz_land_bit by lia. unfold bit at 1. rewrite fp_high_bit by lia.
  change (32 =? 32) with true. by rewrite andb_true_r.
Qed.

(** The floating-point extensions of the host.  Each extension from MMX to
    AVX512QFMA is reported exactly when its CPUID bit is set; but the value of
    [FXSAVE] is a sign-extended 32-bit constant that contains all bits from 31 up,
    [XSAVE] among them: both [FXSAVE] and [XSAVE] test as present exactly when the
    processor has either. *)
Theorem host_fp_extensions cpuid :
  let l := read_leaves cpuid in
  let r := getFPExts cpuid in
  (forall n reg b ext, take 31 fp_tests !! n = Some (reg, b, ext) -> nz (r &&& ext) = bit b (reg l))
  /\ nz (r &&& FP_FXSAVE) = bit 24 (edx1 l) || bit 26 (ecx1 l)
  /\ nz (r &&& FP_XSAVE) = bit 24 (edx1 l) || bit 26 (ecx1 l).
Proof.
  intros l r. split.
  { intros n reg b ext [Hn Hlt]%lookup_take_Some.
    rewrite <- (nz_land_bit (reg l) b) by (by eapply fp_bit_nonneg).
    exact (fp_low_extension cpuid n (reg, b, ext) Hlt Hn). }
  split; [apply fp_fxsave|apply fp_xsave].
Qed.

(** [FreeVM] removes the machine from the platform's list if it is there. *)
Lemma erase_vm_spec {V} `{EqDecision V} (vm : V) vms :
  match erase_vm vm vms with
  | Some vms' => exists l1 l2, vms = l1 ++ vm :: l2 /\ vms' = l1 ++ l2 /\ vm ∉ l1
  | None => vm ∉ vms
  end.
Proof.
  induction vms as [|v vms IH]; cbn; [apply not_elem_of_nil|].
  destruct (decide (v = vm)) as [->|Hne]; [by exists [], vms; split_and!; [..|apply not_elem_of_nil]|].
  destruct (erase_vm vm vms) as [vms'|]; cbn.
  - destruct IH as (l1 & l2 & -> & -> & Hn). exists (v :: l1), l2. split_and!; [done..|].
    apply not_elem_of_cons. by split.
  - apply not_elem_of_cons. by split.
Qed.
