(* ===== verification/KvmCreate.v ===== *)
(** * Creation of KVM objects (kvm_platform.cpp, kvm_vm.cpp and kvm_vp.cpp,
    [Initialize])

    The probing of the platform's capabilities with the loop that fetches the
    supported CPUID entries; the creation of a machine and of a processor with its
    table of CPUID answers.  The kernel is the class [KVMCreation], whose
    operations return the results of the ioctls. *)
From stdpp Require Import gmap.
From S2P Require Import Prelude Bits Platform.

(** An entry of [kvm_cpuid2]. *)
Record kvm_cpuid_entry2 := MkEntry {
  e_function : Z; e_index : Z; e_flags : Z; e_eax : Z; e_ebx : Z; e_ecx : Z; e_edx : Z
}.

(** ** The CPUID table of a processor (kvm_vp.cpp) *)
Section Cpuid.
Context (KVM_CPUID_FLAG_SIGNIFCANT_INDEX : Z).

(** The two loops count the leaf index alike: [last_func] and [leaf_index] are
    their state. *)
Fixpoint number_leaves (last_func leaf_index : Z) (l : list CPUIDResult)
    : list (Z * CPUIDResult) :=
  match l with
  | [] => []
  | entry :: l =>
      let leaf_index := if cpuid_function entry =? last_func then u64 (leaf_index + 1) else 0 in
      (leaf_index, entry) :: number_leaves (cpuid_function entry) leaf_index l
  end.
Definition custom_key (entry : Z * CPUIDResult) : Z :=
  cpuid_function (snd entry) ||| u64 (fst entry <<< 32).
(** Build unordered map from custom CPUID entries. *)
Definition custom_cpuids (cpuids : list CPUIDResult) : gmap Z CPUIDResult :=
  fold_left (fun m e => <[custom_key e := snd e]> m) (number_leaves 0xFFFFFFFF 0 cpuids) ∅.
(** Build list of CPUID responses based on default and custom values. *)
Definition cpuid_entry (custom : gmap Z CPUIDResult) (e : Z * CPUIDResult) : kvm_cpuid_entry2 :=
  let entry := snd e in
  let f := cpuid_function entry in
  let flags := if (f =? 0x4) || (f =? 0x7) || (f =? 0xb) || (f =? 0xd)
               then 0 ||| KVM_CPUID_FLAG_SIGNIFCANT_INDEX else 0 in
  let answer := default entry (custom !! custom_key e) in
  MkEntry f (u32 (fst e)) flags (eax answer) (ebx answer) (ecx answer) (edx answer).
Definition cpuid_table (cpuid_defaults cpuids : list CPUIDResult) : list kvm_cpuid_entry2 :=
  cpuid_entry (custom_cpuids cpuids) <$> number_leaves 0xFFFFFFFF 0 cpuid_defaults.

(** *** What the table contains *)

(** The entries of a list for one function; lists are grouped when those of a
    function are next to each other. *)
Definition of_function (f : Z) (l : list CPUIDResult) : list CPUIDResult :=
  filter (fun e => cpuid_function e = f) l.
Fixpoint grouped (l : list CPUIDResult) : Prop :=
  match l with
  | [] => True
  | e :: l =>
      (hd_error (cpuid_function <$> l) = Some (cpuid_function e)
       \/ Forall (fun x => cpuid_function x <> cpuid_function e) l) /\ grouped l
  end.
(** [l] continues a list that ended with function [f]. *)
Definition continues (f : Z) (l : list CPUIDResult) : Prop :=
  hd_error (cpuid_function <$> l) = Some f \/ Forall (fun x => cpuid_function x <> f) l.

Lemma of_function_none f l : Forall (fun x => cpuid_function x <> f) l -> of_function f l = [].
Proof.
  induction 1 as [|x l Hx _ IH]; [done|]. unfold of_function in *. by rewrite filter_cons_False.
Qed.

(** The leaf index of an element is the number of elements of its function
    before it, counted from [base] for the function [last] of what precedes. *)
Lemma number_leaves_lookup l last base i x n :
  grouped l -> continues last l -> 0 <= base -> base + Z.of_nat (length l) < 2 ^ 64 ->
  number_leaves last base l !! i = Some (n, x) ->
  l !! i = Some x
  /\ n = Z.of_nat (length (of_function (cpuid_function x) (take i l)))
         + (if cpuid_function x =? last then base + 1 else 0).
Proof.
  revert last base i. induction l as [|e l IH]; intros last base i Hg Hc Hb Hlen Hi; [done|].
  destruct Hg as [Hg1 Hg2].
  cbn [number_leaves] in Hi. cbn [length] in Hlen.
  set (b := if cpuid_function e =? last then u64 (base + 1) else 0) in *.
  assert (Hb' : b = if cpuid_function e =? last then base + 1 else 0).
  { unfold b. destruct (_ =? _); [|done]. apply u64_small. lia. }
  destruct i as [|i]; cbn in Hi.
  - injection Hi as <- <-. cbn. split; [done|]. rewrite Hb'. done.
  - apply IH in Hi as [Hx Hn]; [|done|done| |].
    2: { rewrite Hb'. destruct (_ =? _); lia. }
    2: { rewrite Hb'. destruct (_ =? _); lia. }
    split; [done|]. rewrite Hn. clear Hn. cbn [take]. unfold of_function. rewrite filter_cons.
    destruct (Z.eq_dec (cpuid_function x) (cpuid_function e)) as [E|Hne].
    + rewrite decide_True by done. rewrite E, Z.eqb_refl, Hb'. cbn [length].
      destruct (_ =? last); lia.
    + rewrite decide_False by done. apply Z.eqb_neq in Hne as Hne'. rewrite Hne'.
      destruct (Z.eqb_spec (cpuid_function x) last) as [El|]; [|lia]. exfalso.
      (* x continues [last] but is not at the front *)
      destruct Hc as [Hc|Hc]; [cbn in Hc; congruence|].
      rewrite Forall_forall in Hc. apply (Hc x); [|done].
      apply list_elem_of_further. by eapply list_elem_of_lookup_2.
Qed.

Lemma length_number_leaves l last base : length (number_leaves last base l) = length l.
Proof. revert last base. induction l as [|e l IH]; intros; cbn; [done|]. by rewrite IH. Qed.

Lemma number_leaves_exists l last base i x : l !! i = Some x ->
  exists n, number_leaves last base l !! i = Some (n, x).
Proof.
  revert last base i. induction l as [|e l IH]; intros last base i Hi; [done|].
  destruct i as [|i]; cbn in Hi |- *; [injection Hi as ->; by eexists|]. by apply IH.
Qed.

Lemma of_function_app f l1 l2 : of_function f (l1 ++ l2) = of_function f l1 ++ of_function f l2.
Proof. apply filter_app. Qed.

Lemma of_function_lookup l i x : l !! i = Some x ->
  of_function (cpuid_function x) l !! length (of_function (cpuid_function x) (take i l)) = Some x.
Proof.
  intros Hi. rewrite <- (take_drop_middle l i x Hi) at 2.
  rewrite of_function_app, lookup_app_r, Nat.sub_diag by lia.
  unfold of_function at 1. by rewrite filter_cons_True.
Qed.

Lemma of_function_lookup_inv f l n x : of_function f l !! n = Some x ->
  exists i, l !! i = Some x /\ cpuid_function x = f /\ length (of_function f (take i l)) = n.
Proof.
  revert n. induction l as [|e l IH]; intros n; [done|].
  unfold of_function at 1. rewrite filter_cons.
  destruct (decide (cpuid_function e = f)) as [E|Hne].
  - destruct n as [|n]; cbn.
    + intros [= ->]. by exists 0%nat.
    + intros (i & H1 & H2 & H3)%IH. exists (Datatypes.S i). split; [done|]. split; [done|].
      cbn [take]. unfold of_function. rewrite filter_cons_True by done. cbn [length]. by f_equal.
  - intros (i & H1 & H2 & H3)%IH. exists (Datatypes.S i). split; [done|]. split; [done|].
    cbn [take]. unfold of_function. by rewrite filter_cons_False by done.
Qed.

(** The map built by successive insertions. *)
Lemma fold_insert_lookup {A} (key : A -> Z) (val : A -> CPUIDResult) l (m : gmap Z CPUIDResult) k :
  (forall e, e ∈ l -> key e = k -> forall e', e' ∈ l -> key e' = k -> val e = val e') ->
  fold_left (fun m e => <[key e := val e]> m) l m !! k
  = match List.find (fun e => key e =? k) l with Some e => Some (val e) | None => m !! k end.
Proof.
  revert m. induction l as [|e l IH]; intros m Hu; cbn; [done|].
  rewrite IH by (intros e1 H1 H2 e2 H3 H4; apply Hu; try done; by apply list_elem_of_further).
  destruct (Z.eqb_spec (key e) k) as [E|Hne].
  - destruct (List.find _ l) as [e'|] eqn:Ef; [|by rewrite E, lookup_insert_eq].
    apply List.find_some in Ef as [Hin Ek]. apply Z.eqb_eq in Ek. f_equal.
    apply (Hu e'); [|done|apply list_elem_of_here|done].
    apply list_elem_of_further. by apply list_elem_of_In.
  - destruct (List.find _ l); [done|]. by rewrite lookup_insert_ne.
Qed.

Lemma custom_key_eq f n x m : 0 <= f < 2 ^ 32 -> 0 <= n < 2 ^ 32 ->
  0 <= cpuid_function x < 2 ^ 32 -> 0 <= m < 2 ^ 32 ->
  custom_key (m, x) = f ||| u64 (n <<< 32) <-> cpuid_function x = f /\ m = n.
Proof.
  intros Hf Hn Hx Hm. unfold custom_key. cbn [fst snd].
  assert (Hk : forall a b, 0 <= a < 2 ^ 32 -> 0 <= b < 2 ^ 32 -> a ||| u64 (b <<< 32) = b * 2 ^ 32 + a).
  { intros a b Ha Hb. rewrite u64_small by (rewrite Z.shiftl_mul_pow2; lia).
    rewrite Z.lor_comm. apply lor_shiftl_add; lia. }
  rewrite !Hk by done. split; [|by intros [-> ->]]. lia.
Qed.

(** What the code relies on in the lists. *)
Definition cpuid_list_ok (l : list CPUIDResult) : Prop :=
  grouped l /\ Forall (fun x => 0 <= cpuid_function x < 0xFFFFFFFF) l /\ Z.of_nat (length l) < 2 ^ 32.

Lemma numbered_ok l i n x : cpuid_list_ok l -> number_leaves 0xFFFFFFFF 0 l !! i = Some (n, x) ->
  l !! i = Some x /\ n = Z.of_nat (length (of_function (cpuid_function x) (take i l)))
  /\ 0 <= cpuid_function x < 2 ^ 32 /\ 0 <= n < 2 ^ 32.
Proof.
  intros (Hg & Hf & Hl) Hi. apply number_leaves_lookup in Hi as [Hx Hn]; [|done| |lia|lia].
  2: { right. eapply Forall_impl; [exact Hf|]. intros y Hy. cbn in Hy. lia. }
  rewrite Forall_forall in Hf. assert (Hr := Hf x ltac:(by eapply list_elem_of_lookup_2)).
  rewrite (proj2 (Z.eqb_neq _ _)) in Hn by lia. rewrite Z.add_0_r in Hn.
  split; [done|]. split; [done|]. split; [lia|]. rewrite Hn.
  assert (length (of_function (cpuid_function x) (take i l)) <= length l)%nat; [|lia].
  etrans; [apply length_filter|]. rewrite length_take. lia.
Qed.

Lemma custom_lookup l f n : cpuid_list_ok l -> 0 <= f < 2 ^ 32 -> Z.of_nat n < 2 ^ 32 ->
  custom_cpuids l !! (f ||| u64 (Z.of_nat n <<< 32)) = of_function f l !! n.
Proof.
  intros Hok Hf Hn. unfold custom_cpuids.
  assert (Hkey : forall e, e ∈ number_leaves 0xFFFFFFFF 0 l ->
    custom_key e = f ||| u64 (Z.of_nat n <<< 32) -> of_function f l !! n = Some (snd e)).
  { intros [m x] (i & Hi)%list_elem_of_lookup Hk. destruct (numbered_ok l i m x Hok Hi) as (Hx & Hm & Hr1 & Hr2).
    apply custom_key_eq in Hk as [<- ->]; [|done|lia|done|lia]. apply Nat2Z.inj in Hm as ->.
    by apply of_function_lookup. }
  rewrite fold_insert_lookup.
  2: { intros e He Ek e' He' Ek'. assert (Some (snd e) = Some (snd e')) as [= ->]; [|done].
       by rewrite <- (Hkey e), <- (Hkey e'). }
  rewrite lookup_empty. destruct (List.find _ _) as [e|] eqn:Ef.
  - apply List.find_some in Ef as [Hin Ek]. apply Z.eqb_eq in Ek. symmetry. apply Hkey; [|done].
    by apply list_elem_of_In.
  - destruct (of_function f l !! n) as [x|] eqn:Ex; [|done]. exfalso.
    apply of_function_lookup_inv in Ex as (i & Hi & Hfx & Hlen).
    destruct (number_leaves_exists l 0xFFFFFFFF 0 i x Hi) as (m & Hm).
    destruct (numbered_ok l i m x Hok Hm) as (_ & Hmn & Hr1 & Hr2).
    eapply List.find_none in Ef; [|apply list_elem_of_In; by eapply list_elem_of_lookup_2].
    apply Z.eqb_neq in Ef. apply Ef. apply custom_key_eq; try done; try lia.
    split; [done|]. rewrite Hmn, Hfx, Hlen. done.
Qed.
End Cpuid.

(** ** The platform (kvm_platform.cpp) *)
Inductive kvm_cap :=
| KVM_CAP_USER_MEMORY | KVM_CAP_SET_IDENTITY_MAP_ADDR | KVM_CAP_NR_VCPUS | KVM_CAP_MAX_VCPUS
| KVM_CAP_DEBUGREGS | KVM_CAP_SET_GUEST_DEBUG | KVM_CAP_EXT_CPUID.
(** KVM_GET_SUPPORTED_CPUID with room for a number of entries: the entries, or an
    [errno], with the corrected number for ENOMEM. *)
Inductive cpuid_reply :=
| Reply_ok (entries : list kvm_cpuid_entry2) | Reply_E2BIG | Reply_ENOMEM (nent : Z) | Reply_error.

(** The kernel module as the constructor sees it: the results of [open], of the
    version ioctl, of KVM_CHECK_EXTENSION for a capability, and of an ioctl whose
    request number is that of a capability. *)
Record kvm_host := MkHost {
  h_open : Z; h_api_version : Z; h_extension : kvm_cap -> Z; h_request : kvm_cap -> Z;
  h_cpuid : Z -> cpuid_reply
}.

Section KvmPlatform.
Context (host : kvm_host) (info : HostInfo) (uninit : GPAFeatures).

Definition of_entry (e : kvm_cpuid_entry2) : CPUIDResult :=
  MkCPUID (e_function e) (e_eax e) (e_ebx e) (e_ecx e) (e_edx e).
(** The loop that finds the size of the array; [None] is out of fuel, [Some None]
    a failure. *)
Fixpoint fetch_cpuids (fuel : nat) (count : Z) : option (option (list CPUIDResult)) :=
  match fuel with
  | O => None
  | Datatypes.S fuel =>
      match h_cpuid host count with
      | Reply_ok entries => Some (Some (of_entry <$> entries))
      | Reply_E2BIG => fetch_cpuids fuel (u32 (count * 2))
      | Reply_ENOMEM nent => fetch_cpuids fuel nent
      | Reply_error => Some None
      end
  end.

(** The features published before the CPUID entries are fetched. *)
Definition kvm_features : PlatformFeatures :=
  let d := default_features uninit in
  let nr := h_extension host KVM_CAP_NR_VCPUS in
  let perVM := u32 (if nr =? 0 then 4 else nr) in
  let max := h_extension host KVM_CAP_MAX_VCPUS in
  {| maxProcessorsGlobal := u32 (if max =? 0 then perVM else max);
     maxProcessorsPerVM := perVM;
     guestPhysicalAddress := gpa info;
     unrestrictedGuest := true;
     extendedPageTables := true;
     guestDebugging := negb (h_request host KVM_CAP_DEBUGREGS =? 0)
                       && negb (h_request host KVM_CAP_SET_GUEST_DEBUG =? 0);
     guestMemoryProtection := guestMemoryProtection d;
     dirtyPageTracking := true;
     partialDirtyBitmap := false;
     largeMemoryAllocation := true;
     memoryAliasing := true;
     memoryUnmapping := false;
     partialUnmapping := false;
     partialMMIOInstructions := false;
     floatingPointExtensions := host_fp info;
     extendedControlRegisters := ECR_CR8 ||| ECR_XCR0;
     extendedVMExits := EVE_Exception;
     exceptionExits := ExceptionCode_All;
     customCPUIDs := negb (h_extension host KVM_CAP_EXT_CPUID =? 0);
     supportedCustomCPUIDs := supportedCustomCPUIDs d;
     guestTSCScaling := guestTSCScaling d |}.
Definition set_cpuids (l : list CPUIDResult) (f : PlatformFeatures) : PlatformFeatures :=
  MkFeatures (maxProcessorsGlobal f) (maxProcessorsPerVM f) (guestPhysicalAddress f)
    (unrestrictedGuest f) (extendedPageTables f) (guestDebugging f) (guestMemoryProtection f)
    (dirtyPageTracking f) (partialDirtyBitmap f) (largeMemoryAllocation f) (memoryAliasing f)
    (memoryUnmapping f) (partialUnmapping f) (partialMMIOInstructions f)
    (floatingPointExtensions f) (extendedControlRegisters f) (extendedVMExits f) (exceptionExits f)
    (customCPUIDs f) l (guestTSCScaling f).

(** The constructor; [None] is out of fuel. *)
Definition newKvmPlatform (fuel : nat) : option (PlatformInitStatus * PlatformFeatures) :=
  let d := default_features uninit in
  if h_open host <? 0 then Some (PI_Unavailable, d)
  else if negb (h_api_version host =? 12) then Some (PI_Unsupported, d)
  else if h_extension host KVM_CAP_USER_MEMORY =? 0 then Some (PI_Unsupported, d)
  else if h_extension host KVM_CAP_SET_IDENTITY_MAP_ADDR =? 0 then Some (PI_Unsupported, d)
  else if customCPUIDs kvm_features then
    r ← fetch_cpuids fuel 40;
    Some (match r with
          | Some l => (PI_OK, set_cpuids l kvm_features)
          | None => (PI_Failed, kvm_features)
          end)
  else Some (PI_OK, kvm_features).
End KvmPlatform.

(** ** Machines and processors *)
Class KVMCreation (K : Type) := {
  KVM_CREATE_VM : K -> Z * K;
  KVM_SET_IDENTITY_MAP_ADDR (fd addr : Z) : K -> Z * K;
  KVM_CREATE_VCPU (fd id : Z) : K -> Z * K;
  KVM_GET_VCPU_MMAP_SIZE : K -> Z * K;
  (** [mmap] of a processor's file: an address, MAP_FAILED being 2^64 - 1. *)
  mmap (size fd : Z) : K -> Z * K;
  KVM_SET_CPUID2 (fd : Z) (table : list kvm_cpuid_entry2) : K -> Z * K;
  close (fd : Z) : K -> K;
  KVM_CPUID_FLAG_SIGNIFCANT_INDEX : Z
}.
Definition MAP_FAILED : Z := 2 ^ 64 - 1.

Section Creation.
Context {K : Type} `{KVMCreation K}.
Context (features : PlatformFeatures) (CPUIDResults : list CPUIDResult)
  (identityMapPageAddress numProcessors : Z).

Record vp_handles := MkVpHandles { vp_fd : Z; vp_kvmRunMmapSize : Z; vp_kvmRun : Z }.

(** [~KvmVirtualProcessor] *)
Definition destroy_vp (vp : vp_handles) (k : K) : K :=
  if vp_fd vp =? -1 then k else close (vp_fd vp) k.

(** [KvmVirtualProcessor::Initialize]; pointers are unsigned addresses. *)
Definition vp_Initialize (vm_fd id : Z) (k : K) : bool * vp_handles * K :=
  let '(fd, k) := KVM_CREATE_VCPU vm_fd id k in
  if fd <? 0 then (false, MkVpHandles fd 0 0, k)
  else
    let '(mmapSize, k) := KVM_GET_VCPU_MMAP_SIZE k in
    if mmapSize <? 0 then (false, MkVpHandles (-1) mmapSize 0, close fd k)
    else
      let '(run, k) := mmap (u64 mmapSize) fd k in
      if run <? 0 then (false, MkVpHandles (-1) mmapSize run, close fd k)
      else if customCPUIDs features then
        let table := cpuid_table KVM_CPUID_FLAG_SIGNIFCANT_INDEX (supportedCustomCPUIDs features)
                       CPUIDResults in
        let '(result, k) := KVM_SET_CPUID2 fd table k in
        if result <? 0 then (false, MkVpHandles (-1) mmapSize run, close fd k)
        else (true, MkVpHandles fd mmapSize run, k)
      else (true, MkVpHandles fd mmapSize run, k).

(** [KvmVirtualMachine::Initialize]: the processors are created in order until one
    fails. *)
Fixpoint create_vps (n : nat) (id vm_fd : Z) (vps : list vp_handles) (k : K)
    : bool * list vp_handles * K :=
  match n with
  | O => (true, vps, k)
  | Datatypes.S n =>
      let '(ok, vp, k) := vp_Initialize vm_fd id k in
      if negb ok then (false, vps, destroy_vp vp k)
      else create_vps n (u32 (id + 1)) vm_fd (vps ++ [vp]) k
  end.
Definition vm_Initialize (k : K) : bool * Z * list vp_handles * K :=
  let '(fd, k) := KVM_CREATE_VM k in
  if fd <? 0 then (false, fd, [], k)
  else
    let '(r, k) := KVM_SET_IDENTITY_MAP_ADDR fd identityMapPageAddress k in
    if r <? 0 then (false, -1, [], close fd k)
    else
      let '(ok, vps, k) := create_vps (Z.to_nat numProcessors) 0 fd [] k in (ok, fd, vps, k).

(** [~KvmVirtualMachine], and [KvmPlatform::CreateVMImpl], which destroys the
    object when it cannot be initialised. *)
Definition destroy_vm (fd : Z) (vps : list vp_handles) (k : K) : K :=
  let k := fold_left (fun k vp => destroy_vp vp k) vps k in
  if fd =? -1 then k else close fd k.
Definition kvm_CreateVMImpl (k : K) : option (Z * list vp_handles) * K :=
  let '(ok, fd, vps, k) := vm_Initialize k in
  if ok then (Some (fd, vps), k) else (None, destroy_vm fd vps k).
End Creation.

(** *** Descriptors

    What the kernel promises of file descriptors: a creation ioctl fails with -1 or
    returns a descriptor that is not open, the other ioctls and [mmap] open and
    close none. *)
Class KVMDescriptors (K : Type) `{KVMCreation K} := {
  open_fds : K -> gset Z;
  create_vm_fds k : let '(r, k') := KVM_CREATE_VM k in
    (r = -1 /\ open_fds k' = open_fds k)
    \/ (0 <= r /\ (r ∉ open_fds k) /\ open_fds k' = ({[r]} ∪ open_fds k));
  create_vcpu_fds fd id k : let '(r, k') := KVM_CREATE_VCPU fd id k in
    (r = -1 /\ open_fds k' = open_fds k)
    \/ (0 <= r /\ (r ∉ open_fds k) /\ open_fds k' = ({[r]} ∪ open_fds k));
  identity_map_fds fd addr k : open_fds (snd (KVM_SET_IDENTITY_MAP_ADDR fd addr k)) = open_fds k;
  mmap_size_fds k : open_fds (snd (KVM_GET_VCPU_MMAP_SIZE k)) = open_fds k;
  mmap_fds size fd k : open_fds (snd (mmap size fd k)) = open_fds k;
  set_cpuid_fds fd table k : open_fds (snd (KVM_SET_CPUID2 fd table k)) = open_fds k;
  close_fds fd k : open_fds (close fd k) = (open_fds k ∖ {[fd]})
}.

Section Descriptors.
Context {K : Type} {KC : KVMCreation K} {KD : KVMDescriptors K}.
Context (features : PlatformFeatures) (CPUIDResults : list CPUIDResult)
  (identityMapPageAddress numProcessors : Z).

(** A processor that is not initialised holds no descriptor. *)
Lemma vp_Initialize_fds vm_fd id k :
  let '(ok, vp, k') := vp_Initialize features CPUIDResults vm_fd id k in
  if ok then 0 <= vp_fd vp /\ (vp_fd vp ∉ open_fds k) /\ open_fds k' = ({[vp_fd vp]} ∪ open_fds k)
  else vp_fd vp = -1 /\ open_fds k' = open_fds k.
Proof.
  unfold vp_Initialize. pose proof (create_vcpu_fds vm_fd id k) as Hc.
  destruct (KVM_CREATE_VCPU vm_fd id k) as [fd k1].
  destruct Hc as [[-> Hc]|(Hr & Hn & Hc)]; [by cbn|].
  destruct (Z.ltb_spec fd 0); [lia|].
  assert (Hclose : forall k', open_fds k' = open_fds k1 -> open_fds (close fd k') = open_fds k).
  { intros k' E. rewrite close_fds, E, Hc. set_solver. }
  pose proof (mmap_size_fds k1) as H1. destruct (KVM_GET_VCPU_MMAP_SIZE k1) as [sz k2]. cbn [snd] in H1.
  destruct (sz <? 0); cbn [vp_fd]; [by auto|].
  pose proof (mmap_fds (u64 sz) fd k2) as H2. destruct (mmap (u64 sz) fd k2) as [run k3]. cbn [snd] in H2.
  destruct (run <? 0); cbn [vp_fd]; [by rewrite Hclose by congruence|].
  destruct (customCPUIDs features); [|split_and!; cbn [vp_fd]; congruence].
  match goal with |- context [KVM_SET_CPUID2 fd ?t k3] =>
    pose proof (set_cpuid_fds fd t k3) as H3; destruct (KVM_SET_CPUID2 fd t k3) as [r k4] end.
  cbn [snd] in H3.
  destruct (r <? 0); cbn [vp_fd]; [by rewrite Hclose by congruence|]. split_and!; congruence.
Qed.

(** What is open while [vps] exist besides [base]. *)
Definition holds (vps : list vp_handles) (base : gset Z) (k : K) : Prop :=
  NoDup (vp_fd <$> vps) /\ Forall (fun vp => 0 <= vp_fd vp /\ vp_fd vp ∉ base) vps
  /\ open_fds k = (list_to_set (vp_fd <$> vps) ∪ base).

Lemma holds_app vps vp base k k' : holds vps base k -> 0 <= vp_fd vp -> vp_fd vp ∉ open_fds k ->
  open_fds k' = ({[vp_fd vp]} ∪ open_fds k) -> holds (vps ++ [vp]) base k'.
Proof.
  intros (Hn & Hf & Ho) Hr Hfresh Hk'. unfold holds. rewrite Hk', Ho, fmap_app, list_to_set_app_L.
  rewrite Ho, not_elem_of_union, not_elem_of_list_to_set in Hfresh. destruct Hfresh as [Hf1 Hf2].
  split_and!; [|apply Forall_app; split; [done|by apply Forall_singleton]|cbn; set_solver].
  apply NoDup_app. split_and!; [done| |apply NoDup_singleton].
  intros x Hx ->%list_elem_of_singleton. done.
Qed.

Lemma create_vps_fds n id vm_fd vps base k : holds vps base k ->
  let '(ok, vps', k') := create_vps features CPUIDResults n id vm_fd vps k in
  holds vps' base k' /\ (ok = true -> length vps' = (length vps + n)%nat).
Proof.
  revert id vps k. induction n as [|n IH]; intros id vps k Hh; cbn [create_vps].
  - split; [done|]. intros _. lia.
  - pose proof (vp_Initialize_fds vm_fd id k) as Hi.
    destruct (vp_Initialize features CPUIDResults vm_fd id k) as [[ok vp] k'].
    destruct ok; cbn [negb].
    + destruct Hi as (Hr & Hn & Hk). pose proof (holds_app vps vp base k k' Hh Hr Hn Hk) as Hh'.
      specialize (IH (u32 (id + 1)) (vps ++ [vp]) k' Hh').
      destruct (create_vps _ _ _ _ _ _ _) as [[ok vps'] k'']. destruct IH as [IH1 IH2].
      split; [done|]. intros ->%IH2. rewrite length_app. cbn. lia.
    + destruct Hi as [Hfd Hk]. unfold destroy_vp. rewrite Hfd. cbn. split; [|done].
      destruct Hh as (? & ? & Ho). split_and!; [done..|congruence].
Qed.

Lemma destroy_vps_fds vps base k : holds vps base k ->
  open_fds (fold_left (fun k vp => destroy_vp vp k) vps k) = base.
Proof.
  revert k. induction vps as [|vp vps IH]; intros k (Hn & Hf & Ho); cbn [fold_left].
  - rewrite Ho. set_solver.
  - cbn in Hn, Ho. apply NoDup_cons in Hn as [Hn1 Hn2]. apply Forall_cons in Hf as [[Hf1 Hf2] Hf3].
    apply IH. unfold destroy_vp. rewrite (proj2 (Z.eqb_neq _ _)) by lia.
    split_and!; [done..|]. rewrite close_fds, Ho.
    apply set_eq. intros x. rewrite elem_of_difference, !elem_of_union, elem_of_singleton, elem_of_list_to_set.
    destruct (decide (x = vp_fd vp)) as [->|]; naive_solver.
Qed.
End Descriptors.

(** ** Theorems *)

(** The CPUID table of a new processor.  If both lists keep the entries of a
    function together, the table has one entry per default entry, in order, with
    its function and as index its rank among the entries of that function; and
    its registers are those of the custom result with the same function and the
    same rank, or the default's if there is none: the [n]-th custom result of a
    function replaces its [n]-th leaf, and every other one is dropped. *)
Theorem kvm_cpuid_table flag (defaults cpuids : list CPUIDResult) :
  cpuid_list_ok defaults -> cpuid_list_ok cpuids ->
  length (cpuid_table flag defaults cpuids) = length defaults
  /\ forall i e, defaults !! i = Some e ->
     let f := cpuid_function e in
     let n := length (of_function f (take i defaults)) in
     let a := default e (of_function f cpuids !! n) in
     cpuid_table flag defaults cpuids !! i
     = Some (MkEntry f (Z.of_nat n) (if bool_decide (f ∈ [0x4; 0x7; 0xb; 0xd]) then flag else 0)
               (eax a) (ebx a) (ecx a) (edx a)).
Proof.
  intros Hd Hc. split; [unfold cpuid_table; by rewrite length_fmap, length_number_leaves|].
  intros i e Hi f n a. destruct (number_leaves_exists defaults 0xFFFFFFFF 0 i e Hi) as (m & Hm).
  destruct (numbered_ok defaults i m e Hd Hm) as (_ & Hmn & Hr1 & Hr2). fold f n in Hmn.
  unfold cpuid_table. rewrite list_lookup_fmap, Hm. cbn [fmap option_fmap option_map].
  unfold cpuid_entry. cbn [fst snd]. unfold custom_key at 1 2 3 4. cbn [fst snd]. fold f.
  rewrite Hmn, custom_lookup, u32_small by (done || lia). fold a.
  do 2 f_equal. case_bool_decide as Hin; rewrite !elem_of_cons, elem_of_nil in Hin.
  - destruct Hin as [->|[->|[->|[->|[]]]]]; by rewrite Z.lor_0_l.
  - assert (f <> 4 /\ f <> 7 /\ f <> 11 /\ f <> 13) as (H4 & H7 & Hb & Hx) by naive_solver.
    apply Z.eqb_neq in H4 as ->, H7 as ->, Hb as ->, Hx as ->. done.
Qed.

(** Two leaves of function 4, the second of which is customised. *)
Lemma kvm_cpuid_table_witness :
  let d := [MkCPUID 1 10 11 12 13; MkCPUID 4 20 21 22 23; MkCPUID 4 30 31 32 33] in
  let c := [MkCPUID 4 1 1 1 1; MkCPUID 4 2 2 2 2; MkCPUID 9 3 3 3 3] in
  cpuid_table 1 d c !! 2%nat = Some (MkEntry 4 1 1 2 2 2 2)
  /\ length (cpuid_table 1 d c) = 3%nat.
Proof.
  intros d c.
  assert (Hd : cpuid_list_ok d).
  { split_and!; [|repeat constructor; cbn; lia|cbn; lia]. cbn.
    split_and!; try done; [right; repeat constructor; done|by left|right; constructor]. }
  assert (Hc : cpuid_list_ok c).
  { split_and!; [|repeat constructor; cbn; lia|cbn; lia]. cbn.
    split_and!; try done; [by left|right; repeat constructor; done|right; constructor]. }
  destruct (kvm_cpuid_table 1 d c Hd Hc) as [Hl Ht]. split; [|exact Hl].
  exact (Ht 2%nat _ eq_refl).
Defined.

(** Creating a machine never leaks a descriptor.  If any step of the creation
    fails, every descriptor that was opened is closed again and nothing else is;
    if it succeeds the machine and its processors hold new, distinct descriptors,
    one per processor of the specification, and nothing else was opened. *)
Theorem kvm_create_vm_descriptors {K} {KC : KVMCreation K} {KD : KVMDescriptors K}
    features cpuids identityMap n (k : K) :
  let '(r, k') := kvm_CreateVMImpl features cpuids identityMap n k in
  match r with
  | None => open_fds k' = open_fds k
  | Some (fd, vps) =>
      let fds := fd :: (vp_fd <$> vps) in
      length vps = Z.to_nat n /\ NoDup fds /\ Forall (fun x => 0 <= x /\ x ∉ open_fds k) fds
      /\ open_fds k' = (list_to_set fds ∪ open_fds k)
  end.
Proof.
  unfold kvm_CreateVMImpl, vm_Initialize. pose proof (create_vm_fds k) as Hc.
  destruct (KVM_CREATE_VM k) as [fd k1]. destruct Hc as [[-> Hc]|(Hr & Hn & Hc)]; [by cbn|].
  destruct (Z.ltb_spec fd 0); [lia|].
  pose proof (identity_map_fds fd identityMap k1) as H1.
  destruct (KVM_SET_IDENTITY_MAP_ADDR fd identityMap k1) as [r k2]. cbn [snd] in H1.
  assert (Hb : ({[fd]} ∪ open_fds k) ∖ {[fd]} = open_fds k) by (apply set_eq; intros x; set_solver).
  destruct (r <? 0); cbn; [by rewrite close_fds, H1, Hc|].
  assert (Hh : holds [] ({[fd]} ∪ open_fds k) k2).
  { split_and!; [constructor..|]. rewrite H1, Hc. cbn. by rewrite union_empty_l_L. }
  pose proof (create_vps_fds features cpuids (Z.to_nat n) 0 fd [] _ k2 Hh) as Hv.
  destruct (create_vps _ _ _ _ _ _ k2) as [[ok vps] k3]. destruct Hv as [Hv Hlen].
  destruct ok; unfold destroy_vm.
  - destruct Hv as (Hd & Hf & Ho). split; [by rewrite (Hlen eq_refl)|]. rewrite Forall_forall in Hf.
    split_and!.
    + apply NoDup_cons. split; [|done]. intros (vp & -> & Hin)%list_elem_of_fmap.
      apply (Hf vp Hin). set_solver.
    + apply Forall_cons. split; [done|]. apply Forall_fmap, Forall_forall. intros vp Hin.
      cbn. destruct (Hf vp Hin) as [? ?]. set_solver.
    + rewrite Ho. cbn. set_solver.
  - rewrite (proj2 (Z.eqb_neq fd (-1))) by lia. by rewrite close_fds, (destroy_vps_fds _ _ _ Hv).
Qed.

(** [m_kvmRun < 0] compares a pointer with a null pointer, which never holds: when
    [mmap] fails the processor is created all the same, with MAP_FAILED as its
    exit structure. *)
Lemma kvm_mmap_failure_unnoticed {K} `{KVMCreation K} features cpuids vm_fd id k fd k1 size k2 k3 :
  customCPUIDs features = false ->
  KVM_CREATE_VCPU vm_fd id k = (fd, k1) -> 0 <= fd ->
  KVM_GET_VCPU_MMAP_SIZE k1 = (size, k2) -> 0 <= size ->
  mmap (u64 size) fd k2 = (MAP_FAILED, k3) ->
  vp_Initialize features cpuids vm_fd id k = (true, MkVpHandles fd size MAP_FAILED, k3).
Proof.
  intros Hf Hc H0 Hs H1 Hm. unfold vp_Initialize. rewrite Hc, (proj2 (Z.ltb_ge fd 0)) by lia.
  rewrite Hs, (proj2 (Z.ltb_ge size 0)) by lia. by rewrite Hm, Hf.
Qed.

(** What the documentation says of KVM_GET_SUPPORTED_CPUID, for [all] entries:
    too small an array is E2BIG, the right size succeeds, and too large an array
    succeeds or is ENOMEM with the right size. *)
Definition cpuid_ioctl_documented (host : kvm_host) (all : list kvm_cpuid_entry2) : Prop :=
  let n := Z.of_nat (length all) in
  (forall c, 0 < c < n -> h_cpuid host c = Reply_E2BIG)
  /\ h_cpuid host n = Reply_ok all
  /\ forall c, n < c -> h_cpuid host c = Reply_ok all \/ h_cpuid host c = Reply_ENOMEM n.

Lemma fetch_cpuids_documented host all j fuel count :
  cpuid_ioctl_documented host all -> Z.of_nat (length all) < 2 ^ 31 ->
  0 < count -> Z.of_nat (length all) <= count * 2 ^ Z.of_nat j -> (j + 2 <= fuel)%nat ->
  fetch_cpuids host fuel count = Some (Some (of_entry <$> all)).
Proof.
  intros (Hsmall & Hexact & Hlarge) Hl. revert fuel count.
  induction j as [|j IH]; intros fuel count Hc Hj Hf; destruct fuel as [|[|fuel]]; try lia; cbn [fetch_cpuids].
  - destruct (Z.eq_dec count (Z.of_nat (length all))) as [->|Hne]; [by rewrite Hexact|].
    destruct (Hlarge count ltac:(lia)) as [->| ->]; [done|]. by rewrite Hexact.
  - destruct (Z.lt_trichotomy count (Z.of_nat (length all))) as [Hlt|[->|Hgt]].
    + rewrite Hsmall, u32_small by lia. change (match h_cpuid host (count * 2) with
        | Reply_ok entries => Some (Some (of_entry <$> entries))
        | Reply_E2BIG => fetch_cpuids host fuel (u32 (count * 2 * 2))
        | Reply_ENOMEM nent => fetch_cpuids host fuel nent
        | Reply_error => Some None end) with (fetch_cpuids host (Datatypes.S fuel) (count * 2)).
      apply IH; [lia| |lia]. rewrite Nat2Z.inj_succ, Z.pow_succ_r in Hj by lia. lia.
    + by rewrite Hexact.
    + destruct (Hlarge count ltac:(lia)) as [->| ->]; [done|]. by rewrite Hexact.
Qed.

(** The constructor of the KVM platform always finishes: if the kernel answers
    KVM_GET_SUPPORTED_CPUID as documented for fewer than 2^31 entries, 30 rounds
    of the loop are enough, and on a kernel with the API version and extensions
    that are required the platform is OK and publishes all supported CPUID entries
    in order (without their index), or none if custom CPUIDs are not
    supported. *)
Theorem kvm_platform_probe host info uninit all fuel :
  cpuid_ioctl_documented host all -> Z.of_nat (length all) < 2 ^ 31 -> (30 <= fuel)%nat ->
  let result := newKvmPlatform host info uninit fuel in
  let features := kvm_features host info uninit in
  is_Some result
  /\ (0 <= h_open host -> h_api_version host = 12 ->
      h_extension host KVM_CAP_USER_MEMORY <> 0 ->
      h_extension host KVM_CAP_SET_IDENTITY_MAP_ADDR <> 0 ->
      result = Some (PI_OK, if customCPUIDs features then set_cpuids (of_entry <$> all) features
                            else features)).
Proof.
  intros Hd Hl Hf result features. subst result. unfold newKvmPlatform. fold features.
  rewrite (fetch_cpuids_documented host all 28 fuel 40 Hd Hl) by lia.
  change (mbind ?f (Some ?x)) with (f x). cbv beta iota. split.
  - repeat case_match; by eexists.
  - intros H0 H1 H2 H3. rewrite (proj2 (Z.ltb_ge _ _)) by lia.
    rewrite H1, (proj2 (Z.eqb_neq _ _) H2), (proj2 (Z.eqb_neq _ _) H3). cbn [negb Z.eqb Pos.eqb].
    by destruct (customCPUIDs features).
Qed.

(** A kernel with 100 entries, which answers too large an array with the right
    size: 40, 80, 160 and 100 are tried. *)
Definition demo_entries : list kvm_cpuid_entry2 := replicate 100 (MkEntry 4 1 1 20 21 22 23).
Definition demo_host : kvm_host := {|
  h_open := 3; h_api_version := 12; h_extension := fun _ => 1; h_request := fun _ => -1;
  h_cpuid c := if c <? 100 then Reply_E2BIG else if c =? 100 then Reply_ok demo_entries
               else Reply_ENOMEM 100
|}.
Lemma kvm_platform_probe_witness :
  let info := MkHostInfo (MkGPA 40 (2 ^ 40) (2 ^ 40 - 1)) 0 in
  match newKvmPlatform demo_host info (MkGPA 0 0 0) 30 with
  | Some (PI_OK, f) => length (supportedCustomCPUIDs f) = 100%nat
  | _ => False
  end.
Proof.
  intros info.
  assert (Hd : cpuid_ioctl_documented demo_host demo_entries).
  { unfold cpuid_ioctl_documented. change (Z.of_nat (length demo_entries)) with 100. cbv zeta. split_and!.
    - intros c [_ Hc]. cbn. by apply Z.ltb_lt in Hc as ->.
    - reflexivity.
    - intros c Hc. right. cbn. rewrite (proj2 (Z.ltb_ge _ _)) by lia.
      by rewrite (proj2 (Z.eqb_neq _ _)) by lia. }
  destruct (kvm_platform_probe demo_host info (MkGPA 0 0 0) demo_entries 30 Hd ltac:(cbn; lia) ltac:(lia))
    as [_ H].
  rewrite (H ltac:(cbn; lia) eq_refl ltac:(done) ltac:(done)). vm_compute. reflexivity.
Defined.

(** Descriptors of a kernel that can open a number of them. *)
Definition fresh_fd (s : gset Z) : Z := foldr Z.max 0 (elements s) + 1.
Lemma fresh_fd_spec s : 0 <= fresh_fd s /\ fresh_fd s ∉ s.
Proof.
  unfold fresh_fd. assert (Hb : forall l, 0 <= foldr Z.max 0 l /\ forall x, x ∈ l -> x <= foldr Z.max 0 l).
  { induction l as [|y l [IH1 IH2]]; cbn; split; try lia; intros x Hx.
    - by apply elem_of_nil in Hx.
    - apply elem_of_cons in Hx as [->|Hx]; [lia|]. specialize (IH2 x Hx). lia. }
  destruct (Hb (elements s)) as [H1 H2]. split; [lia|]. intros Hx%elem_of_elements%H2. lia.
Qed.
Record demo_kernel := MkDemoKernel { dk_left : nat; dk_open : gset Z }.
Definition demo_create (k : demo_kernel) : Z * demo_kernel :=
  match dk_left k with
  | O => (-1, k)
  | Datatypes.S n => (fresh_fd (dk_open k), MkDemoKernel n ({[fresh_fd (dk_open k)]} ∪ dk_open k))
  end.
Definition demo_KVMCreation : KVMCreation demo_kernel := {|
  KVM_CREATE_VM := demo_create;
  KVM_SET_IDENTITY_MAP_ADDR _ _ k := (0, k);
  KVM_CREATE_VCPU _ _ := demo_create;
  KVM_GET_VCPU_MMAP_SIZE k := (0x3000, k);
  mmap _ _ k := (0x10000, k);
  KVM_SET_CPUID2 _ _ k := (0, k);
  close fd k := MkDemoKernel (dk_left k) (dk_open k ∖ {[fd]});
  KVM_CPUID_FLAG_SIGNIFCANT_INDEX := 1
|}.
#[local] Existing Instance demo_KVMCreation.
Definition demo_KVMDescriptors : KVMDescriptors demo_kernel.
Proof.
  refine {| open_fds := dk_open |}; try (intros; reflexivity).
  1: intros k. 2: intros ? ? k.
  all: cbn; unfold demo_create; destruct (dk_left k); [by left|right];
    destruct (fresh_fd_spec (dk_open k)); by split_and!.
Defined.
#[local] Existing Instance demo_KVMDescriptors.

(** Two processors: with three descriptors left the machine is created, with two
    the second processor fails and everything is closed. *)
Lemma kvm_create_vm_descriptors_witness :
  let f := default_features (MkGPA 0 0 0) in
  let create n := kvm_CreateVMImpl f [] 0xFFFBC000 2 (MkDemoKernel n {[7]}) in
  is_Some (fst (create 3%nat)) /\ size (dk_open (snd (create 3%nat))) = 4%nat
  /\ fst (create 2%nat) = None /\ dk_open (snd (create 2%nat)) = {[7]}.
Proof.
  intros f create. split_and!; [vm_compute; by eexists|vm_compute; reflexivity|vm_compute; reflexivity|].
  assert (E : fst (create 2%nat) = None) by (vm_compute; reflexivity).
  pose proof (kvm_create_vm_descriptors f [] 0xFFFBC000 2 (MkDemoKernel 2 {[7]})) as H.
  change (kvm_CreateVMImpl f [] 0xFFFBC000 2 (MkDemoKernel 2 {[7]})) with (create 2%nat) in H.
  clearbody create. destruct (create 2%nat) as [r k']. cbn [fst] in E. rewrite E in H. exact H.
Defined.
