(* ===== verification/HaxmRegs.v ===== *)
(** * The register cache of the HAXM platform (vcpu_state.hpp, hax_interface.hpp,
    haxm_helpers.cpp, haxm_vp.cpp)

    The register structures shared with the driver, the conversions of
    haxm_helpers.cpp and the two register switches of haxm_vp.cpp, except for the
    access to EFER through its MSR, which HaxmVp.v adds. *)
From stdpp Require Import functions.
From S2P Require Import Prelude Bits Regs Vp Arch.

(** ** interface/vcpu_state.hpp *)
Module HG.
Inductive t := rax | rcx | rdx | rbx | rsp | rbp | rsi | rdi | r8 | r9 | r10 | r11 | r12
             | r13 | r14 | r15 | rip | rflags.
#[global] Instance eq_dec : EqDecision t.
Proof. solve_decision. Defined.
End HG.
Module HS.
Inductive t := cs | ss | ds | es | fs | gs | ldt | tr | gdt | idt.
#[global] Instance eq_dec : EqDecision t.
Proof. solve_decision. Defined.
End HS.
Module HC.
Inductive t := cr0 | cr2 | cr3 | cr4 | dr0 | dr1 | dr2 | dr3 | dr6 | dr7.
#[global] Instance eq_dec : EqDecision t.
Proof. solve_decision. Defined.
End HC.

(** The members of the unions around a 64-bit register: [_al], [_ah], [_ax] and
    [_eax], and the same for the others. *)
Module U.
Definition l := Field 0 8.
Definition h := Field 8 8.
Definition x := Field 0 16.
Definition e := Field 0 32.
Definition r := Field 0 64.
End U.

(** [ar] is the union of the access rights; [sd_other] stands for the padding. *)
Record segment_desc_t := MkSegmentDesc {
  sd_selector : Z; sd_limit : Z; sd_base : Z; ar : Z; sd_other : list Z
}.
(** [_regs], [_rip] and [_rflags] are the unions' 64-bit members; [vs_other] stands
    for the members that the code passes on without naming. *)
Record vcpu_state_t := MkVcpuState {
  vs_regs : HG.t -> Z; vs_seg : HS.t -> segment_desc_t; vs_ctl : HC.t -> Z; _efer : Z;
  vs_other : list Z
}.

(** ** interface/hax_interface.hpp

    The entries of [st_mm], [mmx_1] and [mmx_2] are 16 bytes each. *)
Record fx_layout := MkFx {
  fcw : Z; fsw : Z; ftw : Z; fop : Z; fip : Z; fcs : Z; fdp : Z; fds : Z; mxcsr : Z;
  mxcsr_mask : Z; st_mm : Z -> Z; mmx_1 : Z -> Z; mmx_2 : Z -> Z
}.

(** The register cache of [HaxmVirtualProcessor]. *)
Record hcache := MkHcache {
  m_regs : vcpu_state_t; m_fpuRegs : fx_layout; m_regsDirty : bool; m_regsChanged : bool;
  m_fpuRegsChanged : bool; m_useEferMSR : bool
}.

(** ** haxm_helpers.cpp *)
Definition LoadSegment (value : RegValue) (segment : segment_desc_t) : RegValue :=
  let value := fset RV.selector (sd_selector segment) value in
  let value := fset RV.segbase (sd_base segment) value in
  let value := fset RV.seglimit (sd_limit segment) value in
  fset RV.attributes (ar segment) value.
Definition StoreSegment (value : RegValue) (segment : segment_desc_t) : segment_desc_t := {|
  sd_selector := fget RV.selector value;
  sd_base := fget RV.segbase value;
  sd_limit := fget RV.seglimit value;
  ar := fget RV.attributes value;
  sd_other := sd_other segment
|}.
Definition LoadTable (value : RegValue) (table : segment_desc_t) : RegValue :=
  fset RV.tlimit (sd_limit table) (fset RV.tbase (sd_base table) value).
Definition StoreTable (value : RegValue) (table : segment_desc_t) : segment_desc_t := {|
  sd_base := fget RV.tbase value;
  sd_limit := fget RV.tlimit value;
  sd_selector := sd_selector table;
  ar := ar table;
  sd_other := sd_other table
|}.

Definition set_st_mm (f : Z -> Z) (x : fx_layout) : fx_layout :=
  MkFx (fcw x) (fsw x) (ftw x) (fop x) (fip x) (fcs x) (fdp x) (fds x) (mxcsr x) (mxcsr_mask x)
    f (mmx_1 x) (mmx_2 x).
Definition set_mmx_1 (f : Z -> Z) (x : fx_layout) : fx_layout :=
  MkFx (fcw x) (fsw x) (ftw x) (fop x) (fip x) (fcs x) (fdp x) (fds x) (mxcsr x) (mxcsr_mask x)
    (st_mm x) f (mmx_2 x).
Definition set_mmx_2 (f : Z -> Z) (x : fx_layout) : fx_layout :=
  MkFx (fcw x) (fsw x) (ftw x) (fop x) (fip x) (fcs x) (fdp x) (fds x) (mxcsr x) (mxcsr_mask x)
    (st_mm x) (mmx_1 x) f.

(** Bytes 0 to 7 and 8 to 9 (or 15) of an entry. *)
Definition LoadSTRegister (value : RegValue) (index : Z) (fpuRegs : fx_layout) : RegValue :=
  let value := fset RV.significand (fget (Field 0 64) (st_mm fpuRegs index)) value in
  fset RV.exponentSign (fget (Field 64 16) (st_mm fpuRegs index)) value.
Definition StoreSTRegister (value : RegValue) (index : Z) (fpuRegs : fx_layout) : fx_layout :=
  let entry := fset (Field 0 64) (fget RV.significand value) (st_mm fpuRegs index) in
  let entry := fset (Field 64 16) (fget RV.exponentSign value) entry in
  set_st_mm (<[index := entry]> (st_mm fpuRegs)) fpuRegs.
Definition LoadMMRegister (value : RegValue) (index : Z) (fpuRegs : fx_layout) : RegValue :=
  fset (RV.i64 0) (fget (Field 0 64) (st_mm fpuRegs index)) value.
Definition StoreMMRegister (value : RegValue) (index : Z) (fpuRegs : fx_layout) : fx_layout :=
  set_st_mm (<[index := fset (Field 0 64) (fget (RV.i64 0) value) (st_mm fpuRegs index)]>
               (st_mm fpuRegs)) fpuRegs.
Definition load_xmm (value : RegValue) (entry : Z) : RegValue :=
  let value := fset (RV.i64 0) (fget (Field 0 64) entry) value in
  fset (RV.i64 1) (fget (Field 64 64) entry) value.
Definition store_xmm (value : RegValue) (entry : Z) : Z :=
  let entry := fset (Field 0 64) (fget (RV.i64 0) value) entry in
  fset (Field 64 64) (fget (RV.i64 1) value) entry.
(** The results of these two are not used by the callers. *)
Definition LoadXMMRegister (value : RegValue) (index : Z) (fpuRegs : fx_layout) : RegValue :=
  if index <? 8 then load_xmm value (mmx_1 fpuRegs index)
  else if index <? 16 then load_xmm value (mmx_2 fpuRegs (index - 8))
  else value.
Definition StoreXMMRegister (value : RegValue) (index : Z) (fpuRegs : fx_layout) : fx_layout :=
  if index <? 8 then
    set_mmx_1 (<[index := store_xmm value (mmx_1 fpuRegs index)]> (mmx_1 fpuRegs)) fpuRegs
  else if index <? 16 then
    set_mmx_2 (<[index - 8 := store_xmm value (mmx_2 fpuRegs (index - 8))]> (mmx_2 fpuRegs)) fpuRegs
  else fpuRegs.

(** ** The register switches *)
Definition fixupFlags (flags : Z) : Z := (flags ||| 0x2) &&& 0xFFFFFFFFFFFF7FD7.

(** Assignments to members, together with the "changed" flag. *)
Definition write_state (r : vcpu_state_t) (c : hcache) : hcache :=
  MkHcache r (m_fpuRegs c) (m_regsDirty c) true (m_fpuRegsChanged c) (m_useEferMSR c).
Definition write_reg (f : field) (g : HG.t) (v : Z) (c : hcache) : hcache :=
  let r := m_regs c in
  write_state (MkVcpuState (<[g := fset f v (vs_regs r g)]> (vs_regs r)) (vs_seg r) (vs_ctl r)
                 (_efer r) (vs_other r)) c.
Definition write_seg (s : HS.t) (d : segment_desc_t) (c : hcache) : hcache :=
  let r := m_regs c in
  write_state (MkVcpuState (vs_regs r) (<[s := d]> (vs_seg r)) (vs_ctl r) (_efer r) (vs_other r)) c.
Definition write_ctl (k : HC.t) (v : Z) (c : hcache) : hcache :=
  let r := m_regs c in
  write_state (MkVcpuState (vs_regs r) (vs_seg r) (<[k := v]> (vs_ctl r)) (_efer r) (vs_other r)) c.
Definition write_efer (v : Z) (c : hcache) : hcache :=
  let r := m_regs c in
  write_state (MkVcpuState (vs_regs r) (vs_seg r) (vs_ctl r) v (vs_other r)) c.
Definition write_fpu (x : fx_layout) (c : hcache) : hcache :=
  MkHcache (m_regs c) x (m_regsDirty c) (m_regsChanged c) true (m_useEferMSR c).
Definition reg_get (f : field) (g : HG.t) (c : hcache) : Z := fget f (vs_regs (m_regs c) g).

(** [HaxmRegRead] and [HaxmRegWrite] without the access to EFER's MSR; [None] is
    [Unsupported]. *)
Definition read_member (reg : Reg.t) (value : RegValue) (c : hcache) : option RegValue :=
  match reg with
  | Reg.CS => Some (LoadSegment value (vs_seg (m_regs c) HS.cs))
  | Reg.SS => Some (LoadSegment value (vs_seg (m_regs c) HS.ss))
  | Reg.DS => Some (LoadSegment value (vs_seg (m_regs c) HS.ds))
  | Reg.ES => Some (LoadSegment value (vs_seg (m_regs c) HS.es))
  | Reg.FS => Some (LoadSegment value (vs_seg (m_regs c) HS.fs))
  | Reg.GS => Some (LoadSegment value (vs_seg (m_regs c) HS.gs))
  | Reg.LDTR => Some (LoadSegment value (vs_seg (m_regs c) HS.ldt))
  | Reg.TR => Some (LoadSegment value (vs_seg (m_regs c) HS.tr))
  | Reg.GDTR => Some (LoadTable value (vs_seg (m_regs c) HS.gdt))
  | Reg.IDTR => Some (LoadTable value (vs_seg (m_regs c) HS.idt))
  | Reg.AH => Some (fset RV.u8 (reg_get U.h HG.rax c) value)
  | Reg.AL => Some (fset RV.u8 (reg_get U.l HG.rax c) value)
  | Reg.CH => Some (fset RV.u8 (reg_get U.h HG.rcx c) value)
  | Reg.CL => Some (fset RV.u8 (reg_get U.l HG.rcx c) value)
  | Reg.DH => Some (fset RV.u8 (reg_get U.h HG.rdx c) value)
  | Reg.DL => Some (fset RV.u8 (reg_get U.l HG.rdx c) value)
  | Reg.BH => Some (fset RV.u8 (reg_get U.h HG.rbx c) value)
  | Reg.BL => Some (fset RV.u8 (reg_get U.l HG.rbx c) value)
  | Reg.SPL => Some (fset RV.u8 (u8 (reg_get U.x HG.rsp c)) value)
  | Reg.BPL => Some (fset RV.u8 (u8 (reg_get U.x HG.rbp c)) value)
  | Reg.SIL => Some (fset RV.u8 (u8 (reg_get U.x HG.rsi c)) value)
  | Reg.DIL => Some (fset RV.u8 (u8 (reg_get U.x HG.rdi c)) value)
  | Reg.R8B => Some (fset RV.u8 (u8 (reg_get U.r HG.r8 c)) value)
  | Reg.R9B => Some (fset RV.u8 (u8 (reg_get U.r HG.r9 c)) value)
  | Reg.R10B => Some (fset RV.u8 (u8 (reg_get U.r HG.r10 c)) value)
  | Reg.R11B => Some (fset RV.u8 (u8 (reg_get U.r HG.r11 c)) value)
  | Reg.R12B => Some (fset RV.u8 (u8 (reg_get U.r HG.r12 c)) value)
  | Reg.R13B => Some (fset RV.u8 (u8 (reg_get U.r HG.r13 c)) value)
  | Reg.R14B => Some (fset RV.u8 (u8 (reg_get U.r HG.r14 c)) value)
  | Reg.R15B => Some (fset RV.u8 (u8 (reg_get U.r HG.r15 c)) value)
  | Reg.AX => Some (fset RV.u16 (reg_get U.x HG.rax c) value)
  | Reg.CX => Some (fset RV.u16 (reg_get U.x HG.rcx c) value)
  | Reg.DX => Some (fset RV.u16 (reg_get U.x HG.rdx c) value)
  | Reg.BX => Some (fset RV.u16 (reg_get U.x HG.rbx c) value)
  | Reg.SI => Some (fset RV.u16 (reg_get U.x HG.rsi c) value)
  | Reg.DI => Some (fset RV.u16 (reg_get U.x HG.rdi c) value)
  | Reg.SP => Some (fset RV.u16 (reg_get U.x HG.rsp c) value)
  | Reg.BP => Some (fset RV.u16 (reg_get U.x HG.rbp c) value)
  | Reg.R8W => Some (fset RV.u16 (u16 (reg_get U.r HG.r8 c)) value)
  | Reg.R9W => Some (fset RV.u16 (u16 (reg_get U.r HG.r9 c)) value)
  | Reg.R10W => Some (fset RV.u16 (u16 (reg_get U.r HG.r10 c)) value)
  | Reg.R11W => Some (fset RV.u16 (u16 (reg_get U.r HG.r11 c)) value)
  | Reg.R12W => Some (fset RV.u16 (u16 (reg_get U.r HG.r12 c)) value)
  | Reg.R13W => Some (fset RV.u16 (u16 (reg_get U.r HG.r13 c)) value)
  | Reg.R14W => Some (fset RV.u16 (u16 (reg_get U.r HG.r14 c)) value)
  | Reg.R15W => Some (fset RV.u16 (u16 (reg_get U.r HG.r15 c)) value)
  | Reg.IP => Some (fset RV.u16 (u16 (reg_get U.e HG.rip c)) value)
  | Reg.FLAGS => Some (fset RV.u16 (u16 (reg_get U.e HG.rflags c)) value)
  | Reg.EAX => Some (fset RV.u32 (reg_get U.e HG.rax c) value)
  | Reg.ECX => Some (fset RV.u32 (reg_get U.e HG.rcx c) value)
  | Reg.EDX => Some (fset RV.u32 (reg_get U.e HG.rdx c) value)
  | Reg.EBX => Some (fset RV.u32 (reg_get U.e HG.rbx c) value)
  | Reg.ESI => Some (fset RV.u32 (reg_get U.e HG.rsi c) value)
  | Reg.EDI => Some (fset RV.u32 (reg_get U.e HG.rdi c) value)
  | Reg.ESP => Some (fset RV.u32 (reg_get U.e HG.rsp c) value)
  | Reg.EBP => Some (fset RV.u32 (reg_get U.e HG.rbp c) value)
  | Reg.R8D => Some (fset RV.u32 (u32 (reg_get U.r HG.r8 c)) value)
  | Reg.R9D => Some (fset RV.u32 (u32 (reg_get U.r HG.r9 c)) value)
  | Reg.R10D => Some (fset RV.u32 (u32 (reg_get U.r HG.r10 c)) value)
  | Reg.R11D => Some (fset RV.u32 (u32 (reg_get U.r HG.r11 c)) value)
  | Reg.R12D => Some (fset RV.u32 (u32 (reg_get U.r HG.r12 c)) value)
  | Reg.R13D => Some (fset RV.u32 (u32 (reg_get U.r HG.r13 c)) value)
  | Reg.R14D => Some (fset RV.u32 (u32 (reg_get U.r HG.r14 c)) value)
  | Reg.R15D => Some (fset RV.u32 (u32 (reg_get U.r HG.r15 c)) value)
  | Reg.EIP => Some (fset RV.u32 (reg_get U.e HG.rip c) value)
  | Reg.EFLAGS => Some (fset RV.u32 (reg_get U.e HG.rflags c) value)
  | Reg.RAX => Some (fset RV.u64 (reg_get U.r HG.rax c) value)
  | Reg.RCX => Some (fset RV.u64 (reg_get U.r HG.rcx c) value)
  | Reg.RDX => Some (fset RV.u64 (reg_get U.r HG.rdx c) value)
  | Reg.RBX => Some (fset RV.u64 (reg_get U.r HG.rbx c) value)
  | Reg.RSI => Some (fset RV.u64 (reg_get U.r HG.rsi c) value)
  | Reg.RDI => Some (fset RV.u64 (reg_get U.r HG.rdi c) value)
  | Reg.RSP => Some (fset RV.u64 (reg_get U.r HG.rsp c) value)
  | Reg.RBP => Some (fset RV.u64 (reg_get U.r HG.rbp c) value)
  | Reg.R8 => Some (fset RV.u64 (reg_get U.r HG.r8 c) value)
  | Reg.R9 => Some (fset RV.u64 (reg_get U.r HG.r9 c) value)
  | Reg.R10 => Some (fset RV.u64 (reg_get U.r HG.r10 c) value)
  | Reg.R11 => Some (fset RV.u64 (reg_get U.r HG.r11 c) value)
  | Reg.R12 => Some (fset RV.u64 (reg_get U.r HG.r12 c) value)
  | Reg.R13 => Some (fset RV.u64 (reg_get U.r HG.r13 c) value)
  | Reg.R14 => Some (fset RV.u64 (reg_get U.r HG.r14 c) value)
  | Reg.R15 => Some (fset RV.u64 (reg_get U.r HG.r15 c) value)
  | Reg.RIP => Some (fset RV.u64 (reg_get U.r HG.rip c) value)
  | Reg.RFLAGS => Some (fset RV.u64 (reg_get U.r HG.rflags c) value)
  | Reg.CR0 => Some (fset RV.u64 (vs_ctl (m_regs c) HC.cr0) value)
  | Reg.CR2 => Some (fset RV.u64 (vs_ctl (m_regs c) HC.cr2) value)
  | Reg.CR3 => Some (fset RV.u64 (vs_ctl (m_regs c) HC.cr3) value)
  | Reg.CR4 => Some (fset RV.u64 (vs_ctl (m_regs c) HC.cr4) value)
  | Reg.DR0 => Some (fset RV.u64 (vs_ctl (m_regs c) HC.dr0) value)
  | Reg.DR1 => Some (fset RV.u64 (vs_ctl (m_regs c) HC.dr1) value)
  | Reg.DR2 => Some (fset RV.u64 (vs_ctl (m_regs c) HC.dr2) value)
  | Reg.DR3 => Some (fset RV.u64 (vs_ctl (m_regs c) HC.dr3) value)
  | Reg.DR6 => Some (fset RV.u64 (vs_ctl (m_regs c) HC.dr6) value)
  | Reg.DR7 => Some (fset RV.u64 (vs_ctl (m_regs c) HC.dr7) value)
  | Reg.EFER => Some (fset RV.u64 (_efer (m_regs c)) value)
  | Reg.ST0 | Reg.ST1 | Reg.ST2 | Reg.ST3 | Reg.ST4 | Reg.ST5 | Reg.ST6 | Reg.ST7 => Some (LoadSTRegister value (RegOffset 8 Reg.ST0 reg) (m_fpuRegs c))
  | Reg.MM0 | Reg.MM1 | Reg.MM2 | Reg.MM3 | Reg.MM4 | Reg.MM5 | Reg.MM6 | Reg.MM7 => Some (LoadMMRegister value (RegOffset 8 Reg.MM0 reg) (m_fpuRegs c))
  | Reg.XMM0 | Reg.XMM1 | Reg.XMM2 | Reg.XMM3 | Reg.XMM4 | Reg.XMM5 | Reg.XMM6 | Reg.XMM7
    | Reg.XMM8 | Reg.XMM9 | Reg.XMM10 | Reg.XMM11 | Reg.XMM12 | Reg.XMM13 | Reg.XMM14
    | Reg.XMM15 => Some (LoadXMMRegister value (RegOffset 8 Reg.XMM0 reg) (m_fpuRegs c))
  | _ => None
  end.
Definition write_member (reg : Reg.t) (value : RegValue) (c : hcache) : option hcache :=
  match reg with
  | Reg.CS => Some (write_seg HS.cs (StoreSegment value (vs_seg (m_regs c) HS.cs)) c)
  | Reg.SS => Some (write_seg HS.ss (StoreSegment value (vs_seg (m_regs c) HS.ss)) c)
  | Reg.DS => Some (write_seg HS.ds (StoreSegment value (vs_seg (m_regs c) HS.ds)) c)
  | Reg.ES => Some (write_seg HS.es (StoreSegment value (vs_seg (m_regs c) HS.es)) c)
  | Reg.FS => Some (write_seg HS.fs (StoreSegment value (vs_seg (m_regs c) HS.fs)) c)
  | Reg.GS => Some (write_seg HS.gs (StoreSegment value (vs_seg (m_regs c) HS.gs)) c)
  | Reg.LDTR => Some (write_seg HS.ldt (StoreSegment value (vs_seg (m_regs c) HS.ldt)) c)
  | Reg.TR => Some (write_seg HS.tr (StoreSegment value (vs_seg (m_regs c) HS.tr)) c)
  | Reg.GDTR => Some (write_seg HS.gdt (StoreTable value (vs_seg (m_regs c) HS.gdt)) c)
  | Reg.IDTR => Some (write_seg HS.idt (StoreTable value (vs_seg (m_regs c) HS.idt)) c)
  | Reg.AH => Some (write_reg U.h HG.rax (fget RV.u8 value) c)
  | Reg.AL => Some (write_reg U.l HG.rax (fget RV.u8 value) c)
  | Reg.CH => Some (write_reg U.h HG.rcx (fget RV.u8 value) c)
  | Reg.CL => Some (write_reg U.l HG.rcx (fget RV.u8 value) c)
  | Reg.DH => Some (write_reg U.h HG.rdx (fget RV.u8 value) c)
  | Reg.DL => Some (write_reg U.l HG.rdx (fget RV.u8 value) c)
  | Reg.BH => Some (write_reg U.h HG.rbx (fget RV.u8 value) c)
  | Reg.BL => Some (write_reg U.l HG.rbx (fget RV.u8 value) c)
  | Reg.SPL => Some (write_reg U.x HG.rsp (fget RV.u8 value) c)
  | Reg.BPL => Some (write_reg U.x HG.rbp (fget RV.u8 value) c)
  | Reg.SIL => Some (write_reg U.x HG.rsi (fget RV.u8 value) c)
  | Reg.DIL => Some (write_reg U.x HG.rdi (fget RV.u8 value) c)
  | Reg.R8B => Some (write_reg U.r HG.r8 (SetLowByte (reg_get U.r HG.r8 c) (fget RV.u8 value)) c)
  | Reg.R9B => Some (write_reg U.r HG.r9 (SetLowByte (reg_get U.r HG.r9 c) (fget RV.u8 value)) c)
  | Reg.R10B => Some (write_reg U.r HG.r10 (SetLowByte (reg_get U.r HG.r10 c) (fget RV.u8 value)) c)
  | Reg.R11B => Some (write_reg U.r HG.r11 (SetLowByte (reg_get U.r HG.r11 c) (fget RV.u8 value)) c)
  | Reg.R12B => Some (write_reg U.r HG.r12 (SetLowByte (reg_get U.r HG.r12 c) (fget RV.u8 value)) c)
  | Reg.R13B => Some (write_reg U.r HG.r13 (SetLowByte (reg_get U.r HG.r13 c) (fget RV.u8 value)) c)
  | Reg.R14B => Some (write_reg U.r HG.r14 (SetLowByte (reg_get U.r HG.r14 c) (fget RV.u8 value)) c)
  | Reg.R15B => Some (write_reg U.r HG.r15 (SetLowByte (reg_get U.r HG.r15 c) (fget RV.u8 value)) c)
  | Reg.AX => Some (write_reg U.x HG.rax (fget RV.u16 value) c)
  | Reg.CX => Some (write_reg U.x HG.rcx (fget RV.u16 value) c)
  | Reg.DX => Some (write_reg U.x HG.rdx (fget RV.u16 value) c)
  | Reg.BX => Some (write_reg U.x HG.rbx (fget RV.u16 value) c)
  | Reg.SI => Some (write_reg U.x HG.rsi (fget RV.u16 value) c)
  | Reg.DI => Some (write_reg U.x HG.rdi (fget RV.u16 value) c)
  | Reg.SP => Some (write_reg U.x HG.rsp (fget RV.u16 value) c)
  | Reg.BP => Some (write_reg U.x HG.rbp (fget RV.u16 value) c)
  | Reg.R8W => Some (write_reg U.r HG.r8 (SetLowWord (reg_get U.r HG.r8 c) (fget RV.u16 value)) c)
  | Reg.R9W => Some (write_reg U.r HG.r9 (SetLowWord (reg_get U.r HG.r9 c) (fget RV.u16 value)) c)
  | Reg.R10W => Some (write_reg U.r HG.r10 (SetLowWord (reg_get U.r HG.r10 c) (fget RV.u16 value)) c)
  | Reg.R11W => Some (write_reg U.r HG.r11 (SetLowWord (reg_get U.r HG.r11 c) (fget RV.u16 value)) c)
  | Reg.R12W => Some (write_reg U.r HG.r12 (SetLowWord (reg_get U.r HG.r12 c) (fget RV.u16 value)) c)
  | Reg.R13W => Some (write_reg U.r HG.r13 (SetLowWord (reg_get U.r HG.r13 c) (fget RV.u16 value)) c)
  | Reg.R14W => Some (write_reg U.r HG.r14 (SetLowWord (reg_get U.r HG.r14 c) (fget RV.u16 value)) c)
  | Reg.R15W => Some (write_reg U.r HG.r15 (SetLowWord (reg_get U.r HG.r15 c) (fget RV.u16 value)) c)
  | Reg.IP => Some (write_reg U.e HG.rip (fget RV.u16 value) c)
  | Reg.FLAGS => Some (write_reg U.e HG.rflags (u32 (fixupFlags (fget RV.u16 value))) c)
  | Reg.EAX => Some (write_reg U.r HG.rax (fget RV.u32 value) c)
  | Reg.ECX => Some (write_reg U.r HG.rcx (fget RV.u32 value) c)
  | Reg.EDX => Some (write_reg U.r HG.rdx (fget RV.u32 value) c)
  | Reg.EBX => Some (write_reg U.r HG.rbx (fget RV.u32 value) c)
  | Reg.ESI => Some (write_reg U.r HG.rsi (fget RV.u32 value) c)
  | Reg.EDI => Some (write_reg U.r HG.rdi (fget RV.u32 value) c)
  | Reg.ESP => Some (write_reg U.r HG.rsp (fget RV.u32 value) c)
  | Reg.EBP => Some (write_reg U.r HG.rbp (fget RV.u32 value) c)
  | Reg.R8D => Some (write_reg U.r HG.r8 (fget RV.u32 value) c)
  | Reg.R9D => Some (write_reg U.r HG.r9 (fget RV.u32 value) c)
  | Reg.R10D => Some (write_reg U.r HG.r10 (fget RV.u32 value) c)
  | Reg.R11D => Some (write_reg U.r HG.r11 (fget RV.u32 value) c)
  | Reg.R12D => Some (write_reg U.r HG.r12 (fget RV.u32 value) c)
  | Reg.R13D => Some (write_reg U.r HG.r13 (fget RV.u32 value) c)
  | Reg.R14D => Some (write_reg U.r HG.r14 (fget RV.u32 value) c)
  | Reg.R15D => Some (write_reg U.r HG.r15 (fget RV.u32 value) c)
  | Reg.EIP => Some (write_reg U.e HG.rip (fget RV.u32 value) c)
  | Reg.EFLAGS => Some (write_reg U.e HG.rflags (u32 (fixupFlags (fget RV.u32 value))) c)
  | Reg.EFER => Some (write_efer (fget RV.u32 value) c)
  | Reg.RAX => Some (write_reg U.r HG.rax (fget RV.u64 value) c)
  | Reg.RCX => Some (write_reg U.r HG.rcx (fget RV.u64 value) c)
  | Reg.RDX => Some (write_reg U.r HG.rdx (fget RV.u64 value) c)
  | Reg.RBX => Some (write_reg U.r HG.rbx (fget RV.u64 value) c)
  | Reg.RSI => Some (write_reg U.r HG.rsi (fget RV.u64 value) c)
  | Reg.RDI => Some (write_reg U.r HG.rdi (fget RV.u64 value) c)
  | Reg.RSP => Some (write_reg U.r HG.rsp (fget RV.u64 value) c)
  | Reg.RBP => Some (write_reg U.r HG.rbp (fget RV.u64 value) c)
  | Reg.R8 => Some (write_reg U.r HG.r8 (fget RV.u64 value) c)
  | Reg.R9 => Some (write_reg U.r HG.r9 (fget RV.u64 value) c)
  | Reg.R10 => Some (write_reg U.r HG.r10 (fget RV.u64 value) c)
  | Reg.R11 => Some (write_reg U.r HG.r11 (fget RV.u64 value) c)
  | Reg.R12 => Some (write_reg U.r HG.r12 (fget RV.u64 value) c)
  | Reg.R13 => Some (write_reg U.r HG.r13 (fget RV.u64 value) c)
  | Reg.R14 => Some (write_reg U.r HG.r14 (fget RV.u64 value) c)
  | Reg.R15 => Some (write_reg U.r HG.r15 (fget RV.u64 value) c)
  | Reg.RIP => Some (write_reg U.r HG.rip (fget RV.u64 value) c)
  | Reg.RFLAGS => Some (write_reg U.r HG.rflags (fixupFlags (fget RV.u64 value)) c)
  | Reg.CR0 => Some (write_ctl HC.cr0 (fget RV.u64 value) c)
  | Reg.CR2 => Some (write_ctl HC.cr2 (fget RV.u64 value) c)
  | Reg.CR3 => Some (write_ctl HC.cr3 (fget RV.u64 value) c)
  | Reg.CR4 => Some (write_ctl HC.cr4 (fget RV.u64 value) c)
  | Reg.DR0 => Some (write_ctl HC.dr0 (fget RV.u64 value) c)
  | Reg.DR1 => Some (write_ctl HC.dr1 (fget RV.u64 value) c)
  | Reg.DR2 => Some (write_ctl HC.dr2 (fget RV.u64 value) c)
  | Reg.DR3 => Some (write_ctl HC.dr3 (fget RV.u64 value) c)
  | Reg.DR6 => Some (write_ctl HC.dr6 (fget RV.u64 value) c)
  | Reg.DR7 => Some (write_ctl HC.dr7 (fget RV.u64 value) c)
  | Reg.ST0 | Reg.ST1 | Reg.ST2 | Reg.ST3 | Reg.ST4 | Reg.ST5 | Reg.ST6 | Reg.ST7 => Some (write_fpu (StoreSTRegister value (RegOffset 8 Reg.ST0 reg) (m_fpuRegs c)) c)
  | Reg.MM0 | Reg.MM1 | Reg.MM2 | Reg.MM3 | Reg.MM4 | Reg.MM5 | Reg.MM6 | Reg.MM7 => Some (write_fpu (StoreMMRegister value (RegOffset 8 Reg.MM0 reg) (m_fpuRegs c)) c)
  | Reg.XMM0 | Reg.XMM1 | Reg.XMM2 | Reg.XMM3 | Reg.XMM4 | Reg.XMM5 | Reg.XMM6 | Reg.XMM7
    | Reg.XMM8 | Reg.XMM9 | Reg.XMM10 | Reg.XMM11 | Reg.XMM12 | Reg.XMM13 | Reg.XMM14
    | Reg.XMM15 => Some (write_fpu (StoreXMMRegister value (RegOffset 8 Reg.XMM0 reg) (m_fpuRegs c)) c)
  | _ => None
  end.

(** ** The cache as a file of architectural registers *)
Inductive cell :=
| C_gpr (g : HG.t) | C_seg (s : HS.t) | C_ctl (k : HC.t) | C_efer | C_st (i : Z) | C_xmm (i : Z).
#[global] Instance cell_eq_dec : EqDecision cell.
Proof. solve_decision. Defined.

Definition cell_of (r : Reg.t) : option cell :=
  match r with
  | Reg.CS => Some (C_seg HS.cs) | Reg.SS => Some (C_seg HS.ss) | Reg.DS => Some (C_seg HS.ds)
  | Reg.ES => Some (C_seg HS.es) | Reg.FS => Some (C_seg HS.fs) | Reg.GS => Some (C_seg HS.gs)
  | Reg.LDTR => Some (C_seg HS.ldt) | Reg.TR => Some (C_seg HS.tr)
  | Reg.GDTR => Some (C_seg HS.gdt) | Reg.IDTR => Some (C_seg HS.idt)
  | Reg.RAX => Some (C_gpr HG.rax) | Reg.RCX => Some (C_gpr HG.rcx)
  | Reg.RDX => Some (C_gpr HG.rdx) | Reg.RBX => Some (C_gpr HG.rbx)
  | Reg.RSP => Some (C_gpr HG.rsp) | Reg.RBP => Some (C_gpr HG.rbp)
  | Reg.RSI => Some (C_gpr HG.rsi) | Reg.RDI => Some (C_gpr HG.rdi) | Reg.R8 => Some (C_gpr HG.r8)
  | Reg.R9 => Some (C_gpr HG.r9) | Reg.R10 => Some (C_gpr HG.r10) | Reg.R11 => Some (C_gpr HG.r11)
  | Reg.R12 => Some (C_gpr HG.r12) | Reg.R13 => Some (C_gpr HG.r13)
  | Reg.R14 => Some (C_gpr HG.r14) | Reg.R15 => Some (C_gpr HG.r15)
  | Reg.RIP => Some (C_gpr HG.rip) | Reg.RFLAGS => Some (C_gpr HG.rflags)
  | Reg.CR0 => Some (C_ctl HC.cr0) | Reg.CR2 => Some (C_ctl HC.cr2)
  | Reg.CR3 => Some (C_ctl HC.cr3) | Reg.CR4 => Some (C_ctl HC.cr4)
  | Reg.DR0 => Some (C_ctl HC.dr0) | Reg.DR1 => Some (C_ctl HC.dr1)
  | Reg.DR2 => Some (C_ctl HC.dr2) | Reg.DR3 => Some (C_ctl HC.dr3)
  | Reg.DR6 => Some (C_ctl HC.dr6) | Reg.DR7 => Some (C_ctl HC.dr7) | Reg.EFER => Some C_efer
  | r => if RegBetween r Reg.ST0 Reg.ST7 then Some (C_st (RegOffset 8 Reg.ST0 r))
         else if RegBetween r Reg.ZMM0 Reg.ZMM15 then Some (C_xmm (RegOffset 8 Reg.ZMM0 r))
         else None
  end.

(** What a member holds, in the terms of the driver's structures: the four or two members of a
    descriptor, bytes 0 to 9 of an x87 entry and bytes 0 to 15 of an SSE entry. *)
Definition seg_content (s : HS.t) (d : segment_desc_t) : Z :=
  match s with
  | HS.gdt | HS.idt => join [(RV.tbase, sd_base d); (RV.tlimit, sd_limit d)]
  | _ => join [(RV.selector, sd_selector d); (RV.segbase, sd_base d); (RV.seglimit, sd_limit d);
               (RV.attributes, ar d)]
  end.
Definition cell_get (k : cell) (c : hcache) : Z :=
  match k with
  | C_gpr g => fget (Field 0 64) (vs_regs (m_regs c) g)
  | C_seg s => seg_content s (vs_seg (m_regs c) s)
  | C_ctl k => u64 (vs_ctl (m_regs c) k)
  | C_efer => u64 (_efer (m_regs c))
  | C_st i => fget (Field 0 80) (st_mm (m_fpuRegs c) i)
  | C_xmm i => if i <? 8 then fget (Field 0 128) (mmx_1 (m_fpuRegs c) i)
               else if i <? 16 then fget (Field 0 128) (mmx_2 (m_fpuRegs c) (i - 8)) else 0
  end.
(** The contents of the full registers; 0 for those the cache does not hold. *)
Definition haxm_file (c : hcache) : archfile := fun R =>
  match cell_of R with Some k => cell_get k c | None => 0 end.

(** The registers that the switches support. *)
Definition haxm_supported (r : Reg.t) : bool :=
  (RegBetween r Reg.CS Reg.DR7 && negb (bool_decide (r = Reg.CR8))
   && negb (bool_decide (r = Reg.XCR0)))
  || RegBetween r Reg.ST0 Reg.XMM15.

(** Flags of [w] bits with the reserved ones as they must be: bit 1 set, bits 3, 5 and 15 clear. *)
Definition fixed_flags (w : Z) (v : RegValue) : Z :=
  fset (Field 1 1) 1 (fset (Field 3 1) 0 (fset (Field 5 1) 0 (fset (Field 15 1) 0 (fget (Field 0 w) v)))).
(** The value that a write stores: the flags are fixed up, EFER is cut to 32 bits, and of a segment or
    table the members are stored. *)
Definition haxm_value (r : Reg.t) (v : RegValue) : RegValue :=
  match r with
  | Reg.FLAGS => fixed_flags 16 v
  | Reg.EFLAGS => fixed_flags 32 v
  | Reg.RFLAGS => fixed_flags 64 v
  | Reg.EFER => fget (Field 0 32) v
  | Reg.GDTR | Reg.IDTR => only table_members v
  | Reg.CS | Reg.SS | Reg.DS | Reg.ES | Reg.FS | Reg.GS | Reg.LDTR | Reg.TR => only segment_members v
  | _ => v
  end.
(** The contents [X] of the full register after a write of [r]: as the
    architecture says, but SPL, BPL, SIL and DIL are assigned to the 16-bit member,
    IP and FLAGS to the 32-bit member, and EIP and EFLAGS to the 32-bit member
    without clearing the upper half. *)
Definition haxm_write (r : Reg.t) (v : RegValue) (X : Z) : Z :=
  match r with
  | Reg.SPL | Reg.BPL | Reg.SIL | Reg.DIL => fset U.x (fget RV.u8 v) X
  | Reg.IP => fset U.e (fget RV.u16 v) X
  | Reg.FLAGS | Reg.EIP | Reg.EFLAGS => fset U.e (haxm_value r v) X
  | _ => arch_write r (haxm_value r v) X
  end.
(** *** The switches' own terms

    The same, written with the helpers that the switches call. *)
Definition load_seg (s : HS.t) (d : segment_desc_t) : RegValue :=
  match s with HS.gdt | HS.idt => LoadTable 0 d | _ => LoadSegment 0 d end.
Definition cell_load (k : cell) (c : hcache) : Z :=
  match k with
  | C_gpr g => fget U.r (vs_regs (m_regs c) g)
  | C_seg s => load_seg s (vs_seg (m_regs c) s)
  | C_ctl k => u64 (vs_ctl (m_regs c) k)
  | C_efer => u64 (_efer (m_regs c))
  | C_st i => LoadSTRegister 0 i (m_fpuRegs c)
  | C_xmm i => LoadXMMRegister 0 i (m_fpuRegs c)
  end.
Definition value_stored (r : Reg.t) (v : RegValue) : RegValue :=
  match r with
  | Reg.FLAGS => u32 (fixupFlags (fget RV.u16 v))
  | Reg.EFLAGS => u32 (fixupFlags (fget RV.u32 v))
  | Reg.RFLAGS => fixupFlags (fget RV.u64 v)
  | Reg.GDTR | Reg.IDTR => LoadTable 0 (StoreTable v (MkSegmentDesc 0 0 0 0 []))
  | Reg.CS | Reg.SS | Reg.DS | Reg.ES | Reg.FS | Reg.GS | Reg.LDTR | Reg.TR =>
      LoadSegment 0 (StoreSegment v (MkSegmentDesc 0 0 0 0 []))
  | _ => haxm_value r v
  end.
Lemma hx_cell_load_get k c : cell_get k c = cell_load k c.
Proof.
  destruct k as [g|s|k| |i|i]; cbn [cell_get cell_load]; [reflexivity|destruct s; reflexivity|reflexivity..| |].
  - unfold LoadSTRegister. fbits.
  - unfold LoadXMMRegister, load_xmm. destruct (i <? 8); [fbits|]. destruct (i <? 16); [fbits|done].
Qed.
Lemma fixup_mask i : 16 <= i < 64 -> Z.testbit 0xFFFFFFFFFFFF7FD7 i = true.
Proof.
  intros Hi. change 0xFFFFFFFFFFFF7FD7 with (0x7FD7 ||| (Z.ones 48 <<< 16)).
  rewrite Z.lor_spec, Z.shiftl_spec, Z.testbit_ones_nonneg by lia.
  rewrite (proj2 (Z.ltb_lt (i - 16) 48)) by lia. apply orb_true_r.
Qed.
Lemma fixupFlags_fixed w v : w = 16 \/ w = 32 \/ w = 64 -> fixupFlags (fget (Field 0 w) v) = fixed_flags w v.
Proof.
  intros Hw. assert (Hwf : fwf (Field 0 w) = true) by (destruct Hw as [->|[->| ->]]; done).
  unfold fixupFlags, fixed_flags. apply Z.bits_inj'. intros i Hi.
  rewrite Z.land_spec, Z.lor_spec, !fset_testbit, fget_testbit by done. cbn [f_off f_width].
  destruct (Z.lt_ge_cases i 16) as [Hl|Hl].
  - rewrite (proj2 (Z.ltb_lt i w)) by lia.
    assert (i ∈ seqZ 0 16) as Hin by (apply elem_of_seqZ; lia). revert Hin. change (seqZ 0 16) with [0;1;2;3;4;5;6;7;8;9;10;11;12;13;14;15].
    rewrite !elem_of_cons, elem_of_nil.
    intros Hin; repeat (destruct Hin as [->|Hin]; [cbn; by destruct (Z.testbit v _)|]); done.
  - rewrite (proj2 (Z.ltb_ge i (1 + 1))), (proj2 (Z.ltb_ge i (3 + 1))), (proj2 (Z.ltb_ge i (5 + 1))),
      (proj2 (Z.ltb_ge i (15 + 1))), !andb_false_r, (testbit_range 2 2), orb_false_r by lia.
    destruct (Z.lt_ge_cases i 64) as [H64|H64]; [by rewrite fixup_mask, andb_true_r by lia|].
    rewrite (testbit_range 0xFFFFFFFFFFFF7FD7 64) by lia. rewrite andb_false_r. symmetry.
    by rewrite (proj2 (Z.ltb_ge i w)) by lia.
Qed.
Lemma fixed_flags_range w v : w = 16 \/ w = 32 \/ w = 64 -> 0 <= fixed_flags w v < 2 ^ w.
Proof.
  intros Hw. unfold fixed_flags. repeat (apply fset_range; [done|cbn; lia|]). apply (fget_range (Field 0 w)).
  destruct Hw as [->|[->| ->]]; done.
Qed.
Lemma hx_value_stored_spec r v : value_stored r v = haxm_value r v.
Proof.
  destruct r; try reflexivity; cbn [value_stored haxm_value].
  all: try (unfold only, assemble, join, LoadSegment, StoreSegment, LoadTable, StoreTable; cbn -[fget fset]; fbits).
  all: unfold RV.u16, RV.u32, RV.u64; rewrite fixupFlags_fixed by auto; try reflexivity.
  all: apply u32_small; match goal with |- context [fixed_flags ?w ?x] => pose proof (fixed_flags_range w x ltac:(auto)) end; lia.
Qed.

Definition haxm_upd (F : archfile) (r : Reg.t) (v : RegValue) : archfile :=
  fun R => if decide (R = full r) then haxm_write r v (F R) else F R.

(** *** Reading *)
Lemma hx_load_segment_agree w s : agree Reg.CS (LoadSegment w s) (LoadSegment 0 s).
Proof.
  unfold agree, reg_fields, LoadSegment; cbn -[fget fset].
  repeat constructor; fsimpl_nested; reflexivity.
Qed.
Lemma hx_load_table_agree w t : agree Reg.GDTR (LoadTable w t) (LoadTable 0 t).
Proof. unfold agree, LoadTable. cbn -[fget fset]. repeat constructor; by fsimpl. Qed.

(** Evaluate the indices of x87 and SSE registers. *)
Ltac offsets :=
  repeat match goal with |- context [RegOffset 8 ?a ?b] =>
    let n := eval vm_compute in (RegOffset 8 a b) in change (RegOffset 8 a b) with n end;
  repeat match goal with |- context [?a <? ?b] =>
    let r := eval vm_compute in (a <? b) in change (a <? b) with r end; cbv iota.

Lemma haxm_read_file r w c : haxm_supported r = true ->
  exists v, read_member r w c = Some v /\ agree r v (arch_read r (haxm_file c (full r))).
Proof.
  intros Hs. destruct (Z_le_gt_dec (Reg.idx r) 9) as [Hp|Hp].
  { assert (exists v, read_member r w c = Some v /\ agree r v (haxm_file c (full r))) as (v & H1 & H2).
    - destruct r; try (exfalso; cbn in Hp; lia); eexists; (split; [reflexivity|]);
      first [apply hx_load_segment_agree | apply hx_load_table_agree].
    - exists v. split; [done|]. etrans; [exact H2|]. symmetry. by apply agree_arch_whole. }
  destruct r; try discriminate Hs; try (exfalso; cbn in Hp; lia); eexists; (split; [reflexivity|]);
    unfold agree, arch_read, haxm_file; cbn -[fget fset cell_get]; rewrite hx_cell_load_get; cbn -[fget fset]; repeat constructor.
  all: unfold LoadSTRegister, LoadMMRegister, LoadXMMRegister, load_xmm, reg_get; offsets;
    fsimpl; rewrite ?u8_fget, ?u16_fget, ?u32_fget, ?u64_fget; fsimpl_nested;
    rewrite ?fget_mod_id by reflexivity; first [reflexivity | apply u64_fget].
Qed.

Lemma haxm_read_unsupported r w c : haxm_supported r = false -> read_member r w c = None.
Proof. by destruct r. Qed.

(** *** Writing *)
Ltac cell_cbn := cbn [cell_load write_reg write_seg write_ctl write_efer write_state write_fpu set_st_mm
  set_mmx_1 set_mmx_2 m_regs m_fpuRegs vs_regs vs_seg vs_ctl _efer st_mm mmx_1 mmx_2].
Ltac other := rewrite decide_False by discriminate; cell_cbn; reflexivity.
Lemma cell_load_write_reg f g v c k :
  cell_load k (write_reg f g v c)
  = if decide (k = C_gpr g) then fget U.r (fset f v (vs_regs (m_regs c) g)) else cell_load k c.
Proof.
  destruct k as [g'| | | | |]; try other. cell_cbn.
  destruct (decide _) as [[= ->]|Hne].
  - by rewrite fn_lookup_insert.
  - rewrite fn_lookup_insert_ne; [done|]. by intros ->.
Qed.
Lemma cell_load_write_seg s d c k :
  cell_load k (write_seg s d c) = if decide (k = C_seg s) then load_seg s d else cell_load k c.
Proof.
  destruct k as [|s'| | | |]; try other. cell_cbn.
  destruct (decide _) as [[= ->]|Hne].
  - by rewrite fn_lookup_insert.
  - rewrite fn_lookup_insert_ne; [done|]. by intros ->.
Qed.
Lemma hx_cell_load_write_ctl g v c k :
  cell_load k (write_ctl g v c) = if decide (k = C_ctl g) then u64 v else cell_load k c.
Proof.
  destruct k as [| |g'| | |]; try other. cell_cbn.
  destruct (decide _) as [[= ->]|Hne].
  - by rewrite fn_lookup_insert.
  - rewrite fn_lookup_insert_ne; [done|]. by intros ->.
Qed.
Lemma cell_load_write_efer v c k :
  cell_load k (write_efer v c) = if decide (k = C_efer) then u64 v else cell_load k c.
Proof. destruct k; by case_decide. Qed.
Lemma cell_load_write_st i e c k :
  cell_load k (write_fpu (set_st_mm (<[i := e]> (st_mm (m_fpuRegs c))) (m_fpuRegs c)) c)
  = if decide (k = C_st i)
    then fset RV.exponentSign (fget (Field 64 16) e) (fset RV.significand (fget (Field 0 64) e) 0)
    else cell_load k c.
Proof.
  destruct k as [| | | |j|]; try other. cell_cbn. unfold LoadSTRegister; cell_cbn.
  destruct (decide _) as [[= ->]|Hne].
  - by rewrite fn_lookup_insert.
  - rewrite fn_lookup_insert_ne; [done|]. by intros ->.
Qed.

(** The entry of an SSE register. *)
Definition xmm_entry (i : Z) (c : hcache) : Z :=
  if i <? 8 then mmx_1 (m_fpuRegs c) i else mmx_2 (m_fpuRegs c) (i - 8).
Lemma hx_cell_load_write_xmm i v c k : 0 <= i < 16 ->
  cell_load k (write_fpu (StoreXMMRegister v i (m_fpuRegs c)) c)
  = if decide (k = C_xmm i) then load_xmm 0 (store_xmm v (xmm_entry i c)) else cell_load k c.
Proof.
  intros Hi. unfold StoreXMMRegister, xmm_entry. rewrite (proj2 (Z.ltb_lt i 16)) by lia.
  destruct (Z.ltb_spec i 8) as [H8|H8]; destruct k as [| | | | |j]; try other; cell_cbn;
    unfold LoadXMMRegister; cell_cbn; (destruct (decide _) as [[= ->]|Hne];
    [try rewrite (proj2 (Z.ltb_lt i 8)) by lia; try rewrite (proj2 (Z.ltb_ge i 8)) by lia;
     rewrite ?(proj2 (Z.ltb_lt i 16)) by lia; by rewrite fn_lookup_insert|]).
  - destruct (j <? 8); [|done]. rewrite fn_lookup_insert_ne; [done|]. by intros ->.
  - destruct (Z.ltb_spec j 8); [done|]. destruct (Z.ltb_spec j 16); [|done].
    rewrite fn_lookup_insert_ne; [done|]. intros E. apply Hne. f_equal. lia.
Qed.

(** What the assignments store. *)
Lemma store_part f v x : fwf f = true -> fwithin f U.r = true ->
  fget U.r (fset f v x) = fset f v (fget U.r x).
Proof.
  intros Hf Hw. rewrite fget_fset_outer by done. unfold frel. cbn [f_off U.r].
  rewrite Z.sub_0_r. by destruct f.
Qed.
Lemma store_sub f g v x : fwf f = true -> fwf g = true -> fwithin f U.r = true -> f_width g = f_width f ->
  f_off g = 0 -> fget U.r (fset f (fget g v) x) = fset f v (fget U.r x).
Proof.
  intros Hf Hg Hw Hfg Ho. rewrite store_part by done. pose proof (fwf_spec f Hf).
  apply Z.bits_inj'; intros i Hi. rewrite !fset_testbit by done. case_if; [|done]. breflect.
  rewrite fget_testbit by (done || lia). rewrite Hfg, Ho, Z.add_0_r.
  by rewrite (proj2 (Z.ltb_lt _ _)) by lia.
Qed.
Lemma store_whole v x : fget U.r (fset U.r v x) = u64 v.
Proof. rewrite fget_fset_same by done. done. Qed.
Lemma u64_fget_r x : u64 (fget U.r x) = fget U.r x.
Proof. apply u64_small. apply (fget_range U.r). done. Qed.
Lemma store_seg v o : LoadSegment 0 (StoreSegment v o)
  = fget (Field 0 512) (LoadSegment 0 (StoreSegment v (MkSegmentDesc 0 0 0 0 []))).
Proof.
  unfold LoadSegment, StoreSegment. cbn [sd_base sd_limit sd_selector ar].
  rewrite fget_whole; [reflexivity|lia|].
  repeat (apply fset_range; [reflexivity|simpl; lia|]). lia.
Qed.
Lemma store_tab v o : LoadTable 0 (StoreTable v o)
  = fget (Field 0 512) (LoadTable 0 (StoreTable v (MkSegmentDesc 0 0 0 0 []))).
Proof. unfold LoadTable, StoreTable; cbn [sd_base sd_limit]. fbits. Qed.
Lemma hx_store_st v e :
  fset RV.exponentSign (fget (Field 64 16) (fset (Field 64 16) (fget RV.exponentSign v)
      (fset (Field 0 64) (fget RV.significand v) e)))
    (fset RV.significand (fget (Field 0 64) (fset (Field 64 16) (fget RV.exponentSign v)
      (fset (Field 0 64) (fget RV.significand v) e))) 0)
  = fget (Field 0 80) v.
Proof. fbits. Qed.
Lemma hx_store_mm v e :
  fset RV.exponentSign (fget (Field 64 16) (fset (Field 0 64) (fget (RV.i64 0) v) e))
    (fset RV.significand (fget (Field 0 64) (fset (Field 0 64) (fget (RV.i64 0) v) e)) 0)
  = fset (Field 0 64) v
      (fset RV.exponentSign (fget (Field 64 16) e) (fset RV.significand (fget (Field 0 64) e) 0)).
Proof. fbits. Qed.
Lemma store_xmm_entry v e : load_xmm 0 (store_xmm v e) = fset (Field 0 128) v (load_xmm 0 e).
Proof. unfold load_xmm, store_xmm. fbits. Qed.
Lemma load_xmm_entry i c : 0 <= i < 16 -> LoadXMMRegister 0 i (m_fpuRegs c) = load_xmm 0 (xmm_entry i c).
Proof.
  intros Hi. unfold LoadXMMRegister, xmm_entry. rewrite (proj2 (Z.ltb_lt i 16)) by lia.
  by destruct (i <? 8).
Qed.

Lemma haxm_write_cell r v c : haxm_supported r = true ->
  exists c' k, write_member r v c = Some c' /\ cell_of (full r) = Some k
    /\ forall k', cell_get k' c' = if decide (k' = k) then haxm_write r v (cell_get k c)
                  else cell_get k' c.
Proof.
  intros Hs. destruct r; try discriminate Hs; (eexists _, _; split; [reflexivity|split; [reflexivity|]]);
    intros k'; rewrite !hx_cell_load_get; unfold haxm_write; rewrite <- ?hx_value_stored_spec; cbn [value_stored haxm_value].
  all: unfold StoreSTRegister, StoreMMRegister, reg_get; cbn [full];
    repeat match goal with |- context [RegOffset 8 ?a ?b] =>
    let n := eval vm_compute in (RegOffset 8 a b) in change (RegOffset 8 a b) with n end.
  all: first [ rewrite cell_load_write_reg | rewrite hx_cell_load_write_ctl | rewrite cell_load_write_efer
             | rewrite cell_load_write_seg | rewrite cell_load_write_st
             | rewrite hx_cell_load_write_xmm by lia ].
  all: case_decide; [|reflexivity]; unfold arch_write;
    cbn -[fget fset u64 u32 LoadSegment LoadTable fixupFlags LoadXMMRegister load_xmm].
  all: parity.
  all: lazymatch goal with
    | |- LoadSegment _ _ = _ => apply store_seg
    | |- LoadTable _ _ = _ => apply store_tab
    | |- fset RV.exponentSign _ _ = fget _ _ => apply hx_store_st
    | |- fset RV.exponentSign _ _ = _ => unfold LoadSTRegister; apply hx_store_mm
    | |- load_xmm _ _ = _ => rewrite load_xmm_entry by lia; apply store_xmm_entry
    | |- fget U.r (fset U.r (SetLowByte _ _) _) = _ => rewrite store_whole, store_low8, u64_fget_r; reflexivity
    | |- fget U.r (fset U.r (SetLowWord _ _) _) = _ => rewrite store_whole, store_low16, u64_fget_r; reflexivity
    | |- fget U.r (fset U.r _ _) = _ => rewrite store_whole;
        first [apply store_32 | apply store_64 | apply u64_fget]
    | |- u64 (fget RV.u32 _) = _ => apply store_efer
    | |- u64 _ = _ => apply store_64
    | |- _ => first [apply store_part; reflexivity | apply store_sub; reflexivity]
    end.
Qed.

Lemma haxm_write_unsupported r v c : haxm_supported r = false -> write_member r v c = None.
Proof. by destruct r. Qed.

(** Different full registers are held by different members. *)
Lemma hx_cell_of_inj R R' : full R = R -> full R' = R' -> cell_of R = cell_of R' ->
  is_Some (cell_of R) -> R = R'.
Proof. apply held_inj. apply (bool_decide_unpack (NoDup _)). vm_compute. exact I. Qed.

Lemma haxm_write_file r v c : haxm_supported r = true ->
  exists c', write_member r v c = Some c'
    /\ forall R, haxm_file c' (full R) = haxm_upd (haxm_file c) r v (full R).
Proof.
  intros Hs. destruct (haxm_write_cell r v c Hs) as (c' & k & Hw & Hk & Hc). exists c'.
  split; [done|]. intros R. unfold haxm_upd. destruct (decide (full R = full r)) as [E|Hne].
  - unfold haxm_file. rewrite E, Hk, Hc. by rewrite decide_True.
  - unfold haxm_file. destruct (cell_of (full R)) as [k'|] eqn:Ek; [|done].
    rewrite Hc, decide_False; [done|]. intros ->. apply Hne.
    apply hx_cell_of_inj; try apply full_idem; [congruence|by rewrite Ek].
Qed.

(** A write leaves the dirty flag and flags every structure that it changes. *)
Definition hflagged (c c' : hcache) : Prop :=
  m_regsDirty c' = m_regsDirty c /\ m_useEferMSR c' = m_useEferMSR c
  /\ (m_regsChanged c' = m_regsChanged c /\ m_regs c' = m_regs c \/ m_regsChanged c' = true)
  /\ (m_fpuRegsChanged c' = m_fpuRegsChanged c /\ m_fpuRegs c' = m_fpuRegs c
      \/ m_fpuRegsChanged c' = true).

Lemma haxm_write_flagged r v c c' : write_member r v c = Some c' -> hflagged c c'.
Proof.
  intros Hw. assert (haxm_supported r = true) as Hs
    by (destruct (haxm_supported r) eqn:E; [done|by rewrite haxm_write_unsupported in Hw]).
  destruct r; try discriminate Hs; injection Hw as <-; unfold hflagged;
    cbn [m_regsDirty m_regsChanged m_fpuRegsChanged m_useEferMSR m_regs m_fpuRegs
         write_reg write_seg write_ctl write_efer write_state write_fpu];
    (split; [reflexivity|]; split; [reflexivity|]; split); (by left) || (by right).
Qed.

(** Reading a register just written. *)
Lemma haxm_readback r v X : agree r (arch_read r (haxm_write r v X)) (haxm_value r v).
Proof.
  destruct r; unfold haxm_write; try apply arch_read_write;
    unfold agree, arch_read, haxm_value; cbn -[fget fset u32 fixupFlags]; repeat constructor; fsimpl_nested;
    rewrite ?u32_fget; fsimpl_nested; reflexivity.
Qed.

(** Segments and tables are stored with all their members. *)
Lemma haxm_value_agree r v : RegBetween r Reg.CS Reg.IDTR = true -> agree r (haxm_value r v) v.
Proof.
  intros Hr. unfold agree. destruct r; try discriminate Hr; cbn -[fget fset];
    repeat (apply Forall_cons; split); try apply Forall_nil_2; fbits.
Qed.

(** Members beyond a value. *)
Lemma fget_small f v : fwf f = true -> 0 <= v < 2 ^ f_off f -> fget f v = 0.
Proof.
  intros Hf Hv. pose proof (fwf_spec f Hf). rewrite fget_mod by done.
  rewrite Z.div_small by done. apply Z.mod_0_l. apply Z.pow_nonzero; lia.
Qed.
Lemma fget_beyond f g v : fwf f = true -> fwf g = true -> (f_width g <=? f_off f) = true ->
  fget f (fget g v) = 0.
Proof.
  intros Hf Hg Hd. pose proof (fwf_spec g Hg). breflect. apply fget_small; [done|].
  pose proof (fget_range g v Hg) as Hr. pose proof (Z.pow_le_mono_r 2 (f_width g) (f_off f)). lia.
Qed.

(** The registers that are written exactly as the architecture says. *)
Definition haxm_exact (r : Reg.t) : bool :=
  haxm_supported r
  && negb (RegBetween r Reg.CS Reg.IDTR || RegBetween r Reg.SPL Reg.DIL
           || bool_decide (r ∈ [Reg.IP; Reg.EIP; Reg.FLAGS; Reg.EFLAGS; Reg.RFLAGS; Reg.EFER])).

(** ** Theorems *)

