(* ===== verification/HaxmVp.v ===== *)
(** * The virtual processor of the HAXM platform (haxm_vp.hpp, haxm_vp.cpp,
    haxm_sys_vp.cpp of Linux)

    The operations of [HaxmVirtualProcessor] over the register cache of
    HaxmRegs.v.  The driver is the class [HAXM]: one operation per ioctl on a
    processor's file descriptor, with the integer that the ioctl returns and the
    structures it fills. *)
From stdpp Require Import functions.
From S2P Require Import Prelude Bits MemRegions VM Regs Status Vp Interrupts Arch Debug HaxmRegs.

(** ** The memory shared with the driver

    [exit_status] of hax_types.hpp; the tunnel of hax_interface.hpp, whose union
    is an integer with the members of [T]; the I/O tunnel is memory of the process
    at the address [m_ioTunnel], and [F] gives the offsets of [hax_fastmmio]. *)
Definition HAX_EXIT_IO : Z := 1.
Definition HAX_EXIT_MMIO : Z := 2.
Definition HAX_EXIT_REALMODE : Z := 3.
Definition HAX_EXIT_INTERRUPT : Z := 4.
Definition HAX_EXIT_UNKNOWN : Z := 5.
Definition HAX_EXIT_HLT : Z := 6.
Definition HAX_EXIT_STATECHANGE : Z := 7.
Definition HAX_EXIT_PAUSED : Z := 8.
Definition HAX_EXIT_FAST_MMIO : Z := 9.
Definition HAX_EXIT_PAGEFAULT : Z := 10.
Definition HAX_EXIT_DEBUG : Z := 11.

Module T.
Definition io_direction := Field 0 8.
Definition io_df := Field 8 8.
Definition io_size := Field 16 16.
Definition io_port := Field 32 16.
Definition io_count := Field 48 16.
Definition debug_rip := Field 0 64.
Definition debug_dr6 := Field 64 64.
End T.
Module F.
Definition gpa : Z := 0.
Definition value : Z := 8.
Definition gpa2 : Z := 8.
Definition size : Z := 16.
Definition direction : Z := 17.
End F.
Definition HAX_IO_OUT : Z := 0.
Definition HAX_IO_IN : Z := 1.

Record hax_tunnel := MkTunnel {
  _exit_status : Z; ready_for_interrupt_injection : Z; request_interrupt_window : Z;
  tunnel_union : Z
}.

(** [entries] is an array of HAX_MAX_MSR_ARRAY pairs of entry and value. *)
Definition HAX_MAX_MSR_ARRAY : Z := 0x20.
Record hax_msr_data := MkMsrData { nr_msr : Z; entries : list (Z * Z) }.
Definition no_msrs : hax_msr_data := MkMsrData 0 (replicate (Z.to_nat HAX_MAX_MSR_ARRAY) (0, 0)).

(** [dr] is an array of eight. *)
Definition HAX_DEBUG_ENABLE : Z := 1 <<< 0.
Definition HAX_DEBUG_STEP : Z := 1 <<< 1.
Definition HAX_DEBUG_USE_SW_BP : Z := 1 <<< 2.
Definition HAX_DEBUG_USE_HW_BP : Z := 1 <<< 3.
Record hax_debug_t := MkDebug { control : Z; dr : list Z }.

(** ** The driver *)
Class HAXM (K : Type) := {
  HAX_VCPU_IOCTL_RUN (fd : Z) : hax_tunnel * hmem -> K -> Z * (hax_tunnel * hmem) * K;
  HAX_VCPU_IOCTL_INTERRUPT (fd vector : Z) : K -> Z * K;
  HAX_VCPU_GET_REGS (fd : Z) : vcpu_state_t -> K -> Z * vcpu_state_t * K;
  HAX_VCPU_SET_REGS (fd : Z) : vcpu_state_t -> K -> Z * K;
  HAX_VCPU_IOCTL_GET_FPU (fd : Z) : fx_layout -> K -> Z * fx_layout * K;
  HAX_VCPU_IOCTL_SET_FPU (fd : Z) : fx_layout -> K -> Z * K;
  HAX_VCPU_IOCTL_GET_MSRS (fd : Z) : hax_msr_data -> K -> Z * hax_msr_data * K;
  HAX_VCPU_IOCTL_SET_MSRS (fd : Z) : hax_msr_data -> K -> Z * K;
  HAX_IOCTL_VCPU_DEBUG (fd : Z) : hax_debug_t -> K -> Z * K;
  HAX_VM_IOCTL_VCPU_CREATE (fd id : Z) : K -> Z * K;
  (** [open] of the device of processor [id] of machine [vm], and [close]. *)
  open_vcpu (vm id : Z) : K -> Z * K;
  (** The addresses of the tunnel and of the I/O tunnel. *)
  HAX_VCPU_IOCTL_SETUP_TUNNEL (fd : Z) : K -> Z * (Z * Z) * K;
  close (fd : Z) : K -> K
}.

(** ** The processor object

    [h_fd] is the descriptor of [m_sys]; [h_mem] the memory of the process that
    contains the I/O tunnel. *)
Record hvp (K W : Type) := MkHvp {
  h_cache : hcache; h_fd : Z; m_tunnel : hax_tunnel; m_ioTunnel : Z; h_mem : hmem;
  m_debug : hax_debug_t; m_exitInfo : VMExitInfo; h_driver : K; h_world : W
}.
Arguments MkHvp {K W}.
Arguments h_cache {K W}.
Arguments h_fd {K W}.
Arguments m_tunnel {K W}.
Arguments m_ioTunnel {K W}.
Arguments h_mem {K W}.
Arguments m_debug {K W}.
Arguments m_exitInfo {K W}.
Arguments h_driver {K W}.
Arguments h_world {K W}.

Section Haxm.
Context {K W : Type} `{HAXM K}.
(** The machine's I/O handlers; [uninit] is an uninitialised local variable. *)
Context (io : IOHandlers W) (uninit : Z).
Abbreviation S := (hvp K W).

Definition with_cache (c : hcache) (k : K) (s : S) : S :=
  MkHvp c (h_fd s) (m_tunnel s) (m_ioTunnel s) (h_mem s) (m_debug s) (m_exitInfo s) k (h_world s).
Definition with_driver (k : K) (s : S) : S := with_cache (h_cache s) k s.
Definition with_tunnel (t : hax_tunnel) (m : hmem) (w : W) (s : S) : S :=
  MkHvp (h_cache s) (h_fd s) t (m_ioTunnel s) m (m_debug s) (m_exitInfo s) (h_driver s) w.
Definition with_mem (m : hmem) (w : W) (s : S) : S := with_tunnel (m_tunnel s) m w s.
Definition with_debug (d : hax_debug_t) (k : K) (s : S) : S :=
  MkHvp (h_cache s) (h_fd s) (m_tunnel s) (m_ioTunnel s) (h_mem s) d (m_exitInfo s) k (h_world s).
Definition set_reason (r : VMExitReason) (s : S) : S :=
  MkHvp (h_cache s) (h_fd s) (m_tunnel s) (m_ioTunnel s) (h_mem s) (m_debug s)
    (MkVMExitInfo r (details (m_exitInfo s))) (h_driver s) (h_world s).

(** *** HaxmVirtualProcessorSysImpl *)
Definition succeeds {A} (r : Z * A) : bool * A := (0 <=? fst r, snd r).
Definition sys_GetRegisters (fd : Z) (r : vcpu_state_t) (k : K) : bool * vcpu_state_t * K :=
  let '(res, r, k) := HAX_VCPU_GET_REGS fd r k in (0 <=? res, r, k).
Definition sys_SetRegisters (fd : Z) (r : vcpu_state_t) (k : K) : bool * K :=
  succeeds (HAX_VCPU_SET_REGS fd r k).
Definition sys_GetFPURegisters (fd : Z) (r : fx_layout) (k : K) : bool * fx_layout * K :=
  let '(res, r, k) := HAX_VCPU_IOCTL_GET_FPU fd r k in (0 <=? res, r, k).
Definition sys_SetFPURegisters (fd : Z) (r : fx_layout) (k : K) : bool * K :=
  succeeds (HAX_VCPU_IOCTL_SET_FPU fd r k).
Definition sys_GetMSRData (fd : Z) (d : hax_msr_data) (k : K) : bool * hax_msr_data * K :=
  let '(res, d, k) := HAX_VCPU_IOCTL_GET_MSRS fd d k in (0 <=? res, d, k).
Definition sys_SetMSRData (fd : Z) (d : hax_msr_data) (k : K) : bool * K :=
  succeeds (HAX_VCPU_IOCTL_SET_MSRS fd d k).
Definition sys_SetDebug (fd : Z) (d : hax_debug_t) (k : K) : bool * K :=
  succeeds (HAX_IOCTL_VCPU_DEBUG fd d k).
Definition sys_InjectInterrupt (fd vector : Z) (k : K) : bool * K :=
  succeeds (HAX_VCPU_IOCTL_INTERRUPT fd (u32 vector) k).
Definition sys_Run (fd : Z) (t : hax_tunnel * hmem) (k : K) : bool * (hax_tunnel * hmem) * K :=
  let '(res, t, k) := HAX_VCPU_IOCTL_RUN fd t k in (0 <=? res, t, k).
(** The descriptor, and the tunnels on success. *)
Definition sys_Initialize (fdVM vmID vcpuID : Z) (k : K) : Z * option (Z * Z) * K :=
  let '(result, k) := HAX_VM_IOCTL_VCPU_CREATE fdVM vcpuID k in
  if result <? 0 then (-1, None, k)
  else
    let '(fd, k) := open_vcpu vmID vcpuID k in
    if fd <? 0 then (fd, None, k)
    else
      let '(result, info, k) := HAX_VCPU_IOCTL_SETUP_TUNNEL fd k in
      if result <? 0 then (-1, None, close fd k) else (fd, Some info, k).

(** *** Construction

    The probe that decides how EFER is accessed; the constructor runs it before
    [Initialize] has opened the processor's device, so that its descriptor is
    -1. *)
Definition set_efer (v : Z) (r : vcpu_state_t) : vcpu_state_t :=
  MkVcpuState (vs_regs r) (vs_seg r) (vs_ctl r) v (vs_other r).
Definition probe_efer (fd : Z) (r : vcpu_state_t) (k : K) : bool * vcpu_state_t * K :=
  let '(ok, r, k) := sys_GetRegisters fd r k in
  if ok then
    let oldEfer := _efer r in
    let r := set_efer (Z.lxor (_efer r) EFER_LME) r in
    let '(ok, k) := sys_SetRegisters fd r k in
    if ok then
      let '(ok, r, k) := sys_GetRegisters fd r k in
      let useEferMSR := if ok then negb (negb (oldEfer =? _efer r)) else true in
      let r := set_efer oldEfer r in
      let '(_, k) := sys_SetRegisters fd r k in
      (useEferMSR, r, k)
    else (true, r, k)
  else (true, r, k).

Definition zero_state : vcpu_state_t :=
  MkVcpuState (fun _ => 0) (fun _ => MkSegmentDesc 0 0 0 0 []) (fun _ => 0) 0 [].
Definition zero_fpu : fx_layout :=
  MkFx 0 0 0 0 0 0 0 0 0 0 (fun _ => 0) (fun _ => 0) (fun _ => 0).
(** The constructor; the tunnels are null pointers until [Initialize]. *)
Definition new_hvp (tunnel : hax_tunnel) (mem : hmem) (x : VMExitInfo) (k : K) (w : W) : S :=
  let '(useEferMSR, r, k) := probe_efer (-1) zero_state k in
  MkHvp (MkHcache r zero_fpu true false false useEferMSR) (-1) tunnel 0 mem
    (MkDebug 0 (replicate 8 0)) x k w.
Definition haxm_Initialize (fdVM vmID vcpuID : Z) (s : S) : bool * S :=
  let '(fd, tunnels, k) := sys_Initialize fdVM vmID vcpuID (h_driver s) in
  (match tunnels with Some _ => true | None => false end,
   MkHvp (h_cache s) fd (m_tunnel s)
     (match tunnels with Some (_, io_va) => io_va | None => m_ioTunnel s end)
     (h_mem s) (m_debug s) (m_exitInfo s) k (h_world s)).

(** *** Register transfer *)
Definition set_flags (dirty regs fpu : bool) (c : hcache) : hcache :=
  MkHcache (m_regs c) (m_fpuRegs c) dirty regs fpu (m_useEferMSR c).
(** The results of the driver are not looked at. *)
Definition flush_regs (fd : Z) (x : hcache * K) : hcache * K :=
  let '(c, k) := x in
  if m_regsChanged c then
    let '(_, k) := sys_SetRegisters fd (m_regs c) k in
    (set_flags (m_regsDirty c) false (m_fpuRegsChanged c) c, k)
  else (c, k).
Definition flush_fpu (fd : Z) (x : hcache * K) : hcache * K :=
  let '(c, k) := x in
  if m_fpuRegsChanged c then
    let '(_, k) := sys_SetFPURegisters fd (m_fpuRegs c) k in
    (set_flags (m_regsDirty c) (m_regsChanged c) false c, k)
  else (c, k).
Definition UpdateRegisters (fd : Z) (x : hcache * K) : hcache * K := flush_fpu fd (flush_regs fd x).

Definition set_files (r : vcpu_state_t) (f : fx_layout) (c : hcache) : hcache :=
  MkHcache r f (m_regsDirty c) (m_regsChanged c) (m_fpuRegsChanged c) (m_useEferMSR c).
Definition RefreshRegisters (fd : Z) (x : hcache * K) : bool * (hcache * K) :=
  let '(c, k) := x in
  if m_regsDirty c then
    let '(ok, r, k) := sys_GetRegisters fd (m_regs c) k in
    let c := set_files r (m_fpuRegs c) c in
    if negb ok then (false, (c, k))
    else
      let '(ok, f, k) := sys_GetFPURegisters fd (m_fpuRegs c) k in
      let c := set_files (m_regs c) f c in
      if negb ok then (false, (c, k))
      else (true, (set_flags false (m_regsChanged c) (m_fpuRegsChanged c) c, k))
  else (true, (c, k)).

(** *** Model specific registers *)
Definition haxm_GetMSR (msr value : Z) : M S Z := fun s =>
  let d := MkMsrData 1 (<[0%nat := (msr, 0)]> (entries no_msrs)) in
  let '(ok, d, k) := sys_GetMSRData (h_fd s) d (h_driver s) in
  if negb ok then (inl VP_Failed, with_driver k s)
  else (inr (default 0 (snd <$> entries d !! 0%nat)), with_driver k s).
Definition haxm_SetMSR (msr value : Z) : M S unit := fun s =>
  let d := MkMsrData 1 (<[0%nat := (msr, value)]> (entries no_msrs)) in
  let '(ok, k) := sys_SetMSRData (h_fd s) d (h_driver s) in
  (if negb ok then inl VP_Failed else inr tt, with_driver k s).

(** The loops over batches.  The caller's arrays are memory from their first
    element on: [msrs i] and [values i] are the contents at index [i], whether or
    not [i] is below [numRegs]; a null pointer is [None].  The result [None] is out
    of fuel. *)
Definition batch (numRegs : Z) : list Z := seqZ 0 (Z.min numRegs HAX_MAX_MSR_ARRAY).
Definition fill_entries (index : Z) (f : Z -> Z * Z) (numRegs : Z) : list (Z * Z) :=
  fold_left (fun es i => <[Z.to_nat i := f (index + i)]> es) (batch numRegs) (entries no_msrs).
Definition store_values (index numRegs : Z) (es : list (Z * Z)) (values : Z -> Z) : Z -> Z :=
  fold_left (fun vs i => fun j => if j =? index + i then default 0 (snd <$> es !! Z.to_nat i) else vs j)
    (batch numRegs) values.
Fixpoint GetMSRs_loop (fuel : nat) (index numRegs : Z) (msrs values : Z -> Z) (s : S)
    : option (VPOperationStatus * (Z -> Z) * S) :=
  if index <? numRegs then
    match fuel with
    | O => None
    | Datatypes.S fuel =>
        let msrCount := Z.of_nat (length (batch numRegs)) in
        let d := MkMsrData (u16 msrCount) (fill_entries index (fun i => (msrs i, 0)) numRegs) in
        let '(ok, d, k) := sys_GetMSRData (h_fd s) d (h_driver s) in
        if negb ok then Some (VP_Failed, values, with_driver k s)
        else GetMSRs_loop fuel (index + msrCount) numRegs msrs
               (store_values index numRegs (entries d) values) (with_driver k s)
    end
  else Some (VP_OK, values, s).
Fixpoint SetMSRs_loop (fuel : nat) (index numRegs : Z) (msrs values : Z -> Z) (s : S)
    : option (VPOperationStatus * S) :=
  if index <? numRegs then
    match fuel with
    | O => None
    | Datatypes.S fuel =>
        let msrCount := Z.of_nat (length (batch numRegs)) in
        let d := MkMsrData (u16 msrCount) (fill_entries index (fun i => (msrs i, values i)) numRegs) in
        let '(ok, k) := sys_SetMSRData (h_fd s) d (h_driver s) in
        if negb ok then Some (VP_Failed, with_driver k s)
        else SetMSRs_loop fuel (index + msrCount) numRegs msrs values (with_driver k s)
    end
  else Some (VP_OK, s).
Definition haxm_GetMSRs (fuel : nat) (numRegs : Z) (msrs values : option (Z -> Z)) (s : S)
    : option (VPOperationStatus * option (Z -> Z) * S) :=
  match msrs, values with
  | Some msrs, Some values =>
      '(status, values, s) ← GetMSRs_loop fuel 0 numRegs msrs values s;
      Some (status, Some values, s)
  | _, _ => Some (VP_InvalidArguments, values, s)
  end.
Definition haxm_SetMSRs (fuel : nat) (numRegs : Z) (msrs values : option (Z -> Z)) (s : S)
    : option (VPOperationStatus * S) :=
  match msrs, values with
  | Some msrs, Some values => SetMSRs_loop fuel 0 numRegs msrs values s
  | _, _ => Some (VP_InvalidArguments, s)
  end.

(** *** Register access *)
Definition EFER_MSR : Z := 0xC0000080.
Definition REFRESH_REGISTERS : M S unit := fun s =>
  let '(ok, (c, k)) := RefreshRegisters (h_fd s) (h_cache s, h_driver s) in
  (if ok then inr tt else inl VP_Failed, with_cache c k s).
Definition refreshed {A} (f : M S A) : M S A := REFRESH_REGISTERS ;; f.
(** The status of the access to the MSR is not looked at. *)
Definition HaxmRegRead (reg : Reg.t) (value : RegValue) : M S RegValue := fun s =>
  if bool_decide (reg = Reg.EFER) && m_useEferMSR (h_cache s) then
    match haxm_GetMSR EFER_MSR (fget RV.u64 value) s with
    | (inr v, s) => (inr (fset RV.u64 v value), s)
    | (inl _, s) => (inr value, s)
    end
  else (match read_member reg value (h_cache s) with Some v => inr v | None => inl VP_Unsupported end, s).
Definition HaxmRegWrite (reg : Reg.t) (value : RegValue) : M S unit := fun s =>
  if bool_decide (reg = Reg.EFER) && m_useEferMSR (h_cache s) then
    (inr tt, snd (haxm_SetMSR EFER_MSR (fget RV.u64 value) s))
  else match write_member reg value (h_cache s) with
       | Some c => (inr tt, with_cache c (h_driver s) s)
       | None => (inl VP_Unsupported, s)
       end.
Definition haxm_RegRead (reg : Reg.t) (value : RegValue) : M S RegValue :=
  refreshed (HaxmRegRead reg value).
Definition haxm_RegWrite (reg : Reg.t) (value : RegValue) : M S unit :=
  refreshed (HaxmRegWrite reg value).
Definition haxm_RegReadN (regs : list Reg.t) (values : list RegValue) (s : S)
    : VPOperationStatus * list RegValue * S :=
  match REFRESH_REGISTERS s with
  | (inl status, s) => (status, values, s)
  | (inr _, s) => RegReadN_loop HaxmRegRead regs values s
  end.
Definition haxm_RegWriteN (regs : list Reg.t) (values : list RegValue) (s : S)
    : VPOperationStatus * S :=
  match REFRESH_REGISTERS s with
  | (inl status, s) => (status, s)
  | (inr _, s) => RegWriteN_loop HaxmRegWrite regs values s
  end.

(** *** Floating point control and MXCSR *)
Definition GetFPUControl : M S FPUControl :=
  refreshed (fun s =>
    let f := m_fpuRegs (h_cache s) in
    (inr (MkFPUControl (fcw f) (fsw f) (ftw f) (fop f) (fcs f) (fip f) (fds f) (fdp f)), s)).
(** [value.ip] and [value.dp] are the low halves of [rip] and [rdp]. *)
Definition SetFPUControl (value : FPUControl) : M S unit :=
  refreshed (fun s =>
    let f := m_fpuRegs (h_cache s) in
    (inr tt, with_cache (write_fpu
      (MkFx (cw value) (sw value) (u8 (tw value)) (op value) (u32 (rip value)) (fpu_cs value)
         (u32 (rdp value)) (fpu_ds value) (mxcsr f) (mxcsr_mask f) (st_mm f) (mmx_1 f) (mmx_2 f))
      (h_cache s)) (h_driver s) s)).
Definition set_mxcsr (v mask : Z) (f : fx_layout) : fx_layout :=
  MkFx (fcw f) (fsw f) (ftw f) (fop f) (fip f) (fcs f) (fdp f) (fds f) v mask (st_mm f) (mmx_1 f) (mmx_2 f).
Definition write_mxcsr (g : fx_layout -> fx_layout) : M S unit :=
  refreshed (fun s =>
    (inr tt, with_cache (write_fpu (g (m_fpuRegs (h_cache s))) (h_cache s)) (h_driver s) s)).
Definition GetMXCSR : M S Z := refreshed (fun s => (inr (mxcsr (m_fpuRegs (h_cache s))), s)).
Definition SetMXCSR (value : Z) : M S unit := write_mxcsr (fun f => set_mxcsr value (mxcsr_mask f) f).
Definition GetMXCSRMask : M S Z := refreshed (fun s => (inr (mxcsr_mask (m_fpuRegs (h_cache s))), s)).
Definition SetMXCSRMask (value : Z) : M S unit := write_mxcsr (fun f => set_mxcsr (mxcsr f) value f).

(** *** Guest debugging *)
Definition SetDebug (s : S) : bool * S :=
  let d := m_debug s in
  let enable := nz (control d &&& lnot32 HAX_DEBUG_ENABLE) in
  let d := MkDebug (if enable then control d ||| HAX_DEBUG_ENABLE
                    else control d &&& lnot32 HAX_DEBUG_ENABLE) (dr d) in
  let '(ok, k) := sys_SetDebug (h_fd s) d (h_driver s) in
  (ok, with_debug d k s).
Definition with_control (f : Z -> Z) (s : S) : S :=
  with_debug (MkDebug (f (control (m_debug s))) (dr (m_debug s))) (h_driver s) s.
Definition SetDebug_status : M S unit := fun s =>
  let '(ok, s) := SetDebug s in (if negb ok then inl VP_Failed else inr tt, s).
Definition haxm_EnableSoftwareBreakpoints (enable : bool) : M S unit := fun s =>
  SetDebug_status (with_control (fun c => if enable then c ||| HAX_DEBUG_USE_SW_BP
                                          else c &&& lnot32 HAX_DEBUG_USE_SW_BP) s).
Definition haxm_ClearHardwareBreakpoints : M S unit := fun s =>
  let d := MkDebug (control (m_debug s) &&& lnot32 HAX_DEBUG_USE_HW_BP) (replicate 8 0) in
  SetDebug_status (with_debug d (h_driver s) s).
Definition haxm_SetHardwareBreakpoints (breakpoints : list HardwareBreakpoint) : M S unit := fun s =>
  if negb (existsb (fun bp => localEnable bp || globalEnable bp) breakpoints) then
    haxm_ClearHardwareBreakpoints s
  else
    let d := MkDebug (control (m_debug s) ||| HAX_DEBUG_USE_HW_BP)
               (set_breakpoints 0 breakpoints (dr (m_debug s))) in
    SetDebug_status (with_debug d (h_driver s) s).

Definition tunnel_get (f : field) (s : S) : Z := fget f (tunnel_union (m_tunnel s)).
Definition haxm_GetBreakpointAddress : M S Z := fun s =>
  let hardwareBP := u8 (tunnel_get T.debug_dr6 s &&& 0xF) in
  let pc := tunnel_get T.debug_rip s in
  let reg := fun i : nat => default 0 (dr (m_debug s) !! i) in
  if (hardwareBP =? 0) && (pc =? 0) then (inl VP_BreakpointNeverHit, s)
  else (inr (if nz (hardwareBP &&& (1 <<< 0)) then reg 0%nat
             else if nz (hardwareBP &&& (1 <<< 1)) then reg 1%nat
             else if nz (hardwareBP &&& (1 <<< 2)) then reg 2%nat
             else if nz (hardwareBP &&& (1 <<< 3)) then reg 3%nat
             else pc), s).

(** *** Interrupts *)
Definition with_window (v : Z) (s : S) : S :=
  let t := m_tunnel s in
  with_tunnel (MkTunnel (_exit_status t) (ready_for_interrupt_injection t) v (tunnel_union t))
    (h_mem s) (h_world s) s.
Definition haxm_PrepareInterrupt (vector : Z) (s : S) : bool * S := (true, s).
Definition haxm_InjectInterrupt (vector : Z) (s : S) : VPOperationStatus * S :=
  let '(ok, k) := sys_InjectInterrupt (h_fd s) vector (h_driver s) in
  let s := with_driver k s in
  if negb ok then (VP_Failed, s) else (VP_OK, with_window 0 s).
Definition haxm_CanInjectInterrupt (s : S) : bool :=
  negb (ready_for_interrupt_injection (m_tunnel s) =? 0).
Definition haxm_RequestInterruptWindow (s : S) : S := with_window 1 s.

(** *** Exits

    One round of the loop of [HandleIO]; a size other than 1, 2 and 4 leaves the
    local [value], or the buffer, as it is. *)
Definition HandleIO_one (ptr : Z) (s : S) : S :=
  let size := tunnel_get T.io_size s in
  let port := tunnel_get T.io_port s in
  let sized := (size =? 1) || (size =? 2) || (size =? 4) in
  if tunnel_get T.io_direction s =? HAX_IO_OUT then
    let value := if sized then le_combine (host_read (h_mem s) ptr size) else uninit in
    with_mem (h_mem s) (IOWrite io port size value (h_world s)) s
  else
    let '(value, w) := IORead io port size (h_world s) in
    with_mem (if sized then host_write (h_mem s) ptr (le_split (Z.to_nat size) value) else h_mem s) w s.
(** The loop counter and the count have 16 bits, so the counter does not wrap. *)
Fixpoint HandleIO_loop (count : nat) (ptr : Z) (s : S) : S :=
  match count with
  | O => s
  | Datatypes.S count =>
      let s' := HandleIO_one ptr s in
      let ptr := if nz (tunnel_get T.io_df s) then u64 (ptr - tunnel_get T.io_size s)
                 else u64 (ptr + tunnel_get T.io_size s) in
      HandleIO_loop count ptr s'
  end.
Definition HandleIO (s : S) : S :=
  let s := set_reason Exit_PIO s in
  let count := tunnel_get T.io_count s in
  let ptr := if nz (tunnel_get T.io_df s)
             then u64 (m_ioTunnel s + u64 (tunnel_get T.io_size s * u64 (count - 1)))
             else m_ioTunnel s in
  HandleIO_loop (Z.to_nat count) ptr s.

(** Members of [hax_fastmmio]. *)
Definition info_get (offset n : Z) (s : S) : Z :=
  le_combine (host_read (h_mem s) (u64 (m_ioTunnel s + offset)) n).
Definition HandleFastMMIO (s : S) : S :=
  let s := set_reason Exit_MMIO s in
  let gpa := info_get F.gpa 8 s in
  let size := info_get F.size 1 s in
  let direction := info_get F.direction 1 s in
  if direction <? 2 then
    if direction =? HAX_IO_IN then
      with_mem (h_mem s) (MMIOWrite io gpa size (info_get F.value 8 s) (h_world s)) s
    else
      let '(value, w) := MMIORead io gpa size (h_world s) in
      with_mem (host_write (h_mem s) (u64 (m_ioTunnel s + F.value)) (le_split 8 value)) w s
  else
    let '(value, w) := MMIORead io gpa size (h_world s) in
    with_mem (h_mem s) (MMIOWrite io (info_get F.gpa2 8 s) size value w) s.

Definition HandleExecResult (s : S) : VPExecutionStatus * S :=
  let c := h_cache s in
  let s := with_cache (set_flags true (m_regsChanged c) (m_fpuRegsChanged c) c) (h_driver s) s in
  let status := _exit_status (m_tunnel s) in
  (VPE_OK,
   if status =? HAX_EXIT_HLT then set_reason Exit_HLT s
   else if status =? HAX_EXIT_INTERRUPT then set_reason Exit_Interrupt s
   else if status =? HAX_EXIT_PAUSED then set_reason Exit_Normal s
   else if status =? HAX_EXIT_MMIO then set_reason Exit_Error s
   else if status =? HAX_EXIT_REALMODE then set_reason Exit_Error s
   else if status =? HAX_EXIT_UNKNOWN then set_reason Exit_Error s
   else if status =? HAX_EXIT_STATECHANGE then set_reason Exit_Shutdown s
   else if status =? HAX_EXIT_IO then HandleIO s
   else if status =? HAX_EXIT_FAST_MMIO then HandleFastMMIO s
   else if status =? HAX_EXIT_DEBUG then
     set_reason (if nz (tunnel_get T.debug_dr6 s &&& 0xf) then Exit_HardwareBreakpoint
                 else Exit_SoftwareBreakpoint) s
   else set_reason Exit_Unhandled s).

Definition haxm_RunImpl (s : S) : VPExecutionStatus * S :=
  let '(c, k) := UpdateRegisters (h_fd s) (h_cache s, h_driver s) in
  let s := with_cache c k s in
  let '(ok, (t, m), k) := sys_Run (h_fd s) (m_tunnel s, h_mem s) (h_driver s) in
  let s := with_driver k (with_tunnel t m (h_world s) s) in
  if negb ok then (VPE_Failed, s) else HandleExecResult s.
Definition haxm_StepImpl (s : S) : VPExecutionStatus * S :=
  let '(ok, s) := SetDebug (with_control (fun c => c ||| HAX_DEBUG_STEP) s) in
  if negb ok then (VPE_Failed, s)
  else
    let '(status, s) := haxm_RunImpl s in
    let '(ok, s) := SetDebug (with_control (fun c => c &&& lnot32 HAX_DEBUG_STEP) s) in
    if negb ok then (VPE_Failed, s)
    else match status with
         | VPE_OK =>
             let '(result, s) := HandleExecResult s in
             (result, match reason (m_exitInfo s) with
                      | Exit_SoftwareBreakpoint => set_reason Exit_Step s
                      | _ => s
                      end)
         | _ => (status, s)
         end.
End Haxm.

(** ** Laws of the driver

    The registers a processor has in the driver, and what the transfers do with
    them. *)
Record files := MkFiles { f_regs : vcpu_state_t; f_fpu : fx_layout }.
Class HAXMLaws (K : Type) `{HAXM K} := {
  dfiles : K -> files;
  get_regs_law fd r k : let '(res, r', k') := HAX_VCPU_GET_REGS fd r k in
    dfiles k' = dfiles k /\ (0 <= res -> r' = f_regs (dfiles k));
  get_fpu_law fd r k : let '(res, r', k') := HAX_VCPU_IOCTL_GET_FPU fd r k in
    dfiles k' = dfiles k /\ (0 <= res -> r' = f_fpu (dfiles k));
  set_regs_law fd r k : let '(res, k') := HAX_VCPU_SET_REGS fd r k in
    dfiles k' = if 0 <=? res then MkFiles r (f_fpu (dfiles k)) else dfiles k;
  set_fpu_law fd r k : let '(res, k') := HAX_VCPU_IOCTL_SET_FPU fd r k in
    dfiles k' = if 0 <=? res then MkFiles (f_regs (dfiles k)) r else dfiles k
}.

(** ** Coherence of the cache *)
Section Coherence.
Context {K W : Type} `{HAXMLaws K}.
Abbreviation S := (hvp K W).
Implicit Types (c : hcache) (k : K) (s : S).

Definition cfiles c : files := MkFiles (m_regs c) (m_fpuRegs c).
(** The registers of the processor: those of the driver while the cache is dirty. *)
Definition effective c k : files := if m_regsDirty c then dfiles k else cfiles c.
Definition unflagged c : Prop := m_regsChanged c = false /\ m_fpuRegsChanged c = false.
(** A dirty cache has nothing to flush, and a structure that is not flagged is the
    driver's. *)
Definition coherent c k : Prop :=
  if m_regsDirty c then unflagged c
  else (m_regsChanged c = false -> m_regs c = f_regs (dfiles k))
       /\ (m_fpuRegsChanged c = false -> m_fpuRegs c = f_fpu (dfiles k)).

(** Do the transfers of [UpdateRegisters] succeed? *)
Definition flush_ok fd c k : bool :=
  (negb (m_regsChanged c) || fst (sys_SetRegisters fd (m_regs c) k))
  && (negb (m_fpuRegsChanged c)
      || fst (sys_SetFPURegisters fd (m_fpuRegs c) (snd (flush_regs fd (c, k))))).

Lemma flush_regs_spec fd c k : let '(c', k') := flush_regs fd (c, k) in
  c' = set_flags (m_regsDirty c) false (m_fpuRegsChanged c) c
  /\ dfiles k' = if m_regsChanged c && fst (sys_SetRegisters fd (m_regs c) k)
                 then MkFiles (m_regs c) (f_fpu (dfiles k)) else dfiles k.
Proof.
  unfold flush_regs. destruct (m_regsChanged c) eqn:Hc.
  - unfold sys_SetRegisters, succeeds. pose proof (set_regs_law fd (m_regs c) k) as L.
    destruct (HAX_VCPU_SET_REGS fd (m_regs c) k) as [res k']. cbn. by rewrite L.
  - split; [|done]. destruct c; cbn in *; by subst.
Qed.
Lemma flush_fpu_spec fd c k : let '(c', k') := flush_fpu fd (c, k) in
  c' = set_flags (m_regsDirty c) (m_regsChanged c) false c
  /\ dfiles k' = if m_fpuRegsChanged c && fst (sys_SetFPURegisters fd (m_fpuRegs c) k)
                 then MkFiles (f_regs (dfiles k)) (m_fpuRegs c) else dfiles k.
Proof.
  unfold flush_fpu. destruct (m_fpuRegsChanged c) eqn:Hc.
  - unfold sys_SetFPURegisters, succeeds. pose proof (set_fpu_law fd (m_fpuRegs c) k) as L.
    destruct (HAX_VCPU_IOCTL_SET_FPU fd (m_fpuRegs c) k) as [res k']. cbn. by rewrite L.
  - split; [|done]. destruct c; cbn in *; by subst.
Qed.

(** After an update nothing is flagged, and the driver has those of the flagged
    structures whose transfer succeeded. *)
Lemma hx_UpdateRegisters_spec fd c k : let '(c', k') := UpdateRegisters fd (c, k) in
  c' = set_flags (m_regsDirty c) false false c
  /\ (coherent c k -> flush_ok fd c k = true -> dfiles k' = effective c k)
  /\ (m_regsChanged c = true -> fst (sys_SetRegisters fd (m_regs c) k) = false ->
      f_regs (dfiles k') = f_regs (dfiles k)).
Proof.
  unfold UpdateRegisters. pose proof (flush_regs_spec fd c k) as H1. unfold flush_ok.
  destruct (flush_regs fd (c, k)) as [c1 k1]. destruct H1 as [-> H1]. cbn [snd].
  pose proof (flush_fpu_spec fd (set_flags (m_regsDirty c) false (m_fpuRegsChanged c) c) k1) as H2.
  destruct (flush_fpu _ _) as [c2 k2]. destruct H2 as [-> H2].
  cbn [set_flags m_regsDirty m_regsChanged m_fpuRegsChanged m_regs m_fpuRegs] in H2 |- *. split; [done|].
  rewrite H2, H1. unfold coherent, effective, cfiles, unflagged. split.
  - intros Hc Hok. destruct (m_regsDirty c); [destruct Hc as [-> ->]; done|].
    destruct Hc as [E1 E2]. destruct (m_regsChanged c), (m_fpuRegsChanged c); cbn [negb orb andb] in *.
    + apply andb_true_iff in Hok as [-> ->]. done.
    + rewrite andb_true_r in Hok. rewrite Hok. cbn. by rewrite E2.
    + rewrite Hok. by rewrite E1.
    + rewrite E1, E2 by done. by destruct (dfiles k).
  - intros -> ->. cbn [andb]. by destruct (m_fpuRegsChanged c && _).
Qed.

Lemma hx_RefreshRegisters_spec fd c k : coherent c k ->
  let '(ok, (c', k')) := RefreshRegisters fd (c, k) in
  coherent c' k' /\ effective c' k' = effective c k /\ m_regsDirty c' = negb ok
  /\ m_useEferMSR c' = m_useEferMSR c.
Proof.
  intros Hc. unfold RefreshRegisters. destruct (m_regsDirty c) eqn:Hd; [|by rewrite Hd].
  unfold coherent in Hc. rewrite Hd in Hc. destruct Hc as [F1 F2].
  unfold sys_GetRegisters, sys_GetFPURegisters, coherent, effective, unflagged.
  pose proof (get_regs_law fd (m_regs c) k) as L1.
  destruct (HAX_VCPU_GET_REGS _ _ _) as [[res1 r1] k1]. destruct L1 as [K1 G1].
  destruct (Z.leb_spec 0 res1); cbn; [|by rewrite Hd, F1, F2].
  pose proof (get_fpu_law fd (m_fpuRegs c) k1) as L2.
  destruct (HAX_VCPU_IOCTL_GET_FPU _ _ _) as [[res2 r2] k2]. destruct L2 as [K2 G2].
  destruct (Z.leb_spec 0 res2); cbn; rewrite Hd; [|by rewrite F1, F2, K2].
  unfold cfiles; cbn. rewrite G1, G2, K2, K1 by lia. by destruct (dfiles k).
Qed.

(** ** The processor as an architectural register file *)
Definition as_cache (f : files) : hcache := MkHcache (f_regs f) (f_fpu f) false false false false.
Definition file_of (f : files) : archfile := haxm_file (as_cache f).
Definition s_effective s : files := effective (h_cache s) (h_driver s).
Definition s_coherent s : Prop := coherent (h_cache s) (h_driver s).
(** Is [r] accessed through its model specific register? *)
Definition via_msr (r : Reg.t) s : bool := bool_decide (r = Reg.EFER) && m_useEferMSR (h_cache s).

Lemma hx_file_of_cfiles c R : file_of (cfiles c) R = haxm_file c R.
Proof.
  unfold file_of, haxm_file, as_cache, cfiles. destruct (cell_of R) as [[]|]; cbn [cell_get];
    cbn [f_regs f_fpu]; reflexivity.
Qed.

Lemma hx_refresh_state s : s_coherent s ->
  let '(res, s') := REFRESH_REGISTERS s in
  s_coherent s' /\ s_effective s' = s_effective s
  /\ m_useEferMSR (h_cache s') = m_useEferMSR (h_cache s)
  /\ match res with
     | inl e => e = VP_Failed
     | inr _ => m_regsDirty (h_cache s') = false /\ s_effective s = cfiles (h_cache s')
     end.
Proof.
  intros Hc. unfold REFRESH_REGISTERS, s_coherent, s_effective in *.
  pose proof (hx_RefreshRegisters_spec (h_fd s) _ _ Hc) as Hr.
  destruct (RefreshRegisters _ _) as [ok [c k]]. destruct Hr as (H1 & H2 & H3 & H4).
  destruct ok; cbn; split_and!; try done. rewrite <- H2. unfold effective. by rewrite H3.
Qed.

Lemma hx_regread_state r w s : s_coherent s -> via_msr r s = false ->
  let '(res, s') := haxm_RegRead r w s in
  s_coherent s' /\ s_effective s' = s_effective s
  /\ match res with
     | inr v => haxm_supported r = true
                /\ agree r v (arch_read r (file_of (s_effective s) (full r)))
     | inl e => e = VP_Failed \/ e = VP_Unsupported /\ haxm_supported r = false
     end.
Proof.
  intros Hc Hm. pose proof (hx_refresh_state s Hc) as Hr. unfold haxm_RegRead, refreshed, mbind, M_bind.
  destruct (REFRESH_REGISTERS s) as [[e|[]] s1]; destruct Hr as (H1 & H2 & HE & H3).
  { split_and!; try done. by left. }
  destruct H3 as [_ He]. unfold HaxmRegRead. unfold via_msr in Hm. rewrite HE, Hm.
  destruct (haxm_supported r) eqn:Hs.
  - destruct (haxm_read_file r w (h_cache s1) Hs) as (v & -> & Ha). split_and!; try done.
    rewrite He, hx_file_of_cfiles. done.
  - rewrite haxm_read_unsupported by done. split_and!; try done. by right.
Qed.

Lemma hx_coherent_flagged c c' k : m_regsDirty c = false -> coherent c k -> hflagged c c' ->
  coherent c' k.
Proof.
  unfold coherent, hflagged. intros Hd Hc (Hd' & _ & H1 & H2). rewrite Hd', Hd in *.
  destruct Hc as (E1 & E2).
  destruct H1 as [[-> ->]|H1], H2 as [[-> ->]|H2]; split_and!; congruence || done.
Qed.

Lemma hx_regwrite_state r v s : s_coherent s -> via_msr r s = false ->
  let '(res, s') := haxm_RegWrite r v s in
  s_coherent s'
  /\ match res with
     | inr _ => haxm_supported r = true
                /\ forall R, file_of (s_effective s') (full R)
                             = haxm_upd (file_of (s_effective s)) r v (full R)
     | inl e => s_effective s' = s_effective s
                /\ (e = VP_Failed \/ e = VP_Unsupported /\ haxm_supported r = false)
     end.
Proof.
  intros Hc Hm. pose proof (hx_refresh_state s Hc) as Hr. unfold haxm_RegWrite, refreshed, mbind, M_bind.
  destruct (REFRESH_REGISTERS s) as [[e|[]] s1]; destruct Hr as (H1 & H2 & HE & H3).
  { split_and!; try done. by left. }
  destruct H3 as [Hd He]. unfold HaxmRegWrite. unfold via_msr in Hm. rewrite HE, Hm.
  destruct (haxm_supported r) eqn:Hs.
  - destruct (haxm_write_file r v (h_cache s1) Hs) as (c' & Hw & Hf). rewrite Hw.
    pose proof (haxm_write_flagged _ _ _ _ Hw) as Hfl.
    split; [by apply (hx_coherent_flagged (h_cache s1))|]. split; [done|]. intros R.
    rewrite He. unfold s_effective, effective. cbn. destruct Hfl as (-> & _). rewrite Hd.
    rewrite hx_file_of_cfiles, Hf. unfold haxm_upd. case_decide; by rewrite hx_file_of_cfiles.
  - rewrite haxm_write_unsupported by done. split_and!; try done. by right.
Qed.
End Coherence.

(** ** The interfaces of the base class *)
Section Interfaces.
Context {K W : Type} `{HAXM K} (io : IOHandlers W) (uninit : Z).
Implicit Types s : hvp K W.

#[export] Instance haxm_VPRegs : VPRegs (hvp K W) := {
  RegRead := haxm_RegRead; RegWrite := haxm_RegWrite; RegReadN := haxm_RegReadN;
  RegWriteN := haxm_RegWriteN; GetMSR := haxm_GetMSR; SetMSR := haxm_SetMSR
}.
#[export] Instance haxm_VPInterrupts : VPInterrupts (hvp K W) := {
  RunImpl := haxm_RunImpl io uninit; StepImpl := haxm_StepImpl io uninit;
  PrepareInterrupt := haxm_PrepareInterrupt; InjectInterrupt := haxm_InjectInterrupt;
  CanInjectInterrupt := haxm_CanInjectInterrupt;
  RequestInterruptWindow := haxm_RequestInterruptWindow
}.

Lemma with_cache_id s : with_cache (h_cache s) (h_driver s) s = s.
Proof. by destruct s. Qed.

Lemma hx_refresh_clean s : m_regsDirty (h_cache s) = false -> REFRESH_REGISTERS s = (inr tt, s).
Proof. intros Hd. unfold REFRESH_REGISTERS, RefreshRegisters. by rewrite Hd, with_cache_id. Qed.

Lemma hx_refresh_then_clean s s' : REFRESH_REGISTERS s = (inr tt, s') -> m_regsDirty (h_cache s') = false.
Proof.
  unfold REFRESH_REGISTERS, RefreshRegisters. destruct (m_regsDirty (h_cache s)) eqn:Hd.
  - destruct (sys_GetRegisters _ _ _) as [[[] ?] ?]; [|done]. cbn.
    destruct (sys_GetFPURegisters _ _ _) as [[[] ?] ?]; [|done]. by intros [= <-].
  - by intros [= <-].
Qed.

(** Reading a model specific register leaves the driver as it is. *)
Class HAXMMsrLaws : Prop := {
  get_msrs_pure fd d (k : K) : snd (HAX_VCPU_IOCTL_GET_MSRS fd d k) = k
}.
Context `{HAXMMsrLaws}.

Lemma GetMSR_state msr v s : snd (haxm_GetMSR msr v s) = s.
Proof.
  unfold haxm_GetMSR, sys_GetMSRData. set (d := MkMsrData _ _).
  pose proof (get_msrs_pure (h_fd s) d (h_driver s)) as L.
  destruct (HAX_VCPU_IOCTL_GET_MSRS _ _ _) as [[res d'] k']. cbn [snd] in L. subst.
  destruct (0 <=? res); cbn; apply with_cache_id.
Qed.
Lemma GetMSR_value msr v v' s : fst (haxm_GetMSR msr v s) = fst (haxm_GetMSR msr v' s).
Proof. done. Qed.

Definition haxm_rview s (r : Reg.t) : option RegValue :=
  match REFRESH_REGISTERS s with
  | (inr _, s') =>
      if via_msr r s' then
        match fst (haxm_GetMSR EFER_MSR 0 s') with inr v => Some (fset RV.u64 v 0) | inl _ => None end
      else read_member r 0 (h_cache s')
  | (inl _, _) => None
  end.

Lemma haxm_read_agree r w w' c v : read_member r w c = Some v ->
  exists v', read_member r w' c = Some v' /\ agree r v' v.
Proof.
  intros Hr. assert (haxm_supported r = true) as Hs
    by (destruct (haxm_supported r) eqn:E; [done|by rewrite haxm_read_unsupported in Hr]).
  destruct (haxm_read_file r w c Hs) as (x & Hx & Ax). destruct (haxm_read_file r w' c Hs) as (x' & Hx' & Ax').
  rewrite Hr in Hx. injection Hx as <-. exists x'. split; [done|]. by rewrite Ax', Ax.
Qed.

(** A read that succeeds, or fails, leaves the state. *)
Lemma HaxmRegRead_state r w s : snd (HaxmRegRead r w s) = s.
Proof.
  unfold HaxmRegRead. destruct (_ && _); [|done].
  pose proof (GetMSR_state EFER_MSR (fget RV.u64 w) s) as E.
  by destruct (haxm_GetMSR _ _ s) as [[]].
Qed.

Lemma haxm_rview_read s r w v : haxm_rview s r = Some v ->
  exists v' s', haxm_RegRead r w s = (inr v', s') /\ agree r v' v
    /\ forall r', haxm_rview s' r' = haxm_rview s r'.
Proof.
  unfold haxm_rview. destruct (REFRESH_REGISTERS s) as [[e|[]] s1] eqn:E; [done|]. intros Hv.
  assert (exists v', HaxmRegRead r w s1 = (inr v', s1) /\ agree r v' v) as (v' & Hr & Ha).
  { pose proof (HaxmRegRead_state r w s1) as Hst. unfold HaxmRegRead in *. unfold via_msr in Hv.
    destruct (bool_decide (r = Reg.EFER) && m_useEferMSR (h_cache s1)) eqn:Hm.
    - apply andb_true_iff in Hm as [Hm _]. apply bool_decide_eq_true in Hm as ->.
      rewrite (GetMSR_value _ _ (fget RV.u64 w)) in Hv.
      destruct (haxm_GetMSR EFER_MSR _ s1) as [[e|x] s2]; cbn in Hst; subst s2; [done|].
      injection Hv as <-. eexists. split; [done|]. unfold agree; cbn -[fget fset].
      repeat constructor. by fsimpl.
    - destruct (haxm_read_agree _ _ w _ _ Hv) as (v' & Hr & Ha). rewrite Hr. by exists v'. }
  exists v', s1. unfold haxm_RegRead, refreshed. rewrite (bind_inr _ _ _ _ _ E).
  split; [done|]. split; [done|]. intros r'. by rewrite hx_refresh_clean by (by eapply hx_refresh_then_clean).
Qed.

Lemma haxm_RegReadN_clean regs values s : m_regsDirty (h_cache s) = false ->
  RegReadN_loop HaxmRegRead regs values s = RegReadN_loop haxm_RegRead regs values s.
Proof.
  intros Hd. revert values. induction regs as [|r regs IH]; intros values; [done|].
  destruct values as [|v values]; [done|]. cbn.
  unfold haxm_RegRead at 1, refreshed. rewrite (bind_inr _ _ _ _ _ (hx_refresh_clean s Hd)).
  pose proof (HaxmRegRead_state r v s) as Hst. destruct (HaxmRegRead r v s) as [[] s']; [done|].
  cbn in Hst. subst. by rewrite IH.
Qed.

Lemma haxm_readN_loop r regs v values (s : hvp K W) :
  RegReadN (r :: regs) (v :: values) s = RegReadN_loop RegRead (r :: regs) (v :: values) s.
Proof.
  cbn [RegReadN RegRead haxm_VPRegs]. unfold haxm_RegReadN.
  destruct (REFRESH_REGISTERS s) as [[e|[]] s1] eqn:E.
  - cbn. unfold haxm_RegRead at 1, refreshed. by rewrite (bind_inl _ _ _ _ _ E).
  - pose proof (hx_refresh_then_clean _ _ E) as Hd. rewrite (haxm_RegReadN_clean _ _ s1 Hd). cbn.
    unfold haxm_RegRead at 1 3, refreshed.
    rewrite (bind_inr _ _ _ _ _ E), (bind_inr _ _ _ _ _ (hx_refresh_clean s1 Hd)). done.
Qed.

#[export] Instance haxm_VPRegsLaws : VPRegsLaws (hvp K W).
Proof.
  refine {| rview := haxm_rview |}.
  - intros s r w v. apply haxm_rview_read.
  - apply loop_readN; [exact haxm_rview_read|exact haxm_readN_loop].
  - apply loop_readN_fails. exact haxm_readN_loop.
Defined.
End Interfaces.

(** ** String input and output *)
Section Io.
Context {K W : Type} `{HAXM K} (io : IOHandlers W) (uninit : Z).
Implicit Types s : hvp K W.

(** The address of item [i] of [n]: backwards when the direction flag is set. *)
Definition io_item (base size : Z) (df : bool) (n i : Z) : Z :=
  base + (if df then n - 1 - i else i) * size.
Definition io_df s : bool := nz (tunnel_get T.io_df s).
Definition io_is_out s : bool := tunnel_get T.io_direction s =? HAX_IO_OUT.
Definition io_sized s : bool :=
  let size := tunnel_get T.io_size s in (size =? 1) || (size =? 2) || (size =? 4).
Definition io_rounds (ptrs : list Z) s : hvp K W :=
  fold_left (fun s ptr => HandleIO_one io uninit ptr s) ptrs s.

Lemma HandleIO_one_with ptr s : exists m w, HandleIO_one io uninit ptr s = with_mem m w s.
Proof. unfold HandleIO_one. case_if; [by eexists _, _|]. destruct (IORead _ _ _ _). by eexists _, _. Qed.

Lemma hx_HandleIO_loop_rounds base n k s :
  let size := tunnel_get T.io_size s in
  0 <= base -> 0 <= size -> base + n * size <= 2 ^ 64 -> Z.of_nat k <= n -> 0 < size ->
  HandleIO_loop io uninit k (io_item base size (io_df s) n (n - Z.of_nat k)) s
  = io_rounds (io_item base size (io_df s) n <$> seqZ (n - Z.of_nat k) (Z.of_nat k)) s.
Proof.
  intros size Hb Hs He Hk Hpos. subst size. revert s He Hs Hpos Hk.
  induction k as [|k IH]; intros s He Hs Hpos Hk; [done|].
  rewrite seqZ_cons by lia. unfold io_rounds in *. cbn [fmap list_fmap fold_left].
  replace (Z.pred (Z.of_nat (Datatypes.S k))) with (Z.of_nat k) by lia.
  replace (Z.succ (n - Z.of_nat (Datatypes.S k))) with (n - Z.of_nat k) by lia.
  cbn [HandleIO_loop].
  destruct (HandleIO_one_with (io_item base (tunnel_get T.io_size s) (io_df s) n
    (n - Z.of_nat (Datatypes.S k))) s) as (m & w & ->).
  destruct k as [|k]; [done|].
  specialize (IH (with_mem m w s)). change (tunnel_get T.io_size (with_mem m w s)) with
    (tunnel_get T.io_size s) in IH. change (io_df (with_mem m w s)) with (io_df s) in IH.
  rewrite <- IH by lia. f_equal. unfold io_df, io_item. generalize dependent (tunnel_get T.io_size s).
  intros size He Hs Hpos IH. destruct (nz _); rewrite u64_small; nia.
Qed.

(** Outputs. *)
Definition io_writes (m : hmem) (port size : Z) (ptrs : list Z) (w : W) : W :=
  fold_left (fun w ptr => IOWrite io port size (le_combine (host_read m ptr size)) w) ptrs w.
Lemma hx_io_rounds_out ptrs s : io_is_out s = true -> io_sized s = true ->
  io_rounds ptrs s
  = with_mem (h_mem s)
      (io_writes (h_mem s) (tunnel_get T.io_port s) (tunnel_get T.io_size s) ptrs (h_world s)) s.
Proof.
  revert s. induction ptrs as [|ptr ptrs IH]; intros s Ho Hs; [by destruct s|].
  unfold io_rounds, io_writes in *. cbn [fold_left].
  assert (HandleIO_one io uninit ptr s
    = with_mem (h_mem s) (IOWrite io (tunnel_get T.io_port s) (tunnel_get T.io_size s)
        (le_combine (host_read (h_mem s) ptr (tunnel_get T.io_size s))) (h_world s)) s) as ->.
  { unfold HandleIO_one. unfold io_is_out, io_sized in *. by rewrite Ho, Hs. }
  rewrite IH by done. done.
Qed.

(** Inputs: the results of the calls, and their stores. *)
Fixpoint io_reads (n : nat) (port size : Z) (w : W) : list Z * W :=
  match n with
  | O => ([], w)
  | Datatypes.S n =>
      let '(v, w) := IORead io port size w in
      let '(vs, w) := io_reads n port size w in (v :: vs, w)
  end.
Fixpoint store_items (size : Z) (ptrs vs : list Z) (m : hmem) : hmem :=
  match ptrs, vs with
  | p :: ptrs, v :: vs => store_items size ptrs vs (host_write m p (le_split (Z.to_nat size) v))
  | _, _ => m
  end.
Lemma hx_io_rounds_in ptrs s : io_is_out s = false -> io_sized s = true ->
  let '(vs, w) := io_reads (length ptrs) (tunnel_get T.io_port s) (tunnel_get T.io_size s) (h_world s) in
  length vs = length ptrs
  /\ io_rounds ptrs s = with_mem (store_items (tunnel_get T.io_size s) ptrs vs (h_mem s)) w s.
Proof.
  revert s. induction ptrs as [|ptr ptrs IH]; intros s Ho Hs; [by destruct s|].
  unfold io_rounds in *. cbn [fold_left length io_reads].
  assert (HandleIO_one io uninit ptr s
    = let '(v, w) := IORead io (tunnel_get T.io_port s) (tunnel_get T.io_size s) (h_world s) in
      with_mem (host_write (h_mem s) ptr (le_split (Z.to_nat (tunnel_get T.io_size s)) v)) w s) as ->.
  { unfold HandleIO_one. unfold io_is_out, io_sized in *. by rewrite Ho, Hs. }
  destruct (IORead _ _ _ _) as [v w1].
  specialize (IH (with_mem (host_write (h_mem s) ptr
    (le_split (Z.to_nat (tunnel_get T.io_size s)) v)) w1 s) Ho Hs).
  cbn [h_world with_mem with_tunnel h_mem] in IH.
  change (tunnel_get ?f (with_mem ?m ?w s)) with (tunnel_get f s) in IH.
  destruct (io_reads _ _ _ w1) as [vs w]. destruct IH as [Hl ->]. cbn. by rewrite Hl.
Qed.
End Io.

(** Stores at positions that do not meet. *)
Definition apart (size p q : Z) : Prop := p + size <= q \/ q + size <= p.
Lemma store_items_other size ptrs vs m q : 0 <= size -> 0 <= q -> q + size <= 2 ^ 64 ->
  Forall (fun p => 0 <= p /\ p + size <= 2 ^ 64 /\ apart size p q) ptrs ->
  host_read (store_items size ptrs vs m) q size = host_read m q size.
Proof.
  intros Hs Hq1 Hq2 Hf. revert vs m. induction Hf as [|p ptrs (Hp1 & Hp2 & Hd) _ IH]; intros vs m; [done|].
  destruct vs as [|v vs]; [done|]. cbn. rewrite IH.
  apply host_read_write_disjoint; rewrite ?length_le_split; unfold apart in *; lia.
Qed.
Lemma store_items_at size ptrs vs m i p v : 0 <= size ->
  Forall (fun p => 0 <= p /\ p + size <= 2 ^ 64) ptrs ->
  (forall j j' q q', j <> j' -> ptrs !! j = Some q -> ptrs !! j' = Some q' -> apart size q q') ->
  ptrs !! i = Some p -> vs !! i = Some v ->
  host_read (store_items size ptrs vs m) p size = le_split (Z.to_nat size) v.
Proof.
  intros Hs. revert vs m i. induction ptrs as [|p0 ptrs IH]; intros vs m i Hf Hd Hp Hv; [done|].
  destruct vs as [|v0 vs]; [done|]. cbn. apply Forall_cons in Hf as [[Hp1 Hp2] Hf].
  assert (Hd' : forall j j' q q', j <> j' -> ptrs !! j = Some q -> ptrs !! j' = Some q' -> apart size q q').
  { intros j j' q q' Hne Hj Hj'. apply (Hd (Datatypes.S j) (Datatypes.S j')); [congruence|done..]. }
  destruct i as [|i]; [|by apply (IH vs _ i)].
  injection Hp as ->. injection Hv as ->. rewrite store_items_other; [|lia..|].
  - pose proof (host_read_write_same m p (le_split (Z.to_nat size) v)) as Hw.
    rewrite length_le_split in Hw. rewrite Z2Nat.id in Hw by lia. apply Hw; lia.
  - apply Forall_forall. intros q (j & Hj)%list_elem_of_lookup. rewrite Forall_forall in Hf.
    destruct (Hf q ltac:(by eapply list_elem_of_lookup_2)) as [? ?]. split; [lia|]. split; [lia|].
    by apply (Hd (Datatypes.S j) 0%nat).
Qed.

Lemma HandleIO_rounds {K W} `{HAXM K} (io : IOHandlers W) uninit (s : hvp K W) :
  let n := tunnel_get T.io_count s in
  let size := tunnel_get T.io_size s in
  io_sized s = true -> 0 <= m_ioTunnel s -> m_ioTunnel s + n * size <= 2 ^ 64 ->
  HandleIO io uninit s
  = io_rounds io uninit (io_item (m_ioTunnel s) size (io_df s) n <$> seqZ 0 n) (set_reason Exit_PIO s).
Proof.
  intros n size Hs Hb He. assert (Hn : 0 <= n) by (apply fget_range; done).
  assert (Hz : 1 <= size).
  { unfold io_sized in Hs. fold size in Hs. cbv zeta in Hs. breflect.
    destruct Hs as [Hs|Hs]; breflect; [destruct Hs as [Hs|Hs]; breflect; lia|lia]. }
  pose proof (hx_HandleIO_loop_rounds io uninit (m_ioTunnel s) n (Z.to_nat n) (set_reason Exit_PIO s)) as Hl.
  change (tunnel_get T.io_size (set_reason Exit_PIO s)) with size in Hl.
  change (io_df (set_reason Exit_PIO s)) with (io_df s) in Hl.
  rewrite Z2Nat.id, Z.sub_diag in Hl by done. rewrite <- Hl by lia. unfold HandleIO.
  change (tunnel_get T.io_count (set_reason Exit_PIO s)) with n.
  change (tunnel_get T.io_size (set_reason Exit_PIO s)) with size.
  change (nz (tunnel_get T.io_df (set_reason Exit_PIO s))) with (io_df s).
  change (m_ioTunnel (set_reason Exit_PIO s)) with (m_ioTunnel s).
  destruct (Z.to_nat n) as [|k] eqn:Ek; [done|]. f_equal. unfold io_item.
  destruct (io_df s); [|lia].
  assert (Hn' : n < 2 ^ 16) by (apply fget_range; done).
  assert (Hz' : size < 2 ^ 16) by (apply fget_range; done).
  assert (Hp : 0 <= (n - 1) * size < 2 ^ 32) by nia.
  replace (size * u64 (n - 1)) with ((n - 1) * size) by (rewrite u64_small; lia).
  rewrite (u64_small ((n - 1) * size)), u64_small by lia. lia.
Qed.

(** C36: [HandleIO] transfers exactly the items of the exit, in order: for items of 1, 2 or 4
    bytes in a buffer that does not wrap, and every count, each of the items in the I/O tunnel, from the first to the last or, with
    the direction flag set, from the last to the first, is passed to the output
    callback and the memory is left alone; or is the result, truncated to the item
    size, of one call of the input callback, and nothing before the buffer
    changes. *)
Theorem haxm_io_exit {K W} `{HAXM K} (io : IOHandlers W) uninit (s : hvp K W) :
  let n := tunnel_get T.io_count s in
  let size := tunnel_get T.io_size s in
  let port := tunnel_get T.io_port s in
  let item := io_item (m_ioTunnel s) size (io_df s) n in
  let s' := HandleIO io uninit s in
  io_sized s = true -> 0 <= m_ioTunnel s -> m_ioTunnel s + n * size <= 2 ^ 64 ->
  reason (m_exitInfo s') = Exit_PIO
  /\ (io_is_out s = true ->
      h_mem s' = h_mem s
      /\ h_world s' = io_writes io (h_mem s) port size (item <$> seqZ 0 n) (h_world s))
  /\ (io_is_out s = false ->
      let '(vs, w) := io_reads io (Z.to_nat n) port size (h_world s) in
      h_world s' = w /\ length vs = Z.to_nat n
      /\ (forall i v, vs !! i = Some v ->
            host_read (h_mem s') (item (Z.of_nat i)) size = le_split (Z.to_nat size) v)
      /\ forall q, 0 <= q -> q + size <= m_ioTunnel s ->
            host_read (h_mem s') q size = host_read (h_mem s) q size).
Proof.
  intros n size port item s' Hs Hb He. subst s'. rewrite HandleIO_rounds by done. fold n size item.
  set (s0 := set_reason Exit_PIO s). assert (Hn : 0 <= n) by (apply fget_range; done).
  assert (Hz : 0 <= size) by (apply fget_range; done).
  pose proof (hx_io_rounds_in io uninit (item <$> seqZ 0 n) s0) as Hin.
  rewrite length_fmap, length_seqZ in Hin.
  change (tunnel_get T.io_size s0) with size in Hin. change (tunnel_get T.io_port s0) with port in Hin.
  change (h_world s0) with (h_world s) in Hin. change (h_mem s0) with (h_mem s) in Hin.
  split.
  { destruct (io_is_out s) eqn:Ho; [by rewrite hx_io_rounds_out|].
    specialize (Hin Ho Hs). destruct (io_reads _ _ _ _ _). by destruct Hin as [_ ->]. }
  split; intros Ho.
  { rewrite hx_io_rounds_out by assumption. split; reflexivity. }
  specialize (Hin Ho Hs). destruct (io_reads _ _ _ _ _) as [vs w]. destruct Hin as [Hl ->].
  assert (Hitem : forall i, 0 <= i < n -> m_ioTunnel s <= item i /\ item i + size <= 2 ^ 64).
  { intros i Hi. unfold item, io_item. destruct (io_df s); nia. }
  assert (Hlook : forall j q, (item <$> seqZ 0 n) !! j = Some q -> q = item (Z.of_nat j) /\ Z.of_nat j < n).
  { intros j q. rewrite list_lookup_fmap. destruct (seqZ 0 n !! j) as [x|] eqn:E; [|done].
    apply lookup_seqZ in E as [-> Hj]. intros [= <-]. split; [f_equal; lia|lia]. }
  split; [done|]. split; [done|]. split.
  - intros i v Hv. assert (Z.of_nat i < n) by (apply lookup_lt_Some in Hv; lia).
    apply (store_items_at size (item <$> seqZ 0 n) vs _ i); [done| | |by rewrite list_lookup_fmap, lookup_seqZ_lt by lia|done].
    + apply Forall_forall. intros q (j & Hj)%list_elem_of_lookup. destruct (Hlook j q Hj) as [-> Hjn].
      destruct (Hitem (Z.of_nat j)); lia.
    + intros j j' q q' Hne Hj Hj'. destruct (Hlook j q Hj) as [-> Hjn], (Hlook j' q' Hj') as [-> Hjn'].
      unfold apart, item, io_item. assert (Z.of_nat j <> Z.of_nat j') by lia.
      destruct (Z.lt_total (Z.of_nat j) (Z.of_nat j')) as [|[|]]; [|lia|]; destruct (io_df s); nia.
  - intros q Hq1 Hq2. apply store_items_other; [lia|lia| |].
    + pose proof (Hitem 0). nia.
    + apply Forall_forall. intros x (j & Hj)%list_elem_of_lookup. destruct (Hlook j x Hj) as [-> Hjn].
      destruct (Hitem (Z.of_nat j)); [lia|]. unfold apart. lia.
Qed.

(** ** Batches of model specific registers *)

(** The driver's answer: the values of the first [nr_msr] entries. *)
Definition msr_answer (rd : Z -> Z) (d : hax_msr_data) : hax_msr_data :=
  MkMsrData (nr_msr d)
    (imap (fun i e => if Z.of_nat i <? nr_msr d then (fst e, rd (fst e)) else e) (entries d)).
(** What the loop reads and writes: whole batches of 32 once there are more than 32
    registers. *)
Definition msrs_accessed (numRegs : Z) : Z :=
  if numRegs <=? HAX_MAX_MSR_ARRAY then numRegs
  else HAX_MAX_MSR_ARRAY * ((numRegs + HAX_MAX_MSR_ARRAY - 1) / HAX_MAX_MSR_ARRAY).

Lemma fold_insert_seqZ {A} (g : Z -> A) n es j : (n <= length es)%nat ->
  fold_left (fun es i => <[Z.to_nat i := g i]> es) (seqZ 0 (Z.of_nat n)) es !! j
  = if (j <? n)%nat then Some (g (Z.of_nat j)) else es !! j.
Proof.
  revert j. induction n as [|n IH]; intros j Hl; [done|].
  rewrite seqZ_S, fold_left_app. cbn [fold_left]. rewrite Z.add_0_l, Nat2Z.id.
  assert (Hlen : length (fold_left (fun es i => <[Z.to_nat i := g i]> es) (seqZ 0 (Z.of_nat n)) es) = length es).
  { clear. revert es. induction (seqZ 0 (Z.of_nat n)) as [|x l IH]; intros es; [done|]. cbn.
    by rewrite IH, length_insert. }
  destruct (Nat.eq_dec j n) as [->|Hne].
  - rewrite list_lookup_insert_eq by (rewrite Hlen; lia).
    by rewrite (proj2 (Nat.ltb_lt n (Datatypes.S n))) by lia.
  - rewrite list_lookup_insert_ne, IH by lia.
    destruct (Nat.ltb_spec j n), (Nat.ltb_spec j (Datatypes.S n)); lia || done.
Qed.

Lemma fold_store_seqZ (g : Z -> Z) index n vs j :
  fold_left (fun vs i => fun j => if j =? index + i then g i else vs j) (seqZ 0 (Z.of_nat n)) vs j
  = if (index <=? j) && (j <? index + Z.of_nat n) then g (j - index) else vs j.
Proof.
  induction n as [|n IH].
  - change (seqZ 0 (Z.of_nat 0)) with (@nil Z). cbn [fold_left].
    destruct (Z.leb_spec index j), (Z.ltb_spec j (index + Z.of_nat 0)); cbn [andb]; lia || done.
  - rewrite seqZ_S, fold_left_app. cbn [fold_left]. rewrite Z.add_0_l.
    destruct (Z.eqb_spec j (index + Z.of_nat n)) as [->|Hne].
    + rewrite (proj2 (Z.leb_le _ _)), (proj2 (Z.ltb_lt _ _)) by lia. cbn. f_equal. lia.
    + rewrite IH. destruct (Z.leb_spec index j), (Z.ltb_spec j (index + Z.of_nat n)),
        (Z.ltb_spec j (index + Z.of_nat (Datatypes.S n))); cbn; lia || done.
Qed.

Section Msrs.
Context {K W : Type} `{HAXM K}.
Implicit Types s : hvp K W.

Lemma batch_seq numRegs : 0 <= numRegs ->
  batch numRegs = seqZ 0 (Z.of_nat (Z.to_nat (Z.min numRegs HAX_MAX_MSR_ARRAY))).
Proof. intros Hn. unfold batch. by rewrite Z2Nat.id by (unfold HAX_MAX_MSR_ARRAY; lia). Qed.

Lemma GetMSRs_loop_batches rd numRegs msrs s b m fuel index values :
  (forall d, HAX_VCPU_IOCTL_GET_MSRS (h_fd s) d (h_driver s) = (0, msr_answer rd d, h_driver s)) ->
  0 < numRegs -> b = Z.min numRegs HAX_MAX_MSR_ARRAY ->
  (m <= fuel)%nat -> numRegs <= index + Z.of_nat m * b ->
  (m = 0%nat \/ index + (Z.of_nat m - 1) * b < numRegs) ->
  exists values', GetMSRs_loop fuel index numRegs msrs values s = Some (VP_OK, values', s)
    /\ forall i, values' i = if (index <=? i) && (i <? index + Z.of_nat m * b) then rd (msrs i) else values i.
Proof.
  intros Hd Hn Hb. assert (Hb32 : 1 <= b <= 32) by (unfold HAX_MAX_MSR_ARRAY in Hb; lia).
  revert fuel index values. induction m as [|m IH]; intros fuel index values Hf H1 H2.
  - exists values. split.
    + destruct fuel; cbn [GetMSRs_loop]; by rewrite (proj2 (Z.ltb_ge _ _)) by lia.
    + intros i. destruct (Z.leb_spec index i), (Z.ltb_spec i (index + Z.of_nat 0 * b)); cbn [andb]; lia || done.
  - destruct fuel as [|fuel]; [lia|]. destruct H2 as [|H2]; [done|]. cbn [GetMSRs_loop].
    rewrite (proj2 (Z.ltb_lt index numRegs)) by lia. rewrite batch_seq, <- Hb by lia.
    rewrite length_seqZ, Nat2Z.id, Z2Nat.id by lia. unfold sys_GetMSRData. rewrite Hd. cbn [negb Z.leb Z.compare].
    assert (Hs : with_driver (h_driver s) s = s) by (by destruct s). rewrite Hs.
    set (vs := store_values _ _ _ values).
    assert (Hvs : forall i, vs i = if (index <=? i) && (i <? index + b) then rd (msrs i) else values i).
    { intros i. subst vs. unfold store_values. rewrite batch_seq, <- Hb by lia.
      rewrite (fold_store_seqZ (fun i => default 0 (snd <$> entries (msr_answer _ _) !! Z.to_nat i))).
      rewrite Z2Nat.id by lia. destruct (Z.leb_spec index i); [|done].
      destruct (Z.ltb_spec i (index + b)); [|done]. cbn [andb msr_answer entries nr_msr].
      rewrite list_lookup_imap. unfold fill_entries. rewrite batch_seq, <- Hb by lia.
      rewrite (fold_insert_seqZ (fun j => (msrs (index + j), 0)))
        by (change (length (entries no_msrs)) with 32%nat; lia).
      rewrite (proj2 (Nat.ltb_lt _ _)) by lia. cbn [fmap option_fmap option_map fst snd].
      rewrite u16_small by lia. rewrite (proj2 (Z.ltb_lt _ _)) by lia. cbn. do 2 f_equal. lia. }
    assert (Hm0 : 0 <= Z.of_nat m * b) by nia.
    replace (Z.of_nat (Datatypes.S m) * b) with (b + Z.of_nat m * b) in * by lia.
    destruct (IH fuel (index + b) vs) as (values' & Hr & Hv); [lia|lia|destruct m; [by left|right; lia]|].
    exists values'. split; [exact Hr|]. intros i. rewrite Hv, Hvs.
    destruct (Z.leb_spec (index + b) i), (Z.ltb_spec i (index + b + Z.of_nat m * b)),
      (Z.leb_spec index i), (Z.ltb_spec i (index + b)),
      (Z.ltb_spec i (index + (b + Z.of_nat m * b))); cbn [andb]; lia || done.
Qed.
End Msrs.

(** C37: [GetMSRs] returns every requested register but overruns the caller's
    arrays.  With a driver that answers, it terminates with OK within
    [numRegs / 32] rounds, rounded up, and element [i] of [values] becomes the
    value of register [msrs i] for every [i] below [msrs_accessed numRegs], which
    is [numRegs] only up to 32 registers or for a multiple of 32: otherwise the
    last batch reads up to 31 indices behind the end of [msrs] and stores as many
    values behind the end of [values]. *)
Theorem haxm_msr_batches {K W} `{HAXM K} (s : hvp K W) rd numRegs msrs values fuel :
  (forall d, HAX_VCPU_IOCTL_GET_MSRS (h_fd s) d (h_driver s) = (0, msr_answer rd d, h_driver s)) ->
  0 < numRegs -> numRegs + HAX_MAX_MSR_ARRAY - 1 < Z.of_nat (Datatypes.S fuel) * HAX_MAX_MSR_ARRAY ->
  let n := msrs_accessed numRegs in
  (exists values', haxm_GetMSRs fuel numRegs (Some msrs) (Some values) s = Some (VP_OK, Some values', s)
     /\ (forall i, 0 <= i < n -> values' i = rd (msrs i))
     /\ (forall i, i < 0 \/ n <= i -> values' i = values i))
  /\ numRegs <= n < numRegs + 32
  /\ (n = numRegs <-> numRegs <= 32 \/ numRegs mod 32 = 0).
Proof.
  intros Hd Hn Hf n. unfold HAX_MAX_MSR_ARRAY in Hf. split.
  - set (b := Z.min numRegs HAX_MAX_MSR_ARRAY).
    pose (m := if numRegs <=? HAX_MAX_MSR_ARRAY then 1 else (numRegs + 31) / 32).
    assert (Hm : n = Z.of_nat (Z.to_nat m) * b /\ 1 <= m /\ m <= Z.of_nat fuel
      /\ numRegs <= m * b /\ (m - 1) * b < numRegs).
    { subst n m b. unfold msrs_accessed, HAX_MAX_MSR_ARRAY in *. destruct (Z.leb_spec numRegs 32).
      - replace (Z.min numRegs 32) with numRegs by lia. lia.
      - replace (Z.min numRegs 32) with 32 by lia. replace (numRegs + 32 - 1) with (numRegs + 31) by lia.
        zlia. }
    destruct Hm as (-> & H1 & H2 & H3 & H4).
    destruct (GetMSRs_loop_batches rd numRegs msrs s b (Z.to_nat m) fuel 0 values Hd Hn eq_refl)
      as (values' & Hr & Hv); [lia|lia|right; lia|].
    exists values'. unfold haxm_GetMSRs. rewrite Hr. split; [done|]. split; intros i Hi; rewrite Hv.
    + by rewrite (proj2 (Z.leb_le _ _)), (proj2 (Z.ltb_lt _ _)) by lia.
    + destruct (Z.leb_spec 0 i), (Z.ltb_spec i (0 + Z.of_nat (Z.to_nat m) * b)); cbn; lia || done.
  - subst n. unfold msrs_accessed, HAX_MAX_MSR_ARRAY. destruct (Z.leb_spec numRegs 32); [lia|]. zlia.
Qed.

(** ** Running *)
Section Run.
Context {K W : Type} `{HAXM K} (io : IOHandlers W) (uninit : Z).
Implicit Types s : hvp K W.

Lemma hx_HandleIO_loop_frame n ptr s : exists m w, HandleIO_loop io uninit n ptr s = with_mem m w s.
Proof.
  revert ptr s. induction n as [|n IH]; intros ptr s; cbn [HandleIO_loop].
  - exists (h_mem s), (h_world s). by destruct s.
  - destruct (HandleIO_one_with io uninit ptr s) as (m & w & ->).
    match goal with |- context [HandleIO_loop io uninit n ?p _] =>
      destruct (IH p (with_mem m w s)) as (m' & w' & ->) end.
    by exists m', w'.
Qed.
Lemma HandleFastMMIO_frame s : exists m w, HandleFastMMIO io s = with_mem m w (set_reason Exit_MMIO s).
Proof.
  unfold HandleFastMMIO. cbv zeta. repeat case_if; try destruct (MMIORead _ _ _ _); by eexists _, _.
Qed.

(** Handling an exit marks the cache dirty and leaves the driver alone. *)
Lemma hx_HandleExecResult_frame s :
  let '(st, s') := HandleExecResult io uninit s in
  st = VPE_OK /\ h_driver s' = h_driver s
  /\ h_cache s' = set_flags true (m_regsChanged (h_cache s)) (m_fpuRegsChanged (h_cache s)) (h_cache s).
Proof.
  unfold HandleExecResult. set (s0 := with_cache _ _ s). split; [done|].
  repeat case_if; try done.
  - unfold HandleIO. match goal with |- context [HandleIO_loop io uninit ?n ?p ?x] =>
      destruct (hx_HandleIO_loop_frame n p x) as (m & w & ->) end. done.
  - by destruct (HandleFastMMIO_frame s0) as (m & w & ->).
Qed.
End Run.

(** ** A concrete driver

    Its guest adds one to RAX and exits as told; a device's descriptor is 5, and
    every other descriptor is invalid; SET_REGS and the access to model specific
    registers can be made to fail.  The only model specific register is EFER. *)
Record demo := MkDemo {
  d_files : files; d_efer : Z; d_refuses : bool; d_no_msrs : bool; d_tunnel : hax_tunnel * hmem
}.
Definition demo_set (f : files) (d : demo) : demo :=
  MkDemo f (d_efer d) (d_refuses d) (d_no_msrs d) (d_tunnel d).
Definition demo_guest (f : files) : files :=
  let r := f_regs f in
  MkFiles (MkVcpuState (<[HG.rax := vs_regs r HG.rax + 1]> (vs_regs r)) (vs_seg r) (vs_ctl r) (_efer r)
             (vs_other r)) (f_fpu f).
Definition demo_open (fd : Z) : Z := if fd =? 5 then 0 else -1.
#[export] Instance demo_HAXM : HAXM demo := {
  HAX_VCPU_IOCTL_RUN fd t d :=
    if fd =? 5 then (0, d_tunnel d, demo_set (demo_guest (d_files d)) d) else (-1, t, d);
  HAX_VCPU_IOCTL_INTERRUPT fd _ d := (demo_open fd, d);
  HAX_VCPU_GET_REGS fd r d := if fd =? 5 then (0, f_regs (d_files d), d) else (-1, r, d);
  HAX_VCPU_SET_REGS fd r d :=
    if (fd =? 5) && negb (d_refuses d) then (0, demo_set (MkFiles r (f_fpu (d_files d))) d) else (-1, d);
  HAX_VCPU_IOCTL_GET_FPU fd r d := if fd =? 5 then (0, f_fpu (d_files d), d) else (-1, r, d);
  HAX_VCPU_IOCTL_SET_FPU fd r d :=
    if fd =? 5 then (0, demo_set (MkFiles (f_regs (d_files d)) r) d) else (-1, d);
  HAX_VCPU_IOCTL_GET_MSRS fd m d :=
    if (fd =? 5) && negb (d_no_msrs d)
    then (0, msr_answer (fun e => if e =? EFER_MSR then d_efer d else e) m, d) else (-1, m, d);
  HAX_VCPU_IOCTL_SET_MSRS fd m d :=
    if (fd =? 5) && negb (d_no_msrs d)
    then (0, MkDemo (d_files d) (default 0 (snd <$> entries m !! 0%nat)) (d_refuses d) (d_no_msrs d) (d_tunnel d))
    else (-1, d);
  HAX_IOCTL_VCPU_DEBUG fd _ d := (demo_open fd, d);
  HAX_VM_IOCTL_VCPU_CREATE _ _ d := (0, d);
  open_vcpu _ _ d := (5, d);
  HAX_VCPU_IOCTL_SETUP_TUNNEL fd d := (demo_open fd, (0x10000, 0x20000), d);
  close _ d := d
}.
#[export] Instance demo_laws : HAXMLaws demo.
Proof.
  refine {| dfiles := d_files |}; cbn; intros.
  - destruct (fd =? 5); [done|]. split; [done|lia].
  - destruct (fd =? 5); [done|]. split; [done|lia].
  - by destruct ((fd =? 5) && negb (d_refuses k)).
  - by destruct (fd =? 5).
Defined.
#[export] Instance demo_msr_laws : HAXMMsrLaws (K := demo).
Proof. constructor. cbn. intros. by destruct ((fd =? 5) && negb (d_no_msrs k)). Qed.

Definition demo_files : files :=
  MkFiles (MkVcpuState (<[HG.rip := 0xFFF0]> (fun _ => 0)) (fun _ => MkSegmentDesc 0 0 0 0 [])
             (fun _ => 0) 0 []) zero_fpu.
Definition demo_driver (refuses no_msrs : bool) (status u : Z) : demo :=
  MkDemo demo_files 0x500 refuses no_msrs (MkTunnel status 0 0 u, fun a => u8 a).
Definition demo_io : IOHandlers (list (Z * Z * Z)) :=
  MkIOHandlers (fun _ _ _ w => (0, w)) (fun _ p n v w => w ++ [(p, n, v)])
    (fun _ _ _ w => (0, w)) (fun _ p n v w => w ++ [(p, n, v)]) 0.
Definition demo_vp (useMSR : bool) (d : demo) : hvp demo (list (Z * Z * Z)) :=
  MkHvp (MkHcache zero_state zero_fpu true false false useMSR) 5 (fst (d_tunnel d)) 0x20000
    (snd (d_tunnel d)) (MkDebug 0 (replicate 8 0)) (MkVMExitInfo Exit_Normal Details_None) d [].

(** ** Theorems on the processor *)



(** EFER is always accessed through its model specific register, and errors of
    that access are dropped.  The constructor probes the driver before the
    processor's device is opened, so that the probe fails whatever the driver
    supports; and when the driver refuses the access, [RegRead] of EFER returns OK
    with the caller's value unchanged and [RegWrite] returns OK without effect. *)
Theorem haxm_efer_access {K W} `{HAXM K} tunnel mem x (k : K) (w : W) :
  (forall r, HAX_VCPU_GET_REGS (-1) r k = (-1, r, k)) ->
  m_useEferMSR (h_cache (new_hvp tunnel mem x k w)) = true
  /\ forall s : hvp K W, m_useEferMSR (h_cache s) = true -> m_regsDirty (h_cache s) = false ->
     (forall d, HAX_VCPU_IOCTL_GET_MSRS (h_fd s) d (h_driver s) = (-1, d, h_driver s)) ->
     (forall d, HAX_VCPU_IOCTL_SET_MSRS (h_fd s) d (h_driver s) = (-1, h_driver s)) ->
     forall v, haxm_RegRead Reg.EFER v s = (inr v, s) /\ haxm_RegWrite Reg.EFER v s = (inr tt, s).
Proof.
  intros Hfd. split.
  - unfold new_hvp, probe_efer, sys_GetRegisters. by rewrite Hfd.
  - intros s Hm Hd Hg Hs v. assert (Hid : with_driver (h_driver s) s = s) by (by destruct s).
    unfold haxm_RegRead, haxm_RegWrite, refreshed.
    rewrite !(bind_inr _ _ _ _ _ (hx_refresh_clean s Hd)). unfold HaxmRegRead, HaxmRegWrite.
    rewrite Hm. unfold haxm_GetMSR, haxm_SetMSR, sys_GetMSRData, sys_SetMSRData, succeeds.
    rewrite Hg, Hs. cbn [bool_decide decide_rel andb negb Z.leb Z.compare fst snd]. rewrite Hid.
    rewrite bool_decide_true by done. done.
Qed.

(** The driver supports the register state, but the probe does not find out; and a
    driver without model specific registers. *)
Lemma haxm_efer_access_witness :
  let d := demo_driver false true HAX_EXIT_HLT 0 in
  let s := MkHvp (MkHcache zero_state zero_fpu false false false true) 5 (fst (d_tunnel d)) 0x20000
             (snd (d_tunnel d)) (MkDebug 0 []) (MkVMExitInfo Exit_Normal Details_None) d ([] : list Z) in
  m_useEferMSR (h_cache (new_hvp (fst (d_tunnel d)) (snd (d_tunnel d))
    (MkVMExitInfo Exit_Normal Details_None) d ([] : list Z))) = true
  /\ haxm_RegRead Reg.EFER 0x1234 s = (inr 0x1234, s).
Proof.
  intros d s.
  assert (Hg : forall r, HAX_VCPU_GET_REGS (-1) r d = (-1, r, d)) by reflexivity.
  destruct (haxm_efer_access (fst (d_tunnel d)) (snd (d_tunnel d)) (MkVMExitInfo Exit_Normal Details_None)
    d ([] : list Z) Hg) as [H1 H2].
  split; [exact H1|]. refine (proj1 (H2 s _ _ _ _ 0x1234)); reflexivity.
Defined.

(** Forty registers: 64 are read and stored. *)
Lemma haxm_msr_batches_witness :
  let d := demo_driver false false HAX_EXIT_HLT 0 in
  exists values', haxm_GetMSRs 2 40 (Some (fun i => i)) (Some (fun _ => -1)) (demo_vp true d)
    = Some (VP_OK, Some values', demo_vp true d)
    /\ values' 39 = 39 /\ values' 63 = 63 /\ values' 64 = -1.
Proof.
  intros d. assert (Hg : forall m, HAX_VCPU_IOCTL_GET_MSRS 5 m d
    = (0, msr_answer (fun e => if e =? EFER_MSR then 0x500 else e) m, d)) by reflexivity.
  destruct (haxm_msr_batches (demo_vp true d) (fun e => if e =? EFER_MSR then 0x500 else e)
    40 (fun i => i) (fun _ => -1) 2 Hg ltac:(lia) ltac:(vm_compute; reflexivity))
    as ((values' & Hr & H1 & H2) & _).
  exists values'. split; [exact Hr|]. split; [|split].
  - rewrite (H1 39); [reflexivity|vm_compute; split; congruence].
  - rewrite (H1 63); [reflexivity|vm_compute; split; congruence].
  - apply (H2 64). right. vm_compute. congruence.
Defined.

(** A string output of two bytes with the direction flag set. *)
Lemma haxm_io_exit_witness :
  let u := fset T.io_direction 0 (fset T.io_df 1 (fset T.io_size 1 (fset T.io_port 0x3f8
             (fset T.io_count 2 0)))) in
  let s := demo_vp true (demo_driver false false HAX_EXIT_IO u) in
  h_world (HandleIO demo_io 0 s) = [(0x3f8, 1, 1); (0x3f8, 1, 0)].
Proof.
  intros u s.
  destruct (haxm_io_exit demo_io 0 s) as (_ & Ho & _); [vm_compute; reflexivity|vm_compute; congruence..|].
  rewrite (proj2 (Ho eq_refl)). vm_compute. reflexivity.
Defined.
