(* ===== verification/HaxmVm.v ===== *)
(** * The virtual machine and the platform of HAXM (haxm_vm.cpp, haxm_sys_vm.cpp of
    Linux, haxm_version.hpp, haxm_platform.cpp, haxm_platform_impl.cpp,
    haxm_sys_platform.cpp of Linux)

    Guest memory as an instance of [VMBackend], the creation of a machine with its
    processors, the comparison of driver versions and the features the platform
    publishes.  The driver is the class [HAXMachine]; the version of the driver is
    read from its module file, which is not modelled. *)
From S2P Require Import Prelude Bits MemRegions VM Regs Status Debug Platform HaxmRegs HaxmVp.

(** ** interface/hax_interface.hpp *)
Definition HAX_CAP_STATUS_WORKING : Z := 1 <<< 0.
Definition HAX_CAP_EPT : Z := 1 <<< 0.
Definition HAX_CAP_FASTMMIO : Z := 1 <<< 1.
Definition HAX_CAP_UG : Z := 1 <<< 2.
Definition HAX_CAP_64BIT_RAMBLOCK : Z := 1 <<< 3.
Definition HAX_CAP_64BIT_SETRAM : Z := 1 <<< 4.
Definition HAX_CAP_RAM_PROTECTION : Z := 1 <<< 6.
Definition HAX_CAP_DEBUG : Z := 1 <<< 7.
Definition HAX_RAM_INFO_ROM : Z := 0x01.
Definition HAX_RAM_INFO_INVALID : Z := 0x80.
Record hax_module_version := MkModuleVersion { compat_version : Z; cur_version : Z }.
Record hax_capabilityinfo := MkCaps { wstatus : Z; winfo : Z }.
(** [hax_set_ram_info] and [hax_set_ram_info2]: start, size, flags and address. *)
Record hax_ram := MkRam { pa_start : Z; ram_size : Z; ram_flags : Z; ram_va : Z }.

(** The ioctls on a machine's descriptor. *)
Class HAXMachine (K : Type) := {
  HAX_IOCTL_CREATE_VM (fd : Z) : K -> Z * Z * K;
  open_vm (vmID : Z) : K -> Z * K;
  HAX_VM_IOCTL_NOTIFY_QEMU_VERSION (fd cur least : Z) : K -> Z * K;
  HAX_VM_IOCTL_ALLOC_RAM (fd va size : Z) : K -> Z * K;
  HAX_VM_IOCTL_ADD_RAMBLOCK (fd va size : Z) : K -> Z * K;
  HAX_VM_IOCTL_SET_RAM (fd : Z) : hax_ram -> K -> Z * K;
  HAX_VM_IOCTL_SET_RAM2 (fd : Z) : hax_ram -> K -> Z * K;
  HAX_VM_IOCTL_PROTECT_RAM (fd pa size flags : Z) : K -> Z * K
}.

Section HaxmVm.
Context {K : Type} `{HAXMachine K}.
(** The descriptor of the machine; the driver's version and capabilities. *)
Context (fd : Z) (ver : hax_module_version) (caps : hax_capabilityinfo).

(** *** HaxmVirtualMachineSysImpl *)
Definition to_status (failed : MemoryMappingStatus) (r : Z * K) : MemoryMappingStatus * K :=
  (if fst r <? 0 then failed else MM_OK, snd r).
Definition sys_MapHostMemory (memory size : Z) (k : K) : MemoryMappingStatus * K :=
  to_status MM_AlreadyAllocated (HAX_VM_IOCTL_ALLOC_RAM fd memory size k).
Definition rom_flag (flags : Z) : Z := if negb (flags &&& MF_Write =? 0) then 0 else HAX_RAM_INFO_ROM.
Definition sys_MapGuestMemory (base size flags memory : Z) (k : K) : MemoryMappingStatus * K :=
  to_status MM_Failed (HAX_VM_IOCTL_SET_RAM fd (MkRam base size (rom_flag flags) memory) k).
Definition sys_UnmapGuestMemory (base size : Z) (k : K) : bool * K :=
  succeeds (HAX_VM_IOCTL_SET_RAM fd (MkRam base size HAX_RAM_INFO_INVALID 0) k).
Definition sys_MapHostMemoryLarge (memory size : Z) (k : K) : MemoryMappingStatus * K :=
  to_status MM_AlreadyAllocated (HAX_VM_IOCTL_ADD_RAMBLOCK fd memory size k).
Definition sys_MapGuestMemoryLarge (base size flags memory : Z) (k : K) : MemoryMappingStatus * K :=
  to_status MM_Failed (HAX_VM_IOCTL_SET_RAM2 fd (MkRam base size (rom_flag flags) memory) k).
Definition sys_UnmapGuestMemoryLarge (base size : Z) (k : K) : bool * K :=
  succeeds (HAX_VM_IOCTL_SET_RAM2 fd (MkRam base size HAX_RAM_INFO_INVALID 0) k).
Definition sys_SetGuestMemoryFlagsLarge (base size flags : Z) (k : K) : bool * K :=
  succeeds (HAX_VM_IOCTL_PROTECT_RAM fd base size (u32 flags) k).

(** *** HaxmVirtualMachine *)
Definition haxm_MapGuestMemoryImpl (base size flags memory : Z) (k : K) : MemoryMappingStatus * K :=
  if size <=? 0xFFFFFFFF then
    match sys_MapHostMemory memory (u32 size) k with
    | (MM_OK, k) | (MM_AlreadyAllocated, k) => sys_MapGuestMemory base (u32 size) flags memory k
    | (status, k) => (status, k)
    end
  else if winfo caps &&& (HAX_CAP_64BIT_SETRAM ||| HAX_CAP_64BIT_RAMBLOCK) =? 0 then (MM_Unsupported, k)
  else
    match sys_MapHostMemoryLarge memory size k with
    | (MM_OK, k) | (MM_AlreadyAllocated, k) => sys_MapGuestMemoryLarge base size flags memory k
    | (status, k) => (status, k)
    end.
Definition haxm_UnmapLarge (base size : Z) (k : K) : MemoryMappingStatus * K :=
  if winfo caps &&& HAX_CAP_64BIT_SETRAM =? 0 then (MM_Unsupported, k)
  else let '(ok, k) := sys_UnmapGuestMemoryLarge base size k in
       (if negb ok then MM_Failed else MM_OK, k).
(** After the regular version the code falls through to the large one. *)
Definition haxm_UnmapGuestMemoryImpl (base size : Z) (k : K) : MemoryMappingStatus * K :=
  if cur_version ver <? 4 then (MM_Unsupported, k)
  else if size <=? 0xFFFFFFFF then
    let '(ok, k) := sys_UnmapGuestMemory base (u32 size) k in
    if negb ok then (MM_Failed, k) else haxm_UnmapLarge base size k
  else haxm_UnmapLarge base size k.
Definition haxm_SetGuestMemoryFlagsImpl (base size flags : Z) (k : K) : MemoryMappingStatus * K :=
  if winfo caps &&& HAX_CAP_RAM_PROTECTION =? 0 then (MM_Unsupported, k)
  else let '(ok, k) := sys_SetGuestMemoryFlagsLarge base size flags k in
       (if negb ok then MM_Failed else MM_OK, k).

#[export] Instance haxm_VMBackend : VMBackend K := {
  MapGuestMemoryImpl := haxm_MapGuestMemoryImpl;
  UnmapGuestMemoryImpl := haxm_UnmapGuestMemoryImpl;
  SetGuestMemoryFlagsImpl := haxm_SetGuestMemoryFlagsImpl;
  QueryDirtyPagesImpl := default_QueryDirtyPagesImpl;
  ClearDirtyPagesImpl := default_ClearDirtyPagesImpl
}.
End HaxmVm.

(** ** Creation *)
Section Creation.
Context {K W : Type} `{HAXM K} `{HAXMachine K}.
Context (caps : hax_capabilityinfo) (fdHAXM numProcessors : Z).
(** What a new processor's members hold before they are initialised, and the
    world of the callbacks. *)
Context (tunnel : hax_tunnel) (mem : hmem) (x : VMExitInfo) (w : W).

Definition sys_vm_Initialize (k : K) : option (Z * Z) * K :=
  let '(result, vmID, k) := HAX_IOCTL_CREATE_VM fdHAXM k in
  if result =? -1 then (None, k)
  else
    let '(fd, k) := open_vm vmID k in
    if fd =? -1 then (None, k) else (Some (fd, vmID), k).
Definition sys_ReportQEMUVersion (fd cur least : Z) (k : K) : bool * K :=
  succeeds (HAX_VM_IOCTL_NOTIFY_QEMU_VERSION fd cur least k).
(** [Destroy] of a machine or a processor. *)
Definition sys_Destroy (fd : Z) (k : K) : K := if fd =? -1 then k else close fd k.

(** The processors share the driver, whose state is threaded through their
    creation. *)
Fixpoint create_vps (n : nat) (fd vmID id : Z) (vps : list (hvp K W)) (k : K)
    : bool * list (hvp K W) * K :=
  match n with
  | O => (true, vps, k)
  | Datatypes.S n =>
      let vp := new_hvp tunnel mem x k w in
      let '(ok, vp) := haxm_Initialize fd vmID id vp in
      let k := h_driver vp in
      if negb ok then (false, vps, sys_Destroy (h_fd vp) (sys_Destroy fd k))
      else create_vps n fd vmID (u32 (id + 1)) (vps ++ [vp]) k
  end.
(** The result, whether fast MMIO is used, the descriptor and the processors. *)
Definition haxm_vm_Initialize (k : K) : option (bool * Z * list (hvp K W)) * K :=
  match sys_vm_Initialize k with
  | (None, k) => (None, k)
  | (Some (fd, vmID), k) =>
      let '(fastMMIO, k) :=
        if nz (winfo caps &&& HAX_CAP_FASTMMIO) then sys_ReportQEMUVersion fd 4 4 k else (false, k) in
      let '(ok, vps, k) := create_vps (Z.to_nat numProcessors) fd vmID 0 [] k in
      (if ok then Some (fastMMIO, fd, vps)
       else None,
       (* [CreateVMImpl] destroys the machine, and so the processors it has *)
       if ok then k else fold_left (fun k vp => sys_Destroy (h_fd vp) k) vps k)
  end.
End Creation.

(** ** haxm_version.hpp

    The union of three 16-bit members and a 64-bit integer; [v_pad] is what its
    upper 16 bits hold, which the constructor with three arguments does not
    set. *)
Record HaxmVersion := MkVersion { major : Z; minor : Z; build : Z; v_pad : Z }.
Definition version_u64 (v : HaxmVersion) : Z :=
  quad16 (major v) (minor v) (build v) (v_pad v).
Definition version_eqb (v w : HaxmVersion) : bool := version_u64 v =? version_u64 w.
Definition version_ltb (v w : HaxmVersion) : bool := version_u64 v <? version_u64 w.
Definition version_leb (v w : HaxmVersion) : bool := version_u64 v <=? version_u64 w.

(** ** The platform

    The results of the constructor's calls: [open], and the version and capability
    ioctls with the structures they fill. *)
Record haxm_host := MkHaxmHost {
  hh_open : Z; hh_version_result : Z; hh_version : hax_module_version;
  hh_caps_result : Z; hh_caps : hax_capabilityinfo; hh_driver_version : HaxmVersion
}.
Definition sys_platform_Initialize (h : haxm_host) : PlatformInitStatus :=
  if hh_open h <? 0 then PI_Unavailable
  else if hh_version_result h <? 0 then PI_Failed
  else if hh_caps_result h <? 0 then PI_Failed
  else PI_OK.
Definition haxm_fp_mask : Z :=
  FP_MMX ||| FP_SSE ||| FP_SSE2 ||| FP_SSE3 ||| FP_SSSE3 ||| FP_SSE4_1 ||| FP_SSE4_2 ||| FP_F16C
  ||| FP_FXSAVE.
(** [pad] is what the temporary version's upper bits hold. *)
Definition haxm_features (h : haxm_host) (info : HostInfo) (uninit : GPAFeatures) (pad : Z)
    : PlatformFeatures :=
  let d := default_features uninit in
  let w := winfo (hh_caps h) in
  let bits := if 43 <? maxBits (gpa info) then 43 else maxBits (gpa info) in
  let maxAddress := u64 (1 <<< bits) in
  {| maxProcessorsPerVM := 64;
     maxProcessorsGlobal := 128;
     guestPhysicalAddress := MkGPA bits maxAddress (u64 (maxAddress - 1));
     floatingPointExtensions := host_fp info &&& haxm_fp_mask;
     unrestrictedGuest := nz (w &&& HAX_CAP_UG);
     extendedPageTables := nz (w &&& HAX_CAP_EPT);
     guestDebugging := nz (w &&& HAX_CAP_DEBUG);
     guestMemoryProtection := nz (w &&& HAX_CAP_RAM_PROTECTION);
     largeMemoryAllocation := nz (w &&& HAX_CAP_64BIT_SETRAM);
     memoryAliasing := true;
     memoryUnmapping := true;
     partialUnmapping := true;
     partialMMIOInstructions := version_ltb (hh_driver_version h) (MkVersion 7 5 1 pad);
     extendedControlRegisters := ECR_MXCSRMask;
     dirtyPageTracking := dirtyPageTracking d;
     partialDirtyBitmap := partialDirtyBitmap d;
     extendedVMExits := extendedVMExits d;
     exceptionExits := exceptionExits d;
     customCPUIDs := customCPUIDs d;
     supportedCustomCPUIDs := supportedCustomCPUIDs d;
     guestTSCScaling := guestTSCScaling d |}.
Definition newHaxmPlatform (h : haxm_host) (info : HostInfo) (uninit : GPAFeatures) (pad : Z)
    : PlatformInitStatus * PlatformFeatures :=
  match sys_platform_Initialize h with
  | PI_OK =>
      if nz (wstatus (hh_caps h) &&& HAX_CAP_STATUS_WORKING)
      then (PI_OK, haxm_features h info uninit pad)
      else (PI_Unsupported, default_features uninit)
  | status => (status, default_features uninit)
  end.

(** ** Theorems *)

(** The union as a sum. *)
Definition version_ok (v : HaxmVersion) : Prop :=
  0 <= major v < 2 ^ 16 /\ 0 <= minor v < 2 ^ 16 /\ 0 <= build v < 2 ^ 16 /\ 0 <= v_pad v < 2 ^ 16.
Lemma version_u64_sum v : version_ok v ->
  version_u64 v = v_pad v * 2 ^ 48 + build v * 2 ^ 32 + minor v * 2 ^ 16 + major v.
Proof.
  intros (H1 & H2 & H3 & H4). by apply quad16_sum.
Qed.

(** The order of versions by release. *)
Definition released_before (v w : HaxmVersion) : Prop :=
  major v < major w \/ major v = major w /\ (minor v < minor w \/ minor v = minor w /\ build v < build w).

(** Versions are not compared in the order of releases.  With equal upper bits
    the operators compare the build number first, then the minor and then the
    major number, so that 7.6.0 counts as older than 7.5.1 and any later release
    with build number 0 is reported to have the partial MMIO instructions of
    releases before 7.5.1; equality is right.  With different contents of the bits
    that the constructor leaves unset, only these decide. *)
Theorem haxm_version_order v w : version_ok v -> version_ok w ->
  (v_pad v = v_pad w ->
     (version_ltb v w = true
      <-> build v < build w
          \/ build v = build w /\ (minor v < minor w \/ minor v = minor w /\ major v < major w))
     /\ (version_eqb v w = true <-> v = w)
     /\ (version_leb v w = version_ltb v w || version_eqb v w))
  /\ (v_pad v <> v_pad w -> version_ltb v w = (v_pad v <? v_pad w) /\ version_eqb v w = false)
  /\ (build v = 0 -> w = MkVersion 7 5 1 (v_pad v) -> version_ltb v w = true)
  /\ (build v = build w -> v_pad v = v_pad w -> minor v = minor w ->
      (version_ltb v w = true <-> released_before v w)).
Proof.
  intros Hv Hw. unfold version_ltb, version_eqb, version_leb, released_before.
  rewrite !version_u64_sum by done. destruct Hv as (? & ? & ? & ?), Hw as (? & ? & ? & ?).
  split; [|split; [|split]].
  - intros Hp. rewrite Z.ltb_lt, Z.eqb_eq. split; [lia|]. split.
    + split; [|by intros ->]. intros E. destruct v, w; cbn in *. f_equal; lia.
    + apply Bool.eq_iff_eq_true. rewrite orb_true_iff, Z.leb_le, Z.ltb_lt, Z.eqb_eq. lia.
  - intros Hne. rewrite Z.eqb_neq. split; [|lia].
    apply Bool.eq_iff_eq_true. rewrite !Z.ltb_lt. lia.
  - intros Hb ->. cbn [major minor build v_pad] in *. apply Z.ltb_lt. lia.
  - intros Hb Hp Hm. rewrite Z.ltb_lt. lia.
Qed.

(** Unmapping a range of up to 4 GiB falls through to the large version after
    the driver has accepted the regular one.  Without 64-bit support the machine
    then answers Unsupported and keeps the region although the driver has unmapped
    it; with it the range is unmapped a second time, and only the second result
    decides between OK, with the region list cut, and Failed. *)
Theorem haxm_unmap_falls_through {K V W} `{HAXMachine K} fd ver caps large
    (vm : VirtualMachine K V W) base size r1 k1 :
  4 <= cur_version ver -> 0 < size <= 0xFFFFFFFF -> page_aligned base -> page_aligned size ->
  HAX_VM_IOCTL_SET_RAM fd (MkRam base size HAX_RAM_INFO_INVALID 0) (m_backend vm) = (r1, k1) ->
  0 <= r1 ->
  let _ := haxm_VMBackend fd ver caps in
  let again := HAX_VM_IOCTL_SET_RAM2 fd (MkRam base size HAX_RAM_INFO_INVALID 0) k1 in
  UnmapGuestMemory large base size vm =
    if winfo caps &&& HAX_CAP_64BIT_SETRAM =? 0 then Some (MM_Unsupported, set_backend k1 vm)
    else if fst again <? 0 then Some (MM_Failed, set_backend (snd again) vm)
    else rs ← SubtractMemoryRange base size (m_memoryRegions vm);
         Some (MM_OK, set_regions rs (set_backend (snd again) vm)).
Proof.
  intros Hv Hs Hb Hsz Hram Hr B again. unfold UnmapGuestMemory.
  rewrite (proj2 (nz_fff base) Hb), (proj2 (nz_fff size) Hsz).
  rewrite (proj2 (Z.eqb_neq size 0)), (proj2 (Z.ltb_ge 0xFFFFFFFF size)) by lia. cbn [andb].
  cbn [UnmapGuestMemoryImpl B haxm_VMBackend]. unfold haxm_UnmapGuestMemoryImpl.
  rewrite (proj2 (Z.ltb_ge _ 4) Hv), (proj2 (Z.leb_le size 0xFFFFFFFF)) by lia.
  unfold sys_UnmapGuestMemory, succeeds. rewrite u32_small by lia. rewrite Hram. cbn [fst snd].
  rewrite (proj2 (Z.leb_le 0 r1) Hr). cbn [negb].
  unfold haxm_UnmapLarge. destruct (_ =? 0); [done|].
  unfold sys_UnmapGuestMemoryLarge, succeeds. fold again. destruct again as [r2 k2]; cbn [fst snd].
  destruct (Z.leb_spec 0 r2), (Z.ltb_spec r2 0); cbn [negb]; try lia; reflexivity.
Qed.

Lemma haxm_version_order_witness :
  let v := MkVersion 7 6 0 0 in
  let w := MkVersion 7 5 1 0 in
  released_before w v /\ version_ltb v w = true.
Proof.
  intros v w. split; [right; split; [reflexivity|left; reflexivity]|].
  refine (proj1 (proj2 (proj2 (haxm_version_order v w _ _))) eq_refl eq_refl);
    subst v w; unfold version_ok; cbn; lia.
Defined.

(** A driver without 64-bit support that records the last memory block it was given. *)
Module Demo.
Definition machine : HAXMachine (option hax_ram) := {|
  HAX_IOCTL_CREATE_VM _ k := (0, 0, k);
  open_vm _ k := (3, k);
  HAX_VM_IOCTL_NOTIFY_QEMU_VERSION _ _ _ k := (0, k);
  HAX_VM_IOCTL_ALLOC_RAM _ _ _ k := (0, k);
  HAX_VM_IOCTL_ADD_RAMBLOCK _ _ _ k := (-1, k);
  HAX_VM_IOCTL_SET_RAM _ r _ := (0, Some r);
  HAX_VM_IOCTL_SET_RAM2 _ _ k := (-1, k);
  HAX_VM_IOCTL_PROTECT_RAM _ _ _ _ k := (-1, k)
|}.
Definition version : hax_module_version := MkModuleVersion 1 4.
Definition caps : hax_capabilityinfo := MkCaps 1 0.
#[local] Existing Instance machine.
Definition vm : VirtualMachine (option hax_ram) unit unit :=
  let _ := haxm_VMBackend 3 version caps in
  snd (MapGuestMemory false (Z.ones 43) 0x1000 0x2000 7 0x700000 (newVM None)).
End Demo.

Lemma haxm_unmap_falls_through_witness :
  let _ := Demo.machine in
  let _ := haxm_VMBackend 3 Demo.version Demo.caps in
  length (m_memoryRegions Demo.vm) = 1%nat /\
  UnmapGuestMemory false 0x1000 0x2000 Demo.vm
  = Some (MM_Unsupported, set_backend (Some (MkRam 0x1000 0x2000 HAX_RAM_INFO_INVALID 0)) Demo.vm).
Proof.
  intros M B. split; [reflexivity|].
  refine (haxm_unmap_falls_through 3 Demo.version Demo.caps false Demo.vm 0x1000 0x2000 0 _ _ _ _ _ eq_refl _);
    cbn; try lia; reflexivity.
Defined.
