(* ===== verification/WhpxRegs.v ===== *)
(** * Registers of the Windows Hypervisor Platform (whpx_regs.cpp, version_info.hpp)

    The names of the platform's registers, the translation of names, values and
    MSR numbers, and the comparison of versions that guards some of them.  A
    register value of the platform is a 128-bit union, laid out as the Windows SDK
    documents it. *)
From stdpp Require Import functions.
From S2P Require Import Prelude Bits Regs Vp Arch.

(** ** WHV_REGISTER_NAME: the enumerators that the code names *)
Module WHV.
Inductive t :=
| WHvX64RegisterCs | WHvX64RegisterSs | WHvX64RegisterDs | WHvX64RegisterEs | WHvX64RegisterFs |
WHvX64RegisterGs | WHvX64RegisterLdtr | WHvX64RegisterTr | WHvX64RegisterGdtr |
WHvX64RegisterIdtr | WHvX64RegisterRax | WHvX64RegisterRcx | WHvX64RegisterRdx |
WHvX64RegisterRbx | WHvX64RegisterRsp | WHvX64RegisterRbp | WHvX64RegisterRsi |
WHvX64RegisterRdi | WHvX64RegisterR8 | WHvX64RegisterR9 | WHvX64RegisterR10 | WHvX64RegisterR11
| WHvX64RegisterR12 | WHvX64RegisterR13 | WHvX64RegisterR14 | WHvX64RegisterR15 |
WHvX64RegisterRip | WHvX64RegisterRflags | WHvX64RegisterCr0 | WHvX64RegisterCr2 |
WHvX64RegisterCr3 | WHvX64RegisterCr4 | WHvX64RegisterCr8 | WHvX64RegisterEfer |
WHvX64RegisterXCr0 | WHvX64RegisterDr0 | WHvX64RegisterDr1 | WHvX64RegisterDr2 |
WHvX64RegisterDr3 | WHvX64RegisterDr6 | WHvX64RegisterDr7 | WHvX64RegisterFpMmx0 |
WHvX64RegisterFpMmx1 | WHvX64RegisterFpMmx2 | WHvX64RegisterFpMmx3 | WHvX64RegisterFpMmx4 |
WHvX64RegisterFpMmx5 | WHvX64RegisterFpMmx6 | WHvX64RegisterFpMmx7 | WHvX64RegisterXmm0 |
WHvX64RegisterXmm1 | WHvX64RegisterXmm2 | WHvX64RegisterXmm3 | WHvX64RegisterXmm4 |
WHvX64RegisterXmm5 | WHvX64RegisterXmm6 | WHvX64RegisterXmm7 | WHvX64RegisterXmm8 |
WHvX64RegisterXmm9 | WHvX64RegisterXmm10 | WHvX64RegisterXmm11 | WHvX64RegisterXmm12 |
WHvX64RegisterXmm13 | WHvX64RegisterXmm14 | WHvX64RegisterXmm15 | WHvX64RegisterTsc |
WHvX64RegisterKernelGsBase | WHvX64RegisterApicBase | WHvX64RegisterPat |
WHvX64RegisterSysenterCs | WHvX64RegisterSysenterEip | WHvX64RegisterSysenterEsp |
WHvX64RegisterStar | WHvX64RegisterLstar | WHvX64RegisterCstar | WHvX64RegisterSfmask |
WHvX64RegisterMsrMtrrCap | WHvX64RegisterMsrMtrrDefType | WHvX64RegisterMsrMtrrPhysBase0 |
WHvX64RegisterMsrMtrrPhysBase1 | WHvX64RegisterMsrMtrrPhysBase2 | WHvX64RegisterMsrMtrrPhysBase3
| WHvX64RegisterMsrMtrrPhysBase4 | WHvX64RegisterMsrMtrrPhysBase5 |
WHvX64RegisterMsrMtrrPhysBase6 | WHvX64RegisterMsrMtrrPhysBase7 | WHvX64RegisterMsrMtrrPhysBase8
| WHvX64RegisterMsrMtrrPhysBase9 | WHvX64RegisterMsrMtrrPhysBaseA |
WHvX64RegisterMsrMtrrPhysBaseB | WHvX64RegisterMsrMtrrPhysBaseC | WHvX64RegisterMsrMtrrPhysBaseD
| WHvX64RegisterMsrMtrrPhysBaseE | WHvX64RegisterMsrMtrrPhysBaseF |
WHvX64RegisterMsrMtrrPhysMask0 | WHvX64RegisterMsrMtrrPhysMask1 | WHvX64RegisterMsrMtrrPhysMask2
| WHvX64RegisterMsrMtrrPhysMask3 | WHvX64RegisterMsrMtrrPhysMask4 |
WHvX64RegisterMsrMtrrPhysMask5 | WHvX64RegisterMsrMtrrPhysMask6 | WHvX64RegisterMsrMtrrPhysMask7
| WHvX64RegisterMsrMtrrPhysMask8 | WHvX64RegisterMsrMtrrPhysMask9 |
WHvX64RegisterMsrMtrrPhysMaskA | WHvX64RegisterMsrMtrrPhysMaskB | WHvX64RegisterMsrMtrrPhysMaskC
| WHvX64RegisterMsrMtrrPhysMaskD | WHvX64RegisterMsrMtrrPhysMaskE |
WHvX64RegisterMsrMtrrPhysMaskF | WHvX64RegisterMsrMtrrFix64k00000 |
WHvX64RegisterMsrMtrrFix16k80000 | WHvX64RegisterMsrMtrrFix16kA0000 |
WHvX64RegisterMsrMtrrFix4kC0000 | WHvX64RegisterMsrMtrrFix4kC8000 |
WHvX64RegisterMsrMtrrFix4kD0000 | WHvX64RegisterMsrMtrrFix4kD8000 |
WHvX64RegisterMsrMtrrFix4kE0000 | WHvX64RegisterMsrMtrrFix4kE8000 |
WHvX64RegisterMsrMtrrFix4kF0000 | WHvX64RegisterMsrMtrrFix4kF8000 | WHvX64RegisterTscAux |
WHvX64RegisterSpecCtrl | WHvX64RegisterPredCmd | WHvRegisterPendingInterruption |
WHvX64RegisterFpControlStatus | WHvX64RegisterXmmControlStatus.
Definition idx (r : t) : Z :=
  match r with
  | WHvX64RegisterCs => 0 | WHvX64RegisterSs => 1 | WHvX64RegisterDs => 2 | WHvX64RegisterEs =>
  3 | WHvX64RegisterFs => 4 | WHvX64RegisterGs => 5 | WHvX64RegisterLdtr => 6 | WHvX64RegisterTr
  => 7 | WHvX64RegisterGdtr => 8 | WHvX64RegisterIdtr => 9 | WHvX64RegisterRax => 10 |
  WHvX64RegisterRcx => 11 | WHvX64RegisterRdx => 12 | WHvX64RegisterRbx => 13 |
  WHvX64RegisterRsp => 14 | WHvX64RegisterRbp => 15 | WHvX64RegisterRsi => 16 |
  WHvX64RegisterRdi => 17 | WHvX64RegisterR8 => 18 | WHvX64RegisterR9 => 19 | WHvX64RegisterR10
  => 20 | WHvX64RegisterR11 => 21 | WHvX64RegisterR12 => 22 | WHvX64RegisterR13 => 23 |
  WHvX64RegisterR14 => 24 | WHvX64RegisterR15 => 25 | WHvX64RegisterRip => 26 |
  WHvX64RegisterRflags => 27 | WHvX64RegisterCr0 => 28 | WHvX64RegisterCr2 => 29 |
  WHvX64RegisterCr3 => 30 | WHvX64RegisterCr4 => 31 | WHvX64RegisterCr8 => 32 |
  WHvX64RegisterEfer => 33 | WHvX64RegisterXCr0 => 34 | WHvX64RegisterDr0 => 35 |
  WHvX64RegisterDr1 => 36 | WHvX64RegisterDr2 => 37 | WHvX64RegisterDr3 => 38 |
  WHvX64RegisterDr6 => 39 | WHvX64RegisterDr7 => 40 | WHvX64RegisterFpMmx0 => 41 |
  WHvX64RegisterFpMmx1 => 42 | WHvX64RegisterFpMmx2 => 43 | WHvX64RegisterFpMmx3 => 44 |
  WHvX64RegisterFpMmx4 => 45 | WHvX64RegisterFpMmx5 => 46 | WHvX64RegisterFpMmx6 => 47 |
  WHvX64RegisterFpMmx7 => 48 | WHvX64RegisterXmm0 => 49 | WHvX64RegisterXmm1 => 50 |
  WHvX64RegisterXmm2 => 51 | WHvX64RegisterXmm3 => 52 | WHvX64RegisterXmm4 => 53 |
  WHvX64RegisterXmm5 => 54 | WHvX64RegisterXmm6 => 55 | WHvX64RegisterXmm7 => 56 |
  WHvX64RegisterXmm8 => 57 | WHvX64RegisterXmm9 => 58 | WHvX64RegisterXmm10 => 59 |
  WHvX64RegisterXmm11 => 60 | WHvX64RegisterXmm12 => 61 | WHvX64RegisterXmm13 => 62 |
  WHvX64RegisterXmm14 => 63 | WHvX64RegisterXmm15 => 64 | WHvX64RegisterTsc => 65 |
  WHvX64RegisterKernelGsBase => 66 | WHvX64RegisterApicBase => 67 | WHvX64RegisterPat => 68 |
  WHvX64RegisterSysenterCs => 69 | WHvX64RegisterSysenterEip => 70 | WHvX64RegisterSysenterEsp
  => 71 | WHvX64RegisterStar => 72 | WHvX64RegisterLstar => 73 | WHvX64RegisterCstar => 74 |
  WHvX64RegisterSfmask => 75 | WHvX64RegisterMsrMtrrCap => 76 | WHvX64RegisterMsrMtrrDefType =>
  77 | WHvX64RegisterMsrMtrrPhysBase0 => 78 | WHvX64RegisterMsrMtrrPhysBase1 => 79 |
  WHvX64RegisterMsrMtrrPhysBase2 => 80 | WHvX64RegisterMsrMtrrPhysBase3 => 81 |
  WHvX64RegisterMsrMtrrPhysBase4 => 82 | WHvX64RegisterMsrMtrrPhysBase5 => 83 |
  WHvX64RegisterMsrMtrrPhysBase6 => 84 | WHvX64RegisterMsrMtrrPhysBase7 => 85 |
  WHvX64RegisterMsrMtrrPhysBase8 => 86 | WHvX64RegisterMsrMtrrPhysBase9 => 87 |
  WHvX64RegisterMsrMtrrPhysBaseA => 88 | WHvX64RegisterMsrMtrrPhysBaseB => 89 |
  WHvX64RegisterMsrMtrrPhysBaseC => 90 | WHvX64RegisterMsrMtrrPhysBaseD => 91 |
  WHvX64RegisterMsrMtrrPhysBaseE => 92 | WHvX64RegisterMsrMtrrPhysBaseF => 93 |
  WHvX64RegisterMsrMtrrPhysMask0 => 94 | WHvX64RegisterMsrMtrrPhysMask1 => 95 |
  WHvX64RegisterMsrMtrrPhysMask2 => 96 | WHvX64RegisterMsrMtrrPhysMask3 => 97 |
  WHvX64RegisterMsrMtrrPhysMask4 => 98 | WHvX64RegisterMsrMtrrPhysMask5 => 99 |
  WHvX64RegisterMsrMtrrPhysMask6 => 100 | WHvX64RegisterMsrMtrrPhysMask7 => 101 |
  WHvX64RegisterMsrMtrrPhysMask8 => 102 | WHvX64RegisterMsrMtrrPhysMask9 => 103 |
  WHvX64RegisterMsrMtrrPhysMaskA => 104 | WHvX64RegisterMsrMtrrPhysMaskB => 105 |
  WHvX64RegisterMsrMtrrPhysMaskC => 106 | WHvX64RegisterMsrMtrrPhysMaskD => 107 |
  WHvX64RegisterMsrMtrrPhysMaskE => 108 | WHvX64RegisterMsrMtrrPhysMaskF => 109 |
  WHvX64RegisterMsrMtrrFix64k00000 => 110 | WHvX64RegisterMsrMtrrFix16k80000 => 111 |
  WHvX64RegisterMsrMtrrFix16kA0000 => 112 | WHvX64RegisterMsrMtrrFix4kC0000 => 113 |
  WHvX64RegisterMsrMtrrFix4kC8000 => 114 | WHvX64RegisterMsrMtrrFix4kD0000 => 115 |
  WHvX64RegisterMsrMtrrFix4kD8000 => 116 | WHvX64RegisterMsrMtrrFix4kE0000 => 117 |
  WHvX64RegisterMsrMtrrFix4kE8000 => 118 | WHvX64RegisterMsrMtrrFix4kF0000 => 119 |
  WHvX64RegisterMsrMtrrFix4kF8000 => 120 | WHvX64RegisterTscAux => 121 | WHvX64RegisterSpecCtrl
  => 122 | WHvX64RegisterPredCmd => 123 | WHvRegisterPendingInterruption => 124 |
  WHvX64RegisterFpControlStatus => 125 | WHvX64RegisterXmmControlStatus => 126
  end.
Definition all : list t :=
  [WHvX64RegisterCs; WHvX64RegisterSs; WHvX64RegisterDs; WHvX64RegisterEs; WHvX64RegisterFs;
  WHvX64RegisterGs; WHvX64RegisterLdtr; WHvX64RegisterTr; WHvX64RegisterGdtr;
  WHvX64RegisterIdtr; WHvX64RegisterRax; WHvX64RegisterRcx; WHvX64RegisterRdx;
  WHvX64RegisterRbx; WHvX64RegisterRsp; WHvX64RegisterRbp; WHvX64RegisterRsi; WHvX64RegisterRdi;
  WHvX64RegisterR8; WHvX64RegisterR9; WHvX64RegisterR10; WHvX64RegisterR11; WHvX64RegisterR12;
  WHvX64RegisterR13; WHvX64RegisterR14; WHvX64RegisterR15; WHvX64RegisterRip;
  WHvX64RegisterRflags; WHvX64RegisterCr0; WHvX64RegisterCr2; WHvX64RegisterCr3;
  WHvX64RegisterCr4; WHvX64RegisterCr8; WHvX64RegisterEfer; WHvX64RegisterXCr0;
  WHvX64RegisterDr0; WHvX64RegisterDr1; WHvX64RegisterDr2; WHvX64RegisterDr3; WHvX64RegisterDr6;
  WHvX64RegisterDr7; WHvX64RegisterFpMmx0; WHvX64RegisterFpMmx1; WHvX64RegisterFpMmx2;
  WHvX64RegisterFpMmx3; WHvX64RegisterFpMmx4; WHvX64RegisterFpMmx5; WHvX64RegisterFpMmx6;
  WHvX64RegisterFpMmx7; WHvX64RegisterXmm0; WHvX64RegisterXmm1; WHvX64RegisterXmm2;
  WHvX64RegisterXmm3; WHvX64RegisterXmm4; WHvX64RegisterXmm5; WHvX64RegisterXmm6;
  WHvX64RegisterXmm7; WHvX64RegisterXmm8; WHvX64RegisterXmm9; WHvX64RegisterXmm10;
  WHvX64RegisterXmm11; WHvX64RegisterXmm12; WHvX64RegisterXmm13; WHvX64RegisterXmm14;
  WHvX64RegisterXmm15; WHvX64RegisterTsc; WHvX64RegisterKernelGsBase; WHvX64RegisterApicBase;
  WHvX64RegisterPat; WHvX64RegisterSysenterCs; WHvX64RegisterSysenterEip;
  WHvX64RegisterSysenterEsp; WHvX64RegisterStar; WHvX64RegisterLstar; WHvX64RegisterCstar;
  WHvX64RegisterSfmask; WHvX64RegisterMsrMtrrCap; WHvX64RegisterMsrMtrrDefType;
  WHvX64RegisterMsrMtrrPhysBase0; WHvX64RegisterMsrMtrrPhysBase1;
  WHvX64RegisterMsrMtrrPhysBase2; WHvX64RegisterMsrMtrrPhysBase3;
  WHvX64RegisterMsrMtrrPhysBase4; WHvX64RegisterMsrMtrrPhysBase5;
  WHvX64RegisterMsrMtrrPhysBase6; WHvX64RegisterMsrMtrrPhysBase7;
  WHvX64RegisterMsrMtrrPhysBase8; WHvX64RegisterMsrMtrrPhysBase9;
  WHvX64RegisterMsrMtrrPhysBaseA; WHvX64RegisterMsrMtrrPhysBaseB;
  WHvX64RegisterMsrMtrrPhysBaseC; WHvX64RegisterMsrMtrrPhysBaseD;
  WHvX64RegisterMsrMtrrPhysBaseE; WHvX64RegisterMsrMtrrPhysBaseF;
  WHvX64RegisterMsrMtrrPhysMask0; WHvX64RegisterMsrMtrrPhysMask1;
  WHvX64RegisterMsrMtrrPhysMask2; WHvX64RegisterMsrMtrrPhysMask3;
  WHvX64RegisterMsrMtrrPhysMask4; WHvX64RegisterMsrMtrrPhysMask5;
  WHvX64RegisterMsrMtrrPhysMask6; WHvX64RegisterMsrMtrrPhysMask7;
  WHvX64RegisterMsrMtrrPhysMask8; WHvX64RegisterMsrMtrrPhysMask9;
  WHvX64RegisterMsrMtrrPhysMaskA; WHvX64RegisterMsrMtrrPhysMaskB;
  WHvX64RegisterMsrMtrrPhysMaskC; WHvX64RegisterMsrMtrrPhysMaskD;
  WHvX64RegisterMsrMtrrPhysMaskE; WHvX64RegisterMsrMtrrPhysMaskF;
  WHvX64RegisterMsrMtrrFix64k00000; WHvX64RegisterMsrMtrrFix16k80000;
  WHvX64RegisterMsrMtrrFix16kA0000; WHvX64RegisterMsrMtrrFix4kC0000;
  WHvX64RegisterMsrMtrrFix4kC8000; WHvX64RegisterMsrMtrrFix4kD0000;
  WHvX64RegisterMsrMtrrFix4kD8000; WHvX64RegisterMsrMtrrFix4kE0000;
  WHvX64RegisterMsrMtrrFix4kE8000; WHvX64RegisterMsrMtrrFix4kF0000;
  WHvX64RegisterMsrMtrrFix4kF8000; WHvX64RegisterTscAux; WHvX64RegisterSpecCtrl;
  WHvX64RegisterPredCmd; WHvRegisterPendingInterruption; WHvX64RegisterFpControlStatus;
  WHvX64RegisterXmmControlStatus].
Lemma all_idx r : all !! Z.to_nat (idx r) = Some r.
Proof. by destruct r. Qed.
Lemma whv_idx_inj r1 r2 : idx r1 = idx r2 -> r1 = r2.
Proof. intros E. pose proof (all_idx r1) as H1. rewrite E, all_idx in H1. by injection H1. Qed.
#[global] Instance eq_dec : EqDecision t.
Proof.
  intros r1 r2. destruct (Z.eq_dec (idx r1) (idx r2)) as [H|H].
  - left. by apply whv_idx_inj.
  - right. by intros ->.
Defined.
End WHV.

(** ** WHV_REGISTER_VALUE: the members that the code names *)
Definition WHV_REGISTER_VALUE := Z.
Module WV.
Definition Reg64 := Field 0 64.
(** [Reg128] *)
Definition Low64 := Field 0 64.
Definition High64 := Field 64 64.
(** [Fp] *)
Definition Mantissa := Field 0 64.
Definition BiasedExponent := Field 64 15.
Definition Sign := Field 79 1.
(** [Segment] *)
Definition Base := Field 0 64.
Definition Limit := Field 64 32.
Definition Selector := Field 96 16.
Definition Attributes := Field 112 16.
(** [Table], which begins with three words of padding *)
Definition TLimit := Field 48 16.
Definition TBase := Field 64 64.
(** [FpControlStatus]; [LastFpRip] and [LastFpCs] are members of a union *)
Definition FpControl := Field 0 16.
Definition FpStatus := Field 16 16.
Definition FpTag := Field 32 8.
Definition LastFpOp := Field 48 16.
Definition LastFpRip := Field 64 64.
Definition LastFpCs := Field 96 16.
(** [XmmControlStatus]; the same for [LastFpRdp] and [LastFpDs] *)
Definition LastFpRdp := Field 0 64.
Definition LastFpDs := Field 32 16.
Definition XmmStatusControl := Field 64 32.
Definition XmmStatusControlMask := Field 96 32.
(** [PendingInterruption] *)
Definition InterruptionPending := Field 0 1.
Definition InterruptionType := Field 1 3.
Definition InterruptionVector := Field 16 16.
End WV.

(** ** version_info.hpp

    The union of four 16-bit members and a 64-bit integer. *)
Record VersionInfo := MkVersionInfo { major : Z; minor : Z; build : Z; revision : Z }.
Definition ver (v : VersionInfo) : Z :=
  quad16 (major v) (minor v) (build v) (revision v).
Definition version_geb (v w : VersionInfo) : bool := ver w <=? ver v.
(** [g_whpxVersion >= VersionInfo(10, 0, 17763, 0)] *)
Definition at_least_rs5 (g_whpxVersion : VersionInfo) : bool :=
  version_geb g_whpxVersion (MkVersionInfo 10 0 17763 0).

(** ** whpx_regs.cpp *)
(** [rs5] is the test of the version that guards some registers; [None] is
    [Unsupported]. *)
Definition TranslateRegisterName (rs5 : bool) (reg : Reg.t) : option WHV.t :=
  match reg with
  | Reg.CS => Some WHV.WHvX64RegisterCs
  | Reg.SS => Some WHV.WHvX64RegisterSs
  | Reg.DS => Some WHV.WHvX64RegisterDs
  | Reg.ES => Some WHV.WHvX64RegisterEs
  | Reg.FS => Some WHV.WHvX64RegisterFs
  | Reg.GS => Some WHV.WHvX64RegisterGs
  | Reg.LDTR => Some WHV.WHvX64RegisterLdtr
  | Reg.TR => Some WHV.WHvX64RegisterTr
  | Reg.GDTR => Some WHV.WHvX64RegisterGdtr
  | Reg.IDTR => Some WHV.WHvX64RegisterIdtr
  | Reg.AL | Reg.AH | Reg.AX | Reg.EAX | Reg.RAX => Some WHV.WHvX64RegisterRax
  | Reg.CL | Reg.CH | Reg.CX | Reg.ECX | Reg.RCX => Some WHV.WHvX64RegisterRcx
  | Reg.DL | Reg.DH | Reg.DX | Reg.EDX | Reg.RDX => Some WHV.WHvX64RegisterRdx
  | Reg.BL | Reg.BH | Reg.BX | Reg.EBX | Reg.RBX => Some WHV.WHvX64RegisterRbx
  | Reg.SPL | Reg.SP | Reg.ESP | Reg.RSP => Some WHV.WHvX64RegisterRsp
  | Reg.BPL | Reg.BP | Reg.EBP | Reg.RBP => Some WHV.WHvX64RegisterRbp
  | Reg.SIL | Reg.SI | Reg.ESI | Reg.RSI => Some WHV.WHvX64RegisterRsi
  | Reg.DIL | Reg.DI | Reg.EDI | Reg.RDI => Some WHV.WHvX64RegisterRdi
  | Reg.R8B | Reg.R8W | Reg.R8D | Reg.R8 => Some WHV.WHvX64RegisterR8
  | Reg.R9B | Reg.R9W | Reg.R9D | Reg.R9 => Some WHV.WHvX64RegisterR9
  | Reg.R10B | Reg.R10W | Reg.R10D | Reg.R10 => Some WHV.WHvX64RegisterR10
  | Reg.R11B | Reg.R11W | Reg.R11D | Reg.R11 => Some WHV.WHvX64RegisterR11
  | Reg.R12B | Reg.R12W | Reg.R12D | Reg.R12 => Some WHV.WHvX64RegisterR12
  | Reg.R13B | Reg.R13W | Reg.R13D | Reg.R13 => Some WHV.WHvX64RegisterR13
  | Reg.R14B | Reg.R14W | Reg.R14D | Reg.R14 => Some WHV.WHvX64RegisterR14
  | Reg.R15B | Reg.R15W | Reg.R15D | Reg.R15 => Some WHV.WHvX64RegisterR15
  | Reg.IP | Reg.EIP | Reg.RIP => Some WHV.WHvX64RegisterRip
  | Reg.FLAGS | Reg.EFLAGS | Reg.RFLAGS => Some WHV.WHvX64RegisterRflags
  | Reg.CR0 => Some WHV.WHvX64RegisterCr0
  | Reg.CR2 => Some WHV.WHvX64RegisterCr2
  | Reg.CR3 => Some WHV.WHvX64RegisterCr3
  | Reg.CR4 => Some WHV.WHvX64RegisterCr4
  | Reg.CR8 => Some WHV.WHvX64RegisterCr8
  | Reg.EFER => Some WHV.WHvX64RegisterEfer
  | Reg.XCR0 => if rs5 then Some WHV.WHvX64RegisterXCr0 else None
  | Reg.DR0 => Some WHV.WHvX64RegisterDr0
  | Reg.DR1 => Some WHV.WHvX64RegisterDr1
  | Reg.DR2 => Some WHV.WHvX64RegisterDr2
  | Reg.DR3 => Some WHV.WHvX64RegisterDr3
  | Reg.DR6 => Some WHV.WHvX64RegisterDr6
  | Reg.DR7 => Some WHV.WHvX64RegisterDr7
  | Reg.ST0 | Reg.MM0 => Some WHV.WHvX64RegisterFpMmx0
  | Reg.ST1 | Reg.MM1 => Some WHV.WHvX64RegisterFpMmx1
  | Reg.ST2 | Reg.MM2 => Some WHV.WHvX64RegisterFpMmx2
  | Reg.ST3 | Reg.MM3 => Some WHV.WHvX64RegisterFpMmx3
  | Reg.ST4 | Reg.MM4 => Some WHV.WHvX64RegisterFpMmx4
  | Reg.ST5 | Reg.MM5 => Some WHV.WHvX64RegisterFpMmx5
  | Reg.ST6 | Reg.MM6 => Some WHV.WHvX64RegisterFpMmx6
  | Reg.ST7 | Reg.MM7 => Some WHV.WHvX64RegisterFpMmx7
  | Reg.XMM0 => Some WHV.WHvX64RegisterXmm0
  | Reg.XMM1 => Some WHV.WHvX64RegisterXmm1
  | Reg.XMM2 => Some WHV.WHvX64RegisterXmm2
  | Reg.XMM3 => Some WHV.WHvX64RegisterXmm3
  | Reg.XMM4 => Some WHV.WHvX64RegisterXmm4
  | Reg.XMM5 => Some WHV.WHvX64RegisterXmm5
  | Reg.XMM6 => Some WHV.WHvX64RegisterXmm6
  | Reg.XMM7 => Some WHV.WHvX64RegisterXmm7
  | Reg.XMM8 => Some WHV.WHvX64RegisterXmm8
  | Reg.XMM9 => Some WHV.WHvX64RegisterXmm9
  | Reg.XMM10 => Some WHV.WHvX64RegisterXmm10
  | Reg.XMM11 => Some WHV.WHvX64RegisterXmm11
  | Reg.XMM12 => Some WHV.WHvX64RegisterXmm12
  | Reg.XMM13 => Some WHV.WHvX64RegisterXmm13
  | Reg.XMM14 => Some WHV.WHvX64RegisterXmm14
  | Reg.XMM15 => Some WHV.WHvX64RegisterXmm15
  | _ => None
  end.

(** [TranslateRegisterValue] of a platform value and into one. *)
Definition TranslateRegisterValue (reg : Reg.t) (value : WHV_REGISTER_VALUE) : RegValue :=
  let result := 0 in
  match reg with
  | Reg.CS | Reg.SS | Reg.DS | Reg.ES | Reg.FS | Reg.GS | Reg.LDTR | Reg.TR =>
      let result := fset RV.selector (fget WV.Selector value) result in
      let result := fset RV.segbase (fget WV.Base value) result in
      let result := fset RV.seglimit (fget WV.Limit value) result in
      fset RV.attributes (fget WV.Attributes value) result
  | Reg.GDTR | Reg.IDTR =>
      let result := fset RV.tbase (fget WV.TBase value) result in
      fset RV.tlimit (fget WV.TLimit value) result
  | Reg.EFER =>
      fset RV.u64 (fget WV.Reg64 value) result
  | Reg.AL | Reg.AH | Reg.CL | Reg.CH | Reg.DL | Reg.DH | Reg.BL | Reg.BH | Reg.SPL | Reg.BPL |
  Reg.SIL | Reg.DIL | Reg.R8B | Reg.R9B | Reg.R10B | Reg.R11B | Reg.R12B | Reg.R13B | Reg.R14B |
  Reg.R15B | Reg.AX | Reg.CX | Reg.DX | Reg.BX | Reg.SP | Reg.BP | Reg.SI | Reg.DI | Reg.R8W |
  Reg.R9W | Reg.R10W | Reg.R11W | Reg.R12W | Reg.R13W | Reg.R14W | Reg.R15W | Reg.IP | Reg.FLAGS
  | Reg.EAX | Reg.ECX | Reg.EDX | Reg.EBX | Reg.ESP | Reg.EBP | Reg.ESI | Reg.EDI | Reg.R8D |
  Reg.R9D | Reg.R10D | Reg.R11D | Reg.R12D | Reg.R13D | Reg.R14D | Reg.R15D | Reg.EIP |
  Reg.EFLAGS | Reg.RAX | Reg.RCX | Reg.RDX | Reg.RBX | Reg.RSP | Reg.RBP | Reg.RSI | Reg.RDI |
  Reg.R8 | Reg.R9 | Reg.R10 | Reg.R11 | Reg.R12 | Reg.R13 | Reg.R14 | Reg.R15 | Reg.RIP |
  Reg.RFLAGS | Reg.CR0 | Reg.CR2 | Reg.CR3 | Reg.CR4 | Reg.CR8 | Reg.DR0 | Reg.DR1 | Reg.DR2 |
  Reg.DR3 | Reg.DR6 | Reg.DR7 | Reg.XCR0 =>
      fset RV.u64 (fget WV.Reg64 value) result
  | Reg.ST0 | Reg.ST1 | Reg.ST2 | Reg.ST3 | Reg.ST4 | Reg.ST5 | Reg.ST6 | Reg.ST7 =>
      let result := fset RV.significand (fget WV.Mantissa value) result in
      fset RV.exponentSign (fget WV.BiasedExponent value ||| (fget WV.Sign value <<< 15)) result
  | Reg.MM0 | Reg.MM1 | Reg.MM2 | Reg.MM3 | Reg.MM4 | Reg.MM5 | Reg.MM6 | Reg.MM7 =>
      fset (RV.i64 0) (fget WV.Reg64 value) result
  | Reg.XMM0 | Reg.XMM1 | Reg.XMM2 | Reg.XMM3 | Reg.XMM4 | Reg.XMM5 | Reg.XMM6 | Reg.XMM7 |
  Reg.XMM8 | Reg.XMM9 | Reg.XMM10 | Reg.XMM11 | Reg.XMM12 | Reg.XMM13 | Reg.XMM14 | Reg.XMM15 =>
      let result := fset (RV.i64 0) (fget WV.Low64 value) result in
      fset (RV.i64 1) (fget WV.High64 value) result
  | _ => result
  end.
Definition TranslateRegisterValue_to (reg : Reg.t) (value : RegValue) (output : WHV_REGISTER_VALUE) : WHV_REGISTER_VALUE :=
  match reg with
  | Reg.CS | Reg.SS | Reg.DS | Reg.ES | Reg.FS | Reg.GS | Reg.LDTR | Reg.TR =>
      let output := fset WV.Selector (fget RV.selector value) output in
      let output := fset WV.Base (fget RV.segbase value) output in
      let output := fset WV.Limit (fget RV.seglimit value) output in
      fset WV.Attributes (fget RV.attributes value) output
  | Reg.GDTR | Reg.IDTR =>
      let output := fset WV.TBase (fget RV.tbase value) output in
      fset WV.TLimit (fget RV.tlimit value) output
  | Reg.EFER =>
      fset WV.Reg64 (fget RV.u64 value) output
  | Reg.AL | Reg.CL | Reg.DL | Reg.BL | Reg.SPL | Reg.BPL | Reg.SIL | Reg.DIL | Reg.R8B |
  Reg.R9B | Reg.R10B | Reg.R11B | Reg.R12B | Reg.R13B | Reg.R14B | Reg.R15B =>
      fset WV.Reg64 (SetLowByte (fget WV.Reg64 output) (fget RV.u8 value)) output
  | Reg.AH | Reg.CH | Reg.DH | Reg.BH =>
      fset WV.Reg64 (SetHighByte (fget WV.Reg64 output) (fget RV.u8 value)) output
  | Reg.AX | Reg.CX | Reg.DX | Reg.BX | Reg.SP | Reg.BP | Reg.SI | Reg.DI | Reg.R8W | Reg.R9W |
  Reg.R10W | Reg.R11W | Reg.R12W | Reg.R13W | Reg.R14W | Reg.R15W | Reg.IP | Reg.FLAGS =>
      fset WV.Reg64 (SetLowWord (fget WV.Reg64 output) (fget RV.u16 value)) output
  | Reg.EAX | Reg.ECX | Reg.EDX | Reg.EBX | Reg.ESP | Reg.EBP | Reg.ESI | Reg.EDI | Reg.R8D |
  Reg.R9D | Reg.R10D | Reg.R11D | Reg.R12D | Reg.R13D | Reg.R14D | Reg.R15D | Reg.EIP |
  Reg.EFLAGS =>
      fset WV.Reg64 (fget RV.u32 value) output
  | Reg.RAX | Reg.RCX | Reg.RDX | Reg.RBX | Reg.RSP | Reg.RBP | Reg.RSI | Reg.RDI | Reg.R8 |
  Reg.R9 | Reg.R10 | Reg.R11 | Reg.R12 | Reg.R13 | Reg.R14 | Reg.R15 | Reg.RIP | Reg.RFLAGS |
  Reg.CR0 | Reg.CR2 | Reg.CR3 | Reg.CR4 | Reg.CR8 | Reg.DR0 | Reg.DR1 | Reg.DR2 | Reg.DR3 |
  Reg.DR6 | Reg.DR7 | Reg.XCR0 =>
      fset WV.Reg64 (fget RV.u64 value) output
  | Reg.ST0 | Reg.ST1 | Reg.ST2 | Reg.ST3 | Reg.ST4 | Reg.ST5 | Reg.ST6 | Reg.ST7 =>
      let output := fset WV.Mantissa (fget RV.significand value) output in
      let output := fset WV.BiasedExponent ((fget RV.exponentSign value) &&& 0x7FFF) output in
      fset WV.Sign ((fget RV.exponentSign value) >>> 15) output
  | Reg.MM0 | Reg.MM1 | Reg.MM2 | Reg.MM3 | Reg.MM4 | Reg.MM5 | Reg.MM6 | Reg.MM7 =>
      fset WV.Reg64 (fget (RV.i64 0) value) output
  | Reg.XMM0 | Reg.XMM1 | Reg.XMM2 | Reg.XMM3 | Reg.XMM4 | Reg.XMM5 | Reg.XMM6 | Reg.XMM7 |
  Reg.XMM8 | Reg.XMM9 | Reg.XMM10 | Reg.XMM11 | Reg.XMM12 | Reg.XMM13 | Reg.XMM14 | Reg.XMM15 =>
      let output := fset WV.Low64 (fget (RV.i64 0) value) output in
      fset WV.High64 (fget (RV.i64 1) value) output
  | _ => output
  end.
Definition TranslateMSR (rs5 : bool) (msr : Z) : option WHV.t :=
  match msr with
  | 0x00000010 => Some WHV.WHvX64RegisterTsc
  | 0xC0000080 => Some WHV.WHvX64RegisterEfer
  | 0xC0000102 => Some WHV.WHvX64RegisterKernelGsBase
  | 0x0000001B => Some WHV.WHvX64RegisterApicBase
  | 0x00000277 => Some WHV.WHvX64RegisterPat
  | 0x00000174 => Some WHV.WHvX64RegisterSysenterCs
  | 0x00000176 => Some WHV.WHvX64RegisterSysenterEip
  | 0x00000175 => Some WHV.WHvX64RegisterSysenterEsp
  | 0xC0000081 => Some WHV.WHvX64RegisterStar
  | 0xC0000082 => Some WHV.WHvX64RegisterLstar
  | 0xC0000083 => Some WHV.WHvX64RegisterCstar
  | 0xC0000084 => Some WHV.WHvX64RegisterSfmask
  | 0x000000FE => Some WHV.WHvX64RegisterMsrMtrrCap
  | 0x000002FF => Some WHV.WHvX64RegisterMsrMtrrDefType
  | 0x00000200 => Some WHV.WHvX64RegisterMsrMtrrPhysBase0
  | 0x00000202 => Some WHV.WHvX64RegisterMsrMtrrPhysBase1
  | 0x00000204 => Some WHV.WHvX64RegisterMsrMtrrPhysBase2
  | 0x00000206 => Some WHV.WHvX64RegisterMsrMtrrPhysBase3
  | 0x00000208 => Some WHV.WHvX64RegisterMsrMtrrPhysBase4
  | 0x0000020A => Some WHV.WHvX64RegisterMsrMtrrPhysBase5
  | 0x0000020C => Some WHV.WHvX64RegisterMsrMtrrPhysBase6
  | 0x0000020E => Some WHV.WHvX64RegisterMsrMtrrPhysBase7
  | 0x00000210 => Some WHV.WHvX64RegisterMsrMtrrPhysBase8
  | 0x00000212 => Some WHV.WHvX64RegisterMsrMtrrPhysBase9
  | 0x00000214 => Some WHV.WHvX64RegisterMsrMtrrPhysBaseA
  | 0x00000216 => Some WHV.WHvX64RegisterMsrMtrrPhysBaseB
  | 0x00000218 => Some WHV.WHvX64RegisterMsrMtrrPhysBaseC
  | 0x0000021A => Some WHV.WHvX64RegisterMsrMtrrPhysBaseD
  | 0x0000021C => Some WHV.WHvX64RegisterMsrMtrrPhysBaseE
  | 0x0000021E => Some WHV.WHvX64RegisterMsrMtrrPhysBaseF
  | 0x00000201 => Some WHV.WHvX64RegisterMsrMtrrPhysMask0
  | 0x00000203 => Some WHV.WHvX64RegisterMsrMtrrPhysMask1
  | 0x00000205 => Some WHV.WHvX64RegisterMsrMtrrPhysMask2
  | 0x00000207 => Some WHV.WHvX64RegisterMsrMtrrPhysMask3
  | 0x00000209 => Some WHV.WHvX64RegisterMsrMtrrPhysMask4
  | 0x0000020B => Some WHV.WHvX64RegisterMsrMtrrPhysMask5
  | 0x0000020D => Some WHV.WHvX64RegisterMsrMtrrPhysMask6
  | 0x0000020F => Some WHV.WHvX64RegisterMsrMtrrPhysMask7
  | 0x00000211 => Some WHV.WHvX64RegisterMsrMtrrPhysMask8
  | 0x00000213 => Some WHV.WHvX64RegisterMsrMtrrPhysMask9
  | 0x00000215 => Some WHV.WHvX64RegisterMsrMtrrPhysMaskA
  | 0x00000217 => Some WHV.WHvX64RegisterMsrMtrrPhysMaskB
  | 0x00000219 => Some WHV.WHvX64RegisterMsrMtrrPhysMaskC
  | 0x0000021B => Some WHV.WHvX64RegisterMsrMtrrPhysMaskD
  | 0x0000021D => Some WHV.WHvX64RegisterMsrMtrrPhysMaskE
  | 0x0000021F => Some WHV.WHvX64RegisterMsrMtrrPhysMaskF
  | 0x00000250 => Some WHV.WHvX64RegisterMsrMtrrFix64k00000
  | 0x00000258 => Some WHV.WHvX64RegisterMsrMtrrFix16k80000
  | 0x00000259 => Some WHV.WHvX64RegisterMsrMtrrFix16kA0000
  | 0x00000268 => Some WHV.WHvX64RegisterMsrMtrrFix4kC0000
  | 0x00000269 => Some WHV.WHvX64RegisterMsrMtrrFix4kC8000
  | 0x0000026A => Some WHV.WHvX64RegisterMsrMtrrFix4kD0000
  | 0x0000026B => Some WHV.WHvX64RegisterMsrMtrrFix4kD8000
  | 0x0000026C => Some WHV.WHvX64RegisterMsrMtrrFix4kE0000
  | 0x0000026D => Some WHV.WHvX64RegisterMsrMtrrFix4kE8000
  | 0x0000026E => Some WHV.WHvX64RegisterMsrMtrrFix4kF0000
  | 0x0000026F => Some WHV.WHvX64RegisterMsrMtrrFix4kF8000
  | 0xC0000103 => Some WHV.WHvX64RegisterTscAux
  | 0x00000048 => if rs5 then Some WHV.WHvX64RegisterSpecCtrl else None
  | 0x00000049 => if rs5 then Some WHV.WHvX64RegisterPredCmd else None
  | _ => None
  end.

(** ** The platform's registers as a file of architectural registers

    What the platform's documentation says, independently of the code: its register that holds a
    full register, and for each member of the architectural value the bits of the union that hold it.  A
    platform register of the vector unit holds the lower 128 bits of one of 512. *)
Definition whpx_names : list (Reg.t * WHV.t) :=
  [(Reg.CS, WHV.WHvX64RegisterCs); (Reg.SS, WHV.WHvX64RegisterSs); (Reg.DS, WHV.WHvX64RegisterDs);
   (Reg.ES, WHV.WHvX64RegisterEs); (Reg.FS, WHV.WHvX64RegisterFs); (Reg.GS, WHV.WHvX64RegisterGs);
   (Reg.LDTR, WHV.WHvX64RegisterLdtr); (Reg.TR, WHV.WHvX64RegisterTr);
   (Reg.GDTR, WHV.WHvX64RegisterGdtr); (Reg.IDTR, WHV.WHvX64RegisterIdtr);
   (Reg.RAX, WHV.WHvX64RegisterRax); (Reg.RCX, WHV.WHvX64RegisterRcx);
   (Reg.RDX, WHV.WHvX64RegisterRdx); (Reg.RBX, WHV.WHvX64RegisterRbx);
   (Reg.RSP, WHV.WHvX64RegisterRsp); (Reg.RBP, WHV.WHvX64RegisterRbp);
   (Reg.RSI, WHV.WHvX64RegisterRsi); (Reg.RDI, WHV.WHvX64RegisterRdi); (Reg.R8, WHV.WHvX64RegisterR8);
   (Reg.R9, WHV.WHvX64RegisterR9); (Reg.R10, WHV.WHvX64RegisterR10); (Reg.R11, WHV.WHvX64RegisterR11);
   (Reg.R12, WHV.WHvX64RegisterR12); (Reg.R13, WHV.WHvX64RegisterR13);
   (Reg.R14, WHV.WHvX64RegisterR14); (Reg.R15, WHV.WHvX64RegisterR15);
   (Reg.RIP, WHV.WHvX64RegisterRip); (Reg.RFLAGS, WHV.WHvX64RegisterRflags);
   (Reg.CR0, WHV.WHvX64RegisterCr0); (Reg.CR2, WHV.WHvX64RegisterCr2);
   (Reg.CR3, WHV.WHvX64RegisterCr3); (Reg.CR4, WHV.WHvX64RegisterCr4);
   (Reg.CR8, WHV.WHvX64RegisterCr8); (Reg.EFER, WHV.WHvX64RegisterEfer);
   (Reg.XCR0, WHV.WHvX64RegisterXCr0); (Reg.DR0, WHV.WHvX64RegisterDr0);
   (Reg.DR1, WHV.WHvX64RegisterDr1); (Reg.DR2, WHV.WHvX64RegisterDr2);
   (Reg.DR3, WHV.WHvX64RegisterDr3); (Reg.DR6, WHV.WHvX64RegisterDr6);
   (Reg.DR7, WHV.WHvX64RegisterDr7); (Reg.ST0, WHV.WHvX64RegisterFpMmx0);
   (Reg.ST1, WHV.WHvX64RegisterFpMmx1); (Reg.ST2, WHV.WHvX64RegisterFpMmx2);
   (Reg.ST3, WHV.WHvX64RegisterFpMmx3); (Reg.ST4, WHV.WHvX64RegisterFpMmx4);
   (Reg.ST5, WHV.WHvX64RegisterFpMmx5); (Reg.ST6, WHV.WHvX64RegisterFpMmx6);
   (Reg.ST7, WHV.WHvX64RegisterFpMmx7); (Reg.ZMM0, WHV.WHvX64RegisterXmm0);
   (Reg.ZMM1, WHV.WHvX64RegisterXmm1); (Reg.ZMM2, WHV.WHvX64RegisterXmm2);
   (Reg.ZMM3, WHV.WHvX64RegisterXmm3); (Reg.ZMM4, WHV.WHvX64RegisterXmm4);
   (Reg.ZMM5, WHV.WHvX64RegisterXmm5); (Reg.ZMM6, WHV.WHvX64RegisterXmm6);
   (Reg.ZMM7, WHV.WHvX64RegisterXmm7); (Reg.ZMM8, WHV.WHvX64RegisterXmm8);
   (Reg.ZMM9, WHV.WHvX64RegisterXmm9); (Reg.ZMM10, WHV.WHvX64RegisterXmm10);
   (Reg.ZMM11, WHV.WHvX64RegisterXmm11); (Reg.ZMM12, WHV.WHvX64RegisterXmm12);
   (Reg.ZMM13, WHV.WHvX64RegisterXmm13); (Reg.ZMM14, WHV.WHvX64RegisterXmm14);
   (Reg.ZMM15, WHV.WHvX64RegisterXmm15)].
Definition whpx_name (rs5 : bool) (R : Reg.t) : option WHV.t :=
  if negb rs5 && bool_decide (R = Reg.XCR0) then None
  else snd <$> List.find (fun p => bool_decide (fst p = R)) whpx_names.
Definition whpx_members (R : Reg.t) : list (field * field) :=
  if RegBetween R Reg.CS Reg.TR then
    [(RV.segbase, Field 0 64); (RV.seglimit, Field 64 32); (RV.selector, Field 96 16); (RV.attributes, Field 112 16)]
  else if RegBetween R Reg.GDTR Reg.IDTR then [(RV.tlimit, Field 48 16); (RV.tbase, Field 64 64)]
  else if RegBetween R Reg.ST0 Reg.ST7 then [(RV.significand, Field 0 64); (RV.exponentSign, Field 64 16)]
  else if RegBetween R Reg.ZMM0 Reg.ZMM15 then [(RV.i64 0, Field 0 64); (RV.i64 1, Field 64 64)]
  else [(RV.u64, Field 0 64)].
(** The contents of the full register [R] when the platform's register holds [x]. *)
Definition whpx_content (R : Reg.t) (x : WHV_REGISTER_VALUE) : Z := assemble (whpx_members R) x.

Definition whpx_supported (rs5 : bool) (r : Reg.t) : bool :=
  RegBetween r Reg.CS Reg.DR7 && (rs5 || negb (bool_decide (r = Reg.XCR0)))
  || RegBetween r Reg.ST0 Reg.XMM15.
Definition high_byte (r : Reg.t) : bool :=
  match r with Reg.AH | Reg.CH | Reg.DH | Reg.BH => true | _ => false end.
(** The part of the full register that a read returns. *)
Definition whpx_part (r : Reg.t) : field := if high_byte r then Field 0 8 else part r.
(** The value that a write stores: the members of a segment or table register. *)
Definition whpx_value (r : Reg.t) (v : RegValue) : RegValue :=
  if RegBetween r Reg.CS Reg.TR then only segment_members v
  else if RegBetween r Reg.GDTR Reg.IDTR then only table_members v else v.

(** *** Names *)
Lemma whpx_supported_name rs5 r :
  if whpx_supported rs5 r
  then exists n, TranslateRegisterName rs5 r = Some n /\ whpx_name rs5 (full r) = Some n
  else TranslateRegisterName rs5 r = None.
Proof. destruct rs5, r; vm_compute; try reflexivity; eexists; split; reflexivity. Qed.

Lemma whpx_name_inj rs5 R R' : full R = R -> full R' = R' -> whpx_name rs5 R = whpx_name rs5 R' ->
  is_Some (whpx_name rs5 R) -> R = R'.
Proof. apply held_inj. apply (bool_decide_unpack (NoDup _)). destruct rs5; vm_compute; exact I. Qed.

(** *** Values *)
Lemma exponent_sign x : fget WV.BiasedExponent x ||| (fget WV.Sign x <<< 15) = fget (Field 64 16) x.
Proof.
  apply Z.bits_inj'; intros i Hi. rewrite Z.lor_spec, Z.shiftl_spec by done.
  rewrite !(fget_testbit _ _ i) by (done || lia). cbn [f_off f_width WV.BiasedExponent WV.Sign].
  destruct (Z.ltb_spec i 15) as [H|H].
  - rewrite (Z.testbit_neg_r (fget WV.Sign x)), orb_false_r by lia. by rewrite (proj2 (Z.ltb_lt i 16)) by lia.
  - rewrite (fget_testbit WV.Sign) by (done || lia). cbn [f_off f_width WV.Sign andb orb].
    replace (i - 15 + 79) with (i + 64) by lia. by destruct (Z.ltb_spec i 16), (Z.ltb_spec (i - 15) 1); try lia.
Qed.
Lemma sign_exponent v x :
  fset WV.Sign (fget RV.exponentSign v >>> 15) (fset WV.BiasedExponent (fget RV.exponentSign v &&& 0x7FFF) x)
  = fset (Field 64 16) (fget RV.exponentSign v) x.
Proof.
  change 0x7FFF with (Z.ones 15).
  apply Z.bits_inj'; intros i Hi. rewrite !fset_testbit by done. cbn [f_off f_width WV.Sign WV.BiasedExponent].
  bool_cases; cbn [andb]; try reflexivity; try lia.
  all: rewrite ?Z.shiftr_spec, ?Z.land_spec, ?Z.testbit_ones_nonneg by lia.
  - f_equal; lia.
  - rewrite (proj2 (Z.ltb_lt _ 15)) by lia. apply andb_true_r.
Qed.

Ltac wv := cbv [WV.Reg64 WV.Low64 WV.High64 WV.Mantissa WV.BiasedExponent WV.Sign WV.Base WV.Limit
  WV.Selector WV.Attributes WV.TLimit WV.TBase].

Lemma reg64_content x : fset RV.u64 (fget WV.Reg64 x) 0 = u64 x.
Proof. unfold u64, fset, fget. cbn [f_off f_width WV.Reg64 RV.u64]. bitwise. Qed.
Lemma reg64_stored y x : fset RV.u64 (fget WV.Reg64 (fset WV.Reg64 y x)) 0 = u64 y.
Proof. rewrite reg64_content, u64_fget. by rewrite (fget_fset_same WV.Reg64). Qed.
Lemma u64_reg64 x : u64 (fget WV.Reg64 x) = u64 x.
Proof. rewrite !u64_fget. by apply (fget_fget (Field 0 64) WV.Reg64). Qed.

Lemma whpx_read_value rs5 r x : whpx_supported rs5 r = true ->
  agree r (TranslateRegisterValue r x) (fget (whpx_part r) (whpx_content (full r) x)).
Proof.
  intros Hs. unfold agree, whpx_content, whpx_part.
  destruct r; try discriminate Hs; cbn -[fget fset]; rewrite ?exponent_sign;
    repeat (apply Forall_cons; split); try apply Forall_nil_2; parity; wv; fbits.
Qed.

Lemma whpx_write_value rs5 r v x : whpx_supported rs5 r = true ->
  whpx_content (full r) (TranslateRegisterValue_to r v x)
  = arch_write r (whpx_value r v) (whpx_content (full r) x).
Proof.
  intros Hs. unfold whpx_content, arch_write, whpx_value.
  destruct r; try discriminate Hs; cbn -[fget fset]; rewrite ?exponent_sign, ?sign_exponent; parity;
    rewrite ?reg64_stored, ?reg64_content.
  all: first [ rewrite store_low8, u64_reg64; reflexivity | rewrite store_high8, u64_reg64; reflexivity
             | rewrite store_low16, u64_reg64; reflexivity | apply store_32 | apply store_64 | rewrite ?u64_fget; wv; fbits ].
Qed.

Lemma whpx_value_agree rs5 r v : whpx_supported rs5 r = true -> agree r (whpx_value r v) v.
Proof.
  intros Hs. destruct (decide (Reg.idx r <= 9)) as [H|H]; [|by destruct r; (reflexivity || (exfalso; apply H; vm_compute; discriminate))].
  unfold whpx_value, agree. destruct r; try (exfalso; cbn in H; lia); cbn -[fget fset];
    repeat (apply Forall_cons; split); try apply Forall_nil_2; wv; fbits.
Qed.

(** The integers stay in the range of the unions. *)
Lemma whpx_translate_range r x : 0 <= TranslateRegisterValue r x < 2 ^ 512.
Proof. destruct r; cbn -[fget fset Z.pow]; repeat apply fset_range; by vm_compute. Qed.
Lemma whpx_translate_to_range r v x : 0 <= x < 2 ^ 128 -> 0 <= TranslateRegisterValue_to r v x < 2 ^ 128.
Proof. intros Hx. destruct r; cbn -[fget fset Z.pow]; repeat apply fset_range; try exact Hx; by vm_compute. Qed.

(** *** MSRs

    The number of the MSR that a register holds. *)
Definition msr_number (n : WHV.t) : option Z :=
  match n with
  | WHV.WHvX64RegisterTsc => Some 0x00000010
  | WHV.WHvX64RegisterEfer => Some 0xC0000080
  | WHV.WHvX64RegisterKernelGsBase => Some 0xC0000102
  | WHV.WHvX64RegisterApicBase => Some 0x0000001B
  | WHV.WHvX64RegisterPat => Some 0x00000277
  | WHV.WHvX64RegisterSysenterCs => Some 0x00000174
  | WHV.WHvX64RegisterSysenterEip => Some 0x00000176
  | WHV.WHvX64RegisterSysenterEsp => Some 0x00000175
  | WHV.WHvX64RegisterStar => Some 0xC0000081
  | WHV.WHvX64RegisterLstar => Some 0xC0000082
  | WHV.WHvX64RegisterCstar => Some 0xC0000083
  | WHV.WHvX64RegisterSfmask => Some 0xC0000084
  | WHV.WHvX64RegisterMsrMtrrCap => Some 0x000000FE
  | WHV.WHvX64RegisterMsrMtrrDefType => Some 0x000002FF
  | WHV.WHvX64RegisterMsrMtrrPhysBase0 => Some 0x00000200
  | WHV.WHvX64RegisterMsrMtrrPhysBase1 => Some 0x00000202
  | WHV.WHvX64RegisterMsrMtrrPhysBase2 => Some 0x00000204
  | WHV.WHvX64RegisterMsrMtrrPhysBase3 => Some 0x00000206
  | WHV.WHvX64RegisterMsrMtrrPhysBase4 => Some 0x00000208
  | WHV.WHvX64RegisterMsrMtrrPhysBase5 => Some 0x0000020A
  | WHV.WHvX64RegisterMsrMtrrPhysBase6 => Some 0x0000020C
  | WHV.WHvX64RegisterMsrMtrrPhysBase7 => Some 0x0000020E
  | WHV.WHvX64RegisterMsrMtrrPhysBase8 => Some 0x00000210
  | WHV.WHvX64RegisterMsrMtrrPhysBase9 => Some 0x00000212
  | WHV.WHvX64RegisterMsrMtrrPhysBaseA => Some 0x00000214
  | WHV.WHvX64RegisterMsrMtrrPhysBaseB => Some 0x00000216
  | WHV.WHvX64RegisterMsrMtrrPhysBaseC => Some 0x00000218
  | WHV.WHvX64RegisterMsrMtrrPhysBaseD => Some 0x0000021A
  | WHV.WHvX64RegisterMsrMtrrPhysBaseE => Some 0x0000021C
  | WHV.WHvX64RegisterMsrMtrrPhysBaseF => Some 0x0000021E
  | WHV.WHvX64RegisterMsrMtrrPhysMask0 => Some 0x00000201
  | WHV.WHvX64RegisterMsrMtrrPhysMask1 => Some 0x00000203
  | WHV.WHvX64RegisterMsrMtrrPhysMask2 => Some 0x00000205
  | WHV.WHvX64RegisterMsrMtrrPhysMask3 => Some 0x00000207
  | WHV.WHvX64RegisterMsrMtrrPhysMask4 => Some 0x00000209
  | WHV.WHvX64RegisterMsrMtrrPhysMask5 => Some 0x0000020B
  | WHV.WHvX64RegisterMsrMtrrPhysMask6 => Some 0x0000020D
  | WHV.WHvX64RegisterMsrMtrrPhysMask7 => Some 0x0000020F
  | WHV.WHvX64RegisterMsrMtrrPhysMask8 => Some 0x00000211
  | WHV.WHvX64RegisterMsrMtrrPhysMask9 => Some 0x00000213
  | WHV.WHvX64RegisterMsrMtrrPhysMaskA => Some 0x00000215
  | WHV.WHvX64RegisterMsrMtrrPhysMaskB => Some 0x00000217
  | WHV.WHvX64RegisterMsrMtrrPhysMaskC => Some 0x00000219
  | WHV.WHvX64RegisterMsrMtrrPhysMaskD => Some 0x0000021B
  | WHV.WHvX64RegisterMsrMtrrPhysMaskE => Some 0x0000021D
  | WHV.WHvX64RegisterMsrMtrrPhysMaskF => Some 0x0000021F
  | WHV.WHvX64RegisterMsrMtrrFix64k00000 => Some 0x00000250
  | WHV.WHvX64RegisterMsrMtrrFix16k80000 => Some 0x00000258
  | WHV.WHvX64RegisterMsrMtrrFix16kA0000 => Some 0x00000259
  | WHV.WHvX64RegisterMsrMtrrFix4kC0000 => Some 0x00000268
  | WHV.WHvX64RegisterMsrMtrrFix4kC8000 => Some 0x00000269
  | WHV.WHvX64RegisterMsrMtrrFix4kD0000 => Some 0x0000026A
  | WHV.WHvX64RegisterMsrMtrrFix4kD8000 => Some 0x0000026B
  | WHV.WHvX64RegisterMsrMtrrFix4kE0000 => Some 0x0000026C
  | WHV.WHvX64RegisterMsrMtrrFix4kE8000 => Some 0x0000026D
  | WHV.WHvX64RegisterMsrMtrrFix4kF0000 => Some 0x0000026E
  | WHV.WHvX64RegisterMsrMtrrFix4kF8000 => Some 0x0000026F
  | WHV.WHvX64RegisterTscAux => Some 0xC0000103
  | WHV.WHvX64RegisterSpecCtrl => Some 0x00000048
  | WHV.WHvX64RegisterPredCmd => Some 0x00000049
  | _ => None
  end.
Lemma TranslateMSR_number rs5 msr n : TranslateMSR rs5 msr = Some n -> msr_number n = Some msr.
Proof.
  intros E. unfold TranslateMSR in E.
  repeat match type of E with
         | match ?x with _ => _ end = _ => is_var x; destruct x; try discriminate E
         end; try (injection E as <-; reflexivity); by destruct rs5; [injection E as <-|].
Qed.

Lemma TranslateMSR_same msr : msr <> 0x48 -> msr <> 0x49 -> TranslateMSR false msr = TranslateMSR true msr.
Proof.
  intros H1 H2. unfold TranslateMSR.
  repeat match goal with
         | |- context [match ?x with _ => _ end] => is_var x; destruct x; try reflexivity; try done
         end.
Qed.

Definition mtrr_base (i : nat) : option WHV.t :=
  WHV.all !! (Z.to_nat (WHV.idx WHV.WHvX64RegisterMsrMtrrPhysBase0) + i)%nat.
Definition mtrr_mask (i : nat) : option WHV.t :=
  WHV.all !! (Z.to_nat (WHV.idx WHV.WHvX64RegisterMsrMtrrPhysMask0) + i)%nat.

(** *** Versions *)
Definition info_ok (v : VersionInfo) : Prop :=
  0 <= major v < 2 ^ 16 /\ 0 <= minor v < 2 ^ 16 /\ 0 <= build v < 2 ^ 16 /\ 0 <= revision v < 2 ^ 16.

(** The test orders versions by revision first: any revision of version 10.0.17134
    but the zeroth passes for 10.0.17763, and so does any newer version. *)
Lemma at_least_rs5_spec v : info_ok v -> major v = 10 -> minor v = 0 ->
  at_least_rs5 v = true <-> 0 < revision v \/ 17763 <= build v.
Proof.
  intros (H1 & H2 & H3 & H4) Hm Hn. unfold at_least_rs5, version_geb. rewrite Z.leb_le.
  unfold ver. rewrite !quad16_sum by (cbn; lia). cbn [major minor build revision]. lia.
Qed.

(** ** Theorems *)

(** C30: the translation of names and values of the WHPX platform against the
    architectural register file.  Every supported register (XCR0 only from version
    10.0.17763 on) names the platform register of its full register, which holds no
    other full register; reading it gives its part of the contents and writing it
    changes the contents as the architecture says, and reads back.  The exceptions
    are the high bytes AH, CH, DH and BH: they are written correctly, but read as the
    low byte.  Partial registers are not extended when read: the 64-bit member of
    the value holds the whole register.  Every other register is refused. *)
Theorem whpx_register_file rs5 r :
  if whpx_supported rs5 r then
    exists n, TranslateRegisterName rs5 r = Some n /\ whpx_name rs5 (full r) = Some n
    /\ (forall R, full R = R -> whpx_name rs5 R = Some n -> R = full r)
    /\ (forall x, agree r (TranslateRegisterValue r x) (fget (whpx_part r) (whpx_content (full r) x)))
    /\ (forall v x, whpx_content (full r) (TranslateRegisterValue_to r v x)
                    = arch_write r (whpx_value r v) (whpx_content (full r) x))
    /\ (high_byte r = false -> whpx_part r = part r
         /\ forall v x, agree r (TranslateRegisterValue r (TranslateRegisterValue_to r v x)) v)
    /\ (high_byte r = true -> forall v x,
         fget RV.u8 (TranslateRegisterValue r (TranslateRegisterValue_to r v x))
         = fget RV.u8 (TranslateRegisterValue r x))
    /\ (RegBetween r Reg.AL Reg.EFLAGS = true -> forall x,
         fget RV.u64 (TranslateRegisterValue r x) = whpx_content (full r) x)
  else TranslateRegisterName rs5 r = None.
Proof.
  pose proof (whpx_supported_name rs5 r) as Hn. destruct (whpx_supported rs5 r) eqn:Hs; [|done].
  destruct Hn as (n & Hn & Hf). exists n. split; [done|]. split; [done|].
  split. { intros R HR E. by apply (whpx_name_inj rs5); [|apply full_idem|congruence|eexists]. }
  split; [intros x; by apply (whpx_read_value rs5)|]. split; [intros v x; by apply (whpx_write_value rs5)|].
  split; [|split].
  - intros Hh. assert (Hp : whpx_part r = part r) by (unfold whpx_part; by rewrite Hh).
    split; [done|]. intros v x. etrans; [by apply (whpx_read_value rs5)|].
    rewrite Hp, (whpx_write_value rs5) by done. etrans; [apply arch_read_write|].
    by apply (whpx_value_agree rs5).
  - intros Hh v x. destruct r; try discriminate Hh; cbn -[fget fset SetHighByte];
      rewrite reg64_stored, reg64_content, store_high8, u64_reg64; by rewrite fget_fset_other.
  - intros Hb x. unfold whpx_content. destruct r; try discriminate Hs; try discriminate Hb;
      cbn -[fget fset]; wv; fbits.
Qed.

(** The MSR numbers of the WHPX platform.  No two MSRs share a platform
    register; the variable-range MTRRs are numbered as the architecture says, bases at
    0x200 + 2i and masks at 0x201 + 2i; the speculation MSRs 0x48 and 0x49 are there
    only when the version test succeeds. *)
Theorem whpx_msr_names rs5 :
  (forall m m' n, TranslateMSR rs5 m = Some n -> TranslateMSR rs5 m' = Some n -> m = m')
  /\ (forall i, (i < 16)%nat -> TranslateMSR rs5 (0x200 + 2 * Z.of_nat i) = mtrr_base i
        /\ TranslateMSR rs5 (0x201 + 2 * Z.of_nat i) = mtrr_mask i)
  /\ (forall m, is_Some (TranslateMSR rs5 m) <-> is_Some (TranslateMSR true m) /\ (rs5 = true \/ m <> 0x48 /\ m <> 0x49)).
Proof.
  split; [|split].
  - intros m m' n H%TranslateMSR_number H'%TranslateMSR_number. congruence.
  - intros i Hi. do 16 (destruct i as [|i]; [by split|]). lia.
  - intros m. destruct rs5; [naive_solver|]. destruct (decide (m = 0x48)) as [->|H1].
    { split; [by intros [? [=]]|by intros (_ & [[=]|[[] _]])]. }
    destruct (decide (m = 0x49)) as [->|H2].
    { split; [by intros [? [=]]|by intros (_ & [[=]|[_ []]])]. }
    rewrite (TranslateMSR_same m) by done. naive_solver.
Qed.
