(* ===== verification/WhpxVp.v ===== *)
(** * The virtual processor of the Windows Hypervisor Platform (whpx_vp.cpp)

    Unlike the other platforms this one keeps no registers: every access is a call
    of the platform, which is the class [WHPX].  The instruction emulator of the
    SDK is a parameter too: an emulation is the sequence of callbacks it makes,
    which [emulate] answers with the callbacks of the code. *)
From stdpp Require Import functions.
From S2P Require Import Prelude Bits Regs VM Status Vp Interrupts Arch Debug WhpxRegs.

Definition S_OK : Z := 0.
Definition INVALID_HANDLE_VALUE : Z := -1.
Definition WHV_IO_IN : Z := 0.
Definition WHvX64PendingInterrupt : Z := 0.

(** ** What the platform hands to the code

    [WHV_RUN_VP_EXIT_CONTEXT] by exit reason, with the members the code reads; [C]
    is the type of the contexts that are passed on to the emulator. *)
Inductive exit_context (C : Type) :=
| X64Halt
| X64MsrAccess (IsWrite MsrNumber Rax Rdx : Z)
| X64Cpuid (Rax Rcx Rdx Rbx DefaultResultRax DefaultResultRcx DefaultResultRdx DefaultResultRbx : Z)
| X64IoPortAccess (context : C)
| MemoryAccess (context : C)
| X64InterruptWindow
| Canceled
| NoReason
| Exception
| UnsupportedFeature
| InvalidVpRegisterValue
| UnrecoverableException
| OtherReason (code : Z).
Arguments X64Halt {C}.
Arguments X64MsrAccess {C}.
Arguments X64Cpuid {C}.
Arguments X64IoPortAccess {C}.
Arguments MemoryAccess {C}.
Arguments X64InterruptWindow {C}.
Arguments Canceled {C}.
Arguments NoReason {C}.
Arguments Exception {C}.
Arguments UnsupportedFeature {C}.
Arguments InvalidVpRegisterValue {C}.
Arguments UnrecoverableException {C}.
Arguments OtherReason {C}.

(** [WHV_EMULATOR_IO_ACCESS_INFO] and [WHV_EMULATOR_MEMORY_ACCESS_INFO]; [ma_Data] is
    the eight bytes of the second as an integer. *)
Record io_access := MkIoAccess { io_Direction : Z; io_Port : Z; io_AccessSize : Z; io_Data : Z }.
Record memory_access := MkMemoryAccess {
  ma_GpaAddress : Z; ma_Direction : Z; ma_AccessSize : Z; ma_Data : Z
}.

(** A run of the emulator: the callbacks it makes, and at the end its result and
    whether the emulation was successful. *)
Inductive emulation :=
| Finished (hr : Z) (EmulationSuccessful : bool)
| GetVirtualProcessorRegisters (names : list WHV.t) (next : Z * list WHV_REGISTER_VALUE -> emulation)
| SetVirtualProcessorRegisters (names : list WHV.t) (values : list WHV_REGISTER_VALUE) (next : Z -> emulation)
| TranslateGvaPage (Gva Flags : Z) (next : Z * option Z * Z -> emulation)
| IoPort (access : io_access) (next : Z * io_access -> emulation)
| Memory (access : memory_access) (next : Z * memory_access -> emulation).

Class WHPX (K C : Type) := {
  WHvGetVirtualProcessorRegisters (vm id : Z) (names : list WHV.t) : K -> Z * list WHV_REGISTER_VALUE * K;
  WHvSetVirtualProcessorRegisters (vm id : Z) (names : list WHV.t) (values : list WHV_REGISTER_VALUE) : K -> Z * K;
  WHvRunVirtualProcessor (vm id : Z) : exit_context C -> K -> Z * exit_context C * K;
  WHvCancelRunVirtualProcessor (vm id : Z) : K -> Z * K;
  (** the result code and the guest-physical address *)
  WHvTranslateGva (vm id Gva Flags : Z) : K -> Z * (Z * Z) * K;
  WHvCreateVirtualProcessor (vm id : Z) : K -> Z * K;
  WHvDeleteVirtualProcessor (vm id : Z) : K -> K;
  WHvEmulatorCreateEmulator : K -> Z * Z * K;
  WHvEmulatorDestroyEmulator (handle : Z) : K -> K;
  WHvEmulatorTryIoEmulation (handle : Z) : C -> emulation;
  WHvEmulatorTryMmioEmulation (handle : Z) : C -> emulation
}.

(** ** The processor object *)
Record wvp (K C W : Type) := MkWvp {
  m_emuHandle : Z; m_exitContext : exit_context C; m_exitInfo : VMExitInfo; w_platform : K; w_world : W
}.
Arguments MkWvp {K C W}.
Arguments m_emuHandle {K C W}.
Arguments m_exitContext {K C W}.
Arguments m_exitInfo {K C W}.
Arguments w_platform {K C W}.
Arguments w_world {K C W}.

Section Whpx.
Context {K C W : Type} `{WHPX K C}.
(** The partition's handle, the processor's number, the machine's I/O handlers, the
    version test, whether [new(std::nothrow)] of so many elements succeeds, and
    uninitialised storage. *)
Context (vm id : Z) (io : IOHandlers W) (rs5 : bool) (alloc : Z -> bool) (uninit : Z).
Abbreviation S := (wvp K C W).

Definition with_platform (k : K) (s : S) : S :=
  MkWvp (m_emuHandle s) (m_exitContext s) (m_exitInfo s) k (w_world s).
Definition with_emulator (h : Z) (s : S) : S :=
  MkWvp h (m_exitContext s) (m_exitInfo s) (w_platform s) (w_world s).
Definition with_context (c : exit_context C) (s : S) : S :=
  MkWvp (m_emuHandle s) c (m_exitInfo s) (w_platform s) (w_world s).
Definition with_info (x : VMExitInfo) (s : S) : S :=
  MkWvp (m_emuHandle s) (m_exitContext s) x (w_platform s) (w_world s).
Definition set_reason (r : VMExitReason) (s : S) : S :=
  with_info (MkVMExitInfo r (details (m_exitInfo s))) s.

(** *** Creation *)
Definition new_wvp (zeroContext : exit_context C) (x : VMExitInfo) (k : K) (w : W) : S :=
  MkWvp INVALID_HANDLE_VALUE zeroContext x k w.
Definition delete_wvp (s : S) : K :=
  let k := if negb (m_emuHandle s =? INVALID_HANDLE_VALUE)
           then WHvEmulatorDestroyEmulator (m_emuHandle s) (w_platform s) else w_platform s in
  WHvDeleteVirtualProcessor vm id k.
Definition reset_cs : WHV_REGISTER_VALUE :=
  fset WV.Attributes 0x0093 (fset WV.Selector 0xf000 (fset WV.Limit 0xffff (fset WV.Base 0xffff0000 uninit))).
Definition whpx_vp_Initialize (s : S) : bool * S :=
  let '(hr, k) := WHvCreateVirtualProcessor vm id (w_platform s) in
  let s := with_platform k s in
  if negb (hr =? S_OK) then (false, s)
  else
    let '(hr, h, k) := WHvEmulatorCreateEmulator (w_platform s) in
    let s := with_emulator h (with_platform k s) in
    if negb (hr =? S_OK) then (false, with_platform (WHvDeleteVirtualProcessor vm id (w_platform s)) s)
    else
      let '(hr, k) := WHvSetVirtualProcessorRegisters vm id
                        [WHV.WHvX64RegisterCs; WHV.WHvX64RegisterRdx] [reset_cs; fset WV.Reg64 0 uninit] (w_platform s) in
      let s := with_platform k s in
      if negb (hr =? S_OK) then
        let k := WHvEmulatorDestroyEmulator (m_emuHandle s) (w_platform s) in
        (false, with_emulator INVALID_HANDLE_VALUE (with_platform (WHvDeleteVirtualProcessor vm id k) s))
      else (true, s).

(** *** The callbacks of the emulator *)
Definition HandleIO_access (a : io_access) (w : W) : Z * io_access * W :=
  if io_Direction a =? WHV_IO_IN then
    let '(data, w) := IORead io (io_Port a) (io_AccessSize a) w in
    (S_OK, MkIoAccess (io_Direction a) (io_Port a) (io_AccessSize a) data, w)
  else (S_OK, a, IOWrite io (io_Port a) (io_AccessSize a) (io_Data a) w).
(** The member that an access of this size reads or writes; for other sizes the
    assertion fails, or nothing happens. *)
Definition data_member (size : Z) : option field :=
  match size with
  | 1 => Some (Field 0 8) | 2 => Some (Field 0 16) | 4 => Some (Field 0 32) | 8 => Some (Field 0 64)
  | _ => None
  end.
Definition HandleMMIO_access (a : memory_access) (w : W) : Z * memory_access * W :=
  if ma_Direction a =? WHV_IO_IN then
    let '(value, w) := MMIORead io (ma_GpaAddress a) (ma_AccessSize a) w in
    let data := match data_member (ma_AccessSize a) with
                | Some f => fset f value (ma_Data a)
                | None => ma_Data a
                end in
    (S_OK, MkMemoryAccess (ma_GpaAddress a) (ma_Direction a) (ma_AccessSize a) data, w)
  else
    (S_OK, a, match data_member (ma_AccessSize a) with
              | Some f => MMIOWrite io (ma_GpaAddress a) (ma_AccessSize a) (fget f (ma_Data a)) w
              | None => w
              end).
(** The result code is stored only on success. *)
Definition TranslateGvaPageCallback (Gva Flags : Z) (k : K) : Z * option Z * Z * K :=
  let '(hr, (code, gpa), k) := WHvTranslateGva vm id Gva Flags k in
  (hr, if hr =? S_OK then Some code else None, gpa, k).

(** The emulator with these callbacks. *)
Fixpoint emulate (e : emulation) (k : K) (w : W) : Z * bool * K * W :=
  match e with
  | Finished hr ok => (hr, ok, k, w)
  | GetVirtualProcessorRegisters names next =>
      let '(hr, values, k) := WHvGetVirtualProcessorRegisters vm id names k in emulate (next (hr, values)) k w
  | SetVirtualProcessorRegisters names values next =>
      let '(hr, k) := WHvSetVirtualProcessorRegisters vm id names values k in emulate (next hr) k w
  | TranslateGvaPage gva flags next =>
      let '(hr, code, gpa, k) := TranslateGvaPageCallback gva flags k in emulate (next (hr, code, gpa)) k w
  | IoPort a next => let '(hr, a, w) := HandleIO_access a w in emulate (next (hr, a)) k w
  | Memory a next => let '(hr, a, w) := HandleMMIO_access a w in emulate (next (hr, a)) k w
  end.

(** *** Execution *)
Definition run_emulator (e : emulation) (r : VMExitReason) (s : S) : VPExecutionStatus * S :=
  let '(hr, ok, k, w) := emulate e (w_platform s) (w_world s) in
  let s := MkWvp (m_emuHandle s) (m_exitContext s) (m_exitInfo s) k w in
  if negb (hr =? S_OK) then (VPE_Failed, s)
  else if negb ok then (VPE_Failed, s)
  else (VPE_OK, set_reason r s).
Definition HandleIO (c : C) (s : S) : VPExecutionStatus * S :=
  run_emulator (WHvEmulatorTryIoEmulation (m_emuHandle s) c) Exit_PIO s.
Definition HandleMMIO (c : C) (s : S) : VPExecutionStatus * S :=
  run_emulator (WHvEmulatorTryMmioEmulation (m_emuHandle s) c) Exit_MMIO s.
Definition HandleMSRAccess (IsWrite MsrNumber Rax Rdx : Z) (s : S) : S :=
  with_info (MkVMExitInfo Exit_MSRAccess (Details_msr (IsWrite =? 1) MsrNumber Rax Rdx)) s.
Definition HandleCPUIDAccess (rax rcx rdx rbx dRax dRcx dRdx dRbx : Z) (s : S) : S :=
  with_info (MkVMExitInfo Exit_CPUID (Details_cpuid rax rcx rdx rbx dRax dRcx dRdx dRbx)) s.

Definition whpx_RunImpl (s : S) : VPExecutionStatus * S :=
  let '(hr, c, k) := WHvRunVirtualProcessor vm id (m_exitContext s) (w_platform s) in
  let s := with_context c (with_platform k s) in
  if negb (hr =? S_OK) then (VPE_Failed, s)
  else
    match m_exitContext s with
    | X64Halt => (VPE_OK, set_reason Exit_HLT s)
    | X64MsrAccess wr n rax rdx => (VPE_OK, HandleMSRAccess wr n rax rdx s)
    | X64Cpuid a c d b a' c' d' b' => (VPE_OK, HandleCPUIDAccess a c d b a' c' d' b' s)
    | X64IoPortAccess c => HandleIO c s
    | MemoryAccess c => HandleMMIO c s
    | X64InterruptWindow => (VPE_OK, set_reason Exit_Interrupt s)
    | Canceled => (VPE_OK, set_reason Exit_Cancelled s)
    | NoReason => (VPE_OK, set_reason Exit_Normal s)
    | Exception => (VPE_OK, set_reason Exit_Exception s)
    | UnsupportedFeature => (VPE_OK, set_reason Exit_Error s)
    | InvalidVpRegisterValue => (VPE_OK, set_reason Exit_Error s)
    | UnrecoverableException => (VPE_OK, set_reason Exit_Error s)
    | OtherReason _ => (VPE_OK, set_reason Exit_Unhandled s)
    end.

(** *** Interrupts *)
Definition whpx_PrepareInterrupt (vector : Z) (s : S) : bool * S :=
  let '(hr, k) := WHvCancelRunVirtualProcessor vm id (w_platform s) in (hr =? S_OK, with_platform k s).
Definition pending_interruption (vector v : Z) : WHV_REGISTER_VALUE :=
  let v := fset WV.InterruptionPending 1 v in
  let v := fset WV.InterruptionType WHvX64PendingInterrupt v in
  fset WV.InterruptionVector vector v.
Definition whpx_InjectInterrupt (vector : Z) (s : S) : VPOperationStatus * S :=
  let '(hr, val, k) := WHvGetVirtualProcessorRegisters vm id [WHV.WHvRegisterPendingInterruption] (w_platform s) in
  let s := with_platform k s in
  if negb (hr =? S_OK) then (VP_Failed, s)
  else
    let '(hr, k) := WHvSetVirtualProcessorRegisters vm id [WHV.WHvRegisterPendingInterruption]
                      [pending_interruption (u8 vector) (default 0 (head val))] (w_platform s) in
    (if hr =? S_OK then VP_OK else VP_Failed, with_platform k s).
Definition whpx_CanInjectInterrupt (s : S) : bool := true.
Definition whpx_RequestInterruptWindow (s : S) : S := s.

(** *** Registers *)
Definition whpx_RegReadN (regs : list Reg.t) (values : list RegValue) (s : S)
    : VPOperationStatus * list RegValue * S :=
  if negb (alloc (Z.of_nat (length regs))) then (VP_Failed, values, s)
  else
    match mapM (TranslateRegisterName rs5) regs with
    | None => (VP_Unsupported, values, s)
    | Some whvRegs =>
        let '(hr, whvVals, k) := WHvGetVirtualProcessorRegisters vm id whvRegs (w_platform s) in
        let s := with_platform k s in
        if negb (hr =? S_OK) then (VP_Failed, values, s)
        else (VP_OK, zip_with TranslateRegisterValue regs whvVals, s)
    end.
Definition whpx_RegWriteN (regs : list Reg.t) (values : list RegValue) (s : S) : VPOperationStatus * S :=
  if negb (alloc (Z.of_nat (length regs))) then (VP_Failed, s)
  else
    match mapM (TranslateRegisterName rs5) regs with
    | None => (VP_Unsupported, s)
    | Some whvRegs =>
        let '(hr, whvVals, k) := WHvGetVirtualProcessorRegisters vm id whvRegs (w_platform s) in
        let s := with_platform k s in
        if negb (hr =? S_OK) then (VP_Failed, s)
        else
          let whvVals := zip_with (fun rv x => TranslateRegisterValue_to (fst rv) (snd rv) x)
                           (zip regs values) whvVals in
          let '(hr, k) := WHvSetVirtualProcessorRegisters vm id whvRegs whvVals (w_platform s) in
          (if hr =? S_OK then VP_OK else VP_Failed, with_platform k s)
    end.
Definition whpx_RegRead (reg : Reg.t) (value : RegValue) : M S RegValue := fun s =>
  match whpx_RegReadN [reg] [value] s with
  | (VP_OK, values, s) => (inr (default value (head values)), s)
  | (status, _, s) => (inl status, s)
  end.
Definition whpx_RegWrite (reg : Reg.t) (value : RegValue) : M S unit := fun s =>
  match whpx_RegWriteN [reg] [value] s with
  | (VP_OK, s) => (inr tt, s)
  | (status, s) => (inl status, s)
  end.

(** *** Floating point control registers *)
Definition get_values (names : list WHV.t) : M S (list WHV_REGISTER_VALUE) := fun s =>
  let '(hr, val, k) := WHvGetVirtualProcessorRegisters vm id names (w_platform s) in
  (if negb (hr =? S_OK) then inl VP_Failed else inr val, with_platform k s).
Definition set_values (names : list WHV.t) (val : list WHV_REGISTER_VALUE) : M S unit := fun s =>
  let '(hr, k) := WHvSetVirtualProcessorRegisters vm id names val (w_platform s) in
  (if negb (hr =? S_OK) then inl VP_Failed else inr tt, with_platform k s).
Definition fpu_names : list WHV.t := [WHV.WHvX64RegisterFpControlStatus; WHV.WHvX64RegisterXmmControlStatus].
Definition xmm_names : list WHV.t := [WHV.WHvX64RegisterXmmControlStatus].
Definition at_index (val : list WHV_REGISTER_VALUE) (i : nat) : WHV_REGISTER_VALUE := default 0 (val !! i).

Definition GetFPUControl : M S FPUControl :=
  val ← get_values fpu_names;
  let fp := at_index val 0 in
  let mm := at_index val 1 in
  mret {| cw := fget WV.FpControl fp; sw := fget WV.FpStatus fp; tw := fget WV.FpTag fp;
          op := fget WV.LastFpOp fp; fpu_cs := fget WV.LastFpCs fp; rip := fget WV.LastFpRip fp;
          fpu_ds := fget WV.LastFpDs mm; rdp := fget WV.LastFpRdp mm |}.
Definition SetFPUControl (value : FPUControl) : M S unit :=
  let fp := fset WV.FpControl (cw value) 0 in
  let fp := fset WV.FpStatus (sw value) fp in
  let fp := fset WV.FpTag (tw value) fp in
  let fp := fset WV.LastFpOp (op value) fp in
  let fp := fset WV.LastFpCs (fpu_cs value) fp in
  let fp := fset WV.LastFpRip (rip value) fp in
  let mm := fset WV.LastFpDs (fpu_ds value) 0 in
  let mm := fset WV.LastFpRdp (rdp value) mm in
  set_values fpu_names [fp; mm].
Definition GetMXCSR : M S Z :=
  val ← get_values xmm_names; mret (fget WV.XmmStatusControl (at_index val 0)).
Definition SetMXCSR (value : Z) : M S unit := set_values xmm_names [fset WV.XmmStatusControl value 0].
Definition GetMXCSRMask : M S Z :=
  val ← get_values xmm_names; mret (fget WV.XmmStatusControlMask (at_index val 0)).
Definition SetMXCSRMask (value : Z) : M S unit :=
  set_values xmm_names [fset WV.XmmStatusControlMask value 0].

(** *** Model specific registers *)
Definition whpx_GetMSRs (msrs values : list Z) (s : S) : VPOperationStatus * list Z * S :=
  if negb (alloc (Z.of_nat (length msrs))) then (VP_Failed, values, s)
  else
    match mapM (TranslateMSR rs5) msrs with
    | None => (VP_InvalidRegister, values, s)
    | Some regs =>
        let '(hr, vals, k) := WHvGetVirtualProcessorRegisters vm id regs (w_platform s) in
        if hr =? S_OK then (VP_OK, fget WV.Reg64 <$> vals, with_platform k s)
        else (VP_Failed, values, with_platform k s)
    end.
(** The result of the platform is computed, but OK is returned. *)
Definition whpx_SetMSRs (msrs values : list Z) (s : S) : VPOperationStatus * S :=
  if negb (alloc (Z.of_nat (length msrs))) then (VP_Failed, s)
  else
    match mapM (TranslateMSR rs5) msrs with
    | None => (VP_InvalidRegister, s)
    | Some regs =>
        let vals := (fun v => fset WV.Reg64 v uninit) <$> values in
        let '(hr, k) := WHvSetVirtualProcessorRegisters vm id regs vals (w_platform s) in
        let result := if hr =? S_OK then VP_OK else VP_Failed in
        (VP_OK, with_platform k s)
    end.
Definition whpx_GetMSR (msr value : Z) : M S Z := fun s =>
  match whpx_GetMSRs [msr] [value] s with
  | (VP_OK, values, s) => (inr (default value (head values)), s)
  | (status, _, s) => (inl status, s)
  end.
Definition whpx_SetMSR (msr value : Z) : M S unit := fun s =>
  match whpx_SetMSRs [msr] [value] s with
  | (VP_OK, s) => (inr tt, s)
  | (status, s) => (inl status, s)
  end.

#[export] Instance whpx_VPRegs : VPRegs S := {
  RegRead := whpx_RegRead; RegWrite := whpx_RegWrite; RegReadN := whpx_RegReadN;
  RegWriteN := whpx_RegWriteN; GetMSR := whpx_GetMSR; SetMSR := whpx_SetMSR
}.
#[export] Instance whpx_VPInterrupts : VPInterrupts S := {
  RunImpl := whpx_RunImpl; StepImpl := default_StepImpl; PrepareInterrupt := whpx_PrepareInterrupt;
  InjectInterrupt := whpx_InjectInterrupt; CanInjectInterrupt := whpx_CanInjectInterrupt;
  RequestInterruptWindow := whpx_RequestInterruptWindow
}.
End Whpx.

(** ** What the platform promises

    [vregs] is the contents of the registers and [readable] which of them a processor
    has.  Reading them all succeeds or fails as a whole, and changes nothing;
    assigning them, when it succeeds, stores the values one after the other. *)
Definition set_all (names : list WHV.t) (values : list WHV_REGISTER_VALUE) (f : WHV.t -> WHV_REGISTER_VALUE)
    : WHV.t -> WHV_REGISTER_VALUE :=
  fold_left (fun f nv => <[fst nv := snd nv]> f) (zip names values) f.
Class WHPXLaws (K C : Type) `{WHPX K C} (vm id : Z) := {
  vregs : K -> WHV.t -> WHV_REGISTER_VALUE;
  readable : K -> WHV.t -> bool;
  get_ok names k : forallb (readable k) names = true ->
    WHvGetVirtualProcessorRegisters vm id names k = (S_OK, vregs k <$> names, k);
  get_fails names k : forallb (readable k) names = false ->
    exists hr vals, WHvGetVirtualProcessorRegisters vm id names k = (hr, vals, k) /\ hr <> S_OK;
  set_ok names values k k' : length names = length values ->
    WHvSetVirtualProcessorRegisters vm id names values k = (S_OK, k') ->
    vregs k' = set_all names values (vregs k) /\ readable k' = readable k
}.

Section Refinement.
Context {K C W : Type} `{WHPX K C} (vm id : Z) `{!WHPXLaws K C vm id}.
Context (rs5 : bool) (alloc : Z -> bool) (uninit : Z).
(** Memory for the temporary arrays is available. *)
Context (alloc_ok : forall n, alloc n = true).
Implicit Types s : wvp K C W.
Abbreviation names_of := (mapM (TranslateRegisterName rs5)).
Abbreviation readableN := (fun s names => forallb (readable (w_platform s)) names).

Lemma with_platform_id s : with_platform (w_platform s) s = s.
Proof. by destruct s. Qed.

(** *** Reading *)
Lemma readN_ok regs ws s names : names_of regs = Some names -> readableN s names = true ->
  whpx_RegReadN vm id rs5 alloc regs ws s
  = (VP_OK, zip_with TranslateRegisterValue regs (vregs (w_platform s) <$> names), s).
Proof.
  intros Hn Hr. unfold whpx_RegReadN. rewrite alloc_ok, Hn. cbn [negb].
  rewrite get_ok by done. cbn. by rewrite with_platform_id.
Qed.
Lemma readN_fails regs ws s names : names_of regs = Some names -> readableN s names = false ->
  whpx_RegReadN vm id rs5 alloc regs ws s = (VP_Failed, ws, s).
Proof.
  intros Hn Hr. unfold whpx_RegReadN. rewrite alloc_ok, Hn. cbn [negb].
  destruct (get_fails names _ Hr) as (hr & vals & -> & Hne).
  rewrite (proj2 (Z.eqb_neq hr S_OK)) by done. cbn. by rewrite with_platform_id.
Qed.
Lemma readN_unsupported regs ws s : names_of regs = None ->
  whpx_RegReadN vm id rs5 alloc regs ws s = (VP_Unsupported, ws, s).
Proof. intros Hn. unfold whpx_RegReadN. by rewrite alloc_ok, Hn. Qed.

Definition whpx_rview s (r : Reg.t) : option RegValue :=
  n ← TranslateRegisterName rs5 r;
  if readable (w_platform s) n then Some (TranslateRegisterValue r (vregs (w_platform s) n)) else None.

Lemma rview_names s regs vs : Forall2 (fun r v => whpx_rview s r = Some v) regs vs ->
  exists names, names_of regs = Some names /\ readableN s names = true
    /\ vs = zip_with TranslateRegisterValue regs (vregs (w_platform s) <$> names).
Proof.
  induction 1 as [|r v regs vs Hv _ (names & Hn & Hr & ->)]; [by exists []|].
  unfold whpx_rview in Hv. destruct (TranslateRegisterName rs5 r) as [n|] eqn:E; [|done]. cbn in Hv.
  destruct (readable (w_platform s) n) eqn:Er; [|done]. injection Hv as <-.
  exists (n :: names). cbn. rewrite E, Hn. cbn. by rewrite Er.
Qed.

Lemma whpx_readN_view s regs ws vs : Forall2 (fun r v => whpx_rview s r = Some v) regs vs ->
  whpx_RegReadN vm id rs5 alloc regs ws s = (VP_OK, vs, s).
Proof. intros (names & Hn & Hr & ->)%rview_names. by apply readN_ok. Qed.

Lemma whpx_read_view s r w v : whpx_rview s r = Some v ->
  whpx_RegRead vm id rs5 alloc r w s = (inr v, s).
Proof.
  intros Hv. unfold whpx_RegRead. by rewrite (whpx_readN_view s [r] [w] [v]) by (by constructor).
Qed.

Lemma whpx_read_fails s r w e s1 : whpx_RegRead vm id rs5 alloc r w s = (inl e, s1) -> e <> VP_OK ->
  s1 = s /\ (TranslateRegisterName rs5 r = None
            \/ exists n, TranslateRegisterName rs5 r = Some n /\ readable (w_platform s) n = false).
Proof.
  unfold whpx_RegRead. intros He Hne. destruct (TranslateRegisterName rs5 r) as [n|] eqn:E.
  - destruct (readable (w_platform s) n) eqn:Er.
    + rewrite (readN_ok [r] [w] s [n]) in He; [done|cbn; by rewrite E|cbn; by rewrite Er].
    + rewrite (readN_fails [r] [w] s [n]) in He; [|cbn; by rewrite E|cbn; by rewrite Er].
      injection He as <- <-. eauto.
  - rewrite readN_unsupported in He by (cbn; by rewrite E). injection He as <- <-. by split; [|left].
Qed.

#[local] Existing Instance whpx_VPRegs.
Definition whpx_VPRegsLaws : @VPRegsLaws (wvp K C W) (whpx_VPRegs vm id rs5 alloc uninit).
Proof.
  refine {| rview := whpx_rview |}.
  - intros s r w v Hv. exists v, s. split; [by apply whpx_read_view|]. split; [apply agree_refl|done].
  - intros s regs ws vs Hne Hl Hf. exists vs, s. split; [by apply whpx_readN_view|]. split; [|done].
    clear Hne Hl. induction Hf; constructor; [apply agree_refl|done].
  - intros r regs w ws s e s1 He Hne. destruct (whpx_read_fails s r w e s1 He Hne) as (-> & Hf).
    destruct (names_of (r :: regs)) as [names|] eqn:En.
    + exists VP_Failed. eexists. split; [|done]. apply (readN_fails _ _ _ names En).
      cbn in En. destruct Hf as [E|(n & E & Er)]; rewrite E in En; [done|]. cbn in En.
      destruct (names_of regs); [|done]. injection En as <-. cbn. by rewrite Er.
    + exists VP_Unsupported. eexists. split; [by apply readN_unsupported|done].
Defined.

(** *** The registers as an architectural file *)
Definition file_of_regs (f : WHV.t -> WHV_REGISTER_VALUE) : archfile := fun R =>
  match whpx_name rs5 R with Some n => whpx_content R (f n) | None => 0 end.
Definition whpx_file s : archfile := file_of_regs (vregs (w_platform s)).

Lemma file_of_insert f r n v x R : whpx_supported rs5 r = true -> TranslateRegisterName rs5 r = Some n ->
  full R = R ->
  file_of_regs (<[n := TranslateRegisterValue_to r v x]> f) R
  = if decide (R = full r) then arch_write r (whpx_value r v) (whpx_content (full r) x)
    else file_of_regs f R.
Proof.
  intros Hs Hn HR. pose proof (whpx_supported_name rs5 r) as Hf. rewrite Hs in Hf.
  destruct Hf as (n' & Hn' & Hf). rewrite Hn in Hn'. injection Hn' as <-.
  unfold file_of_regs. destruct (decide (R = full r)) as [->|Hne].
  - rewrite Hf, fn_lookup_insert. by apply (whpx_write_value rs5).
  - destruct (whpx_name rs5 R) as [m|] eqn:Em; [|done].
    rewrite fn_lookup_insert_ne; [done|]. intros <-. apply Hne.
    apply (whpx_name_inj rs5); [done|apply full_idem|congruence|by eexists].
Qed.

(** What an array write does: every element is computed from the contents before the
    call, and the results are stored in order. *)
Definition whpx_upd_all (regs : list Reg.t) (values : list RegValue) (F0 F : archfile) : archfile :=
  fold_left (fun F rv R => if decide (R = full (fst rv)) then arch_write (fst rv) (whpx_value (fst rv) (snd rv)) (F0 R)
                           else F R) (zip regs values) F.
(** One register after the other. *)
Definition whpx_upd_each (regs : list Reg.t) (values : list RegValue) (F : archfile) : archfile :=
  fold_left (fun F rv => arch_upd F (fst rv) (whpx_value (fst rv) (snd rv))) (zip regs values) F.

Lemma upd_all_ext regs values F0 (P : Reg.t -> Prop) (F G : archfile) R : (forall R, P R -> F R = G R) -> P R ->
  whpx_upd_all regs values F0 F R = whpx_upd_all regs values F0 G R.
Proof.
  unfold whpx_upd_all. generalize (zip regs values) as l. intros l HFG HR. revert F G HFG.
  induction l as [|rv l IH]; intros F G HFG; [by apply HFG|]. cbn. apply IH. intros R' HR'.
  case_decide; [done|by apply HFG].
Qed.

Lemma supported_names regs : forallb (whpx_supported rs5) regs = true ->
  exists names, names_of regs = Some names /\ length names = length regs.
Proof.
  induction regs as [|r regs IH]; cbn; [by exists []|]. intros [Hs Hr]%andb_true_iff.
  pose proof (whpx_supported_name rs5 r) as Hn. rewrite Hs in Hn. destruct Hn as (n & -> & _).
  destruct (IH Hr) as (names & -> & Hl). exists (n :: names). cbn. by rewrite Hl.
Qed.

Lemma file_set_all f0 regs names values : names_of regs = Some names ->
  forallb (whpx_supported rs5) regs = true -> length values = length regs -> forall f R, full R = R ->
  file_of_regs (set_all names (zip_with (fun rv x => TranslateRegisterValue_to (fst rv) (snd rv) x)
                                 (zip regs values) (f0 <$> names)) f) R
  = whpx_upd_all regs values (file_of_regs f0) (file_of_regs f) R.
Proof.
  revert names values. induction regs as [|r regs IH]; intros names values Hn Hs Hl f R HR.
  - cbn in Hn. injection Hn as <-. done.
  - destruct values as [|v values]; [done|]. cbn in Hn, Hs. apply andb_true_iff in Hs as [Hs Hs'].
    destruct (TranslateRegisterName rs5 r) as [n|] eqn:E; [|done]. cbn in Hn.
    destruct (names_of regs) as [ns|] eqn:En; [|done]. injection Hn as <-. injection Hl as Hl.
    unfold set_all, whpx_upd_all in *. cbn [fmap list_fmap zip zip_with fold_left fst snd].
    rewrite (IH ns values eq_refl Hs' Hl _ R HR). clear IH.
    pose proof (whpx_supported_name rs5 r) as Hf. rewrite Hs in Hf. destruct Hf as (n' & Hn' & Hf).
    rewrite E in Hn'. injection Hn' as <-.
    apply (upd_all_ext regs values _ (fun R => full R = R)); [|done]. clear R HR. intros R HR.
    rewrite (file_of_insert f r n v (f0 n) R) by done.
    case_decide as HRr; [|done]. subst R. unfold file_of_regs. by rewrite Hf.
Qed.

Lemma writeN_ok regs values s s' : length values = length regs ->
  whpx_RegWriteN vm id rs5 alloc regs values s = (VP_OK, s') ->
  exists names, names_of regs = Some names /\ readableN s names = true
    /\ readable (w_platform s') = readable (w_platform s)
    /\ vregs (w_platform s')
       = set_all names (zip_with (fun rv x => TranslateRegisterValue_to (fst rv) (snd rv) x)
                          (zip regs values) (vregs (w_platform s) <$> names)) (vregs (w_platform s)).
Proof.
  unfold whpx_RegWriteN. rewrite alloc_ok. cbn [negb]. intros Hl.
  destruct (names_of regs) as [names|] eqn:En; [|done].
  destruct (readableN s names) eqn:Er.
  - rewrite get_ok by done. cbn [negb Z.eqb S_OK]. cbn.
    destruct (WHvSetVirtualProcessorRegisters _ _ _ _ _) as [hr k'] eqn:Es.
    destruct (Z.eqb_spec hr S_OK) as [->|]; [|done]. intros [= <-]. exists names.
    apply set_ok in Es as [E1 E2]; [by split_and!|].
    apply length_mapM in En. rewrite length_zip_with, length_zip_with, length_fmap. lia.
  - destruct (get_fails names _ Er) as (hr & vals & -> & Hne). cbn.
    by rewrite (proj2 (Z.eqb_neq hr S_OK)).
Qed.

Lemma upd_all_notin regs values F0 R F : R ∉ (full <$> regs) -> length values = length regs ->
  whpx_upd_all regs values F0 F R = F R.
Proof.
  revert values F. induction regs as [|r regs IH]; intros [|v values] F Hn Hl; try done.
  rewrite fmap_cons, not_elem_of_cons in Hn. destruct Hn as [Hne Hn]. injection Hl as Hl.
  unfold whpx_upd_all in *. cbn. rewrite IH by done. by case_decide.
Qed.
(** Distinct full registers: the array write is one write after the other. *)
Lemma upd_all_each regs values F0 : NoDup (full <$> regs) -> length values = length regs ->
  forall F R, (forall R, R ∈ (full <$> regs) -> F R = F0 R) ->
  whpx_upd_all regs values F0 F R = whpx_upd_each regs values F R.
Proof.
  revert values. induction regs as [|r regs IH]; intros [|v values] Hd Hl F R HF; try done.
  rewrite fmap_cons in Hd, HF. apply NoDup_cons in Hd as [Hn Hd]. injection Hl as Hl.
  change (whpx_upd_each (r :: regs) (v :: values) F)
    with (whpx_upd_each regs values (arch_upd F r (whpx_value r v))).
  rewrite <- (IH values Hd Hl).
  - apply (upd_all_ext regs values F0 (fun _ => True)); [|done]. intros R' _. cbn.
    unfold arch_upd. case_decide as E; [|done]. rewrite E, HF; [done|]. constructor.
  - intros R' HR'. rewrite arch_upd_other; [apply HF; by constructor|]. by intros ->.
Qed.
Lemma writeN_refused regs values s : names_of regs = None ->
  whpx_RegWriteN vm id rs5 alloc regs values s = (VP_Unsupported, s).
Proof. intros Hn. unfold whpx_RegWriteN. by rewrite alloc_ok, Hn. Qed.

Lemma names_supported regs : is_Some (names_of regs) <-> forallb (whpx_supported rs5) regs = true.
Proof.
  split; [|by intros (names & -> & _)%supported_names].
  induction regs as [|r regs IH]; cbn; [done|]. pose proof (whpx_supported_name rs5 r) as Hr.
  destruct (whpx_supported rs5 r); [|by rewrite Hr; intros [? ?]].
  destruct Hr as (n & -> & _). cbn. destruct (names_of regs); [by eauto|by intros [? ?]].
Qed.

(** The file after a successful array write. *)
Lemma writeN_file regs values s s' : length values = length regs ->
  whpx_RegWriteN vm id rs5 alloc regs values s = (VP_OK, s') -> forall R, full R = R ->
  whpx_file s' R = whpx_upd_all regs values (whpx_file s) (whpx_file s) R.
Proof.
  intros Hl Hw R HR. destruct (writeN_ok _ _ _ _ Hl Hw) as (names & Hn & _ & _ & Hv).
  unfold whpx_file. rewrite Hv. apply file_set_all; [done| |done|done].
  apply names_supported. by eexists.
Qed.

Lemma write_writeN r v s s' : whpx_RegWrite vm id rs5 alloc r v s = (inr tt, s') ->
  whpx_RegWriteN vm id rs5 alloc [r] [v] s = (VP_OK, s').
Proof.
  unfold whpx_RegWrite. destruct (whpx_RegWriteN _ _ _ _ _ _ _) as [[] s1]; congruence.
Qed.

Lemma write_file r v s s' : whpx_RegWrite vm id rs5 alloc r v s = (inr tt, s') -> forall R, full R = R ->
  whpx_file s' R = arch_upd (whpx_file s) r (whpx_value r v) R.
Proof. intros Hw R HR. by rewrite (writeN_file [r] [v] s s' eq_refl (write_writeN _ _ _ _ Hw) R HR). Qed.

Lemma write_rview r v s s' : whpx_RegWrite vm id rs5 alloc r v s = (inr tt, s') ->
  forall r', is_Some (whpx_rview s' r') <-> is_Some (whpx_rview s r').
Proof.
  intros Hw r'. destruct (writeN_ok [r] [v] s s' eq_refl (write_writeN _ _ _ _ Hw)) as (_ & _ & _ & Hr & _).
  unfold whpx_rview. destruct (TranslateRegisterName rs5 r') as [n|]; [|done]. cbn. rewrite Hr.
  destruct (readable (w_platform s) n); split; intros [? ?]; by eauto.
Qed.

Lemma write_readable r v s s' : whpx_RegWrite vm id rs5 alloc r v s = (inr tt, s') -> is_Some (whpx_rview s r).
Proof.
  intros Hw. destruct (writeN_ok [r] [v] s s' eq_refl (write_writeN _ _ _ _ Hw)) as (names & Hn & Hr & _).
  unfold whpx_rview. cbn in Hn. destruct (TranslateRegisterName rs5 r) as [n|]; [|done]. cbn in *.
  injection Hn as <-. cbn in Hr. apply andb_true_iff in Hr as [-> _]. by eauto.
Qed.

Lemma rview_file s r x : whpx_rview s r = Some x ->
  whpx_supported rs5 r = true /\ agree r x (fget (whpx_part r) (whpx_file s (full r))).
Proof.
  unfold whpx_rview. intros Hv. pose proof (whpx_supported_name rs5 r) as Hr.
  destruct (whpx_supported rs5 r) eqn:Hs; [|by rewrite Hr in Hv]. split; [done|].
  destruct Hr as (n & Hn & Hf). rewrite Hn in Hv. cbn in Hv.
  destruct (readable (w_platform s) n); [|done]. injection Hv as <-.
  unfold whpx_file, file_of_regs. rewrite Hf. by apply (whpx_read_value rs5).
Qed.

(** *** Storing and reading back *)
Lemma set_all_notin names values f n : n ∉ names -> length values = length names ->
  set_all names values f n = f n.
Proof.
  revert values f. induction names as [|n' names IH]; intros [|v values] f Hn Hl; try done.
  apply not_elem_of_cons in Hn as [Hne Hn]. injection Hl as Hl. unfold set_all in *. cbn.
  rewrite IH by done. by apply fn_lookup_insert_ne.
Qed.
Lemma set_all_same names values f : NoDup names -> length values = length names ->
  set_all names values f <$> names = values.
Proof.
  revert values f. induction names as [|n names IH]; intros [|v values] f Hd Hl; try done.
  apply NoDup_cons in Hd as [Hn Hd]. injection Hl as Hl. rewrite fmap_cons.
  change (set_all (n :: names) (v :: values) f) with (set_all names values (<[n:=v]> f)).
  rewrite set_all_notin, fn_lookup_insert by done. by rewrite IH.
Qed.

Lemma get_values_ok names s : readableN s names = true ->
  get_values vm id names s = (inr (vregs (w_platform s) <$> names), s).
Proof. intros Hr. unfold get_values. rewrite get_ok by done. cbn. by rewrite with_platform_id. Qed.
Lemma set_values_ok names values s s' : length names = length values ->
  set_values vm id names values s = (inr tt, s') ->
  vregs (w_platform s') = set_all names values (vregs (w_platform s))
  /\ readable (w_platform s') = readable (w_platform s).
Proof.
  unfold set_values. intros Hl. destruct (WHvSetVirtualProcessorRegisters _ _ _ _ _) as [hr k] eqn:E.
  destruct (Z.eqb_spec hr S_OK) as [->|]; cbn [negb]; intros [= <-]. by apply set_ok in E.
Qed.
Lemma msr_names_nodup msrs names : mapM (TranslateMSR rs5) msrs = Some names -> NoDup msrs -> NoDup names.
Proof.
  intros Hn Hd. apply mapM_Some_1 in Hn. induction Hn as [|m n msrs names Hm Hn IH]; [constructor|].
  apply NoDup_cons in Hd as [Hni Hd]. apply NoDup_cons. split; [|by apply IH]. intros Hin. apply Hni.
  apply list_elem_of_lookup in Hin as [i Hi].
  destruct (Forall2_lookup_r _ _ _ _ _ Hn Hi) as (m' & Hm' & E).
  apply TranslateMSR_number in Hm, E. assert (m = m') as -> by congruence.
  by eapply list_elem_of_lookup_2.
Qed.

Lemma fmap_reg64 (values : list Z) : fget WV.Reg64 <$> ((fun v => fset WV.Reg64 v uninit) <$> values) = u64 <$> values.
Proof. rewrite <- list_fmap_compose. apply list_fmap_ext. intros i v _. cbn. by rewrite (fget_fset_same WV.Reg64). Qed.

Ltac members := cbv [WV.FpControl WV.FpStatus WV.FpTag WV.LastFpOp WV.LastFpRip WV.LastFpCs WV.LastFpRdp
  WV.LastFpDs WV.XmmStatusControl WV.XmmStatusControlMask]; first [reflexivity | fbits].
Abbreviation fp_of := (fun s => vregs (w_platform s) WHV.WHvX64RegisterFpControlStatus).
Abbreviation mm_of := (fun s => vregs (w_platform s) WHV.WHvX64RegisterXmmControlStatus).
Lemma fpu_views s : readableN s fpu_names = true ->
  GetFPUControl vm id s
  = (inr (MkFPUControl (fget WV.FpControl (fp_of s)) (fget WV.FpStatus (fp_of s)) (fget WV.FpTag (fp_of s))
            (fget WV.LastFpOp (fp_of s)) (fget WV.LastFpCs (fp_of s)) (fget WV.LastFpRip (fp_of s))
            (fget WV.LastFpDs (mm_of s)) (fget WV.LastFpRdp (mm_of s))), s)
  /\ GetMXCSR vm id s = (inr (fget WV.XmmStatusControl (mm_of s)), s)
  /\ GetMXCSRMask vm id s = (inr (fget WV.XmmStatusControlMask (mm_of s)), s).
Proof.
  intros Hr. assert (Hx : readableN s xmm_names = true).
  { cbn in *. by apply andb_true_iff in Hr as [_ ->]. }
  unfold GetFPUControl, GetMXCSR, GetMXCSRMask.
  rewrite !(bind_inr _ _ _ _ _ (get_values_ok _ s Hr)), !(bind_inr _ _ _ _ _ (get_values_ok _ s Hx)). done.
Qed.

(** A write that does not succeed. *)
Lemma write_failed r v s e s' n : whpx_RegWrite vm id rs5 alloc r v s = (inl e, s') ->
  TranslateRegisterName rs5 r = Some n ->
  e = VP_Failed
  /\ if readable (w_platform s) n then
       exists hr k', WHvSetVirtualProcessorRegisters vm id [n]
                       [TranslateRegisterValue_to r v (vregs (w_platform s) n)] (w_platform s) = (hr, k')
         /\ hr <> S_OK /\ s' = with_platform k' s
     else s' = s.
Proof.
  intros Hw Hn. unfold whpx_RegWrite, whpx_RegWriteN in Hw. rewrite alloc_ok in Hw. cbn [negb mapM] in Hw.
  rewrite Hn in Hw. cbn [mbind mret option_bind option_ret] in Hw.
  destruct (readable (w_platform s) n) eqn:Er.
  - rewrite get_ok in Hw by (cbn; by rewrite Er). cbn in Hw.
    destruct (WHvSetVirtualProcessorRegisters _ _ _ _ _) as [hr k'] eqn:Es. cbn in Hw.
    destruct (Z.eqb_spec hr S_OK) as [->|Hne]; [done|]. injection Hw as <- <-. split; [done|].
    exists hr, k'. done.
  - destruct (get_fails [n] (w_platform s)) as (hr & vals & E & Hne); [cbn; by rewrite Er|]. rewrite E in Hw.
    rewrite (proj2 (Z.eqb_neq hr S_OK)) in Hw by done. cbn in Hw. injection Hw as <- <-.
    split; [done|]. apply with_platform_id.
Qed.

(** ** Theorems *)

(** C15: the processor of the WHPX platform refines the architectural register file
    of the platform's registers.  A read changes nothing and returns the register's
    part of the contents, or is refused: with Unsupported exactly for the registers
    that [whpx_register_file] excludes, with Failed if the platform does not have the
    register.  A successful write changes the contents as the architecture says and
    which registers can be read not at all, and every register but a high byte reads back
    as it was written.  A write that fails returns Unsupported for an unsupported register, without a call
    of the platform, and Failed otherwise; if the register cannot be read first nothing changes, and
    else the platform has refused the new contents, and the object holds the platform as that call
    left it and is otherwise unchanged. *)
Theorem whpx_processor_refines s r w v :
  match whpx_rview s r with
  | Some x => whpx_RegRead vm id rs5 alloc r w s = (inr x, s)
              /\ agree r x (fget (whpx_part r) (whpx_file s (full r)))
  | None => whpx_RegRead vm id rs5 alloc r w s
            = (inl (if whpx_supported rs5 r then VP_Failed else VP_Unsupported), s)
  end
  /\ (whpx_supported rs5 r = false -> whpx_RegWrite vm id rs5 alloc r v s = (inl VP_Unsupported, s))
  /\ (forall e s', whpx_RegWrite vm id rs5 alloc r v s = (inl e, s') -> whpx_supported rs5 r = true ->
       e = VP_Failed
       /\ exists n, whpx_name rs5 (full r) = Some n
          /\ if readable (w_platform s) n then
               exists hr k', WHvSetVirtualProcessorRegisters vm id [n]
                               [TranslateRegisterValue_to r v (vregs (w_platform s) n)] (w_platform s) = (hr, k')
                 /\ hr <> S_OK /\ s' = with_platform k' s
             else s' = s)
  /\ forall s', whpx_RegWrite vm id rs5 alloc r v s = (inr tt, s') ->
       (forall R, full R = R -> whpx_file s' R = arch_upd (whpx_file s) r (whpx_value r v) R)
       /\ (forall r', is_Some (whpx_rview s' r') <-> is_Some (whpx_rview s r'))
       /\ (high_byte r = false -> exists x, whpx_RegRead vm id rs5 alloc r w s' = (inr x, s') /\ agree r x v).
Proof.
  assert (Hu : whpx_supported rs5 r = false -> names_of [r] = None).
  { intros Hs. pose proof (whpx_supported_name rs5 r) as Hr. rewrite Hs in Hr. cbn. by rewrite Hr. }
  split; [|split; [|split]].
  - destruct (whpx_rview s r) as [x|] eqn:Hv.
    { split; [by apply whpx_read_view|]. by eapply rview_file. }
    unfold whpx_RegRead. destruct (whpx_supported rs5 r) eqn:Hs; [|by rewrite readN_unsupported by auto].
    pose proof (whpx_supported_name rs5 r) as Hr. rewrite Hs in Hr. destruct Hr as (n & Hn & _).
    unfold whpx_rview in Hv. rewrite Hn in Hv. cbn in Hv. destruct (readable (w_platform s) n) eqn:Er; [done|].
    rewrite (readN_fails [r] [w] s [n]); [done|cbn; by rewrite Hn|cbn; by rewrite Er].
  - intros Hs. unfold whpx_RegWrite. by rewrite writeN_refused by auto.
  - intros e s' Hw Hs. pose proof (whpx_supported_name rs5 r) as Hr. rewrite Hs in Hr. destruct Hr as (n & Hn & Hf).
    destruct (write_failed _ _ _ _ _ _ Hw Hn) as [-> Hc]. split; [done|]. by exists n.
  - intros s' Hw. split; [by apply write_file|]. split; [by eapply write_rview|]. intros Hh.
    destruct (proj2 (write_rview _ _ _ _ Hw r) (write_readable _ _ _ _ Hw)) as [x Hx].
    exists x. split; [by apply whpx_read_view|]. destruct (rview_file _ _ _ Hx) as [Hs Ha].
    etrans; [exact Ha|]. rewrite (write_file _ _ _ _ Hw) by apply full_idem. rewrite arch_upd_same.
    unfold whpx_part. rewrite Hh. etrans; [apply arch_read_write|]. by apply (whpx_value_agree rs5).
Qed.

(** The array version of RegWrite against one write after the other.  When it
    succeeds, every element has been computed from the contents before the call.  For
    registers that are parts of different full registers that is the same as writing
    them in order; but of two parts of the same register (AL and AH, say) only the last
    is written, and what the first one stored is lost. *)
Theorem whpx_array_write regs values s s' : length values = length regs ->
  whpx_RegWriteN vm id rs5 alloc regs values s = (VP_OK, s') ->
  (forall R, full R = R -> whpx_file s' R = whpx_upd_all regs values (whpx_file s) (whpx_file s) R)
  /\ (NoDup (full <$> regs) -> forall R, full R = R ->
       whpx_file s' R = whpx_upd_each regs values (whpx_file s) R)
  /\ (forall r r' v v', regs = [r; r'] -> values = [v; v'] -> full r = full r' ->
       forall R, full R = R -> whpx_file s' R = arch_upd (whpx_file s) r' (whpx_value r' v') R).
Proof.
  intros Hl Hw. pose proof (writeN_file _ _ _ _ Hl Hw) as Hf. split; [exact Hf|]. split.
  - intros Hd R HR. rewrite (Hf R HR). by apply upd_all_each.
  - intros r r' v v' -> -> Hr R HR. rewrite (Hf R HR). unfold whpx_upd_all, arch_upd. cbn.
    rewrite Hr. by case_decide.
Qed.

(** The floating point control registers.  What [SetFPUControl] stores reads back with the
    tag word cut to eight bits and the two selectors replaced by bits 32 to 47 of the
    pointers, which share storage with them; and every setter clears what the others
    set: [SetFPUControl] the MXCSR and its mask, [SetMXCSR] the mask and the data
    pointer, [SetMXCSRMask] the MXCSR and the data pointer. *)
Theorem whpx_fpu_registers s : readableN s fpu_names = true ->
  (forall v s', SetFPUControl vm id v s = (inr tt, s') ->
     GetFPUControl vm id s' = (inr (MkFPUControl (u16 (cw v)) (u16 (sw v)) (u8 (tw v)) (u16 (op v))
                                      (fget (Field 32 16) (rip v)) (u64 (rip v))
                                      (fget (Field 32 16) (rdp v)) (u64 (rdp v))), s')
     /\ GetMXCSR vm id s' = (inr 0, s') /\ GetMXCSRMask vm id s' = (inr 0, s'))
  /\ (forall m s', SetMXCSR vm id m s = (inr tt, s') ->
     GetMXCSR vm id s' = (inr (u32 m), s') /\ GetMXCSRMask vm id s' = (inr 0, s')
     /\ exists c, GetFPUControl vm id s = (inr c, s)
        /\ GetFPUControl vm id s' = (inr (MkFPUControl (cw c) (sw c) (tw c) (op c) (fpu_cs c) (rip c) 0 0), s'))
  /\ (forall m s', SetMXCSRMask vm id m s = (inr tt, s') ->
     GetMXCSRMask vm id s' = (inr (u32 m), s') /\ GetMXCSR vm id s' = (inr 0, s')
     /\ exists c, GetFPUControl vm id s = (inr c, s)
        /\ GetFPUControl vm id s' = (inr (MkFPUControl (cw c) (sw c) (tw c) (op c) (fpu_cs c) (rip c) 0 0), s')).
Proof.
  intros Hr. destruct (fpu_views s Hr) as (Hc & _ & _).
  assert (Hw : forall names values s', length names = length values ->
    set_values vm id names values s = (inr tt, s') ->
    vregs (w_platform s') = set_all names values (vregs (w_platform s)) /\ readableN s' fpu_names = true).
  { intros names values s' Hl E. destruct (set_values_ok _ _ _ _ Hl E) as [H1 H2]. by rewrite H2. }
  split; [|split]; intros v s' E; apply Hw in E as [Hv Hr']; try reflexivity;
    destruct (fpu_views s' Hr') as (-> & -> & ->); rewrite Hv; unfold set_all; cbn [fold_left zip zip_with fst snd fpu_names xmm_names];
    rewrite ?fn_lookup_insert, ?fn_lookup_insert_ne, ?fn_lookup_insert by done.
  - split_and!; apply (f_equal (fun x => (inr x, s'))); [f_equal|..];
      rewrite ?u8_fget, ?u16_fget, ?u64_fget; members.
  - split_and!; [apply (f_equal (fun x => (inr x, s'))); rewrite ?u32_fget; members..|]. eexists.
    split; [exact Hc|]. apply (f_equal (fun x => (inr x, s'))); f_equal; members.
  - split_and!; [apply (f_equal (fun x => (inr x, s'))); rewrite ?u32_fget; members..|]. eexists.
    split; [exact Hc|]. apply (f_equal (fun x => (inr x, s'))); f_equal; members.
Qed.

(** The model specific registers.  A number that the code does not translate makes
    GetMSRs and SetMSRs answer InvalidRegister without a call of the platform.
    Otherwise SetMSRs answers OK whatever the platform said; if the platform stored the
    values of distinct MSRs, GetMSRs reads them back. *)
Theorem whpx_msr_access msrs values w s : length values = length msrs ->
  match mapM (TranslateMSR rs5) msrs with
  | None => whpx_GetMSRs vm id rs5 alloc msrs w s = (VP_InvalidRegister, w, s)
            /\ whpx_SetMSRs vm id rs5 alloc uninit msrs values s = (VP_InvalidRegister, s)
  | Some names =>
      exists hr k, WHvSetVirtualProcessorRegisters vm id names
                     ((fun v => fset WV.Reg64 v uninit) <$> values) (w_platform s) = (hr, k)
        /\ whpx_SetMSRs vm id rs5 alloc uninit msrs values s = (VP_OK, with_platform k s)
        /\ (hr = S_OK -> NoDup msrs -> readableN s names = true ->
             whpx_GetMSRs vm id rs5 alloc msrs w (with_platform k s)
             = (VP_OK, u64 <$> values, with_platform k s))
  end.
Proof.
  intros Hl. unfold whpx_GetMSRs, whpx_SetMSRs. rewrite alloc_ok. cbn [negb].
  destruct (mapM _ msrs) as [names|] eqn:En; [|done].
  destruct (WHvSetVirtualProcessorRegisters _ _ _ _ _) as [hr k] eqn:Es. exists hr, k.
  split; [done|]. split; [done|]. intros -> Hd Hr.
  assert (Hln : length names = length values) by (apply length_mapM in En; lia).
  apply set_ok in Es as [Hv Hr']; [|by rewrite length_fmap].
  cbn [with_platform w_platform]. rewrite get_ok by (by rewrite Hr'). cbn [Z.eqb S_OK].
  rewrite Hv, set_all_same.
  - rewrite fmap_reg64. by destruct s.
  - by eapply msr_names_nodup.
  - by rewrite length_fmap.
Qed.

Definition values_typed (f : WHV.t -> WHV_REGISTER_VALUE) : Prop := forall n, 0 <= f n < 2 ^ 128.
Lemma set_all_typed names values f : values_typed f -> Forall (fun v => 0 <= v < 2 ^ 128) values ->
  values_typed (set_all names values f).
Proof.
  intros Hf Hv. revert names f Hf. induction Hv as [|v values Hv _ IH]; intros [|n names] f Hf; try done.
  unfold set_all in *. cbn. apply IH. intros n'. destruct (decide (n' = n)) as [->|Hne].
  - by rewrite fn_lookup_insert.
  - by rewrite fn_lookup_insert_ne.
Qed.
Lemma set_values_typed names values s s' : length names = length values -> values_typed (vregs (w_platform s)) ->
  Forall (fun v => 0 <= v < 2 ^ 128) values -> set_values vm id names values s = (inr tt, s') ->
  values_typed (vregs (w_platform s')).
Proof. intros Hl Hs Hv E. destruct (set_values_ok _ _ _ _ Hl E) as [-> _]. by apply set_all_typed. Qed.

Lemma translated_typed rvs names f : values_typed f ->
  Forall (fun v => 0 <= v < 2 ^ 128)
    (zip_with (fun rv x => TranslateRegisterValue_to (fst rv) (snd rv) x) rvs (f <$> names)).
Proof.
  intros Hf. revert names. induction rvs as [|rv rvs IH]; intros [|n names]; cbn; constructor; [|done].
  by apply whpx_translate_to_range.
Qed.

(** The representation of values.  While the platform's registers hold values of the
    128-bit union, every value that the register arrays, the floating-point control
    operations and the emulator's callback store is one, and every register
    that is read is a value of the 512-bit union RegValue. *)
Theorem whpx_values_typed s : 0 <= uninit < 2 ^ 128 -> values_typed (vregs (w_platform s)) ->
  (forall regs values s', length values = length regs ->
     whpx_RegWriteN vm id rs5 alloc regs values s = (VP_OK, s') -> values_typed (vregs (w_platform s')))
  /\ (forall v s', SetFPUControl vm id v s = (inr tt, s') -> values_typed (vregs (w_platform s')))
  /\ (forall v s', SetMXCSR vm id v s = (inr tt, s') \/ SetMXCSRMask vm id v s = (inr tt, s') ->
       values_typed (vregs (w_platform s')))
  /\ (forall names values k, length names = length values ->
       WHvSetVirtualProcessorRegisters vm id names ((fun v => fset WV.Reg64 v uninit) <$> values) (w_platform s) = (S_OK, k) ->
       values_typed (vregs k))
  /\ (forall regs ws vs s', whpx_RegReadN vm id rs5 alloc regs ws s = (VP_OK, vs, s') ->
       Forall (fun v => 0 <= v < 2 ^ 512) vs).
Proof.
  intros Hu Hs. split; [|split; [|split; [|split]]].
  - intros regs values s' Hl Hw. destruct (writeN_ok _ _ _ _ Hl Hw) as (names & Hn & _ & _ & ->).
    apply set_all_typed; [done|]. by apply translated_typed.
  - intros v s' E. apply set_values_typed in E; [done|reflexivity|done|].
    repeat (apply Forall_cons; split); try apply Forall_nil_2; repeat apply fset_range; by vm_compute.
  - intros v s' [E|E]; (apply set_values_typed in E; [done|reflexivity|done|]);
      repeat (apply Forall_cons; split); try apply Forall_nil_2; repeat apply fset_range; by vm_compute.
  - intros names values k Hl E. apply set_ok in E as [-> _]; [|by rewrite length_fmap].
    apply set_all_typed; [done|]. apply Forall_fmap, Forall_true. intros v. by apply fset_range.
  - intros regs ws vs s'. unfold whpx_RegReadN. rewrite alloc_ok. cbn [negb]. destruct (names_of regs); [|done].
    destruct (WHvGetVirtualProcessorRegisters _ _ _ _) as [[hr vals] k]. destruct (negb _); [done|]. intros [= <- _].
    clear. revert vals. induction regs as [|r regs IH]; intros [|x vals]; cbn; constructor; [apply whpx_translate_range|done].
Qed.
End Refinement.

(** *** Running *)
Section Run.
Context {K C W : Type} `{WHPX K C} (vm id : Z) (io : IOHandlers W).
Implicit Types s : wvp K C W.

(** The reason of an exit that needs no emulation. *)
Definition exit_reason (c : exit_context C) : option VMExitReason :=
  match c with
  | X64IoPortAccess _ | MemoryAccess _ => None
  | X64Halt => Some Exit_HLT | X64MsrAccess _ _ _ _ => Some Exit_MSRAccess
  | X64Cpuid _ _ _ _ _ _ _ _ => Some Exit_CPUID | X64InterruptWindow => Some Exit_Interrupt
  | Canceled => Some Exit_Cancelled | NoReason => Some Exit_Normal | Exception => Some Exit_Exception
  | UnsupportedFeature | InvalidVpRegisterValue | UnrecoverableException => Some Exit_Error
  | OtherReason _ => Some Exit_Unhandled
  end.
(** The emulation that an exit starts, and its reason. *)
Definition exit_emulation (h : Z) (c : exit_context C) : option (emulation * VMExitReason) :=
  match c with
  | X64IoPortAccess c => Some (WHvEmulatorTryIoEmulation h c, Exit_PIO)
  | MemoryAccess c => Some (WHvEmulatorTryMmioEmulation h c, Exit_MMIO)
  | _ => None
  end.

Lemma data_member_size n : n ∈ [1; 2; 4; 8] -> data_member n = Some (Field 0 (8 * n)).
Proof. intros Hn. repeat (apply elem_of_cons in Hn as [->|Hn]; [done|]). by apply elem_of_nil in Hn. Qed.

(** What a run reports.  A refused run is Failed, and a run that ends without an
    access to emulate is OK with the reason of the exit: neither touches the machine.
    An I/O or memory access is emulated; the exit is reported as PIO or MMIO if the
    emulator and the emulation succeed, and as Failed, with the reason of the exit before,
    if not, though accesses made until then have happened.  An access of
    1, 2, 4 or 8 bytes reaches the handler of its kind once: a memory read
    replaces exactly that many bytes of the buffer by the handler's value, a memory
    write passes exactly that many. *)
Theorem whpx_run_exits s hr c k :
  WHvRunVirtualProcessor vm id (m_exitContext s) (w_platform s) = (hr, c, k) ->
  (hr <> S_OK -> exists s', whpx_RunImpl vm id io s = (VPE_Failed, s')
     /\ m_exitInfo s' = m_exitInfo s /\ w_world s' = w_world s)
  /\ (hr = S_OK -> forall r, exit_reason c = Some r -> exists s', whpx_RunImpl vm id io s = (VPE_OK, s')
     /\ reason (m_exitInfo s') = r /\ w_world s' = w_world s /\ w_platform s' = k)
  /\ (hr = S_OK -> forall e r, exit_emulation (m_emuHandle s) c = Some (e, r) ->
     let '(hr', ok, k', w') := emulate vm id io e k (w_world s) in
     exists s', whpx_RunImpl vm id io s = (if (hr' =? S_OK) && ok then VPE_OK else VPE_Failed, s')
       /\ reason (m_exitInfo s') = (if (hr' =? S_OK) && ok then r else reason (m_exitInfo s))
       /\ w_world s' = w' /\ w_platform s' = k')
  /\ (forall n gpa old w, n ∈ [1; 2; 4; 8] ->
     (let '(value, w') := MMIORead io gpa n w in
      HandleMMIO_access io (MkMemoryAccess gpa WHV_IO_IN n old) w
      = (S_OK, MkMemoryAccess gpa WHV_IO_IN n (fset (Field 0 (8 * n)) value old), w'))
     /\ forall dir, dir <> WHV_IO_IN ->
        HandleMMIO_access io (MkMemoryAccess gpa dir n old) w
        = (S_OK, MkMemoryAccess gpa dir n old, MMIOWrite io gpa n (old mod 2 ^ (8 * n)) w)).
Proof.
  intros Hrun. split; [|split; [|split]].
  - intros Hne. unfold whpx_RunImpl. rewrite Hrun, (proj2 (Z.eqb_neq hr S_OK)) by done. by eexists.
  - intros -> r Hr. unfold whpx_RunImpl. rewrite Hrun. cbn. destruct c; try discriminate Hr; injection Hr as <-; by eexists.
  - intros -> e r He. destruct (emulate vm id io e k (w_world s)) as [[[hr' ok] k'] w'] eqn:E.
    unfold whpx_RunImpl. rewrite Hrun. cbn. destruct c; try discriminate He; injection He as <- <-;
      unfold HandleIO, HandleMMIO, run_emulator; cbn; rewrite E; destruct (hr' =? S_OK), ok; cbn; by eexists.
  - intros n gpa old w Hn. unfold HandleMMIO_access. cbn [ma_Direction ma_AccessSize ma_GpaAddress ma_Data].
    rewrite (data_member_size n Hn). split; [by destruct (MMIORead io gpa n w)|].
    intros dir Hd. rewrite (proj2 (Z.eqb_neq dir WHV_IO_IN)) by done. rewrite fget_mod.
    + cbn [f_off f_width]. by rewrite Z.div_1_r.
    + repeat (apply elem_of_cons in Hn as [->|Hn]; [done|]). by apply elem_of_nil in Hn.
Qed.
End Run.

(** ** Witnesses

    A platform whose processor has all registers but the debug registers; it refuses
    to store anything if [d_refuse] is set.  The emulation of an I/O access reads a byte from port 0x60 and stores it
    in RAX. *)
Record whpx_demo := MkWhpxDemo { d_vregs : WHV.t -> Z; d_refuse : bool; d_exit : exit_context unit }.
Definition demo_readable (n : WHV.t) : bool :=
  negb (bool_decide (n ∈ [WHV.WHvX64RegisterDr0; WHV.WHvX64RegisterDr7])).
#[local] Instance demo_whpx : WHPX whpx_demo unit := {
  WHvGetVirtualProcessorRegisters vm id names k :=
    if forallb demo_readable names then (S_OK, d_vregs k <$> names, k) else (1, [], k);
  WHvSetVirtualProcessorRegisters vm id names values k :=
    if d_refuse k then (1, k)
    else (S_OK, MkWhpxDemo (set_all names values (d_vregs k)) false (d_exit k));
  WHvRunVirtualProcessor vm id c k := (S_OK, d_exit k, k);
  WHvCancelRunVirtualProcessor vm id k := (S_OK, k);
  WHvTranslateGva vm id gva flags k := (S_OK, (0, gva), k);
  WHvCreateVirtualProcessor vm id k := (S_OK, k);
  WHvDeleteVirtualProcessor vm id k := k;
  WHvEmulatorCreateEmulator k := (S_OK, 7, k);
  WHvEmulatorDestroyEmulator h k := k;
  WHvEmulatorTryIoEmulation h c :=
    IoPort (MkIoAccess WHV_IO_IN 0x60 1 0) (fun ra =>
      SetVirtualProcessorRegisters [WHV.WHvX64RegisterRax] [io_Data (snd ra)] (fun hr => Finished hr true));
  WHvEmulatorTryMmioEmulation h c := Finished 1 false
}.
#[local] Instance demo_whpx_laws vm id : WHPXLaws whpx_demo unit vm id.
Proof.
  refine {| vregs := d_vregs; readable _ := demo_readable |}; cbn.
  - by intros names k ->.
  - intros names k ->. by exists 1, [].
  - intros names values k k' _. destruct (d_refuse k); [done|]. by intros [= <-].
Defined.
Definition whpx_demo_io : IOHandlers Z :=
  MkIOHandlers (fun _ _ _ w => (0x5a, w + 1)) (fun _ _ _ _ w => w + 100)
    (fun _ _ _ w => (0x11223344, w + 1)) (fun _ _ _ v w => v) 0.
Definition demo_wvp (refuse : bool) (c : exit_context unit) : wvp whpx_demo unit Z :=
  MkWvp 7 NoReason (MkVMExitInfo Exit_Normal Details_None) (MkWhpxDemo (fun n => WHV.idx n) refuse c) 0.
Abbreviation have_memory := (fun _ : Z => true).

(** EAX is written, read back, and replaces RAX; DR0 cannot be read. *)
Lemma whpx_processor_refines_witness :
  let s := demo_wvp false NoReason in
  exists s', whpx_RegWrite 0 0 true have_memory Reg.EAX 0x1234567890 s = (inr tt, s')
  /\ whpx_file 0 0 true s' Reg.RAX = 0x34567890 /\ whpx_file 0 0 true s' Reg.RCX = WHV.idx WHV.WHvX64RegisterRcx
  /\ whpx_RegRead 0 0 true have_memory Reg.DR0 0 s = (inl VP_Failed, s)
  /\ whpx_RegRead 0 0 true have_memory Reg.CR2 0 s = (inr (WHV.idx WHV.WHvX64RegisterCr2), s).
Proof.
  intros s. pose proof (whpx_processor_refines 0 0 true have_memory ltac:(done) s Reg.EAX 0 0x1234567890) as (_ & _ & _ & Hw).
  destruct (whpx_RegWrite 0 0 true have_memory Reg.EAX 0x1234567890 s) as [res s'] eqn:E.
  assert (res = inr tt) as -> by (vm_compute in E; congruence).
  destruct (Hw s' eq_refl) as [Hf _]. exists s'. split; [done|]. split.
  { rewrite (Hf Reg.RAX eq_refl). vm_compute. reflexivity. }
  split. { rewrite (Hf Reg.RCX eq_refl). vm_compute. reflexivity. }
  split; vm_compute; reflexivity.
Defined.

(** Writing AL and AH in one call leaves AL as it was. *)
Lemma whpx_array_write_witness :
  let s := demo_wvp false NoReason in
  exists s', whpx_RegWriteN 0 0 true have_memory [Reg.AL; Reg.AH] [0x11; 0x22] s = (VP_OK, s')
  /\ whpx_file 0 0 true s' Reg.RAX = 0x220a /\ whpx_upd_each [Reg.AL; Reg.AH] [0x11; 0x22] (whpx_file 0 0 true s) Reg.RAX = 0x2211.
Proof.
  intros s. destruct (whpx_RegWriteN 0 0 true have_memory [Reg.AL; Reg.AH] [0x11; 0x22] s) as [res s'] eqn:E.
  assert (res = VP_OK) as -> by (vm_compute in E; congruence).
  pose proof (whpx_array_write 0 0 true have_memory ltac:(done) [Reg.AL; Reg.AH] [0x11; 0x22] s s' eq_refl E) as (_ & _ & H).
  exists s'. split; [done|]. split; [|vm_compute; reflexivity].
  rewrite (H Reg.AL Reg.AH 0x11 0x22 eq_refl eq_refl eq_refl Reg.RAX eq_refl). vm_compute. reflexivity.
Defined.

(** The code segment stored is not the one read back. *)
Lemma whpx_fpu_registers_witness :
  let s := demo_wvp false NoReason in
  exists s', SetFPUControl 0 0 (MkFPUControl 0x37F 0 0xFFFF 0 0x10 0x123456789abc 0x18 0) s = (inr tt, s')
  /\ GetFPUControl 0 0 s' = (inr (MkFPUControl 0x37F 0 0xFF 0 0x1234 0x123456789abc 0 0), s')
  /\ GetMXCSR 0 0 s' = (inr 0, s').
Proof.
  intros s. destruct (whpx_fpu_registers 0 0 s) as (Hf & _); [vm_compute; reflexivity|].
  destruct (SetFPUControl 0 0 (MkFPUControl 0x37F 0 0xFFFF 0 0x10 0x123456789abc 0x18 0) s) as [res s'] eqn:E.
  assert (res = inr tt) as -> by (vm_compute in E; congruence).
  exists s'. split; [done|]. destruct (Hf _ _ E) as (H1 & H2 & _). split; [|exact H2].
  rewrite H1. vm_compute. reflexivity.
Defined.

(** EFER and STAR read back; a refused store is OK too. *)
Lemma whpx_msr_access_witness :
  (exists s', whpx_SetMSRs 0 0 true have_memory 0 [0xC0000080; 0xC0000081] [0x500; 7] (demo_wvp false NoReason) = (VP_OK, s')
     /\ whpx_GetMSRs 0 0 true have_memory [0xC0000080; 0xC0000081] [0; 0] s' = (VP_OK, [0x500; 7], s'))
  /\ whpx_SetMSRs 0 0 true have_memory 0 [0xC0000080] [0x500] (demo_wvp true NoReason) = (VP_OK, demo_wvp true NoReason)
  /\ whpx_SetMSRs 0 0 false have_memory 0 [0x48] [1] (demo_wvp false NoReason) = (VP_InvalidRegister, demo_wvp false NoReason).
Proof.
  split; [|split].
  - pose proof (whpx_msr_access 0 0 true have_memory 0 ltac:(done) [0xC0000080; 0xC0000081] [0x500; 7] [0; 0]
      (demo_wvp false NoReason) eq_refl) as H.
    destruct (mapM (TranslateMSR true) [0xC0000080; 0xC0000081]) as [names|] eqn:En; [|vm_compute in En; congruence].
    destruct H as (hr & k & Hs & H1 & H2). eexists. split; [exact H1|].
    rewrite H2; [vm_compute; reflexivity| | |].
    + cbn in Hs. congruence.
    + apply (bool_decide_unpack (NoDup _)). vm_compute. exact I.
    + injection En as <-. vm_compute. reflexivity.
  - pose proof (whpx_msr_access 0 0 true have_memory 0 ltac:(done) [0xC0000080] [0x500] [0]
      (demo_wvp true NoReason) eq_refl) as (hr & k & Hs & H1 & _).
    rewrite H1. cbn in Hs. by injection Hs as <- <-.
  - by destruct (whpx_msr_access 0 0 false have_memory 0 ltac:(done) [0x48] [1] [0]
      (demo_wvp false NoReason) eq_refl).
Defined.

(** An IN from port 0x60: the byte reaches RAX. *)
Lemma whpx_run_exits_witness :
  exists s', whpx_RunImpl 0 0 whpx_demo_io (demo_wvp false (X64IoPortAccess tt)) = (VPE_OK, s')
  /\ reason (m_exitInfo s') = Exit_PIO /\ w_world s' = 1
  /\ d_vregs (w_platform s') WHV.WHvX64RegisterRax = 0x5a.
Proof.
  destruct (whpx_run_exits (H:=demo_whpx) 0 0 whpx_demo_io (demo_wvp false (X64IoPortAccess tt)) S_OK (X64IoPortAccess tt)
    (w_platform (demo_wvp false (X64IoPortAccess tt))) ltac:(reflexivity)) as (_ & _ & H & _).
  specialize (H eq_refl _ _ eq_refl). cbn in H. destruct H as (s' & H1 & H2 & H3 & H4).
  exists s'. split; [exact H1|]. split; [exact H2|]. split; [exact H3|]. rewrite H4. reflexivity.
Defined.

(** Writing a negative value to RAX stores 64 bits. *)
Lemma whpx_values_typed_witness :
  let s := demo_wvp false NoReason in
  exists s', whpx_RegWriteN 0 0 true have_memory [Reg.RAX] [-1] s = (VP_OK, s')
  /\ 0 <= d_vregs (w_platform s') WHV.WHvX64RegisterRax < 2 ^ 128.
Proof.
  intros s. destruct (whpx_RegWriteN 0 0 true have_memory [Reg.RAX] [-1] s) as [res s'] eqn:E.
  assert (res = VP_OK) as -> by (vm_compute in E; congruence). exists s'. split; [done|].
  assert (Ht : values_typed (vregs (vm:=0) (id:=0) (w_platform s))) by (intros n; destruct n; vm_compute; split; congruence).
  destruct (whpx_values_typed 0 0 true have_memory 0 ltac:(done) s ltac:(lia) Ht) as (H & _).
  exact (H [Reg.RAX] [-1] s' eq_refl E WHV.WHvX64RegisterRax).
Defined.
