(* ===== verification/WhpxVm.v ===== *)
(** * The virtual machine and the platform of WHPX (whpx_vm.cpp, whpx_platform.cpp)

    A machine is a partition of the hypervisor: its creation from a specification,
    guest memory as an instance of [VMBackend], and the features the platform
    publishes.  The partition calls are the class [WHPXPartition]. *)
From stdpp Require Import functions gmap.
From S2P Require Import Prelude Bits Regs MemRegions VM Status Vp Debug Platform WhpxRegs WhpxVp.

Definition WHV_E_GPA_RANGE_NOT_FOUND : Z := 0x80370306.
Definition WHvMapGpaRangeFlagNone : Z := 0.
Definition WHvMapGpaRangeFlagRead : Z := 1.
Definition WHvMapGpaRangeFlagWrite : Z := 2.
Definition WHvMapGpaRangeFlagExecute : Z := 4.
Definition WHvMapGpaRangeFlagTrackDirtyPages : Z := 8.

(** The properties of a partition that the code sets, with their data. *)
Inductive partition_property :=
| ProcessorCount (n : Z)
| ExtendedVmExits (bits : Z)
| CpuidExitList (functions : list Z)
| ExceptionExitBitmap (bits : Z)
| CpuidResultList (results : list CPUIDResult).
Module PX.
(** [WHV_EXTENDED_VM_EXITS] *)
Definition X64CpuidExit := Field 0 1.
Definition X64MsrExit := Field 1 1.
Definition ExceptionExit := Field 2 1.
(** [WHV_CAPABILITY_FEATURES] *)
Definition PartialUnmap := Field 0 1.
Definition DirtyPageTracking := Field 3 1.
End PX.

(** [WHvQueryGpaRangeDirtyBitmap] is loaded if it exists; [bitmap] is 0 for NULL. *)
Class WHPXPartition (K : Type) := {
  WHvCreatePartition : K -> Z * Z * K;
  WHvDeletePartition (handle : Z) : K -> K;
  CloseHandle (handle : Z) : K -> K;
  WHvSetPartitionProperty (handle : Z) (p : partition_property) : K -> Z * K;
  WHvSetupPartition (handle : Z) : K -> Z * K;
  WHvMapGpaRange (handle memory base size flags : Z) : K -> Z * K;
  WHvUnmapGpaRange (handle base size : Z) : K -> Z * K;
  has_dirty_bitmap : bool;
  WHvQueryGpaRangeDirtyBitmap (handle base size bitmap bitmapSize : Z) : K * hmem -> Z * (K * hmem)
}.

(** ** vm/specs.hpp, as far as this platform reads it *)
Record VMSpecifications := MkSpecs {
  numProcessors : Z; sp_extendedVMExits : Z; vmExitCPUIDFunctions : list Z; vmExitExceptions : Z;
  CPUIDResults : list CPUIDResult; guestTSCFrequency : Z; kvm_identityMapPageAddress : Z
}.

(** ** Guest memory *)
Section WhpxVm.
Context {K : Type} `{WHPXPartition K}.
Context (m_handle : Z) (rs5 : bool).

Definition ToWHVFlags (flags : Z) : Z :=
  let f := WHvMapGpaRangeFlagNone in
  let f := if nz (flags &&& MF_Read) then f ||| WHvMapGpaRangeFlagRead else f in
  let f := if nz (flags &&& MF_Write) then f ||| WHvMapGpaRangeFlagWrite else f in
  let f := if nz (flags &&& MF_Execute) then f ||| WHvMapGpaRangeFlagExecute else f in
  if nz (flags &&& MF_DirtyPageTracking) && rs5 then f ||| WHvMapGpaRangeFlagTrackDirtyPages else f.
Definition whpx_MapGuestMemoryImpl (base size flags memory : Z) (k : K) : MemoryMappingStatus * K :=
  let whvFlags := ToWHVFlags flags in
  if whvFlags =? WHvMapGpaRangeFlagNone then (MM_InvalidFlags, k)
  else
    let '(hr, k) := WHvMapGpaRange m_handle memory base size whvFlags k in
    (if negb (hr =? S_OK) then MM_Failed else MM_OK, k).
Definition whpx_UnmapGuestMemoryImpl (base size : Z) (k : K) : MemoryMappingStatus * K :=
  let '(hr, k) := WHvUnmapGpaRange m_handle base size k in
  (if negb (hr =? S_OK) then MM_Failed else MM_OK, k).
Definition dirty_status (hr : Z) : DirtyPageTrackingStatus :=
  if WHV_E_GPA_RANGE_NOT_FOUND =? hr then DP_NotEnabled
  else if negb (hr =? S_OK) then DP_Failed else DP_OK.
Definition whpx_QueryDirtyPagesImpl (base size bitmap bitmapSize : Z) (km : K * hmem)
    : DirtyPageTrackingStatus * (K * hmem) :=
  if negb has_dirty_bitmap then (DP_Unsupported, km)
  else if nz (bitmapSize &&& 0x7) then (DP_MisalignedBitmap, km)
  else
    let '(hr, km) := WHvQueryGpaRangeDirtyBitmap m_handle base size bitmap (u32 bitmapSize) km in
    (dirty_status hr, km).
(** The call is made without a test that the function exists; with no bitmap it
    writes no memory. *)
Definition whpx_ClearDirtyPagesImpl (base size : Z) (k : K) : DirtyPageTrackingStatus * K :=
  let '(hr, (k, _)) := WHvQueryGpaRangeDirtyBitmap m_handle base size 0 0 (k, fun _ => 0) in
  (dirty_status hr, k).

#[export] Instance whpx_VMBackend : VMBackend K := {
  MapGuestMemoryImpl := whpx_MapGuestMemoryImpl;
  UnmapGuestMemoryImpl := whpx_UnmapGuestMemoryImpl;
  SetGuestMemoryFlagsImpl := default_SetGuestMemoryFlagsImpl;
  QueryDirtyPagesImpl := whpx_QueryDirtyPagesImpl;
  ClearDirtyPagesImpl := whpx_ClearDirtyPagesImpl
}.
End WhpxVm.

(** ** Creation *)
Section Creation.
Context {K C W : Type} `{WHPX K C} `{WHPXPartition K}.
(** The specification, the extended exits of the platform's features, uninitialised
    elements of the array of functions and of register values, and the members of a new
    processor. *)
Context (specs : VMSpecifications) (features_exits : Z) (uninit : nat -> Z) (uninit_value : Z).
Context (zeroContext : exit_context C) (x : VMExitInfo) (w : W).

Definition enabledVMExits : Z := sp_extendedVMExits specs &&& features_exits.
Definition vmExits : Z :=
  let e := 0 in
  let e := if nz (enabledVMExits &&& EVE_CPUID) then fset PX.X64CpuidExit 1 e else e in
  let e := if nz (enabledVMExits &&& EVE_MSRAccess) then fset PX.X64MsrExit 1 e else e in
  let e := if nz (enabledVMExits &&& EVE_Exception) then fset PX.ExceptionExit 1 e else e in
  fset PX.X64CpuidExit 1 e.
(** The loop [for (i = 0; i < count; i++) functions[i++] = at(i)]: the right operand is
    evaluated first, and the index goes up by two.  It makes at most [count] steps. *)
Fixpoint fill_functions (steps : nat) (i : nat) (functions : list Z) : list Z :=
  match steps with
  | O => functions
  | Datatypes.S steps =>
      match vmExitCPUIDFunctions specs !! i with
      | Some f => fill_functions steps (i + 2) (<[i := f]> functions)
      | None => functions
      end
  end.
Definition functions : list Z :=
  let count := length (vmExitCPUIDFunctions specs) in fill_functions count 0 (uninit <$> seq 0 count).

(** A failure after which the handle is closed, and one after which it is kept. *)
Abbreviation result := (bool * Z * list (wvp K C W) * K)%type.
Definition fail_closed (h : Z) (k : K) : result := (false, INVALID_HANDLE_VALUE, [], CloseHandle h k).
Definition fail_open (h : Z) (k : K) : result := (false, h, [], k).

Fixpoint whpx_create_vps (n : nat) (h id : Z) (vps : list (wvp K C W)) (k : K) : result :=
  match n with
  | O => (true, h, vps, k)
  | Datatypes.S n =>
      let '(ok, vp) := whpx_vp_Initialize h id uninit_value (new_wvp zeroContext x k w) in
      if negb ok then
        (* the handle is reset before the processor's destructor runs *)
        (false, INVALID_HANDLE_VALUE, vps,
         delete_wvp INVALID_HANDLE_VALUE id (with_platform (CloseHandle h (w_platform vp)) vp))
      else whpx_create_vps n h (u32 (id + 1)) (vps ++ [vp]) (w_platform vp)
  end.

(** Setting a property that is wanted, with what to do when it is refused. *)
Definition set_property (wanted : bool) (h : Z) (p : partition_property) (refused : Z -> K -> result)
    (next : K -> result) (k : K) : result :=
  if wanted then
    let '(hr, k) := WHvSetPartitionProperty h p k in
    if negb (hr =? S_OK) then refused h k else next k
  else next k.

Definition whpx_vm_Initialize (k : K) : result :=
  let '(hr, h, k) := WHvCreatePartition k in
  if negb (hr =? S_OK) then (false, INVALID_HANDLE_VALUE, [], k)
  else
    set_property true h (ProcessorCount (u32 (numProcessors specs))) fail_closed
   (set_property (nz enabledVMExits) h (ExtendedVmExits vmExits) fail_closed
   (set_property (nz (enabledVMExits &&& EVE_CPUID) && (0 <? Z.of_nat (length (vmExitCPUIDFunctions specs))))
      h (CpuidExitList functions) fail_open
   (set_property (nz (enabledVMExits &&& EVE_Exception)) h (ExceptionExitBitmap (u64 (vmExitExceptions specs)))
      fail_closed
   (set_property (0 <? Z.of_nat (length (CPUIDResults specs))) h (CpuidResultList (CPUIDResults specs)) fail_open
   (fun k =>
      let '(hr, k) := WHvSetupPartition h k in
      if negb (hr =? S_OK) then fail_closed h k
      else whpx_create_vps (Z.to_nat (numProcessors specs)) h 0 [] k))))) k.

(** The destructor: the processors first, then the partition. *)
Fixpoint delete_vps (h id : Z) (vps : list (wvp K C W)) (k : K) : K :=
  match vps with
  | [] => k
  | vp :: vps => delete_vps h (u32 (id + 1)) vps (delete_wvp h id (with_platform k vp))
  end.
Definition delete_vm (h : Z) (vps : list (wvp K C W)) (k : K) : K :=
  let k := delete_vps h 0 vps k in
  if negb (h =? INVALID_HANDLE_VALUE) then WHvDeletePartition h k else k.
Definition whpx_CreateVMImpl (k : K) : option (Z * list (wvp K C W)) * K :=
  let '(ok, h, vps, k) := whpx_vm_Initialize k in
  if negb ok then (None, delete_vm h vps k) else (Some (h, vps), k).
End Creation.

(** ** The platform

    What the constructor finds: whether the dispatch table was allocated and loaded,
    the version, and for each capability the result code of the query and the
    contents of the union after it, given those before. *)
Inductive capability_code := Cap_HypervisorPresent | Cap_Features | Cap_ExtendedVmExits | Cap_ExceptionExitBitmap.
Record whpx_host := MkWhpxHost {
  wh_dispatch : bool; wh_load : bool; wh_version : VersionInfo;
  WHvGetCapability : capability_code -> Z -> Z * Z
}.
Definition HypervisorPresent (cap : Z) : bool := nz (u32 cap).

Section WhpxPlatform.
Context (host : whpx_host) (info : HostInfo) (uninit : GPAFeatures) (uninit_cap : Z).

(** The features, from the contents of the union after the queries for the features and
    for the extended exits, and the exception bitmap. *)
Definition whpx_extended_exits (exits : Z) : Z :=
  let e := EVE_None in
  let e := if nz (fget PX.X64CpuidExit exits) then e ||| EVE_CPUID else e in
  let e := if nz (fget PX.X64MsrExit exits) then e ||| EVE_MSRAccess else e in
  if nz (fget PX.ExceptionExit exits) then e ||| EVE_Exception else e.
Definition whpx_features (features exits bitmap : Z) : PlatformFeatures :=
  let d := default_features uninit in
  {| maxProcessorsPerVM := 64;
     maxProcessorsGlobal := 128;
     guestPhysicalAddress := gpa info;
     floatingPointExtensions := host_fp info;
     extendedControlRegisters :=
       let e := ECR_CR8 ||| ECR_MXCSRMask in if at_least_rs5 (wh_version host) then e ||| ECR_XCR0 else e;
     unrestrictedGuest := true;
     extendedPageTables := true;
     largeMemoryAllocation := true;
     customCPUIDs := true;
     dirtyPageTracking := nz (fget PX.DirtyPageTracking features);
     partialDirtyBitmap := true;
     partialUnmapping := nz (fget PX.PartialUnmap features);
     memoryAliasing := true;
     memoryUnmapping := true;
     extendedVMExits := whpx_extended_exits exits;
     exceptionExits := bitmap;
     guestDebugging := guestDebugging d;
     guestMemoryProtection := guestMemoryProtection d;
     partialMMIOInstructions := partialMMIOInstructions d;
     supportedCustomCPUIDs := supportedCustomCPUIDs d;
     guestTSCScaling := guestTSCScaling d |}.
Definition newWhpxPlatform : PlatformInitStatus * PlatformFeatures :=
  let d := default_features uninit in
  if negb (wh_dispatch host) then (PI_Failed, d)
  else if negb (wh_load host) then (PI_Unavailable, d)
  else
    let status := PI_Uninitialized in
    let '(hr, cap) := WHvGetCapability host Cap_HypervisorPresent uninit_cap in
    let status := if negb (hr =? S_OK) then PI_Failed else status in
    if negb (HypervisorPresent cap) then (PI_Unavailable, d)
    else
      let '(hr, cap) := WHvGetCapability host Cap_Features cap in
      let status := if negb (hr =? S_OK) then PI_Failed else status in
      let features := cap in
      let status := PI_OK in
      let '(hr, cap) := WHvGetCapability host Cap_ExtendedVmExits cap in
      let status := if negb (hr =? S_OK) then PI_Failed else status in
      let exits := cap in
      if nz (fget PX.ExceptionExit exits) then
        let '(hr, cap) := WHvGetCapability host Cap_ExceptionExitBitmap cap in
        let status := if negb (hr =? S_OK) then PI_Failed else status in
        (status, whpx_features features exits (u64 cap))
      else (status, whpx_features features exits ExceptionCode_None).
End WhpxPlatform.

(** ** Facts *)

(** *** The configuration of a partition *)
Section Configuration.
Context {K C W : Type} `{WHPX K C} `{WHPXPartition K}.
Context (specs : VMSpecifications) (features_exits : Z) (uninit : nat -> Z) (uninit_value : Z).
Context (zeroContext : exit_context C) (x : VMExitInfo) (w : W).
Abbreviation exits := (enabledVMExits specs features_exits).
Abbreviation Initialize := (whpx_vm_Initialize specs features_exits uninit uninit_value zeroContext x w).

(** The properties that a specification asks for, in order. *)
Definition wanted_properties : list partition_property :=
  [ProcessorCount (u32 (numProcessors specs))]
  ++ (if nz exits then [ExtendedVmExits (vmExits specs features_exits)] else [])
  ++ (if nz (exits &&& EVE_CPUID) && (0 <? Z.of_nat (length (vmExitCPUIDFunctions specs)))
      then [CpuidExitList (functions specs uninit)] else [])
  ++ (if nz (exits &&& EVE_Exception) then [ExceptionExitBitmap (u64 (vmExitExceptions specs))] else [])
  ++ (if 0 <? Z.of_nat (length (CPUIDResults specs)) then [CpuidResultList (CPUIDResults specs)] else []).
Fixpoint set_properties (h : Z) (ps : list partition_property) (k : K) : option K :=
  match ps with
  | [] => Some k
  | p :: ps => let '(hr, k) := WHvSetPartitionProperty h p k in
               if hr =? S_OK then set_properties h ps k else None
  end.

Lemma set_properties_app h ps qs k :
  set_properties h (ps ++ qs) k = (k ← set_properties h ps k; set_properties h qs k).
Proof.
  revert k. induction ps as [|p ps IH]; intros k; cbn; [done|].
  destruct (WHvSetPartitionProperty h p k) as [hr k1]. by destruct (hr =? S_OK).
Qed.

Definition succeeds_with (r : bool * Z * list (wvp K C W) * K) h vps k : Prop := r = (true, h, vps, k).
Lemma set_property_ok wanted h p refused next h' vps k k' :
  (forall k, ~ succeeds_with (refused h k) h' vps k') ->
  succeeds_with (set_property wanted h p refused next k) h' vps k'
  <-> exists k1, set_properties h (if wanted then [p] else []) k = Some k1 /\ succeeds_with (next k1) h' vps k'.
Proof.
  intros Hr. unfold set_property. destruct wanted; cbn.
  - destruct (WHvSetPartitionProperty h p k) as [hr k1]. destruct (hr =? S_OK); cbn; [naive_solver|].
    split; [by intros ?%Hr|by intros (? & ? & _)].
  - naive_solver.
Qed.

Lemma fill_functions_length steps i fs : length (fill_functions specs steps i fs) = length fs.
Proof.
  revert i fs. induction steps as [|steps IH]; intros i fs; cbn; [done|].
  destruct (vmExitCPUIDFunctions specs !! i); [|done]. by rewrite IH, length_insert.
Qed.
Lemma fill_functions_lookup steps i fs j : length fs = length (vmExitCPUIDFunctions specs) ->
  (j < i + 2 * steps)%nat ->
  fill_functions specs steps i fs !! j
  = if decide (i <= j)%nat then (if Nat.even (j - i) then vmExitCPUIDFunctions specs !! j else fs !! j) else fs !! j.
Proof.
  revert i fs. induction steps as [|steps IH]; intros i fs Hl Hj; cbn [fill_functions].
  { case_decide; [lia|done]. }
  destruct (vmExitCPUIDFunctions specs !! i) as [f|] eqn:Ei.
  - rewrite IH by (rewrite ?length_insert; lia).
    assert (Hi : (i < length fs)%nat) by (rewrite Hl; by eapply lookup_lt_Some).
    destruct (decide (j = i)) as [->|Hne].
    { rewrite decide_False, decide_True by lia. rewrite Nat.sub_diag. cbn. by rewrite list_lookup_insert_eq. }
    rewrite list_lookup_insert_ne by done. case_decide as H1; case_decide as H2; try lia; [| |done].
    + replace (j - i)%nat with (Datatypes.S (Datatypes.S (j - (i + 2)))) by lia. done.
    + by replace (j - i)%nat with 1%nat by lia.
  - case_decide as H1; [|done]. apply lookup_ge_None in Ei. destruct (Nat.even (j - i)); [|done].
    by rewrite !(proj2 (lookup_ge_None _ _)) by lia.
Qed.

Lemma functions_lookup j : (j < length (vmExitCPUIDFunctions specs))%nat ->
  functions specs uninit !! j = if Nat.even j then vmExitCPUIDFunctions specs !! j else Some (uninit j).
Proof.
  intros Hj. unfold functions. rewrite fill_functions_lookup by (rewrite ?length_fmap, ?length_seq; lia).
  rewrite decide_True by lia. rewrite Nat.sub_0_r. destruct (Nat.even j); [done|].
  by rewrite list_lookup_fmap, lookup_seq_lt.
Qed.
Lemma functions_length : length (functions specs uninit) = length (vmExitCPUIDFunctions specs).
Proof. unfold functions. by rewrite fill_functions_length, length_fmap, length_seq. Qed.

Lemma vmExits_members :
  fget PX.X64CpuidExit (vmExits specs features_exits) = 1
  /\ fget PX.X64MsrExit (vmExits specs features_exits) = Z.b2z (nz (exits &&& EVE_MSRAccess))
  /\ fget PX.ExceptionExit (vmExits specs features_exits) = Z.b2z (nz (exits &&& EVE_Exception)).
Proof.
  unfold vmExits. destruct (nz (exits &&& EVE_CPUID)), (nz (exits &&& EVE_MSRAccess)), (nz (exits &&& EVE_Exception));
    by vm_compute.
Qed.

Lemma create_vps_length n h id vps k h' vps' k' :
  whpx_create_vps uninit_value zeroContext x w n h id vps k = (true, h', vps', k') ->
  h' = h /\ length vps' = (length vps + n)%nat.
Proof.
  revert id vps k. induction n as [|n IH]; intros id vps k; cbn [whpx_create_vps].
  { intros [= <- <- _]. lia. }
  destruct (whpx_vp_Initialize _ _ _ _) as [[] vp]; cbn [negb]; [|done].
  intros [-> ->]%IH. rewrite length_app. cbn. lia.
Qed.

(** The chain of optional properties as one list. *)
Definition configure (l : list (bool * partition_property * (Z -> K -> bool * Z * list (wvp K C W) * K))) (h : Z)
    (next : K -> bool * Z * list (wvp K C W) * K) : K -> bool * Z * list (wvp K C W) * K :=
  foldr (fun '(wanted, p, refused) next => set_property wanted h p refused next) next l.
Lemma configure_ok l h next h' vps k k' :
  Forall (fun '(_, _, refused) => forall k, ~ succeeds_with (refused h k) h' vps k') l ->
  succeeds_with (configure l h next k) h' vps k'
  <-> exists k1, set_properties h (l ≫= fun '(wanted, p, _) => if wanted : bool then [p] else []) k = Some k1
                 /\ succeeds_with (next k1) h' vps k'.
Proof.
  intros Hl. revert k. induction Hl as [|[[wanted p] refused] l Hr _ IH]; intros k.
  - cbn. naive_solver.
  - cbn [configure foldr]. rewrite set_property_ok by done.
    rewrite bind_cons, set_properties_app. split.
    + intros (k1 & -> & Hc). cbn. by apply IH.
    + destruct (set_properties h _ k) as [k1|]; cbn; [|by intros (? & ? & _)]. intros Hc.
      exists k1. split; [done|]. by apply IH.
Qed.

(** C39: the configuration of a partition.  Initialize succeeds exactly when the partition is
    created, every property that the specification asks for is accepted, in order, the
    partition is set up and all processors are created; there are then as many as
    specified.  Of the CPUID functions that are to exit only those at even positions
    of the list are passed, the elements at odd positions are left uninitialised; and exits on
    CPUID are switched on with any other kind of exit, asked for or not. *)
Theorem whpx_vm_configures k h vps k' :
  (Initialize k = (true, h, vps, k') <->
   exists k1 k2 k3, WHvCreatePartition k = (S_OK, h, k1) /\ set_properties h wanted_properties k1 = Some k2
     /\ WHvSetupPartition h k2 = (S_OK, k3)
     /\ whpx_create_vps uninit_value zeroContext x w (Z.to_nat (numProcessors specs)) h 0 [] k3 = (true, h, vps, k'))
  /\ (Initialize k = (true, h, vps, k') -> length vps = Z.to_nat (numProcessors specs))
  /\ length (functions specs uninit) = length (vmExitCPUIDFunctions specs)
  /\ (forall j, (j < length (vmExitCPUIDFunctions specs))%nat ->
       functions specs uninit !! j = if Nat.even j then vmExitCPUIDFunctions specs !! j else Some (uninit j))
  /\ (fget PX.X64CpuidExit (vmExits specs features_exits) = 1
      /\ fget PX.X64MsrExit (vmExits specs features_exits) = Z.b2z (nz (exits &&& EVE_MSRAccess))
      /\ fget PX.ExceptionExit (vmExits specs features_exits) = Z.b2z (nz (exits &&& EVE_Exception))).
Proof.
  assert (Hiff : Initialize k = (true, h, vps, k') <->
    exists k1 k2 k3, WHvCreatePartition k = (S_OK, h, k1) /\ set_properties h wanted_properties k1 = Some k2
     /\ WHvSetupPartition h k2 = (S_OK, k3)
     /\ whpx_create_vps uninit_value zeroContext x w (Z.to_nat (numProcessors specs)) h 0 [] k3 = (true, h, vps, k')).
  { unfold whpx_vm_Initialize. destruct (WHvCreatePartition k) as [[hr h0] k1] eqn:Ec.
    destruct (Z.eqb_spec hr S_OK) as [->|Hne]; cbn [negb]; [|split; [done|naive_solver]].
    match goal with |- set_property true h0 ?p1 ?r1 (set_property ?b2 h0 ?p2 ?r2 (set_property ?b3 h0 ?p3 ?r3
        (set_property ?b4 h0 ?p4 ?r4 (set_property ?b5 h0 ?p5 ?r5 ?n)))) k1 = _ <-> _ =>
      pose proof (configure_ok [(true, p1, r1); (b2, p2, r2); (b3, p3, r3); (b4, p4, r4); (b5, p5, r5)]
        h0 n h vps k1 k') as Hc end.
    cbn [configure foldr] in Hc. etrans; [apply Hc; by repeat constructor|]. clear Hc.
    replace (_ ≫= _) with wanted_properties by (cbn; by rewrite app_nil_r).
    unfold succeeds_with. split.
    - intros (k2 & Hp & Hs). destruct (WHvSetupPartition h0 k2) as [hr k3] eqn:Es.
      destruct (Z.eqb_spec hr S_OK) as [->|]; cbn [negb] in Hs; [|done].
      pose proof (create_vps_length _ _ _ _ _ _ _ _ Hs) as [-> _]. naive_solver.
    - intros (k1' & k2 & k3 & [= <- <-] & Hp & Hs & Hv). exists k2. split; [done|]. by rewrite Hs. }
  split; [exact Hiff|]. split.
  { intros (_ & _ & k3 & _ & _ & _ & Hv)%Hiff. by apply create_vps_length in Hv as [_ ->]. }
  split; [apply functions_length|]. split; [apply functions_lookup|apply vmExits_members].
Qed.
End Configuration.

(** *** Partitions that exist

    A partition comes to exist when it is created and exists until it is deleted;
    no other call, closing its handle included, changes which exist. *)
Class WHPXPartitionLaws (K C : Type) `{WHPX K C} `{WHPXPartition K} := {
  partitions : K -> gset Z;
  create_partition k : let '(hr, h, k') := WHvCreatePartition k in
    if hr =? S_OK then h <> INVALID_HANDLE_VALUE /\ (h ∉ partitions k) /\ partitions k' = ({[h]} ∪ partitions k)
    else partitions k' = partitions k;
  delete_partition h k : partitions (WHvDeletePartition h k) = partitions k ∖ {[h]};
  close_handle h k : partitions (CloseHandle h k) = partitions k;
  set_property_keeps h p k : partitions (snd (WHvSetPartitionProperty h p k)) = partitions k;
  setup_keeps h k : partitions (snd (WHvSetupPartition h k)) = partitions k;
  create_vp_keeps h id k : partitions (snd (WHvCreateVirtualProcessor h id k)) = partitions k;
  delete_vp_keeps h id k : partitions (WHvDeleteVirtualProcessor h id k) = partitions k;
  set_regs_keeps h id names values k :
    partitions (snd (WHvSetVirtualProcessorRegisters h id names values k)) = partitions k;
  create_emulator_keeps k : partitions (snd (WHvEmulatorCreateEmulator k)) = partitions k;
  destroy_emulator_keeps h k : partitions (WHvEmulatorDestroyEmulator h k) = partitions k
}.

Section Partitions.
Context {K C W : Type} `{WHPXPartitionLaws K C}.
Context (specs : VMSpecifications) (features_exits : Z) (uninit : nat -> Z) (uninit_value : Z).
Context (zeroContext : exit_context C) (x : VMExitInfo) (w : W).

Lemma vp_Initialize_keeps h id (s : wvp K C W) :
  partitions (w_platform (snd (whpx_vp_Initialize h id uninit_value s))) = partitions (w_platform s).
Proof.
  unfold whpx_vp_Initialize. pose proof (create_vp_keeps h id (w_platform s)) as E1.
  destruct (WHvCreateVirtualProcessor h id (w_platform s)) as [hr k1]. cbn in E1.
  destruct (negb (hr =? S_OK)); [done|]. cbn [with_platform w_platform].
  pose proof (create_emulator_keeps k1) as E2. destruct (WHvEmulatorCreateEmulator k1) as [[hr2 e] k2].
  cbn in E2. destruct (negb (hr2 =? S_OK)); cbn; [rewrite delete_vp_keeps; congruence|].
  match goal with |- context [WHvSetVirtualProcessorRegisters h id ?n ?v ?k] =>
    pose proof (set_regs_keeps h id n v k) as E3; destruct (WHvSetVirtualProcessorRegisters h id n v k) as [hr3 k3] end.
  cbn in E3. destruct (negb (hr3 =? S_OK)); cbn; rewrite ?delete_vp_keeps, ?destroy_emulator_keeps; congruence.
Qed.
Lemma delete_wvp_keeps h id (s : wvp K C W) : partitions (delete_wvp h id s) = partitions (w_platform s).
Proof. unfold delete_wvp. rewrite delete_vp_keeps. destruct (negb _); [apply destroy_emulator_keeps|done]. Qed.
Lemma delete_vps_keeps h id (vps : list (wvp K C W)) k : partitions (delete_vps h id vps k) = partitions k.
Proof.
  revert id k. induction vps as [|vp vps IH]; intros id k; cbn; [done|]. by rewrite IH, delete_wvp_keeps.
Qed.

(** How the creation of processors ends: with the handle, or with the handle reset. *)
Definition ends (h : Z) (k : K) (r : bool * Z * list (wvp K C W) * K) : Prop :=
  let '(ok, h', _, k') := r in
  partitions k' = partitions k /\ (h' = h \/ ok = false /\ h' = INVALID_HANDLE_VALUE).
Lemma create_vps_ends n h id vps k :
  ends h k (whpx_create_vps uninit_value zeroContext x w n h id vps k).
Proof.
  revert id vps k. induction n as [|n IH]; intros id vps k; cbn [whpx_create_vps]; [cbn; auto|].
  pose proof (vp_Initialize_keeps h id (new_wvp zeroContext x k w)) as E.
  destruct (whpx_vp_Initialize _ _ _ _) as [[] vp]; cbn in E; cbn [negb].
  - specialize (IH (u32 (id + 1)) (vps ++ [vp]) (w_platform vp)).
    destruct (whpx_create_vps _ _ _ _ _ _ _ _ _) as [[[ok h'] vps'] k']. unfold ends in *. by rewrite <- E.
  - unfold ends. rewrite delete_wvp_keeps. cbn. rewrite close_handle. auto.
Qed.
Lemma set_property_ends wanted h p refused next k :
  (forall k, ends h k (refused h k)) -> (forall k, ends h k (next k)) ->
  ends h k (set_property wanted h p refused next k).
Proof.
  intros Hr Hn. unfold set_property. destruct wanted; [|done].
  pose proof (set_property_keeps h p k) as E. destruct (WHvSetPartitionProperty h p k) as [hr k1]. cbn in E.
  unfold ends in *. rewrite <- E. destruct (negb _); [apply Hr|apply Hn].
Qed.
Lemma fail_closed_ends h k : ends h k (fail_closed h k).
Proof. unfold ends. cbn. rewrite close_handle. auto. Qed.
Lemma fail_open_ends h k : ends h k (fail_open h k).
Proof. unfold ends. cbn. auto. Qed.

(** The partitions that a creation leaves behind.  A machine that is created owns
    one new partition.  When the creation fails, no partition is left if none was
    created, or if it failed with the handle still set: then the destructor deletes
    it.  Every failure that resets the handle leaves the partition in existence,
    and nothing refers to it any more: it has only been passed to CloseHandle. *)
Theorem whpx_partition_leak k :
  let '(ok, h, vps, k1) :=
    whpx_vm_Initialize specs features_exits uninit uninit_value zeroContext x w k in
  let '(res, k') := whpx_CreateVMImpl specs features_exits uninit uninit_value zeroContext x w k in
  match res with
  | Some (h', vps') => ok = true /\ h' = h /\ vps' = vps /\ h <> INVALID_HANDLE_VALUE /\ (h ∉ partitions k) /\ partitions k' = ({[h]} ∪ partitions k)
  | None => ok = false /\
      (partitions k' = partitions k /\ (fst (fst (WHvCreatePartition k)) <> S_OK \/ h <> INVALID_HANDLE_VALUE)
       \/ h = INVALID_HANDLE_VALUE /\ exists p, snd (fst (WHvCreatePartition k)) = p
          /\ (p ∉ partitions k) /\ partitions k' = ({[p]} ∪ partitions k))
  end.
Proof.
  unfold whpx_CreateVMImpl, whpx_vm_Initialize. pose proof (create_partition k) as Hc.
  destruct (WHvCreatePartition k) as [[hr p] k1] eqn:Ec. cbn [fst snd].
  destruct (Z.eqb_spec hr S_OK) as [->|Hne]; cbn [negb]; [|by auto].
  destruct Hc as (Hp & Hn & Hk). 
  match goal with |- context [set_property true p ?a ?b ?n k1] =>
    assert (He : ends p k1 (set_property true p a b n k1)) end.
  { repeat (apply set_property_ends; [intros; apply fail_closed_ends || apply fail_open_ends|intros ?]).
    match goal with |- context [WHvSetupPartition p ?k] =>
      pose proof (setup_keeps p k) as E; destruct (WHvSetupPartition p k) as [hr' k'] end.
    cbn in E. unfold ends in *. rewrite <- E.
    destruct (negb _); [apply fail_closed_ends|apply create_vps_ends]. }
  destruct (set_property _ _ _ _ _ _) as [[[ok h] vps] k2]. destruct He as [He Hh].
  destruct ok; cbn [negb].
  { destruct Hh as [->|[? _]]; [|done]. by rewrite He, Hk. }
  split; [done|]. unfold delete_vm. destruct Hh as [->|[_ ->]].
  - left. rewrite (proj2 (Z.eqb_neq _ _) Hp). cbn [negb].
    rewrite delete_partition, delete_vps_keeps, He, Hk. split; [set_solver|by right].
  - right. split; [done|]. exists p. split; [done|]. rewrite Z.eqb_refl. cbn [negb].
    by rewrite delete_vps_keeps, He, Hk.
Qed.
End Partitions.

(** *** Flags *)
Lemma ToWHVFlags_mask rs5 flags : ToWHVFlags rs5 flags = flags &&& (if rs5 then 15 else 7).
Proof.
  unfold ToWHVFlags, MF_Read, MF_Write, MF_Execute, MF_DirtyPageTracking. rewrite !nz_land_bit by done. unfold bit. apply Z.bits_inj'. intros i Hi.
  rewrite Z.land_spec. destruct (Z.ltb_spec i 4) as [Hlt|Hge].
  - assert (Hc : i = 0 \/ i = 1 \/ i = 2 \/ i = 3) by lia.
    destruct Hc as [Hc|[Hc|[Hc|Hc]]]; subst i;
      destruct (Z.testbit flags 0), (Z.testbit flags 1), (Z.testbit flags 2), (Z.testbit flags 3), rs5; reflexivity.
  - rewrite (testbit_range (if rs5 then 15 else 7) 4 i), andb_false_r by (destruct rs5; lia).
    apply (testbit_range _ 4); [|done].
    destruct (Z.testbit flags 0), (Z.testbit flags 1), (Z.testbit flags 2), (Z.testbit flags 3), rs5;
      vm_compute; split; congruence.
Qed.

(** Guest memory on WHPX.  The flags are passed as they are, but for the dirty page tracking
    flag on versions without it; a mapping with none of the flags that are left is
    refused without a call, and otherwise it is OK exactly if the platform maps the
    range.  For dirty pages the platform's function is called only with a bitmap whose
    size is a multiple of eight bytes: a bitmap that is large enough for the base
    class is refused if it is not. *)
Theorem whpx_guest_memory {K V W} `{WHPXPartition K} h rs5 flags base size memory bitmap bitmapSize
    (k : K) (vm : VirtualMachine K V W) (m : hmem) :
  let B := whpx_VMBackend h rs5 in
  let f := flags &&& (if rs5 then 15 else 7) in
  (f = 0 -> MapGuestMemoryImpl base size flags memory k = (MM_InvalidFlags, k))
  /\ (f <> 0 -> MapGuestMemoryImpl base size flags memory k
       = let '(hr, k) := WHvMapGpaRange h memory base size f k in
         (if hr =? S_OK then MM_OK else MM_Failed, k))
  /\ (page_aligned base -> 0 < size < 2 ^ 63 -> page_aligned size -> bitmap mod 8 = 0 ->
      (size / VM.PAGE_SIZE + 7) / 8 <= bitmapSize < 2 ^ 32 -> has_dirty_bitmap = true ->
      QueryDirtyPages base size bitmap bitmapSize vm m
      = if bitmapSize mod 8 =? 0 then
          let '(hr, (k, m)) := WHvQueryGpaRangeDirtyBitmap h base size bitmap bitmapSize (m_backend vm, m) in
          (dirty_status hr, set_backend k vm, m)
        else (DP_MisalignedBitmap, set_backend (m_backend vm) vm, m)).
Proof.
  intros B f. cbn [MapGuestMemoryImpl B whpx_VMBackend]. unfold whpx_MapGuestMemoryImpl.
  rewrite ToWHVFlags_mask. fold f. split; [by intros ->|]. split.
  { intros Hf. unfold WHvMapGpaRangeFlagNone. rewrite (proj2 (Z.eqb_neq f 0)) by done.
    destruct (WHvMapGpaRange h memory base size f k) as [hr k']. by destruct (hr =? S_OK). }
  intros Hb Hs Hsz Hbm Hbs Hd. unfold QueryDirtyPages.
  rewrite (proj2 (nz_fff base) Hb), (proj2 (nz_fff size) Hsz), (proj2 (Z.eqb_neq size 0)) by lia.
  assert (H7 : forall z, nz (z &&& 7) = negb (z mod 8 =? 0)).
  { intros z. change 7 with (Z.ones 3). by rewrite land_ones_mod. }
  rewrite H7, Hbm. cbn [negb Z.eqb]. cbv zeta.
  assert (0 <= size / VM.PAGE_SIZE < 2 ^ 52) by (unfold VM.PAGE_SIZE; zlia).
  rewrite (u64_small (size / VM.PAGE_SIZE + 8)) by lia.
  replace (size / VM.PAGE_SIZE + 8 - 1) with (size / VM.PAGE_SIZE + 7) by lia.
  rewrite (u64_small (size / VM.PAGE_SIZE + 7)), (proj2 (Z.ltb_ge _ _)) by lia.
  cbn [QueryDirtyPagesImpl B whpx_VMBackend]. unfold whpx_QueryDirtyPagesImpl. rewrite Hd, H7. cbn [negb].
  destruct (Z.eqb_spec (bitmapSize mod 8) 0); cbn [negb]; [|done].
  rewrite u32_small by (split; [|lia]; etrans; [|apply Hbs]; apply Z.div_pos; lia).
  by destruct (WHvQueryGpaRangeDirtyBitmap _ _ _ _ _ _) as [hr [k' m']].
Qed.

(** When the platform reports itself usable.  Given the module and its functions, a
    platform is OK exactly if the union shows a hypervisor after the first query and the
    queries for the extended exits, and for the exception bitmap where it is made,
    succeed.  The results of the first two queries make no difference: a
    status of Failed that they cause is overwritten, and the features are read from
    whatever the union holds. *)
Theorem whpx_platform_init host info uninit uninit_cap :
  wh_dispatch host = true -> wh_load host = true ->
  let '(_, c1) := WHvGetCapability host Cap_HypervisorPresent uninit_cap in
  let '(_, c2) := WHvGetCapability host Cap_Features c1 in
  let '(r3, c3) := WHvGetCapability host Cap_ExtendedVmExits c2 in
  let '(r4, c4) := WHvGetCapability host Cap_ExceptionExitBitmap c3 in
  let exceptions := nz (fget PX.ExceptionExit c3) in
  newWhpxPlatform host info uninit uninit_cap
  = if HypervisorPresent c1 then
      (if if exceptions then (r3 =? S_OK) && (r4 =? S_OK) else r3 =? S_OK then PI_OK else PI_Failed,
       whpx_features host info uninit c2 c3 (if exceptions then u64 c4 else ExceptionCode_None))
    else (PI_Unavailable, default_features uninit).
Proof.
  intros Hd Hl. unfold newWhpxPlatform. rewrite Hd, Hl. cbn [negb].
  destruct (WHvGetCapability host Cap_HypervisorPresent uninit_cap) as [r1 c1].
  destruct (WHvGetCapability host Cap_Features c1) as [r2 c2].
  destruct (WHvGetCapability host Cap_ExtendedVmExits c2) as [r3 c3].
  destruct (WHvGetCapability host Cap_ExceptionExitBitmap c3) as [r4 c4].
  destruct (HypervisorPresent c1); cbn [negb]; [|done].
  destruct (nz _), (r3 =? S_OK), (r4 =? S_OK); done.
Qed.

(** ** Witnesses

    A hypervisor that records its partitions and what was set, and refuses to set one up
    if [dp_refuses]. *)
Record demo_hv := MkDemoHv { dp_parts : gset Z; dp_set : list partition_property; dp_refuses : bool }.
#[local] Instance demo_hv_whpx : WHPX demo_hv unit := {
  WHvGetVirtualProcessorRegisters vm id names k := (S_OK, [], k);
  WHvSetVirtualProcessorRegisters vm id names values k := (S_OK, k);
  WHvRunVirtualProcessor vm id c k := (S_OK, c, k);
  WHvCancelRunVirtualProcessor vm id k := (S_OK, k);
  WHvTranslateGva vm id gva flags k := (S_OK, (0, gva), k);
  WHvCreateVirtualProcessor vm id k := (S_OK, k);
  WHvDeleteVirtualProcessor vm id k := k;
  WHvEmulatorCreateEmulator k := (S_OK, 7, k);
  WHvEmulatorDestroyEmulator h k := k;
  WHvEmulatorTryIoEmulation h c := Finished 1 false;
  WHvEmulatorTryMmioEmulation h c := Finished 1 false
}.
Definition fresh_partition (s : gset Z) : Z := foldr Z.max 0 (elements s) + 1.
#[local] Instance demo_hv_partition : WHPXPartition demo_hv := {
  WHvCreatePartition k :=
    let h := fresh_partition (dp_parts k) in (S_OK, h, MkDemoHv ({[h]} ∪ dp_parts k) (dp_set k) (dp_refuses k));
  WHvDeletePartition h k := MkDemoHv (dp_parts k ∖ {[h]}) (dp_set k) (dp_refuses k);
  CloseHandle h k := k;
  WHvSetPartitionProperty h p k := (S_OK, MkDemoHv (dp_parts k) (dp_set k ++ [p]) (dp_refuses k));
  WHvSetupPartition h k := (if dp_refuses k then 1 else S_OK, k);
  WHvMapGpaRange h memory base size flags k := (S_OK, k);
  WHvUnmapGpaRange h base size k := (S_OK, k);
  has_dirty_bitmap := true;
  WHvQueryGpaRangeDirtyBitmap h base size bitmap bitmapSize km := (S_OK, km)
}.
Lemma fresh_partition_above s y : y ∈ s -> y < fresh_partition s.
Proof.
  rewrite <- elem_of_elements. unfold fresh_partition. intros Hy.
  enough (y <= foldr Z.max 0 (elements s)) by lia.
  induction (elements s) as [|z l IH]; [by apply not_elem_of_nil in Hy|]. cbn.
  apply elem_of_cons in Hy as [->|Hy]; [lia|]. specialize (IH Hy). lia.
Qed.
Lemma fresh_partition_pos s : 0 < fresh_partition s.
Proof. unfold fresh_partition. enough (0 <= foldr Z.max 0 (elements s)) by lia. induction (elements s); cbn; lia. Qed.
#[local] Instance demo_hv_laws : WHPXPartitionLaws demo_hv unit.
Proof.
  refine {| partitions := dp_parts |}; cbn; try done.
  intros k. unfold INVALID_HANDLE_VALUE. split; [pose proof (fresh_partition_pos (dp_parts k)); lia|].
  split; [|done]. intros Hn%fresh_partition_above. lia.
Defined.
Definition demo_specs : VMSpecifications :=
  MkSpecs 2 (EVE_CPUID ||| EVE_Exception) [0x1; 0x7; 0x40000000] 0x4008 [] 0 0xFFFBC000.
Definition demo_start (refuses : bool) : demo_hv := MkDemoHv {[3]} [] refuses.
Abbreviation demo_exits := (EVE_CPUID ||| EVE_MSRAccess ||| EVE_Exception).
Abbreviation no_exit := (MkVMExitInfo Exit_Normal Details_None).

(** Two processors; the second of the three CPUID functions is not set. *)
Lemma whpx_vm_configures_witness :
  exists vps k', whpx_vm_Initialize demo_specs demo_exits (fun _ => 0xDEAD) 0 NoReason no_exit 0 (demo_start false)
    = (true, 4, vps, k')
  /\ length vps = 2%nat
  /\ dp_set k' = [ProcessorCount 2; ExtendedVmExits 5; CpuidExitList [0x1; 0xDEAD; 0x40000000];
                  ExceptionExitBitmap 0x4008].
Proof.
  destruct (whpx_vm_Initialize demo_specs demo_exits (fun _ => 0xDEAD) 0 NoReason no_exit 0 (demo_start false))
    as [[[ok h] vps] k'] eqn:E.
  pose proof (whpx_vm_configures demo_specs demo_exits (fun _ => 0xDEAD) 0 NoReason no_exit 0 (demo_start false) h vps k')
    as (_ & Hl & _).
  assert (ok = true) as -> by (vm_compute in E; congruence).
  exists vps, k'. split; [vm_compute in E; congruence|]. split; [exact (Hl E)|].
  assert (k' = snd (whpx_vm_Initialize demo_specs demo_exits (fun _ => 0xDEAD) 0 NoReason no_exit 0 (demo_start false)))
    as -> by (rewrite E; reflexivity).
  vm_compute. reflexivity.
Defined.

(** The partition is refused: it still exists after the creation has failed. *)
Lemma whpx_partition_leak_witness :
  let r := whpx_CreateVMImpl demo_specs demo_exits (fun _ => 0xDEAD) 0 NoReason no_exit 0 (demo_start true) in
  fst r = None /\ dp_parts (snd r) = {[4; 3]}.
Proof.
  intros r. assert (Hn : fst r = None) by (vm_compute; reflexivity). split; [exact Hn|].
  pose proof (whpx_partition_leak demo_specs demo_exits (fun _ => 0xDEAD) 0 NoReason no_exit 0 (demo_start true)) as H.
  fold r in H. clearbody r.
  destruct (whpx_vm_Initialize demo_specs demo_exits (fun _ => 0xDEAD) 0 NoReason no_exit 0 (demo_start true))
    as [[[ok h] vps] k1] eqn:E.
  assert (h = -1) as -> by (vm_compute in E; congruence).
  destruct r as [res k']. cbn [fst] in Hn. subst res.
  destruct H as [_ [(_ & [H|H])|(_ & p & Hp & _ & H)]]; [by vm_compute in H|done|].
  assert (p = 4) as -> by (rewrite <- Hp; vm_compute; reflexivity). exact H.
Defined.

(** One page with a bitmap of one byte is refused, with one of eight bytes it is queried. *)
Lemma whpx_guest_memory_witness :
  let _ := whpx_VMBackend 4 false in
  let vm : VirtualMachine demo_hv unit unit := newVM (demo_start false) in
  QueryDirtyPages 0x1000 0x1000 0x8000 1 vm (fun _ => 0) = (DP_MisalignedBitmap, vm, fun _ => 0)
  /\ QueryDirtyPages 0x1000 0x1000 0x8000 8 vm (fun _ => 0) = (DP_OK, vm, fun _ => 0)
  /\ MapGuestMemoryImpl 0 0x1000 MF_DirtyPageTracking 0x8000 (demo_start false) = (MM_InvalidFlags, demo_start false).
Proof.
  intros B vm. subst B.
  pose proof (whpx_guest_memory 4 false MF_DirtyPageTracking 0x1000 0x1000 0 0x8000 1 (demo_start false) vm (fun _ => 0))
    as (_ & _ & H1).
  pose proof (whpx_guest_memory 4 false MF_DirtyPageTracking 0 0x1000 0x8000 0x8000 8 (demo_start false) vm (fun _ => 0))
    as (H2 & _).
  pose proof (whpx_guest_memory 4 false MF_DirtyPageTracking 0x1000 0x1000 0 0x8000 8 (demo_start false) vm (fun _ => 0))
    as (_ & _ & H3).
  split; [|split].
  - rewrite H1; [reflexivity|reflexivity|lia|reflexivity|reflexivity|split; [vm_compute; congruence|lia]|reflexivity].
  - rewrite H3; [reflexivity|reflexivity|lia|reflexivity|reflexivity|split; [vm_compute; congruence|lia]|reflexivity].
  - exact (H2 eq_refl).
Defined.

(** Both of the first queries fail, and the platform is OK. *)
Lemma whpx_platform_init_witness :
  let host := MkWhpxHost true true (MkVersionInfo 10 0 17134 1)
    (fun c cap => match c with Cap_HypervisorPresent | Cap_Features => (1, cap) | _ => (S_OK, 0) end) in
  let info := MkHostInfo (MkGPA 39 (2 ^ 39) (2 ^ 39 - 1)) FP_SSE in
  fst (newWhpxPlatform host info (MkGPA 0 0 0) 0xCC) = PI_OK.
Proof.
  intros host info. pose proof (whpx_platform_init host info (MkGPA 0 0 0) 0xCC eq_refl eq_refl) as H.
  etrans; [exact (f_equal fst H)|reflexivity].
Defined.
