(* ===== verification/WhpxLoad.v ===== *)
(** * Loading the Windows Hypervisor Platform (whpx_dispatch.hpp, whpx_dispatch.cpp)

    The two libraries, the functions found in them and the version of the first one.  The loader
    of Windows is the class [Loader]; a handle or a function that is NULL is 0. *)
From stdpp Require Import strings gmap.
From S2P Require Import Prelude WhpxRegs.

Class Loader (K : Type) := {
  LoadLibraryA (name : string) : K -> Z * K;
  GetProcAddress (h : Z) (name : string) : K -> Z;
  FreeLibrary (h : Z) : K -> K;
  getModuleVersion (h : Z) : K -> option VersionInfo
}.

Definition WHPX_PLATFORM_FUNCTIONS : list string :=
  ["WHvGetCapability"; "WHvCreatePartition"; "WHvSetupPartition"; "WHvDeletePartition";
   "WHvGetPartitionProperty"; "WHvSetPartitionProperty"; "WHvMapGpaRange"; "WHvUnmapGpaRange";
   "WHvTranslateGva"; "WHvCreateVirtualProcessor"; "WHvDeleteVirtualProcessor";
   "WHvRunVirtualProcessor"; "WHvCancelRunVirtualProcessor"; "WHvGetVirtualProcessorRegisters";
   "WHvSetVirtualProcessorRegisters"]%string.
Definition WHPX_OPTIONAL_PLATFORM_FUNCTIONS : list string :=
  ["WHvQueryGpaRangeDirtyBitmap"; "WHvSuspendPartitionTime"; "WHvResumePartitionTime"]%string.
Definition WHPX_EMULATION_FUNCTIONS : list string :=
  ["WHvEmulatorCreateEmulator"; "WHvEmulatorDestroyEmulator"; "WHvEmulatorTryIoEmulation";
   "WHvEmulatorTryMmioEmulation"]%string.

(** The object, with the global [g_whpxVersion]; a function that is not in the map is [nullptr]. *)
Record WhpxDispatch := MkDispatch {
  m_loaded : bool; m_hWinHvPlatform : Z; m_hWinHvEmulation : Z; functions : gmap string Z;
  g_whpxVersion : VersionInfo
}.
Definition newWhpxDispatch : WhpxDispatch := MkDispatch false 0 0 ∅ (MkVersionInfo 0 0 0 0).
Definition function_of (d : WhpxDispatch) (name : string) : Z := default 0 (functions d !! name).

Section Load.
Context {K : Type} `{Loader K}.
(** The macros LOAD_FUNC and LOAD_OPTIONAL_FUNC for a list of functions: false is [goto fail]. *)
Fixpoint LOAD_FUNCS (hmodule : Z) (names : list string) (fs : gmap string Z) (k : K) : bool * gmap string Z :=
  match names with
  | [] => (true, fs)
  | name :: names =>
      let f := GetProcAddress hmodule name k in
      let fs := <[name := f]> fs in
      if f =? 0 then (false, fs) else LOAD_FUNCS hmodule names fs k
  end.
Definition LOAD_OPTIONAL_FUNCS (hmodule : Z) (names : list string) (fs : gmap string Z) (k : K) : gmap string Z :=
  fold_left (fun fs name => <[name := GetProcAddress hmodule name k]> fs) names fs.
Definition setVersion (hWinHvPlatform : Z) (g_whpxVersion : VersionInfo) (k : K) : VersionInfo :=
  match getModuleVersion hWinHvPlatform k with Some opt_ver => opt_ver | None => g_whpxVersion end.
(** The code after the label. *)
Definition fail (d : WhpxDispatch) (k : K) : bool * WhpxDispatch * K :=
  let k := if negb (m_hWinHvPlatform d =? 0) then FreeLibrary (m_hWinHvPlatform d) k else k in
  let k := if negb (m_hWinHvEmulation d =? 0) then FreeLibrary (m_hWinHvEmulation d) k else k in
  (false, MkDispatch (m_loaded d) 0 0 (functions d) (MkVersionInfo 0 0 0 0), k).
Definition Load (d : WhpxDispatch) (k : K) : bool * WhpxDispatch * K :=
  if m_loaded d then (true, d, k)
  else
    let '(h, k) := LoadLibraryA "WinHvPlatform.dll" k in
    let d := MkDispatch (m_loaded d) h (m_hWinHvEmulation d) (functions d) (g_whpxVersion d) in
    if h =? 0 then fail d k
    else
      let '(h', k) := LoadLibraryA "WinHvEmulation.dll" k in
      let d := MkDispatch (m_loaded d) h h' (functions d) (g_whpxVersion d) in
      if h' =? 0 then fail d k
      else
        let version := setVersion h (g_whpxVersion d) k in
        let '(ok, fs) := LOAD_FUNCS h WHPX_PLATFORM_FUNCTIONS (functions d) k in
        let d := MkDispatch (m_loaded d) h h' fs version in
        if negb ok then fail d k
        else
          let fs := LOAD_OPTIONAL_FUNCS h WHPX_OPTIONAL_PLATFORM_FUNCTIONS fs k in
          let '(ok, fs) := LOAD_FUNCS h' WHPX_EMULATION_FUNCTIONS fs k in
          if negb ok then fail (MkDispatch (m_loaded d) h h' fs version) k
          else (true, MkDispatch true h h' fs version, k).
End Load.

(** What the loader promises of the number of times each library is loaded, and that what it
    finds in a library depends only on the library. *)
Class LoaderLaws (K : Type) `{Loader K} := {
  loads : K -> Z -> Z;
  proc : Z -> string -> Z;
  LoadLibraryA_loads name k : let '(h, k') := LoadLibraryA name k in
    forall i, loads k' i = loads k i + (if negb (h =? 0) && (i =? h) then 1 else 0);
  FreeLibrary_loads h k i : loads (FreeLibrary h k) i = loads k i - (if i =? h then 1 else 0);
  GetProcAddress_proc h name k : GetProcAddress h name k = proc h name
}.

Section Theorems.
Context {K : Type} `{LoaderLaws K}.
Lemma LOAD_FUNCS_spec h names fs (k : K) :
  let '(ok, fs') := LOAD_FUNCS h names fs k in
  (ok = true <-> Forall (fun n => proc h n <> 0) names)
  /\ (forall n, n ∉ names -> fs' !! n = fs !! n)
  /\ (ok = true -> forall n, n ∈ names -> fs' !! n = Some (proc h n)).
Proof.
  revert fs. induction names as [|m names IH]; intros fs; cbn.
  { split; [by split|]. split; [done|]. intros _ n Hn. by apply elem_of_nil in Hn. }
  rewrite GetProcAddress_proc. destruct (Z.eqb_spec (proc h m) 0) as [E|E].
  - split; [|split; [|done]].
    + split; [done|]. by intros [? _]%Forall_cons.
    + intros n [Hn _]%not_elem_of_cons. by rewrite lookup_insert_ne.
  - specialize (IH (<[m := proc h m]> fs)). destruct (LOAD_FUNCS _ _ _ _) as [ok fs']. destruct IH as (H1 & H2 & H3).
    split; [rewrite Forall_cons; tauto|]. split.
    + intros n [Hm Hn]%not_elem_of_cons. by rewrite H2, lookup_insert_ne.
    + intros Hok n Hn. destruct (decide (n ∈ names)) as [Hi|Hi]; [by apply H3|].
      apply elem_of_cons in Hn as [->|]; [|done]. rewrite H2 by done. by rewrite lookup_insert_eq.
Qed.
Lemma LOAD_OPTIONAL_FUNCS_spec h names fs (k : K) n :
  LOAD_OPTIONAL_FUNCS h names fs k !! n = if decide (n ∈ names) then Some (proc h n) else fs !! n.
Proof.
  unfold LOAD_OPTIONAL_FUNCS. revert fs. induction names as [|m names IH]; intros fs; cbn.
  { by rewrite decide_False by apply not_elem_of_nil. }
  rewrite IH, GetProcAddress_proc. destruct (decide (n ∈ names)) as [Hi|Hi].
  - by rewrite decide_True by by apply elem_of_cons; right.
  - destruct (decide (n = m)) as [->|Hne].
    + rewrite decide_True by by apply elem_of_cons; left. by rewrite lookup_insert_eq.
    + rewrite decide_False by by rewrite not_elem_of_cons. by rewrite lookup_insert_ne.
Qed.
End Theorems.

(** How often the dispatch object itself has loaded the library [i]. *)
Definition held (d : WhpxDispatch) (i : Z) : Z :=
  (if negb (m_hWinHvPlatform d =? 0) && (i =? m_hWinHvPlatform d) then 1 else 0)
  + (if negb (m_hWinHvEmulation d =? 0) && (i =? m_hWinHvEmulation d) then 1 else 0).
(** The object between calls: it holds both libraries with every function that is needed, or
    none; [base] is how often others have loaded each library. *)
Record dispatch_ok {K} `{LoaderLaws K} (base : Z -> Z) (d : WhpxDispatch) (k : K) : Prop := {
  ok_loads i : loads k i = base i + held d i;
  ok_loaded : m_loaded d = true -> m_hWinHvPlatform d <> 0 /\ m_hWinHvEmulation d <> 0
    /\ Forall (fun n => function_of d n = proc (m_hWinHvPlatform d) n /\ function_of d n <> 0) WHPX_PLATFORM_FUNCTIONS
    /\ Forall (fun n => function_of d n = proc (m_hWinHvPlatform d) n) WHPX_OPTIONAL_PLATFORM_FUNCTIONS
    /\ Forall (fun n => function_of d n = proc (m_hWinHvEmulation d) n /\ function_of d n <> 0) WHPX_EMULATION_FUNCTIONS;
  ok_unloaded : m_loaded d = false -> m_hWinHvPlatform d = 0 /\ m_hWinHvEmulation d = 0
}.

Section Invariant.
Context {K : Type} `{LoaderLaws K}.
Lemma fail_ok base d (k : K) : m_loaded d = false -> (forall i, loads k i = base i + held d i) ->
  let '(ok, d', k') := fail d k in ok = false /\ m_loaded d' = false /\ dispatch_ok base d' k'.
Proof.
  intros Hl Hk. unfold fail. split; [done|]. split; [done|]. split; [|by rewrite Hl|done].
  intros i. unfold held in *. cbn. specialize (Hk i).
  destruct (m_hWinHvPlatform d =? 0), (m_hWinHvEmulation d =? 0); cbn in *;
    rewrite ?FreeLibrary_loads; lia.
Qed.
(** The names of the three groups differ. *)
Lemma function_names : NoDup (WHPX_PLATFORM_FUNCTIONS ++ WHPX_OPTIONAL_PLATFORM_FUNCTIONS ++ WHPX_EMULATION_FUNCTIONS).
Proof. apply (bool_decide_unpack _). vm_compute. exact I. Qed.
Lemma functions_found h h' fs fs1 fs2 (k : K) :
  LOAD_FUNCS h WHPX_PLATFORM_FUNCTIONS fs k = (true, fs1) ->
  LOAD_FUNCS h' WHPX_EMULATION_FUNCTIONS (LOAD_OPTIONAL_FUNCS h WHPX_OPTIONAL_PLATFORM_FUNCTIONS fs1 k) k = (true, fs2) ->
  (forall n, n ∈ WHPX_PLATFORM_FUNCTIONS -> fs2 !! n = Some (proc h n) /\ proc h n <> 0)
  /\ (forall n, n ∈ WHPX_OPTIONAL_PLATFORM_FUNCTIONS -> fs2 !! n = Some (proc h n))
  /\ (forall n, n ∈ WHPX_EMULATION_FUNCTIONS -> fs2 !! n = Some (proc h' n) /\ proc h' n <> 0).
Proof.
  intros E1 E2. pose proof function_names as N. apply NoDup_app in N as (_ & N1 & N). apply NoDup_app in N as (_ & N2 & _).
  pose proof (LOAD_FUNCS_spec h WHPX_PLATFORM_FUNCTIONS fs k) as S1. rewrite E1 in S1. destruct S1 as (F1 & _ & V1).
  pose proof (LOAD_FUNCS_spec h' WHPX_EMULATION_FUNCTIONS (LOAD_OPTIONAL_FUNCS h WHPX_OPTIONAL_PLATFORM_FUNCTIONS fs1 k) k) as S2.
  rewrite E2 in S2. destruct S2 as (F2 & O2 & V2).
  pose proof (proj1 (Forall_forall _ _) (proj1 F1 eq_refl)) as P1. pose proof (proj1 (Forall_forall _ _) (proj1 F2 eq_refl)) as P2.
  split; [|split].
  - intros n Hn. split; [|by apply P1]. specialize (N1 n Hn). rewrite not_elem_of_app in N1. destruct N1 as [Na Nb].
    rewrite O2 by done. rewrite LOAD_OPTIONAL_FUNCS_spec, decide_False by done. by apply V1.
  - intros n Hn. rewrite O2 by by apply N2. rewrite LOAD_OPTIONAL_FUNCS_spec, decide_True by done. done.
  - intros n Hn. split; [by apply V2|by apply P2].
Qed.
End Invariant.

(** C17: loading the platform.  Load succeeds exactly when both libraries and all of their
    functions but the three optional ones are found, or it has succeeded before, and then
    changes nothing; afterwards the object holds each library once and every function with its address.
    Whatever fails, each library that was loaded is released again and the next call
    starts anew: no number of calls leaks a library. *)
Theorem whpx_load {K} `{LoaderLaws K} base d (k : K) :
  dispatch_ok base d k ->
  let '(ok, d', k') := Load d k in
  dispatch_ok base d' k' /\ ok = m_loaded d'
  /\ (m_loaded d = true -> d' = d /\ k' = k)
  /\ (m_loaded d = false ->
      let '(h, k1) := LoadLibraryA "WinHvPlatform.dll" k in
      let '(h', _) := LoadLibraryA "WinHvEmulation.dll" k1 in
      ok = true <-> h <> 0 /\ h' <> 0 /\ Forall (fun n => proc h n <> 0) WHPX_PLATFORM_FUNCTIONS
                    /\ Forall (fun n => proc h' n <> 0) WHPX_EMULATION_FUNCTIONS)
  /\ (ok = false -> g_whpxVersion d' = MkVersionInfo 0 0 0 0).
Proof.
  intros [Hk Hl Hu]. unfold Load. destruct (m_loaded d) eqn:Ed.
  { split_and!; [split; [done|intros _; by apply Hl|by rewrite Ed]|done|done|done|done]. }
  destruct (Hu eq_refl) as [E1 E2]. unfold held in Hk. rewrite E1, E2 in Hk. cbn [negb andb Z.eqb] in Hk.
  assert (Hf : forall d0 (k0 : K) (P : Prop), m_loaded d0 = false -> (forall i, loads k0 i = base i + held d0 i) -> ~ P ->
    let '(ok, d', k') := fail d0 k0 in dispatch_ok base d' k' /\ ok = m_loaded d' /\ (false = true -> d' = d /\ k' = k)
    /\ (false = false -> (ok = true <-> P)) /\ (ok = false -> g_whpxVersion d' = MkVersionInfo 0 0 0 0)).
  { intros d0 k0 P H1 H2 HP. pose proof (fail_ok base d0 k0 H1 H2) as F. unfold fail in *. destruct F as (? & ? & ?).
    split_and!; try done. }
  pose proof (LoadLibraryA_loads "WinHvPlatform.dll" k) as L1. destruct (LoadLibraryA _ k) as [h k1].
  pose proof (LoadLibraryA_loads "WinHvEmulation.dll" k1) as L2.
  destruct (LoadLibraryA "WinHvEmulation.dll" k1) as [h' k2].
  destruct (Z.eqb_spec h 0) as [->|Hh].
  { apply Hf; [done| |by intros [? _]]. intros i. unfold held. cbn. rewrite L1, Hk, E2. cbn. lia. }
  destruct (Z.eqb_spec h' 0) as [->|Hh'].
  { apply Hf; [done| |by intros (_ & ? & _)]. intros i. unfold held. cbn [m_hWinHvPlatform m_hWinHvEmulation].
    rewrite L2, L1, Hk, (proj2 (Z.eqb_neq h 0) Hh). cbn. lia. }
  assert (Hheld : forall fs v i, loads k2 i = base i + held (MkDispatch false h h' fs v) i).
  { intros fs v i. unfold held. cbn [m_hWinHvPlatform m_hWinHvEmulation]. rewrite L2, L1, Hk, (proj2 (Z.eqb_neq h 0) Hh), (proj2 (Z.eqb_neq h' 0) Hh'). cbn. lia. }
  pose proof (LOAD_FUNCS_spec h WHPX_PLATFORM_FUNCTIONS (functions d) k2) as S1. cbn [functions m_loaded].
  destruct (LOAD_FUNCS h WHPX_PLATFORM_FUNCTIONS _ k2) as [[|] fs1] eqn:F1; cbn [negb].
  2:{ apply Hf; [done|intros i; exact (Hheld _ _ i)|]. intros (_ & _ & P & _). by apply S1 in P. }
  set (fs' := LOAD_OPTIONAL_FUNCS _ _ _ _).
  pose proof (LOAD_FUNCS_spec h' WHPX_EMULATION_FUNCTIONS fs' k2) as S2.
  destruct (LOAD_FUNCS h' WHPX_EMULATION_FUNCTIONS _ k2) as [[|] fs2] eqn:F2; cbn [negb].
  2:{ apply Hf; [done|intros i; exact (Hheld _ _ i)|]. intros (_ & _ & _ & P). by apply S2 in P. }
  destruct (functions_found h h' _ _ _ k2 F1 F2) as (G1 & G2 & G3).
  split; [|split_and!; [done|done| |done]].
  - split; [exact (Hheld fs2 (MkVersionInfo 0 0 0 0))| |done]. intros _. cbn [m_hWinHvPlatform m_hWinHvEmulation].
    unfold function_of. cbn [functions].
    split_and!; [done|done|..]; apply Forall_forall; intros n Hn.
    + destruct (G1 n Hn) as [-> ?]. done.
    + by rewrite (G2 n Hn).
    + destruct (G3 n Hn) as [-> ?]. done.
  - intros _. split; [|done]. intros _. split_and!; [done|done|by apply S1|by apply S2].
Qed.

(** A loader that knows both libraries. *)
Module LoaderDemo.
Definition state : Type := Z -> Z.
#[export] Instance loader : Loader state := {
  LoadLibraryA name k :=
    let h := if String.eqb name "WinHvPlatform.dll" then 1 else 2 in
    (h, fun i => k i + (if i =? h then 1 else 0));
  GetProcAddress _ _ _ := 7;
  FreeLibrary h k := fun i => k i - (if i =? h then 1 else 0);
  getModuleVersion _ _ := Some (MkVersionInfo 10 0 17763 1)
}.
#[export] Instance laws : LoaderLaws state.
Proof.
  refine {| loads := fun (k : state) => k; proc := fun _ _ => 7 |}; cbn.
  - intros name k i. by destruct (String.eqb _ _).
  - done.
  - done.
Defined.
End LoaderDemo.
#[local] Existing Instance LoaderDemo.loader.
#[local] Existing Instance LoaderDemo.laws.

Lemma whpx_load_witness :
  let k : LoaderDemo.state := fun _ => 0 in
  let '(ok, d, k') := Load newWhpxDispatch k in
  ok = true /\ dispatch_ok (fun _ => 0) d k' /\ k' 1 = 1 /\ k' 2 = 1.
Proof.
  intros k. pose proof (whpx_load (K:=LoaderDemo.state) (fun _ => 0) newWhpxDispatch k) as H.
  assert (Hok : dispatch_ok (fun _ => 0) newWhpxDispatch k) by (split; [intros i; done|done|done]).
  assert (Eok : fst (fst (Load newWhpxDispatch k)) = true) by (vm_compute; reflexivity).
  assert (E1 : snd (Load newWhpxDispatch k) 1 = 1) by (vm_compute; reflexivity).
  assert (E2 : snd (Load newWhpxDispatch k) 2 = 1) by (vm_compute; reflexivity).
  destruct (Load newWhpxDispatch k) as [[ok d] k'].
  split; [exact Eok|]. split; [exact (proj1 (H Hok))|]. split; [exact E1|exact E2].
Defined.
