(* ===== verification/GuestView.v ===== *)
(** * Guest memory as the guest sees it

    The machine of VM.v keeps a list of regions, through which the program reads and writes guest
    memory, and hands every mapping to its platform, which decides what the guest finds at a
    physical address.  [GuestMemory] is what a platform promises about the latter; the
    theorem shows that both are the same memory.  The instances follow from what the hypervisor of each
    platform promises about its own calls. *)
From stdpp Require Import gmap.
From S2P Require Import Prelude Bits MemRegions VM HaxmVp HaxmVm KvmVm WhpxVp WhpxVm.

Definition in_range (base size a : Z) : bool := (base <=? a) && (a <? base + size).
(** The effect of a mapping and of its removal on a view: the host address of each guest
    address. *)
Definition view_map (base size memory : Z) (view : Z -> option Z) : Z -> option Z :=
  fun a => if in_range base size a then Some (memory + (a - base)) else view a.
Definition view_unmap (base size : Z) (view : Z -> option Z) : Z -> option Z :=
  fun a => if in_range base size a then None else view a.
Definition block_ok (base size memory : Z) : Prop :=
  range_ok base size /\ 0 <= memory /\ memory + size <= 2 ^ 64.

(** [ginv] is an invariant of the platform's state, [glimit] a condition under which it
    can take another mapping, and [gflags] one under which it can take a change of flags.  An
    unmapping that fails may have removed part of the range. *)
Class GuestMemory (B : Type) `{VMBackend B} := {
  gview : B -> Z -> option Z;
  ginv : B -> Prop;
  glimit : B -> Prop;
  gflags (base size : Z) : B -> Prop;
  gview_map base size flags memory b : block_ok base size memory -> ginv b -> glimit b ->
    let '(st, b') := MapGuestMemoryImpl base size flags memory b in
    ginv b' /\ forall a, gview b' a = match st with
                                      | MM_OK => view_map base size memory (gview b) a
                                      | _ => gview b a
                                      end;
  gview_unmap base size b : range_ok base size -> ginv b ->
    let '(st, b') := UnmapGuestMemoryImpl base size b in
    ginv b' /\ forall a, gview b' a = view_unmap base size (gview b) a \/ st <> MM_OK /\ gview b' a = gview b a;
  gview_flags base size flags b : ginv b -> gflags base size b ->
    let '(_, b') := SetGuestMemoryFlagsImpl base size flags b in
    ginv b' /\ forall a, gview b' a = gview b a;
  gview_query base size bitmap bitmapSize b m : ginv b ->
    let '(_, (b', _)) := QueryDirtyPagesImpl base size bitmap bitmapSize (b, m) in
    ginv b' /\ forall a, gview b' a = gview b a;
  gview_clear base size b : ginv b ->
    let '(_, b') := ClearDirtyPagesImpl base size b in ginv b' /\ forall a, gview b' a = gview b a
}.

Section View.
Context {B V W : Type} `{GuestMemory B}.
Context (largeMemoryAllocation : bool) (k : Z) (Hk : 12 <= k <= 64).
Abbreviation VM := (VirtualMachine B V W).
Implicit Types (vm : VM) (m : hmem).

(** Restrictions on the client's unmappings: [gapless] keeps them to ranges that leave no gap to a
    mapped region (see [touches]), [exact] excludes those that fail and yet remove something from
    the guest's view (HAXM without [HAX_CAP_64BIT_SETRAM]).  No range wraps. *)
Context (gapless exact : bool).

(** The client's calls, whatever their results. *)
Inductive guest_step : VM * hmem -> VM * hmem -> Prop :=
| gs_map vm m base size flags memory :
    0 <= base < 2 ^ 64 -> 0 <= size < 2 ^ 64 -> base + size <= 2 ^ 64 ->
    0 <= memory < 2 ^ 64 -> memory + size <= 2 ^ 64 -> glimit (m_backend vm) ->
    guest_step (vm, m) (snd (MapGuestMemory largeMemoryAllocation (Z.ones k) base size flags memory vm), m)
| gs_unmap vm m base size st vm' :
    0 <= base < 2 ^ 64 -> 0 <= size < 2 ^ 64 -> base + size <= 2 ^ 64 ->
    (gapless = true -> Forall (touches base size) (m_memoryRegions vm)) ->
    UnmapGuestMemory largeMemoryAllocation base size vm = Some (st, vm') ->
    (exact = true -> st = MM_OK \/ forall a, gview (m_backend vm') a = gview (m_backend vm) a) ->
    guest_step (vm, m) (vm', m)
| gs_set_flags vm m base size flags : gflags base size (m_backend vm) ->
    guest_step (vm, m) (snd (SetGuestMemoryFlags largeMemoryAllocation base size flags vm), m)
| gs_query vm m base size bitmap bitmapSize st vm' m' :
    QueryDirtyPages base size bitmap bitmapSize vm m = (st, vm', m') -> guest_step (vm, m) (vm', m')
| gs_clear vm m base size : guest_step (vm, m) (snd (ClearDirtyPages base size vm), m)
| gs_write vm m m' paddr size value :
    VMMemWrite vm m paddr size value = Some m' -> guest_step (vm, m) (vm, m').
Definition guest_reachable (b : B) (m0 : hmem) (s : VM * hmem) : Prop := rtc guest_step (newVM b, m0) s.

Lemma guest_vm_step s s' : guest_step s s' -> vm_step largeMemoryAllocation (Z.ones k) true gapless s s'.
Proof.
  destruct 1 as [vm m base size flags memory|vm m base size st vm'| | | |].
  - apply step_map; lia.
  - by apply step_unmap with base size st.
  - apply step_set_flags.
  - by eapply step_query.
  - apply step_clear.
  - by eapply step_write.
Qed.

(** How the two views of an address compare: under both restrictions they are equal; when unmappings may
    fail halfway the guest may have lost what the program keeps; when they may leave gaps the program
    may find more and other bytes, but has an address wherever the guest has one. *)
Definition matches (g t : option Z) : Prop :=
  if gapless then if exact then g = t else g = None \/ g = t else is_Some g -> is_Some t.
Definition views_match vm : Prop :=
  ginv (m_backend vm) /\ forall a, matches (gview (m_backend vm) a) (translate (m_memoryRegions vm) a).
Lemma matches_refl g : matches g g.
Proof. unfold matches. destruct gapless, exact; auto. Qed.

Lemma translate_snoc rs base size memory a : block_ok base size memory ->
  translate (rs ++ [MkMemoryRegion base size memory]) a = view_map base size memory (translate rs) a.
Proof.
  intros ((Hb & Hs & Hbs) & Hm & Hms). rewrite translate_app, translate_single. unfold view_map, in_range.
  replace (covers (MkMemoryRegion base size memory) a 1) with ((base <=? a) && (a <? base + size)).
  2:{ unfold covers. cbn. apply Bool.eq_iff_eq_true. rewrite !andb_true_iff, !Z.leb_le, Z.ltb_lt. lia. }
  destruct ((base <=? a) && (a <? base + size)) eqn:E; [|done]. unfold host_addr. cbn.
  rewrite u64_small; [done|]. rewrite andb_true_iff, Z.leb_le, Z.ltb_lt in E. lia.
Qed.
Lemma view_step_map base size flags memory vm :
  0 <= base < 2 ^ 64 -> 0 <= size < 2 ^ 64 -> base + size <= 2 ^ 64 -> 0 <= memory -> memory + size <= 2 ^ 64 ->
  glimit (m_backend vm) ->
  views_match vm -> views_match (snd (MapGuestMemory largeMemoryAllocation (Z.ones k) base size flags memory vm)).
Proof.
  intros Hb Hs Hbs Hm Hms Hl [Hi Hv]. unfold MapGuestMemory. repeat (case_if; [done|]).
  assert (Hok : block_ok base size memory) by (apply Z.eqb_neq in E1; unfold block_ok, range_ok; lia).
  pose proof (gview_map base size flags memory (m_backend vm) Hok Hi Hl) as L.
  destruct (MapGuestMemoryImpl base size flags memory (m_backend vm)) as [st b']. destruct L as [Hi' L].
  destruct st; (split; [done|]); intros a; cbn [snd set_backend set_regions m_backend m_memoryRegions];
    rewrite L; try apply Hv. rewrite translate_snoc by done. unfold view_map.
  destruct (in_range base size a); [apply matches_refl|apply Hv].
Qed.
Lemma view_step_unmap base size st vm vm' :
  0 <= base -> 0 <= size -> base + size <= 2 ^ 64 ->
  (gapless = true -> Forall (touches base size) (m_memoryRegions vm)) ->
  Forall region_gwf (m_memoryRegions vm) ->
  UnmapGuestMemory largeMemoryAllocation base size vm = Some (st, vm') ->
  (exact = true -> st = MM_OK \/ forall a, gview (m_backend vm') a = gview (m_backend vm) a) ->
  views_match vm -> views_match vm'.
Proof.
  intros Hb Hs Hbs Ht Hwf Hu Hst [Hi Hv].
  destruct (unmap_cases _ _ _ _ _ _ Hu) as [[E Hne]|(-> & _ & _ & Hsz & _)]; revert Hu; unfold UnmapGuestMemory;
    (repeat (case_if; [try discriminate; by intros [= _ <-]|]));
    assert (Hr : range_ok base size) by (apply Z.eqb_neq in E1 || apply Z.eqb_neq in E0; unfold range_ok; lia);
    pose proof (gview_unmap base size (m_backend vm) Hr Hi) as L;
    destruct (UnmapGuestMemoryImpl base size (m_backend vm)) as [st' b']; destruct L as [Hi' L].
  - assert (Hgoal : vm' = set_backend b' vm -> views_match vm').
    { intros ->. split; [done|]. intros a. cbn in *. specialize (Hv a). destruct (L a) as [L'|[_ ->]]; [|done].
      unfold matches in *. rewrite L'. unfold view_unmap in *. destruct (in_range base size a) eqn:Er; [|done].
      destruct gapless; [|by intros [? ?]]. destruct exact; [|by left].
      destruct (Hst eq_refl) as [?|Hsame]; [done|]. specialize (Hsame a). rewrite L' in Hsame. exact (eq_trans Hsame Hv). }
    intros Hu. apply Hgoal. destruct st'; try (by injection Hu as _ <-).
    destruct (SubtractMemoryRange _ _ _); [|done]. by injection Hu as <- _.
  - destruct st'; try discriminate. intros Hu.
    cbn [set_backend m_memoryRegions] in Hu. rewrite subtract_spec in Hu by done.
    injection Hu as <-. split; [done|]. intros a. cbn [set_regions set_backend m_backend m_memoryRegions].
    destruct (L a) as [->|[? _]]; [|done]. unfold view_unmap. destruct (in_range base size a) eqn:Er; unfold in_range in Er.
    + rewrite andb_true_iff, Z.leb_le, Z.ltb_lt in Er. rewrite flat_map_inside by done. apply matches_refl.
    + rewrite andb_false_iff, Z.leb_gt, Z.ltb_ge in Er. specialize (Hv a). unfold matches in *. destruct gapless.
      * by rewrite flat_map_outside_touching by (auto || lia).
      * intros Hg. apply flat_map_outside_covered; [done|done|lia|by apply Hv].
Qed.
Lemma view_step s s' : guest_step s s' -> Forall region_gwf (m_memoryRegions s.1) ->
  views_match s.1 -> views_match s'.1.
Proof.
  destruct 1 as [|vm m base size st vm' Hb Hs Hbs Ht He Hst|vm m base size flags Hf
    |vm m base size bitmap bitmapSize st vm' m' He|vm m base size|]; intros Hinv Hv; cbn [fst] in *.
  - apply view_step_map; (done || lia).
  - apply (view_step_unmap base size st vm vm'); (done || lia).
  - unfold SetGuestMemoryFlags. repeat (case_if; [done|]). destruct Hv as [Hi Hv].
    pose proof (gview_flags base size flags (m_backend vm) Hi Hf) as L.
    destruct (SetGuestMemoryFlagsImpl _ _ _ _) as [st' b']. destruct L as [Hi' L]. split; [done|].
    intros a. cbn. by rewrite L.
  - revert He. unfold QueryDirtyPages. cbv zeta. destruct Hv as [Hi Hv].
    repeat (case_if; [intros [= <- <- <-]; by split|]).
    pose proof (gview_query base size bitmap bitmapSize (m_backend vm) m Hi) as L.
    destruct (QueryDirtyPagesImpl _ _ _ _ _) as [st' [b' m1]]. destruct L as [Hi' L].
    intros [= <- <- <-]. split; [done|]. intros a. cbn. by rewrite L.
  - unfold ClearDirtyPages. destruct Hv as [Hi Hv]. repeat (case_if; [by split|]).
    pose proof (gview_clear base size (m_backend vm) Hi) as L.
    destruct (ClearDirtyPagesImpl _ _ _) as [st' b']. destruct L as [Hi' L]. split; [done|].
    intros a. cbn. by rewrite L.
  - done.
Qed.

Lemma guest_reachable_match b m0 vm m : ginv b -> (forall a, gview b a = None) ->
  guest_reachable b m0 (vm, m) -> Forall region_gwf (m_memoryRegions vm) /\ views_match vm.
Proof.
  intros Hi Hb Hr. change vm with (vm, m).1. unfold guest_reachable in Hr.
  remember (newVM b, m0) as s0 eqn:E0. remember (vm, m) as s.
  assert (Hs : Forall region_gwf (m_memoryRegions s0.1) /\ views_match s0.1).
  { subst s0. split; [constructor|]. split; [done|]. intros a. cbn. rewrite Hb. apply matches_refl. }
  clear E0 Heqs. induction Hr as [|s1 s2 s3 Hst _ IH]; [done|]. apply IH. destruct Hs as [H1 H2]. split.
  - eapply vm_step_gwf; [exact Hk|by apply guest_vm_step|done].
  - by eapply view_step.
Qed.
End View.

Section Reading.
Context {B V W : Type} `{GuestMemory B} (large : bool) (k : Z) (Hk : 12 <= k <= 64).
Abbreviation VM := (VirtualMachine B V W).
Implicit Types (vm : VM) (m : hmem).

(** The two views agree. *)
Definition same_view vm : Prop :=
  ginv (m_backend vm) /\ forall a, gview (m_backend vm) a = translate (m_memoryRegions vm) a.

(** *** Reading *)

(** A region meets the range as a whole or not at all. *)
Definition whole (p n : Z) (r : MemoryRegion) : Prop :=
  covers r p n = true \/ mr_baseAddress r + mr_size r <= p \/ p + n <= mr_baseAddress r.
Lemma locate_whole rs p n a : Forall (whole p n) rs -> p <= a < p + n -> locate rs a 1 = locate rs p n.
Proof.
  intros Hw Ha. induction Hw as [|r rs Hr _ IH]; [done|]. cbn. rewrite IH.
  destruct (locate rs p n); [done|]. replace (covers r a 1) with (covers r p n); [done|].
  destruct Hr as [E|E]; [rewrite E; symmetry; by eapply covers_trans|].
  rewrite (proj2 (not_covers1 r a)) by lia. apply not_true_iff_false. rewrite covers_spec. lia.
Qed.
Lemma read_at_view vm m p n : Forall region_wf (m_memoryRegions vm) -> range_ok p n ->
  Forall (whole p n) (m_memoryRegions vm) -> same_view vm ->
  VMMemRead vm m p n = mapM (fun a => m <$> gview (m_backend vm) a) (seqZ p n).
Proof.
  intros Hwf Hp Hw [_ Hv]. unfold VMMemRead. rewrite MemRead_spec; [|by apply region_wf_gwf|done].
  assert (Ha : forall a, p <= a < p + n -> gview (m_backend vm) a
                 = (fun r => host_addr r a) <$> locate (m_memoryRegions vm) p n).
  { intros a Hin. rewrite Hv. unfold translate. by rewrite (locate_whole _ p n). }
  destruct (locate (m_memoryRegions vm) p n) as [r|] eqn:E; cbn.
  - symmetry. apply mapM_Some. apply Forall2_same_length_lookup_2.
    { rewrite length_host_read, length_seqZ. done. }
    intros i x y Hx Hy. apply lookup_seqZ in Hx as [-> Hi]. rewrite host_read_lookup in Hy by lia. injection Hy as <-.
    rewrite Ha by lia. cbn. f_equal. f_equal. unfold host_addr, u64. rewrite Zplus_mod_idemp_l. f_equal. lia.
  - destruct Hp as (? & Hn & _). rewrite (seqZ_cons p n) by lia. cbn. by rewrite Ha by lia.
Qed.

(** A region that does not contain the whole range is passed over, also where it is newer. *)
Lemma read_behind_newer vm m l1 r l2 p n a : m_memoryRegions vm = l1 ++ r :: l2 ->
  Forall region_gwf (m_memoryRegions vm) -> range_ok p n -> same_view vm ->
  covers r p n = true -> Forall (fun r' => covers r' p n = false) l2 ->
  p <= a < p + n -> is_Some (translate l2 a) ->
  gview (m_backend vm) a = translate l2 a
  /\ exists bs, VMMemRead vm m p n = Some bs /\ bs !! Z.to_nat (a - p) = Some (m (host_addr r a)).
Proof.
  intros E Hwf Hp [_ Hv] Hc Hl2 Ha [h Hh]. split.
  - rewrite Hv, E. change (r :: l2) with ([r] ++ l2). by rewrite !translate_app, Hh.
  - unfold VMMemRead. rewrite MemRead_spec, E by done. rewrite locate_app. cbn [locate].
    rewrite (proj2 (locate_None l2 p n) Hl2), Hc. cbn. eexists. split; [done|].
    rewrite host_read_lookup by lia. do 2 f_equal. unfold host_addr, u64. rewrite Zplus_mod_idemp_l. f_equal. lia.
Qed.
Lemma guest_reachable_view b m0 vm m : ginv b -> (forall a, gview b a = None) ->
  guest_reachable large k true true b m0 (vm, m) -> Forall (region_inv (2 ^ k)) (m_memoryRegions vm) /\ same_view vm.
Proof.
  intros Hi Hb Hr. split; [|by destruct (guest_reachable_match large k Hk true true b m0 vm m Hi Hb Hr)].
  apply (vm_reachable_ind large k (region_inv (2 ^ k)) true true b m0 vm m).
  - intros s s'. by apply vm_step_inv.
  - unfold guest_reachable, vm_reachable in *. clear Hi Hb.
    induction Hr as [|s1 s2 s3 Hst _ IH]; [constructor|].
    eapply rtc_l; [by apply (guest_vm_step large k true true)|exact IH].
Qed.
End Reading.

(** C2: what the guest finds in memory and what the program reads there, on a platform that keeps its
    promises, in every state that calls reach, whatever they return, if no mapped or unmapped range and no
    block wraps, and on KVM no flags of a mapped range are changed and fewer than 2^32 - 1
    mappings are made.  Wherever the guest finds a byte, the program's regions have an
    address.  If in addition each unmapped range meets or borders every region, it is the same host
    byte.  If moreover no unmapping fails after removing something, an address is mapped for both
    or for none; reading guest memory returns, byte by byte, what the guest sees, when every
    region that meets the range contains it, and where a newer region covers only a part of the range,
    the guest sees that region and the read returns the bytes of the older one. *)
Theorem guest_and_program_share_memory {B V W} `{GuestMemory B} large k (b : B) m0
    (vm : VirtualMachine B V W) m :
  12 <= k <= 64 -> ginv b -> (forall a, gview b a = None) ->
  (guest_reachable large k false false b m0 (vm, m) -> forall a,
     is_Some (gview (m_backend vm) a) -> is_Some (translate (m_memoryRegions vm) a))
  /\ (guest_reachable large k true false b m0 (vm, m) -> forall a h,
     gview (m_backend vm) a = Some h -> translate (m_memoryRegions vm) a = Some h)
  /\ (guest_reachable large k true true b m0 (vm, m) ->
     (forall a, gview (m_backend vm) a = translate (m_memoryRegions vm) a)
     /\ (forall p n, range_ok p n -> Forall (whole p n) (m_memoryRegions vm) ->
         VMMemRead vm m p n = mapM (fun a => m <$> gview (m_backend vm) a) (seqZ p n))
     /\ (forall l1 r l2 p n a, m_memoryRegions vm = l1 ++ r :: l2 -> range_ok p n ->
         covers r p n = true -> Forall (fun r' => covers r' p n = false) l2 ->
         p <= a < p + n -> is_Some (translate l2 a) ->
         gview (m_backend vm) a = translate l2 a
         /\ exists bs, VMMemRead vm m p n = Some bs /\ bs !! Z.to_nat (a - p) = Some (m (host_addr r a)))).
Proof.
  intros Hk Hi Hb. split; [|split].
  - intros Hr. by destruct (guest_reachable_match large k Hk false false b m0 vm m Hi Hb Hr) as [_ [_ Hv]].
  - intros Hr a h Ha. destruct (guest_reachable_match large k Hk true false b m0 vm m Hi Hb Hr) as [_ [_ Hv]].
    destruct (Hv a) as [E|E]; congruence.
  - intros Hr. destruct (guest_reachable_view large k Hk b m0 vm m Hi Hb Hr) as [Hinv Hv].
    assert (Hwf : Forall region_wf (m_memoryRegions vm)) by (eapply Forall_impl; [exact Hinv|]; by intros ? [? _]).
    split; [apply Hv|]. split.
    + intros p n Hp Hw. by apply read_at_view.
    + intros l1 r l2 p n a E Hp. apply (read_behind_newer vm m l1); [done|by apply region_wf_gwf|done..].
Qed.

(** ** HAXM

    What the driver promises of its requests on guest memory: an accepted one maps or, with the
    flag INVALID, unmaps the range, a refused one changes nothing; registering host memory and changing
    protections do not move anything. *)
Definition ram_effect (r : hax_ram) (view : Z -> option Z) : Z -> option Z :=
  if ram_flags r =? HAX_RAM_INFO_INVALID then view_unmap (pa_start r) (ram_size r) view
  else view_map (pa_start r) (ram_size r) (ram_va r) view.
Class HAXMMemory (K : Type) `{HAXMachine K} := {
  haxm_view : K -> Z -> option Z;
  set_ram_view fd r k a : let '(res, k') := HAX_VM_IOCTL_SET_RAM fd r k in
    haxm_view k' a = if 0 <=? res then ram_effect r (haxm_view k) a else haxm_view k a;
  set_ram2_view fd r k a : let '(res, k') := HAX_VM_IOCTL_SET_RAM2 fd r k in
    haxm_view k' a = if 0 <=? res then ram_effect r (haxm_view k) a else haxm_view k a;
  protect_ram_view fd pa size flags k a : haxm_view (snd (HAX_VM_IOCTL_PROTECT_RAM fd pa size flags k)) a = haxm_view k a;
  alloc_ram_view fd va size k a : haxm_view (snd (HAX_VM_IOCTL_ALLOC_RAM fd va size k)) a = haxm_view k a;
  add_ramblock_view fd va size k a : haxm_view (snd (HAX_VM_IOCTL_ADD_RAMBLOCK fd va size k)) a = haxm_view k a
}.
Section Haxm.
Context {K : Type} `{HAXMMemory K} (fd : Z) (ver : hax_module_version) (caps : hax_capabilityinfo).
Lemma rom_flag_valid flags : (rom_flag flags =? HAX_RAM_INFO_INVALID) = false.
Proof. unfold rom_flag. by destruct (_ =? 0). Qed.
Lemma to_status_view (f : Z * K) (r : hax_ram) (view : Z -> option Z) :
  (forall a, haxm_view (snd f) a = if 0 <=? fst f then ram_effect r view a else view a) ->
  let '(st, k') := to_status MM_Failed f in
  forall a, haxm_view k' a = match st with MM_OK => ram_effect r view a | _ => view a end.
Proof.
  intros L. unfold to_status. intros a. rewrite L.
  destruct (Z.ltb_spec (fst f) 0); [by rewrite (proj2 (Z.leb_gt 0 (fst f)))|by rewrite (proj2 (Z.leb_le 0 (fst f)))].
Qed.
Lemma sys_map_view base size flags memory (k : K) :
  let '(st, k') := sys_MapGuestMemory fd base size flags memory k in
  forall a, haxm_view k' a = match st with MM_OK => view_map base size memory (haxm_view k) a | _ => haxm_view k a end.
Proof.
  unfold sys_MapGuestMemory. set (r := MkRam base size (rom_flag flags) memory).
  pose proof (to_status_view (HAX_VM_IOCTL_SET_RAM fd r k) r (haxm_view k)) as L.
  pose proof (set_ram_view fd r k) as S. destruct (HAX_VM_IOCTL_SET_RAM fd r k) as [res k1].
  specialize (L S). destruct (to_status _ _) as [st k']. intros a. specialize (L a). unfold ram_effect in L.
  subst r. cbn [ram_flags pa_start ram_size ram_va] in L. by rewrite rom_flag_valid in L.
Qed.
Lemma sys_map_large_view base size flags memory (k : K) :
  let '(st, k') := sys_MapGuestMemoryLarge fd base size flags memory k in
  forall a, haxm_view k' a = match st with MM_OK => view_map base size memory (haxm_view k) a | _ => haxm_view k a end.
Proof.
  unfold sys_MapGuestMemoryLarge. set (r := MkRam base size (rom_flag flags) memory).
  pose proof (to_status_view (HAX_VM_IOCTL_SET_RAM2 fd r k) r (haxm_view k)) as L.
  pose proof (set_ram2_view fd r k) as S. destruct (HAX_VM_IOCTL_SET_RAM2 fd r k) as [res k1].
  specialize (L S). destruct (to_status _ _) as [st k']. intros a. specialize (L a). unfold ram_effect in L.
  subst r. cbn [ram_flags pa_start ram_size ram_va] in L. by rewrite rom_flag_valid in L.
Qed.
Definition unmap_effect (base size : Z) (st : MemoryMappingStatus) (k k' : K) : Prop := forall a,
  haxm_view k' a = view_unmap base size (haxm_view k) a \/ st <> MM_OK /\ haxm_view k' a = haxm_view k a.
Lemma haxm_unmap_large_view base size (k : K) :
  let '(st, k') := haxm_UnmapLarge fd caps base size k in unmap_effect base size st k k'.
Proof.
  unfold haxm_UnmapLarge, sys_UnmapGuestMemoryLarge, succeeds. destruct (_ =? 0); [intros a; by right|].
  set (r := MkRam _ _ _ _). pose proof (set_ram2_view fd r k) as S.
  destruct (HAX_VM_IOCTL_SET_RAM2 fd r k) as [res k1]. cbn [fst snd].
  destruct (0 <=? res); cbn [negb]; intros a; rewrite S; [by left|by right].
Qed.
(** Without [HAX_CAP_64BIT_SETRAM] the range is unmapped and the call fails. *)
Lemma haxm_unmap_view base size (k : K) : range_ok base size ->
  let '(st, k') := haxm_UnmapGuestMemoryImpl fd ver caps base size k in unmap_effect base size st k k'.
Proof.
  intros Hr. unfold haxm_UnmapGuestMemoryImpl. destruct (_ <? 4); [intros a; by right|].
  destruct (Z.leb_spec size 0xFFFFFFFF); [|apply haxm_unmap_large_view].
  unfold sys_UnmapGuestMemory, succeeds. set (r := MkRam _ _ _ _). pose proof (set_ram_view fd r k) as S.
  destruct (HAX_VM_IOCTL_SET_RAM fd r k) as [res k1]. cbn [fst snd].
  destruct (0 <=? res); cbn [negb]; [|intros a; rewrite S; by right].
  assert (S' : forall a, haxm_view k1 a = view_unmap base size (haxm_view k) a).
  { intros a. rewrite S. unfold ram_effect, r. cbn [ram_flags pa_start ram_size].
    change (HAX_RAM_INFO_INVALID =? HAX_RAM_INFO_INVALID) with true. cbn iota.
    destruct Hr as (? & ? & ?). by rewrite u32_small by lia. }
  pose proof (haxm_unmap_large_view base size k1) as L. destruct (haxm_UnmapLarge _ _ _ _ _) as [st k2].
  intros a. left. destruct (L a) as [->|[_ ->]]; unfold view_unmap; rewrite S'; [|done].
  unfold view_unmap. by destruct (in_range base size a).
Qed.
#[export] Instance haxm_GuestMemory : GuestMemory K (H:=haxm_VMBackend fd ver caps).
Proof.
  refine {| gview := haxm_view; ginv _ := True; glimit _ := True; gflags _ _ _ := True |}.
  - intros base size flags memory k ((? & ? & ?) & _) _ _. cbn. unfold haxm_MapGuestMemoryImpl.
    destruct (Z.leb_spec size 0xFFFFFFFF).
    + unfold sys_MapHostMemory, to_status. rewrite u32_small by lia.
      pose proof (alloc_ram_view fd memory size k) as E. destruct (HAX_VM_IOCTL_ALLOC_RAM _ _ _ _) as [res k1]. cbn [fst snd] in *.
      pose proof (sys_map_view base size flags memory k1) as L. destruct (sys_MapGuestMemory _ _ _ _ _ _) as [st k2].
      destruct (res <? 0); (split; [done|]); intros a; rewrite L; destruct st; unfold view_map; by rewrite ?E.
    + destruct (_ =? 0); [done|]. unfold sys_MapHostMemoryLarge, to_status.
      pose proof (add_ramblock_view fd memory size k) as E. destruct (HAX_VM_IOCTL_ADD_RAMBLOCK _ _ _ _) as [res k1]. cbn [fst snd] in *.
      pose proof (sys_map_large_view base size flags memory k1) as L. destruct (sys_MapGuestMemoryLarge _ _ _ _ _ _) as [st k2].
      destruct (res <? 0); (split; [done|]); intros a; rewrite L; destruct st; unfold view_map; by rewrite ?E.
  - intros base size k Hr _. cbn. pose proof (haxm_unmap_view base size k Hr) as L.
    by destruct (haxm_UnmapGuestMemoryImpl _ _ _ _ _ _).
  - intros base size flags k _ _. cbn. unfold haxm_SetGuestMemoryFlagsImpl, sys_SetGuestMemoryFlagsLarge, succeeds.
    destruct (_ =? 0); [done|]. split; [done|]. intros a. apply protect_ram_view.
  - done.
  - done.
Defined.
End Haxm.

(** ** Windows Hypervisor Platform *)
Class WHPXMemory (K : Type) `{WHPXPartition K} := {
  whpx_view : K -> Z -> option Z;
  map_gpa_view h memory base size flags k a : let '(hr, k') := WHvMapGpaRange h memory base size flags k in
    whpx_view k' a = if hr =? S_OK then view_map base size memory (whpx_view k) a else whpx_view k a;
  unmap_gpa_view h base size k a : let '(hr, k') := WHvUnmapGpaRange h base size k in
    whpx_view k' a = if hr =? S_OK then view_unmap base size (whpx_view k) a else whpx_view k a;
  query_gpa_view h base size bitmap bitmapSize k m a :
    whpx_view (fst (snd (WHvQueryGpaRangeDirtyBitmap h base size bitmap bitmapSize (k, m)))) a = whpx_view k a
}.
Section Whpx.
Context {K : Type} `{WHPXMemory K} (rs5 : bool) (m_handle : Z).
#[export] Instance whpx_GuestMemory : GuestMemory K (H:=whpx_VMBackend m_handle rs5).
Proof.
  refine {| gview := whpx_view; ginv _ := True; glimit _ := True; gflags _ _ _ := True |}.
  - intros base size flags memory k _ _ _. cbn. unfold whpx_MapGuestMemoryImpl. destruct (_ =? _); [done|].
    set (f := ToWHVFlags rs5 flags). pose proof (map_gpa_view m_handle memory base size f k) as L.
    destruct (WHvMapGpaRange _ _ _ _ _ _) as [hr k']. split; [done|]. intros a. rewrite L. by destruct (hr =? S_OK).
  - intros base size k _ _. cbn. unfold whpx_UnmapGuestMemoryImpl. pose proof (unmap_gpa_view m_handle base size k) as L.
    destruct (WHvUnmapGpaRange _ _ _ _) as [hr k']. split; [done|]. intros a. rewrite L.
    destruct (hr =? S_OK); [by left|by right].
  - done.
  - intros base size bitmap bitmapSize k m _. cbn. unfold whpx_QueryDirtyPagesImpl.
    destruct (negb _); [done|]. destruct (nz _); [done|].
    pose proof (query_gpa_view m_handle base size bitmap (u32 bitmapSize) k m) as L.
    destruct (WHvQueryGpaRangeDirtyBitmap _ _ _ _ _ _) as [hr [k' m']]. by split.
  - intros base size k _. cbn. unfold whpx_ClearDirtyPagesImpl.
    match goal with |- context [WHvQueryGpaRangeDirtyBitmap ?h ?b ?s ?bm ?bs (?k, ?m)] =>
      pose proof (query_gpa_view h b s bm bs k m) as L end.
    destruct (WHvQueryGpaRangeDirtyBitmap _ _ _ _ _ _) as [hr [k' m']]. by split.
Defined.
End Whpx.

(** ** KVM

    The kernel keeps its slots by number.  It accepts a slot that overlaps no other one; the guest
    finds at an address what the slot that contains it says. *)
Definition slot_contains (a : Z) (x : Z * kvm_userspace_memory_region) : Prop :=
  in_range (guest_phys_addr (snd x)) (memory_size (snd x)) a = true.
#[global] Instance slot_contains_dec a x : Decision (slot_contains a x).
Proof. unfold slot_contains. apply _. Defined.
Class KVMMemory (K : Type) `{KVMMachine K} := {
  kslots : K -> gmap Z kvm_userspace_memory_region;
  set_region_slots r k : 0 < memory_size r -> let '(ok, k') := KVM_SET_USER_MEMORY_REGION r k in
    if ok then kslots k' = <[slot r := r]> (kslots k)
               /\ forall s r' a, s <> slot r -> kslots k !! s = Some r' ->
                    slot_contains a (slot r, r) -> ~ slot_contains a (s, r')
    else kslots k' = kslots k;
  dirty_log_slots s bitmap k m : kslots (fst (snd (KVM_GET_DIRTY_LOG s bitmap (k, m)))) = kslots k
}.
Section Kvm.
Context {K : Type} `{KVMMemory K} (iterator_bytes : kvm_userspace_memory_region) (new_bitmap : Z).
Definition kvm_view (b : kvm_vm K) (a : Z) : option Z :=
  (fun x => userspace_addr (snd x) + (a - guest_phys_addr (snd x)))
  <$> head (map_to_list (filter (slot_contains a) (kslots (vm_kernel b)))).
(** The counter is above every slot of the kernel, and has not wrapped. *)
Definition kvm_slots_below (b : kvm_vm K) : Prop :=
  0 <= m_memSlot b /\ forall s, is_Some (kslots (vm_kernel b) !! s) -> s < m_memSlot b.
Lemma kvm_view_insert n rgns r (k k' : K) a : kslots k' = <[slot r := r]> (kslots k) ->
  kslots k !! slot r = None ->
  (forall s r' a, s <> slot r -> kslots k !! s = Some r' -> slot_contains a (slot r, r) -> ~ slot_contains a (s, r')) ->
  kvm_view (MkKvmVm n rgns k') a
  = view_map (guest_phys_addr r) (memory_size r) (userspace_addr r) (kvm_view (MkKvmVm n rgns k)) a.
Proof.
  intros E Hn Hd. unfold kvm_view, view_map. cbn [vm_kernel]. rewrite E.
  destruct (in_range (guest_phys_addr r) (memory_size r) a) eqn:Ea.
  - rewrite map_filter_insert_True by done.
    replace (filter (slot_contains a) (kslots k)) with (∅ : gmap Z kvm_userspace_memory_region).
    { by rewrite insert_empty, map_to_list_singleton. }
    symmetry. apply map_empty_filter_2. intros s r' Hs. apply (Hd s r' a); [|done|done]. intros ->. congruence.
  - rewrite map_filter_insert_not'; [done|unfold slot_contains; cbn; congruence|]. intros y Hy. congruence.
Qed.
#[export] Instance kvm_GuestMemory : GuestMemory (kvm_vm K) (H:=kvm_VMBackend iterator_bytes new_bitmap).
Proof.
  refine {| gview := kvm_view; ginv := kvm_slots_below; glimit b := m_memSlot b < 2 ^ 32 - 1;
            gflags base size b := update_flags base size 0 (m_slots b) = None |}.
  - intros base size flags memory b ((? & ? & ?) & _) [H0b Hs] Hl. cbn. unfold kvm_MapGuestMemoryImpl.
    set (rgn := MkSlot _ _ _ _ _). pose proof (set_region_slots rgn (vm_kernel b) ltac:(done)) as L.
    destruct (KVM_SET_USER_MEMORY_REGION rgn (vm_kernel b)) as [[] k'].
    + destruct L as [E Hd]. split.
      * split; cbn [m_memSlot vm_kernel]; rewrite u32_small by lia; [lia|]. intros s. rewrite E.
        destruct (decide (s = slot rgn)) as [->|Hne]; [cbn; lia|]. rewrite lookup_insert_ne by done.
        intros Hi. apply Hs in Hi. lia.
      * intros a. rewrite (kvm_view_insert _ _ rgn (vm_kernel b) k' a E); [done| |done].
        apply eq_None_not_Some. intros Hi. apply Hs in Hi. cbn in Hi. lia.
    + split; [|intros a; unfold kvm_view; cbn [vm_kernel]; by rewrite L].
      split; cbn [m_memSlot vm_kernel]; rewrite u32_small by lia; [lia|]. intros s. rewrite L.
      intros Hi. apply Hs in Hi. lia.
  - intros base size b _ Hi. cbn. split; [done|]. intros a. by right.
  - intros base size flags b Hi Hf. cbn. unfold kvm_SetGuestMemoryFlagsImpl.
    by rewrite (update_flags_None base size flags 0).
  - intros base size bitmap bitmapSize b m Hi. cbn. unfold kvm_QueryDirtyPagesImpl.
    destruct (List.find _ _) as [r|]; [|done]. pose proof (dirty_log_slots (slot r) bitmap (vm_kernel b) m) as L.
    destruct (KVM_GET_DIRTY_LOG _ _ _) as [ok [k' m']]. cbn in L. unfold kvm_view, kvm_slots_below in *. cbn [vm_kernel m_memSlot].
    by rewrite L.
  - intros base size b Hi. cbn. unfold kvm_ClearDirtyPagesImpl, kvm_QueryDirtyPagesImpl.
    destruct (List.find _ _) as [r|]; [|done].
    match goal with |- context [KVM_GET_DIRTY_LOG ?s ?bm (?k, ?m)] => pose proof (dirty_log_slots s bm k m) as L end.
    destruct (KVM_GET_DIRTY_LOG _ _ _) as [ok [k' m']]. cbn in L. unfold kvm_view, kvm_slots_below in *. cbn [vm_kernel m_memSlot].
    by rewrite L.
Defined.
End Kvm.

(** A HAXM driver that accepts every request: its state is the guest's view. *)
Module ViewDemo.
Definition state : Type := Z -> option Z.
Definition machine : HAXMachine state := {|
  HAX_IOCTL_CREATE_VM _ k := (0, 0, k);
  open_vm _ k := (3, k);
  HAX_VM_IOCTL_NOTIFY_QEMU_VERSION _ _ _ k := (0, k);
  HAX_VM_IOCTL_ALLOC_RAM _ _ _ k := (0, k);
  HAX_VM_IOCTL_ADD_RAMBLOCK _ _ _ k := (0, k);
  HAX_VM_IOCTL_SET_RAM _ r k := (0, ram_effect r k);
  HAX_VM_IOCTL_SET_RAM2 _ r k := (0, ram_effect r k);
  HAX_VM_IOCTL_PROTECT_RAM _ _ _ _ k := (0, k)
|}.
#[local] Existing Instance machine.
Definition memory : HAXMMemory state.
Proof. refine {| haxm_view := fun k : state => k |}; done. Defined.

(** A partition that accepts every request. *)
#[global] Instance partition : WHPXPartition state := {|
  WHvCreatePartition k := (S_OK, 1, k);
  WHvDeletePartition _ k := k;
  CloseHandle _ k := k;
  WHvSetPartitionProperty _ _ k := (S_OK, k);
  WHvSetupPartition _ k := (S_OK, k);
  WHvMapGpaRange _ va base size _ k := (S_OK, view_map base size va k);
  WHvUnmapGpaRange _ base size k := (S_OK, view_unmap base size k);
  has_dirty_bitmap := true;
  WHvQueryGpaRangeDirtyBitmap _ _ _ _ _ km := (S_OK, km)
|}.
Definition partition_memory : WHPXMemory state.
Proof. refine {| whpx_view := fun k : state => k |}; done. Defined.

(** The kernel of KvmVm.v. *)
Definition kernel_memory : KVMMemory demo_machine (H:=demo_KVMMachine).
Proof.
  refine {| kslots := fun k : demo_machine => k |}.
  - intros r k _. cbn. destruct (userspace_addr r =? 0); [done|]. cbn.
    destruct (bool_decide_reflect (slot_free r k)) as [Hf|Hf]; [|done]. cbn. split; [done|].
    intros s r' a Hs Hr'. destruct (Hf s r' Hr') as [?|Ha]; [done|].
    unfold slot_contains, in_range. cbn. rewrite !andb_true_iff, !Z.leb_le, !Z.ltb_lt.
    unfold apart in Ha. lia.
  - intros s bitmap k m. cbn. by destruct (k !! s).
Defined.

Definition nowhere : state := fun _ => None.
Definition haxm (setram : bool) : VMBackend state :=
  haxm_VMBackend 3 (MkModuleVersion 1 4) (MkCaps 1 (if setram then HAX_CAP_64BIT_SETRAM else 0)).
Definition haxm_guest (setram : bool) : GuestMemory state (H:=haxm setram) :=
  haxm_GuestMemory (H0:=memory) 3 (MkModuleVersion 1 4) (MkCaps 1 (if setram then HAX_CAP_64BIT_SETRAM else 0)).
Definition whpx : VMBackend state := whpx_VMBackend 1 true.
Definition whpx_guest : GuestMemory state (H:=whpx) := whpx_GuestMemory (H0:=partition_memory) true 1.
Definition kvm : VMBackend (kvm_vm demo_machine) := kvm_VMBackend (H:=demo_KVMMachine) demo_iterator 0.
Definition kvm_guest : GuestMemory (kvm_vm demo_machine) (H:=kvm) := kvm_GuestMemory (H0:=kernel_memory) demo_iterator 0.
Definition map {B} `{VMBackend B} (base size va : Z) (vm : VirtualMachine B unit unit) : VirtualMachine B unit unit :=
  snd (MapGuestMemory false (Z.ones 43) base size 7 va vm).
Definition unmap {B} `{VMBackend B} (base size : Z) (vm : VirtualMachine B unit unit) : VirtualMachine B unit unit :=
  match UnmapGuestMemory false base size vm with Some (_, vm) => vm | None => vm end.
End ViewDemo.
#[local] Existing Instance ViewDemo.machine.
#[local] Existing Instance ViewDemo.memory.

(** On HAXM: three pages, the middle one mapped a second time: the guest sees the newer page, a
    read of all three the older one.  On HAXM without [HAX_CAP_64BIT_SETRAM]: an unmapping that fails, after
    which the guest has lost what the program keeps.  On KVM: a mapping that the kernel refuses because
    it overlaps.  On WHPX: an unmapping above a gap, over which the program's region is extended. *)
Lemma guest_and_program_share_memory_witness :
  (let vm := ViewDemo.map (H:=ViewDemo.haxm true) 0x2000 0x1000 0x900000
               (ViewDemo.map (H:=ViewDemo.haxm true) 0x1000 0x3000 0x700000 (newVM ViewDemo.nowhere)) in
   gview (GuestMemory:=ViewDemo.haxm_guest true) (m_backend vm) 0x2004 = Some 0x900004
   /\ exists bs, VMMemRead vm (fun h => h) 0x1000 0x3000 = Some bs /\ bs !! Z.to_nat 0x1004 = Some 0x701004)
  /\ (let vm := ViewDemo.unmap (H:=ViewDemo.haxm false) 0x1000 0x1000
                  (ViewDemo.map (H:=ViewDemo.haxm false) 0x1000 0x2000 0x700000 (newVM ViewDemo.nowhere)) in
      gview (GuestMemory:=ViewDemo.haxm_guest false) (m_backend vm) 0x1004 = None
      /\ translate (m_memoryRegions vm) 0x1004 = Some 0x700004 /\ translate (m_memoryRegions vm) 0x2004 = Some 0x701004)
  /\ (let vm := ViewDemo.map (H:=ViewDemo.kvm) 0x2000 0x1000 0x900000
                  (ViewDemo.map (H:=ViewDemo.kvm) 0x1000 0x2000 0x700000 (newVM (MkKvmVm 0 [] ∅))) in
      m_memSlot (m_backend vm) = 2
      /\ gview (GuestMemory:=ViewDemo.kvm_guest) (m_backend vm) 0x2004 = Some 0x701004)
  /\ (let vm := ViewDemo.unmap (H:=ViewDemo.whpx) 0x5000 0x1000
                  (ViewDemo.map (H:=ViewDemo.whpx) 0x1000 0x2000 0x700000 (newVM ViewDemo.nowhere)) in
      gview (GuestMemory:=ViewDemo.whpx_guest) (m_backend vm) 0x4004 = None
      /\ translate (m_memoryRegions vm) 0x4004 = Some 0x703004 /\ is_Some (translate (m_memoryRegions vm) 0x1004)).
Proof.
  split; [|split; [|split]].
  - intros vm. destruct (guest_and_program_share_memory (H0:=ViewDemo.haxm_guest true) (V:=unit) (W:=unit)
      false 43 ViewDemo.nowhere (fun h => h) vm (fun h => h) ltac:(lia) I (fun _ => eq_refl)) as (_ & _ & H3).
    destruct H3 as (_ & _ & H3).
    { eapply rtc_l; [apply gs_map with (base:=0x1000) (size:=0x3000) (flags:=7) (memory:=0x700000); (lia || exact I)|].
      apply rtc_once. apply gs_map; (lia || exact I). }
    destruct (H3 [] (MkMemoryRegion 0x1000 0x3000 0x700000) [MkMemoryRegion 0x2000 0x1000 0x900000] 0x1000 0x3000 0x2004)
      as [E1 E2]; try reflexivity; [unfold range_ok; lia|constructor; [reflexivity|constructor]|lia|by eexists|].
    split; [exact E1|exact E2].
  - intros vm. destruct (guest_and_program_share_memory (H0:=ViewDemo.haxm_guest false) (V:=unit) (W:=unit)
      false 43 ViewDemo.nowhere (fun h => h) vm (fun h => h) ltac:(lia) I (fun _ => eq_refl)) as (_ & H2 & _).
    split; [reflexivity|]. split; [reflexivity|]. apply H2; [|reflexivity].
    eapply rtc_l; [apply gs_map with (base:=0x1000) (size:=0x2000) (flags:=7) (memory:=0x700000); (lia || exact I)|].
    apply rtc_once. apply gs_unmap with (base:=0x1000) (size:=0x1000) (st:=MM_Unsupported); try lia; try reflexivity.
    intros _. repeat constructor; cbn; lia.
  - intros vm. destruct (guest_and_program_share_memory (H0:=ViewDemo.kvm_guest) (V:=unit) (W:=unit)
      false 43 (MkKvmVm 0 [] ∅) (fun h => h) vm (fun h => h)) as (_ & _ & H3); [lia| |reflexivity|].
    { split; [done|]. cbn. intros s [? E]. done. }
    split; [reflexivity|]. destruct H3 as (H3 & _).
    { eapply rtc_l; [apply gs_map with (base:=0x1000) (size:=0x2000) (flags:=7) (memory:=0x700000); (lia || done)|].
      apply rtc_once. apply gs_map; (lia || done). }
    rewrite H3. reflexivity.
  - intros vm. destruct (guest_and_program_share_memory (H0:=ViewDemo.whpx_guest) (V:=unit) (W:=unit)
      false 43 ViewDemo.nowhere (fun h => h) vm (fun h => h) ltac:(lia) I (fun _ => eq_refl)) as (H1 & _ & _).
    split; [reflexivity|]. split; [reflexivity|]. apply H1; [|by eexists].
    eapply rtc_l; [apply gs_map with (base:=0x1000) (size:=0x2000) (flags:=7) (memory:=0x700000); (lia || exact I)|].
    apply rtc_once. apply gs_unmap with (base:=0x5000) (size:=0x1000) (st:=MM_OK); (lia || reflexivity || done).
Defined.
