(* ===== verification/GuestLinear.v ===== *)
(** * Linear memory as the guest sees it

    [LinearToPhysical] and [LMemRead] of a virtual processor walk the guest's page tables and copy
    guest memory through the machine's list of regions.  The theorem composes the processor (Vp.v),
    the walks (Paging.v), the regions (VM.v) and the platform (GuestView.v): the result is what the
    guest itself would load, with the tables and the data in the memory that its platform shows it.
    What carries the composition is that the regions of a machine consist of whole pages, and that
    no table entry and no piece that [LMemRead] copies crosses a page. *)
From stdpp Require Import gmap.
From S2P Require Import Prelude Bits MemRegions VM Regs Paging Status Vp HaxmVp HaxmVm KvmVm WhpxVp WhpxVm GuestView.

(** A range inside one page of physical memory. *)
Definition in_page (p n : Z) : Prop := 0 <= p < 2 ^ 52 /\ 0 < n /\ p mod 4096 + n <= 4096.

(** ** Walks that load the same entries *)
Section Agree.
Context (loads loads' : Z -> Z -> option (list Z)).
Hypothesis Hloads : forall p n, in_page p n -> loads p n = loads' p n.

Lemma entry_at_agree esize table index :
  0 < esize -> in_page (table + index * esize) esize ->
  entry_at loads esize table index = entry_at loads' esize table index.
Proof. intros. unfold entry_at. by rewrite Hloads. Qed.

(** An index of a table that fills its page. *)
Lemma entry_in_page esize bits table x : 0 < esize -> 0 <= bits -> esize * 2 ^ bits <= 4096 ->
  4096 mod esize = 0 -> 0 <= table -> table + 4096 <= 2 ^ 52 -> table mod 4096 = 0 ->
  in_page (table + x mod 2 ^ bits * esize) esize.
Proof.
  intros He Hb Hs Hd Ht Ht' Hm. pose proof (Z.pow_pos_nonneg 2 bits ltac:(lia) Hb) as Hp.
  pose proof (Z.mod_pos_bound x (2 ^ bits) Hp) as Hx. set (i := x mod 2 ^ bits) in *.
  assert (i * esize + esize <= 4096) by nia.
  assert ((table + i * esize) mod 4096 = i * esize) as Hi.
  { rewrite Z.add_mod, Hm, Z.add_0_l, Z.mod_mod by lia. rewrite Z.mod_small by nia. done. }
  unfold in_page. rewrite Hi. nia.
Qed.

Lemma walk_agree levels table laddr : Forall (fun l => lv_bits l = 9) levels ->
  0 <= table -> table + 4096 <= 2 ^ 52 -> table mod 4096 = 0 ->
  walk loads 8 52 levels table laddr = walk loads' 8 52 levels table laddr.
Proof.
  intros Hl. revert table. induction Hl as [|l levels Hb Hls IH]; intros table Ht Ht' Hm; simpl; [done|].
  rewrite entry_at_agree by (lia || (apply entry_in_page; rewrite ?Hb; done || lia)).
  destruct (entry_at loads' _ _ _) as [e|]; simpl; [|done]. case_if; [done|].
  destruct (frame_range 12 52 e) as (? & ? & ?); [lia|]. by apply IH.
Qed.

Lemma walk32_agree pse cr3 laddr : walk32 loads pse cr3 laddr = walk32 loads' pse cr3 laddr.
Proof.
  assert (Hf : forall e x, in_page (frame 12 32 e + x mod 2 ^ 10 * 4) 4).
  { intros e x. destruct (frame_range 12 32 e) as (? & ? & ?); [lia|].
    apply entry_in_page; simpl in *; done || lia. }
  unfold walk32. rewrite entry_at_agree by (lia || apply Hf).
  destruct (entry_at loads' _ _ _) as [e|]; simpl; [|done]. case_if; [done|].
  by rewrite entry_at_agree by (lia || apply Hf).
Qed.

Lemma walkPAE_agree k cr3 laddr : walkPAE loads k cr3 laddr = walkPAE loads' k cr3 laddr.
Proof.
  unfold walkPAE, levelsPAE. cbn [walk lv_index lv_bits lv_page lv_large].
  destruct (frame_range 5 32 cr3) as (? & ? & Hm); [lia|].
  rewrite entry_at_agree; [|lia|].
  2:{ pose proof (Z.mod_pos_bound (laddr / 2 ^ 30) (2 ^ 2) ltac:(lia)).
      set (i := (laddr / 2 ^ 30) mod 2 ^ 2) in *. unfold in_page. change (2 ^ 5) with 32 in *. simpl in *. zlia. }
  destruct (entry_at loads' _ _ _) as [e|]; [|done]. cbn [mbind option_bind andb].
  destruct (frame_range 12 52 e) as (? & ? & ?); [lia|].
  apply (walk_agree [Level k 9 21 true; Level 12 9 12 false]); [by repeat constructor|done..].
Qed.

Lemma translation_agree mode cr3 cr4 laddr :
  translation loads mode cr3 cr4 laddr = translation loads' mode cr3 cr4 laddr.
Proof.
  destruct mode; simpl; try done; try apply walk32_agree; [apply walkPAE_agree|].
  destruct (frame_range 12 52 cr3) as (? & ? & ?); [lia|].
  apply walk_agree; [by repeat constructor|done..].
Qed.
End Agree.

(** ** The translation of the architecture

    That of the code, but for the page directory of PAE paging, which the architecture indexes with
    bits 29 to 21 of the address and the code with bits 11 to 3 ([pae_translation]). *)
Definition arch_translation (loads : Z -> Z -> option (list Z)) (mode : CPUPagingMode)
    (cr3 cr4 : RegValue) (laddr : Z) : option Z :=
  match mode with
  | Paging_PAE => walkPAE loads 21 cr3 (u32 laddr)
  | _ => translation loads mode cr3 cr4 laddr
  end.
(** The addresses at which both take the same entry. *)
Definition same_index (mode : CPUPagingMode) (laddr : Z) : Prop :=
  mode = Paging_PAE -> (u32 laddr / 2 ^ 3) mod 2 ^ 9 = (u32 laddr / 2 ^ 21) mod 2 ^ 9.
Lemma translation_arch loads mode cr3 cr4 laddr : same_index mode laddr ->
  translation loads mode cr3 cr4 laddr = arch_translation loads mode cr3 cr4 laddr.
Proof.
  intros Hi. destruct mode; try done. cbn. unfold walkPAE, levelsPAE. cbn [walk lv_index lv_bits].
  by rewrite (Hi eq_refl).
Qed.
Lemma not_PAE_same_index mode laddr : mode <> Paging_PAE -> same_index mode laddr.
Proof. by intros ? ?. Qed.
#[local] Hint Resolve not_PAE_same_index : core.

(** ** Loads of the guest *)
Section Loads.
Context {B : Type} `{GuestMemory B}.

(** The byte that the guest finds at a physical address, a range of them, and the byte that it loads
    from a linear address. *)
Definition guest_byte (b : B) (m : hmem) (a : Z) : option Z := m <$> gview b a.
Definition guest_loads (b : B) (m : hmem) (p n : Z) : option (list Z) := mapM (guest_byte b m) (seqZ p n).
Definition guest_translation (b : B) (m : hmem) : CPUPagingMode -> RegValue -> RegValue -> Z -> option Z :=
  arch_translation (guest_loads b m).
Definition guest_linear (b : B) (m : hmem) (mode : CPUPagingMode) (cr3 cr4 : RegValue) (a : Z) : option Z :=
  p ← guest_translation b m mode cr3 cr4 a; guest_byte b m p.

(** [bs] has been stored at the physical addresses from [p] on: where the guest finds them the host
    memory has the new bytes, and nothing else has changed. *)
Definition guest_store (b : B) (m : hmem) (p : Z) (bs : list Z) (m' : hmem) : Prop :=
  (forall i v, bs !! i = Some v -> guest_byte b m' (p + Z.of_nat i) = Some v)
  /\ forall h, 0 <= h < 2 ^ 64 -> (forall i, (i < length bs)%nat -> gview b (p + Z.of_nat i) <> Some h) -> m' h = m h.

(** The same at linear addresses, page by page, each piece where the guest's tables point then. *)
Inductive guest_written (b : B) (mode : CPUPagingMode) (cr3 cr4 : RegValue) : hmem -> Z -> list Z -> hmem -> Prop :=
| gw_nil m a : guest_written b mode cr3 cr4 m a [] m
| gw_piece m m1 m' a p bs rest :
    bs <> [] -> a mod 4096 + Z.of_nat (length bs) <= 4096 ->
    guest_translation b m mode cr3 cr4 a = Some p -> guest_store b m p bs m1 ->
    guest_written b mode cr3 cr4 m1 (a + Z.of_nat (length bs)) rest m' ->
    guest_written b mode cr3 cr4 m a (bs ++ rest) m'.
End Loads.

Section Linear.
Context {B V W : Type} `{GuestMemory B} (limit : Z) (vm : VirtualMachine B V W) (m : hmem).
Hypothesis Hinv : Forall (region_inv limit) (m_memoryRegions vm).
Hypothesis Hview : same_view vm.

Lemma regions_wf : Forall region_wf (m_memoryRegions vm).
Proof. eapply Forall_impl; [exact Hinv|]. by intros ? [? _]. Qed.

Lemma in_page_range p n : in_page p n -> range_ok p n.
Proof. unfold in_page, range_ok. pose proof (Z.mod_pos_bound p 4096). lia. Qed.

(** A region of whole pages contains a range of one page, or does not meet it. *)
Lemma in_page_whole p n : 0 <= p -> p mod 4096 + n <= 4096 -> Forall (whole p n) (m_memoryRegions vm).
Proof.
  intros Hp Hn. eapply Forall_impl; [exact Hinv|]. intros r [_ [Hb [Hs _]]]. unfold page_aligned in *.
  unfold whole. rewrite covers_spec. zlia.
Qed.

Lemma MemRead_guest p n : in_page p n -> MemRead m (m_memoryRegions vm) p n = guest_loads (m_backend vm) m p n.
Proof.
  intros Hp. apply (read_at_view vm m p n); [apply regions_wf|by apply in_page_range| |done].
  destruct Hp as (? & ? & ?). apply in_page_whole; lia.
Qed.

Lemma translation_guest mode cr3 cr4 a : same_index mode a ->
  translation (MemRead m (m_memoryRegions vm)) mode cr3 cr4 a = guest_translation (m_backend vm) m mode cr3 cr4 a.
Proof. intros Hi. unfold guest_translation. rewrite <- translation_arch by done. apply translation_agree, MemRead_guest. Qed.

Section Bytes.
Context (mode : CPUPagingMode) (cr3 cr4 : RegValue) (Hmode : mode <> Paging_PAE).
Abbreviation T := (translation (MemRead m (m_memoryRegions vm)) mode cr3 cr4).
Abbreviation load := (guest_linear (m_backend vm) m mode cr3 cr4).

Lemma byte_at_guest a b : byte_at (m_memoryRegions vm) T m a b -> load a = Some b.
Proof.
  intros (p & q & n & r & HT & Hq & Hp & Hn & Hr & ->). unfold guest_linear.
  rewrite <- translation_guest, HT by auto. cbn. unfold guest_byte. destruct Hview as [_ ->]. unfold translate.
  rewrite (locate_whole _ q n), Hr; [done|apply in_page_whole; lia|lia].
Qed.

Lemma blocked_guest a n : blocked (m_memoryRegions vm) T m a n ->
  exists a', a <= a' < a + n /\ load a' = None.
Proof.
  intros (Hn & Hpg & Hb). destruct (T a) as [p|] eqn:HT.
  2:{ exists a. split; [lia|]. unfold guest_linear. by rewrite <- translation_guest, HT by auto. }
  apply translation_range in HT as Hp. destruct Hp as [Hp Hpm].
  rewrite MemRead_guest in Hb by (unfold in_page; lia).
  apply mapM_None, Exists_exists in Hb as (x & Hx & Hl). apply elem_of_seqZ in Hx.
  exists (a + (x - p)). split; [lia|]. unfold guest_linear. rewrite <- translation_guest by auto.
  pose proof (Z.mod_pos_bound a 4096 ltac:(lia)).
  rewrite translation_page_local, HT by (done || lia). cbn. by replace (p + (x - p)) with x by lia.
Qed.

Lemma write_blocked_blocked a n : write_blocked (m_memoryRegions vm) mode cr3 cr4 m a n ->
  blocked (m_memoryRegions vm) T m a n.
Proof.
  intros (Hn & Hpg & Hb). split; [done|]. split; [done|]. destruct (T a) as [p|] eqn:HT; [|done].
  apply translation_range in HT as Hp. destruct Hp as [Hp Hpm].
  assert (Hr : range_ok p n) by (apply in_page_range; unfold in_page; lia).
  specialize (Hb []). rewrite MemWrite_spec in Hb by (done || apply region_wf_gwf, regions_wf).
  rewrite MemRead_spec by (done || apply region_wf_gwf, regions_wf).
  by destruct (locate (m_memoryRegions vm) p n).
Qed.
End Bytes.

Lemma MemWrite_guest_store p bs m' : in_page p (Z.of_nat (length bs)) ->
  MemWrite m (m_memoryRegions vm) p (Z.of_nat (length bs)) bs = Some m' ->
  guest_store (m_backend vm) m p bs m'.
Proof.
  intros Hp Hw. pose proof (in_page_range _ _ Hp) as Hr. set (n := Z.of_nat (length bs)) in *.
  rewrite MemWrite_spec in Hw by (done || apply region_wf_gwf, regions_wf).
  destruct (locate (m_memoryRegions vm) p n) as [r|] eqn:El; [|done]. injection Hw as <-.
  assert (Hv : forall i, (i < length bs)%nat ->
    gview (m_backend vm) (p + Z.of_nat i) = Some (u64 (host_addr r p + Z.of_nat i))).
  { intros i Hi. destruct Hview as [_ ->]. unfold translate. destruct Hp as (Hp0 & Hp1 & Hp2).
    rewrite (locate_whole _ p n), El by (lia || (apply in_page_whole; lia)). cbn. f_equal.
    unfold host_addr, u64. rewrite Zplus_mod_idemp_l. f_equal. lia. }
  rewrite take_ge by lia. split.
  - intros i v Hi. apply lookup_lt_Some in Hi as Hlt. unfold guest_byte. rewrite Hv by done. cbn. f_equal.
    unfold host_write. replace (u64 (u64 (host_addr r p + Z.of_nat i) - host_addr r p)) with (Z.of_nat i).
    2:{ unfold u64. rewrite Zminus_mod_idemp_l. rewrite Z.add_simpl_l. symmetry. apply Z.mod_small.
        unfold in_page in Hp. pose proof (Z.mod_pos_bound p 4096). lia. }
    rewrite (proj2 (Z.ltb_lt _ _)) by lia. by rewrite Nat2Z.id, Hi.
  - intros h Hh64 Hh. unfold host_write.
    destruct (Z.ltb_spec (u64 (h - host_addr r p)) (Z.of_nat (length bs))) as [Hlt|]; [|done].
    pose proof (u64_range (h - host_addr r p)). set (i := u64 (h - host_addr r p)) in *.
    exfalso. apply (Hh (Z.to_nat i)); [lia|]. rewrite Hv by lia. rewrite Z2Nat.id by lia. f_equal.
    subst i. unfold u64. rewrite Zplus_mod_idemp_r. rewrite Z.mod_small; lia.
Qed.
End Linear.

Section Written.
Context {B V W : Type} `{GuestMemory B} (limit : Z) (vm : VirtualMachine B V W).
Hypothesis Hinv : Forall (region_inv limit) (m_memoryRegions vm).
Hypothesis Hview : same_view vm.

Lemma written_guest mode cr3 cr4 m a bs m' : mode <> Paging_PAE -> written (m_memoryRegions vm) mode cr3 cr4 m a bs m' ->
  guest_written (m_backend vm) mode cr3 cr4 m a bs m'.
Proof.
  intros Hmode. induction 1 as [|m m1 m' a p bs rest Hne Hpg HT Hw _ IH]; [constructor|].
  apply translation_range in HT as Hp. destruct Hp as [Hp Hpm].
  assert (Hin : in_page p (Z.of_nat (length bs))).
  { unfold in_page. destruct bs; [done|]. cbn [length] in *. lia. }
  apply gw_piece with m1 p; [done|done| | |done].
  - by rewrite <- (translation_guest limit) by auto.
  - by apply (MemWrite_guest_store limit).
Qed.
End Written.

(** ** Theorems *)

(** C3: what the program reads at a linear address is what the guest loads from it.  On a platform
    that keeps its promises about guest memory and about registers, in every state reached by calls of
    which no range wraps, each unmapping touches every region, no unmapping fails after removing
    something, and on KVM no flags of a mapped range are changed ([guest_reachable true true]),
    [LinearToPhysical] is the guest's own translation: the walk of the architecture over
    the tables that the platform shows the guest (its present and page-size bits), whatever regions lie
    over each other; in PAE mode only where both index the page directory alike.  Outside PAE mode, for a range that
    does not wrap, [LMemRead] succeeds exactly when
    the guest can load every byte of the range, and then returns those bytes; when it fails it
    reports no count, and what it has stored are bytes that the guest loads, from the first on. *)
Theorem linear_reads_are_guest_loads {B V W} `{GuestMemory B} {S} `{VPRegsLaws S} large k (b : B) m0
    (vm : VirtualMachine B V W) m uninit (s : S) cr0 cr3 cr4 efer laddr :
  12 <= k <= 64 -> ginv b -> (forall a, gview b a = None) -> guest_reachable large k true true b m0 (vm, m) ->
  ctrl s cr0 cr3 cr4 efer ->
  let mode := paging_mode (Z.testbit (fget RV.u64 cr0) 31) (Z.testbit (fget RV.u64 cr4) 5)
                (Z.testbit (fget RV.u64 efer) 8) in
  let load := guest_linear (m_backend vm) m mode cr3 cr4 in
  (same_index mode laddr -> exists s', LinearToPhysical (m_memoryRegions vm) uninit laddr (s, m)
      = (guest_translation (m_backend vm) m mode cr3 cr4 laddr, (s', m)) /\ same_regs s s')
  /\ forall size, mode <> Paging_PAE -> 0 <= laddr < 2 ^ 64 -> 0 <= size < 2 ^ 64 -> laddr + size <= 2 ^ 64 ->
     exists s', same_regs s s' /\
       match mapM load (seqZ laddr size) with
       | Some bs => LMemRead (m_memoryRegions vm) uninit laddr size false (s, m)
                    = Some (true, bs, Some size, (s', m))
       | None => exists bs, LMemRead (m_memoryRegions vm) uninit laddr size false (s, m)
                    = Some (false, bs, None, (s', m))
                  /\ forall i v, bs !! i = Some v -> load (laddr + Z.of_nat i) = Some v
       end.
Proof.
  intros Hk Hi Hb Hr Hc mode load. destruct (guest_reachable_view large k Hk b m0 vm m Hi Hb Hr) as [Hinv Hv].
  pose proof (region_wf_gwf _ (regions_wf _ vm Hinv)) as Hwf. split.
  - intros Hix. pose proof Hc as (? & ? & ? & ?).
    destruct (LinearToPhysical_ok (m_memoryRegions vm) uninit s m laddr cr0 cr3 cr4 efer) as (s' & -> & Hs); [done..|].
    exists s'. fold mode. by rewrite (translation_guest (2 ^ k)) by done.
  - intros size Hm Hl Hs Hls.
    destruct (lmem_read_ok (m_memoryRegions vm) uninit s m laddr size cr0 cr3 cr4 efer Hc Hm Hwf Hl Hs Hls)
      as (ok & bs & n & s' & E & Hs' & Hbytes & Hok). exists s'. split; [done|]. rewrite E. fold mode in Hbytes, Hok.
    assert (Hload : forall i v, bs !! i = Some v -> load (laddr + Z.of_nat i) = Some v).
    { intros i v Hiv. apply (byte_at_guest (2 ^ k)); [done..|]. by apply Hbytes. }
    destruct ok.
    + destruct Hok as [Hlen ->]. replace (mapM load (seqZ laddr size)) with (Some bs); [done|]. symmetry.
      apply mapM_Some, Forall2_same_length_lookup_2; [rewrite length_seqZ; lia|].
      intros i a v [-> _]%lookup_seqZ Hv'. by apply Hload.
    + destruct Hok as (-> & a & j & Ha & Haj & Hbl).
      apply (blocked_guest (2 ^ k) vm m Hinv Hv _ _ _ Hm) in Hbl as (a' & Ha' & Hn).
      replace (mapM load (seqZ laddr size)) with (@None (list Z)); [by exists bs|]. symmetry.
      apply mapM_None, Exists_exists. exists a'. split; [apply elem_of_seqZ; lia|done].
Qed.

(** C18: what the program writes at a linear address is stored where the guest's own tables point.
    In every state reached by calls of which no range wraps, each unmapping touches every region, no
    unmapping fails after removing something, and on KVM no flags of a mapped range are changed,
    outside PAE mode, for a range that does not wrap, [LMemWrite] returns; it stores the buffer page by
    page, each piece at the translation that the guest itself would make at that moment, in exactly
    the host bytes that the guest finds there.  It fails only at an address of the
    range from which the guest cannot load. *)
Theorem linear_writes_are_guest_stores {B V W} `{GuestMemory B} {S} `{VPRegsLaws S} large k (b : B) m0
    (vm : VirtualMachine B V W) m uninit (s : S) cr0 cr3 cr4 efer laddr size value :
  12 <= k <= 64 -> ginv b -> (forall a, gview b a = None) -> guest_reachable large k true true b m0 (vm, m) ->
  ctrl s cr0 cr3 cr4 efer -> size <= Z.of_nat (length value) ->
  0 <= laddr < 2 ^ 64 -> 0 <= size < 2 ^ 64 -> laddr + size <= 2 ^ 64 ->
  let mode := paging_mode (Z.testbit (fget RV.u64 cr0) 31) (Z.testbit (fget RV.u64 cr4) 5)
                (Z.testbit (fget RV.u64 efer) 8) in
  mode <> Paging_PAE ->
  exists ok j s' m', LMemWrite (m_memoryRegions vm) uninit laddr size (Some value) (s, m)
      = Some (ok, if (ok : bool) then Some size else None, (s', m')) /\ same_regs s s'
    /\ guest_written (m_backend vm) mode cr3 cr4 m laddr (take j value) m'
    /\ if ok then Z.of_nat j = size
       else Z.of_nat j <= size
         /\ exists a, laddr <= a < laddr + size
              /\ guest_linear (m_backend vm) m' mode cr3 cr4 a = None.
Proof.
  intros Hk Hi Hb Hr Hc Hval Hl Hs Hls mode Hm.
  destruct (guest_reachable_view large k Hk b m0 vm m Hi Hb Hr) as [Hinv Hv].
  pose proof (region_wf_gwf _ (regions_wf _ vm Hinv)) as Hwf.
  destruct (lmem_write_ok (m_memoryRegions vm) uninit s m laddr size value cr0 cr3 cr4 efer Hc Hwf Hval Hl Hs Hls)
    as (ok & j & n & s' & m' & E & Hs' & Hj & Hw & Hok). fold mode in Hw, Hok.
  exists ok, j, s', m'. apply (written_guest (2 ^ k) vm Hinv Hv _ _ _ _ _ _ _ Hm) in Hw.
  destruct ok; [by destruct Hok as [? ->]|]. destruct Hok as (-> & a & i & Ha & Hai & Hbl).
  split_and!; try done. apply (write_blocked_blocked (2 ^ k) vm m' Hinv) in Hbl.
  apply (blocked_guest (2 ^ k) vm m' Hinv Hv _ _ _ Hm) in Hbl as (a' & Ha' & Hn). exists a'. split; [lia|done].
Qed.

(** ** A concrete machine

    A HAXM driver that accepts every request, the memory and the registers of the 4-level example:
    one mapping of 16 pages. *)
#[local] Existing Instance ViewDemo.machine.
#[local] Existing Instance ViewDemo.memory.
Module LinearDemo.
Definition backend : VMBackend ViewDemo.state := haxm_VMBackend 3 (MkModuleVersion 1 4) (MkCaps 1 HAX_CAP_64BIT_SETRAM).
Definition guest : GuestMemory ViewDemo.state (H:=backend) := haxm_GuestMemory 3 (MkModuleVersion 1 4) (MkCaps 1 HAX_CAP_64BIT_SETRAM).
#[local] Existing Instance backend.
Definition vm : VirtualMachine ViewDemo.state unit unit :=
  snd (MapGuestMemory false (Z.ones 43) 0 0x10000 7 0x100000 (newVM ((fun _ => None) : ViewDemo.state))).
Lemma loads : mapM (guest_linear (H0:=guest) (m_backend vm) long_mode_mem Paging_FourLevel 0x5000 0x20) (seqZ 0x400FFE 4)
  = Some [0x102FFE mod 251; 0x102FFF mod 251; 0x104000 mod 251; 0x104001 mod 251].
Proof. vm_compute. reflexivity. Qed.
Lemma stores : fst <$> LMemWrite (m_memoryRegions vm) 0 0x400FFE 4 (Some [1; 2; 3; 4]) (long_mode_regs, long_mode_mem)
  = Some (true, Some 4).
Proof. vm_compute. reflexivity. Qed.
End LinearDemo.

(** Across two pages that are not adjacent in physical memory. *)
Lemma linear_reads_are_guest_loads_witness :
  exists s', LMemRead (m_memoryRegions LinearDemo.vm) 0 0x400FFE 4 false (long_mode_regs, long_mode_mem)
    = Some (true, [0x102FFE mod 251; 0x102FFF mod 251; 0x104000 mod 251; 0x104001 mod 251], Some 4, (s', long_mode_mem)).
Proof.
  destruct (linear_reads_are_guest_loads (H0:=LinearDemo.guest) (V:=unit) (W:=unit) false 43
    ((fun _ => None) : ViewDemo.state) long_mode_mem LinearDemo.vm long_mode_mem 0 long_mode_regs
    0x80000001 0x5000 0x20 0x500 0x400FFE) as [_ Hread].
  - lia.
  - exact I.
  - reflexivity.
  - apply rtc_once, gs_map; (lia || exact I).
  - exact long_mode_ctrl.
  - destruct (Hread 4) as (s' & _ & Hr); [discriminate|lia..|].
    exists s'.
    change (paging_mode _ _ _) with Paging_FourLevel in Hr. rewrite LinearDemo.loads in Hr. exact Hr.
Defined.

Lemma linear_writes_are_guest_stores_witness :
  exists s' m', LMemWrite (m_memoryRegions LinearDemo.vm) 0 0x400FFE 4 (Some [1; 2; 3; 4]) (long_mode_regs, long_mode_mem)
      = Some (true, Some 4, (s', m'))
    /\ guest_written (H0:=LinearDemo.guest) (m_backend LinearDemo.vm) Paging_FourLevel 0x5000 0x20
         long_mode_mem 0x400FFE [1; 2; 3; 4] m'.
Proof.
  destruct (linear_writes_are_guest_stores (H0:=LinearDemo.guest) (V:=unit) (W:=unit) false 43
    ((fun _ => None) : ViewDemo.state) long_mode_mem LinearDemo.vm long_mode_mem 0 long_mode_regs
    0x80000001 0x5000 0x20 0x500 0x400FFE 4 [1; 2; 3; 4]) as (ok & j & s' & m' & E & _ & Hw & Hok).
  - lia.
  - exact I.
  - reflexivity.
  - apply rtc_once, gs_map; (lia || exact I).
  - exact long_mode_ctrl.
  - simpl; lia.
  - lia.
  - lia.
  - lia.
  - discriminate.
  - pose proof LinearDemo.stores as C. rewrite E in C. injection C as ->.
    exists s', m'. split; [exact E|]. replace j with 4%nat in Hw by lia. exact Hw.
Defined.
