(* ===== verification/GuestTables.v ===== *)
(** * Descriptor tables as the guest's processor finds them

    GDTR and IDTR hold linear addresses, a selector holds a privilege level and a table indicator
    below its index, and the gates of IA-32e mode have 16 bytes.  [GetGDTEntry] and [GetIDTEntry]
    (vp.cpp, in Tables.v) use the addresses as physical ones, the whole selector as an offset, and
    entries of 8 bytes.  The theorems compare what they return with what the processor loads, on
    the machine of VM.v over any platform of GuestView.v. *)
From stdpp Require Import gmap.
From S2P Require Import Prelude Bits MemRegions VM Regs Gdt Paging Status Vp Tables HaxmVp HaxmVm GuestView GuestLinear.

(** ** What the processor loads *)
Section Processor.
Context {B : Type} `{GuestMemory B}.
Context (b : B) (m : hmem) (mode : CPUPagingMode) (cr3 cr4 : RegValue) (base limit : Z).

Definition guest_linear_range (a n : Z) : option (list Z) := mapM (guest_linear b m mode cr3 cr4) (seqZ a n).
(** The descriptor of a selector in the GDT: the index is bits 15 to 3, and the limit is the offset
    of the last byte of the table. *)
Definition guest_descriptor (selector : Z) : option Z :=
  if limit <? 8 * (selector / 8) + 7 then None
  else le_combine <$> guest_linear_range (base + 8 * (selector / 8)) 8.
(** The gate of a vector. *)
Definition gate_size (ia32e : bool) : Z := if ia32e then 16 else 8.
Definition guest_gate (ia32e : bool) (vector : Z) : option Z :=
  let size := gate_size ia32e in
  if limit <? vector * size + size - 1 then None
  else le_combine <$> guest_linear_range (base + vector * size) size.
End Processor.

(** ** Lemmas *)
Lemma mapM_seqZ_shift {A} (f g : Z -> option A) a p n :
  (forall d, 0 <= d < n -> f (a + d) = g (p + d)) -> mapM f (seqZ a n) = mapM g (seqZ p n).
Proof.
  intros Hfg. destruct (Z.le_gt_cases 0 n) as [Hn|Hn]; [|by rewrite !seqZ_nil by lia].
  revert a p Hfg. pattern n. apply natlike_ind; [done| |done].
  clear n Hn. intros n Hn IH a p Hfg. rewrite !(seqZ_cons _ (Z.succ n)) by lia. rewrite Z.pred_succ. cbn.
  pose proof (Hfg 0 ltac:(lia)) as E. rewrite !Z.add_0_r in E. rewrite E. destruct (g p); cbn; [|done].
  rewrite (IH (Z.succ a) (Z.succ p)); [done|]. intros d Hd.
  replace (Z.succ a + d) with (a + (d + 1)) by lia. replace (Z.succ p + d) with (p + (d + 1)) by lia.
  apply Hfg. lia.
Qed.

Lemma mapM_app {A B} (f : A -> option B) l k :
  mapM f (l ++ k) = (xs ← mapM f l; ys ← mapM f k; Some (xs ++ ys)).
Proof.
  induction l as [|x l IH]; cbn; [by destruct (mapM f k)|]. destruct (f x); cbn; [|done]. rewrite IH.
  destruct (mapM f l); cbn; [|done]. by destruct (mapM f k).
Qed.
Lemma le_combine_app bs cs : le_combine (bs ++ cs) = le_combine bs + 2 ^ (8 * Z.of_nat (length bs)) * le_combine cs.
Proof.
  induction bs as [|x bs IH]; cbn [app le_combine length]; [rewrite Z.mul_0_r; lia|].
  assert (Hsum : forall y, 0 <= y -> u8 x ||| (y <<< 8) = u8 x + 256 * y).
  { intros y Hy. rewrite Z.lor_comm, lor_shiftl_add by (lia || apply u8_range). lia. }
  rewrite !Hsum by apply le_combine_nonneg. rewrite IH, Nat2Z.inj_succ.
  replace (8 * Z.succ (Z.of_nat (length bs))) with (8 + 8 * Z.of_nat (length bs)) by lia.
  rewrite Z.pow_add_r by lia. lia.
Qed.
(** The two halves of 16 bytes. *)
Lemma le_combine_half bs cs i : length bs = 8%nat -> length cs = 8%nat -> i = 0 \/ i = 1 ->
  fget (Field (64 * i) 64) (le_combine (bs ++ cs)) = le_combine (if i =? 0 then bs else cs).
Proof.
  intros Hb Hc Hi. rewrite le_combine_app, Hb. change (8 * Z.of_nat 8) with 64.
  pose proof (le_combine_range bs) as H1. pose proof (le_combine_range cs) as H2. rewrite Hb in H1. rewrite Hc in H2.
  change (8 * Z.of_nat 8) with 64 in *.
  destruct Hi as [-> | ->]; cbn [Z.eqb Pos.eqb]; rewrite fget_mod by done; cbn [f_off f_width].
  - change (2 ^ (64 * 0)) with 1. rewrite Z.div_1_r, (Z.mul_comm (2 ^ 64)), Z.mod_add by lia. by apply Z.mod_small.
  - change (2 ^ (64 * 1)) with (2 ^ 64). rewrite (Z.mul_comm (2 ^ 64)), Z.div_add, (Z.div_small (le_combine bs)) by lia.
    by apply Z.mod_small.
Qed.

Section Facts.
Context {B : Type} `{GuestMemory B} (b : B) (m : hmem) (mode : CPUPagingMode) (cr3 cr4 : RegValue).
Hypothesis Hmode : mode <> Paging_PAE.

(** A load inside a page is one translation and one physical load. *)
Lemma guest_linear_page a n : 0 < n -> a mod 4096 + n <= 4096 ->
  guest_linear_range b m mode cr3 cr4 a n
  = guest_translation b m mode cr3 cr4 a ≫= fun p => guest_loads b m p n.
Proof.
  intros Hn Ha. unfold guest_linear_range, guest_loads.
  assert (Hl : forall d, 0 <= d < n -> guest_linear b m mode cr3 cr4 (a + d)
                 = guest_translation b m mode cr3 cr4 a ≫= fun p => guest_byte b m (p + d)).
  { intros d Hd. unfold guest_linear, guest_translation.
    rewrite <- !translation_arch by (by apply not_PAE_same_index).
    rewrite translation_page_local by (done || lia). by destruct (translation _ _ _ _ a). }
  destruct (guest_translation b m mode cr3 cr4 a) as [p|].
  - apply mapM_seqZ_shift. exact Hl.
  - rewrite (seqZ_cons a n) by lia. cbn. pose proof (Hl 0 ltac:(lia)) as E. rewrite Z.add_0_r in E. by rewrite E.
Qed.
Lemma guest_loads_length p n bs : guest_loads b m p n = Some bs -> length bs = Z.to_nat n.
Proof. intros Hl%length_mapM. rewrite length_seqZ in Hl. lia. Qed.
(** Two adjacent loads. *)
Lemma guest_loads_split p n k : 0 <= n -> 0 <= k ->
  guest_loads b m p (n + k)
  = (bs ← guest_loads b m p n; cs ← guest_loads b m (p + n) k; Some (bs ++ cs)).
Proof. intros Hn Hk. unfold guest_loads. rewrite seqZ_app by done. apply mapM_app. Qed.
End Facts.

(** ** The tables on a machine *)
Section Machine.
Context {B V W : Type} `{GuestMemory B} {S : Type} `{VPRegsLaws S}.
Context (limit0 : Z) (vm : VirtualMachine B V W) (m : hmem) (uninit : RegValue).
Hypothesis Hinv : Forall (region_inv limit0) (m_memoryRegions vm).
Hypothesis Hview : same_view vm.

(** [GetGDTEntry] loads physical memory at the base plus the selector. *)
Lemma GetGDTEntry_physical (s : S) base limit ia32e selector e0 :
  table_view s base limit ia32e -> selector + 8 <= limit -> in_page (base + selector) 8 ->
  exists s', same_regs s s' /\
    match guest_loads (m_backend vm) m (base + selector) 8 with
    | None => GetGDTEntry (m_memoryRegions vm) uninit selector e0 (s, m) = (inl VP_Failed, (s', m))
    | Some bs => Z.testbit (le_combine bs) 44 = true ->
        exists e, GetGDTEntry (m_memoryRegions vm) uninit selector e0 (s, m) = (inr e, (s', m))
          /\ fget (Field 0 64) e = le_combine bs
    end.
Proof.
  intros Hv Hl Hp. destruct (GetGDTEntry_cases (m_memoryRegions vm) uninit s m selector e0 base limit ia32e Hv) as (s' & Hs & ->).
  exists s'. split; [done|]. rewrite (proj2 (Z.ltb_ge _ _)) by lia.
  rewrite u64_small by (unfold in_page in Hp; lia). rewrite (MemRead_guest limit0 vm m Hinv Hview) by done.
  destruct (guest_loads (m_backend vm) m (base + selector) 8) as [bs|] eqn:E; [|done]. intros Hb. cbv zeta.
  apply guest_loads_length in E. pose proof (le_combine_range bs) as Hr. rewrite E in Hr.
  assert (He : fget (Field 0 64) (fset (Field 0 64) (le_combine bs) e0) = le_combine bs).
  { rewrite fget_fset_same by done. by apply Z.mod_small. }
  assert (Hk : entry_size ia32e (fset (Field 0 64) (le_combine bs) e0) = Some 8).
  { rewrite (entry_size_low64 ia32e _ (le_combine bs)); [unfold entry_size; by rewrite Hb|].
    rewrite He. symmetry. rewrite fget_low by lia. by apply Z.mod_small. }
  rewrite Hk. by eexists.
Qed.

Lemma GetIDTEntry_physical (s : S) g vector :
  rview s Reg.IDTR = Some g -> vector * 8 <= fget RV.tlimit g -> in_page (fget RV.tbase g + vector * 8) 8 ->
  exists s', same_regs s s' /\ GetIDTEntry (m_memoryRegions vm) uninit vector (s, m)
    = (match guest_loads (m_backend vm) m (fget RV.tbase g + vector * 8) 8 with
       | None => inl VP_Failed
       | Some bs => inr (le_combine bs)
       end, (s', m)).
Proof.
  intros Hg Hl Hp. destruct (GetIDTEntry_cases (m_memoryRegions vm) uninit s m vector g Hg) as (s' & Hs & ->).
  exists s'. split; [done|]. rewrite (proj2 (Z.ltb_ge _ _)) by lia.
  rewrite u64_small by (unfold in_page in Hp; lia). rewrite (MemRead_guest limit0 vm m Hinv Hview) by done.
  by destruct (guest_loads _ _ _ _).
Qed.
End Machine.

(** ** Theorems *)

(** C19: [GetGDTEntry] against the processor, outside PAE mode, on a machine reached by calls of which
    no range wraps, each unmapping touches every region, no unmapping fails after removing something,
    and on KVM no flags of a mapped range are changed.  For a code or data descriptor (bit 44 is set)
    that begins at least 8 bytes before the limit and inside a page, it returns the 8 bytes that guest-physical memory holds at the base plus the whole selector,
    and fails with Failed where the guest finds no memory.  The processor loads them through the
    guest's page tables at the base plus eight times the index of the selector.  So both agree
    where that page is mapped to itself, if the lower three bits of the selector are 0 and it does not
    designate the last entry; otherwise they are loads from two different places. *)
Theorem gdt_entry_and_the_guest {B V W} `{GuestMemory B} {S} `{VPRegsLaws S} large k (b : B) m0
    (vm : VirtualMachine B V W) m uninit (s : S) cr0 cr3 cr4 efer base limit ia32e selector e0 :
  12 <= k <= 64 -> ginv b -> (forall a, gview b a = None) -> guest_reachable large k true true b m0 (vm, m) ->
  ctrl s cr0 cr3 cr4 efer -> table_view s base limit ia32e ->
  let mode := paging_mode (Z.testbit (fget RV.u64 cr0) 31) (Z.testbit (fget RV.u64 cr4) 5)
                (Z.testbit (fget RV.u64 efer) 8) in
  mode <> Paging_PAE -> 0 <= base -> 0 <= selector ->
  let descriptor := guest_descriptor (m_backend vm) m mode cr3 cr4 base limit selector in
  let a := base + 8 * (selector / 8) in
  let returns (d : option Z) := exists s', same_regs s s' /\
    match d with
    | None => GetGDTEntry (m_memoryRegions vm) uninit selector e0 (s, m) = (inl VP_Failed, (s', m))
    | Some d => Z.testbit d 44 = true -> exists e,
        GetGDTEntry (m_memoryRegions vm) uninit selector e0 (s, m) = (inr e, (s', m))
        /\ fget (Field 0 64) e = d
    end in
  (selector + 8 <= limit -> in_page (base + selector) 8 ->
     returns (le_combine <$> guest_loads (m_backend vm) m (base + selector) 8))
  /\ (8 * (selector / 8) + 7 <= limit -> a mod 4096 + 8 <= 4096 ->
      descriptor = le_combine <$> (guest_translation (m_backend vm) m mode cr3 cr4 a
                                     ≫= fun p => guest_loads (m_backend vm) m p 8))
  /\ (selector mod 8 = 0 -> selector + 8 <= limit -> in_page a 8 ->
      guest_translation (m_backend vm) m mode cr3 cr4 a = Some a -> returns descriptor).
Proof.
  intros Hk Hi Hb Hr _ Hv mode Hmode Hbase Hsel descriptor a returns.
  destruct (guest_reachable_view large k Hk b m0 vm m Hi Hb Hr) as [Hinv Hview].
  assert (Hphys : selector + 8 <= limit -> in_page (base + selector) 8 ->
    returns (le_combine <$> guest_loads (m_backend vm) m (base + selector) 8)).
  { intros Hl Hp. destruct (GetGDTEntry_physical (2 ^ k) vm m uninit Hinv Hview s base limit ia32e selector e0 Hv Hl Hp)
      as (s' & Hs & E). exists s'. split; [done|]. by destruct (guest_loads _ _ _ _). }
  assert (Hdesc : 8 * (selector / 8) + 7 <= limit -> a mod 4096 + 8 <= 4096 ->
    descriptor = le_combine <$> (guest_translation (m_backend vm) m mode cr3 cr4 a
                                   ≫= fun p => guest_loads (m_backend vm) m p 8)).
  { intros Hl Ha. unfold descriptor, guest_descriptor. rewrite (proj2 (Z.ltb_ge _ _)) by lia.
    by rewrite guest_linear_page by (done || lia). }
  split; [done|]. split; [done|]. intros Hm Hl Ha HT.
  assert (E : a = base + selector) by (pose proof (Z.div_mod selector 8); unfold a; lia).
  rewrite Hdesc, HT by (unfold in_page in Ha; lia). cbn. rewrite E in *. by apply Hphys.
Qed.

(** C20: [GetIDTEntry] against the processor, outside PAE mode, on a machine reached by calls of which
    no range wraps, each unmapping touches every region, no unmapping fails after removing something,
    and on KVM no flags of a mapped range are changed.  For an entry inside a page it returns the 8 bytes that guest-physical memory holds
    at the base plus eight times the vector.  Where that page of the table is mapped to itself this is
    the gate of the vector outside IA-32e mode; in IA-32e mode, where gates have 16 bytes, it is the
    lower or the upper half of the gate of half the vector, so that no call returns a whole gate. *)
Theorem idt_entry_and_the_guest {B V W} `{GuestMemory B} {S} `{VPRegsLaws S} large k (b : B) m0
    (vm : VirtualMachine B V W) m uninit (s : S) cr0 cr3 cr4 efer g vector :
  12 <= k <= 64 -> ginv b -> (forall a, gview b a = None) -> guest_reachable large k true true b m0 (vm, m) ->
  ctrl s cr0 cr3 cr4 efer -> rview s Reg.IDTR = Some g ->
  let mode := paging_mode (Z.testbit (fget RV.u64 cr0) 31) (Z.testbit (fget RV.u64 cr4) 5)
                (Z.testbit (fget RV.u64 efer) 8) in
  mode <> Paging_PAE -> 0 <= vector ->
  let base := fget RV.tbase g in
  let limit := fget RV.tlimit g in
  let T := guest_translation (m_backend vm) m mode cr3 cr4 in
  let gate ia32e := guest_gate (m_backend vm) m mode cr3 cr4 base limit ia32e in
  let returns (r : VPOperationStatus + Z) := exists s', same_regs s s'
    /\ GetIDTEntry (m_memoryRegions vm) uninit vector (s, m) = (r, (s', m)) in
  (vector * 8 <= limit -> in_page (base + vector * 8) 8 ->
     returns (match guest_loads (m_backend vm) m (base + vector * 8) 8 with
              | Some bs => inr (le_combine bs) | None => inl VP_Failed end))
  /\ (vector * 8 + 7 <= limit -> in_page (base + vector * 8) 8 -> T (base + vector * 8) = Some (base + vector * 8) ->
      returns (match gate false vector with Some d => inr d | None => inl VP_Failed end))
  /\ (forall d, let a := base + vector / 2 * 16 in in_page a 16 -> T a = Some a ->
      gate true (vector / 2) = Some d -> returns (inr (fget (Field (64 * (vector mod 2)) 64) d))).
Proof.
  intros Hk Hi Hb Hr _ Hg mode Hmode Hvec base limit T gate returns.
  destruct (guest_reachable_view large k Hk b m0 vm m Hi Hb Hr) as [Hinv Hview].
  assert (Hphys : vector * 8 <= limit -> in_page (base + vector * 8) 8 ->
     returns (match guest_loads (m_backend vm) m (base + vector * 8) 8 with
              | Some bs => inr (le_combine bs) | None => inl VP_Failed end)).
  { intros Hl Hp. by apply (GetIDTEntry_physical (2 ^ k) vm m uninit Hinv Hview s g vector). }
  split; [done|]. split.
  - intros Hl Hp HT. unfold gate, guest_gate. cbn [gate_size]. rewrite (proj2 (Z.ltb_ge _ _)) by lia.
    rewrite guest_linear_page by (done || (unfold in_page in Hp; lia)). fold T. rewrite HT. cbn.
    specialize (Hphys ltac:(lia) Hp). by destruct (guest_loads _ _ _ _).
  - intros d a Hp HT. unfold gate, guest_gate. cbn [gate_size]. destruct (Z.ltb_spec limit (vector / 2 * 16 + 16 - 1)) as [|Hl]; [done|].
    fold a. rewrite guest_linear_page by (done || (unfold in_page in Hp; lia)). fold T. rewrite HT. cbn.
    change 16 with (8 + 8). rewrite guest_loads_split by lia.
    destruct (guest_loads (m_backend vm) m a 8) as [bs|] eqn:E1; [|done]. cbn.
    destruct (guest_loads (m_backend vm) m (a + 8) 8) as [cs|] eqn:E2; [|done]. cbn. intros [= <-].
    pose proof (Z.div_mod vector 2 ltac:(lia)) as Hdm. pose proof (Z.mod_pos_bound vector 2 ltac:(lia)) as Hmod.
    set (h := vector mod 2) in *. assert (Hh : h = 0 \/ h = 1) by lia.
    pose proof (guest_loads_length _ _ _ _ _ E1) as L1. pose proof (guest_loads_length _ _ _ _ _ E2) as L2.
    rewrite le_combine_half by done.
    assert (Ea : base + vector * 8 = a + 8 * h) by (unfold a; lia).
    assert (Hin : in_page (a + 8 * h) 8).
    { unfold in_page in *. destruct Hp as (? & _ & ?). destruct Hh as [-> | ->]; [rewrite Z.add_0_r; lia|]. zlia. }
    rewrite <- Ea in Hin. specialize (Hphys ltac:(lia) Hin). rewrite Ea in Hphys.
    destruct Hh as [E | E]; rewrite E in *.
    + change (8 * 0) with 0 in Hphys. rewrite Z.add_0_r, E1 in Hphys. exact Hphys.
    + change (8 * 1) with 8 in Hphys. rewrite E2 in Hphys. exact Hphys.
Qed.

(** ** Concrete tables on the machine of GuestLinear.v *)
#[local] Existing Instance ViewDemo.machine.
#[local] Existing Instance ViewDemo.memory.
Module TableDemo.
Definition table_value (base limit : Z) : RegValue := fset RV.tlimit limit (fset RV.tbase base 0).
(** Long mode, with tables of a page. *)
Definition regs (gdt idt : Z) : table_regs := fun r =>
  match r with
  | Reg.GDTR => Some (table_value gdt 0xFFF) | Reg.IDTR => Some (table_value idt 0xFFF)
  | _ => long_mode_regs r
  end.
(** The first 2 MiB mapped to themselves. *)
Definition identity_mem : hmem := host_write long_mode_mem 0x107000 (le_split 8 0x83).
Definition b : ViewDemo.state := m_backend LinearDemo.vm.
Definition descriptor (selector : Z) : option Z :=
  guest_descriptor (H0:=LinearDemo.guest) b long_mode_mem Paging_FourLevel 0x5000 0x20 0x400000 0xFFF selector.
Definition gate (vector : Z) : option Z :=
  guest_gate (H0:=LinearDemo.guest) b identity_mem Paging_FourLevel 0x5000 0x20 0x3000 0xFFF true vector.
Lemma descriptor_8 : descriptor 8 = Some (le_combine ((fun i => (0x102008 + i) mod 251) <$> seqZ 0 8)).
Proof. vm_compute. reflexivity. Qed.
Lemma nothing_there : guest_loads (H0:=LinearDemo.guest) b long_mode_mem 0x400008 8 = None.
Proof. vm_compute. reflexivity. Qed.
Lemma gate_2 : gate 2 = Some (le_combine ((fun i => (0x103020 + i) mod 251) <$> seqZ 0 16)).
Proof. vm_compute. reflexivity. Qed.
Lemma identity : guest_translation (H0:=LinearDemo.guest) b identity_mem Paging_FourLevel 0x5000 0x20 0x3020 = Some 0x3020.
Proof. vm_compute. reflexivity. Qed.
End TableDemo.

(** A table at linear address 0x400000, in physical memory at 0x2000: the processor loads its
    descriptor, [GetGDTEntry] finds no memory. *)
Lemma gdt_entry_and_the_guest_witness :
  is_Some (TableDemo.descriptor 8)
  /\ exists s', GetGDTEntry (m_memoryRegions LinearDemo.vm) 0 8 0 (TableDemo.regs 0x400000 0, long_mode_mem)
    = (inl VP_Failed, (s', long_mode_mem)).
Proof.
  split; [rewrite TableDemo.descriptor_8; by eexists|].
  destruct (gdt_entry_and_the_guest (H0:=LinearDemo.guest) (V:=unit) (W:=unit) false 43
    ((fun _ => None) : ViewDemo.state) long_mode_mem LinearDemo.vm long_mode_mem 0 (TableDemo.regs 0x400000 0)
    0x80000001 0x5000 0x20 0x500 0x400000 0xFFF true 8 0) as (Hread & _).
  - lia.
  - exact I.
  - reflexivity.
  - apply rtc_once, gs_map; (lia || exact I).
  - exact long_mode_ctrl.
  - split; [eexists; by split_and!|]. exists 0x80000001, 2, 0x500. by split_and!.
  - discriminate.
  - lia.
  - lia.
  - destruct Hread as (s' & _ & E); [lia|unfold in_page; vm_compute; repeat split; discriminate|]. exists s'.
    change (0x400000 + 8) with 0x400008 in E. pose proof TableDemo.nothing_there as E0. unfold TableDemo.b in E0.
    rewrite E0 in E. exact E.
Defined.

(** Vector 5 in long mode: the upper half of gate 2. *)
Lemma idt_entry_and_the_guest_witness :
  exists d s', TableDemo.gate 2 = Some d
  /\ GetIDTEntry (m_memoryRegions LinearDemo.vm) 0 5 (TableDemo.regs 0 0x3000, TableDemo.identity_mem)
     = (inr (fget (Field 64 64) d), (s', TableDemo.identity_mem)).
Proof.
  eexists. destruct (idt_entry_and_the_guest (H0:=LinearDemo.guest) (V:=unit) (W:=unit) false 43
    ((fun _ => None) : ViewDemo.state) TableDemo.identity_mem LinearDemo.vm TableDemo.identity_mem 0 (TableDemo.regs 0 0x3000)
    0x80000001 0x5000 0x20 0x500 (TableDemo.table_value 0x3000 0xFFF) 5) as (_ & _ & Hhalf).
  - lia.
  - exact I.
  - reflexivity.
  - apply rtc_once, gs_map; (lia || exact I).
  - by unfold ctrl.
  - reflexivity.
  - discriminate.
  - lia.
  - destruct (Hhalf _ ltac:(unfold in_page; vm_compute; repeat split; discriminate) TableDemo.identity TableDemo.gate_2) as (s' & _ & E).
    exists s'. split; [exact TableDemo.gate_2|exact E].
Defined.
