(* ===== verification/InterruptDelivery.v ===== *)
(** * From the interrupt queue to the hypervisor

    Interrupts.v shows for which vectors [InjectInterrupt] is called, in which order.  Here that
    machine is composed with what a hypervisor promises of the request behind [InjectInterrupt], and
    with the other operations that a client calls between runs: the class [InterruptSink] keeps the
    vectors that the hypervisor has taken.  The processors of KVM and HAXM are instances, by the
    documented effect of KVM_INTERRUPT, HAX_VCPU_IOCTL_INTERRUPT and of the flag
    [ready_for_interrupt_injection].  That of WHPX is none: it never asks whether the processor
    can take an interrupt, and the last part shows what follows. *)
From stdpp Require Import functions.
From S2P Require Import Prelude Bits MemRegions VM Regs Status Vp Interrupts Arch Debug HaxmRegs HaxmVp WhpxRegs WhpxVp KvmRegs KvmVp.

(** ** The interface *)

(** [client] are the operations of a client between runs. *)
Class InterruptSink (S : Type) `{VPInterrupts S} (client : S -> S -> Prop) := {
  (** the vectors that the hypervisor has taken, the oldest first *)
  taken : S -> list Z;
  (** what [CanInjectInterrupt] reports is true of the hypervisor *)
  in_agreement : S -> Prop;
  sink_prepare v s : let s' := snd (PrepareInterrupt v s) in
    taken s' = taken s /\ CanInjectInterrupt s' = CanInjectInterrupt s /\ (in_agreement s -> in_agreement s');
  sink_window s : taken (RequestInterruptWindow s) = taken s;
  sink_inject v s : 0 <= v < 256 -> in_agreement s -> CanInjectInterrupt s = true ->
    let '(status, s') := InjectInterrupt v s in status = VP_OK /\ taken s' = taken s ++ [v];
  sink_run s : let '(status, s') := RunImpl s in
    taken s' = taken s /\ (status <> VPE_Failed -> in_agreement s');
  sink_client s s' : client s s' -> taken s' = taken s /\ (in_agreement s -> in_agreement s')
}.

Section Delivery.
Context {S : Type} `{VPInterrupts S} (client : S -> S -> Prop).

(** The machine of Interrupts.v with the operations of clients, as long as no run fails. *)
Inductive dstep : mstate -> mstate -> Prop :=
| ds_queue st st' :
    mstep st st' -> (m_pc st = PC_run -> fst (RunImpl (vp_state (m_vp st))) <> VPE_Failed) -> dstep st st'
| ds_client s s' q enq :
    client s s' -> dstep (MkM (MkVP s q) PC_outside enq) (MkM (MkVP s' q) PC_outside enq).

Context `{!InterruptSink S client}.

(** What is taken and what waits is what was enqueued; outside of a run the flag is right, and past
    its test it was set. *)
Definition dinv (st : mstate) : Prop :=
  minv st
  /\ taken (vp_state (m_vp st)) ++ m_pendingInterrupts (m_vp st) = m_enqueued st
  /\ (m_pc st <> PC_run -> in_agreement (vp_state (m_vp st)))
  /\ (m_pc st = PC_inject \/ m_pc st = PC_pop -> CanInjectInterrupt (vp_state (m_vp st)) = true).

(** The oldest vector is a byte. *)
Lemma minv_head (st : mstate (S := S)) v rest : minv st -> m_pendingInterrupts (m_vp st) = v :: rest -> 0 <= v < 256.
Proof.
  intros (_ & Hf & [l E]) Hq. rewrite E, Hq in Hf. by apply Forall_app in Hf as [_ [? _]%Forall_cons].
Qed.

Lemma dstep_inv st st' : dstep st st' -> dinv st -> dinv st'.
Proof.
  intros Hd (Hm & Ht & Ha & Hc). destruct Hd as [st st' Hs Hrun|s s' q enq Hcl].
  - split; [by eapply mstep_inv|].
    destruct Hs as [vp c enq v| | | | |vp enq| | |vp enq Hn|vp enq]; cbn in *;
      try (split_and!; [done|by intros; apply Ha|by intros [|]]).
    + unfold EnqueueInterrupt. pose proof (sink_prepare (u8 v) (vp_state vp)) as (H1 & H2 & H3).
      destruct (PrepareInterrupt (u8 v) (vp_state vp)) as [ok s']. cbn in *. rewrite H1, H2, app_assoc, Ht. split_and!; auto.
    + rewrite sink_window. split_and!; [done|done|by intros [|]].
    + split_and!; [done|by intros; apply Ha|auto].
    + destruct vp as [s [|v rest]]; [done|]. pose proof (minv_head _ v rest Hm eq_refl) as Hv. unfold pop_and_inject. cbn in *.
      pose proof (sink_inject v s Hv (Ha ltac:(done)) (Hc ltac:(by right))) as Hi.
      destruct (InjectInterrupt v s) as [status s']. destruct Hi as [_ Hi]. cbn. rewrite Hi, <- app_assoc.
      split_and!; [done|done|by intros [|]].
    + unfold run_impl. pose proof (sink_run (vp_state vp)) as Hi. specialize (Hrun eq_refl).
      destruct (RunImpl (vp_state vp)) as [status s']. cbn in *. destruct Hi as [-> Hi].
      split_and!; [done|auto|by intros [|]].
  - destruct (sink_client s s' Hcl) as [H1 H2]. cbn in *. split; [done|].
    cbn. rewrite H1. split_and!; [done|auto|by intros [|]].
Qed.

Lemma delivery_inv s st : taken s = [] -> in_agreement s -> rtc dstep (minit s) st -> dinv st.
Proof.
  intros Ht Ha Hr. remember (minit s) as st0 eqn:E. assert (Hi : dinv st0).
  { subst. unfold dinv, minv; cbn. rewrite app_nil_r. split_and!; auto. by intros [|]. }
  clear E. induction Hr as [|x y z Hxy _ IH]; [done|]. apply IH. by eapply dstep_inv.
Qed.

(** What the hypervisor has taken and what is pending is what was enqueued, and a pop finds a
    hypervisor that takes its vector. *)
Lemma delivered s st : taken s = [] -> in_agreement s -> rtc dstep (minit s) st ->
  taken (vp_state (m_vp st)) ++ m_pendingInterrupts (m_vp st) = m_enqueued st
  /\ (m_pc st = PC_pop -> forall v, head (m_pendingInterrupts (m_vp st)) = Some v ->
      fst (InjectInterrupt v (vp_state (m_vp st))) = VP_OK).
Proof.
  intros Ht Ha Hr. destruct (delivery_inv s st Ht Ha Hr) as (Hm & Hi & Hg & Hc).
  split; [done|]. intros Hpc v Hh. destruct (m_pendingInterrupts (m_vp st)) as [|v' rest] eqn:Eq; [done|].
  injection Hh as ->. pose proof (minv_head _ v rest Hm Eq) as Hv.
  pose proof (sink_inject v _ Hv (Hg ltac:(by rewrite Hpc)) (Hc ltac:(by right))) as H1.
  by destruct (InjectInterrupt v _) as [? ?], H1 as [-> _].
Qed.

(** A vector enqueued before a run and one between its tests and the pop. *)
Lemma two_around_a_run s v w :
  let s2 := snd (PrepareInterrupt (u8 w) (snd (PrepareInterrupt (u8 v) s))) in
  let s3 := snd (InjectInterrupt (u8 v) s2) in
  CanInjectInterrupt (snd (PrepareInterrupt (u8 v) s)) = true -> fst (RunImpl s3) <> VPE_Failed ->
  rtc dstep (minit s) (MkM (MkVP (snd (RunImpl s3)) [u8 w]) PC_outside [u8 v; u8 w]).
Proof.
  intros s2 s3 Hc Hrun. unfold minit.
  assert (E1 : snd (EnqueueInterrupt v (MkVP s [])) = MkVP (snd (PrepareInterrupt (u8 v) s)) [u8 v]).
  { unfold EnqueueInterrupt. cbn. by destruct (PrepareInterrupt (u8 v) s). }
  assert (E2 : snd (EnqueueInterrupt w (MkVP (snd (PrepareInterrupt (u8 v) s)) [u8 v])) = MkVP s2 [u8 v; u8 w]).
  { unfold EnqueueInterrupt, s2. cbn. by destruct (PrepareInterrupt (u8 w) _). }
  assert (E3 : pop_and_inject (MkVP s2 [u8 v; u8 w]) = MkVP s3 [u8 w]) by done.
  assert (E4 : snd (run_impl (MkVP s3 [u8 w])) = MkVP (snd (RunImpl s3)) [u8 w]).
  { unfold run_impl. cbn. by destruct (RunImpl s3). }
  eapply rtc_l; [apply ds_queue; [apply (ms_enqueue _ _ _ v)|done]|]. rewrite E1.
  eapply rtc_l; [apply ds_queue; [by apply ms_test1|done]|].
  eapply rtc_l; [apply ds_queue; [by apply ms_can|done]|].
  eapply rtc_l; [apply ds_queue; [apply (ms_enqueue _ _ _ w)|done]|]. rewrite E2.
  eapply rtc_l; [apply ds_queue; [by apply ms_test2|done]|].
  eapply rtc_l; [apply ds_queue; [by apply ms_pop|done]|]. rewrite E3.
  eapply rtc_l; [apply ds_queue; [apply ms_run|done]|]. rewrite E4. reflexivity.
Qed.
End Delivery.

(** ** KVM

    KVM_INTERRUPT queues one vector and refuses another while that one waits ([room]); after a
    KVM_RUN that succeeds the flag in the shared page says whether there is room.  No other
    request touches either. *)
Class KVMInterrupts (K : Type) `{KVM K} := {
  kvm_taken : K -> list Z;
  kvm_room : K -> bool;
  kvm_quiet (k k' : K) : Prop := kvm_taken k' = kvm_taken k /\ kvm_room k' = kvm_room k;
  interrupt_law v k : let '(ok, k') := KVM_INTERRUPT v k in
    if kvm_room k then ok = true /\ kvm_taken k' = kvm_taken k ++ [v] /\ kvm_room k' = false
    else ok = false /\ kvm_quiet k k';
  run_law r k : let '(ok, r', k') := KVM_RUN r k in
    kvm_taken k' = kvm_taken k
    /\ (ok = true -> nz (ready_for_interrupt_injection r') = true -> kvm_room k' = true);
  quiet_get_regs r k : kvm_quiet k (snd (KVM_GET_REGS r k));
  quiet_set_regs r k : kvm_quiet k (snd (KVM_SET_REGS r k));
  quiet_get_sregs r k : kvm_quiet k (snd (KVM_GET_SREGS r k));
  quiet_set_sregs r k : kvm_quiet k (snd (KVM_SET_SREGS r k));
  quiet_get_debugregs r k : kvm_quiet k (snd (KVM_GET_DEBUGREGS r k));
  quiet_set_debugregs r k : kvm_quiet k (snd (KVM_SET_DEBUGREGS r k));
  quiet_get_fpu r k : kvm_quiet k (snd (KVM_GET_FPU r k));
  quiet_set_fpu r k : kvm_quiet k (snd (KVM_SET_FPU r k));
  quiet_set_guest_debug d k : kvm_quiet k (snd (KVM_SET_GUEST_DEBUG d k));
  quiet_get_msrs l k : kvm_quiet k (snd (KVM_GET_MSRS l k));
  quiet_set_msrs l k : kvm_quiet k (snd (KVM_SET_MSRS l k))
}.

Section KvmSink.
Context {K W : Type} `{KVMInterrupts K} (io : IOHandlers W) (uninit : Z).
Abbreviation S := (kvp K W).
Implicit Types s : S.

(** The operations on registers, MSRs, floating point control and breakpoints. *)
Inductive kvm_client : S -> S -> Prop :=
| kc_RegRead r v s : kvm_client s (snd (kvm_RegRead r v s))
| kc_RegWrite r v s : kvm_client s (snd (kvm_RegWrite r v s))
| kc_RegReadN rs vs s : kvm_client s (snd (kvm_RegReadN rs vs s))
| kc_RegWriteN rs vs s : kvm_client s (snd (kvm_RegWriteN rs vs s))
| kc_GetFPUControl s : kvm_client s (snd (KvmVp.GetFPUControl s))
| kc_SetFPUControl v s : kvm_client s (snd (KvmVp.SetFPUControl v s))
| kc_GetMXCSR s : kvm_client s (snd (KvmVp.GetMXCSR s))
| kc_SetMXCSR v s : kvm_client s (snd (KvmVp.SetMXCSR v s))
| kc_GetMSR n v s : kvm_client s (snd (kvm_GetMSR n v s))
| kc_SetMSR n v s : kvm_client s (snd (kvm_SetMSR n v s))
| kc_GetMSRs ns vs s : kvm_client s (snd (kvm_GetMSRs ns vs s))
| kc_SetMSRs ns vs s : kvm_client s (snd (kvm_SetMSRs ns vs s))
| kc_EnableSoftwareBreakpoints b s : kvm_client s (snd (kvm_EnableSoftwareBreakpoints b s))
| kc_SetHardwareBreakpoints bps s : kvm_client s (snd (kvm_SetHardwareBreakpoints bps s))
| kc_ClearHardwareBreakpoints s : kvm_client s (snd (kvm_ClearHardwareBreakpoints s)).

#[local] Instance quiet_preorder : PreOrder (kvm_quiet (K := K)).
Proof. split; [done|]. intros x y z [H1 H2] [H3 H4]. split; congruence. Qed.
(** The page is the same and the kernel has not been asked to inject. *)
Definition kvm_undisturbed s s' : Prop := m_kvmRun s' = m_kvmRun s /\ kvm_quiet (k_kernel s) (k_kernel s').
#[local] Instance undisturbed_preorder : PreOrder kvm_undisturbed.
Proof.
  split; [by split|]. intros x y z [H1 H2] [H3 H4]. split; [congruence|]. by etrans.
Qed.

(** *** The transfers are quiet *)
Definition quiet_transfer (t : transfer) : Prop := forall c k, kvm_quiet k (snd (snd (t (c, k)))).
Lemma quiet_andthen t u : quiet_transfer t -> quiet_transfer u -> quiet_transfer (andthen t u).
Proof.
  intros Ht Hu c k. unfold andthen. specialize (Ht c k). destruct (t (c, k)) as [[] [c1 k1]]; [|done].
  etrans; [exact Ht|apply Hu].
Qed.
(** A goal about the state after one request, by the law of that request. *)
Ltac quiet_by law :=
  let Hq := fresh "Hq" in
  pose proof law as Hq;
  match type of Hq with kvm_quiet _ (snd ?e) => destruct e as [?r ?k] end;
  repeat match goal with x : prod bool _ |- _ => destruct x as [[] ?] | b : bool |- _ => destruct b end;
  cbn in *; try done.
Lemma quiet_UpdateRegisters : quiet_transfer UpdateRegisters.
Proof.
  repeat apply quiet_andthen; intros c k; cbn.
  - destruct (m_regsChanged c); [quiet_by (quiet_set_regs (m_regs c) k)|done].
  - destruct (m_sregsChanged c); [quiet_by (quiet_set_sregs (m_sregs c) k)|done].
  - destruct (m_debugRegsChanged c); [quiet_by (quiet_set_debugregs (m_debugRegs c) k)|done].
  - destruct (m_fpuRegsChanged c); [quiet_by (quiet_set_fpu (m_fpuRegs c) k)|done].
Qed.
Lemma quiet_RefreshRegisters : quiet_transfer RefreshRegisters.
Proof.
  intros c k. unfold RefreshRegisters. destruct (m_regsDirty c); [|done]. revert c k.
  change (quiet_transfer (andthen fetch_regs (andthen fetch_sregs (andthen fetch_debugRegs (andthen fetch_fpu clear_dirty))))).
  repeat apply quiet_andthen; intros c k; cbn; [| | | |done].
  - quiet_by (quiet_get_regs (m_regs c) k).
  - quiet_by (quiet_get_sregs (m_sregs c) k).
  - quiet_by (quiet_get_debugregs (m_debugRegs c) k).
  - quiet_by (quiet_get_fpu (m_fpuRegs c) k).
Qed.

(** *** The operations of clients are quiet *)
Lemma undisturbed_refresh s : kvm_undisturbed s (snd (REFRESH_REGISTERS s)).
Proof.
  unfold REFRESH_REGISTERS. pose proof (quiet_RefreshRegisters (k_cache s) (k_kernel s)) as Hq.
  destruct (RefreshRegisters _) as [ok [c k]]. by split.
Qed.
Lemma undisturbed_refreshed {A} (f : M S A) : (forall s, kvm_undisturbed s (snd (f s))) ->
  forall s, kvm_undisturbed s (snd (refreshed f s)).
Proof.
  intros Hf s. unfold refreshed, mbind, M_bind. pose proof (undisturbed_refresh s) as Hr.
  destruct (REFRESH_REGISTERS s) as [[e|[]] s1]; [done|]. etrans; [exact Hr|apply Hf].
Qed.
Lemma undisturbed_put r v s : kvm_undisturbed s (snd (put_reg r v s)).
Proof. unfold put_reg. by destruct (KvmRegWrite r v (k_cache s)). Qed.
Lemma undisturbed_SetDebug s : kvm_undisturbed s (snd (KvmVp.SetDebug_status s)).
Proof.
  unfold KvmVp.SetDebug_status, KvmVp.SetDebug. set (d := set_control _ _).
  pose proof (quiet_set_guest_debug d (k_kernel s)) as Hq.
  by destruct (KVM_SET_GUEST_DEBUG d (k_kernel s)) as [[] k].
Qed.
Lemma undisturbed_debug d s : kvm_undisturbed s (snd (KvmVp.SetDebug_status (KvmVp.with_debug d (k_kernel s) s))).
Proof. exact (undisturbed_SetDebug (KvmVp.with_debug d (k_kernel s) s)). Qed.

Lemma kvm_client_undisturbed s s' : kvm_client s s' -> kvm_undisturbed s s'.
Proof.
  intros Hc. destruct Hc as [r v s|r v s|rs vs s|rs vs s|s|v s|s|v s|n v s|n v s|ns vs s|ns vs s|b s|bps s|s].
  - apply undisturbed_refreshed. intros s1. unfold get_reg. by destruct (KvmRegRead _ _ _).
  - apply undisturbed_refreshed, undisturbed_put.
  - unfold kvm_RegReadN. pose proof (undisturbed_refresh s) as Hr.
    destruct (REFRESH_REGISTERS s) as [[e|[]] s1]; [done|]. etrans; [exact Hr|]. clear.
    revert vs s1. induction rs as [|r rs IH]; intros [|v vs] s1; cbn; try done.
    destruct (KvmRegRead r v (k_cache s1)); [|done]. specialize (IH vs s1).
    by destruct (RegReadN_loop get_reg rs vs s1) as [[? ?] ?].
  - unfold kvm_RegWriteN. pose proof (undisturbed_refresh s) as Hr.
    destruct (REFRESH_REGISTERS s) as [[e|[]] s1]; [done|]. etrans; [exact Hr|]. clear.
    revert vs s1. induction rs as [|r rs IH]; intros [|v vs] s1; cbn; try done.
    pose proof (undisturbed_put r v s1) as Hp. destruct (put_reg r v s1) as [[] s2]; [done|].
    etrans; [exact Hp|apply IH].
  - by apply undisturbed_refreshed.
  - by apply undisturbed_refreshed.
  - by apply undisturbed_refreshed.
  - by apply undisturbed_refreshed.
  - unfold kvm_GetMSR. pose proof (quiet_get_msrs [(u32 n, 0)] (k_kernel s)) as Hq.
    destruct (KVM_GET_MSRS _ _) as [[m l] k]. by destruct (m <? 0).
  - unfold kvm_SetMSR. pose proof (quiet_set_msrs [(u32 n, v)] (k_kernel s)) as Hq.
    by destruct (KVM_SET_MSRS _ _) as [m k].
  - unfold kvm_GetMSRs. pose proof (quiet_get_msrs ((fun msr => (u32 msr, 0)) <$> ns) (k_kernel s)) as Hq.
    destruct (KVM_GET_MSRS _ _) as [[m l] k]. by destruct (m <? 0).
  - unfold kvm_SetMSRs. pose proof (quiet_set_msrs (zip (u32 <$> ns) vs) (k_kernel s)) as Hq.
    by destruct (KVM_SET_MSRS _ _) as [m k].
  - apply undisturbed_debug.
  - unfold kvm_SetHardwareBreakpoints, kvm_ClearHardwareBreakpoints.
    destruct (negb _); apply undisturbed_debug.
  - apply undisturbed_debug.
Qed.

(** *** A run *)
(** The flag and the kernel are not changed by what is done with an exit. *)
Definition kvm_same_flag s s' : Prop :=
  ready_for_interrupt_injection (m_kvmRun s') = ready_for_interrupt_injection (m_kvmRun s) /\ k_kernel s' = k_kernel s.
Lemma same_flag_io fuel : forall i ptr s s', KvmVp.HandleIO_loop io uninit fuel i ptr s = Some s' -> kvm_same_flag s s'.
Proof.
  induction fuel as [|fuel IH]; intros i ptr s s'; cbn; destruct (i <? _); try done; try by intros [= <-].
  intros Hl%IH. unfold kvm_same_flag in *. destruct Hl as [-> ->]. unfold KvmVp.HandleIO_one. destruct (_ =? KVM_EXIT_IO_OUT); [done|].
  by destruct (IORead _ _ _ _).
Qed.
Lemma same_flag_exit fuel s st s' : KvmVp.HandleExecResult io uninit fuel s = Some (st, s') -> kvm_same_flag s s'.
Proof.
  unfold KvmVp.HandleExecResult. cbv zeta. set (s0 := with_cache _ _ s). intros E.
  change (kvm_same_flag s0 s'). clearbody s0. apply bind_Some in E as (s1 & E & [= _ <-]).
  destruct (exit_reason (m_kvmRun _)).
  7: by apply same_flag_io in E.
  all: apply Some_inj in E as <-; try by split.
  unfold HandleMMIO. destruct (nz _); [by split|]. destruct (MMIORead _ _ _ _). by split.
Qed.

#[local] Instance kvm_interrupts : VPInterrupts S := kvm_VPInterrupts io uninit.
Definition kvm_agrees s : Prop := kvm_CanInjectInterrupt s = true -> kvm_room (k_kernel s) = true.

Lemma kvm_run_sink s : let '(status, s') := RunImpl s in
  kvm_taken (k_kernel s') = kvm_taken (k_kernel s) /\ (status <> VPE_Failed -> kvm_agrees s').
Proof.
  cbn. unfold kvm_RunImpl. pose proof (quiet_UpdateRegisters (k_cache s) (k_kernel s)) as [Hq _].
  destruct (UpdateRegisters _) as [[] [c k]]; cbn in *; [|done].
  pose proof (run_law (m_kvmRun s) k) as Hr. destruct (KVM_RUN _ _) as [[ok r] k1]. destruct Hr as [Ht Hr].
  destruct ok; cbn; [|split; [congruence|done]]. set (s1 := with_kernel k1 _).
  destruct (KvmVp.HandleExecResult io uninit io_fuel s1) as [[st s']|] eqn:E; cbn.
  - apply same_flag_exit in E as [E1 E2]. rewrite E2. split; [cbn; congruence|]. intros _.
    unfold kvm_agrees, kvm_CanInjectInterrupt. rewrite E1, E2. by apply Hr.
  - done.
Qed.

#[local] Instance kvm_sink : InterruptSink S kvm_client.
Proof.
  refine {| taken s := kvm_taken (k_kernel s); in_agreement := kvm_agrees |}.
  - done.
  - done.
  - intros v s Hv Ha Hc. specialize (Ha Hc). cbn. unfold kvm_InjectInterrupt. rewrite u32_small by lia.
    pose proof (interrupt_law v (k_kernel s)) as Hi. rewrite Ha in Hi.
    by destruct (KVM_INTERRUPT v (k_kernel s)) as [ok k], Hi as (-> & Hi & _).
  - exact kvm_run_sink.
  - intros s s' (Hr & Ht & Hroom)%kvm_client_undisturbed. split; [done|].
    unfold kvm_agrees, kvm_CanInjectInterrupt. by rewrite Hr, Hroom.
Defined.
End KvmSink.

(** ** HAXM

    The requests behind a processor object all name its descriptor.  HAX_VCPU_IOCTL_INTERRUPT takes
    a vector while the driver is ready for one; after a run that succeeds the flag in the tunnel
    says whether it is. *)
Class HAXMInterrupts (K : Type) `{HAXM K} := {
  hax_taken : Z -> K -> list Z;
  hax_room : Z -> K -> bool;
  hax_quiet (fd : Z) (k k' : K) : Prop := hax_taken fd k' = hax_taken fd k /\ hax_room fd k' = hax_room fd k;
  hax_interrupt_law fd v k : hax_room fd k = true ->
    let '(res, k') := HAX_VCPU_IOCTL_INTERRUPT fd v k in 0 <= res /\ hax_taken fd k' = hax_taken fd k ++ [v];
  hax_run_law fd t k : let '(res, (t', _), k') := HAX_VCPU_IOCTL_RUN fd t k in
    hax_taken fd k' = hax_taken fd k
    /\ (0 <= res -> HaxmVp.ready_for_interrupt_injection t' <> 0 -> hax_room fd k' = true);
  hax_quiet_get_regs fd r k : hax_quiet fd k (snd (HAX_VCPU_GET_REGS fd r k));
  hax_quiet_set_regs fd r k : hax_quiet fd k (snd (HAX_VCPU_SET_REGS fd r k));
  hax_quiet_get_fpu fd r k : hax_quiet fd k (snd (HAX_VCPU_IOCTL_GET_FPU fd r k));
  hax_quiet_set_fpu fd r k : hax_quiet fd k (snd (HAX_VCPU_IOCTL_SET_FPU fd r k));
  hax_quiet_get_msrs fd d k : hax_quiet fd k (snd (HAX_VCPU_IOCTL_GET_MSRS fd d k));
  hax_quiet_set_msrs fd d k : hax_quiet fd k (snd (HAX_VCPU_IOCTL_SET_MSRS fd d k));
  hax_quiet_debug fd d k : hax_quiet fd k (snd (HAX_IOCTL_VCPU_DEBUG fd d k))
}.

Section HaxmSink.
Context {K W : Type} `{HAXMInterrupts K} (io : IOHandlers W) (uninit : Z).
Abbreviation S := (hvp K W).
Implicit Types s : S.

(** The operations on registers, MSRs, floating point control and breakpoints. *)
Inductive haxm_client : S -> S -> Prop :=
| hc_RegRead r v s : haxm_client s (snd (haxm_RegRead r v s))
| hc_RegWrite r v s : haxm_client s (snd (haxm_RegWrite r v s))
| hc_RegReadN rs vs s : haxm_client s (snd (haxm_RegReadN rs vs s))
| hc_RegWriteN rs vs s : haxm_client s (snd (haxm_RegWriteN rs vs s))
| hc_GetFPUControl s : haxm_client s (snd (HaxmVp.GetFPUControl s))
| hc_SetFPUControl v s : haxm_client s (snd (HaxmVp.SetFPUControl v s))
| hc_GetMXCSR s : haxm_client s (snd (HaxmVp.GetMXCSR s))
| hc_SetMXCSR v s : haxm_client s (snd (HaxmVp.SetMXCSR v s))
| hc_GetMXCSRMask s : haxm_client s (snd (HaxmVp.GetMXCSRMask s))
| hc_SetMXCSRMask v s : haxm_client s (snd (HaxmVp.SetMXCSRMask v s))
| hc_GetMSR n v s : haxm_client s (snd (haxm_GetMSR n v s))
| hc_SetMSR n v s : haxm_client s (snd (haxm_SetMSR n v s))
| hc_GetMSRs fuel n ns vs s r : haxm_GetMSRs fuel n ns vs s = Some r -> haxm_client s (snd r)
| hc_SetMSRs fuel n ns vs s r : haxm_SetMSRs fuel n ns vs s = Some r -> haxm_client s (snd r)
| hc_EnableSoftwareBreakpoints b s : haxm_client s (snd (haxm_EnableSoftwareBreakpoints b s))
| hc_SetHardwareBreakpoints bps s : haxm_client s (snd (haxm_SetHardwareBreakpoints bps s))
| hc_ClearHardwareBreakpoints s : haxm_client s (snd (haxm_ClearHardwareBreakpoints s)).

#[local] Instance hax_quiet_preorder fd : PreOrder (hax_quiet (K := K) fd).
Proof. split; [done|]. intros x y z [H1 H2] [H3 H4]. split; congruence. Qed.
(** The descriptor and the tunnel are the same, and the driver has not been asked to inject. *)
Definition haxm_undisturbed s s' : Prop :=
  h_fd s' = h_fd s /\ m_tunnel s' = m_tunnel s /\ hax_quiet (h_fd s) (h_driver s) (h_driver s').
#[local] Instance haxm_undisturbed_preorder : PreOrder haxm_undisturbed.
Proof.
  unfold haxm_undisturbed. split; [done|]. intros x y z (H1 & H2 & H3) (H4 & H5 & H6).
  split_and!; [congruence|congruence|]. rewrite H1 in H6. by etrans.
Qed.

(** A goal about the state after one request, by the law of that request. *)
Ltac hax_quiet_by law :=
  let Hq := fresh "Hq" in
  pose proof law as Hq;
  match type of Hq with hax_quiet _ _ (snd ?e) => destruct e as [?r ?k] end;
  repeat match goal with x : prod _ _ |- _ => destruct x end;
  cbn in *.

Lemma hax_quiet_flush_regs fd x : hax_quiet fd (snd x) (snd (HaxmVp.flush_regs fd x)).
Proof.
  destruct x as [c k]. unfold HaxmVp.flush_regs, sys_SetRegisters, succeeds. destruct (HaxmRegs.m_regsChanged c); [|done].
  by hax_quiet_by (hax_quiet_set_regs fd (HaxmRegs.m_regs c) k).
Qed.
Lemma hax_quiet_flush_fpu fd x : hax_quiet fd (snd x) (snd (HaxmVp.flush_fpu fd x)).
Proof.
  destruct x as [c k]. unfold HaxmVp.flush_fpu, sys_SetFPURegisters, succeeds. destruct (HaxmRegs.m_fpuRegsChanged c); [|done].
  by hax_quiet_by (hax_quiet_set_fpu fd (HaxmRegs.m_fpuRegs c) k).
Qed.
Lemma hax_quiet_update fd c k : hax_quiet fd k (snd (HaxmVp.UpdateRegisters fd (c, k))).
Proof. etrans; [apply (hax_quiet_flush_regs fd (c, k))|apply hax_quiet_flush_fpu]. Qed.
Lemma hax_undisturbed_refresh s : haxm_undisturbed s (snd (HaxmVp.REFRESH_REGISTERS s)).
Proof.
  unfold haxm_undisturbed, HaxmVp.REFRESH_REGISTERS, HaxmVp.RefreshRegisters, sys_GetRegisters, sys_GetFPURegisters.
  destruct (HaxmRegs.m_regsDirty (h_cache s)); [|by destruct s].
  hax_quiet_by (hax_quiet_get_regs (h_fd s) (HaxmRegs.m_regs (h_cache s)) (h_driver s)).
  destruct (0 <=? _); cbn; [|by split_and!].
  match goal with |- context [HAX_VCPU_IOCTL_GET_FPU ?fd ?f ?k] => hax_quiet_by (hax_quiet_get_fpu fd f k) end.
  destruct (0 <=? _); cbn; split_and!; try done; by etrans.
Qed.
Lemma hax_undisturbed_refreshed {A} (f : M S A) : (forall s, haxm_undisturbed s (snd (f s))) ->
  forall s, haxm_undisturbed s (snd (HaxmVp.refreshed f s)).
Proof.
  intros Hf s. unfold HaxmVp.refreshed, mbind, M_bind. pose proof (hax_undisturbed_refresh s) as Hr.
  destruct (HaxmVp.REFRESH_REGISTERS s) as [[e|[]] s1]; [done|]. etrans; [exact Hr|apply Hf].
Qed.
Lemma hax_undisturbed_driver s k : hax_quiet (h_fd s) (h_driver s) k -> haxm_undisturbed s (with_driver k s).
Proof. by intros. Qed.
Lemma hax_undisturbed_get_msrs d s :
  let '(_, k) := sys_GetMSRData (h_fd s) d (h_driver s) in haxm_undisturbed s (with_driver k s).
Proof. unfold sys_GetMSRData. hax_quiet_by (hax_quiet_get_msrs (h_fd s) d (h_driver s)). by apply hax_undisturbed_driver. Qed.
Lemma hax_undisturbed_set_msrs d s :
  let '(_, k) := sys_SetMSRData (h_fd s) d (h_driver s) in haxm_undisturbed s (with_driver k s).
Proof.
  unfold sys_SetMSRData, succeeds. hax_quiet_by (hax_quiet_set_msrs (h_fd s) d (h_driver s)). by apply hax_undisturbed_driver.
Qed.
Lemma hax_undisturbed_GetMSR n v s : haxm_undisturbed s (snd (haxm_GetMSR n v s)).
Proof.
  unfold haxm_GetMSR. cbv zeta.
  match goal with |- context [sys_GetMSRData _ ?d _] => pose proof (hax_undisturbed_get_msrs d s) as Hq end.
  destruct (sys_GetMSRData _ _ _) as [[ok d] k]. by destruct ok.
Qed.
Lemma hax_undisturbed_SetMSR n v s : haxm_undisturbed s (snd (haxm_SetMSR n v s)).
Proof.
  unfold haxm_SetMSR. cbv zeta.
  match goal with |- context [sys_SetMSRData _ ?d _] => pose proof (hax_undisturbed_set_msrs d s) as Hq end.
  destruct (sys_SetMSRData _ _ _) as [ok k]. by destruct ok.
Qed.
Lemma hax_undisturbed_GetMSRs fuel : forall i n ns vs s r,
  HaxmVp.GetMSRs_loop fuel i n ns vs s = Some r -> haxm_undisturbed s (snd r).
Proof.
  induction fuel as [|fuel IH]; intros i n ns vs s r; cbn [HaxmVp.GetMSRs_loop]; destruct (i <? n); try done; try by intros [= <-].
  cbv zeta.
  match goal with |- context [sys_GetMSRData _ ?d _] => pose proof (hax_undisturbed_get_msrs d s) as Hq end.
  destruct (sys_GetMSRData _ _ _) as [[ok d] k]. destruct ok; cbn [negb].
  - intros Hl%IH. by etrans.
  - by intros [= <-].
Qed.
Lemma hax_undisturbed_SetMSRs fuel : forall i n ns vs s r,
  HaxmVp.SetMSRs_loop fuel i n ns vs s = Some r -> haxm_undisturbed s (snd r).
Proof.
  induction fuel as [|fuel IH]; intros i n ns vs s r; cbn [HaxmVp.SetMSRs_loop]; destruct (i <? n); try done; try by intros [= <-].
  cbv zeta.
  match goal with |- context [sys_SetMSRData _ ?d _] => pose proof (hax_undisturbed_set_msrs d s) as Hq end.
  destruct (sys_SetMSRData _ _ _) as [ok k]. destruct ok; cbn [negb].
  - intros Hl%IH. by etrans.
  - by intros [= <-].
Qed.
Lemma hax_undisturbed_read r v s : haxm_undisturbed s (snd (HaxmRegRead r v s)).
Proof.
  unfold HaxmRegRead. destruct (bool_decide _ && _); [|by destruct (read_member _ _ _)].
  pose proof (hax_undisturbed_GetMSR EFER_MSR (fget RV.u64 v) s) as Hq. by destruct (haxm_GetMSR _ _ s) as [[] ?].
Qed.
Lemma hax_undisturbed_write r v s : haxm_undisturbed s (snd (HaxmRegWrite r v s)).
Proof.
  unfold HaxmRegWrite. destruct (bool_decide _ && _); [apply hax_undisturbed_SetMSR|]. by destruct (write_member _ _ _).
Qed.
Lemma hax_undisturbed_SetDebug s : haxm_undisturbed s (snd (HaxmVp.SetDebug_status s)).
Proof.
  unfold HaxmVp.SetDebug_status, HaxmVp.SetDebug, sys_SetDebug, succeeds. set (d := MkDebug _ _).
  pose proof (hax_quiet_debug (h_fd s) d (h_driver s)) as Hq.
  destruct (HAX_IOCTL_VCPU_DEBUG _ _ _) as [r k]. cbn in *. by destruct (0 <=? r).
Qed.
Lemma hax_undisturbed_debug d s :
  haxm_undisturbed s (snd (HaxmVp.SetDebug_status (HaxmVp.with_debug d (h_driver s) s))).
Proof. exact (hax_undisturbed_SetDebug (HaxmVp.with_debug d (h_driver s) s)). Qed.

Lemma haxm_client_undisturbed s s' : haxm_client s s' -> haxm_undisturbed s s'.
Proof.
  intros Hc. destruct Hc as [r v s|r v s|rs vs s|rs vs s|s|v s|s|v s|s|v s|n v s|n v s|fuel n ns vs s r E
    |fuel n ns vs s r E|b s|bps s|s].
  - apply hax_undisturbed_refreshed, hax_undisturbed_read.
  - apply hax_undisturbed_refreshed, hax_undisturbed_write.
  - unfold haxm_RegReadN. pose proof (hax_undisturbed_refresh s) as Hr.
    destruct (HaxmVp.REFRESH_REGISTERS s) as [[e|[]] s1]; [done|]. etrans; [exact Hr|]. clear.
    revert vs s1. induction rs as [|r rs IH]; intros [|v vs] s1; cbn [RegReadN_loop]; try done.
    pose proof (hax_undisturbed_read r v s1) as Hp. destruct (HaxmRegRead r v s1) as [[e|x] s2]; [done|].
    specialize (IH vs s2). destruct (RegReadN_loop HaxmRegRead rs vs s2) as [[? ?] ?]. by etrans.
  - unfold haxm_RegWriteN. pose proof (hax_undisturbed_refresh s) as Hr.
    destruct (HaxmVp.REFRESH_REGISTERS s) as [[e|[]] s1]; [done|]. etrans; [exact Hr|]. clear.
    revert vs s1. induction rs as [|r rs IH]; intros [|v vs] s1; cbn [RegWriteN_loop]; try done.
    pose proof (hax_undisturbed_write r v s1) as Hp. destruct (HaxmRegWrite r v s1) as [[] s2]; [done|].
    etrans; [exact Hp|apply IH].
  - by apply hax_undisturbed_refreshed.
  - by apply hax_undisturbed_refreshed.
  - by apply hax_undisturbed_refreshed.
  - by apply hax_undisturbed_refreshed.
  - by apply hax_undisturbed_refreshed.
  - by apply hax_undisturbed_refreshed.
  - apply hax_undisturbed_GetMSR.
  - apply hax_undisturbed_SetMSR.
  - unfold haxm_GetMSRs in E. destruct ns as [ns|]; [destruct vs as [vs|]|]; try by injection E as <-.
    apply bind_Some in E as ([[? ?] ?] & E & [= <-]). by apply hax_undisturbed_GetMSRs in E.
  - unfold haxm_SetMSRs in E. destruct ns as [ns|]; [destruct vs as [vs|]|]; try by injection E as <-.
    by apply hax_undisturbed_SetMSRs in E.
  - apply hax_undisturbed_debug.
  - unfold haxm_SetHardwareBreakpoints, haxm_ClearHardwareBreakpoints.
    destruct (negb _); apply hax_undisturbed_debug.
  - apply hax_undisturbed_debug.
Qed.

(** *** A run *)
Definition haxm_same_flag s s' : Prop :=
  m_tunnel s' = m_tunnel s /\ h_driver s' = h_driver s /\ h_fd s' = h_fd s.
Lemma haxm_same_flag_io n : forall ptr s, haxm_same_flag s (HaxmVp.HandleIO_loop io uninit n ptr s).
Proof.
  induction n as [|n IH]; intros ptr s; cbn [HaxmVp.HandleIO_loop]; [done|]. cbv zeta.
  assert (H1 : haxm_same_flag s (HaxmVp.HandleIO_one io uninit ptr s)).
  { unfold HaxmVp.HandleIO_one. cbv zeta. destruct (_ =? HAX_IO_OUT); [done|]. by destruct (IORead _ _ _ _). }
  destruct H1 as (H1 & H2 & H3). unfold haxm_same_flag. rewrite <- H1, <- H2, <- H3. apply IH.
Qed.
Lemma haxm_same_flag_fast s : haxm_same_flag s (HandleFastMMIO io s).
Proof.
  unfold HandleFastMMIO. cbv zeta. destruct (_ <? 2); [destruct (_ =? HAX_IO_IN)|]; [done|..]; by destruct (MMIORead _ _ _ _).
Qed.
Lemma haxm_same_flag_exit s : haxm_same_flag s (snd (HaxmVp.HandleExecResult io uninit s)).
Proof.
  unfold HaxmVp.HandleExecResult. cbv zeta. cbn [snd]. set (s0 := HaxmVp.with_cache _ _ s).
  repeat case_match; try done; [exact (haxm_same_flag_io _ _ (HaxmVp.set_reason Exit_PIO s0))|exact (haxm_same_flag_fast s0)].
Qed.

#[local] Instance haxm_interrupts : VPInterrupts S := haxm_VPInterrupts io uninit.
Definition haxm_agrees s : Prop := haxm_CanInjectInterrupt s = true -> hax_room (h_fd s) (h_driver s) = true.

Lemma haxm_run_sink s : let '(status, s') := RunImpl s in
  hax_taken (h_fd s') (h_driver s') = hax_taken (h_fd s) (h_driver s) /\ (status <> VPE_Failed -> haxm_agrees s').
Proof.
  change (RunImpl s) with (haxm_RunImpl io uninit s). unfold haxm_RunImpl, sys_Run.
  pose proof (hax_quiet_update (h_fd s) (h_cache s) (h_driver s)) as [Hq _].
  destruct (HaxmVp.UpdateRegisters _ _) as [c k]. cbn [snd] in Hq. cbv beta iota zeta.
  change (h_fd (HaxmVp.with_cache c k s)) with (h_fd s).
  pose proof (hax_run_law (h_fd s) (m_tunnel s, h_mem s) k) as Hr.
  destruct (HAX_VCPU_IOCTL_RUN _ _ _) as [[res [t m]] k1]. destruct Hr as [Ht Hr].
  destruct (Z.leb_spec 0 res) as [Hres|Hres]; cbn [negb]; [|cbn; split; [congruence|done]].
  match goal with |- context [HaxmVp.HandleExecResult io uninit ?s1] =>
    pose proof (haxm_same_flag_exit s1) as (E1 & E2 & E3); destruct (HaxmVp.HandleExecResult io uninit s1) as [st s'] end.
  cbn in *. rewrite E2, E3. split; [congruence|]. intros _. unfold haxm_agrees, haxm_CanInjectInterrupt.
  rewrite E1, E2, E3. intros Hf. apply (Hr Hres). by intros E; rewrite E in Hf.
Qed.

#[local] Instance haxm_sink : InterruptSink S haxm_client.
Proof.
  refine {| taken s := hax_taken (h_fd s) (h_driver s); in_agreement := haxm_agrees |}.
  - done.
  - done.
  - intros v s Hv Ha Hc. specialize (Ha Hc). cbn. unfold haxm_InjectInterrupt, sys_InjectInterrupt, succeeds.
    rewrite u32_small by lia. pose proof (hax_interrupt_law (h_fd s) v (h_driver s) Ha) as Hi.
    destruct (HAX_VCPU_IOCTL_INTERRUPT _ _ _) as [res k]. destruct Hi as [Hres Hi]. cbn.
    by rewrite (proj2 (Z.leb_le 0 res)).
  - exact haxm_run_sink.
  - intros s s' (Hfd & Hr & Ht & Hroom)%haxm_client_undisturbed. rewrite Hfd. split; [done|].
    unfold haxm_agrees, haxm_CanInjectInterrupt. by rewrite Hfd, Hr, Hroom.
Defined.
End HaxmSink.

(** *** A run of KVM that fails before KVM_RUN *)
Section KvmStale.
Context {K W : Type} `{KVMInterrupts K} (io : IOHandlers W) (uninit : Z).
#[local] Existing Instance kvm_interrupts.

(** The flag in the page is still set after the injection, although there is no room. *)
Lemma kvm_stale_flag (s : kvp K W) v rest :
  kvm_CanInjectInterrupt s = true -> kvm_room (k_kernel s) = true -> m_regsChanged (k_cache s) = true ->
  fst (KVM_SET_REGS (m_regs (k_cache s)) (snd (KVM_INTERRUPT (u32 v) (k_kernel s)))) = false ->
  exists s', snd (Run (H:=kvm_interrupts io uninit) (MkVP s (v :: rest))) = MkVP s' rest
    /\ kvm_CanInjectInterrupt s' = true /\ kvm_room (k_kernel s') = false
    /\ kvm_taken (k_kernel s') = kvm_taken (k_kernel s) ++ [u32 v].
Proof.
  intros Hc Hroom Hch Hset. rewrite Run_inject by done. cbn. unfold kvm_InjectInterrupt.
  pose proof (interrupt_law (u32 v) (k_kernel s)) as Hi. rewrite Hroom in Hi.
  destruct (KVM_INTERRUPT (u32 v) (k_kernel s)) as [ok k]. destruct Hi as (-> & Ht & Hr). cbn in *.
  pose proof (quiet_set_regs (m_regs (k_cache s)) k) as [Q1 Q2].
  assert (Hu : UpdateRegisters (k_cache s, k) = (false, (k_cache s, snd (KVM_SET_REGS (m_regs (k_cache s)) k)))).
  { unfold UpdateRegisters, andthen, flush_regs. rewrite Hch.
    destruct (KVM_SET_REGS (m_regs (k_cache s)) k) as [ok k2]. cbn in Hset. by subst ok. }
  unfold kvm_RunImpl. cbn [k_cache k_kernel with_window with_run with_kernel with_cache]. rewrite Hu. cbn.
  eexists. split; [reflexivity|]. cbn. split_and!; [done|congruence..].
Qed.
Lemma kvm_refused_vector (s : kvp K W) v rest :
  kvm_CanInjectInterrupt s = true -> kvm_room (k_kernel s) = false ->
  let vp := snd (Run (H:=kvm_interrupts io uninit) (MkVP s (v :: rest))) in
  m_pendingInterrupts vp = rest /\ kvm_taken (k_kernel (vp_state vp)) = kvm_taken (k_kernel s).
Proof.
  intros Hc Hroom. cbv zeta. rewrite Run_inject by done. cbn [m_pendingInterrupts vp_state]. split; [done|].
  set (s1 := snd (InjectInterrupt v s)).
  assert (E : kvm_taken (k_kernel s1) = kvm_taken (k_kernel s)).
  { subst s1. cbn. unfold kvm_InjectInterrupt. pose proof (interrupt_law (u32 v) (k_kernel s)) as Hi. rewrite Hroom in Hi.
    by destruct (KVM_INTERRUPT (u32 v) (k_kernel s)) as [ok k], Hi as (-> & Hq & _). }
  pose proof (kvm_run_sink io uninit s1) as Hr.
  destruct (RunImpl s1) as [st s2]. destruct Hr as [Hr _]. cbn. congruence.
Qed.
End KvmStale.

(** ** WHPX

    The platform has one register for an interruption that waits to be delivered. *)
Section WhpxQueue.
Context {K C W : Type} `{WHPX K C} (vm id : Z) `{!WHPXLaws K C vm id} (io : IOHandlers W).
Abbreviation S := (wvp K C W).
Implicit Types s : S.
#[local] Instance whpx_interrupts : VPInterrupts S := whpx_VPInterrupts vm id io.
Definition waiting s : WHV_REGISTER_VALUE := vregs (w_platform s) WHV.WHvRegisterPendingInterruption.

(** Setting the members replaces what an earlier injection has set. *)
Lemma pending_interruption_again v w x : pending_interruption v (pending_interruption w x) = pending_interruption v x.
Proof.
  unfold pending_interruption. apply Z.bits_inj'. intros i Hi. rewrite !fset_testbit by done.
  cbn [f_off f_width WV.InterruptionVector WV.InterruptionType WV.InterruptionPending].
  by repeat case_match.
Qed.

Lemma whpx_inject_waiting s v s' : readable (w_platform s) WHV.WHvRegisterPendingInterruption = true ->
  InjectInterrupt v s = (VP_OK, s') -> waiting s' = pending_interruption (u8 v) (waiting s)
    /\ readable (w_platform s') = readable (w_platform s).
Proof.
  intros Hr. cbn. unfold whpx_InjectInterrupt. rewrite get_ok by (cbn; by rewrite Hr). cbn.
  destruct (WHvSetVirtualProcessorRegisters _ _ _ _ _) as [hr k] eqn:E. destruct (Z.eqb_spec hr S_OK) as [->|]; [|done].
  intros [= <-]. apply set_ok in E as [E1 E2]; [|done]. unfold waiting. cbn. rewrite E1. cbn.
  by rewrite fn_lookup_insert.
Qed.
End WhpxQueue.

(** ** Theorems *)

(** C7: the interrupts of KVM and HAXM reach the hypervisor.  Under every interleaving of enqueuing
    threads with runs and with the client's operations on registers, MSRs and breakpoints, as long
    as no run fails, the vectors that KVM_INTERRUPT or HAX_VCPU_IOCTL_INTERRUPT have taken,
    followed by the pending ones, are exactly those that were enqueued, in order: no
    request is refused, and the flag that is tested outside of the mutex is still right when the
    vector is popped.  A run that fails is another matter: on KVM, when the changed registers cannot be
    stored, the flag stays set after an injection and the next vector is popped, refused and lost. *)
Theorem interrupts_reach_the_hypervisor {K W} `{KVMInterrupts K} {D V} `{HAXMInterrupts D}
    (io : IOHandlers W) (io' : IOHandlers V) uninit :
  (forall (s : kvp K W) (st : mstate (S := kvp K W)),
     kvm_taken (k_kernel s) = [] -> kvm_agrees s ->
     rtc (dstep (H := kvm_VPInterrupts io uninit) kvm_client) (minit s) st ->
     let p := vp_state (m_vp st) in let q := m_pendingInterrupts (m_vp st) in
     kvm_taken (k_kernel p) ++ q = m_enqueued st
     /\ (m_pc st = PC_pop -> forall v, head q = Some v -> fst (kvm_InjectInterrupt v p) = VP_OK))
  /\ (forall (s : hvp D V) (st : mstate (S := hvp D V)),
     hax_taken (h_fd s) (h_driver s) = [] -> haxm_agrees s ->
     rtc (dstep (H := haxm_VPInterrupts io' uninit) haxm_client) (minit s) st ->
     let p := vp_state (m_vp st) in let q := m_pendingInterrupts (m_vp st) in
     hax_taken (h_fd p) (h_driver p) ++ q = m_enqueued st
     /\ (m_pc st = PC_pop -> forall v, head q = Some v -> fst (haxm_InjectInterrupt v p) = VP_OK))
  /\ (forall (s : kvp K W) v w rest,
     kvm_CanInjectInterrupt s = true -> kvm_room (k_kernel s) = true -> m_regsChanged (k_cache s) = true ->
     fst (KVM_SET_REGS (m_regs (k_cache s)) (snd (KVM_INTERRUPT (u32 v) (k_kernel s)))) = false ->
     let vp := runs (H := kvm_VPInterrupts io uninit) 2 (MkVP s (v :: w :: rest)) in
     m_pendingInterrupts vp = rest /\ kvm_taken (k_kernel (vp_state vp)) = kvm_taken (k_kernel s) ++ [u32 v]).
Proof.
  split; [|split].
  - intros s st Ht Ha Hr. exact (delivered kvm_client (InterruptSink0 := kvm_sink io uninit) s st Ht Ha Hr).
  - intros s st Ht Ha Hr. exact (delivered haxm_client (InterruptSink0 := haxm_sink io' uninit) s st Ht Ha Hr).
  - intros s v w rest Hc Hroom Hch Hset.
    destruct (kvm_stale_flag io uninit s v (w :: rest) Hc Hroom Hch Hset) as (s' & E & Hc' & Hr' & Ht').
    change (runs 2 (MkVP s (v :: w :: rest))) with (snd (Run (H := kvm_interrupts io uninit)
      (snd (Run (H := kvm_interrupts io uninit) (MkVP s (v :: w :: rest)))))).
    rewrite E. cbv zeta. destruct (kvm_refused_vector io uninit s' w rest Hc' Hr') as [Hq Ht]. by rewrite Hq, Ht, Ht'.
Qed.

(** C27: the interrupts of WHPX.  The processor never asks whether an interrupt can be taken: each run
    passes one vector on, so that as many runs as there are vectors empty the queue, and no window
    is ever requested.  An injection sets the register of the waiting interruption whatever it held.
    So if the guest has not taken the interruption by the end of the run, the next
    vector replaces it, and nothing is left of the first. *)
Theorem whpx_interrupts_overwritten {K C W} `{WHPX K C} vm id `{!WHPXLaws K C vm id} (io : IOHandlers W) :
  (forall (s : wvp K C W) q, m_pendingInterrupts (runs (H := whpx_VPInterrupts vm id io) (length q) (MkVP s q)) = [])
  /\ (forall (s s' : wvp K C W) v, readable (w_platform s) WHV.WHvRegisterPendingInterruption = true ->
      whpx_InjectInterrupt vm id v s = (VP_OK, s') -> waiting vm id s' = pending_interruption (u8 v) (waiting vm id s))
  /\ (forall (s s1 s3 : wvp K C W) v w q,
      readable (w_platform s) WHV.WHvRegisterPendingInterruption = true ->
      whpx_InjectInterrupt vm id v s = (VP_OK, s1) ->
      let s2 := snd (whpx_RunImpl vm id io s1) in
      waiting vm id s2 = waiting vm id s1 -> readable (w_platform s2) = readable (w_platform s1) ->
      whpx_InjectInterrupt vm id w s2 = (VP_OK, s3) ->
      waiting vm id s3 = pending_interruption (u8 w) (waiting vm id s)
      /\ runs (H := whpx_VPInterrupts vm id io) 2 (MkVP s (v :: w :: q)) = MkVP (snd (whpx_RunImpl vm id io s3)) q).
Proof.
  assert (Hrun : forall (s : wvp K C W) v q, runs (H := whpx_VPInterrupts vm id io) 1 (MkVP s (v :: q))
    = MkVP (snd (whpx_RunImpl vm id io (snd (whpx_InjectInterrupt vm id v s)))) q)
    by (intros s v q; exact (Run_inject (H := whpx_VPInterrupts vm id io) s v q eq_refl)).
  split; [|split].
  - intros s q. revert s. induction q as [|v q IH]; intros s; [done|].
    cbn [length]. rewrite <- (Nat.add_1_r (length q)), runs_add. by rewrite Hrun.
  - intros s s' v Hr E. by apply (whpx_inject_waiting vm id io) in E as [E _].
  - intros s s1 s3 v w q Hr E1 s2 Hw Hrd E3.
    pose proof E1 as E1'. apply (whpx_inject_waiting vm id io) in E1' as [W1 R1]; [|done].
    pose proof E3 as E3'. apply (whpx_inject_waiting vm id io) in E3' as [W3 _]; [|by rewrite Hrd, R1].
    split; [by rewrite W3, Hw, W1, pending_interruption_again|].
    change 2%nat with (1 + 1)%nat. rewrite runs_add, !Hrun, E1. cbn [snd]. fold s2. by rewrite E3.
Qed.

(** ** Concrete hypervisors

    The guest of [idemo] takes the waiting vector as soon as it runs; [i_refuse] makes the kernel refuse
    registers. *)
Record idemo := MkIdemo { i_taken : list Z; i_room : bool; i_refuse : bool }.
Definition idemo_inject (v : Z) (k : idemo) : bool * idemo :=
  if i_room k then (true, MkIdemo (i_taken k ++ [v]) false (i_refuse k)) else (false, k).
Definition idemo_run (k : idemo) : idemo := MkIdemo (i_taken k) true (i_refuse k).
#[local] Instance idemo_KVM : KVM idemo := {
  KVM_RUN r k := (true, MkRun KVM_EXIT_HLT 0 (run_data r) (request_interrupt_window r) 1, idemo_run k);
  KVM_GET_REGS r k := (true, r, k); KVM_SET_REGS r k := (negb (i_refuse k), k);
  KVM_GET_SREGS r k := (true, r, k); KVM_SET_SREGS r k := (true, k);
  KVM_GET_DEBUGREGS r k := (true, r, k); KVM_SET_DEBUGREGS r k := (true, k);
  KVM_GET_FPU r k := (true, r, k); KVM_SET_FPU r k := (true, k);
  KVM_SET_GUEST_DEBUG _ k := (true, k); KVM_INTERRUPT := idemo_inject;
  KVM_GET_MSRS l k := (0, l, k); KVM_SET_MSRS _ k := (0, k);
  KVM_EXIT_IO_OUT := 1; KVM_GUESTDBG_ENABLE := 1; KVM_GUESTDBG_SINGLESTEP := 2;
  KVM_GUESTDBG_USE_SW_BP := 0x10000; KVM_GUESTDBG_USE_HW_BP := 0x20000
}.
#[local] Instance idemo_kvm_laws : KVMInterrupts idemo.
Proof.
  refine {| kvm_taken := i_taken; kvm_room := i_room |}; try done.
  intros v k. cbn. unfold idemo_inject. destruct (i_room k) eqn:E; cbn; rewrite ?E; by split_and!.
Defined.
#[local] Instance idemo_HAXM : HAXM idemo := {
  HAX_VCPU_IOCTL_RUN fd t k := (0, (MkTunnel HAX_EXIT_HLT 1 0 0, snd t), idemo_run k);
  HAX_VCPU_IOCTL_INTERRUPT fd v k := let '(ok, k) := idemo_inject v k in (if ok then 0 else -1, k);
  HAX_VCPU_GET_REGS fd r k := (0, r, k); HAX_VCPU_SET_REGS fd r k := (0, k);
  HAX_VCPU_IOCTL_GET_FPU fd r k := (0, r, k); HAX_VCPU_IOCTL_SET_FPU fd r k := (0, k);
  HAX_VCPU_IOCTL_GET_MSRS fd d k := (0, d, k); HAX_VCPU_IOCTL_SET_MSRS fd d k := (0, k);
  HAX_IOCTL_VCPU_DEBUG fd d k := (0, k); HAX_VM_IOCTL_VCPU_CREATE fd id k := (0, k);
  open_vcpu vm id k := (5, k); HAX_VCPU_IOCTL_SETUP_TUNNEL fd k := (0, (0x10000, 0x20000), k);
  HaxmVp.close fd k := k
}.
#[local] Instance idemo_hax_laws : HAXMInterrupts idemo.
Proof.
  refine {| hax_taken _ := i_taken; hax_room _ := i_room |}; try done.
  intros fd v k Hr. cbn. unfold idemo_inject. by rewrite Hr.
Defined.

Definition idemo_kvp (page : kvm_run) (changed : bool) (k : idemo) : kvp idemo (list (Z * Z * Z)) :=
  MkKvp (MkCache (negb changed) changed false false false reset_regs zero_sregs zero_debugregs KvmVp.zero_fpu)
    page (MkGuestDebug 0 (replicate 8 0)) (MkVMExitInfo Exit_Normal Details_None) k [].
Definition idemo_ready : kvm_run := MkRun KVM_EXIT_HLT 0 (fun _ => 0) 0 1.
Definition idemo_hvp (k : idemo) : hvp idemo (list (Z * Z * Z)) :=
  MkHvp (MkHcache zero_state HaxmVp.zero_fpu true false false false) 5 (MkTunnel HAX_EXIT_HLT 1 0 0) 0x20000
    (fun _ => 0) (MkDebug 0 (replicate 8 0)) (MkVMExitInfo Exit_Normal Details_None) k [].

(** Two vectors enqueued around the tests of a run, on each platform; and a kernel that refuses the
    changed registers, so that the second of three vectors is lost. *)
Lemma interrupts_reach_the_hypervisor_witness :
  (exists st : mstate (S := kvp idemo (list (Z * Z * Z))), i_taken (k_kernel (vp_state (m_vp st))) = [0x21]
     /\ i_taken (k_kernel (vp_state (m_vp st))) ++ m_pendingInterrupts (m_vp st) = [0x21; 0x22])
  /\ (exists st : mstate (S := hvp idemo (list (Z * Z * Z))), i_taken (h_driver (vp_state (m_vp st))) = [0x21]
     /\ i_taken (h_driver (vp_state (m_vp st))) ++ m_pendingInterrupts (m_vp st) = [0x21; 0x22])
  /\ let vp := runs (H := kvm_VPInterrupts KvmVp.demo_io 0) 2
                 (MkVP (idemo_kvp idemo_ready true (MkIdemo [] true true)) [0x21; 0x22; 0x23]) in
     m_pendingInterrupts vp = [0x23] /\ i_taken (k_kernel (vp_state vp)) = [0x21].
Proof.
  pose proof (interrupts_reach_the_hypervisor KvmVp.demo_io HaxmVp.demo_io 0) as (Hk & Hh & Hl).
  split; [|split; [|exact (Hl (idemo_kvp idemo_ready true (MkIdemo [] true true)) 0x21 0x22 [0x23]
                             eq_refl eq_refl eq_refl eq_refl)]].
  - set (s := idemo_kvp idemo_ready false (MkIdemo [] true false)).
    pose proof (two_around_a_run (H := kvm_VPInterrupts KvmVp.demo_io 0) kvm_client s 0x21 0x22 eq_refl) as Hr. cbv zeta in Hr.
    match type of Hr with ?P -> _ => assert (Hn : P) by (vm_compute; intros [=]) end. specialize (Hr Hn).
    pose proof (rtc_r _ _ _ Hr (ds_client (H := kvm_VPInterrupts KvmVp.demo_io 0) kvm_client
      _ _ _ _ (kc_RegWrite Reg.RAX 7 _))) as Hr'.
    eexists. split; [|exact (proj1 (Hk s _ eq_refl (fun _ => eq_refl) Hr'))]. vm_compute. reflexivity.
  - set (s := idemo_hvp (MkIdemo [] true false)).
    pose proof (two_around_a_run (H := haxm_VPInterrupts HaxmVp.demo_io 0) haxm_client s 0x21 0x22 eq_refl) as Hr. cbv zeta in Hr.
    match type of Hr with ?P -> _ => assert (Hn : P) by (vm_compute; intros [=]) end. specialize (Hr Hn).
    eexists. split; [|exact (proj1 (Hh s _ eq_refl (fun _ => eq_refl) Hr))]. vm_compute. reflexivity.
Defined.

#[local] Existing Instance demo_whpx.
#[local] Existing Instance demo_whpx_laws.
Abbreviation whpx_after n s := (runs (H := whpx_VPInterrupts 0 0 whpx_demo_io) n s).
(** The guest of [demo_wvp] takes nothing: after two runs the second of two vectors waits. *)
Lemma whpx_interrupts_overwritten_witness :
  let s := demo_wvp false X64Halt in
  m_pendingInterrupts (whpx_after 2 (MkVP s [0x30; 0x31])) = []
  /\ waiting 0 0 (vp_state (whpx_after 1 (MkVP s [0x30; 0x31]))) = pending_interruption 0x30 (waiting 0 0 s)
  /\ waiting 0 0 (vp_state (whpx_after 2 (MkVP s [0x30; 0x31]))) = pending_interruption 0x31 (waiting 0 0 s).
Proof.
  intros s. destruct (whpx_interrupts_overwritten 0 0 whpx_demo_io) as (Hall & Hone & Htwo).
  split; [exact (Hall s [0x30; 0x31])|]. split; [vm_compute; reflexivity|].
  assert (E1 : exists s1, whpx_InjectInterrupt 0 0 0x30 s = (VP_OK, s1)) by (eexists; reflexivity).
  destruct E1 as [s1 E1].
  assert (E3 : exists s3, whpx_InjectInterrupt 0 0 0x31 (snd (whpx_RunImpl 0 0 whpx_demo_io s1)) = (VP_OK, s3)).
  { injection E1 as <-. eexists. reflexivity. }
  destruct E3 as [s3 E3].
  destruct (Htwo s s1 s3 0x30 0x31 [] eq_refl E1) as [Hw Hr]; [by injection E1 as <-|done|done|].
  rewrite Hr. injection E1 as <-. injection E3 as <-. exact Hw.
Defined.
