(* ===== verification/SysLinux.v ===== *)
(** * System utilities of Linux (sys/linux util.h, util.cpp, Elf.h, Elf.cpp)

    How the version of a kernel module is found: the module's file name in
    modules.dep, the .modinfo section of the ELF file, the parameter in the section.
    A block of memory is the list of its bytes, and a pointer into it the rest of the
    block or an offset.  [None] is an access outside of the block, for which C++ defines
    no behaviour; nothing else has that result.  The headers have the layout of elf.h. *)
From Stdlib Require Import Ascii String.
From stdpp Require Import list.
From S2P Require Import Prelude.

(** The bytes of a string literal, without the terminator. *)
Definition str (s : string) : list Z := (fun c => Z.of_N (N_of_ascii c)) <$> list_ascii_of_string s.

(** ** C strings

    The functions of the C library on a pointer. *)
Fixpoint strlen (p : list Z) : option nat :=
  match p with
  | [] => None
  | c :: p => if c =? 0 then Some O else S <$> strlen p
  end.
(** The index of the first [c], or of none before the terminator. *)
Fixpoint strchr (p : list Z) (c : Z) : option (option nat) :=
  match p with
  | [] => None
  | x :: p => if x =? c then Some (Some O) else if x =? 0 then Some None
              else match strchr p c with Some n => Some (S <$> n) | None => None end
  end.
(** Does [strncmp] over the length of [s] give 0; does [strcmp] with [s]? *)
Fixpoint strncmp_eq (p s : list Z) : option bool :=
  match s, p with
  | [], _ => Some true
  | _, [] => None
  | c :: s, x :: p => if x =? c then strncmp_eq p s else Some false
  end.
Fixpoint strcmp_eq (p s : list Z) : option bool :=
  match s, p with
  | _, [] => None
  | [], x :: _ => Some (x =? 0)
  | c :: s, x :: p => if x =? c then strcmp_eq p s else Some false
  end.
(** [strcspn] with one character: the number of bytes before the first [c] or the terminator. *)
Fixpoint strcspn (p : list Z) (c : Z) : option nat :=
  match p with
  | [] => None
  | x :: p => if (x =? c) || (x =? 0) then Some O else S <$> strcspn p c
  end.
(** The index of the first [c] among the first [n] bytes. *)
Fixpoint memchr (p : list Z) (c : Z) : option nat :=
  match p with
  | [] => None
  | x :: p => if x =? c then Some O else S <$> memchr p c
  end.

(** ** util.h *)
Definition native_endianness : Z := 1.
Definition endianSwap (size : nat) (data : Z) (swap : bool) : Z :=
  if swap then le_combine (reverse (le_split size data)) else data.

(** ** Elf.cpp *)
Definition ELFMAG : list Z := [0x7F; 0x45; 0x4C; 0x46].
Inductive elf_class := Elf32 | Elf64.
(** What follows the bytes of a mapped file: zeros up to the end of its last page. *)
Definition page_tail (size : nat) : list Z := replicate (Z.to_nat ((- Z.of_nat size) mod 4096)) 0.
(** A char is signed.  [data] is a mapped file: a file of 4 or 5 bytes has zeros after them.  What is
    loaded is a copy of its bytes. *)
Definition char (x : Z) : Z := if x <? 128 then x else x - 256.
Definition Load (data : list Z) : option (option (elf_class * bool)) :=
  if Z.of_nat (length data) <? 4 then Some None
  else if negb (bool_decide (take 4 data = ELFMAG)) then Some None
  else
    enc ← char <$> (data ++ page_tail (length data)) !! 5%nat;
    if (enc =? 0) || (2 <? enc) then Some None
    else
      let enSwap := negb (native_endianness =? enc) in
      class ← char <$> data !! 4%nat;
      Some (if class =? 1 then Some (Elf32, enSwap) else if class =? 2 then Some (Elf64, enSwap) else None).

(** The members that the code reads, with offset and size. *)
Record layout := MkLayout {
  e_shoff : Z * nat; e_shentsize : Z * nat; e_shnum : Z * nat; e_shstrndx : Z * nat;
  sh_name : Z * nat; sh_offset : Z * nat; sh_size : Z * nat
}.
Definition layout_of (c : elf_class) : layout :=
  match c with
  | Elf32 => MkLayout (32, 4%nat) (46, 2%nat) (48, 2%nat) (50, 2%nat) (0, 4%nat) (16, 4%nat) (20, 4%nat)
  | Elf64 => MkLayout (40, 8%nat) (58, 2%nat) (60, 2%nat) (62, 2%nat) (0, 4%nat) (24, 8%nat) (32, 8%nat)
  end.

Section Elf.
Context (l : layout) (data : list Z) (swap : bool).

Definition member (f : Z * nat) (base : Z) : option Z :=
  let off := base + fst f in
  if (0 <=? off) && (off + Z.of_nat (snd f) <=? Z.of_nat (length data))
  then Some (le_combine (take (snd f) (drop (Z.to_nat off) data))) else None.
Definition enSwap (f : Z * nat) (base : Z) : option Z := (fun v => endianSwap (snd f) v swap) <$> member f base.
(** The offset of [m_stringTable].  The product is computed on int. *)
Definition stringTable : option Z :=
  shoff ← enSwap (e_shoff l) 0;
  ndx ← enSwap (e_shstrndx l) 0;
  size ← enSwap (e_shentsize l) 0;
  if 2 ^ 31 <=? ndx * size then None else enSwap (sh_offset l) (shoff + ndx * size).
Definition GetSection (index : Z) : option Z :=
  shoff ← enSwap (e_shoff l) 0;
  size ← enSwap (e_shentsize l) 0;
  Some (shoff + u32 (index * size)).
(** The offset and the size of the section. *)
Fixpoint GetSectionData_loop (n : nat) (i : Z) (table : Z) (sectionName : list Z) : option (option (Z * Z)) :=
  match n with
  | O => Some None
  | S n =>
      sectionHeader ← GetSection i;
      name ← enSwap (sh_name l) sectionHeader;
      found ← strcmp_eq (drop (Z.to_nat (table + name)) data) sectionName;
      if found : bool then
        size ← enSwap (sh_size l) sectionHeader;
        offset ← enSwap (sh_offset l) sectionHeader;
        Some (Some (offset, size))
      else GetSectionData_loop n (i + 1) table sectionName
  end.
(** The number of sections is read without [enSwap]. *)
Definition GetSectionData (sectionName : list Z) : option (option (Z * Z)) :=
  table ← stringTable;
  n ← member (e_shnum l) 0;
  GetSectionData_loop (Z.to_nat n) 0 table sectionName.
End Elf.

(** ** util.cpp *)

(** [p < sectionEnd] is [0 < left]; every step is at least one byte. *)
Fixpoint getModInfoParam_loop (fuel : nat) (p : list Z) (left : Z) (param : list Z) : option (option (list Z)) :=
  if left <=? 0 then Some None
  else
    match fuel with
    | O => None
    | S fuel =>
        eq ← strchr p 61;
        found ← match eq with
                | Some n => if bool_decide (n = length param) then strncmp_eq p param else Some false
                | None => Some false
                end;
        if found : bool then
          let value := drop (S (length param)) p in
          n ← strlen value;
          Some (Some (take n value))
        else
          n ← strlen p;
          getModInfoParam_loop fuel (drop (S n) p) (left - Z.of_nat (S n)) param
    end.
Definition getModInfoParam (modinfo : list Z) (modinfoSize : Z) (param : list Z) : option (option (list Z)) :=
  getModInfoParam_loop (Z.to_nat modinfoSize) modinfo modinfoSize param.

(** The lines of modules.dep: [line] is the rest of the file, up to [end]. *)
Definition nextLine (p : list Z) : list Z :=
  match memchr p 10 with Some n => drop (S n) p | None => [] end.
Fixpoint first_not_blank (p : list Z) : option Z :=
  match p with
  | [] => None
  | c :: p => if (c =? 9) || (c =? 32) then first_not_blank p else Some c
  end.
(** The loop that goes back from the colon; the first character is not examined. *)
Fixpoint last_slash (line : list Z) (p : nat) : nat :=
  match p with
  | O => O
  | S q => if bool_decide (line !! p = Some 47) then S p else last_slash line q
  end.
Fixpoint same_name (modname p : list Z) : option bool :=
  match modname with
  | [] => match p with [] => None | x :: _ => Some (x =? 46) end
  | c :: modname =>
      if c =? 58 then same_name modname (tail p)
      else
        match p with
        | [] => None
        | x :: p => if (c =? x) || (c =? 95) && (x =? 45) || (c =? 45) && (x =? 95)
                    then same_name modname p else Some false
        end
  end.
(** [line] is the rest of the file, and [tail] what can be read behind it. *)
Definition name_matches (line tail modname : list Z) : option bool :=
  c ← first_not_blank (line ++ tail);
  if c =? 35 then Some false
  else
    match memchr line 58 with
    | None => Some false
    | Some colon => same_name modname (drop (last_slash line colon) line ++ tail)
    end.

(** The file name that is opened, if a line matches.  [asprintf] copies the rest of the file up to a
    zero, and the copy is cut then; [strndup] stops at the colon. *)
Definition module_file (modulesPath p tail : list Z) : option (list Z) :=
  let dir := if bool_decide (head p = Some 47) then [] else modulesPath in
  namelen ← strcspn (p ++ tail) 58;
  if negb (bool_decide (length dir = 0%nat)) then
    n ← strlen (p ++ tail);
    Some (take (namelen + length dir + 1) (dir ++ [47] ++ take n (p ++ tail)))
  else Some (take namelen (p ++ tail)).
Fixpoint find_module (fuel : nat) (p tail modulesPath name : list Z) : option (option (list Z)) :=
  match p, fuel with
  | [], _ => Some None
  | _, O => None
  | _, S fuel =>
      found ← name_matches p tail name;
      if found : bool then Some <$> module_file modulesPath p tail
      else find_module fuel (nextLine p) tail modulesPath name
  end.

(** ** Numbers in decimal

    [strtol] in base 10: the value, which saturates at the limits of a long, and the number of
    bytes consumed, none if there are no digits. *)
Definition is_digit (c : Z) : bool := (48 <=? c) && (c <=? 57).
Definition is_space (c : Z) : bool := (c =? 32) || ((9 <=? c) && (c <=? 13)).
Fixpoint digits (p : list Z) (acc : Z) (n : nat) : option (Z * nat) :=
  match p with
  | [] => None
  | c :: p => if is_digit c then digits p (10 * acc + (c - 48)) (S n) else Some (acc, n)
  end.
Fixpoint skip_spaces (p : list Z) : option nat :=
  match p with
  | [] => None
  | c :: p => if is_space c then S <$> skip_spaces p else Some O
  end.
Definition saturate (v : Z) : Z := Z.max (- 2 ^ 63) (Z.min v (2 ^ 63 - 1)).
Definition strtol (p : list Z) : option (Z * nat) :=
  spaces ← skip_spaces p;
  c ← p !! spaces;
  let sign := if (c =? 43) || (c =? 45) then 1%nat else 0%nat in
  '(v, n) ← digits (drop (spaces + sign) p) 0 0;
  if bool_decide (n = 0%nat) then Some (0, 0%nat)
  else Some (saturate (if c =? 45 then - v else v), (spaces + sign + n)%nat).

(** [HaxmPlatformSysImpl::GetVersion] on the contents of the module's file, which is
    NULL if there is none, and the variable of its size: the three numbers, which are all zero if the
    version is not found. *)
Definition parse_version (ver : list Z) : option (Z * Z * Z) :=
  '(major, n1) ← strtol ver;
  let p := drop (S n1) ver in
  '(minor, n2) ← strtol p;
  let p := drop (S n2) p in
  '(build, _) ← strtol p;
  Some (u16 major, u16 minor, u16 build).
Definition GetVersion (kmFile : option (list Z)) (kmSize : Z) : option (Z * Z * Z) :=
  match kmFile with
  | None => if kmSize <? 4 then Some (0, 0, 0) else None
  | Some data =>
  elf ← Load data;
  match elf with
  | None => Some (0, 0, 0)
  | Some (c, swap) =>
      modinfo ← GetSectionData (layout_of c) data swap (str ".modinfo");
      match modinfo with
      | None => Some (0, 0, 0)
      | Some (offset, modinfoSize) =>
          ver ← getModInfoParam (drop (Z.to_nat offset) data) modinfoSize (str "version");
          match ver with
          | None => Some (0, 0, 0)
          | Some ver => parse_version (ver ++ [0])
          end
      end
  end
  end.

(** ** Facts on strings *)
Lemma strlen_app e r : 0 ∉ e -> strlen (e ++ 0 :: r) = Some (length e).
Proof.
  induction e as [|c e IH]; [done|]. intros [Hc He]%not_elem_of_cons. cbn.
  rewrite (proj2 (Z.eqb_neq c 0)), IH by done. done.
Qed.
Lemma strchr_found a b r c : c ∉ a -> 0 ∉ a -> strchr (a ++ c :: b ++ r) c = Some (Some (length a)).
Proof.
  induction a as [|x a IH]; cbn; [by rewrite Z.eqb_refl|].
  intros [Hc Ha]%not_elem_of_cons [H0 Ha0]%not_elem_of_cons.
  rewrite (proj2 (Z.eqb_neq x c)), (proj2 (Z.eqb_neq x 0)), IH by done. done.
Qed.
Lemma strchr_absent e r c : c <> 0 -> c ∉ e -> 0 ∉ e -> strchr (e ++ 0 :: r) c = Some None.
Proof.
  intros Hc. induction e as [|x e IH]; cbn.
  - intros _ _. by destruct c.
  - intros [H1 H2]%not_elem_of_cons [H3 H4]%not_elem_of_cons.
    rewrite (proj2 (Z.eqb_neq x c)), (proj2 (Z.eqb_neq x 0)), IH by done. done.
Qed.
Lemma strncmp_eq_app a r s : length a = length s -> strncmp_eq (a ++ r) s = Some (bool_decide (a = s)).
Proof.
  revert s. induction a as [|x a IH]; intros [|c s] Hl; try discriminate Hl.
  { by destruct r. }
  cbn. injection Hl as Hl. destruct (Z.eqb_spec x c) as [->|Hne].
  - rewrite IH by done. f_equal. apply bool_decide_ext. naive_solver.
  - symmetry. f_equal. apply bool_decide_eq_false. congruence.
Qed.
Lemma strcmp_eq_app e r s : 0 ∉ e -> 0 ∉ s -> strcmp_eq (e ++ 0 :: r) s = Some (bool_decide (e = s)).
Proof.
  revert s. induction e as [|x e IH]; intros [|c s] He Hs; cbn [strcmp_eq app].
  - done.
  - apply not_elem_of_cons in Hs as [Hc _]. by rewrite (proj2 (Z.eqb_neq 0 c)).
  - apply not_elem_of_cons in He as [Hx _]. by rewrite (proj2 (Z.eqb_neq x 0)).
  - apply not_elem_of_cons in He as [_ He], Hs as [_ Hs]. destruct (Z.eqb_spec x c) as [->|Hne].
    + rewrite IH by done. f_equal. apply bool_decide_ext. naive_solver.
    + symmetry. f_equal. apply bool_decide_eq_false. congruence.
Qed.

(** ** The .modinfo section

    An entry is a string; its value for a parameter is what follows "param=". *)
Definition entry_value (param e : list Z) : option (list Z) :=
  if bool_decide (take (S (length param)) e = param ++ [61]) then Some (drop (S (length param)) e) else None.
Definition modinfo_of (entries : list (list Z)) : list Z := entries ≫= (fun e => e ++ [0]).

Lemma split_first (c : Z) e : c ∈ e -> exists a b, e = a ++ c :: b /\ c ∉ a.
Proof.
  induction e as [|x e IH]; [by intros ?%not_elem_of_nil|]. intros H.
  destruct (decide (x = c)) as [->|Hne]; [exists [], e; split; [done|apply not_elem_of_nil]|].
  apply elem_of_cons in H as [?|H]; [congruence|]. destruct (IH H) as (a & b & -> & Ha).
  exists (x :: a), b. split; [done|]. apply not_elem_of_cons. by split.
Qed.
Lemma entry_value_split param a b : 61 ∉ a -> 61 ∉ param ->
  entry_value param (a ++ 61 :: b) = if bool_decide (a = param) then Some b else None.
Proof.
  intros Ha Hp. unfold entry_value. case_bool_decide as H.
  - assert (a = param) as ->.
    { revert param Ha Hp H. induction a as [|x a IH]; intros [|y param] Ha Hp H; try done.
      - cbn in H. injection H as <- _. exfalso. apply Hp. constructor.
      - cbn in H. injection H as ->. exfalso. apply Ha. constructor.
      - injection H as -> H. f_equal. apply not_elem_of_cons in Ha as [_ Ha], Hp as [_ Hp]. by apply IH. }
    rewrite bool_decide_true by done. f_equal.
    by rewrite cons_middle, app_assoc, drop_app_length' by (rewrite length_app; cbn; lia).
  - rewrite bool_decide_false; [done|]. intros ->. apply H.
    by rewrite cons_middle, app_assoc, take_app_length' by (rewrite length_app; cbn; lia).
Qed.
Lemma entry_value_absent param e : 61 ∉ e -> entry_value param e = None.
Proof.
  intros He. unfold entry_value. rewrite bool_decide_false; [done|]. intros H. apply He.
  assert (61 ∈ take (S (length param)) e) as (i & Hi & _)%elem_of_take by (rewrite H; set_solver).
  by eapply list_elem_of_lookup_2.
Qed.

(** One step of the loop on an entry. *)
Lemma getModInfoParam_step fuel e r left param : 0 ∉ e -> 0 ∉ param -> 61 ∉ param -> 0 < left ->
  getModInfoParam_loop (S fuel) (e ++ 0 :: r) left param
  = match entry_value param e with
    | Some v => Some (Some v)
    | None => getModInfoParam_loop fuel r (left - Z.of_nat (S (length e))) param
    end.
Proof.
  intros He Hp0 Hp Hl. cbn [getModInfoParam_loop]. rewrite (proj2 (Z.leb_gt left 0)) by done.
  assert (Hnext : (n ← strlen (e ++ 0 :: r);
      getModInfoParam_loop fuel (drop (S n) (e ++ 0 :: r)) (left - Z.of_nat (S n)) param)
    = getModInfoParam_loop fuel r (left - Z.of_nat (S (length e))) param).
  { rewrite strlen_app by done. cbn [mbind option_bind]. f_equal.
    by rewrite cons_middle, app_assoc, drop_app_length' by (rewrite length_app; cbn; lia). }
  destruct (decide (61 ∈ e)) as [Hin|Hni].
  - destruct (split_first 61 e Hin) as (a & b & -> & Ha). rewrite entry_value_split by done.
    rewrite not_elem_of_app, not_elem_of_cons in He. destruct He as (Ha0 & _ & Hb0).
    rewrite <- app_assoc in *. cbn [app] in *. rewrite (strchr_found a b (0 :: r)) by done. cbn [mbind option_bind].
    case_bool_decide as Hlen.
    + rewrite strncmp_eq_app by done. cbn [mbind option_bind]. case_bool_decide as Heq; [|exact Hnext].
      subst a. replace (drop (S (length param)) (param ++ 61 :: b ++ 0 :: r)) with (b ++ 0 :: r)
        by (by rewrite (cons_middle 61 param), (app_assoc param [61]), drop_app_length' by (rewrite length_app; cbn; lia)).
      rewrite strlen_app by done. cbn [mbind option_bind]. by rewrite take_app_length.
    + cbn [mbind option_bind]. rewrite bool_decide_false by congruence. exact Hnext.
  - rewrite entry_value_absent, strchr_absent by done. cbn [mbind option_bind]. exact Hnext.
Qed.

(** Parameters of a module.  For a section that is a sequence of terminated entries,
    [getModInfoParam] returns the value of the first entry for the parameter, or nothing
    if there is none, and never looks beyond the section. *)
Theorem modinfo_first_entry entries r param :
  Forall (fun e => 0 ∉ e) entries -> 0 ∉ param -> 61 ∉ param ->
  getModInfoParam (modinfo_of entries ++ r) (Z.of_nat (length (modinfo_of entries))) param
  = Some (head (omap (entry_value param) entries)).
Proof.
  intros He Hp0 Hp. unfold getModInfoParam. rewrite Nat2Z.id.
  assert (Hg : forall fuel, (length (modinfo_of entries) <= fuel)%nat ->
    getModInfoParam_loop fuel (modinfo_of entries ++ r) (Z.of_nat (length (modinfo_of entries))) param
    = Some (head (omap (entry_value param) entries))); [|by apply Hg].
  induction He as [|e entries He _ IH]; intros fuel Hf.
  - by destruct fuel.
  - unfold modinfo_of in *. rewrite bind_cons in *. rewrite !length_app in *. cbn [length] in *.
    destruct fuel as [|fuel]; [lia|]. rewrite <- !app_assoc. cbn [app].
    rewrite getModInfoParam_step by (done || lia). cbn [omap list_omap].
    destruct (entry_value param e); [done|].
    replace (Z.of_nat _ - Z.of_nat (S (length e))) with (Z.of_nat (length (entries ≫= (fun e => e ++ [0])))) by lia.
    apply IH. lia.
Qed.

(** ** ELF images

    A reference encoder: the image of a file with the given sections in the given byte
    order.  The header is followed by the names of the sections, after an empty name, by
    their contents and by the section headers, of which the last is that of the names. *)
Record section := MkSection { s_name : list Z; s_data : list Z }.
Section Image.
Context (c : elf_class) (swap : bool).
Definition enc (n : nat) (v : Z) : list Z := if swap then reverse (le_split n v) else le_split n v.
Definition word : nat := match c with Elf32 => 4 | Elf64 => 8 end.
Definition header_size : Z := match c with Elf32 => 52 | Elf64 => 64 end.
Definition entry_size : Z := match c with Elf32 => 40 | Elf64 => 64 end.
Definition elf_header (shoff num ndx : Z) : list Z :=
  ELFMAG ++ [match c with Elf32 => 1 | Elf64 => 2 end; if swap then 2 else 1; 1] ++ replicate 9 0
  ++ replicate (match c with Elf32 => 16 | Elf64 => 24 end) 0
  ++ enc word shoff ++ replicate 10 0 ++ enc 2 entry_size ++ enc 2 num ++ enc 2 ndx.
Definition section_header (name offset size : Z) : list Z :=
  enc 4 name ++ replicate (match c with Elf32 => 12 | Elf64 => 20 end) 0 ++ enc word offset ++ enc word size
  ++ replicate (match c with Elf32 => 16 | Elf64 => 24 end) 0.
Definition names_of (secs : list section) : list Z := 0 :: (secs ≫= fun s => s_name s ++ [0]).
Definition contents_of (secs : list section) : list Z := secs ≫= s_data.
(** Name, offset and size of every section. *)
Fixpoint places (name offset : Z) (secs : list section) : list (Z * Z * Z) :=
  match secs with
  | [] => []
  | s :: secs =>
      (name, offset, Z.of_nat (length (s_data s)))
      :: places (name + Z.of_nat (length (s_name s)) + 1) (offset + Z.of_nat (length (s_data s))) secs
  end.
Definition names_size (secs : list section) : Z := Z.of_nat (length (names_of secs)).
Definition all_places (secs : list section) : list (Z * Z * Z) :=
  places 1 (header_size + names_size secs) secs ++ [(0, header_size, names_size secs)].
Definition table_offset (secs : list section) : Z :=
  header_size + names_size secs + Z.of_nat (length (contents_of secs)).
Definition image (secs : list section) : list Z :=
  elf_header (table_offset secs) (Z.of_nat (length secs) + 1) (Z.of_nat (length secs))
  ++ names_of secs ++ contents_of secs
  ++ (all_places secs ≫= fun '(name, offset, size) => section_header name offset size).
End Image.

(** *** Encoded integers *)
Lemma le_split_combine bs : Forall (fun b => 0 <= b < 256) bs -> le_split (length bs) (le_combine bs) = bs.
Proof.
  induction 1 as [|b bs Hb _ IH]; [done|]. cbn beta in Hb. cbn [length le_split le_combine].
  assert (Hc : le_combine bs <<< 8 = le_combine bs * 2 ^ 8) by (by rewrite Z.shiftl_mul_pow2).
  assert (Hor : u8 b ||| (le_combine bs <<< 8) = b + 2 ^ 8 * le_combine bs).
  { rewrite Z.lor_comm, lor_shiftl_add; [|lia|rewrite u8_small by lia; lia]. rewrite u8_small by lia. lia. }
  rewrite Hor, Z.shiftr_div_pow2 by done. f_equal; [unfold u8; zlia|].
  etrans; [|exact IH]. f_equal. zlia.
Qed.
Lemma le_split_bytes n v : Forall (fun b => 0 <= b < 256) (le_split n v).
Proof. revert v. induction n as [|n IH]; intros v; cbn; constructor; [apply u8_range|apply IH]. Qed.
Lemma length_enc swap n v : length (enc swap n v) = n.
Proof. unfold enc. destruct swap; rewrite ?length_reverse; apply length_le_split. Qed.
Lemma endianSwap_enc swap n v :
  endianSwap n (le_combine (enc swap n v)) swap = v mod 2 ^ (8 * Z.of_nat n).
Proof.
  unfold endianSwap, enc. destruct swap; [|apply le_combine_split].
  assert (H : le_split n (le_combine (reverse (le_split n v))) = reverse (le_split n v)).
  { rewrite <- (length_le_split n v) at 1. rewrite <- length_reverse.
    apply le_split_combine. apply Forall_reverse, le_split_bytes. }
  rewrite H, reverse_involutive. apply le_combine_split.
Qed.

(** A small number of two bytes, in the other order. *)
Lemma swapped_16 v : 0 <= v < 2 ^ 8 -> le_combine (reverse (le_split 2 v)) = v * 2 ^ 8.
Proof.
  intros Hv. cbn [le_split]. rewrite Z.shiftr_div_pow2, (Z.div_small v), (u8_small v) by lia.
  change (reverse [v; u8 0]) with [0; v]. cbn [le_combine]. rewrite (u8_small v) by lia.
  change (u8 0) with 0. by rewrite Z.shiftl_0_l, Z.lor_0_r, Z.lor_0_l, Z.shiftl_mul_pow2.
Qed.

(** A member that is encoded after [pre]. *)
Lemma member_at pre bs post f base : base + fst f = Z.of_nat (length pre) -> snd f = length bs ->
  member (pre ++ bs ++ post) f base = Some (le_combine bs).
Proof.
  intros Hf Hs. unfold member. rewrite Hf, Hs, !length_app, Nat2Z.id.
  rewrite (proj2 (Z.leb_le 0 _)), (proj2 (Z.leb_le _ _)) by lia. cbn [andb].
  by rewrite drop_app_length, take_app_length.
Qed.
Lemma enSwap_at swap pre v post n f base : base + fst f = Z.of_nat (length pre) -> snd f = n ->
  enSwap (pre ++ enc swap n v ++ post) swap f base = Some (v mod 2 ^ (8 * Z.of_nat n)).
Proof.
  intros Hf Hs. unfold enSwap. rewrite member_at by (by rewrite ?length_enc). cbn. by rewrite Hs, endianSwap_enc.
Qed.

(** *** The parts of an image *)
Abbreviation name_bytes := (fun secs => secs ≫= fun s => s_name s ++ [0]).
Abbreviation name_length := (fun secs => Z.of_nat (length (name_bytes secs))).
Abbreviation data_length := (fun secs => Z.of_nat (length (contents_of secs))).

Lemma places_app n o a b :
  places n o (a ++ b) = places n o a ++ places (n + name_length a) (o + data_length a) b.
Proof.
  revert n o. induction a as [|s a IH]; intros n o; cbn [app places]; [by rewrite !Z.add_0_r|].
  f_equal. rewrite IH. f_equal. unfold contents_of. rewrite !bind_cons, !length_app. cbn [length]. f_equal; lia.
Qed.
Lemma length_places n o secs : length (places n o secs) = length secs.
Proof. revert n o. induction secs as [|s secs IH]; intros n o; cbn; [done|]. by rewrite IH. Qed.
Lemma length_all_places c secs : length (all_places c secs) = S (length secs).
Proof. unfold all_places. rewrite length_app, length_places. cbn. lia. Qed.

Section Parts.
Context (c : elf_class) (swap : bool).
Abbreviation header := (fun '(name, offset, size) => section_header c swap name offset size).

Lemma length_section_header name offset size :
  Z.of_nat (length (section_header c swap name offset size)) = entry_size c.
Proof. unfold section_header. rewrite !length_app, !length_enc, !length_replicate. by destruct c. Qed.
Lemma length_headers (l : list (Z * Z * Z)) : Z.of_nat (length (l ≫= header)) = Z.of_nat (length l) * entry_size c.
Proof.
  induction l as [|[[name offset] size] l IH]; [done|].
  rewrite bind_cons, length_app, Nat2Z.inj_add, length_section_header, IH. cbn [length]. lia.
Qed.
Lemma length_elf_header shoff num ndx : Z.of_nat (length (elf_header c swap shoff num ndx)) = header_size c.
Proof.
  unfold elf_header. rewrite !length_app, !length_enc, !length_replicate. by destruct c, swap.
Qed.

Context (secs : list section).
Abbreviation data := (image c swap secs).
(** Everything fits its member. *)
Definition image_fits : Prop :=
  table_offset c secs < 2 ^ 32 /\ Z.of_nat (length secs) + 1 < (if swap then 2 ^ 8 else 2 ^ 16).
Context (Hfits : image_fits).

Lemma mod_word v : 0 <= v < 2 ^ 32 -> v mod 2 ^ (8 * Z.of_nat (word c)) = v.
Proof. intros Hv. apply Z.mod_small. destruct c; cbn; lia. Qed.
Lemma fits_length : Z.of_nat (length secs) + 1 < 2 ^ 16.
Proof. destruct Hfits as [_ H]. destruct swap; lia. Qed.
Lemma table_offset_nonneg : 0 <= table_offset c secs.
Proof. unfold table_offset, header_size, names_size. destruct c; lia. Qed.

(** The header up to the offset of the table, and after it. *)
Definition ident : list Z :=
  ELFMAG ++ [match c with Elf32 => 1 | Elf64 => 2 end; if swap then 2 else 1; 1] ++ replicate 9 0
  ++ replicate (match c with Elf32 => 16 | Elf64 => 24 end) 0.
Definition after_header : list Z :=
  names_of secs ++ contents_of secs ++ (all_places c secs ≫= header).
Lemma image_header : data = ident ++ enc swap (word c) (table_offset c secs) ++ replicate 10 0
  ++ enc swap 2 (entry_size c) ++ enc swap 2 (Z.of_nat (length secs) + 1) ++ enc swap 2 (Z.of_nat (length secs))
  ++ after_header.
Proof. unfold image, elf_header, ident, after_header. by rewrite <- !app_assoc. Qed.
Lemma length_ident : Z.of_nat (length ident) = header_size c - Z.of_nat (word c) - 16.
Proof. unfold ident. rewrite !length_app, !length_replicate. by destruct c, swap. Qed.
Ltac sizes := rewrite ?length_app, ?length_enc, ?length_replicate, ?Nat2Z.inj_add, ?length_ident; by destruct c.

Lemma read_shoff : enSwap data swap (e_shoff (layout_of c)) 0 = Some (table_offset c secs).
Proof.
  rewrite image_header, (enSwap_at swap _ _ _ (word c)) by sizes.
  f_equal. apply mod_word. pose proof table_offset_nonneg. destruct Hfits. lia.
Qed.
Lemma read_shentsize : enSwap data swap (e_shentsize (layout_of c)) 0 = Some (entry_size c).
Proof.
  rewrite image_header, (app_assoc ident), (app_assoc (ident ++ _)), (enSwap_at swap _ _ _ 2) by sizes.
  by destruct c.
Qed.
Lemma read_shstrndx : enSwap data swap (e_shstrndx (layout_of c)) 0 = Some (Z.of_nat (length secs)).
Proof.
  rewrite image_header, (app_assoc ident), (app_assoc (ident ++ _)), (app_assoc (_ ++ replicate _ _)),
    (app_assoc (_ ++ enc swap 2 (entry_size c))), (enSwap_at swap _ _ _ 2) by sizes.
  f_equal. apply Z.mod_small. pose proof fits_length. cbn. lia.
Qed.
Lemma read_shnum : exists n, member data (e_shnum (layout_of c)) 0 = Some n
  /\ (if swap then Z.of_nat (length secs) + 1 < n else n = Z.of_nat (length secs) + 1).
Proof.
  rewrite image_header, (app_assoc ident), (app_assoc (ident ++ _)), (app_assoc (_ ++ replicate _ _)), member_at by sizes.
  eexists. split; [reflexivity|]. pose proof fits_length. unfold enc. destruct Hfits as [_ Hn]. destruct swap.
  - rewrite swapped_16 by lia. lia.
  - rewrite le_combine_split. apply Z.mod_small. cbn. lia.
Qed.

(** An entry of the table. *)
Lemma read_entry l1 l2 name offset size :
  all_places c secs = l1 ++ (name, offset, size) :: l2 ->
  0 <= name < 2 ^ 32 -> 0 <= offset < 2 ^ 32 -> 0 <= size < 2 ^ 32 ->
  let base := table_offset c secs + Z.of_nat (length l1) * entry_size c in
  GetSection (layout_of c) data swap (Z.of_nat (length l1)) = Some base
  /\ enSwap data swap (sh_name (layout_of c)) base = Some name
  /\ enSwap data swap (sh_offset (layout_of c)) base = Some offset
  /\ enSwap data swap (sh_size (layout_of c)) base = Some size.
Proof.
  intros Hp Hn Ho Hs base.
  set (before := elf_header c swap (table_offset c secs) (Z.of_nat (length secs) + 1) (Z.of_nat (length secs))
                 ++ names_of secs ++ contents_of secs ++ (l1 ≫= header)).
  assert (Hd : data = before ++ section_header c swap name offset size ++ (l2 ≫= header)).
  { unfold image, before. rewrite Hp, bind_app, bind_cons, <- !app_assoc. done. }
  assert (Hb : Z.of_nat (length before) = base).
  { unfold before, base. rewrite !length_app, !Nat2Z.inj_add, length_elf_header, length_headers.
    unfold table_offset, names_size. lia. }
  assert (Hi : Z.of_nat (length l1) < 2 ^ 16).
  { apply (f_equal length) in Hp. rewrite length_all_places, length_app in Hp. cbn in Hp.
    pose proof fits_length. lia. }
  split.
  { unfold GetSection. rewrite read_shoff, read_shentsize. cbn [mbind option_bind].
    rewrite u32_small by (destruct c; cbn [entry_size]; lia). done. }
  rewrite Hd. unfold section_header. rewrite <- !app_assoc. split; [|split].
  - rewrite (enSwap_at swap _ _ _ 4); [by rewrite Z.mod_small|destruct c; cbn [layout_of sh_name fst]; lia|by destruct c].
  - rewrite (app_assoc before), (app_assoc (before ++ _)), (enSwap_at swap _ _ _ (word c)).
    + f_equal. by apply mod_word.
    + rewrite !length_app, !length_enc, !length_replicate. destruct c; cbn [layout_of sh_offset fst]; lia.
    + by destruct c.
  - rewrite (app_assoc before), (app_assoc (before ++ _)), (app_assoc (_ ++ replicate _ _)), (enSwap_at swap _ _ _ (word c)).
    + f_equal. by apply mod_word.
    + rewrite !length_app, !length_enc, !length_replicate. destruct c; cbn [layout_of sh_size fst word]; lia.
    + by destruct c.
Qed.

(** A section of the list. *)
Definition section_offset (before : list section) : Z := header_size c + names_size secs + data_length before.
Lemma sizes_fit before s rest : secs = before ++ s :: rest ->
  name_length before + Z.of_nat (length (s_name s)) + 2 <= names_size secs
  /\ data_length before + Z.of_nat (length (s_data s)) <= data_length secs
  /\ header_size c + names_size secs + data_length secs < 2 ^ 32 /\ 0 < header_size c.
Proof.
  intros E. destruct Hfits as [Hf _]. unfold table_offset in Hf. unfold names_size, names_of, contents_of in *.
  rewrite E in *. rewrite !bind_app, !bind_cons, !length_app in *. cbn [length] in *.
  rewrite !length_app in *. cbn [length] in *. destruct c; cbn [header_size] in *; lia.
Qed.

Lemma read_section before s rest : secs = before ++ s :: rest ->
  let base := table_offset c secs + Z.of_nat (length before) * entry_size c in
  GetSection (layout_of c) data swap (Z.of_nat (length before)) = Some base
  /\ enSwap data swap (sh_name (layout_of c)) base = Some (1 + name_length before)
  /\ enSwap data swap (sh_offset (layout_of c)) base = Some (section_offset before)
  /\ enSwap data swap (sh_size (layout_of c)) base = Some (Z.of_nat (length (s_data s))).
Proof.
  intros E base. pose proof (sizes_fit before s rest E) as (H1 & H2 & H3 & H4).
  pose proof (read_entry (places 1 (header_size c + names_size secs) before)
    (places (1 + name_length before + Z.of_nat (length (s_name s)) + 1)
       (section_offset before + Z.of_nat (length (s_data s))) rest ++ [(0, header_size c, names_size secs)])
    (1 + name_length before) (section_offset before) (Z.of_nat (length (s_data s)))) as H.
  rewrite length_places in H. apply H; [|unfold section_offset; lia..].
  unfold all_places. rewrite E at 2. rewrite places_app, <- app_assoc. done.
Qed.

Lemma read_names :
  let base := table_offset c secs + Z.of_nat (length secs) * entry_size c in
  GetSection (layout_of c) data swap (Z.of_nat (length secs)) = Some base
  /\ enSwap data swap (sh_name (layout_of c)) base = Some 0
  /\ enSwap data swap (sh_offset (layout_of c)) base = Some (header_size c).
Proof.
  intros base. pose proof (read_entry (places 1 (header_size c + names_size secs) secs) [] 0 (header_size c)
    (names_size secs) eq_refl) as H.
  rewrite length_places in H. destruct Hfits as [Hf _]. unfold table_offset, names_size in Hf.
  destruct H as (H1 & H2 & H3 & _); [lia|destruct c; cbn [header_size]; lia|unfold names_size; destruct c; cbn [header_size] in *; lia|done].
Qed.

Lemma read_stringTable : stringTable (layout_of c) data swap = Some (header_size c).
Proof.
  unfold stringTable. rewrite read_shoff, read_shstrndx, read_shentsize. cbn [mbind option_bind].
  pose proof fits_length as Hl. rewrite (proj2 (Z.leb_gt _ _)) by (destruct c; cbn [entry_size]; lia).
  apply read_names.
Qed.

(** The bytes at an offset behind the header. *)
Lemma drop_image k : 0 <= k -> drop (Z.to_nat (header_size c + k)) data
  = drop (Z.to_nat k) (names_of secs ++ contents_of secs ++ (all_places c secs ≫= header)).
Proof.
  intros Hk. unfold image. rewrite Z2Nat.inj_add by (destruct c; cbn [header_size]; lia).
  rewrite <- drop_drop, drop_app_length'; [done|].
  pose proof (length_elf_header (table_offset c secs) (Z.of_nat (length secs) + 1) (Z.of_nat (length secs))). lia.
Qed.
Lemma drop_name before s rest : secs = before ++ s :: rest ->
  exists r, drop (Z.to_nat (header_size c + (1 + name_length before))) data = s_name s ++ 0 :: r.
Proof.
  intros E. rewrite drop_image by lia. unfold names_of.
  replace (Z.to_nat (1 + name_length before)) with (S (length (name_bytes before))) by lia. cbn [app drop].
  assert (Hn : name_bytes secs = name_bytes before ++ s_name s ++ [0] ++ name_bytes rest)
    by (by rewrite E, bind_app, bind_cons, <- app_assoc).
  rewrite Hn, <- !app_assoc, drop_app_length. by eexists.
Qed.
Lemma take_data before s rest : secs = before ++ s :: rest ->
  take (length (s_data s)) (drop (Z.to_nat (section_offset before)) data) = s_data s.
Proof.
  intros E. unfold section_offset. rewrite <- Z.add_assoc, drop_image by (unfold names_size; lia).
  rewrite app_assoc.
  replace (Z.to_nat (names_size secs + data_length before)) with (length (names_of secs ++ contents_of before))
    by (rewrite length_app; unfold names_size; lia).
  assert (Hc : contents_of secs = contents_of before ++ s_data s ++ contents_of rest)
    by (unfold contents_of; by rewrite E, bind_app, bind_cons).
  rewrite Hc, (app_assoc (names_of secs)), <- !app_assoc.
  by rewrite (app_assoc (names_of secs)), drop_app_length, take_app_length.
Qed.
Lemma length_image : Z.of_nat (length data) = table_offset c secs + (Z.of_nat (length secs) + 1) * entry_size c.
Proof.
  unfold image. rewrite !length_app, !Nat2Z.inj_add, length_elf_header, length_headers, length_all_places.
  unfold table_offset, names_size. lia.
Qed.

(** *** Looking for a section *)
Context (Hnames : Forall (fun s => 0 ∉ s_name s) secs) (nm : list Z) (Hnm : 0 ∉ nm) (Hne : nm <> []).
Abbreviation loop := (fun n i => GetSectionData_loop (layout_of c) data swap n i (header_size c) nm).

Lemma loop_section before s rest n : secs = before ++ s :: rest ->
  loop (S n) (Z.of_nat (length before))
  = if bool_decide (s_name s = nm) then Some (Some (section_offset before, Z.of_nat (length (s_data s))))
    else loop n (Z.of_nat (length (before ++ [s]))).
Proof.
  intros E. cbn [GetSectionData_loop].
  destruct (read_section before s rest E) as (-> & H2 & H3 & H4). cbn [mbind option_bind].
  rewrite H2. cbn [mbind option_bind]. destruct (drop_name before s rest E) as [r ->].
  assert (Hs : 0 ∉ s_name s) by (rewrite Forall_forall in Hnames; apply Hnames; rewrite E; set_solver).
  rewrite strcmp_eq_app by done. cbn [mbind option_bind]. case_bool_decide; [by rewrite H4, H3|].
  f_equal. rewrite length_app. cbn. lia.
Qed.
(** The entry of the names themselves has the empty name. *)
Lemma loop_names n : loop (S n) (Z.of_nat (length secs)) = loop n (Z.of_nat (length secs) + 1).
Proof.
  cbn [GetSectionData_loop]. destruct read_names as (-> & H2 & _). cbn [mbind option_bind].
  rewrite H2. cbn [mbind option_bind]. rewrite drop_image by lia. unfold names_of. change (Z.to_nat 0) with 0%nat. cbn [app drop].
  destruct nm as [|x nm']; [done|]. cbn [strcmp_eq]. apply not_elem_of_cons in Hnm as [Hx _].
  by rewrite (proj2 (Z.eqb_neq 0 x)).
Qed.
(** There is no entry after it. *)
Lemma loop_end n : loop (S n) (Z.of_nat (length secs) + 1) = None.
Proof.
  cbn [GetSectionData_loop]. unfold GetSection. rewrite read_shoff, read_shentsize. cbn [mbind option_bind].
  pose proof fits_length. rewrite u32_small by (destruct c; cbn [entry_size]; lia).
  assert (Hm : forall off, Z.of_nat (length data) <= off -> enSwap data swap (sh_name (layout_of c)) off = None).
  { intros off Hoff. unfold enSwap, member. rewrite (proj2 (Z.leb_gt (_ + Z.of_nat _) _)).
    - by rewrite andb_false_r.
    - destruct c; cbn [layout_of sh_name fst snd]; lia. }
  rewrite Hm; [done|]. rewrite length_image. destruct c; cbn [entry_size]; lia.
Qed.
Lemma loop_all rest before k : secs = before ++ rest ->
  match list_find (fun s => s_name s = nm) rest with
  | Some (_, s) => exists b r, secs = b ++ s :: r
      /\ loop (length rest + S k)%nat (Z.of_nat (length before)) = Some (Some (section_offset b, Z.of_nat (length (s_data s))))
  | None => loop (length rest + S k)%nat (Z.of_nat (length before)) = loop k (Z.of_nat (length secs) + 1)
  end.
Proof.
  revert before. induction rest as [|s rest IH]; intros before E.
  - cbn [list_find length Nat.add]. rewrite app_nil_r in E. rewrite <- E. apply loop_names.
  - cbn [length Nat.add list_find]. rewrite (loop_section before s rest) by done.
    specialize (IH (before ++ [s])). rewrite <- app_assoc in IH. specialize (IH E).
    case_decide as Hs.
    + rewrite bool_decide_true by done. by exists before, rest.
    + rewrite bool_decide_false by done. by destruct (list_find _ rest) as [[i s']|].
Qed.
End Parts.

Lemma load_image c swap secs : Load (image c swap secs) = Some (Some (c, swap)).
Proof.
  unfold Load. pose proof (length_image c swap secs) as Hl. pose proof (table_offset_nonneg c secs).
  rewrite (proj2 (Z.ltb_ge _ 4)) by (destruct c; cbn [entry_size] in Hl; lia).
  rewrite lookup_app_l by (destruct c; cbn [entry_size] in Hl; lia). by destruct c, swap.
Qed.
(** The first section of a name, or the end of the table. *)
Lemma find_section c swap secs nm :
  image_fits c swap secs -> Forall (fun s => 0 ∉ s_name s) secs -> 0 ∉ nm -> nm <> [] ->
  let r := GetSectionData (layout_of c) (image c swap secs) swap nm in
  match list_find (fun s => s_name s = nm) secs with
  | Some (_, s) => exists offset, r = Some (Some (offset, Z.of_nat (length (s_data s))))
      /\ take (length (s_data s)) (drop (Z.to_nat offset) (image c swap secs)) = s_data s
  | None => r = if swap then None else Some None
  end.
Proof.
  intros Hf Hs Hn Hne r. unfold r, GetSectionData. rewrite read_stringTable by done. cbn [mbind option_bind].
  destruct (read_shnum c swap secs Hf) as (n & -> & Hnum). cbn [mbind option_bind].
  assert (Hk : exists k, Z.to_nat n = (length secs + S k)%nat /\ (if swap then k <> 0%nat else k = 0%nat)).
  { exists (Z.to_nat n - length secs - 1)%nat. destruct swap; lia. }
  destruct Hk as (k & -> & Hk).
  pose proof (loop_all c swap secs Hf Hs nm Hn Hne secs [] k eq_refl) as H.
  destruct (list_find _ secs) as [[i s]|].
  - destruct H as (b & r' & E & H). exists (section_offset c secs b). split; [exact H|]. by eapply take_data.
  - etrans; [exact H|]. destruct swap; [|by subst k].
    destruct k as [|k]; [done|]. by apply loop_end.
Qed.

(** Finding a section.  In the image of any sections with names without zeros, of either class,
    that fits the members of the format, [GetSectionData] finds the first section of the name,
    with its size and where its contents are, in either byte order.  If there is none
    it says so for a file in the native byte order; for one in the other byte order it goes
    on past the table of sections and out of the file, because the number of sections is not
    converted. *)
Theorem elf_section_roundtrip c swap secs nm :
  image_fits c swap secs -> Forall (fun s => 0 ∉ s_name s) secs -> 0 ∉ nm -> nm <> [] ->
  Load (image c swap secs) = Some (Some (c, swap))
  /\ (forall before s rest, secs = before ++ s :: rest -> s_name s = nm -> Forall (fun s => s_name s <> nm) before ->
       exists offset,
         GetSectionData (layout_of c) (image c swap secs) swap nm = Some (Some (offset, Z.of_nat (length (s_data s))))
         /\ take (length (s_data s)) (drop (Z.to_nat offset) (image c swap secs)) = s_data s)
  /\ (Forall (fun s => s_name s <> nm) secs ->
       GetSectionData (layout_of c) (image c swap secs) swap nm = if swap then None else Some None).
Proof.
  intros Hf Hs Hn Hne. pose proof (find_section c swap secs nm Hf Hs Hn Hne) as H. cbv zeta in H.
  split; [apply load_image|]. split.
  - intros before s rest E Hsn Hb.
    assert (list_find (fun s => s_name s = nm) secs = Some (length before, s)) as Hfind.
    { rewrite E, list_find_app_r by (by apply list_find_None). cbn [list_find].
      by rewrite decide_True. }
    by rewrite Hfind in H.
  - intros Ha. by rewrite (proj2 (list_find_None (fun s => s_name s = nm) secs) Ha) in H.
Qed.

(** ** Versions *)

(** A number in decimal, of at most [fuel] digits. *)
Fixpoint decimal (fuel : nat) (n : Z) : list Z :=
  match fuel with
  | O => []
  | S fuel => if n <? 10 then [48 + n] else decimal fuel (n / 10) ++ [48 + n mod 10]
  end.
Lemma digits_decimal fuel n p acc k : 0 <= n < 10 ^ Z.of_nat fuel -> (0 < fuel)%nat ->
  digits (decimal fuel n ++ p) acc k
  = digits p (acc * 10 ^ Z.of_nat (length (decimal fuel n)) + n) (k + length (decimal fuel n)).
Proof.
  assert (Hd : forall c, 0 <= c < 10 -> is_digit (48 + c) = true) by (unfold is_digit; lia).
  revert n p. induction fuel as [|fuel IH]; intros n p Hn Hf; [lia|]. cbn [decimal].
  destruct (Z.ltb_spec n 10) as [Hlt|Hge].
  - cbn [app digits length]. rewrite Hd by lia. f_equal; lia.
  - assert (Hdiv : 0 <= n / 10 < 10 ^ Z.of_nat fuel).
    { rewrite Nat2Z.inj_succ, Z.pow_succ_r in Hn by lia. zlia. }
    destruct fuel as [|fuel]; [cbn in Hdiv; zlia|].
    rewrite <- app_assoc, IH by (done || lia). cbn [app digits]. rewrite Hd by (apply Z.mod_pos_bound; lia).
    rewrite length_app, Nat2Z.inj_add, Z.pow_add_r by lia. cbn [length]. f_equal; [zlia|lia].
Qed.
Lemma decimal_digits fuel n : 0 <= n -> Forall (fun c => is_digit c = true) (decimal fuel n).
Proof.
  revert n. induction fuel as [|fuel IH]; intros n Hn; cbn; [constructor|]. unfold is_digit in *.
  destruct (Z.ltb_spec n 10); [constructor; [lia|constructor]|].
  apply Forall_app. split; [apply IH; zlia|]. constructor; [zlia|constructor].
Qed.
Lemma strtol_decimal fuel n x r : 0 <= n < 10 ^ Z.of_nat fuel -> (0 < fuel)%nat -> n < 2 ^ 63 -> is_digit x = false ->
  strtol (decimal fuel n ++ x :: r) = Some (n, length (decimal fuel n)).
Proof.
  intros Hn Hf H63 Hx. pose proof (decimal_digits fuel n ltac:(lia)) as Hd.
  pose proof (digits_decimal fuel n (x :: r) 0 0 Hn Hf) as H. cbn [digits] in H. rewrite Hx in H.
  destruct (decimal fuel n) as [|d ds] eqn:E.
  { destruct fuel as [|fuel]; [lia|]. cbn in E. destruct (n <? 10); [done|]. by destruct (decimal fuel (n / 10)). }
  apply Forall_cons in Hd as [Hd _]. unfold is_digit in Hd.
  unfold strtol. cbn [app skip_spaces]. unfold is_space.
  replace ((d =? 32) || ((9 <=? d) && (d <=? 13))) with false by lia. cbn [mbind option_bind lookup list_lookup].
  replace ((d =? 43) || (d =? 45)) with false by lia. replace (d =? 45) with false by lia.
  cbn [Nat.add drop app] in *. rewrite H. cbn [mbind option_bind length].
  rewrite bool_decide_false by done. unfold saturate. do 2 f_equal. lia.
Qed.

(** A version in the form that the drivers carry. *)
Definition version_string (major minor build : Z) : list Z :=
  decimal 5 major ++ 46 :: decimal 5 minor ++ 46 :: decimal 5 build.
Lemma parse_version_string major minor build :
  0 <= major < 2 ^ 16 -> 0 <= minor < 2 ^ 16 -> 0 <= build < 2 ^ 16 ->
  parse_version (version_string major minor build ++ [0]) = Some (major, minor, build).
Proof.
  intros H1 H2 H3. unfold version_string.
  unfold parse_version. assert (Hbig : 2 ^ 16 < 10 ^ Z.of_nat 5) by (vm_compute; reflexivity).
  rewrite <- app_assoc. cbn [app]. rewrite strtol_decimal by (done || lia). cbn [mbind option_bind].
  rewrite (cons_middle 46), (app_assoc _ [46]), drop_app_length' by (rewrite length_app; cbn; lia).
  rewrite <- app_assoc. cbn [app]. rewrite strtol_decimal by (done || lia). cbn [mbind option_bind].
  rewrite (cons_middle 46), (app_assoc _ [46]), drop_app_length' by (rewrite length_app; cbn; lia).
  rewrite strtol_decimal by (done || lia). cbn [mbind option_bind]. by rewrite !u16_small.
Qed.

(** The version of the driver.  From the image of a kernel module, of either class and byte
    order, whose .modinfo section has the entry version=M.m.b with numbers of 16 bits as its
    first entry for the parameter, [GetVersion] returns M, m and b. *)
Theorem driver_version_roundtrip c swap secs i s entries major minor build :
  image_fits c swap secs -> Forall (fun s => 0 ∉ s_name s) secs ->
  list_find (fun s => s_name s = str ".modinfo") secs = Some (i, s) ->
  s_data s = modinfo_of entries -> Forall (fun e => 0 ∉ e) entries ->
  head (omap (entry_value (str "version")) entries)
  = Some (version_string major minor build) ->
  0 <= major < 2 ^ 16 -> 0 <= minor < 2 ^ 16 -> 0 <= build < 2 ^ 16 ->
  forall kmSize, GetVersion (Some (image c swap secs)) kmSize = Some (major, minor, build).
Proof.
  intros Hf Hs Hfind Hd He Hv H1 H2 H3 kmSize. unfold GetVersion. cbn [mbind option_bind].
  assert (Hm : (0 ∉ str ".modinfo") /\ str ".modinfo" <> []) by (split; [|done]; vm_compute; set_solver).
  pose proof (find_section c swap secs (str ".modinfo") Hf Hs (proj1 Hm) (proj2 Hm)) as Hg.
  rewrite load_image. cbn [mbind option_bind]. cbv zeta in Hg. rewrite Hfind in Hg. destruct Hg as (offset & -> & Ht). cbn [mbind option_bind].
  set (p := drop (Z.to_nat offset) (image c swap secs)) in *.
  rewrite <- (take_drop (length (s_data s)) p), Ht, Hd.
  rewrite modinfo_first_entry, Hv; [|done|vm_compute; set_solver..]. cbn [mbind option_bind].
  by rewrite parse_version_string.
Qed.

(** ** Lines of modules.dep *)

(** The two characters that count as the same. *)
Definition norm (c : Z) : Z := if c =? 45 then 95 else c.
Lemma same_char c x :
  (c =? x) || (c =? 95) && (x =? 45) || (c =? 45) && (x =? 95) = bool_decide (norm x = norm c).
Proof.
  apply eq_true_iff_eq. rewrite bool_decide_eq_true. unfold norm. rewrite !orb_true_iff, !andb_true_iff, !Z.eqb_eq.
  destruct (Z.eqb_spec x 45), (Z.eqb_spec c 45); lia.
Qed.
Lemma same_name_spec name base r : 58 ∉ name -> 58 ∉ base ->
  same_name name (base ++ 58 :: r)
  = Some (bool_decide (norm <$> take (length name) base = norm <$> name /\ base !! length name = Some 46)).
Proof.
  intros Hn. revert base. induction name as [|c name IH]; intros base Hb; cbn [same_name length take].
  - destruct base as [|x base]; cbn [app]; [by rewrite bool_decide_false by naive_solver|].
    f_equal. apply eq_true_iff_eq. rewrite bool_decide_eq_true, Z.eqb_eq. cbn. naive_solver.
  - apply not_elem_of_cons in Hn as [Hc Hn]. rewrite (proj2 (Z.eqb_neq c 58)) by done.
    destruct base as [|x base]; cbn [app].
    + rewrite same_char, bool_decide_false; [by rewrite bool_decide_false by (by intros [? _])|].
      unfold norm. cbn. destruct (Z.eqb_spec c 45); lia.
    + apply not_elem_of_cons in Hb as [_ Hb]. rewrite same_char, IH by done. rewrite firstn_cons, !fmap_cons.
      change ((x :: base) !! S (length name)) with (base !! length name).
      case_bool_decide as Hx.
      * f_equal. apply bool_decide_ext. rewrite Hx. split; intros [H1 H2]; split; congruence.
      * rewrite bool_decide_false; [done|]. intros [H1 _]. congruence.
Qed.

Lemma memchr_app a c r : c ∉ a -> memchr (a ++ c :: r) c = Some (length a).
Proof.
  induction a as [|x a IH]; cbn; [by rewrite Z.eqb_refl|]. intros [Hx Ha]%not_elem_of_cons.
  by rewrite (proj2 (Z.eqb_neq x c)), IH by done.
Qed.
(** Going back from the colon to the last slash, or to the start. *)
Lemma last_slash_found a b r k : 47 ∉ b -> (k <= length b)%nat ->
  last_slash (a ++ 47 :: b ++ 58 :: r) (S (length a) + k) = if bool_decide (a = []) then 0%nat else S (length a).
Proof.
  intros Hb. set (line := a ++ 47 :: b ++ 58 :: r).
  assert (Hc : forall k, (k <= length b)%nat -> line !! (S (length a) + k)%nat <> Some 47).
  { clear k. intros k Hk. unfold line. rewrite lookup_app_r by lia.
    replace (S (length a) + k - length a)%nat with (S k) by lia.
    change ((47 :: b ++ 58 :: r) !! S k) with ((b ++ 58 :: r) !! k).
    destruct (decide (k < length b)%nat) as [Hlt|Hge].
    - rewrite lookup_app_l by done. intros H. apply Hb. by eapply list_elem_of_lookup_2.
    - rewrite lookup_app_r by lia. by replace (k - length b)%nat with 0%nat by lia. }
  induction k as [|k IH]; intros Hk; specialize (Hc _ Hk).
  - rewrite Nat.add_0_r in *. cbn [last_slash]. rewrite bool_decide_false by done.
    destruct a as [|x a]; [done|]. cbn [length last_slash].
    rewrite bool_decide_true; [by rewrite bool_decide_false|].
    unfold line. change (S (length a)) with (length (x :: a)). rewrite lookup_app_r by lia. by rewrite Nat.sub_diag.
  - replace (S (length a) + S k)%nat with (S (S (length a) + k)) in * by lia.
    cbn [last_slash]. rewrite bool_decide_false by done. apply IH. lia.
Qed.

(** A line: a path, and what the module depends on. *)
Record dep_line := MkDepLine { dl_dir : list Z; dl_base : list Z; dl_deps : list Z }.
Definition dep_bytes (l : dep_line) : list Z := dl_dir l ++ 47 :: dl_base l ++ 58 :: dl_deps l ++ [10].
Definition dep_ok (l : dep_line) : Prop :=
  (exists c d, dl_dir l = c :: d /\ c ∉ [9; 32; 35]) /\ (58 ∉ dl_dir l) /\ (58 ∉ dl_base l) /\ (47 ∉ dl_base l)
  /\ (10 ∉ dl_dir l ++ 47 :: dl_base l ++ 58 :: dl_deps l)
  /\ (0 ∉ dl_dir l ++ 47 :: dl_base l ++ 58 :: dl_deps l).
(** The name can be copied: it is absolute, or the file does not fill its last page. *)
Definition readable_line (tail : list Z) (l : dep_line) : bool :=
  bool_decide (head (dl_dir l) = Some 47) || negb (bool_decide (tail = [])).
(** The file is called like the module, up to the extension, with - and _ the same. *)
Definition is_module (name : list Z) (l : dep_line) : Prop :=
  norm <$> take (length name) (dl_base l) = norm <$> name /\ dl_base l !! length name = Some 46.
#[global] Instance is_module_dec name l : Decision (is_module name l).
Proof. unfold is_module. apply _. Defined.
Definition dep_path (modulesPath : list Z) (l : dep_line) : list Z :=
  let path := dl_dir l ++ 47 :: dl_base l in
  if bool_decide (head (dl_dir l) = Some 47) then path else modulesPath ++ 47 :: path.

Lemma name_matches_line l r tail name : dep_ok l -> 58 ∉ name ->
  name_matches (dep_bytes l ++ r) tail name = Some (bool_decide (is_module name l)).
Proof.
  intros ((x & d & Hd & Hx) & H1 & H2 & H3 & _) Hn. unfold name_matches, dep_bytes.
  rewrite !not_elem_of_cons in Hx. destruct Hx as (Hx1 & Hx2 & Hx3 & _).
  assert (Hf : forall p, first_not_blank (dl_dir l ++ p) = Some x).
  { intros p. rewrite Hd. cbn [app first_not_blank].
    by rewrite (proj2 (Z.eqb_neq x 9)), (proj2 (Z.eqb_neq x 32)). }
  replace (first_not_blank _) with (Some x) by (rewrite <- !app_assoc; symmetry; apply Hf).
  cbn [mbind option_bind]. rewrite (proj2 (Z.eqb_neq x 35)) by done.
  rewrite <- (app_assoc (dl_dir l) _ r). cbn [app]. rewrite <- (app_assoc (dl_base l) _ r). cbn [app].
  rewrite <- (app_assoc (dl_deps l) _ r).
  set (rest := dl_deps l ++ [10] ++ r).
  replace (dl_dir l ++ 47 :: dl_base l ++ 58 :: rest) with ((dl_dir l ++ 47 :: dl_base l) ++ 58 :: rest)
    by (by rewrite <- app_assoc).
  rewrite memchr_app by (by rewrite not_elem_of_app, not_elem_of_cons).
  rewrite <- app_assoc. cbn [app]. rewrite length_app. cbn [length].
  replace (length (dl_dir l) + S (length (dl_base l)))%nat with (S (length (dl_dir l)) + length (dl_base l))%nat by lia.
  rewrite last_slash_found by done. rewrite bool_decide_false by (by rewrite Hd).
  replace (drop _ _) with (dl_base l ++ 58 :: rest); [rewrite <- app_assoc; cbn [app]; by apply same_name_spec|].
  by rewrite (cons_middle 47 (dl_dir l)), (app_assoc (dl_dir l) [47]), drop_app_length' by (rewrite length_app; cbn; lia).
Qed.

Lemma nextLine_line l r : dep_ok l -> nextLine (dep_bytes l ++ r) = r.
Proof.
  intros (_ & _ & _ & _ & H & _). unfold nextLine, dep_bytes.
  set (a := dl_dir l ++ 47 :: dl_base l ++ 58 :: dl_deps l) in *.
  assert (E : (dl_dir l ++ 47 :: dl_base l ++ 58 :: dl_deps l ++ [10]) ++ r = a ++ 10 :: r).
  { unfold a. rewrite <- !app_assoc. cbn. rewrite <- !app_assoc. cbn. by rewrite <- app_assoc. }
  rewrite E, memchr_app by done. by rewrite (cons_middle 10 a), (app_assoc a [10]), drop_app_length' by (rewrite length_app; cbn; lia).
Qed.
Lemma strcspn_app a c r : c ∉ a -> 0 ∉ a -> strcspn (a ++ c :: r) c = Some (length a).
Proof.
  induction a as [|x a IH]; cbn; [by rewrite Z.eqb_refl|].
  intros [Hx Ha]%not_elem_of_cons [H0 Ha0]%not_elem_of_cons.
  rewrite (proj2 (Z.eqb_neq x c)), (proj2 (Z.eqb_neq x 0)), IH by done. done.
Qed.
Lemma strlen_none p : 0 ∉ p -> strlen p = None.
Proof.
  induction p as [|x p IH]; [done|]. intros [Hx Hp]%not_elem_of_cons. cbn.
  by rewrite (proj2 (Z.eqb_neq x 0)), IH by done.
Qed.
Lemma strlen_zeros p k : 0 ∉ p -> k <> 0%nat -> strlen (p ++ replicate k 0) = Some (length p).
Proof. intros Hp Hk. destruct k as [|k]; [done|]. by apply strlen_app. Qed.
Lemma dep_no_zero l : dep_ok l -> 0 ∉ dep_bytes l.
Proof.
  intros (_ & _ & _ & _ & _ & H). unfold dep_bytes.
  rewrite !not_elem_of_app, !not_elem_of_cons, !not_elem_of_app, !not_elem_of_cons in *.
  destruct H as (? & ? & ? & ? & ?). split_and!; try done. rewrite not_elem_of_app. split; [done|].
  by apply (bool_decide_unpack (0 ∉ [10])).
Qed.
Lemma module_file_line modulesPath l r k : dep_ok l -> modulesPath <> [] -> 0 ∉ r ->
  module_file modulesPath (dep_bytes l ++ r) (replicate k 0)
  = if readable_line (replicate k 0) l then Some (dep_path modulesPath l) else None.
Proof.
  intros Hl Hm Hr. pose proof (dep_no_zero l Hl) as H0. destruct Hl as ((x & d & Hd & _) & H1 & H2 & _ & _ & Hz).
  set (path := dl_dir l ++ 47 :: dl_base l).
  assert (E : exists rest, dep_bytes l ++ r = path ++ 58 :: rest).
  { exists (dl_deps l ++ [10] ++ r). unfold dep_bytes, path. rewrite <- !app_assoc. cbn. rewrite <- !app_assoc. cbn. by rewrite <- app_assoc. }
  destruct E as [rest E].
  assert (Hp : (58 ∉ path) /\ (0 ∉ path)).
  { unfold path. rewrite !not_elem_of_app, !not_elem_of_cons in *. rewrite not_elem_of_app in Hz.
    destruct Hz as (? & ? & ? & _). by split_and!. }
  assert (Hh : head (dep_bytes l ++ r) = head (dl_dir l)) by (unfold dep_bytes; by rewrite Hd).
  unfold module_file, readable_line, dep_path. cbv zeta. rewrite Hh. fold path.
  assert (Hs : strcspn ((dep_bytes l ++ r) ++ replicate k 0) 58 = Some (length path)).
  { rewrite E, <- app_assoc. cbn [app]. destruct Hp; by apply strcspn_app. }
  rewrite Hs. cbn [mbind option_bind].
  assert (Ht : take (length path) ((dep_bytes l ++ r) ++ replicate k 0) = path) by (by rewrite E, <- app_assoc, take_app_length).
  destruct (decide (head (dl_dir l) = Some 47)) as [Ha|Ha].
  { rewrite !(bool_decide_true (head _ = _)) by done. cbn. by rewrite Ht. }
  rewrite !(bool_decide_false (head _ = _)) by done. cbn [orb].
  rewrite (bool_decide_false (length modulesPath = 0%nat)) by (by destruct modulesPath). cbn [negb].
  assert (Hr0 : 0 ∉ dep_bytes l ++ r) by (by rewrite not_elem_of_app).
  destruct k as [|k].
  { cbn [replicate]. rewrite app_nil_r, strlen_none by done. by rewrite bool_decide_true. }
  rewrite strlen_zeros by done. rewrite (bool_decide_false (replicate (S k) 0 = [])) by done. cbn [mbind option_bind negb].
  rewrite take_app_length, E. f_equal.
  rewrite app_assoc, take_app_ge by (rewrite length_app; cbn; lia).
  rewrite <- app_assoc. cbn [app]. do 2 f_equal.
  rewrite length_app. cbn [length]. replace (length path + length modulesPath + 1 - _)%nat with (length path) by lia.
  by rewrite take_app_length.
Qed.

(** The file of a module.  For a modules.dep file of well-formed lines, the file that is
    opened is that of the first line whose file name is the module's name followed by a dot,
    with - and _ counting as the same, relative to the directory of modules unless the
    path is absolute; if there is no such line none is opened.  But of a relative path
    everything up to a zero is copied, and no zero follows a file that fills its last page: then memory
    behind the mapping is read. *)
Theorem module_file_found lines modulesPath name fuel k :
  Forall dep_ok lines -> 58 ∉ name -> modulesPath <> [] -> (length lines <= fuel)%nat ->
  find_module fuel (lines ≫= dep_bytes) (replicate k 0) modulesPath name
  = match list_find (is_module name) lines with
    | None => Some None
    | Some (_, l) => if readable_line (replicate k 0) l then Some (Some (dep_path modulesPath l)) else None
    end.
Proof.
  intros Hl Hn Hm. revert fuel. induction Hl as [|l lines Hl Hls IH]; intros fuel Hf; [by destruct fuel|].
  destruct fuel as [|fuel]; [cbn in Hf; lia|]. rewrite bind_cons.
  destruct (dep_bytes l ++ (lines ≫= dep_bytes)) as [|x p] eqn:E.
  { destruct Hl as ((c & d & Hd & _) & _). unfold dep_bytes in E. by rewrite Hd in E. }
  cbn [find_module]. rewrite <- E, name_matches_line by done. cbn [mbind option_bind list_find].
  assert (Hz : 0 ∉ (lines ≫= dep_bytes)).
  { intros (l' & H0 & Hin)%list_elem_of_bind. rewrite Forall_forall in Hls. by apply (dep_no_zero l' (Hls l' Hin)). }
  case_decide as Hi; [rewrite bool_decide_true by done; rewrite module_file_line by done; by destruct (readable_line _ _)|].
  rewrite bool_decide_false by done. rewrite nextLine_line by done. rewrite IH by (cbn in Hf; lia).
  by destruct (list_find _ lines) as [[j l']|].
Qed.

(** ** Witnesses *)
Definition demo_entries_modinfo : list (list Z) :=
  [str "license=GPL v2"; str "version=7.6.5"; str "srcversion=A1"; str "version=9.9.9"].
Definition demo_sections : list section :=
  [MkSection (str ".text") [0x90; 0xc3]; MkSection (str ".modinfo") (modinfo_of demo_entries_modinfo);
   MkSection (str ".data") [1; 2; 3]].

Lemma modinfo_first_entry_witness :
  getModInfoParam (modinfo_of demo_entries_modinfo) (Z.of_nat (length (modinfo_of demo_entries_modinfo))) (str "version")
  = Some (Some (str "7.6.5"))
  /\ getModInfoParam (modinfo_of demo_entries_modinfo) (Z.of_nat (length (modinfo_of demo_entries_modinfo))) (str "author")
  = Some None.
Proof.
  assert (He : Forall (fun e => 0 ∉ e) demo_entries_modinfo)
    by (apply (bool_decide_unpack (Forall _ _)); vm_compute; exact I).
  pose proof (modinfo_first_entry demo_entries_modinfo [] (str "version") He) as H1.
  pose proof (modinfo_first_entry demo_entries_modinfo [] (str "author") He) as H2.
  rewrite app_nil_r in H1, H2.
  split; [rewrite H1|rewrite H2]; try (apply (bool_decide_unpack (_ ∉ _)); vm_compute; exact I); vm_compute; reflexivity.
Defined.

(** A 32-bit file in the other byte order: .modinfo is found, the search for .bss runs
    out of the file. *)
Lemma elf_section_roundtrip_witness :
  let data := image Elf32 true demo_sections in
  Load data = Some (Some (Elf32, true))
  /\ GetSectionData (layout_of Elf32) data true (str ".bss") = None
  /\ GetSectionData (layout_of Elf64) (image Elf64 false demo_sections) false (str ".bss") = Some None.
Proof.
  intros data.
  assert (Hs : Forall (fun s => 0 ∉ s_name s) demo_sections)
    by (apply (bool_decide_unpack (Forall _ _)); vm_compute; exact I).
  assert (Hn : 0 ∉ str ".bss") by (apply (bool_decide_unpack (_ ∉ _)); vm_compute; exact I).
  assert (Hf : forall c sw, image_fits c sw demo_sections) by (intros [] []; split; vm_compute; reflexivity).
  assert (Ha : Forall (fun s => s_name s <> str ".bss") demo_sections) by (repeat constructor; discriminate).
  destruct (elf_section_roundtrip Elf32 true demo_sections (str ".bss") (Hf _ _) Hs Hn) as (H1 & _ & H2); [discriminate|].
  destruct (elf_section_roundtrip Elf64 false demo_sections (str ".bss") (Hf _ _) Hs Hn) as (_ & _ & H3); [discriminate|].
  split; [exact H1|]. split; [exact (H2 Ha)|exact (H3 Ha)].
Defined.

Lemma driver_version_roundtrip_witness :
  GetVersion (Some (image Elf64 false demo_sections)) 0 = Some (7, 6, 5).
Proof.
  refine ((driver_version_roundtrip Elf64 false demo_sections 1 (MkSection (str ".modinfo") (modinfo_of demo_entries_modinfo))
    demo_entries_modinfo 7 6 5 _ _ _ _ _ _ _ _ _ 0)); try lia; try reflexivity.
  - split; vm_compute; reflexivity.
  - apply (bool_decide_unpack (Forall _ _)); vm_compute; exact I.
  - apply (bool_decide_unpack (Forall _ _)); vm_compute; exact I.
Defined.

Lemma module_file_found_witness :
  find_module 2 (dep_bytes (MkDepLine (str "kernel/net") (str "haxm-net.ko") [])
                 ++ dep_bytes (MkDepLine (str "updates/dkms") (str "haxm.ko.xz") (str " kernel/lib/crc.ko")))
    (replicate 2 0) (str "/lib/modules/6.1") (str "haxm")
  = Some (Some (str "/lib/modules/6.1/updates/dkms/haxm.ko.xz")).
Proof.
  set (l1 := MkDepLine (str "kernel/net") (str "haxm-net.ko") []).
  set (l2 := MkDepLine (str "updates/dkms") (str "haxm.ko.xz") (str " kernel/lib/crc.ko")).
  assert (Hl : Forall dep_ok [l1; l2]).
  { repeat constructor; try (apply (bool_decide_unpack (_ ∉ _)); vm_compute; exact I);
      [exists 107, (str "ernel/net")|exists 117, (str "pdates/dkms")]; split; try reflexivity;
      apply (bool_decide_unpack (_ ∉ _)); vm_compute; exact I. }
  pose proof (module_file_found [l1; l2] (str "/lib/modules/6.1") (str "haxm") 2 2 Hl) as H.
  replace (dep_bytes l1 ++ dep_bytes l2) with ([l1; l2] ≫= dep_bytes) 
    by (rewrite !bind_cons; change (mbind dep_bytes []) with (@nil Z); by rewrite app_nil_r).
  rewrite H; [vm_compute; reflexivity|apply (bool_decide_unpack (_ ∉ _)); vm_compute; exact I|discriminate|cbn; lia].
Defined.
