(* ===== verification/LinuxFiles.v ===== *)
(** * Files of Linux: the module file of the HAXM driver (sys/linux util.cpp)

    The parts of util.cpp that open and map files, over the class [Files] of the calls of Linux, and the whole of
    [HaxmPlatformSysImpl::GetVersion] of Linux composed of them and of SysLinux.v.  The theorems put the
    parts together: from the files on the disk to the version, with every descriptor
    closed and every page unmapped. *)
From Stdlib Require Import Ascii String.
From stdpp Require Import gmap list.
From S2P Require Import Prelude SysLinux.

(** A mapping is its address and its bytes. *)
Definition mapping : Type := Z * list Z.
Class Files (K : Type) := {
  uname_release : K -> list Z;
  sys_open (filename : list Z) : K -> Z * K;
  (** the result and st_size *)
  sys_fstat (fd : Z) : K -> Z * Z;
  (** [None] is MAP_FAILED *)
  sys_mmap (fd size : Z) : K -> option mapping * K;
  sys_munmap (data size : Z) : K -> K;
  sys_close (fd : Z) : K -> K
}.

Section Code.
Context {K : Type} `{Files K}.
Definition MODULE_DIR : list Z := str "/lib/modules".
Definition getModulesPath (k : K) : list Z := MODULE_DIR ++ [47] ++ uname_release k.
(** [size] is the variable of the caller, which is written when the file is open. *)
Definition readFile (filename : list Z) (size : Z) (k : K) : option mapping * Z * K :=
  let '(fd, k) := sys_open filename k in
  if fd <? 0 then (None, size, k)
  else
    let '(ret, st_size) := sys_fstat fd k in
    if ret <? 0 then (None, size, sys_close fd k)
    else
      let size := st_size in
      let '(data, k) := sys_mmap fd size k in
      (data, size, sys_close fd k).
(** [None] is an access outside of the mapped file. *)
Definition mmapKernelModuleFile (fuel : nat) (name : list Z) (uninit size : Z) (k : K) : option (option mapping * Z * K) :=
  let modulesPath := getModulesPath k in
  let moduleDepPath := modulesPath ++ [47] ++ str "modules.dep" in
  let '(data, depSize, k) := readFile moduleDepPath uninit k in
  match data with
  | None => Some (None, size, k)
  | Some (addr, data) =>
      found ← find_module fuel data (page_tail (length data)) modulesPath name;
      let k := sys_munmap addr depSize k in
      match found with
      | None => Some (None, size, k)
      | Some filename => Some (readFile filename size k)
      end
  end.
(** [HaxmPlatformSysImpl::GetVersion]: every return but the undefined ones unmaps the file.  The object that
    [Elf::Load] allocates is not freed. *)
Definition GetVersion (fuel : nat) (uninit : Z) (k : K) : option (Z * Z * Z * K) :=
  '(kmFile, kmSize, k) ← mmapKernelModuleFile fuel (str "haxm") uninit uninit k;
  version ← SysLinux.GetVersion (snd <$> kmFile) kmSize;
  Some (version, sys_munmap (from_option fst 0 kmFile) kmSize k).
End Code.

(** ** What the calls do *)

(** The addresses of the pages of a mapping, of 4096 bytes each. *)
Definition pages_of (a size : Z) : gset Z :=
  list_to_set ((fun i => a + 4096 * Z.of_nat i) <$> seq 0 (Z.to_nat ((size + 4095) / 4096))).

(** [fds] and [pages] are the open descriptors and the pages that are mapped by mmap; [disk] the contents of
    the files that the process can open and map.  mmap refuses the size 0; munmap refuses the size 0 and an address
    inside of a page, and else releases the pages of the range that it is given, and no others. *)
Class FilesLaws (K : Type) `{Files K} := {
  fds : K -> gset Z;
  pages : K -> gset Z;
  disk : list Z -> option (list Z);
  null_law k : 0 ∉ pages k;
  open_law name k : let '(fd, k') := sys_open name k in
    pages k' = pages k /\ (if fd <? 0 then fds k' = fds k else (fd ∉ fds k) /\ fds k' = {[fd]} ∪ fds k);
  mmap_law fd size k : let '(data, k') := sys_mmap fd size k in
    fds k' = fds k /\ match data with
                      | None => pages k' = pages k
                      | Some (a, _) => a <> 0 /\ a mod 4096 = 0 /\ 0 < size /\ pages k ## pages_of a size
                                       /\ pages k' = pages k ∪ pages_of a size
                      end;
  munmap_law a size k : let k' := sys_munmap a size k in
    fds k' = fds k /\ pages k' = if (0 <? size) && (a mod 4096 =? 0) then pages k ∖ pages_of a size else pages k;
  close_law fd k : fds (sys_close fd k) = (fds k ∖ {[fd]}) /\ pages (sys_close fd k) = pages k;
  disk_law name data k : disk name = Some data -> data <> [] ->
    let '(fd, k1) := sys_open name k in
    let '(ret, size) := sys_fstat fd k1 in
    0 <= fd /\ 0 <= ret /\ size = Z.of_nat (length data) /\ exists a, fst (sys_mmap fd size k1) = Some (a, data)
}.

Section Theorems.
Context {K : Type} `{FilesLaws K}.
Implicit Types k : K.

(** The mappings after an operation that may have mapped one file, of a given size. *)
Definition with_mapping (r : option mapping) (size : Z) k k' : Prop :=
  fds k' = fds k /\ match r with
                    | None => pages k' = pages k
                    | Some (a, _) => a mod 4096 = 0 /\ 0 < size /\ pages k ## pages_of a size
                                     /\ pages k' = pages k ∪ pages_of a size
                    end.
Lemma readFile_releases name size k : let '(r, size', k') := readFile name size k in with_mapping r size' k k'.
Proof.
  unfold readFile. pose proof (open_law name k) as Ho. destruct (sys_open name k) as [fd k1]. destruct Ho as [Hm Ho].
  destruct (fd <? 0); [by split|]. destruct Ho as [Hf Ho]. destruct (sys_fstat fd k1) as [ret st].
  destruct (ret <? 0).
  { destruct (close_law fd k1) as [E1 E2]. split; [|by rewrite E2]. rewrite E1, Ho. set_solver. }
  pose proof (mmap_law fd st k1) as Hmm. destruct (sys_mmap fd st k1) as [data k2]. destruct Hmm as [Hfd Hmm].
  destruct (close_law fd k2) as [E1 E2]. split; [rewrite E1, Hfd, Ho; set_solver|].
  destruct data as [[a bytes]|]; [|by rewrite E2, Hmm]. rewrite E2. rewrite Hm in Hmm. by destruct Hmm as (_ & ?).
Qed.
Lemma readFile_disk name size data k : disk name = Some data -> data <> [] ->
  exists a k', readFile name size k = (Some (a, data), Z.of_nat (length data), k').
Proof.
  intros Hd Hne. pose proof (disk_law name data k Hd Hne) as L. unfold readFile. destruct (sys_open name k) as [fd k1].
  destruct (sys_fstat fd k1) as [ret st]. destruct L as (Hfd & Hret & -> & a & E).
  rewrite !(proj2 (Z.ltb_ge _ _)) by lia. destruct (sys_mmap fd _ k1) as [r k2]. cbn in E. subst r. by eexists _, _.
Qed.
(** Unmapping what was mapped, with the size it was mapped with. *)
Lemma unmap_restores a bytes size k k' : with_mapping (Some (a, bytes)) size k k' ->
  fds (sys_munmap a size k') = fds k /\ pages (sys_munmap a size k') = pages k.
Proof.
  intros (Hf & Ha & Hs & Hd & Hm). destruct (munmap_law a size k') as [E1 E2]. split; [congruence|].
  rewrite E2, Hm, (proj2 (Z.ltb_lt 0 size)), Ha by done. cbn [andb Z.eqb]. set_solver.
Qed.
Lemma mmapKernelModuleFile_releases fuel name uninit size k r size' k' :
  mmapKernelModuleFile fuel name uninit size k = Some (r, size', k') -> with_mapping r size' k k'.
Proof.
  unfold mmapKernelModuleFile. pose proof (readFile_releases (getModulesPath k ++ [47] ++ str "modules.dep") uninit k) as Hr.
  destruct (readFile _ uninit k) as [[data depSize] k1]. destruct data as [[a bytes]|]; [|by intros [= <- <- <-]].
  destruct (find_module _ _ _ _ _) as [[filename|]|]; cbn [mbind option_bind]; [| |done].
  - intros [= E]. pose proof (readFile_releases filename size (sys_munmap a depSize k1)) as Hr'. rewrite E in Hr'.
    destruct (unmap_restores a bytes depSize k k1 Hr) as [E1 E2]. unfold with_mapping in *. rewrite E1, E2 in Hr'. exact Hr'.
  - intros [= <- <- <-]. by apply (unmap_restores a bytes depSize k k1 Hr).
Qed.
(** Without a file NULL is unmapped with a size below 4, at most the first page, which is never mapped. *)
Lemma unmap_null size k : size < 4 -> fds (sys_munmap 0 size k) = fds k /\ pages (sys_munmap 0 size k) = pages k.
Proof.
  intros Hs. destruct (munmap_law 0 size k) as [E1 E2]. split; [done|]. rewrite E2.
  destruct (Z.ltb_spec 0 size) as [Hp|Hp]; [|done]. cbn [andb Z.eqb].
  assert (E : (size + 4095) / 4096 = 1) by zlia. change (0 mod 4096 =? 0) with true. cbn iota.
  pose proof (null_law k) as Hn. unfold pages_of. rewrite E. change (Z.to_nat 1) with 1%nat. cbn. set_solver.
Qed.
Lemma image_nonempty c swap secs : image c swap secs <> [].
Proof. by destruct c, swap. Qed.

(** C40: the version of the HAXM driver, from the files of the system.  Let modules.dep consist of well-formed lines.
    If the first line for a module haxm has an absolute path, or the file does not fill its last page,
    and the file it names is the image of a kernel module, of either class and byte order,
    whose first entry for the version is M.m.b, [GetVersion] returns M, m and b.  If the path is relative and the
    size of modules.dep is a multiple of 4096, the name is copied from beyond the mapping.  Without a line for the module
    the size is the value of an uninitialised variable: below 4 the version is 0.0.0, else the NULL pointer is read.
    And whatever the files hold, whichever call fails, if it returns, the descriptors and the mapped pages are
    those of before: each mapping is released with the size it was made with. *)
Theorem haxm_version_from_files fuel uninit k :
  (forall v k', GetVersion fuel uninit k = Some (v, k') -> fds k' = fds k /\ pages k' = pages k)
  /\ (forall lines, disk (getModulesPath k ++ str "/modules.dep") = Some (lines ≫= dep_bytes) ->
       lines <> [] -> Forall dep_ok lines -> (length lines <= fuel)%nat ->
       match list_find (is_module (str "haxm")) lines with
       | None => if uninit <? 4 then exists k', GetVersion fuel uninit k = Some (0, 0, 0, k')
                 else GetVersion fuel uninit k = None
       | Some (_, l) =>
           if readable_line (page_tail (length (lines ≫= dep_bytes))) l then
             forall c swap secs i s entries major minor build,
             disk (dep_path (getModulesPath k) l) = Some (image c swap secs) ->
             image_fits c swap secs -> Forall (fun s => 0 ∉ s_name s) secs ->
             list_find (fun s => s_name s = str ".modinfo") secs = Some (i, s) ->
             s_data s = modinfo_of entries -> Forall (fun e => 0 ∉ e) entries ->
             head (omap (entry_value (str "version")) entries) = Some (version_string major minor build) ->
             0 <= major < 2 ^ 16 -> 0 <= minor < 2 ^ 16 -> 0 <= build < 2 ^ 16 ->
             exists k', GetVersion fuel uninit k = Some (major, minor, build, k')
           else GetVersion fuel uninit k = None
       end).
Proof.
  split.
  - intros v k'. unfold GetVersion.
    destruct (mmapKernelModuleFile fuel (str "haxm") uninit uninit k) as [[[r size] k1]|] eqn:E; cbn [mbind option_bind]; [|done].
    apply mmapKernelModuleFile_releases in E.
    destruct (SysLinux.GetVersion (snd <$> r) size) as [w|] eqn:Ev; cbn [mbind option_bind]; [|done]. intros [= <- <-].
    destruct r as [[a bytes]|]; [by apply (unmap_restores a bytes)|]. cbn [from_option].
    cbn in Ev. destruct (Z.ltb_spec size 4) as [Hs|]; [|done].
    destruct E as [E1 E2], (unmap_null size k1 Hs) as [-> ->]. done.
  - intros lines Hd Hne Hl Hf. unfold GetVersion, mmapKernelModuleFile.
    assert (Hb : (lines ≫= dep_bytes) <> []).
    { destruct Hl as [|l ls [(c & d & E & _) _] _]; [done|]. rewrite bind_cons. unfold dep_bytes. by rewrite E. }
    destruct (readFile_disk _ uninit _ k Hd Hb) as (a & k1 & E).
    change ([47] ++ str "modules.dep") with (str "/modules.dep"). rewrite E.
    assert (Hn : 58 ∉ str "haxm") by (apply (bool_decide_unpack (_ ∉ _)); vm_compute; exact I).
    assert (Hp : getModulesPath k <> []) by done.
    unfold page_tail. rewrite (module_file_found lines _ _ fuel _ Hl Hn Hp Hf). cbn [mbind option_bind].
    destruct (list_find _ lines) as [[j l]|].
    2: { cbn. destruct (uninit <? 4); [by eexists|done]. }
    destruct (readable_line _ l); [|done]. cbn [mbind option_bind].
    intros c swap secs i s entries major minor build Hdisk Hfit Hnames Hfind Hdata He Hv H1 H2 H3.
    destruct (readFile_disk _ uninit _ (sys_munmap a (Z.of_nat (length (lines ≫= dep_bytes))) k1) Hdisk
      (image_nonempty c swap secs)) as (a' & k2 & ->).
    cbn [mbind option_bind fmap option_fmap option_map snd].
    rewrite (driver_version_roundtrip c swap secs i s entries major minor build
      Hfit Hnames Hfind Hdata He Hv H1 H2 H3). by eexists.
Qed.
End Theorems.

(** ** A system with two files *)
Module FilesDemo.
Definition dep_lines : list dep_line :=
  [MkDepLine (str "kernel/net") (str "haxm-net.ko") []; MkDepLine (str "updates/dkms") (str "haxm.ko.xz") (str " kernel/lib/crc.ko")].
Definition dep_file : list Z := str "/lib/modules/6.1/modules.dep".
Definition module_file : list Z := str "/lib/modules/6.1/updates/dkms/haxm.ko.xz".
Definition contents (name : list Z) : option (list Z) :=
  if bool_decide (name = dep_file) then Some (dep_lines ≫= dep_bytes)
  else if bool_decide (name = module_file) then Some (image Elf64 false demo_sections) else None.
(** The open descriptors with their files, and the numbers of the mapped pages. *)
Definition state : Type := gmap N (list Z) * gset positive.
Definition page (p : positive) : Z := 4096 * Z.pos p.
(** A page above all that are mapped. *)
Definition above (s : gset positive) : positive := (foldr Pos.max 1 (elements s) + 1)%positive.
Definition new_pages (p : positive) (size : Z) : list positive :=
  (fun i => Z.to_pos (Z.pos p + Z.of_nat i)) <$> seq 0 (Z.to_nat ((size + 4095) / 4096)).
#[export] Instance files : Files state := {
  uname_release _ := str "6.1";
  sys_open name k := match contents name with
                     | None => (-1, k)
                     | Some data => let fd := fresh (dom (fst k)) in (Z.of_N fd, (<[fd := data]> (fst k), snd k))
                     end;
  sys_fstat fd k := match fst k !! Z.to_N fd with None => (-1, 0) | Some data => (0, Z.of_nat (length data)) end;
  sys_mmap fd size k := match fst k !! Z.to_N fd with
                        | None => (None, k)
                        | Some data => if size <=? 0 then (None, k)
                                       else let p := above (snd k) in
                                         (Some (page p, data), (fst k, snd k ∪ list_to_set (new_pages p size)))
                        end;
  sys_munmap a size k := (fst k, if (0 <? size) && (a mod 4096 =? 0)
                                 then filter (fun p => page p ∉ pages_of a size) (snd k) else snd k);
  sys_close fd k := (if 0 <=? fd then delete (Z.to_N fd) (fst k) else fst k, snd k)
}.
Definition mapped (k : state) : gset Z := set_map page (snd k).
Lemma above_spec s p : p ∈ s -> (p < above s)%positive.
Proof.
  intros Hp%elem_of_elements. unfold above. induction Hp as [x l|x y l _ IH]; cbn [foldr]; lia.
Qed.
Lemma new_pages_of p size : (set_map page (list_to_set (new_pages p size) : gset positive) : gset Z) = pages_of (page p) size.
Proof.
  apply set_eq. intros x. unfold pages_of, new_pages. rewrite elem_of_map, elem_of_list_to_set.
  setoid_rewrite elem_of_list_to_set. setoid_rewrite list_elem_of_fmap. unfold page. split.
  - intros (q & -> & i & -> & Hi). exists i. split; [lia|done].
  - intros (i & -> & Hi). exists (Z.to_pos (Z.pos p + Z.of_nat i)). split; [lia|]. by exists i.
Qed.
Lemma pages_above p size x : x ∈ pages_of (page p) size -> page p <= x.
Proof. unfold pages_of. rewrite elem_of_list_to_set, list_elem_of_fmap. intros (i & -> & _). lia. Qed.
#[export] Instance laws : FilesLaws state.
Proof.
  refine {| fds k := set_map Z.of_N (dom (fst k)); pages := mapped; disk := contents |}; unfold mapped.
  - intros k. rewrite elem_of_map. unfold page. intros (p & E & _). lia.
  - intros name [m a]. unfold sys_open. cbn. destruct (contents name); cbn; [|done].
    split; [done|]. rewrite (proj2 (Z.ltb_ge _ _)) by lia. split; [|rewrite dom_insert_L; set_solver].
    rewrite elem_of_map. intros (n & E%N2Z.inj & Hn). rewrite <- E in Hn. by apply is_fresh in Hn.
  - intros fd size [m a]. unfold sys_mmap. cbn -[above new_pages Z.leb]. destruct (m !! _); [|done].
    destruct (Z.leb_spec size 0) as [Hs|Hs]; cbn -[above new_pages]; [done|]. split; [done|].
    split; [unfold page; lia|]. split; [unfold page; rewrite Z.mul_comm; by apply Z.mod_mul|]. split; [done|].
    rewrite <- new_pages_of, set_map_union_L. split; [|done]. rewrite new_pages_of.
    intros x (q & -> & Hq)%elem_of_map Hx%pages_above. apply above_spec in Hq. unfold page in Hx. lia.
  - intros x size [m a]. cbn -[pages_of Z.modulo]. split; [done|]. destruct ((0 <? size) && (x mod 4096 =? 0)); [|done].
    apply set_eq. intros y. rewrite elem_of_difference, !elem_of_map. setoid_rewrite elem_of_filter. split.
    + intros (n & -> & Hn & Hne). split; [by exists n|done].
    + intros ((n & -> & Hn) & Hne). by exists n.
  - intros fd [m a]. cbn. split; [|done]. apply set_eq. intros y. rewrite elem_of_difference, !elem_of_map, elem_of_singleton.
    destruct (Z.leb_spec 0 fd) as [Hx|Hx].
    + setoid_rewrite dom_delete. setoid_rewrite elem_of_difference. setoid_rewrite elem_of_singleton. split.
      * intros (n & -> & Hn & Hne). split; [by exists n|]. intros E. apply Hne. lia.
      * intros ((n & -> & Hn) & Hne). exists n. split; [done|]. split; [done|]. intros E. apply Hne. lia.
    + split; [|by intros [? _]]. intros (n & -> & Hn). split; [by exists n|]. lia.
  - intros name data [m a] Hc Hne. unfold sys_open, sys_fstat, sys_mmap. cbn -[Z.leb above]. rewrite Hc. cbn -[Z.leb above].
    rewrite N2Z.id, lookup_insert, decide_True by done. split; [lia|]. split; [done|]. split; [done|].
    rewrite (proj2 (Z.leb_gt _ _)) by (destruct data; [done|cbn; lia]). by eexists.
Defined.
End FilesDemo.
#[local] Existing Instance FilesDemo.files.
#[local] Existing Instance FilesDemo.laws.

Lemma haxm_version_from_files_witness (k := (∅, ∅) : FilesDemo.state) :
  exists k', GetVersion 2 0 k = Some (7, 6, 5, k') /\ fds k' = fds k /\ pages k' = pages k.
Proof.
  pose proof (haxm_version_from_files 2 0 k) as [Hr Hv].
  specialize (Hv FilesDemo.dep_lines ltac:(vm_compute; reflexivity)).
  assert (Hl : Forall dep_ok FilesDemo.dep_lines).
  { repeat constructor; try (apply (bool_decide_unpack (_ ∉ _)); vm_compute; exact I);
      [exists 107, (str "ernel/net")|exists 117, (str "pdates/dkms")]; split; try reflexivity;
      apply (bool_decide_unpack (_ ∉ _)); vm_compute; exact I. }
  specialize (Hv ltac:(discriminate) Hl ltac:(cbn; lia)).
  assert (E : list_find (is_module (str "haxm")) FilesDemo.dep_lines
              = Some (1%nat, MkDepLine (str "updates/dkms") (str "haxm.ko.xz") (str " kernel/lib/crc.ko"))) by (vm_compute; reflexivity).
  rewrite E in Hv.
  assert (Hr' : readable_line (page_tail (length (FilesDemo.dep_lines ≫= dep_bytes)))
    (MkDepLine (str "updates/dkms") (str "haxm.ko.xz") (str " kernel/lib/crc.ko")) = true) by (vm_compute; reflexivity).
  rewrite Hr' in Hv.
  destruct (Hv Elf64 false demo_sections 1%nat (MkSection (str ".modinfo") (modinfo_of demo_entries_modinfo))
    demo_entries_modinfo 7 6 5) as [k' Ek']; try lia; try (vm_compute; reflexivity).
  - split; vm_compute; reflexivity.
  - apply (bool_decide_unpack (Forall _ _)); vm_compute; exact I.
  - apply (bool_decide_unpack (Forall _ _)); vm_compute; exact I.
  - exists k'. split; [exact Ek'|]. exact (Hr _ _ Ek').
Defined.
