(* ===== verification/SysVersions.v ===== *)
(** * System utilities of macOS and Windows (sys/darwin kext.cpp, sys/windows
    version_info.hpp and version_info.cpp)

    How the version of a driver is found: in what kextstat prints about the extension, and
    in the version resource of the driver's file.  A block of memory is the list of its bytes, as in
    SysLinux.v, and [None] an access that C++ does not define; wide strings are lists of their
    characters.  The functions of the systems are parameters. *)
From Stdlib Require Import Ascii String.
From stdpp Require Import list.
From S2P Require Import Prelude Bits WhpxRegs SysLinux.

(** ** kext.cpp *)

(** The index of the first [s] in the string at [p]. *)
Fixpoint strstr (p s : list Z) : option (option nat) :=
  match p with
  | [] => None
  | x :: q =>
      match strncmp_eq p s with
      | None => None
      | Some true => Some (Some O)
      | Some false => if x =? 0 then Some None
                      else match strstr q s with Some n => Some (S <$> n) | None => None end
      end
  end.

Module Darwin.
Section Kext.
(** [popen] gives what the command prints, or nothing if it cannot be started; [uninit] is the
    array [result] before it is filled, and [beyond] the memory after it. *)
Context (popen : list Z -> option (list Z)) (uninit beyond : list Z).
Definition result_size : nat := 256.
Definition command (kextName : list Z) : list Z :=
  str "/usr/sbin/kextstat | /usr/bin/grep -F " ++ kextName.
(** [fread] stores what it gets, at most [result_size] bytes, and no terminator. *)
Definition read_output (output : list Z) : list Z :=
  let got := take result_size output in got ++ drop (length got) uninit ++ beyond.
Definition getKextVersion (kextName : list Z) : option (option (list Z)) :=
  output ← popen (command kextName);
  let result := read_output output in
  p ← strstr result kextName;
  match p with
  | None => Some None
  | Some n =>
      let p := drop n result in
      p1 ← strchr p 40;
      match p1 with
      | None => Some None
      | Some n =>
          let p := drop (S n) p in
          e ← strchr p 41;
          (* without a closing parenthesis, the length is that from [p] to NULL *)
          match e with
          | None => None
          | Some verLen => Some (Some (take verLen p))
          end
      end
  end.

(** [HaxmPlatformSysImpl::GetVersion] of macOS. *)
Definition GetVersion : option (Z * Z * Z) :=
  ver ← getKextVersion (str "com.intel.kext.intelhaxm");
  match ver with
  | None => Some (0, 0, 0)
  | Some ver => parse_version (ver ++ [0])
  end.
End Kext.
End Darwin.

(** ** version_info.hpp and version_info.cpp *)
Record VS_FIXEDFILEINFO := MkFixed { dwSignature : Z; dwFileVersionMS : Z; dwFileVersionLS : Z }.
Definition VersionInfo_of (fileInfo : VS_FIXEDFILEINFO) : VersionInfo :=
  MkVersionInfo (Z.shiftr (dwFileVersionMS fileInfo) 16 &&& 0xFFFF) (dwFileVersionMS fileInfo &&& 0xFFFF)
                (Z.shiftr (dwFileVersionLS fileInfo) 16 &&& 0xFFFF) (dwFileVersionLS fileInfo &&& 0xFFFF).
Definition signature : Z := 0xfeef04bd.

Module Windows.
(** The functions of Windows.  [B] is a version resource in memory.  A handle that is NULL is 0. *)
Record version_api (B : Type) := MkVersionApi {
  (** the length and the characters stored, if the buffer is large enough *)
  GetWindowsDirectoryW : Z -> Z * list Z;
  GetFileVersionInfoSizeW : list Z -> Z;
  GetFileVersionInfoW : list Z -> Z -> option B;
  (** the block for the name "\": its contents and its size *)
  VerQueryValueW : B -> option (VS_FIXEDFILEINFO * Z);
  FindResource : Z -> Z;
  LoadResource : Z -> Z -> Z;
  LockResource : Z -> option B
}.
Arguments GetWindowsDirectoryW {B}.
Arguments GetFileVersionInfoSizeW {B}.
Arguments GetFileVersionInfoW {B}.
Arguments VerQueryValueW {B}.
Arguments FindResource {B}.
Arguments LoadResource {B}.
Arguments LockResource {B}.

Section Version.
Context {B : Type} (api : version_api B).
Definition MAX_PATH : Z := 260.
(** The loop that finds a large enough buffer: the outer [None] is out of fuel, the inner one
    the failure. *)
Fixpoint windows_path (fuel : nat) (pathSize : Z) : option (option (list Z)) :=
  match fuel with
  | O => None
  | S fuel =>
      let '(len, windowsPath) := GetWindowsDirectoryW api pathSize in
      if len =? 0 then Some None
      else if len <=? pathSize then Some (Some windowsPath)
      else windows_path fuel (pathSize + MAX_PATH)
  end.
Definition driverPath (windowsPath driverFileName : list Z) : list Z :=
  windowsPath ++ str "\System32\drivers\" ++ driverFileName.
Definition file_version (path : list Z) : option VersionInfo :=
  let verSize := GetFileVersionInfoSizeW api path in
  if negb (verSize =? 0) then
    verData ← GetFileVersionInfoW api path verSize;
    '(verInfo, size) ← VerQueryValueW api verData;
    if negb (size =? 0) then
      if dwSignature verInfo =? signature then Some (VersionInfo_of verInfo) else None
    else None
  else None.
Definition getDriverVersion (fuel : nat) (driverFileName : list Z) : option (option VersionInfo) :=
  windowsPath ← windows_path fuel MAX_PATH;
  match windowsPath with
  | None => Some None
  | Some windowsPath => Some (file_version (driverPath windowsPath driverFileName))
  end.

Definition getModuleVersion (hModule : Z) : option VersionInfo :=
  if negb (hModule =? 0) then
    let hVersion := FindResource api hModule in
    if negb (hVersion =? 0) then
      let hGlobal := LoadResource api hModule hVersion in
      if negb (hGlobal =? 0) then
        localVersionInfo ← LockResource api hGlobal;
        '(verInfo, _) ← VerQueryValueW api localVersionInfo;
        if dwSignature verInfo =? signature then Some (VersionInfo_of verInfo) else None
      else None
    else None
  else None.

(** [HaxmPlatformSysImpl::GetVersion] of Windows. *)
Definition GetVersion (fuel : nat) : option (Z * Z * Z) :=
  opt_ver ← getDriverVersion fuel (str "IntelHaxm.sys");
  match opt_ver with
  | None => Some (0, 0, 0)
  | Some ver => Some (major ver, minor ver, build ver)
  end.
End Version.
End Windows.

(** ** Theorems *)

Lemma strstr_found a s r : s <> [] -> 0 ∉ a ->
  (forall i, (i < length a)%nat -> take (length s) (drop i (a ++ s ++ r)) <> s) ->
  strstr (a ++ s ++ r) s = Some (Some (length a)).
Proof.
  intros Hs. induction a as [|x a IH]; intros H0 Hfirst.
  { cbn [app]. destruct s as [|c s]; [done|]. cbn [app strstr].
    rewrite (strncmp_eq_app (c :: s) r (c :: s) eq_refl : strncmp_eq (c :: s ++ r) (c :: s) = _).
    by rewrite bool_decide_true. }
  apply not_elem_of_cons in H0 as [Hx H0]. cbn [app strstr].
  pose proof (Hfirst O ltac:(cbn; lia)) as Hne. cbn [drop app] in Hne.
  set (L := x :: a ++ s ++ r) in *.
  assert (Hl : length (take (length s) L) = length s).
  { rewrite length_take. subst L. cbn [length]. rewrite !length_app. lia. }
  rewrite <- (take_drop (length s) L) at 1. rewrite strncmp_eq_app by done.
  rewrite bool_decide_false by done. rewrite (proj2 (Z.eqb_neq x 0)) by done.
  rewrite IH; [done|done|]. intros i Hi. apply (Hfirst (Datatypes.S i)). cbn. lia.
Qed.

Lemma version_string_chars M m b c : 0 <= M -> 0 <= m -> 0 <= b ->
  is_digit c = false -> c <> 46 -> c ∉ version_string M m b.
Proof.
  intros HM Hm Hb Hc H46 Hin. unfold version_string in Hin.
  assert (Hd : forall n, 0 <= n -> c ∉ decimal 5 n).
  { intros n Hn Hi. pose proof (decimal_digits 5 n Hn) as D.
    rewrite Forall_forall in D. by rewrite D in Hc. }
  apply elem_of_app in Hin as [Hin|Hin]; [by apply (Hd M)|].
  apply elem_of_cons in Hin as [->|Hin]; [done|].
  apply elem_of_app in Hin as [Hin|Hin]; [by apply (Hd m)|].
  apply elem_of_cons in Hin as [->|Hin]; [done|by apply (Hd b)].
Qed.

Lemma kext_line_version popen uninit beyond kn output pre mid post v :
  popen (Darwin.command kn) = Some output ->
  output = pre ++ kn ++ mid ++ 40 :: v ++ 41 :: post ->
  kn <> [] -> 0 ∉ pre -> 0 ∉ kn -> 40 ∉ kn -> 0 ∉ mid -> 40 ∉ mid -> 0 ∉ v -> 41 ∉ v ->
  (forall i, (i < length pre)%nat -> take (length kn) (drop i output) <> kn) ->
  (length (pre ++ kn ++ mid ++ 40%Z :: v ++ [41%Z]) <= Darwin.result_size)%nat ->
  Darwin.getKextVersion popen uninit beyond kn = Some (Some v).
Proof.
  intros Hp Ho Hkn Hpre Hk0 Hk40 Hm0 Hm40 Hv0 Hv41 Hfirst Hlen. unfold Darwin.getKextVersion. rewrite Hp. cbn [mbind option_bind].
  assert (E : exists r, Darwin.read_output uninit beyond output = pre ++ kn ++ mid ++ 40 :: v ++ 41 :: r
              /\ forall i, (i < length pre)%nat ->
                   take (length kn) (drop i (Darwin.read_output uninit beyond output)) = take (length kn) (drop i output)).
  { set (A := pre ++ kn ++ mid ++ 40 :: v ++ [41]) in *.
    assert (HA : output = A ++ post).
    { rewrite Ho. subst A. rewrite <- !app_assoc. do 3 f_equal. cbn [app]. f_equal. by rewrite <- app_assoc. }
    unfold Darwin.read_output. set (got := take Darwin.result_size output).
    assert (Hg : got = A ++ take (Darwin.result_size - length A) post) by (subst got; by rewrite HA, take_app, take_ge by done).
    exists (take (Darwin.result_size - length A) post ++ drop (length got) uninit ++ beyond). split.
    - rewrite Hg at 1. subst A. rewrite <- !app_assoc. do 3 f_equal. cbn [app]. f_equal. by rewrite <- app_assoc.
    - intros i Hi. rewrite HA. rewrite Hg at 1. rewrite <- app_assoc.
      assert (Hi' : (i + length kn <= length A)%nat) by (subst A; rewrite !length_app; lia).
      rewrite !drop_app_le by lia. rewrite !take_app_le by (rewrite length_drop; lia). done. }
  destruct E as (r & E & Et). set (res := Darwin.read_output uninit beyond output) in *. rewrite E.
  rewrite strstr_found; [|done|done|intros i Hi; rewrite <- E, Et by done; by apply Hfirst].
  cbn [mbind option_bind]. rewrite drop_app_length.
  rewrite (app_assoc kn), (strchr_found (kn ++ mid) [] (v ++ 41 :: r)).
  2:{ rewrite not_elem_of_app. done. }
  2:{ rewrite not_elem_of_app. done. }
  cbn [mbind option_bind]. rewrite (cons_middle 40), (app_assoc _ [40]), drop_app_length' by (rewrite !length_app; cbn; lia).
  rewrite (strchr_found v [] r) by done. cbn [mbind option_bind]. by rewrite take_app_length.
Qed.

(** The version of the HAXM extension of macOS.  If the command prints a line that names the
    extension, with the version M.m.b in the first parentheses after the name, all within the first
    256 bytes, [GetVersion] returns M, m and b, whatever the array held before.  If it prints
    nothing, because no such extension is loaded, the array is searched nevertheless: what it
    happens to hold is taken for the command's output.  If the command cannot be started, the
    NULL stream is read. *)
Theorem kext_version_found popen uninit beyond output pre mid post M m b :
  popen (Darwin.command (str "com.intel.kext.intelhaxm")) = Some output ->
  output = pre ++ str "com.intel.kext.intelhaxm" ++ mid ++ 40 :: version_string M m b ++ 41 :: post ->
  0 ∉ pre -> 0 ∉ mid -> 40 ∉ mid ->
  (forall i, (i < length pre)%nat -> take 24 (drop i output) <> str "com.intel.kext.intelhaxm") ->
  (length pre + length mid + length (version_string M m b) <= 230)%nat ->
  0 <= M < 2 ^ 16 -> 0 <= m < 2 ^ 16 -> 0 <= b < 2 ^ 16 ->
  Darwin.GetVersion popen uninit beyond = Some (M, m, b)
  /\ (length output = 256%nat ->
      Darwin.GetVersion (fun _ => Some []) output beyond = Some (M, m, b))
  /\ Darwin.GetVersion (fun _ => None) uninit beyond = None.
Proof.
  intros Hp Ho Hpre Hm0 Hm40 Hfirst Hlen HM Hm Hb.
  assert (Hc : forall c, is_digit c = false -> c <> 46 -> c ∉ version_string M m b)
    by (intros; apply version_string_chars; lia || done).
  assert (Hsome : forall p u, p (Darwin.command (str "com.intel.kext.intelhaxm")) = Some output ->
            Darwin.GetVersion p u beyond = Some (M, m, b)).
  { intros p u E. unfold Darwin.GetVersion.
    rewrite (kext_line_version p u beyond _ output pre mid post (version_string M m b)); try done.
    - cbn [mbind option_bind]. by apply parse_version_string.
    - apply (bool_decide_unpack (_ ∉ _)). vm_compute. exact I.
    - apply (bool_decide_unpack (_ ∉ _)). vm_compute. exact I.
    - by apply Hc.
    - by apply Hc.
    - rewrite !length_app. cbn [length]. rewrite length_app. change (length (str "com.intel.kext.intelhaxm")) with 24%nat.
      cbn [length]. unfold Darwin.result_size. lia. }
  split; [by apply Hsome|]. split; [|done]. intros H256. rewrite <- (Hsome (fun _ => Some output) [] eq_refl).
  unfold Darwin.GetVersion, Darwin.getKextVersion, Darwin.read_output, Darwin.result_size. cbn [mbind option_bind].
  rewrite (take_ge output) by lia. rewrite drop_nil. by rewrite take_nil.
Qed.

(** The members of a version as the resource compiler packs them. *)
Definition fixed_info (v : VersionInfo) : VS_FIXEDFILEINFO :=
  MkFixed signature (major v * 2 ^ 16 + minor v) (build v * 2 ^ 16 + revision v).
Lemma VersionInfo_of_fixed v : info_ok v -> VersionInfo_of (fixed_info v) = v.
Proof.
  intros (H1 & H2 & H3 & H4). unfold VersionInfo_of, fixed_info. cbn.
  assert (Hh : forall a b, 0 <= a < 2 ^ 16 -> 0 <= b < 2 ^ 16 ->
            Z.shiftr (a * 2 ^ 16 + b) 16 &&& 0xFFFF = a /\ (a * 2 ^ 16 + b) &&& 0xFFFF = b).
  { intros a b Ha Hb. change 0xFFFF with (Z.ones 16). rewrite !Z.land_ones, Z.shiftr_div_pow2 by lia. split; zlia. }
  destruct v as [a b c d]. cbn in *. destruct (Hh a b H1 H2) as [E1 E2], (Hh c d H3 H4) as [E3 E4]. 
  change (2 ^ 16) with 65536 in *. by rewrite E1, E2, E3, E4.
Qed.

(** What [GetWindowsDirectoryW] promises: the path without its terminator if the buffer holds
    both, and otherwise the size that is needed. *)
Definition directory_law (get : Z -> Z * list Z) (dir : list Z) : Prop :=
  dir <> [] /\ forall size, 0 <= size ->
    if Z.of_nat (length dir) <? size then get size = (Z.of_nat (length dir), dir)
    else fst (get size) = Z.of_nat (length dir) + 1.

Lemma windows_path_found {B} (api : Windows.version_api B) dir fuel size :
  directory_law (Windows.GetWindowsDirectoryW api) dir -> 0 <= size ->
  Z.of_nat (length dir) < size + Windows.MAX_PATH * Z.of_nat fuel - Windows.MAX_PATH -> (0 < fuel)%nat ->
  Windows.windows_path api fuel size = Some (Some dir).
Proof.
  intros [Hne Hlaw]. assert (Hpos : (0 < length dir)%nat) by (destruct dir; [done|cbn; lia]).
  revert size. unfold Windows.MAX_PATH. induction fuel as [|fuel IH]; intros size Hs Hf H0; [lia|].
  cbn [Windows.windows_path]. specialize (Hlaw size Hs).
  destruct (Windows.GetWindowsDirectoryW api size) as [len path]. cbn [fst] in Hlaw.
  destruct (Z.ltb_spec (Z.of_nat (length dir)) size).
  - injection Hlaw as -> ->. rewrite (proj2 (Z.eqb_neq _ 0)), (proj2 (Z.leb_le _ size)) by lia. done.
  - subst len. rewrite (proj2 (Z.eqb_neq _ 0)), (proj2 (Z.leb_gt _ size)) by lia.
    apply IH; unfold Windows.MAX_PATH; lia.
Qed.

(** The version of a driver of Windows.  The search for the directory of Windows ends for
    every length of its path and finds it; the version is that of the resource of the file
    in System32\drivers, whose four numbers come out as they were packed; for HAXM the
    last one is dropped.  Without a file, a resource or the signature there is none,
    and the version of HAXM is zero. *)
Theorem windows_driver_version {B} (api : Windows.version_api B) dir fuel v blk :
  directory_law (Windows.GetWindowsDirectoryW api) dir ->
  Z.of_nat (length dir) < Windows.MAX_PATH * Z.of_nat fuel ->
  info_ok v ->
  let path := Windows.driverPath dir (str "IntelHaxm.sys") in
  Windows.getDriverVersion api fuel (str "IntelHaxm.sys") = Some (Windows.file_version api path)
  /\ (Windows.GetFileVersionInfoSizeW api path <> 0 ->
      Windows.GetFileVersionInfoW api path (Windows.GetFileVersionInfoSizeW api path) = Some blk ->
      forall size, size <> 0 -> Windows.VerQueryValueW api blk = Some (fixed_info v, size) ->
      Windows.file_version api path = Some v
      /\ Windows.GetVersion api fuel = Some (major v, minor v, build v))
  /\ (Windows.file_version api path = None -> Windows.GetVersion api fuel = Some (0, 0, 0)).
Proof.
  intros Hdir Hfuel Hv path.
  assert (E : Windows.getDriverVersion api fuel (str "IntelHaxm.sys") = Some (Windows.file_version api path)).
  { unfold Windows.getDriverVersion. unfold Windows.MAX_PATH in *.
    rewrite (windows_path_found api dir fuel); unfold Windows.MAX_PATH; [done|done|lia..]. }
  split; [done|]. unfold Windows.GetVersion. rewrite E. cbn [mbind option_bind]. split; [|by intros ->].
  intros H1 H2 size H3 H4.
  assert (F : Windows.file_version api path = Some v).
  { unfold Windows.file_version. rewrite (proj2 (Z.eqb_neq _ 0) H1). cbn [negb]. rewrite H2. cbn [mbind option_bind].
    rewrite H4. cbn [mbind option_bind]. rewrite (proj2 (Z.eqb_neq size 0) H3). cbn [negb].
    change (dwSignature (fixed_info v) =? signature) with true. cbn iota. by rewrite VersionInfo_of_fixed. }
  by rewrite F.
Qed.
