(* ===== verification/HaxmSys.v ===== *)
(** * The system layers of HAXM (haxm_sys_vm.cpp, haxm_sys_vp.cpp and haxm_sys_platform.cpp of
    macOS and Windows, the platform of Linux, haxm_platform_impl.cpp, the requests of
    hax_interface.hpp and their codes)

    Where HaxmVp.v and HaxmVm.v have one operation per ioctl, this file has the system calls
    themselves: [open], [ioctl] and [close] of POSIX systems, [CreateFileW], [DeviceIoControl]
    and [CloseHandle] of Windows, with the names of the devices that they open.  Each system
    gives an instance of the interfaces [HAXM] and [HAXMachine], so that what is proved of the
    processor and of the machine holds on both; the theorems show that the layers as they are
    written are the ones over these instances. *)
From Stdlib Require Import Ascii String.
From stdpp Require Import list gmap.
From S2P Require Import Prelude Bits MemRegions VM Regs Status Debug Platform HaxmRegs HaxmVp HaxmVm SysLinux.

(** ** The requests of hax_interface.hpp

    The structure that each request carries, and the type of the one it fills in. *)
Record hax_tunnel_info := MkTunnelInfo { ti_va : Z; ti_io_va : Z }.
Record hax_set_memlimit := MkMemLimit { enable_memlimit : bool; memory_limit : Z }.
Record hax_alloc_ram_info := MkAllocRam { ar_va : Z; ar_size : Z }.
Record hax_ramblock_info := MkRamBlock { start_va : Z; rb_size : Z; rb_reserved : Z }.
Record hax_protect_ram_info := MkProtect { pr_start : Z; pr_size : Z; pr_flags : Z; pr_reserved : Z }.
Record hax_qemu_version := MkQemuVersion { qemu_cur : Z; qemu_least : Z }.
Inductive hax_request : Type -> Type :=
| VERSION : hax_request hax_module_version
| CREATE_VM : hax_request Z
| CAPABILITY : hax_request hax_capabilityinfo
| SET_MEMLIMIT (memlimit : hax_set_memlimit) : hax_request unit
| VCPU_CREATE (id : Z) : hax_request unit
| ALLOC_RAM (info : hax_alloc_ram_info) : hax_request unit
| SET_RAM (info : hax_ram) : hax_request unit
| ADD_RAMBLOCK (info : hax_ramblock_info) : hax_request unit
| SET_RAM2 (info : hax_ram) : hax_request unit
| PROTECT_RAM (info : hax_protect_ram_info) : hax_request unit
| NOTIFY_QEMU_VERSION (version : hax_qemu_version) : hax_request unit
| RUN : hax_request (hax_tunnel * hmem)
| SET_MSRS (data : hax_msr_data) : hax_request hax_msr_data
| GET_MSRS (data : hax_msr_data) : hax_request hax_msr_data
| SET_FPU (registers : fx_layout) : hax_request unit
| GET_FPU : hax_request fx_layout
| SETUP_TUNNEL : hax_request hax_tunnel_info
| INTERRUPT (vector : Z) : hax_request unit
| SET_REGS (registers : vcpu_state_t) : hax_request unit
| GET_REGS : hax_request vcpu_state_t
| VCPU_DEBUG (debug : hax_debug_t) : hax_request unit.

(** The device a request is sent to. *)
Inductive device := Dev_Driver | Dev_Machine | Dev_Processor.
Definition device_of {A} (r : hax_request A) : device :=
  match r with
  | VERSION | CREATE_VM | CAPABILITY | SET_MEMLIMIT _ => Dev_Driver
  | VCPU_CREATE _ | ALLOC_RAM _ | SET_RAM _ | ADD_RAMBLOCK _ | SET_RAM2 _ | PROTECT_RAM _
  | NOTIFY_QEMU_VERSION _ => Dev_Machine
  | _ => Dev_Processor
  end.

(** *** hax_interface_windows.hpp *)
Definition METHOD_BUFFERED : Z := 0.
Definition FILE_ANY_ACCESS : Z := 0.
Definition CTL_CODE (DeviceType Function Method Access : Z) : Z :=
  (DeviceType <<< 16) ||| (Access <<< 14) ||| (Function <<< 2) ||| Method.
Definition HAX_DEVICE_TYPE : Z := 0x4000.
Definition win_function {A} (r : hax_request A) : Z :=
  match r with
  | VERSION => 0x900 | CREATE_VM => 0x901 | CAPABILITY => 0x910 | SET_MEMLIMIT _ => 0x911
  | VCPU_CREATE _ => 0x902 | ALLOC_RAM _ => 0x903 | SET_RAM _ => 0x904 | ADD_RAMBLOCK _ => 0x913
  | SET_RAM2 _ => 0x914 | PROTECT_RAM _ => 0x915 | RUN => 0x906 | SET_MSRS _ => 0x907
  | GET_MSRS _ => 0x908 | SET_FPU _ => 0x909 | GET_FPU => 0x90a | SETUP_TUNNEL => 0x90b
  | INTERRUPT _ => 0x90c | SET_REGS _ => 0x90d | GET_REGS => 0x90e
  | NOTIFY_QEMU_VERSION _ => 0x910 | VCPU_DEBUG _ => 0x916
  end.
Definition win_code {A} (r : hax_request A) : Z :=
  CTL_CODE HAX_DEVICE_TYPE (win_function r) METHOD_BUFFERED FILE_ANY_ACCESS.

(** *** hax_interface_linux.hpp and hax_interface_mac.hpp

    The number of the request; the headers of the system put the direction and the size of
    the structure around it. *)
Definition linux_nr {A} (r : hax_request A) : Z :=
  match r with
  | VERSION => 0x20 | CREATE_VM => 0x21 | CAPABILITY => 0x23 | SET_MEMLIMIT _ => 0x24
  | VCPU_CREATE _ => 0x80 | ALLOC_RAM _ => 0x81 | SET_RAM _ => 0x82 | ADD_RAMBLOCK _ => 0x85
  | SET_RAM2 _ => 0x86 | PROTECT_RAM _ => 0x87 | RUN => 0xc0 | SET_MSRS _ => 0xc1
  | GET_MSRS _ => 0xc2 | SET_FPU _ => 0xc3 | GET_FPU => 0xc4 | SETUP_TUNNEL => 0xc5
  | INTERRUPT _ => 0xc6 | SET_REGS _ => 0xc7 | GET_REGS => 0xc8
  | NOTIFY_QEMU_VERSION _ => 0x84 | VCPU_DEBUG _ => 0xc9
  end.
Definition mac_nr {A} (r : hax_request A) : Z :=
  match r with
  | VERSION => 0x20 | CREATE_VM => 0x21 | CAPABILITY => 0x23 | SET_MEMLIMIT _ => 0x24
  | VCPU_CREATE _ => 0x80 | ALLOC_RAM _ => 0x81 | SET_RAM _ => 0x82 | ADD_RAMBLOCK _ => 0x85
  | SET_RAM2 _ => 0x86 | PROTECT_RAM _ => 0x87 | RUN => 0xc0 | SET_MSRS _ => 0xc1
  | GET_MSRS _ => 0xc2 | SET_FPU _ => 0xc3 | GET_FPU => 0xc4 | SETUP_TUNNEL => 0xc5
  | INTERRUPT _ => 0xc6 | SET_REGS _ => 0xc7 | GET_REGS => 0xc8
  | NOTIFY_QEMU_VERSION _ => 0x84 | VCPU_DEBUG _ => 0xc9
  end.

(** ** Names of devices

    [sprintf] with the conversions %02d and %02u of a 32-bit number, into a buffer of [size]
    characters: [None] if the string and its terminator do not fit, where [sprintf] writes
    beyond the buffer and [swprintf_s] ends the program. *)
Definition pad2 (ds : list Z) : list Z := if bool_decide (length ds < 2)%nat then 48 :: ds else ds.
Definition fmt_02u (v : Z) : list Z := pad2 (decimal 10 v).
Definition fmt_02d (v : Z) : list Z :=
  if v <? 2 ^ 31 then pad2 (decimal 10 v) else 45 :: decimal 10 (2 ^ 32 - v).
Definition print_into (size : nat) (s : list Z) : option (list Z) :=
  if bool_decide (length s < size)%nat then Some s else None.

(** ** The layer of macOS

    The functions of the processor and of the machine are those of Linux, letter by letter.  [open],
    [ioctl] and [close] are the class [Posix]: [ioctl] gets a request with its structure
    and the buffer that it may fill. *)
Class Posix (K : Type) := {
  posix_open (name : list Z) : K -> Z * K;
  ioctl {A : Type} (fd : Z) (r : hax_request A) (buf : A) : K -> Z * A * K;
  posix_close (fd : Z) : K -> K
}.

Module Darwin.
Definition vm_name (vmID : Z) : option (list Z) :=
  print_into 17 (str "/dev/hax_vm/vm" ++ fmt_02d vmID).
Definition vcpu_name (vmID vcpuID : Z) : option (list Z) :=
  print_into 21 (str "/dev/hax_vm" ++ fmt_02d vmID ++ str "/vcpu" ++ fmt_02d vcpuID).

Section Layer.
Context {K : Type} `{Posix K}.
(** A call without a buffer that is filled. *)
Definition ioctl_in (fd : Z) (r : hax_request unit) (k : K) : Z * K :=
  let '(result, _, k) := ioctl fd r tt k in (result, k).
Definition ioctl_out {A} (fd : Z) (r : hax_request A) (buf : A) (k : K) : bool * A * K :=
  let '(result, buf, k) := ioctl fd r buf k in (0 <=? result, buf, k).
Definition ioctl_ok (fd : Z) (r : hax_request unit) (k : K) : bool * K :=
  let '(result, k) := ioctl_in fd r k in (0 <=? result, k).

(** *** HaxmPlatformSysImpl

    [haxVer] and [haxCaps] are the two structures of the caller.  The results are the status,
    the descriptor and the structures. *)
Definition platform_Initialize (haxVer : hax_module_version) (haxCaps : hax_capabilityinfo) (k : K)
    : PlatformInitStatus * Z * hax_module_version * hax_capabilityinfo * K :=
  let '(fd, k) := posix_open (str "/dev/HAX") k in
  if fd <? 0 then (PI_Unavailable, fd, haxVer, haxCaps, k)
  else
    let '(result, haxVer, k) := ioctl fd VERSION haxVer k in
    if result <? 0 then (PI_Failed, -1, haxVer, haxCaps, posix_close fd k)
    else
      let '(result, haxCaps, k) := ioctl fd CAPABILITY haxCaps k in
      if result <? 0 then (PI_Failed, -1, haxVer, haxCaps, posix_close fd k)
      else (PI_OK, fd, haxVer, haxCaps, k).
(** The destructor. *)
Definition platform_destroy (fd : Z) (k : K) : Z * K :=
  if 0 <? fd then (-1, posix_close fd k) else (fd, k).
Definition SetGlobalMemoryLimit (fd : Z) (enabled : bool) (limitMB : Z) (k : K) : bool * K :=
  let '(result, k) := ioctl_in fd (SET_MEMLIMIT (MkMemLimit enabled (if enabled then limitMB else 0))) k in
  (result =? 0, k).

(** *** HaxmVirtualProcessorSysImpl

    [uninit] is the uninitialised structure on the stack.  The results are that of the
    function, the descriptor and what is stored in the two output parameters. *)
Definition vp_Initialize (uninit : hax_tunnel_info) (fdVM vmID vcpuID : Z) (k : K)
    : option (bool * Z * option (Z * Z) * K) :=
  let '(result, k) := ioctl_in fdVM (VCPU_CREATE vcpuID) k in
  if result <? 0 then Some (false, -1, None, k)
  else
    vcpuName ← vcpu_name vmID vcpuID;
    let '(fd, k) := posix_open vcpuName k in
    if fd <? 0 then Some (false, fd, None, k)
    else
      let '(result, tunnelInfo, k) := ioctl fd SETUP_TUNNEL uninit k in
      if result <? 0 then Some (false, -1, None, posix_close fd k)
      else Some (true, fd, Some (ti_va tunnelInfo, ti_io_va tunnelInfo), k).
(** [Destroy] of a processor and of a machine: the descriptor afterwards. *)
Definition Destroy (fd : Z) (k : K) : Z * K :=
  if negb (fd =? -1) then (-1, posix_close fd k) else (fd, k).
Definition Run (fd : Z) (shared : hax_tunnel * hmem) (k : K) : bool * (hax_tunnel * hmem) * K :=
  ioctl_out fd RUN shared k.
Definition InjectInterrupt (fd vector : Z) (k : K) : bool * K :=
  ioctl_ok fd (INTERRUPT (u32 vector)) k.
Definition GetRegisters (fd : Z) (registers : vcpu_state_t) (k : K) : bool * vcpu_state_t * K :=
  ioctl_out fd GET_REGS registers k.
Definition SetRegisters (fd : Z) (registers : vcpu_state_t) (k : K) : bool * K :=
  ioctl_ok fd (SET_REGS registers) k.
Definition GetFPURegisters (fd : Z) (registers : fx_layout) (k : K) : bool * fx_layout * K :=
  ioctl_out fd GET_FPU registers k.
Definition SetFPURegisters (fd : Z) (registers : fx_layout) (k : K) : bool * K :=
  ioctl_ok fd (SET_FPU registers) k.
(** The two MSR requests read and fill one structure. *)
Definition GetMSRData (fd : Z) (msrData : hax_msr_data) (k : K) : bool * hax_msr_data * K :=
  ioctl_out fd (GET_MSRS msrData) msrData k.
Definition SetMSRData (fd : Z) (msrData : hax_msr_data) (k : K) : bool * hax_msr_data * K :=
  ioctl_out fd (SET_MSRS msrData) msrData k.
Definition SetDebug (fd : Z) (debug : hax_debug_t) (k : K) : bool * K :=
  ioctl_ok fd (VCPU_DEBUG debug) k.

(** *** HaxmVirtualMachineSysImpl

    The results of [Initialize] are that of the function, the descriptor and what is stored
    in [*out_vmID], which is left alone when the request fails. *)
Definition vm_Initialize (uninit fdHAXM : Z) (k : K) : option (bool * Z * option Z * K) :=
  let '(result, vmID, k) := ioctl fdHAXM CREATE_VM uninit k in
  if result =? -1 then Some (false, -1, None, k)
  else
    vmName ← vm_name vmID;
    let '(fd, k) := posix_open vmName k in
    if fd =? -1 then Some (false, -1, Some 0xFFFFFFFF, k) else Some (true, fd, Some vmID, k).
Definition ReportQEMUVersion (fd : Z) (version : hax_qemu_version) (k : K) : bool * K :=
  ioctl_ok fd (NOTIFY_QEMU_VERSION version) k.
Definition mapped (failed : MemoryMappingStatus) (r : Z * K) : MemoryMappingStatus * K :=
  let '(result, k) := r in (if result <? 0 then failed else MM_OK, k).
Definition MapHostMemory (fd memory size : Z) (k : K) : MemoryMappingStatus * K :=
  mapped MM_AlreadyAllocated (ioctl_in fd (ALLOC_RAM (MkAllocRam memory size)) k).
Definition MapGuestMemory (fd baseAddress size flags memory : Z) (k : K) : MemoryMappingStatus * K :=
  mapped MM_Failed (ioctl_in fd (SET_RAM (MkRam baseAddress size
    (if negb (flags &&& MF_Write =? 0) then 0 else HAX_RAM_INFO_ROM) memory)) k).
Definition UnmapGuestMemory (fd baseAddress size : Z) (k : K) : bool * K :=
  ioctl_ok fd (SET_RAM (MkRam baseAddress size HAX_RAM_INFO_INVALID 0)) k.
Definition MapHostMemoryLarge (fd memory size : Z) (k : K) : MemoryMappingStatus * K :=
  mapped MM_AlreadyAllocated (ioctl_in fd (ADD_RAMBLOCK (MkRamBlock memory size 0)) k).
Definition MapGuestMemoryLarge (fd baseAddress size flags memory : Z) (k : K)
    : MemoryMappingStatus * K :=
  mapped MM_Failed (ioctl_in fd (SET_RAM2 (MkRam baseAddress size
    (if negb (flags &&& MF_Write =? 0) then 0 else HAX_RAM_INFO_ROM) memory)) k).
Definition UnmapGuestMemoryLarge (fd baseAddress size : Z) (k : K) : bool * K :=
  ioctl_ok fd (SET_RAM2 (MkRam baseAddress size HAX_RAM_INFO_INVALID 0)) k.
Definition SetGuestMemoryFlagsLarge (fd baseAddress size flags : Z) (k : K) : bool * K :=
  ioctl_ok fd (PROTECT_RAM (MkProtect baseAddress size (u32 flags) 0)) k.
End Layer.
End Darwin.

(** *** Linux

    The platform's functions are the same text; those of the machine and the processor are
    the definitions of HaxmVm.v and HaxmVp.v. *)
Module Linux.
Definition vm_name (vmID : Z) : option (list Z) :=
  print_into 17 (str "/dev/hax_vm/vm" ++ fmt_02d vmID).
Definition vcpu_name (vmID vcpuID : Z) : option (list Z) :=
  print_into 21 (str "/dev/hax_vm" ++ fmt_02d vmID ++ str "/vcpu" ++ fmt_02d vcpuID).
Definition platform_Initialize {K} `{Posix K} := Darwin.platform_Initialize (K:=K).
Definition platform_destroy {K} `{Posix K} := Darwin.platform_destroy (K:=K).
Definition SetGlobalMemoryLimit {K} `{Posix K} := Darwin.SetGlobalMemoryLimit (K:=K).
End Linux.

(** ** The layer of Windows

    [DeviceIoControl] gets a request with its structure and the output buffer, and returns a BOOL;
    an invalid handle is -1. *)
Class Win32 (K : Type) := {
  CreateFileW (name : list Z) : K -> Z * K;
  DeviceIoControl {A : Type} (handle : Z) (r : hax_request A) (buf : A) : K -> Z * A * K;
  CloseHandle (handle : Z) : K -> K
}.

Module Windows.
Definition INVALID_HANDLE_VALUE : Z := -1.
Definition TRUE : Z := 1.
(** The two tests of the result: [bResult] is a BOOLEAN, of 8 bits, and others compare with
    TRUE. *)
Definition bResult (r : Z) : bool := negb (u8 r =? 0).
Definition is_TRUE (r : Z) : bool := r =? TRUE.

Definition vm_name (vmID : Z) : option (list Z) :=
  print_into 13 (str "\\.\hax_vm" ++ fmt_02u vmID).
Definition vcpu_name (vmID vcpuID : Z) : option (list Z) :=
  print_into 20 (str "\\.\hax_vm" ++ fmt_02u vmID ++ str "_vcpu" ++ fmt_02u vcpuID).

Section Layer.
Context {K : Type} `{Win32 K}.
Definition DeviceIoControl_in (handle : Z) (r : hax_request unit) (k : K) : Z * K :=
  let '(result, _, k) := DeviceIoControl handle r tt k in (result, k).
Definition ioctl_out {A} (handle : Z) (r : hax_request A) (buf : A) (k : K) : bool * A * K :=
  let '(result, buf, k) := DeviceIoControl handle r buf k in (is_TRUE result, buf, k).
Definition ioctl_ok (handle : Z) (r : hax_request unit) (k : K) : bool * K :=
  let '(result, k) := DeviceIoControl_in handle r k in (is_TRUE result, k).

(** *** HaxmPlatformSysImpl *)
Definition platform_Initialize (haxVer : hax_module_version) (haxCaps : hax_capabilityinfo) (k : K)
    : PlatformInitStatus * Z * hax_module_version * hax_capabilityinfo * K :=
  let '(handle, k) := CreateFileW (str "\\.\HAX") k in
  if handle =? INVALID_HANDLE_VALUE then (PI_Unavailable, handle, haxVer, haxCaps, k)
  else
    let '(result, haxVer, k) := DeviceIoControl handle VERSION haxVer k in
    if negb (bResult result)
    then (PI_Failed, INVALID_HANDLE_VALUE, haxVer, haxCaps, CloseHandle handle k)
    else
      let '(result, haxCaps, k) := DeviceIoControl handle CAPABILITY haxCaps k in
      if negb (bResult result)
      then (PI_Failed, INVALID_HANDLE_VALUE, haxVer, haxCaps, CloseHandle handle k)
      else (PI_OK, handle, haxVer, haxCaps, k).
(** The destructor of the platform, and [Destroy] of a machine and of a processor. *)
Definition Destroy (handle : Z) (k : K) : Z * K :=
  if negb (handle =? INVALID_HANDLE_VALUE) then (INVALID_HANDLE_VALUE, CloseHandle handle k)
  else (handle, k).
Definition SetGlobalMemoryLimit (handle : Z) (enabled : bool) (limitMB : Z) (k : K) : bool * K :=
  ioctl_ok handle (SET_MEMLIMIT (MkMemLimit enabled (if enabled then limitMB else 0))) k.

(** *** HaxmVirtualProcessorSysImpl

    [null] tells if one of the output parameters is a null pointer. *)
Definition vp_Initialize (uninit : hax_tunnel_info) (null : bool) (hVM vmID vcpuID : Z) (k : K)
    : option (bool * Z * option (Z * Z) * K) :=
  if null then Some (false, INVALID_HANDLE_VALUE, None, k)
  else
    let '(result, k) := DeviceIoControl_in hVM (VCPU_CREATE vcpuID) k in
    if negb (bResult result) then Some (false, INVALID_HANDLE_VALUE, None, k)
    else
      vcpuName ← vcpu_name vmID vcpuID;
      let '(handle, k) := CreateFileW vcpuName k in
      if handle =? INVALID_HANDLE_VALUE then Some (false, handle, None, k)
      else
        let '(result, tunnelInfo, k) := DeviceIoControl handle SETUP_TUNNEL uninit k in
        if negb (bResult result) then Some (false, INVALID_HANDLE_VALUE, None, CloseHandle handle k)
        else Some (true, handle, Some (ti_va tunnelInfo, ti_io_va tunnelInfo), k).
Definition Run (handle : Z) (shared : hax_tunnel * hmem) (k : K) : bool * (hax_tunnel * hmem) * K :=
  ioctl_out handle RUN shared k.
Definition InjectInterrupt (handle vector : Z) (k : K) : bool * K :=
  ioctl_ok handle (INTERRUPT (u32 vector)) k.
Definition GetRegisters (handle : Z) (registers : vcpu_state_t) (k : K) : bool * vcpu_state_t * K :=
  ioctl_out handle GET_REGS registers k.
Definition SetRegisters (handle : Z) (registers : vcpu_state_t) (k : K) : bool * K :=
  ioctl_ok handle (SET_REGS registers) k.
Definition GetFPURegisters (handle : Z) (registers : fx_layout) (k : K) : bool * fx_layout * K :=
  ioctl_out handle GET_FPU registers k.
Definition SetFPURegisters (handle : Z) (registers : fx_layout) (k : K) : bool * K :=
  ioctl_ok handle (SET_FPU registers) k.
Definition GetMSRData (handle : Z) (msrData : hax_msr_data) (k : K) : bool * hax_msr_data * K :=
  ioctl_out handle (GET_MSRS msrData) msrData k.
Definition SetMSRData (handle : Z) (msrData : hax_msr_data) (k : K) : bool * hax_msr_data * K :=
  ioctl_out handle (SET_MSRS msrData) msrData k.
Definition SetDebug (handle : Z) (debug : hax_debug_t) (k : K) : bool * K :=
  ioctl_ok handle (VCPU_DEBUG debug) k.

(** *** HaxmVirtualMachineSysImpl *)
Definition vm_Initialize (uninit : Z) (null : bool) (hHAXM : Z) (k : K)
    : option (bool * Z * option Z * K) :=
  if null then Some (false, INVALID_HANDLE_VALUE, None, k)
  else
    let '(result, vmID, k) := DeviceIoControl hHAXM CREATE_VM uninit k in
    if negb (bResult result) then Some (false, INVALID_HANDLE_VALUE, None, k)
    else
      vmName ← vm_name vmID;
      let '(handle, k) := CreateFileW vmName k in
      if handle =? INVALID_HANDLE_VALUE then Some (false, handle, Some 0xFFFFFFFF, k)
      else Some (true, handle, Some vmID, k).
Definition ReportQEMUVersion (handle : Z) (version : hax_qemu_version) (k : K) : bool * K :=
  ioctl_ok handle (NOTIFY_QEMU_VERSION version) k.
Definition mapped (failed : MemoryMappingStatus) (r : Z * K) : MemoryMappingStatus * K :=
  let '(result, k) := r in (if negb (bResult result) then failed else MM_OK, k).
Definition MapHostMemory (handle memory size : Z) (k : K) : MemoryMappingStatus * K :=
  mapped MM_AlreadyAllocated (DeviceIoControl_in handle (ALLOC_RAM (MkAllocRam memory size)) k).
Definition MapGuestMemory (handle baseAddress size flags memory : Z) (k : K)
    : MemoryMappingStatus * K :=
  mapped MM_Failed (DeviceIoControl_in handle (SET_RAM (MkRam baseAddress size
    (if negb (flags &&& MF_Write =? 0) then 0 else HAX_RAM_INFO_ROM) memory)) k).
Definition UnmapGuestMemory (handle baseAddress size : Z) (k : K) : bool * K :=
  ioctl_ok handle (SET_RAM (MkRam baseAddress size HAX_RAM_INFO_INVALID 0)) k.
Definition MapHostMemoryLarge (handle memory size : Z) (k : K) : MemoryMappingStatus * K :=
  mapped MM_AlreadyAllocated (DeviceIoControl_in handle (ADD_RAMBLOCK (MkRamBlock memory size 0)) k).
Definition MapGuestMemoryLarge (handle baseAddress size flags memory : Z) (k : K)
    : MemoryMappingStatus * K :=
  mapped MM_Failed (DeviceIoControl_in handle (SET_RAM2 (MkRam baseAddress size
    (if negb (flags &&& MF_Write =? 0) then 0 else HAX_RAM_INFO_ROM) memory)) k).
Definition UnmapGuestMemoryLarge (handle baseAddress size : Z) (k : K) : bool * K :=
  ioctl_ok handle (SET_RAM2 (MkRam baseAddress size HAX_RAM_INFO_INVALID 0)) k.
Definition SetGuestMemoryFlagsLarge (handle baseAddress size flags : Z) (k : K) : bool * K :=
  ioctl_ok handle (PROTECT_RAM (MkProtect baseAddress size (u32 flags) 0)) k.
End Layer.
End Windows.

(** ** Facts on the names *)

Lemma length_decimal fuel m n : (0 < m <= fuel)%nat -> 0 <= n < 10 ^ Z.of_nat fuel ->
  (length (decimal fuel n) <= m)%nat <-> n < 10 ^ Z.of_nat m.
Proof.
  revert m n. induction fuel as [|fuel IH]; intros m n Hm Hn; [lia|]. cbn [decimal].
  assert (Hp : forall k, 0 < 10 ^ Z.of_nat k) by (intros; lia).
  destruct (Z.ltb_spec n 10) as [Hlt|Hge]; cbn [length].
  - split; [|lia]. intros _. destruct m as [|m]; [lia|].
    rewrite Nat2Z.inj_succ, Z.pow_succ_r by lia. specialize (Hp m). nia.
  - rewrite length_app. cbn [length]. rewrite Nat2Z.inj_succ, Z.pow_succ_r in Hn by lia.
    destruct fuel as [|fuel]; [cbn in Hn; lia|].
    destruct m as [|[|m]]; [lia| |].
    + split; [|cbn; lia]. intros Hl. destruct (decimal (S fuel) (n / 10)) as [|d ds] eqn:E; [|cbn in Hl; lia].
      exfalso. cbn in E. destruct (n / 10 <? 10); [done|]. by destruct (decimal fuel (n / 10 / 10)).
    + rewrite (Nat2Z.inj_succ (S m)), Z.pow_succ_r by lia.
      assert (Hd : 0 <= n / 10 < 10 ^ Z.of_nat (S fuel)) by zlia.
      specialize (IH (S m) (n / 10) ltac:(lia) Hd). rewrite <- (Nat.add_1_r (S m)), <- Nat.add_le_mono_r, IH. zlia.
Qed.
Lemma decimal_nonempty fuel n : (0 < fuel)%nat -> (0 < length (decimal fuel n))%nat.
Proof.
  destruct fuel as [|fuel]; [lia|]. intros _. cbn. destruct (n <? 10); cbn; [lia|].
  rewrite length_app. cbn. lia.
Qed.
Lemma length_pad2 ds : (0 < length ds)%nat -> length (pad2 ds) = Nat.max 2 (length ds).
Proof. intros H. unfold pad2. destruct (bool_decide_reflect (length ds < 2)%nat); cbn; lia. Qed.
Lemma fits_decimal k n : 0 <= n < 2 ^ 32 -> (0 < k <= 10)%nat ->
  (length (decimal 10 n) <= k)%nat <-> n < 10 ^ Z.of_nat k.
Proof. intros Hn Hk. apply length_decimal; [lia|]. change (10 ^ Z.of_nat 10) with 10000000000. lia. Qed.
(** The numbers that take two characters. *)
Lemma length_02u v : 0 <= v < 2 ^ 32 -> (2 <= length (fmt_02u v))%nat /\ ((length (fmt_02u v) <= 2)%nat <-> v < 100).
Proof.
  intros Hv. unfold fmt_02u. rewrite length_pad2 by (apply decimal_nonempty; lia).
  pose proof (fits_decimal 2 v Hv ltac:(lia)) as H. change (10 ^ Z.of_nat 2) with 100 in H. lia.
Qed.
Lemma length_02d v : 0 <= v < 2 ^ 32 ->
  (2 <= length (fmt_02d v))%nat /\ ((length (fmt_02d v) <= 2)%nat <-> v < 100 \/ 2 ^ 32 - 10 < v).
Proof.
  intros Hv. unfold fmt_02d. destruct (Z.ltb_spec v (2 ^ 31)).
  - pose proof (length_02u v Hv) as L. unfold fmt_02u in L. lia.
  - pose proof (decimal_nonempty 10 (2 ^ 32 - v) ltac:(lia)).
    pose proof (fits_decimal 1 (2 ^ 32 - v) ltac:(lia) ltac:(lia)) as L. change (10 ^ Z.of_nat 1) with 10 in L.
    cbn [length]. lia.
Qed.

(** What [digits] reads of a number, up to a character that is none. *)
Lemma digits_02u v x r : 0 <= v < 2 ^ 32 -> is_digit x = false ->
  digits (fmt_02u v ++ x :: r) 0 0 = Some (v, length (fmt_02u v)).
Proof.
  intros Hv Hx. unfold fmt_02u, pad2.
  assert (H10 : 0 <= v < 10 ^ Z.of_nat 10) by (change (10 ^ Z.of_nat 10) with 10000000000; lia).
  destruct (bool_decide _); cbn [app digits length]; [change (is_digit 48) with true; cbn iota|];
    rewrite digits_decimal by (done || lia); cbn [digits]; rewrite Hx; do 2 f_equal; lia.
Qed.
Lemma fmt_02u_inj v w x r r' : 0 <= v < 2 ^ 32 -> 0 <= w < 2 ^ 32 -> is_digit x = false ->
  fmt_02u v ++ x :: r = fmt_02u w ++ x :: r' -> v = w /\ r = r'.
Proof.
  intros Hv Hw Hx E. pose proof (digits_02u v x r Hv Hx) as H1. rewrite E, digits_02u in H1 by done.
  injection H1 as -> _. split; [done|]. apply app_inv_head in E. by injection E.
Qed.
Lemma fmt_02u_head v : exists c l, fmt_02u v = c :: l /\ (0 <= v -> is_digit c = true).
Proof.
  unfold fmt_02u, pad2. pose proof (decimal_nonempty 10 v ltac:(lia)) as Hl. case_bool_decide; [by exists 48, (decimal 10 v)|].
  destruct (decimal 10 v) as [|c l] eqn:E; [cbn in Hl; lia|]. exists c, l. split; [done|].
  intros H0. pose proof (decimal_digits 10 v H0) as D. rewrite E in D. by apply Forall_cons in D as [? _].
Qed.
Lemma fmt_02d_inj v w x r r' : 0 <= v < 2 ^ 32 -> 0 <= w < 2 ^ 32 -> is_digit x = false ->
  fmt_02d v ++ x :: r = fmt_02d w ++ x :: r' -> v = w /\ r = r'.
Proof.
  assert (H10 : 2 ^ 32 < 10 ^ Z.of_nat 10) by reflexivity.
  intros Hv Hw Hx. unfold fmt_02d.
  destruct (Z.ltb_spec v (2 ^ 31)), (Z.ltb_spec w (2 ^ 31)).
  - by apply fmt_02u_inj.
  - destruct (fmt_02u_head v) as (c & l & E & Hc). unfold fmt_02u in E. rewrite E. intros [= -> _]. by specialize (Hc ltac:(lia)).
  - destruct (fmt_02u_head w) as (c & l & E & Hc). unfold fmt_02u in E. rewrite E. intros [= <- _]. by specialize (Hc ltac:(lia)).
  - cbn [app]. intros [_ E]%(inj2 cons). assert (Hd : forall u t, 2 ^ 31 <= u < 2 ^ 32 -> digits (decimal 10 (2 ^ 32 - u) ++ x :: t) 0 0
                        = Some (2 ^ 32 - u, length (decimal 10 (2 ^ 32 - u)))).
    { intros u t Hu. rewrite digits_decimal by lia. cbn [digits]. rewrite Hx. do 2 f_equal; lia. }
    pose proof (Hd v r ltac:(lia)) as H1. rewrite E, Hd in H1 by lia. injection H1 as H1 _.
    assert (v = w) as -> by lia. split; [done|]. apply app_inv_head in E. by apply (inj2 cons) in E as [_ ?].
Qed.
(** What names must do: they exist for the identifiers [fits] only, and tell machines and
    processors apart. *)
Definition u32_ok (v : Z) : Prop := 0 <= v < 2 ^ 32.
Record names_spec (fits : Z -> Prop) (vm_name : Z -> option (list Z))
    (vcpu_name : Z -> Z -> option (list Z)) : Prop := {
  vm_fits v : u32_ok v -> is_Some (vm_name v) <-> fits v;
  vcpu_fits v i : u32_ok v -> u32_ok i -> is_Some (vcpu_name v i) <-> fits v /\ fits i;
  vm_inj v v' n : u32_ok v -> u32_ok v' -> vm_name v = Some n -> vm_name v' = Some n -> v = v';
  vcpu_inj v i v' i' n : u32_ok v -> u32_ok i -> u32_ok v' -> u32_ok i' ->
    vcpu_name v i = Some n -> vcpu_name v' i' = Some n -> v = v' /\ i = i';
  vm_not_vcpu v v' i n : u32_ok v -> u32_ok v' -> u32_ok i ->
    vm_name v = Some n -> vcpu_name v' i <> Some n
}.

Lemma print_into_Some n s t : print_into n s = Some t <-> s = t /\ (length s < n)%nat.
Proof. unfold print_into. case_bool_decide; naive_solver. Qed.
Lemma print_into_is_Some n s : is_Some (print_into n s) <-> (length s < n)%nat.
Proof. unfold print_into. case_bool_decide; [by split; [|eauto]|]. split; [by intros [? [=]]|done]. Qed.

Section Names.
(** A format: the prefixes, what separates the two numbers, and how numbers are printed. *)
Context (fmt : Z -> list Z) (fits : Z -> Prop) (pvm pvcpu sep : list Z) (nvm nvcpu : nat) (x : Z) (sep' : list Z).
Context (Hlen : forall v, u32_ok v -> (2 <= length (fmt v))%nat /\ ((length (fmt v) <= 2)%nat <-> fits v)).
Context (Hinj : forall v w x r r', u32_ok v -> u32_ok w -> is_digit x = false ->
           fmt v ++ x :: r = fmt w ++ x :: r' -> v = w /\ r = r').
Context (Hsep : sep = x :: sep') (Hx : is_digit x = false).
Context (Hvm : nvm = (length pvm + 3)%nat) (Hvcpu : nvcpu = (length pvcpu + length sep + 5)%nat) (Hn : (nvm < nvcpu)%nat).

Lemma names_of_format :
  names_spec fits (fun v => print_into nvm (pvm ++ fmt v))
    (fun v i => print_into nvcpu (pvcpu ++ fmt v ++ sep ++ fmt i)).
Proof.
  split.
  - intros v Hv. destruct (Hlen v Hv) as [? H0]. rewrite print_into_is_Some, length_app, <- H0. subst nvm. lia.
  - intros v i Hv Hi. destruct (Hlen v Hv) as [? H0], (Hlen i Hi) as [? H2].
    rewrite print_into_is_Some, !length_app, <- H0, <- H2. subst nvcpu. lia.
  - intros v v' n Hv Hv' [<- _]%print_into_Some [E _]%print_into_Some. apply app_inv_head in E.
    apply (f_equal (fun l => l ++ [0])) in E. by apply Hinj in E as [-> _].
  - intros v i v' i' n Hv Hi Hv' Hi' [<- _]%print_into_Some [E _]%print_into_Some. apply app_inv_head in E.
    rewrite Hsep in E. cbn [app] in E. apply Hinj in E as [-> E]; [|done..]. apply app_inv_head in E.
    apply (f_equal (fun l => l ++ [0])) in E. by apply Hinj in E as [-> _].
  - intros v v' i n Hv Hv' Hi [<- L]%print_into_Some [E _]%print_into_Some.
    apply (f_equal length) in E. rewrite !length_app in E. rewrite length_app in L.
    destruct (Hlen v Hv), (Hlen v' Hv'), (Hlen i Hi). lia.
Qed.
End Names.

(** The names of the devices.  On every system a machine's and a processor's name exist,
    which means that the buffer on the stack holds them with their terminator, for numbers of two
    characters only: below 100, and on Linux and macOS, which print them as signed, from -9 up.
    With any other number [sprintf] writes beyond the buffer and [swprintf_s] ends the program.
    Names that exist differ whenever a number differs, and no machine has the name of a
    processor. *)
Theorem haxm_device_names :
  let two v := v < 100 \/ 2 ^ 32 - 10 < v in
  names_spec two Linux.vm_name Linux.vcpu_name
  /\ names_spec two Darwin.vm_name Darwin.vcpu_name
  /\ names_spec (fun v => v < 100) Windows.vm_name Windows.vcpu_name.
Proof.
  intros two. assert (Hd : names_spec two Linux.vm_name Linux.vcpu_name).
  { apply (names_of_format fmt_02d two (str "/dev/hax_vm/vm") (str "/dev/hax_vm") (str "/vcpu") 17 21 47 (str "vcpu")); try done.
    - intros v Hv. by apply length_02d.
    - intros v w x r r' ? ? ?. by apply fmt_02d_inj.
    - cbn; lia. }
  split; [done|]. split; [exact Hd|].
  apply (names_of_format fmt_02u _ (str "\\.\hax_vm") (str "\\.\hax_vm") (str "_vcpu") 13 20 95 (str "vcpu")); try done.
  - intros v Hv. by apply length_02u.
  - intros v w x r r' ? ? ?. by apply fmt_02u_inj.
  - cbn; lia.
Qed.
(** ** The layers as implementations of one interface

    The functions of a system layer that the processor and the machine call. *)
Record haxm_layer (K : Type) := MkLayer {
  L_Run : Z -> hax_tunnel * hmem -> K -> bool * (hax_tunnel * hmem) * K;
  L_InjectInterrupt : Z -> Z -> K -> bool * K;
  L_GetRegisters : Z -> vcpu_state_t -> K -> bool * vcpu_state_t * K;
  L_SetRegisters : Z -> vcpu_state_t -> K -> bool * K;
  L_GetFPURegisters : Z -> fx_layout -> K -> bool * fx_layout * K;
  L_SetFPURegisters : Z -> fx_layout -> K -> bool * K;
  L_GetMSRData : Z -> hax_msr_data -> K -> bool * hax_msr_data * K;
  (* the callers do not use the structure afterwards *)
  L_SetMSRData : Z -> hax_msr_data -> K -> bool * K;
  L_SetDebug : Z -> hax_debug_t -> K -> bool * K;
  L_Destroy : Z -> K -> K;
  L_ReportQEMUVersion : Z -> Z -> Z -> K -> bool * K;
  L_MapHostMemory : Z -> Z -> Z -> K -> MemoryMappingStatus * K;
  L_MapGuestMemory : Z -> Z -> Z -> Z -> Z -> K -> MemoryMappingStatus * K;
  L_UnmapGuestMemory : Z -> Z -> Z -> K -> bool * K;
  L_MapHostMemoryLarge : Z -> Z -> Z -> K -> MemoryMappingStatus * K;
  L_MapGuestMemoryLarge : Z -> Z -> Z -> Z -> Z -> K -> MemoryMappingStatus * K;
  L_UnmapGuestMemoryLarge : Z -> Z -> Z -> K -> bool * K;
  L_SetGuestMemoryFlagsLarge : Z -> Z -> Z -> Z -> K -> bool * K;
  (* the descriptor and the tunnels of a processor; the descriptor and the number of a machine *)
  L_vp_Initialize : Z -> Z -> Z -> K -> option (Z * option (Z * Z) * K);
  L_vm_Initialize : Z -> K -> option (option (Z * Z) * K)
}.
Arguments MkLayer {K}.
Definition drop_struct {A K} (r : bool * A * K) : bool * K := let '(ok, _, k) := r in (ok, k).
Definition vp_result {K} (r : bool * Z * option (Z * Z) * K) : Z * option (Z * Z) * K :=
  let '(ok, fd, tunnels, k) := r in (fd, if ok then tunnels else None, k).
Definition vm_result {K} (r : bool * Z * option Z * K) : option (Z * Z) * K :=
  let '(ok, fd, vmID, k) := r in (if ok then (fun v => (fd, v)) <$> vmID else None, k).

Definition darwin_layer {K} `{Posix K} (uninit : hax_tunnel_info) (uninit_id : Z) : haxm_layer K := {|
  L_Run := Darwin.Run; L_InjectInterrupt := Darwin.InjectInterrupt;
  L_GetRegisters := Darwin.GetRegisters; L_SetRegisters := Darwin.SetRegisters;
  L_GetFPURegisters := Darwin.GetFPURegisters; L_SetFPURegisters := Darwin.SetFPURegisters;
  L_GetMSRData := Darwin.GetMSRData;
  L_SetMSRData fd d k := drop_struct (Darwin.SetMSRData fd d k);
  L_SetDebug := Darwin.SetDebug; L_Destroy fd k := snd (Darwin.Destroy fd k);
  L_ReportQEMUVersion fd cur least := Darwin.ReportQEMUVersion fd (MkQemuVersion cur least);
  L_MapHostMemory := Darwin.MapHostMemory; L_MapGuestMemory := Darwin.MapGuestMemory;
  L_UnmapGuestMemory := Darwin.UnmapGuestMemory;
  L_MapHostMemoryLarge := Darwin.MapHostMemoryLarge;
  L_MapGuestMemoryLarge := Darwin.MapGuestMemoryLarge;
  L_UnmapGuestMemoryLarge := Darwin.UnmapGuestMemoryLarge;
  L_SetGuestMemoryFlagsLarge := Darwin.SetGuestMemoryFlagsLarge;
  L_vp_Initialize fdVM vmID vcpuID k := vp_result <$> Darwin.vp_Initialize uninit fdVM vmID vcpuID k;
  L_vm_Initialize fdHAXM k := vm_result <$> Darwin.vm_Initialize uninit_id fdHAXM k
|}.
Definition windows_layer {K} `{Win32 K} (uninit : hax_tunnel_info) (uninit_id : Z) : haxm_layer K := {|
  L_Run := Windows.Run; L_InjectInterrupt := Windows.InjectInterrupt;
  L_GetRegisters := Windows.GetRegisters; L_SetRegisters := Windows.SetRegisters;
  L_GetFPURegisters := Windows.GetFPURegisters; L_SetFPURegisters := Windows.SetFPURegisters;
  L_GetMSRData := Windows.GetMSRData;
  L_SetMSRData fd d k := drop_struct (Windows.SetMSRData fd d k);
  L_SetDebug := Windows.SetDebug; L_Destroy fd k := snd (Windows.Destroy fd k);
  L_ReportQEMUVersion fd cur least := Windows.ReportQEMUVersion fd (MkQemuVersion cur least);
  L_MapHostMemory := Windows.MapHostMemory; L_MapGuestMemory := Windows.MapGuestMemory;
  L_UnmapGuestMemory := Windows.UnmapGuestMemory;
  L_MapHostMemoryLarge := Windows.MapHostMemoryLarge;
  L_MapGuestMemoryLarge := Windows.MapGuestMemoryLarge;
  L_UnmapGuestMemoryLarge := Windows.UnmapGuestMemoryLarge;
  L_SetGuestMemoryFlagsLarge := Windows.SetGuestMemoryFlagsLarge;
  L_vp_Initialize hVM vmID vcpuID k := vp_result <$> Windows.vp_Initialize uninit false hVM vmID vcpuID k;
  L_vm_Initialize hHAXM k := vm_result <$> Windows.vm_Initialize uninit_id false hHAXM k
|}.
(** The layer that HaxmVp.v and HaxmVm.v use, over any implementation of their interfaces. *)
Definition interface_layer {K} `{HAXM K} `{HAXMachine K} : haxm_layer K := {|
  L_Run := sys_Run; L_InjectInterrupt := sys_InjectInterrupt;
  L_GetRegisters := sys_GetRegisters; L_SetRegisters := sys_SetRegisters;
  L_GetFPURegisters := sys_GetFPURegisters; L_SetFPURegisters := sys_SetFPURegisters;
  L_GetMSRData := sys_GetMSRData; L_SetMSRData := sys_SetMSRData;
  L_SetDebug := sys_SetDebug; L_Destroy := sys_Destroy;
  L_ReportQEMUVersion := sys_ReportQEMUVersion;
  L_MapHostMemory := sys_MapHostMemory; L_MapGuestMemory := sys_MapGuestMemory;
  L_UnmapGuestMemory := sys_UnmapGuestMemory;
  L_MapHostMemoryLarge := sys_MapHostMemoryLarge;
  L_MapGuestMemoryLarge := sys_MapGuestMemoryLarge;
  L_UnmapGuestMemoryLarge := sys_UnmapGuestMemoryLarge;
  L_SetGuestMemoryFlagsLarge := sys_SetGuestMemoryFlagsLarge;
  L_vp_Initialize fdVM vmID vcpuID k := Some (sys_Initialize fdVM vmID vcpuID k);
  L_vm_Initialize fdHAXM k := Some (sys_vm_Initialize fdHAXM k)
|}.

(** *** The interfaces over the system calls

    [vm_name] and [vcpu_name] are the system's; a name that does not fit counts as one that
    does not exist. *)
Section Instances.
Context {K : Type} (uninit : hax_tunnel_info) (uninit_id : Z).
Context (vm_name : Z -> option (list Z)) (vcpu_name : Z -> Z -> option (list Z)).
Definition tunnels (i : hax_tunnel_info) : Z * Z := (ti_va i, ti_io_va i).

Definition posix_HAXM `{Posix K} : HAXM K := {|
  HAX_VCPU_IOCTL_RUN fd t := ioctl fd RUN t;
  HAX_VCPU_IOCTL_INTERRUPT fd v := Darwin.ioctl_in fd (INTERRUPT v);
  HAX_VCPU_GET_REGS fd r := ioctl fd GET_REGS r;
  HAX_VCPU_SET_REGS fd r := Darwin.ioctl_in fd (SET_REGS r);
  HAX_VCPU_IOCTL_GET_FPU fd r := ioctl fd GET_FPU r;
  HAX_VCPU_IOCTL_SET_FPU fd r := Darwin.ioctl_in fd (SET_FPU r);
  HAX_VCPU_IOCTL_GET_MSRS fd d := ioctl fd (GET_MSRS d) d;
  HAX_VCPU_IOCTL_SET_MSRS fd d k := let '(result, _, k) := ioctl fd (SET_MSRS d) d k in (result, k);
  HAX_IOCTL_VCPU_DEBUG fd d := Darwin.ioctl_in fd (VCPU_DEBUG d);
  HAX_VM_IOCTL_VCPU_CREATE fd id := Darwin.ioctl_in fd (VCPU_CREATE id);
  open_vcpu vm id k := match vcpu_name vm id with Some n => posix_open n k | None => (-1, k) end;
  HAX_VCPU_IOCTL_SETUP_TUNNEL fd k :=
    let '(result, info, k) := ioctl fd SETUP_TUNNEL uninit k in (result, tunnels info, k);
  close := posix_close
|}.
Definition posix_HAXMachine `{Posix K} : HAXMachine K := {|
  HAX_IOCTL_CREATE_VM fd := ioctl fd CREATE_VM uninit_id;
  open_vm vm k := match vm_name vm with Some n => posix_open n k | None => (-1, k) end;
  HAX_VM_IOCTL_NOTIFY_QEMU_VERSION fd cur least :=
    Darwin.ioctl_in fd (NOTIFY_QEMU_VERSION (MkQemuVersion cur least));
  HAX_VM_IOCTL_ALLOC_RAM fd va size := Darwin.ioctl_in fd (ALLOC_RAM (MkAllocRam va size));
  HAX_VM_IOCTL_ADD_RAMBLOCK fd va size := Darwin.ioctl_in fd (ADD_RAMBLOCK (MkRamBlock va size 0));
  HAX_VM_IOCTL_SET_RAM fd r := Darwin.ioctl_in fd (SET_RAM r);
  HAX_VM_IOCTL_SET_RAM2 fd r := Darwin.ioctl_in fd (SET_RAM2 r);
  HAX_VM_IOCTL_PROTECT_RAM fd pa size flags :=
    Darwin.ioctl_in fd (PROTECT_RAM (MkProtect pa size flags 0))
|}.

(** A BOOL as the result of an ioctl, according to the test that the code makes of it. *)
Definition result_of {A} (test : Z -> bool) (r : Z * A * K) : Z * A * K :=
  let '(result, buf, k) := r in (if test result then 0 else -1, buf, k).
Definition result_in (test : Z -> bool) (r : Z * K) : Z * K :=
  let '(result, k) := r in (if test result then 0 else -1, k).
Abbreviation by_TRUE := (result_in Windows.is_TRUE).
Abbreviation by_BOOLEAN := (result_in Windows.bResult).
Definition windows_HAXM `{Win32 K} : HAXM K := {|
  HAX_VCPU_IOCTL_RUN fd t k := result_of Windows.is_TRUE (DeviceIoControl fd RUN t k);
  HAX_VCPU_IOCTL_INTERRUPT fd v k := by_TRUE (Windows.DeviceIoControl_in fd (INTERRUPT v) k);
  HAX_VCPU_GET_REGS fd r k := result_of Windows.is_TRUE (DeviceIoControl fd GET_REGS r k);
  HAX_VCPU_SET_REGS fd r k := by_TRUE (Windows.DeviceIoControl_in fd (SET_REGS r) k);
  HAX_VCPU_IOCTL_GET_FPU fd r k := result_of Windows.is_TRUE (DeviceIoControl fd GET_FPU r k);
  HAX_VCPU_IOCTL_SET_FPU fd r k := by_TRUE (Windows.DeviceIoControl_in fd (SET_FPU r) k);
  HAX_VCPU_IOCTL_GET_MSRS fd d k := result_of Windows.is_TRUE (DeviceIoControl fd (GET_MSRS d) d k);
  HAX_VCPU_IOCTL_SET_MSRS fd d k :=
    let '(result, _, k) := result_of Windows.is_TRUE (DeviceIoControl fd (SET_MSRS d) d k) in (result, k);
  HAX_IOCTL_VCPU_DEBUG fd d k := by_TRUE (Windows.DeviceIoControl_in fd (VCPU_DEBUG d) k);
  HAX_VM_IOCTL_VCPU_CREATE fd id k := by_BOOLEAN (Windows.DeviceIoControl_in fd (VCPU_CREATE id) k);
  open_vcpu vm id k := match vcpu_name vm id with Some n => CreateFileW n k | None => (-1, k) end;
  HAX_VCPU_IOCTL_SETUP_TUNNEL fd k :=
    let '(result, info, k) := result_of Windows.bResult (DeviceIoControl fd SETUP_TUNNEL uninit k) in
    (result, tunnels info, k);
  close := CloseHandle
|}.
Definition windows_HAXMachine `{Win32 K} : HAXMachine K := {|
  HAX_IOCTL_CREATE_VM fd k := result_of Windows.bResult (DeviceIoControl fd CREATE_VM uninit_id k);
  open_vm vm k := match vm_name vm with Some n => CreateFileW n k | None => (-1, k) end;
  HAX_VM_IOCTL_NOTIFY_QEMU_VERSION fd cur least k :=
    by_TRUE (Windows.DeviceIoControl_in fd (NOTIFY_QEMU_VERSION (MkQemuVersion cur least)) k);
  HAX_VM_IOCTL_ALLOC_RAM fd va size k :=
    by_BOOLEAN (Windows.DeviceIoControl_in fd (ALLOC_RAM (MkAllocRam va size)) k);
  HAX_VM_IOCTL_ADD_RAMBLOCK fd va size k :=
    by_BOOLEAN (Windows.DeviceIoControl_in fd (ADD_RAMBLOCK (MkRamBlock va size 0)) k);
  (* tested in two ways *)
  HAX_VM_IOCTL_SET_RAM fd r k :=
    (if ram_flags r =? HAX_RAM_INFO_INVALID then by_TRUE else by_BOOLEAN)
      (Windows.DeviceIoControl_in fd (SET_RAM r) k);
  HAX_VM_IOCTL_SET_RAM2 fd r k :=
    (if ram_flags r =? HAX_RAM_INFO_INVALID then by_TRUE else by_BOOLEAN)
      (Windows.DeviceIoControl_in fd (SET_RAM2 r) k);
  HAX_VM_IOCTL_PROTECT_RAM fd pa size flags k :=
    by_TRUE (Windows.DeviceIoControl_in fd (PROTECT_RAM (MkProtect pa size flags 0)) k)
|}.
End Instances.
(** Two layers that cannot be told apart by the processor and the machine. *)
Record same_operations {K} (A B : haxm_layer K) : Prop := {
  same_Run fd t k : L_Run _ A fd t k = L_Run _ B fd t k;
  same_InjectInterrupt fd v k : L_InjectInterrupt _ A fd v k = L_InjectInterrupt _ B fd v k;
  same_GetRegisters fd r k : L_GetRegisters _ A fd r k = L_GetRegisters _ B fd r k;
  same_SetRegisters fd r k : L_SetRegisters _ A fd r k = L_SetRegisters _ B fd r k;
  same_GetFPURegisters fd r k : L_GetFPURegisters _ A fd r k = L_GetFPURegisters _ B fd r k;
  same_SetFPURegisters fd r k : L_SetFPURegisters _ A fd r k = L_SetFPURegisters _ B fd r k;
  same_GetMSRData fd d k : L_GetMSRData _ A fd d k = L_GetMSRData _ B fd d k;
  same_SetMSRData fd d k : L_SetMSRData _ A fd d k = L_SetMSRData _ B fd d k;
  same_SetDebug fd d k : L_SetDebug _ A fd d k = L_SetDebug _ B fd d k;
  same_Destroy fd k : L_Destroy _ A fd k = L_Destroy _ B fd k;
  same_ReportQEMUVersion fd c l k : L_ReportQEMUVersion _ A fd c l k = L_ReportQEMUVersion _ B fd c l k;
  same_MapHostMemory fd m s k : L_MapHostMemory _ A fd m s k = L_MapHostMemory _ B fd m s k;
  same_MapGuestMemory fd b s f m k : L_MapGuestMemory _ A fd b s f m k = L_MapGuestMemory _ B fd b s f m k;
  same_UnmapGuestMemory fd b s k : L_UnmapGuestMemory _ A fd b s k = L_UnmapGuestMemory _ B fd b s k;
  same_MapHostMemoryLarge fd m s k : L_MapHostMemoryLarge _ A fd m s k = L_MapHostMemoryLarge _ B fd m s k;
  same_MapGuestMemoryLarge fd b s f m k :
    L_MapGuestMemoryLarge _ A fd b s f m k = L_MapGuestMemoryLarge _ B fd b s f m k;
  same_UnmapGuestMemoryLarge fd b s k :
    L_UnmapGuestMemoryLarge _ A fd b s k = L_UnmapGuestMemoryLarge _ B fd b s k;
  same_SetGuestMemoryFlagsLarge fd b s f k :
    L_SetGuestMemoryFlagsLarge _ A fd b s f k = L_SetGuestMemoryFlagsLarge _ B fd b s f k
}.

(** Unfold both layers, split on the results of the system calls. *)
Ltac unfold_call :=
  cbn; cbv [Darwin.Run Darwin.InjectInterrupt Darwin.GetRegisters Darwin.SetRegisters
    Darwin.GetFPURegisters Darwin.SetFPURegisters Darwin.GetMSRData Darwin.SetMSRData Darwin.SetDebug
    Darwin.Destroy Darwin.ReportQEMUVersion Darwin.MapHostMemory Darwin.MapGuestMemory
    Darwin.UnmapGuestMemory Darwin.MapHostMemoryLarge Darwin.MapGuestMemoryLarge
    Darwin.UnmapGuestMemoryLarge Darwin.SetGuestMemoryFlagsLarge Darwin.mapped Darwin.ioctl_ok
    Darwin.ioctl_out Darwin.ioctl_in
    Windows.Run Windows.InjectInterrupt Windows.GetRegisters Windows.SetRegisters
    Windows.GetFPURegisters Windows.SetFPURegisters Windows.GetMSRData Windows.SetMSRData Windows.SetDebug
    Windows.Destroy Windows.ReportQEMUVersion Windows.MapHostMemory Windows.MapGuestMemory
    Windows.UnmapGuestMemory Windows.MapHostMemoryLarge Windows.MapGuestMemoryLarge
    Windows.UnmapGuestMemoryLarge Windows.SetGuestMemoryFlagsLarge Windows.mapped Windows.ioctl_ok
    Windows.ioctl_out Windows.DeviceIoControl_in
    sys_Run sys_InjectInterrupt sys_GetRegisters sys_SetRegisters sys_GetFPURegisters sys_SetFPURegisters
    sys_GetMSRData sys_SetMSRData sys_SetDebug sys_Destroy sys_ReportQEMUVersion sys_MapHostMemory
    sys_MapGuestMemory sys_UnmapGuestMemory sys_MapHostMemoryLarge sys_MapGuestMemoryLarge
    sys_UnmapGuestMemoryLarge sys_SetGuestMemoryFlagsLarge succeeds to_status rom_flag result_in result_of
    drop_struct Windows.INVALID_HANDLE_VALUE]; cbn.
Ltac same_call := intros; unfold_call; unfold_call; repeat (case_match; simplify_eq/=; try done).
Lemma darwin_same_operations {K} `{P : Posix K} u un :
  same_operations (darwin_layer u un)
    (@interface_layer K (posix_HAXM u Darwin.vcpu_name) (posix_HAXMachine un Darwin.vm_name)).
Proof. split; same_call. Qed.
Lemma windows_same_operations {K} `{N : Win32 K} u un :
  same_operations (windows_layer u un)
    (@interface_layer K (windows_HAXM u Windows.vcpu_name) (windows_HAXMachine un Windows.vm_name)).
Proof. split; same_call. Qed.

Section Initialize.
Context {K : Type} `{P : Posix K} `{N : Win32 K} (u : hax_tunnel_info) (un : Z).
#[local] Opaque Darwin.vcpu_name Darwin.vm_name Windows.vcpu_name Windows.vm_name.
Lemma darwin_vp_Initialize fdVM vm id n k : Darwin.vcpu_name vm id = Some n ->
  L_vp_Initialize _ (darwin_layer u un) fdVM vm id k
  = Some (sys_Initialize (H:=posix_HAXM u Darwin.vcpu_name) fdVM vm id k).
Proof.
  intros Hn. unfold sys_Initialize. cbn. unfold Darwin.vp_Initialize.
  destruct (Darwin.ioctl_in fdVM _ k) as [r1 k1]. destruct (r1 <? 0); [done|].
  rewrite Hn. cbn. destruct (posix_open n k1) as [fd k2]. destruct (fd <? 0); [done|].
  destruct (ioctl fd SETUP_TUNNEL u k2) as [[r i] k3]. by destruct (r <? 0).
Qed.
Lemma darwin_vm_Initialize fd k :
  let '(r, vm, _) := ioctl fd CREATE_VM un k in
  if negb (r =? -1) && bool_decide (Darwin.vm_name vm = None)
  then L_vm_Initialize _ (darwin_layer u un) fd k = None
  else L_vm_Initialize _ (darwin_layer u un) fd k
       = Some (sys_vm_Initialize (H0:=posix_HAXMachine un Darwin.vm_name) fd k).
Proof.
  unfold sys_vm_Initialize. cbn. unfold Darwin.vm_Initialize.
  destruct (ioctl fd CREATE_VM un k) as [[r vm] k1]. destruct (r =? -1); [done|]. cbn [negb andb].
  destruct (Darwin.vm_name vm) as [n|] eqn:Hn; [|done]. rewrite bool_decide_false by done. cbn.
  destruct (posix_open n k1) as [fd' k2]. by destruct (fd' =? -1).
Qed.
Lemma windows_vp_Initialize hVM vm id n k : Windows.vcpu_name vm id = Some n ->
  (forall n k, fst (CreateFileW n k) < 0 -> fst (CreateFileW n k) = -1) ->
  L_vp_Initialize _ (windows_layer u un) hVM vm id k
  = Some (sys_Initialize (H:=windows_HAXM u Windows.vcpu_name) hVM vm id k).
Proof.
  intros Hn Hc. unfold sys_Initialize. cbn. unfold Windows.vp_Initialize, result_in, result_of.
  destruct (Windows.DeviceIoControl_in hVM _ k) as [r1 k1]. destruct (Windows.bResult r1); [|done]. cbn.
  rewrite Hn. cbn. specialize (Hc n k1). destruct (CreateFileW n k1) as [h k2]. cbn in Hc.
  unfold Windows.INVALID_HANDLE_VALUE. destruct (Z.eqb_spec h (-1)) as [->|Hne]; [done|].
  rewrite (proj2 (Z.ltb_ge h 0)) by lia. cbn.
  destruct (DeviceIoControl h SETUP_TUNNEL u k2) as [[r i] k3]. by destruct (Windows.bResult r).
Qed.
Lemma windows_vm_Initialize h k :
  let '(r, vm, _) := DeviceIoControl h CREATE_VM un k in
  if Windows.bResult r && bool_decide (Windows.vm_name vm = None)
  then L_vm_Initialize _ (windows_layer u un) h k = None
  else L_vm_Initialize _ (windows_layer u un) h k
       = Some (sys_vm_Initialize (H0:=windows_HAXMachine un Windows.vm_name) h k).
Proof.
  unfold sys_vm_Initialize. cbn. unfold Windows.vm_Initialize, result_of.
  destruct (DeviceIoControl h CREATE_VM un k) as [[r vm] k1]. destruct (Windows.bResult r); [|done]. cbn [negb andb].
  destruct (Windows.vm_name vm) as [n|] eqn:Hn; [|done]. rewrite bool_decide_false by done. cbn.
  destruct (CreateFileW n k1) as [h' k2]. unfold Windows.INVALID_HANDLE_VALUE. by destruct (h' =? -1).
Qed.
End Initialize.

(** C10: the layers of macOS and Windows implement the interfaces of HaxmVp.v and HaxmVm.v.  Every
    operation is the one that those files use, over the system's calls as the driver: what is
    proved there of the processor and of the machine holds on every system.  On Windows
    the driver accepts a request when the result passes the test that the code makes, TRUE or
    non-zero in 8 bits, which are the documented test for 0 and TRUE but not for other values.
    [Initialize] of a processor or a machine is the modelled one if the name of the device fits,
    and otherwise, once the driver has created the object, has no defined result; on Windows
    it returns false for null output parameters. *)
Theorem haxm_system_layers {K} `{P : Posix K} `{N : Win32 K} u un :
  (let A := darwin_layer u un in
   let M := posix_HAXMachine un Darwin.vm_name in
   let V := posix_HAXM u Darwin.vcpu_name in
   same_operations A interface_layer
   /\ (forall fdVM vm id k, is_Some (Darwin.vcpu_name vm id) ->
         L_vp_Initialize _ A fdVM vm id k = L_vp_Initialize _ interface_layer fdVM vm id k)
   /\ (forall fd k, let '(r, vm, _) := ioctl fd CREATE_VM un k in
         if negb (r =? -1) && bool_decide (Darwin.vm_name vm = None) then L_vm_Initialize _ A fd k = None
         else L_vm_Initialize _ A fd k = L_vm_Initialize _ interface_layer fd k))
  /\ (let A := windows_layer u un in
      let M := windows_HAXMachine un Windows.vm_name in
      let V := windows_HAXM u Windows.vcpu_name in
      same_operations A interface_layer
      /\ (forall hVM vm id k, is_Some (Windows.vcpu_name vm id) ->
            (forall n k, fst (CreateFileW n k) < 0 -> fst (CreateFileW n k) = -1) ->
            L_vp_Initialize _ A hVM vm id k = L_vp_Initialize _ interface_layer hVM vm id k)
      /\ (forall h k, let '(r, vm, _) := DeviceIoControl h CREATE_VM un k in
            if Windows.bResult r && bool_decide (Windows.vm_name vm = None) then L_vm_Initialize _ A h k = None
            else L_vm_Initialize _ A h k = L_vm_Initialize _ interface_layer h k)
      /\ (forall h k, Windows.vp_Initialize u true h 0 0 k = Some (false, -1, None, k)
                      /\ Windows.vm_Initialize un true h k = Some (false, -1, None, k)))
  /\ (forall r, r = 0 \/ r = 1 -> Windows.is_TRUE r = negb (r =? 0) /\ Windows.bResult r = negb (r =? 0)).
Proof.
  split; [|split].
  - intros A M V. split; [apply darwin_same_operations|]. split.
    + intros fdVM vm id k [n Hn]. by apply darwin_vp_Initialize with n.
    + intros fd k. apply darwin_vm_Initialize.
  - intros A M V. split; [apply windows_same_operations|]. split; [|split].
    + intros hVM vm id k [n Hn] Hc. by apply windows_vp_Initialize with n.
    + intros h k. apply windows_vm_Initialize.
    + done.
  - intros r [-> | ->]; done.
Qed.
(** ** The platform *)

(** *** haxm_platform_impl.cpp

    [init] is the [Initialize] of the system's [m_sys]. *)
Record HaxmPlatformImpl := MkPlatformImpl {
  m_haxVer : hax_module_version; m_haxCaps : hax_capabilityinfo; m_sys : Z
}.
Definition newHaxmPlatformImpl : HaxmPlatformImpl := MkPlatformImpl (MkModuleVersion 0 0) (MkCaps 0 0) (-1).
Definition impl_Initialize {K}
    (init : hax_module_version -> hax_capabilityinfo -> K ->
            PlatformInitStatus * Z * hax_module_version * hax_capabilityinfo * K)
    (p : HaxmPlatformImpl) (k : K) : PlatformInitStatus * HaxmPlatformImpl * K :=
  let '(status, fd, haxVer, haxCaps, k) := init (m_haxVer p) (m_haxCaps p) k in
  (status, MkPlatformImpl haxVer haxCaps fd, k).
Definition impl_SetGlobalMemoryLimit {K} (set : Z -> bool -> Z -> K -> bool * K)
    (p : HaxmPlatformImpl) (enabled : bool) (limitMB : Z) (k : K) : bool * K :=
  set (m_sys p) enabled limitMB k.

(** The results of the three calls, as [newHaxmPlatform] takes them. *)
Definition posix_host {K} `{Posix K} (p : HaxmPlatformImpl) (driver : HaxmVersion) (k : K) : haxm_host :=
  let '(fd, k) := posix_open (str "/dev/HAX") k in
  let '(r1, v, k) := ioctl fd VERSION (m_haxVer p) k in
  let '(r2, c, _) := ioctl fd CAPABILITY (m_haxCaps p) k in
  MkHaxmHost fd r1 v r2 c driver.
Definition windows_host {K} `{Win32 K} (p : HaxmPlatformImpl) (driver : HaxmVersion) (k : K) : haxm_host :=
  let '(h, k) := CreateFileW (str "\\.\HAX") k in
  let '(r1, v, k) := result_of Windows.bResult (DeviceIoControl h VERSION (m_haxVer p) k) in
  let '(r2, c, _) := result_of Windows.bResult (DeviceIoControl h CAPABILITY (m_haxCaps p) k) in
  MkHaxmHost h r1 v r2 c driver.

(** *** Open descriptors and handles

    What the system promises: a descriptor that is opened is a new one, a call that fails opens
    none, and requests neither open nor close any. *)
Class PosixLaws (K : Type) `{Posix K} := {
  fds_of : K -> gset Z;
  posix_open_fds name k : let '(fd, k') := posix_open name k in
    fd = -1 /\ fds_of k' = fds_of k \/ 0 <= fd /\ (fd ∉ fds_of k) /\ fds_of k' = {[fd]} ∪ fds_of k;
  ioctl_fds {A} fd (r : hax_request A) buf k : fds_of (snd (ioctl fd r buf k)) = fds_of k;
  posix_close_fds fd k : fds_of (posix_close fd k) = fds_of k ∖ {[fd]}
}.
Class Win32Laws (K : Type) `{Win32 K} := {
  handles_of : K -> gset Z;
  CreateFileW_handles name k : let '(h, k') := CreateFileW name k in
    h = -1 /\ handles_of k' = handles_of k
    \/ 0 <= h /\ (h ∉ handles_of k) /\ handles_of k' = {[h]} ∪ handles_of k;
  DeviceIoControl_handles {A} h (r : hax_request A) buf k :
    handles_of (snd (DeviceIoControl h r buf k)) = handles_of k;
  CloseHandle_handles h k : handles_of (CloseHandle h k) = handles_of k ∖ {[h]}
}.
(** What a function that opens an object leaves behind: the object if it succeeds, with the
    descriptor in the member, and nothing if it fails. *)
Definition opens {K} (fds : K -> gset Z) (k : K) (ok : bool) (fd : Z) (k' : K) : Prop :=
  if ok then 0 <= fd /\ (fd ∉ fds k) /\ fds k' = {[fd]} ∪ fds k else fd = -1 /\ fds k' = fds k.
Definition is_OK (status : PlatformInitStatus) : bool :=
  match status with PI_OK => true | _ => false end.

Section Posix.
Context {K : Type} `{PosixLaws K}.
Lemma ioctl_in_fds fd r (k : K) : fds_of (snd (Darwin.ioctl_in fd r k)) = fds_of k.
Proof.
  unfold Darwin.ioctl_in. pose proof (ioctl_fds fd r tt k) as L. by destruct (ioctl fd r tt k) as [[? ?] ?].
Qed.
Lemma close_new fd (k k1 k2 k3 : K) : fds_of k1 = fds_of k -> fd ∉ fds_of k1 ->
  fds_of k2 = {[fd]} ∪ fds_of k1 -> fds_of k3 = fds_of k2 -> fds_of (posix_close fd k3) = fds_of k.
Proof. intros E N E2 E3. rewrite posix_close_fds, E3, E2, <- E. set_solver. Qed.
Lemma posix_vp_opens u fdVM vm id (k : K) ok fd t k' :
  Darwin.vp_Initialize u fdVM vm id k = Some (ok, fd, t, k') -> opens fds_of k ok fd k'.
Proof.
  unfold Darwin.vp_Initialize. pose proof (ioctl_in_fds fdVM (VCPU_CREATE id) k) as L1.
  destruct (Darwin.ioctl_in _ _ _) as [r1 k1]. cbn in L1. destruct (r1 <? 0); [intros [= <- <- <- <-]; done|].
  destruct (Darwin.vcpu_name vm id) as [n|]; [|done]. cbn. pose proof (posix_open_fds n k1) as L2.
  destruct (posix_open n k1) as [fd' k2]. destruct (Z.ltb_spec fd' 0).
  { intros [= <- <- <- <-]. destruct L2 as [[-> ?]|]; [split; congruence|lia]. }
  destruct L2 as [[-> _]|(? & Hf & E)]; [lia|].
  pose proof (ioctl_fds fd' SETUP_TUNNEL u k2) as L3. destruct (ioctl _ _ _ _) as [[r2 i] k3]. cbn in L3.
  destruct (r2 <? 0); intros [= <- <- <- <-].
  - split; [done|]. by apply close_new with k1 k2.
  - unfold opens. rewrite <- L1. split_and!; [done..|]. congruence.
Qed.
Lemma posix_vm_opens un fdHAXM (k : K) ok fd t k' :
  Darwin.vm_Initialize un fdHAXM k = Some (ok, fd, t, k') -> opens fds_of k ok fd k'.
Proof.
  unfold Darwin.vm_Initialize. pose proof (ioctl_fds fdHAXM CREATE_VM un k) as L1.
  destruct (ioctl _ _ _ _) as [[r1 vm] k1]. cbn in L1. destruct (r1 =? -1); [intros [= <- <- <- <-]; done|].
  destruct (Darwin.vm_name vm) as [n|]; [|done]. cbn. pose proof (posix_open_fds n k1) as L2.
  destruct (posix_open n k1) as [fd' k2]. destruct (Z.eqb_spec fd' (-1)); intros [= <- <- <- <-].
  - split; [done|]. destruct L2 as [[_ ?]|]; [congruence|lia].
  - destruct L2 as [[-> _]|L2]; [lia|]. unfold opens. by rewrite <- L1.
Qed.
Lemma posix_platform_opens ver caps (k : K) :
  let '(status, fd, _, _, k') := Darwin.platform_Initialize ver caps k in opens fds_of k (is_OK status) fd k'.
Proof.
  unfold Darwin.platform_Initialize. pose proof (posix_open_fds (str "/dev/HAX") k) as L2.
  destruct (posix_open _ k) as [fd k1]. destruct (Z.ltb_spec fd 0).
  { destruct L2 as [[-> ?]|]; [by split|lia]. }
  destruct L2 as [[-> _]|(? & Hf & E)]; [lia|].
  pose proof (ioctl_fds fd VERSION ver k1) as L3. destruct (ioctl _ _ _ _) as [[r2 v] k2]. cbn in L3.
  destruct (r2 <? 0); [split; [done|]; by apply close_new with k k1|].
  pose proof (ioctl_fds fd CAPABILITY caps k2) as L4. destruct (ioctl _ _ _ _) as [[r3 c] k3]. cbn in L4.
  destruct (r3 <? 0); [split; [done|]; apply close_new with k k1; congruence|].
  unfold opens. split_and!; [done..|]. congruence.
Qed.
End Posix.
Section Win32.
Context {K : Type} `{Win32Laws K}.
Lemma DeviceIoControl_in_handles h r (k : K) :
  handles_of (snd (Windows.DeviceIoControl_in h r k)) = handles_of k.
Proof.
  unfold Windows.DeviceIoControl_in. pose proof (DeviceIoControl_handles h r tt k) as L.
  by destruct (DeviceIoControl h r tt k) as [[? ?] ?].
Qed.
Lemma CloseHandle_new h (k k1 k2 k3 : K) : handles_of k1 = handles_of k -> h ∉ handles_of k1 ->
  handles_of k2 = {[h]} ∪ handles_of k1 -> handles_of k3 = handles_of k2 ->
  handles_of (CloseHandle h k3) = handles_of k.
Proof. intros E N E2 E3. rewrite CloseHandle_handles, E3, E2, <- E. set_solver. Qed.
(** [CreateFileW] and the test of its result. *)
Lemma CreateFileW_cases n (k : K) : let '(h, k') := CreateFileW n k in
  if h =? Windows.INVALID_HANDLE_VALUE then h = -1 /\ handles_of k' = handles_of k
  else 0 <= h /\ (h ∉ handles_of k) /\ handles_of k' = {[h]} ∪ handles_of k.
Proof.
  pose proof (CreateFileW_handles n k) as L. destruct (CreateFileW n k) as [h k'].
  unfold Windows.INVALID_HANDLE_VALUE. destruct (Z.eqb_spec h (-1)).
  - destruct L as [|L]; [done|lia].
  - destruct L as [[-> _]|L]; [lia|done].
Qed.
Lemma windows_vp_opens u null hVM vm id (k : K) ok h t k' :
  Windows.vp_Initialize u null hVM vm id k = Some (ok, h, t, k') -> opens handles_of k ok h k'.
Proof.
  unfold Windows.vp_Initialize. destruct null; [by intros [= <- <- <- <-]|].
  pose proof (DeviceIoControl_in_handles hVM (VCPU_CREATE id) k) as L1.
  destruct (Windows.DeviceIoControl_in _ _ _) as [r1 k1]. cbn in L1.
  destruct (Windows.bResult r1); cbn [negb]; [|by intros [= <- <- <- <-]].
  destruct (Windows.vcpu_name vm id) as [n|]; [|done]. cbn [mbind option_bind].
  pose proof (CreateFileW_cases n k1) as L2.
  destruct (CreateFileW n k1) as [h' k2]. destruct (h' =? Windows.INVALID_HANDLE_VALUE).
  { intros [= <- <- <- <-]. destruct L2 as [-> E]. split; congruence. }
  destruct L2 as (? & Hf & E). pose proof (DeviceIoControl_handles h' SETUP_TUNNEL u k2) as L3.
  destruct (DeviceIoControl _ _ _ _) as [[r2 i] k3]. cbn in L3.
  destruct (Windows.bResult r2); cbn [negb]; intros [= <- <- <- <-].
  - unfold opens. rewrite <- L1. split_and!; [done..|]. congruence.
  - split; [done|]. by apply CloseHandle_new with k1 k2.
Qed.
Lemma windows_vm_opens un null hHAXM (k : K) ok h t k' :
  Windows.vm_Initialize un null hHAXM k = Some (ok, h, t, k') -> opens handles_of k ok h k'.
Proof.
  unfold Windows.vm_Initialize. destruct null; [by intros [= <- <- <- <-]|].
  pose proof (DeviceIoControl_handles hHAXM CREATE_VM un k) as L1.
  destruct (DeviceIoControl _ _ _ _) as [[r1 vm] k1]. cbn in L1.
  destruct (Windows.bResult r1); cbn [negb]; [|by intros [= <- <- <- <-]].
  destruct (Windows.vm_name vm) as [n|]; [|done]. cbn [mbind option_bind].
  pose proof (CreateFileW_cases n k1) as L2.
  destruct (CreateFileW n k1) as [h' k2]. destruct (h' =? Windows.INVALID_HANDLE_VALUE); intros [= <- <- <- <-].
  - destruct L2 as [-> E]. split; congruence.
  - unfold opens. by rewrite <- L1.
Qed.
Lemma windows_platform_opens ver caps (k : K) :
  let '(status, h, _, _, k') := Windows.platform_Initialize ver caps k in opens handles_of k (is_OK status) h k'.
Proof.
  unfold Windows.platform_Initialize. pose proof (CreateFileW_cases (str "\\.\HAX") k) as L2.
  destruct (CreateFileW _ k) as [h k1]. destruct (h =? Windows.INVALID_HANDLE_VALUE); [done|].
  destruct L2 as (? & Hf & E). pose proof (DeviceIoControl_handles h VERSION ver k1) as L3.
  destruct (DeviceIoControl _ _ _ _) as [[r2 v] k2]. cbn in L3.
  destruct (Windows.bResult r2); cbn [negb]; [|split; [done|]; by apply CloseHandle_new with k k1].
  pose proof (DeviceIoControl_handles h CAPABILITY caps k2) as L4.
  destruct (DeviceIoControl _ _ _ _) as [[r3 c] k3]. cbn in L4.
  destruct (Windows.bResult r3); cbn [negb]; [|split; [done|]; apply CloseHandle_new with k k1; congruence].
  unfold opens. split_and!; [done..|]. congruence.
Qed.
End Win32.

(** C16: no layer leaks.  When the initialisation of the platform, of a machine or of a processor
    fails, whichever call it is that fails, the set of open descriptors, or handles, is as before
    and the member holds -1; when it succeeds there is exactly one more, the new one in the
    member.  Destroying a machine or a processor closes it again.  So does the
    destructor of the platform on Windows, but on Linux and macOS it leaves descriptor 0
    open. *)
Theorem haxm_layers_release {K L} `{PosixLaws K} `{Win32Laws L} (k : K) (l : L) p u un :
  let opened ok fd k' := opens fds_of k ok fd k'
        /\ (ok = true -> fst (Darwin.Destroy fd k') = -1 /\ fds_of (snd (Darwin.Destroy fd k')) = fds_of k) in
  let opened_w ok h l' := opens handles_of l ok h l'
        /\ (ok = true -> fst (Windows.Destroy h l') = -1 /\ handles_of (snd (Windows.Destroy h l')) = handles_of l) in
  (let '(status, p', k') := impl_Initialize Darwin.platform_Initialize p k in
   opened (is_OK status) (m_sys p') k'
   /\ (is_OK status = true ->
       fds_of (snd (Darwin.platform_destroy (m_sys p') k'))
       = if m_sys p' =? 0 then {[0]} ∪ fds_of k else fds_of k))
  /\ (forall fdHAXM ok fd vm k', Darwin.vm_Initialize un fdHAXM k = Some (ok, fd, vm, k') -> opened ok fd k')
  /\ (forall fdVM vm id ok fd t k', Darwin.vp_Initialize u fdVM vm id k = Some (ok, fd, t, k') -> opened ok fd k')
  /\ (let '(status, p', l') := impl_Initialize Windows.platform_Initialize p l in
      opened_w (is_OK status) (m_sys p') l')
  /\ (forall null hHAXM ok h vm l',
        Windows.vm_Initialize un null hHAXM l = Some (ok, h, vm, l') -> opened_w ok h l')
  /\ (forall null hVM vm id ok h t l',
        Windows.vp_Initialize u null hVM vm id l = Some (ok, h, t, l') -> opened_w ok h l').
Proof.
  intros opened opened_w.
  assert (Hp : forall ok fd k', opens fds_of k ok fd k' -> opened ok fd k').
  { intros ok fd k' Ho. split; [done|]. intros ->. destruct Ho as (Hfd & Hn & E). unfold Darwin.Destroy.
    rewrite (proj2 (Z.eqb_neq fd (-1))) by lia. cbn. split; [done|]. rewrite posix_close_fds, E. set_solver. }
  assert (Hw : forall ok h l', opens handles_of l ok h l' -> opened_w ok h l').
  { intros ok h l' Ho. split; [done|]. intros ->. destruct Ho as (Hfd & Hn & E). unfold Windows.Destroy, Windows.INVALID_HANDLE_VALUE.
    rewrite (proj2 (Z.eqb_neq h (-1))) by lia. cbn. split; [done|]. rewrite CloseHandle_handles, E. set_solver. }
  split; [|split; [|split; [|split; [|split]]]].
  - unfold impl_Initialize. pose proof (posix_platform_opens (m_haxVer p) (m_haxCaps p) k) as Ho.
    destruct (Darwin.platform_Initialize _ _ _) as [[[[status fd] v] c] k']. cbn [m_sys].
    split; [by apply Hp|]. intros E. rewrite E in Ho. destruct Ho as (Hfd & Hn & Ek). unfold Darwin.platform_destroy.
    destruct (Z.ltb_spec 0 fd), (Z.eqb_spec fd 0); try lia; cbn; [|by subst].
    rewrite posix_close_fds, Ek. set_solver.
  - intros. eapply Hp, posix_vm_opens; eauto.
  - intros. eapply Hp, posix_vp_opens; eauto.
  - unfold impl_Initialize. pose proof (windows_platform_opens (m_haxVer p) (m_haxCaps p) l) as Ho.
    destruct (Windows.platform_Initialize _ _ _) as [[[[status h] v] c] l']. cbn [m_sys]. by apply Hw.
  - intros. eapply Hw, windows_vm_opens; eauto.
  - intros. eapply Hw, windows_vp_opens; eauto.
Qed.

(** The platform that HaxmVm.v describes.  On every system the status of [Initialize] is
    that of [sys_platform_Initialize] on the results of the three calls, and when it is OK the version
    and the capabilities of the platform are those that the driver filled in. *)
Theorem haxm_platform_host {K L} `{Posix K} `{Win32 L} p driver (k : K) (l : L) :
  (forall n (l : L), fst (CreateFileW n l) < 0 -> fst (CreateFileW n l) = -1) ->
  let filled (h : haxm_host) (status : PlatformInitStatus) (p' : HaxmPlatformImpl) :=
    status = sys_platform_Initialize h
    /\ (status = PI_OK -> m_haxVer p' = hh_version h /\ m_haxCaps p' = hh_caps h /\ m_sys p' = hh_open h) in
  (let '(status, p', _) := impl_Initialize Darwin.platform_Initialize p k in filled (posix_host p driver k) status p')
  /\ (let '(status, p', _) := impl_Initialize Linux.platform_Initialize p k in filled (posix_host p driver k) status p')
  /\ (let '(status, p', _) := impl_Initialize Windows.platform_Initialize p l in filled (windows_host p driver l) status p').
Proof.
  intros Hh filled.
  assert (Hd : let '(status, p', _) := impl_Initialize Darwin.platform_Initialize p k in
                filled (posix_host p driver k) status p').
  { unfold impl_Initialize, posix_host, Darwin.platform_Initialize, filled, sys_platform_Initialize.
    destruct (posix_open _ k) as [fd k1]. destruct (ioctl fd VERSION _ k1) as [[r1 v] k2].
    destruct (ioctl fd CAPABILITY _ k2) as [[r2 c] k3]. cbn.
    destruct (fd <? 0); [done|]. destruct (r1 <? 0); [done|]. by destruct (r2 <? 0). }
  split; [done|]. split; [exact Hd|].
  unfold impl_Initialize, windows_host, Windows.platform_Initialize, filled, sys_platform_Initialize, result_of.
  specialize (Hh (str "\\.\HAX") l). destruct (CreateFileW _ l) as [h l1]. cbn [fst] in Hh.
  destruct (DeviceIoControl h VERSION _ l1) as [[r1 v] l2].
  destruct (DeviceIoControl h CAPABILITY _ l2) as [[r2 c] l3]. cbn.
  unfold Windows.INVALID_HANDLE_VALUE. destruct (Z.eqb_spec h (-1)) as [->|Hne]; [done|].
  rewrite (proj2 (Z.ltb_ge h 0)) by lia. destruct (Windows.bResult r1); cbn; [|done].
  by destruct (Windows.bResult r2).
Qed.

(** ** The register laws of the driver

    What the system calls promise about the registers of a processor, from which follow the
    laws [HAXMLaws] that the theorems on the processor assume. *)
Class PosixRegs (K : Type) `{Posix K} := {
  posix_files : K -> files;
  posix_get_regs fd r k : let '(res, r', k') := ioctl fd GET_REGS r k in
    posix_files k' = posix_files k /\ (0 <= res -> r' = f_regs (posix_files k));
  posix_get_fpu fd r k : let '(res, r', k') := ioctl fd GET_FPU r k in
    posix_files k' = posix_files k /\ (0 <= res -> r' = f_fpu (posix_files k));
  posix_set_regs fd r k : let '(res, _, k') := ioctl fd (SET_REGS r) tt k in
    posix_files k' = if 0 <=? res then MkFiles r (f_fpu (posix_files k)) else posix_files k;
  posix_set_fpu fd r k : let '(res, _, k') := ioctl fd (SET_FPU r) tt k in
    posix_files k' = if 0 <=? res then MkFiles (f_regs (posix_files k)) r else posix_files k
}.
Class Win32Regs (K : Type) `{Win32 K} := {
  windows_files : K -> files;
  windows_get_regs h r k : let '(res, r', k') := DeviceIoControl h GET_REGS r k in
    windows_files k' = windows_files k /\ (res = 1 -> r' = f_regs (windows_files k));
  windows_get_fpu h r k : let '(res, r', k') := DeviceIoControl h GET_FPU r k in
    windows_files k' = windows_files k /\ (res = 1 -> r' = f_fpu (windows_files k));
  windows_set_regs h r k : let '(res, _, k') := DeviceIoControl h (SET_REGS r) tt k in
    (res = 0 \/ res = 1)
    /\ windows_files k' = if res =? 0 then windows_files k else MkFiles r (f_fpu (windows_files k));
  windows_set_fpu h r k : let '(res, _, k') := DeviceIoControl h (SET_FPU r) tt k in
    (res = 0 \/ res = 1)
    /\ windows_files k' = if res =? 0 then windows_files k else MkFiles (f_regs (windows_files k)) r
}.
#[export] Instance posix_HAXMLaws {K} `{PosixRegs K} u name : HAXMLaws K (H:=posix_HAXM u name).
Proof.
  unshelve refine (Build_HAXMLaws K (posix_HAXM u name) posix_files _ _ _ _); intros; cbn; unfold Darwin.ioctl_in.
  - apply posix_get_regs.
  - apply posix_get_fpu.
  - pose proof (posix_set_regs fd r k) as L. by destruct (ioctl _ _ _ _) as [[? ?] ?].
  - pose proof (posix_set_fpu fd r k) as L. by destruct (ioctl _ _ _ _) as [[? ?] ?].
Defined.
Lemma is_TRUE_result res : 0 <= (if Windows.is_TRUE res then 0 else -1) <-> res = 1.
Proof. unfold Windows.is_TRUE, Windows.TRUE. destruct (Z.eqb_spec res 1); lia. Qed.
#[export] Instance windows_HAXMLaws {K} `{Win32Regs K} u name : HAXMLaws K (H:=windows_HAXM u name).
Proof.
  unshelve refine (Build_HAXMLaws K (windows_HAXM u name) windows_files _ _ _ _); intros; cbn;
    unfold Windows.DeviceIoControl_in, result_in, result_of.
  - pose proof (windows_get_regs fd r k) as L. destruct (DeviceIoControl _ _ _ _) as [[? ?] ?].
    by rewrite is_TRUE_result.
  - pose proof (windows_get_fpu fd r k) as L. destruct (DeviceIoControl _ _ _ _) as [[? ?] ?].
    by rewrite is_TRUE_result.
  - pose proof (windows_set_regs fd r k) as L. destruct (DeviceIoControl _ _ _ _) as [[? ?] ?].
    destruct L as [[-> | ->] E]; exact E.
  - pose proof (windows_set_fpu fd r k) as L. destruct (DeviceIoControl _ _ _ _) as [[? ?] ?].
    destruct L as [[-> | ->] E]; exact E.
Defined.

(** A system with one descriptor, which accepts every request. *)
Module SysDemo.
Definition state : Type := gset Z.
Definition open_demo (k : state) : Z * state := if decide (3 ∈ k) then (-1, k) else (3, {[3]} ∪ k).
#[export] Instance posix : Posix state := {
  posix_open _ := open_demo; ioctl _ _ _ buf k := (0, buf, k); posix_close fd k := k ∖ {[fd]}
}.
#[export] Instance win32 : Win32 state := {
  CreateFileW _ := open_demo; DeviceIoControl _ _ _ buf k := (1, buf, k); CloseHandle h k := k ∖ {[h]}
}.
Lemma open_demo_new k : let '(fd, k') := open_demo k in
  fd = -1 /\ k' = k \/ 0 <= fd /\ (fd ∉ k) /\ k' = {[fd]} ∪ k.
Proof. unfold open_demo. case_decide; [by left|right]. split; [lia|done]. Qed.
#[export] Instance posix_laws : PosixLaws state.
Proof. refine {| fds_of := id |}; [intros name k; apply open_demo_new|done..]. Defined.
#[export] Instance win32_laws : Win32Laws state.
Proof. refine {| handles_of := id |}; [intros name k; apply open_demo_new|done..]. Defined.
End SysDemo.
#[local] Existing Instance SysDemo.posix.
#[local] Existing Instance SysDemo.win32.
#[local] Existing Instance SysDemo.posix_laws.
#[local] Existing Instance SysDemo.win32_laws.

(** The platform of macOS is opened and destroyed, and a machine with number 5 is opened. *)
Lemma haxm_layers_release_witness :
  let k : SysDemo.state := ∅ in
  let '(status, p, k') := impl_Initialize Darwin.platform_Initialize newHaxmPlatformImpl k in
  status = PI_OK /\ m_sys p = 3 /\ snd (Darwin.platform_destroy (m_sys p) k') = ∅
  /\ (forall ok fd vm k', Darwin.vm_Initialize 5 4 k = Some (ok, fd, vm, k') ->
        opens (fds_of (K:=SysDemo.state)) k ok fd k').
Proof.
  intros k.
  destruct (haxm_layers_release k k newHaxmPlatformImpl (MkTunnelInfo 0 0) 5) as (H1 & H2 & _).
  split; [reflexivity|]. split; [reflexivity|]. split.
  - exact (proj2 H1 eq_refl).
  - intros ok fd vm k' E. exact (proj1 (H2 4 ok fd vm k' E)).
Defined.

(** On Windows the device of processor 0 of machine 5 is opened. *)
Lemma haxm_system_layers_witness :
  let k : SysDemo.state := ∅ in
  let V := windows_HAXM (MkTunnelInfo 0x1000 0x2000) Windows.vcpu_name in
  L_vp_Initialize _ (windows_layer (K:=SysDemo.state) (MkTunnelInfo 0x1000 0x2000) 5) 3 5 0 k
  = Some (sys_Initialize 3 5 0 k)
  /\ sys_Initialize 3 5 0 k = (3, Some (0x1000, 0x2000), {[3]} ∪ k).
Proof.
  intros k V. split; [|reflexivity].
  pose proof (haxm_system_layers (K:=SysDemo.state) (MkTunnelInfo 0x1000 0x2000) 5) as (_ & (_ & H & _) & _).
  apply H; [by eexists|]. intros n k' Hn. cbn in *. unfold SysDemo.open_demo in *. by case_decide.
Defined.
