(* ===== verification/Lifecycle.v ===== *)
(** * The life of a platform and of its machines

    A platform owns its machines: [CreateVM] stores what the platform's [CreateVMImpl] returns,
    [FreeVM] and the destructor delete them (platform.cpp, with the destructors of the machines of each
    platform).  [MachineFactory] is what a platform adds to the base class, [MachineFactoryLaws] what
    it promises about the descriptors, handles or partitions that machines hold; the theorem follows
    them through every sequence of calls.  KVM, HAXM (on POSIX systems and on Windows) and WHPX
    are instances, WHPX with the leak of its failed creations. *)
From stdpp Require Import gmap.
From S2P Require Import Prelude Bits MemRegions Status Regs Platform KvmCreate HaxmVp HaxmVm HaxmSys WhpxVp WhpxVm.

(** [M] is a machine's object, [K] the kernel, driver or library. *)
Class MachineFactory (S M K : Type) := {
  CreateVMImpl : S -> K -> option M * K;
  delete_machine : M -> K -> K
}.
(** [held] is what is open; [valid] holds of the machines that a creation returns.  Where
    [failures_leak] is false, a creation that fails leaves nothing behind. *)
Class MachineFactoryLaws (S M K : Type) `{MachineFactory S M K} := {
  held : K -> gset Z;
  owns : M -> list Z;
  valid : M -> Prop;
  failures_leak : bool;
  create_held s k : let '(r, k') := CreateVMImpl s k in
    match r with
    | Some vm => valid vm /\ NoDup (owns vm) /\ Forall (fun x => x ∉ held k) (owns vm)
                 /\ held k' = list_to_set (owns vm) ∪ held k
    | None => exists lost, (failures_leak = false -> lost = ∅) /\ lost ## held k /\ held k' = lost ∪ held k
    end;
  delete_held vm k : valid vm -> held (delete_machine vm k) = held k ∖ list_to_set (owns vm)
}.

(** ** The calls

    The platform's list holds addresses of objects. *)
Section Calls.
Context {S M K : Type} `{MachineFactory S M K}.
Record system := MkSystem { sys_platform : Platform Z; sys_objects : gmap Z M; sys_kernel : K }.

Definition delete_object (x : gmap Z M * K) (vm : Z) : gmap Z M * K :=
  match fst x !! vm with Some o => (delete vm (fst x), delete_machine o (snd x)) | None => x end.
(** [vm] is where the new object is allocated. *)
Definition sys_CreateVM (vm : Z) (s : S) (st : system) : option Z * system :=
  let '(o, k) := CreateVMImpl s (sys_kernel st) in
  let '(r, p) := CreateVM (fun _ => (fun _ => vm) <$> o) s (sys_platform st) in
  (r, MkSystem p (match o with Some o => <[vm := o]> (sys_objects st) | None => sys_objects st end) k).
Definition sys_FreeVM (vm : Z) (st : system) : bool * system :=
  let '(ok, p) := FreeVM vm (sys_platform st) in
  let x := (sys_objects st, sys_kernel st) in
  let '(os, k) := if ok then delete_object x vm else x in
  (ok, MkSystem p os k).
Definition sys_DestroyVMs (st : system) : system :=
  let '(os, k) := fold_left delete_object (m_vms (sys_platform st)) (sys_objects st, sys_kernel st) in
  MkSystem (DestroyVMs (sys_platform st)) os k.
End Calls.
Arguments system : clear implicits.

Section Invariant.
Context {S M K : Type} `{MachineFactoryLaws S M K}.
Implicit Types (st : system M K) (base lost : gset Z) (vms : list Z) (os : gmap Z M).

(** A client's calls: creations, which may fail, deletions of any address, and the operations of
    machines, which keep what is open. *)
Inductive sys_step : system M K -> system M K -> Prop :=
| ss_create st vm (s : S) : sys_objects st !! vm = None -> sys_step st (snd (sys_CreateVM vm s st))
| ss_free st vm : sys_step st (snd (sys_FreeVM vm st))
| ss_use st vm o o' k' : sys_objects st !! vm = Some o -> valid o' -> owns o' = owns o ->
    held k' = held (sys_kernel st) ->
    sys_step st (MkSystem (sys_platform st) (<[vm := o']> (sys_objects st)) k').

Definition owned_at os (vm : Z) : list Z := from_option owns [] (os !! vm).
Definition owned vms os : list Z := vms ≫= owned_at os.

Record lifecycle_inv base lost vms os (k : K) : Prop := {
  li_nodup : NoDup vms;
  li_dom : forall vm, vm ∈ vms <-> is_Some (os !! vm);
  li_valid : map_Forall (fun _ => valid) os;
  li_owned : NoDup (owned vms os);
  li_fresh : Forall (fun x => x ∉ lost ∪ base) (owned vms os);
  li_lost : lost ## base;
  li_leak : failures_leak = false -> lost = ∅;
  li_held : held k = list_to_set (owned vms os) ∪ (lost ∪ base)
}.

Lemma owned_ext vms os os' : (forall vm, vm ∈ vms -> owned_at os vm = owned_at os' vm) -> owned vms os = owned vms os'.
Proof.
  induction vms as [|vm vms IH]; intros He; [done|]. unfold owned in *. cbn.
  rewrite He by apply list_elem_of_here. rewrite IH; [done|]. intros. apply He. by apply list_elem_of_further.
Qed.
Lemma owned_app vms vms' os : owned (vms ++ vms') os = owned vms os ++ owned vms' os.
Proof. apply bind_app. Qed.
Lemma owned_at_insert os vm o : owned_at (<[vm := o]> os) vm = owns o.
Proof. unfold owned_at. by rewrite lookup_insert_eq. Qed.
Lemma owned_at_insert_ne os vm vm' o : vm' <> vm -> owned_at (<[vm := o]> os) vm' = owned_at os vm'.
Proof. intros. unfold owned_at. by rewrite lookup_insert_ne. Qed.

Lemma inv_create base lost vms os k vm o k' : lifecycle_inv base lost vms os k -> os !! vm = None ->
  valid o -> NoDup (owns o) -> Forall (fun x => x ∉ held k) (owns o) ->
  held k' = list_to_set (owns o) ∪ held k -> lifecycle_inv base lost (vms ++ [vm]) (<[vm := o]> os) k'.
Proof.
  intros [Hn Hd Hv Ho Hf Hl Hk Hh] Hvm Hvo Hno Hfo Hk'.
  assert (Hvm' : vm ∉ vms) by (rewrite Hd, Hvm; by intros []).
  assert (E : owned (vms ++ [vm]) (<[vm := o]> os) = owned vms os ++ owns o).
  { rewrite owned_app. unfold owned at 2. cbn. rewrite app_nil_r, owned_at_insert. f_equal.
    apply owned_ext. intros vm' Hin. apply owned_at_insert_ne. by intros ->. }
  rewrite Hh in Hfo. split; rewrite ?E; try done.
  - apply NoDup_app. split_and!; [done|by intros x Hx ->%list_elem_of_singleton|apply NoDup_singleton].
  - intros vm'. rewrite elem_of_app, list_elem_of_singleton, Hd, lookup_insert_is_Some.
    destruct (decide (vm = vm')); naive_solver.
  - by apply map_Forall_insert_2.
  - apply NoDup_app. split_and!; [done| |done]. rewrite Forall_forall in Hfo. intros x Hx Hx'.
    apply (Hfo x Hx'). by apply elem_of_union_l, elem_of_list_to_set.
  - apply Forall_app. split; [done|]. eapply Forall_impl; [exact Hfo|]. cbn. set_solver.
  - rewrite Hk', Hh, list_to_set_app_L. set_solver.
Qed.

Lemma inv_delete base lost l1 vm l2 os k : lifecycle_inv base lost (l1 ++ vm :: l2) os k ->
  exists o, os !! vm = Some o
  /\ delete_object (os, k) vm = (delete vm os, delete_machine o k)
  /\ held (delete_machine o k) = held k ∖ list_to_set (owns o)
  /\ lifecycle_inv base lost (l1 ++ l2) (delete vm os) (delete_machine o k).
Proof.
  intros [Hn Hd Hv Ho Hf Hl Hk Hh].
  assert (Hvm : vm ∈ l1 ++ vm :: l2) by (rewrite elem_of_app, elem_of_cons; auto).
  apply Hd in Hvm as [o Hvm]. exists o. assert (Hvo : valid o) by exact (Hv _ _ Hvm).
  pose proof (delete_held o k Hvo) as Hdel. split; [done|]. split; [unfold delete_object; cbn; by rewrite Hvm|].
  split; [done|].
  assert (Hp : NoDup (vm :: l1 ++ l2)) by (by rewrite Permutation_middle). apply NoDup_cons in Hp as [Hni Hn'].
  assert (E : owned (l1 ++ l2) (delete vm os) = owned l1 os ++ owned l2 os).
  { rewrite <- owned_app. apply owned_ext. intros vm' Hin. unfold owned_at. rewrite lookup_delete_ne; [done|].
    by intros ->. }
  assert (Eo : owned (l1 ++ vm :: l2) os = owned l1 os ++ owns o ++ owned l2 os).
  { rewrite owned_app. unfold owned. cbn. unfold owned_at at 2. by rewrite Hvm. }
  rewrite Eo in *. assert (Hpo : NoDup (owns o ++ owned l1 os ++ owned l2 os)) by (by rewrite Permutation_app_swap_app).
  apply NoDup_app in Hpo as (_ & Hdis & Ho').
  rewrite !Forall_app in Hf. destruct Hf as (Hf1 & Hfo & Hf2).
  split; rewrite ?E; try done.
  - intros vm'. destruct (decide (vm' = vm)) as [->|Hne].
    + rewrite lookup_delete_eq. split; [done|by intros []].
    + rewrite lookup_delete_ne, <- Hd by done. rewrite !elem_of_app, elem_of_cons. naive_solver.
  - by apply map_Forall_delete.
  - by apply Forall_app.
  - rewrite Hdel, Hh. rewrite !list_to_set_app_L. rewrite Forall_forall in Hfo.
    apply set_eq. intros x. rewrite elem_of_difference, !elem_of_union, !elem_of_list_to_set.
    specialize (Hfo x). specialize (Hdis x). rewrite elem_of_union in Hfo. rewrite elem_of_app in Hdis. tauto.
Qed.

Lemma inv_free base lost vms os k vm : lifecycle_inv base lost vms os k ->
  match erase_vm vm vms with
  | Some vms' => exists o, os !! vm = Some o /\ vm ∉ vms'
      /\ delete_object (os, k) vm = (delete vm os, delete_machine o k)
      /\ held (delete_machine o k) = held k ∖ list_to_set (owns o)
      /\ lifecycle_inv base lost vms' (delete vm os) (delete_machine o k)
  | None => vm ∉ vms
  end.
Proof.
  intros Hi. pose proof (erase_vm_spec vm vms) as He. destruct (erase_vm vm vms) as [vms'|]; [|done].
  destruct He as (l1 & l2 & -> & -> & _). pose proof (li_nodup _ _ _ _ _ Hi) as Hn.
  rewrite <- Permutation_middle in Hn. apply NoDup_cons in Hn as [Hn _].
  destruct (inv_delete _ _ _ _ _ _ _ Hi) as (o & H1 & H2 & H3 & H4). by exists o.
Qed.

Lemma inv_destroy base lost vms os k : lifecycle_inv base lost vms os k ->
  let '(os', k') := fold_left delete_object vms (os, k) in os' = ∅ /\ held k' = lost ∪ base.
Proof.
  revert os k. induction vms as [|vm vms IH]; intros os k Hi; cbn [fold_left].
  - destruct Hi as [_ Hd _ _ _ _ _ ->]. split; [|cbn; set_solver]. apply map_empty. intros vm.
    apply eq_None_not_Some. rewrite <- Hd. apply not_elem_of_nil.
  - destruct (inv_delete _ _ [] _ _ _ _ Hi) as (o & _ & -> & _ & Hi'). by apply IH.
Qed.

Lemma inv_step base lost st st' : sys_step st st' ->
  lifecycle_inv base lost (m_vms (sys_platform st)) (sys_objects st) (sys_kernel st) ->
  exists lost', lifecycle_inv base lost' (m_vms (sys_platform st')) (sys_objects st') (sys_kernel st').
Proof.
  destruct 1 as [st vm s Hvm|st vm|st vm o o' k' Hvm Hvo Eo Ek]; intros Hi.
  - unfold sys_CreateVM. pose proof (create_held s (sys_kernel st)) as L.
    destruct (CreateVMImpl s (sys_kernel st)) as [[o|] k']; cbn.
    + destruct L as (? & ? & ? & ?). exists lost. by eapply inv_create.
    + destruct L as (new & Hleak & Hd & Ek). exists (new ∪ lost).
      destruct Hi as [Hn Hdom Hv Ho Hf Hl Hk Hh]. rewrite Hh in Hd, Ek. split; try done.
      * rewrite Forall_forall in Hf |- *. intros x Hx. specialize (Hf x Hx).
        assert (x ∈ (list_to_set (owned (m_vms (sys_platform st)) (sys_objects st)) : gset Z))
          by (by apply elem_of_list_to_set). set_solver.
      * set_solver.
      * intros E. rewrite (Hleak E), (Hk E). set_solver.
      * rewrite Ek. set_solver.
  - unfold sys_FreeVM, FreeVM. pose proof (inv_free _ _ _ _ _ vm Hi) as Hf. exists lost.
    destruct (erase_vm vm (m_vms (sys_platform st))) as [vms'|]; [|done].
    destruct Hf as (o & _ & _ & E & _ & Hi'). cbn [snd]. rewrite E. done.
  - exists lost. cbn. destruct Hi as [Hn Hd Hv Ho Hf Hl Hk Hh].
    assert (E : owned (m_vms (sys_platform st)) (<[vm := o']> (sys_objects st)) = owned (m_vms (sys_platform st)) (sys_objects st)).
    { apply owned_ext. intros vm' _. destruct (decide (vm' = vm)) as [->|]; [|by apply owned_at_insert_ne].
      rewrite owned_at_insert, Eo. unfold owned_at. by rewrite Hvm. }
    split; rewrite ?E; try done; [| |congruence].
    + intros vm'. rewrite Hd, lookup_insert_is_Some. destruct (decide (vm = vm')) as [->|]; [|naive_solver].
      rewrite Hvm. naive_solver.
    + by apply map_Forall_insert_2.
Qed.

Lemma inv_reachable (p0 : Platform Z) k0 st : m_vms p0 = [] -> rtc sys_step (MkSystem p0 ∅ k0) st ->
  exists lost, lifecycle_inv (held k0) lost (m_vms (sys_platform st)) (sys_objects st) (sys_kernel st).
Proof.
  intros Hp Hr. remember (MkSystem p0 ∅ k0) as st0 eqn:E.
  assert (Hi : exists lost, lifecycle_inv (held k0) lost (m_vms (sys_platform st0)) (sys_objects st0) (sys_kernel st0)).
  { exists ∅. subst. cbn. rewrite Hp. split; cbn; try done; try set_solver; try constructor.
    - by intros ?%elem_of_nil.
    - by intros [? ?]. }
  clear E. induction Hr as [|st1 st2 st3 Hs _ IH]; [done|]. apply IH. destruct Hi as [lost Hi]. by apply (inv_step _ lost st1).
Qed.
End Invariant.

(** ** Theorem *)

(** C11: a platform owns exactly what its machines hold.  On every platform that keeps its promises,
    after any calls of clients, successful or not, the machines of the platform's list are the
    objects that exist, each once; what is open is what was open at the start and what these
    machines hold, with no descriptor shared, and what failed creations have lost, which is
    nothing but on WHPX.  [FreeVM] answers whether the machine is one of the platform's; if so it
    closes what the machine held and nothing else, and the machine is gone, if not it changes nothing.
    Destroying the machines leaves no object and closes everything that was opened and not lost. *)
Theorem platform_lifecycle {S M K} `{MachineFactoryLaws S M K} (p0 : Platform Z) (k0 : K) (st : system M K) :
  m_vms p0 = [] -> rtc sys_step (MkSystem p0 ∅ k0) st ->
  let machines := m_vms (sys_platform st) in
  let open := owned machines (sys_objects st) in
  NoDup machines /\ (forall vm, vm ∈ machines <-> is_Some (sys_objects st !! vm))
  /\ (exists lost, (failures_leak = false -> lost = ∅) /\ lost ## held k0
      /\ NoDup open /\ Forall (fun x => x ∉ lost ∪ held k0) open
      /\ held (sys_kernel st) = list_to_set open ∪ (lost ∪ held k0)
      /\ sys_objects (sys_DestroyVMs st) = ∅
      /\ held (sys_kernel (sys_DestroyVMs st)) = lost ∪ held k0)
  /\ forall vm, let '(ok, st') := sys_FreeVM vm st in
     if (ok : bool) then
       exists o, sys_objects st !! vm = Some o /\ sys_objects st' = delete vm (sys_objects st)
         /\ (vm ∉ m_vms (sys_platform st'))
         /\ held (sys_kernel st') = held (sys_kernel st) ∖ list_to_set (owns o)
     else (vm ∉ machines) /\ st' = st.
Proof.
  intros Hp Hr machines open. destruct (inv_reachable p0 k0 st Hp Hr) as [lost Hi].
  split; [apply Hi|]. split; [apply Hi|]. split.
  - exists lost. pose proof (inv_destroy _ _ _ _ _ Hi) as Hd. unfold sys_DestroyVMs.
    destruct (fold_left _ _ _) as [os k]. destruct Hi, Hd. by split_and!.
  - intros vm. pose proof (inv_free _ _ _ _ _ vm Hi) as Hf. unfold sys_FreeVM, FreeVM. fold machines in Hf |- *.
    destruct (erase_vm vm machines) as [vms'|]; [|by destruct st].
    destruct Hf as (o & Ho & Hn & E & Eh & _). rewrite E. by exists o.
Qed.

(** ** KVM *)
Section Kvm.
Context {K : Type} {KC : KVMCreation K} {KD : KVMDescriptors K} (features : PlatformFeatures).

#[export] Instance kvm_factory : MachineFactory VMSpecifications (Z * list vp_handles) K := {
  CreateVMImpl s := kvm_CreateVMImpl features (CPUIDResults s) (kvm_identityMapPageAddress s) (numProcessors s);
  delete_machine vm := destroy_vm (fst vm) (snd vm)
}.

Lemma destroy_vps_open vps (k : K) : Forall (fun vp => vp_fd vp <> -1) vps ->
  open_fds (fold_left (fun k vp => destroy_vp vp k) vps k) = open_fds k ∖ list_to_set (vp_fd <$> vps).
Proof.
  intros Hv. revert k. induction Hv as [|vp vps Hvp _ IH]; intros k; cbn; [set_solver|].
  rewrite IH. unfold destroy_vp. rewrite (proj2 (Z.eqb_neq _ _) Hvp), close_fds. set_solver.
Qed.
#[export] Instance kvm_factory_laws : MachineFactoryLaws VMSpecifications (Z * list vp_handles) K.
Proof.
  refine {| held := open_fds; owns vm := fst vm :: (vp_fd <$> snd vm); failures_leak := false;
            valid vm := fst vm <> -1 /\ Forall (fun vp => vp_fd vp <> -1) (snd vm) |}.
  - intros s k. cbn.
    pose proof (kvm_create_vm_descriptors features (CPUIDResults s) (kvm_identityMapPageAddress s) (numProcessors s) k) as L.
    destruct (kvm_CreateVMImpl _ _ _ _ _) as [[[fd vps]|] k'].
    + destruct L as (_ & Hn & Hf & E). apply Forall_cons in Hf as [[Hfd Hfd'] Hvps]. cbn [fst snd].
      split_and!; [lia| |done| |done].
      * apply Forall_fmap in Hvps. eapply Forall_impl; [exact Hvps|]. cbn. lia.
      * apply Forall_cons. split; [done|]. eapply Forall_impl; [exact Hvps|]. by intros ? [].
    + exists ∅. split; [done|]. split; [set_solver|]. rewrite L. set_solver.
  - intros [fd vps] k [Hfd Hv]. cbn in *. unfold destroy_vm.
    rewrite (proj2 (Z.eqb_neq _ _) Hfd), close_fds, destroy_vps_open by done. set_solver.
Defined.

(** [~KvmPlatform] *)
Definition kvm_platform_destroy (m_fd : Z) (st : system (Z * list vp_handles) K) : K :=
  let k := sys_kernel (sys_DestroyVMs (S:=VMSpecifications) st) in
  if m_fd =? -1 then k else KvmCreate.close m_fd k.
Lemma kvm_platform_closes p0 (k0 : K) st m_fd : m_vms p0 = [] -> m_fd <> -1 ->
  rtc (sys_step (S:=VMSpecifications)) (MkSystem p0 ∅ k0) st ->
  open_fds (kvm_platform_destroy m_fd st) = open_fds k0 ∖ {[m_fd]}.
Proof.
  intros Hp Hm Hr. destruct (inv_reachable (S:=VMSpecifications) p0 k0 st Hp Hr) as [lost Hi].
  pose proof (inv_destroy _ _ _ _ _ Hi) as Hd. rewrite (li_leak _ _ _ _ _ Hi eq_refl) in Hd.
  unfold kvm_platform_destroy, sys_DestroyVMs. destruct (fold_left _ _ _) as [os k]. destruct Hd as [_ Hd]. cbn in *.
  rewrite (proj2 (Z.eqb_neq _ _) Hm), close_fds, Hd. set_solver.
Qed.
End Kvm.

(** ** HAXM

    What the driver promises of descriptors; the system calls of HaxmSys.v keep it. *)
Class HAXMDescriptors (K : Type) `{HAXM K} `{HAXMachine K} := {
  hax_fds : K -> gset Z;
  hax_create_vm_fds fd k : hax_fds (snd (HAX_IOCTL_CREATE_VM fd k)) = hax_fds k;
  hax_open_vm_fds vm k : let '(fd, k') := open_vm vm k in
    fd = -1 /\ hax_fds k' = hax_fds k \/ 0 <= fd /\ (fd ∉ hax_fds k) /\ hax_fds k' = {[fd]} ∪ hax_fds k;
  hax_qemu_fds fd cur least k : hax_fds (snd (HAX_VM_IOCTL_NOTIFY_QEMU_VERSION fd cur least k)) = hax_fds k;
  hax_get_regs_fds fd r k : hax_fds (snd (HAX_VCPU_GET_REGS fd r k)) = hax_fds k;
  hax_set_regs_fds fd r k : hax_fds (snd (HAX_VCPU_SET_REGS fd r k)) = hax_fds k;
  hax_vcpu_create_fds fd id k : hax_fds (snd (HAX_VM_IOCTL_VCPU_CREATE fd id k)) = hax_fds k;
  hax_open_vcpu_fds vm id k : let '(fd, k') := open_vcpu vm id k in
    fd = -1 /\ hax_fds k' = hax_fds k \/ 0 <= fd /\ (fd ∉ hax_fds k) /\ hax_fds k' = {[fd]} ∪ hax_fds k;
  hax_tunnel_fds fd k : hax_fds (snd (HAX_VCPU_IOCTL_SETUP_TUNNEL fd k)) = hax_fds k;
  hax_close_fds fd k : hax_fds (HaxmVp.close fd k) = hax_fds k ∖ {[fd]}
}.

Section Haxm.
Context {K W : Type} `{HAXMDescriptors K}.
Context (caps : hax_capabilityinfo) (fdHAXM : Z) (tunnel : hax_tunnel) (mem : hmem) (x : VMExitInfo) (w : W).

(** [~HaxmVirtualMachine]: the processors, then [m_sys]. *)
Definition haxm_destroy_vm (fd : Z) (vps : list (hvp K W)) (k : K) : K :=
  sys_Destroy fd (fold_left (fun k vp => sys_Destroy (h_fd vp) k) vps k).
#[export] Instance haxm_factory : MachineFactory VMSpecifications (Z * list (hvp K W)) K := {
  CreateVMImpl s k :=
    let '(r, k) := haxm_vm_Initialize caps fdHAXM (numProcessors s) tunnel mem x w k in
    ((fun o : bool * Z * list (hvp K W) => (snd (fst o), snd o)) <$> r, k);
  delete_machine vm := haxm_destroy_vm (fst vm) (snd vm)
}.

Lemma succeeds_snd (r : Z * K) : snd (succeeds r) = snd r.
Proof. by destruct r. Qed.
Lemma probe_efer_fds fd r (k : K) : hax_fds (snd (probe_efer fd r k)) = hax_fds k.
Proof.
  unfold probe_efer, sys_GetRegisters, sys_SetRegisters, succeeds.
  pose proof (hax_get_regs_fds fd r k) as E1. destruct (HAX_VCPU_GET_REGS fd r k) as [[r1 s1] k1]. cbn in E1.
  destruct (0 <=? r1); [|done].
  match goal with |- context [HAX_VCPU_SET_REGS fd ?v k1] =>
    pose proof (hax_set_regs_fds fd v k1) as E2; destruct (HAX_VCPU_SET_REGS fd v k1) as [r2 k2] end. cbn in E2 |- *.
  destruct (0 <=? r2); [|by rewrite <- E1].
  match goal with |- context [HAX_VCPU_GET_REGS fd ?v k2] =>
    pose proof (hax_get_regs_fds fd v k2) as E3; destruct (HAX_VCPU_GET_REGS fd v k2) as [[r3 s3] k3] end. cbn in E3.
  match goal with |- context [HAX_VCPU_SET_REGS fd ?v k3] =>
    pose proof (hax_set_regs_fds fd v k3) as E4; destruct (HAX_VCPU_SET_REGS fd v k3) as [r4 k4] end. cbn in E4 |- *.
  congruence.
Qed.
Lemma new_hvp_fds (k : K) : hax_fds (h_driver (new_hvp tunnel mem x k w)) = hax_fds k.
Proof.
  unfold new_hvp. pose proof (probe_efer_fds (-1) zero_state k) as E. by destruct (probe_efer _ _ _) as [[? ?] ?].
Qed.
Lemma haxm_Initialize_fds fdVM vm id (s : hvp K W) :
  let '(ok, s') := haxm_Initialize fdVM vm id s in
  opens hax_fds (h_driver s) ok (h_fd s') (h_driver s').
Proof.
  unfold haxm_Initialize, sys_Initialize, opens. set (k := h_driver s).
  pose proof (hax_vcpu_create_fds fdVM id k) as E1. destruct (HAX_VM_IOCTL_VCPU_CREATE fdVM id k) as [r1 k1]. cbn in E1.
  destruct (r1 <? 0); [done|]. pose proof (hax_open_vcpu_fds vm id k1) as E2.
  destruct (open_vcpu vm id k1) as [fd k2]. destruct (Z.ltb_spec fd 0); cbn.
  { destruct E2 as [[-> ->]|]; [done|lia]. }
  destruct E2 as [[-> _]|(H0' & Hn & E2)]; [lia|]. pose proof (hax_tunnel_fds fd k2) as E3.
  destruct (HAX_VCPU_IOCTL_SETUP_TUNNEL fd k2) as [[r3 info] k3]. cbn in E3.
  destruct (r3 <? 0); cbn.
  - split; [done|]. rewrite hax_close_fds, E3, E2, E1. rewrite E1 in Hn. set_solver.
  - destruct info. cbn. rewrite E3, E2, E1. rewrite E1 in Hn. done.
Qed.

(** The descriptors [l] are open besides [base]. *)
Definition holds_fds (l : list Z) (base : gset Z) (k : K) : Prop :=
  NoDup l /\ Forall (fun fd => 0 <= fd /\ fd ∉ base) l /\ hax_fds k = list_to_set l ∪ base.
Lemma holds_fds_cons fd l base (k k' : K) : holds_fds l base k -> 0 <= fd -> fd ∉ hax_fds k ->
  hax_fds k' = {[fd]} ∪ hax_fds k -> holds_fds (fd :: l) base k'.
Proof.
  intros (Hn & Hf & E) Hfd Hni E'. rewrite E, elem_of_union, elem_of_list_to_set in Hni.
  split; [apply NoDup_cons; tauto|]. split; [apply Forall_cons; tauto|]. rewrite E', E. cbn. set_solver.
Qed.
Lemma holds_fds_perm l l' base k : l ≡ₚ l' -> holds_fds l base k -> holds_fds l' base k.
Proof. intros Hp (Hn & Hf & E). split; [by rewrite <- Hp|]. split; [by rewrite <- Hp|]. by rewrite <- Hp. Qed.
Lemma sys_Destroy_fds fd l base (k : K) : holds_fds (fd :: l) base k -> holds_fds l base (sys_Destroy fd k).
Proof.
  intros (Hn & Hf & E). apply NoDup_cons in Hn as [Hni Hn]. apply Forall_cons in Hf as [[Hfd Hfb] Hf].
  split; [done|]. split; [done|]. unfold sys_Destroy. rewrite (proj2 (Z.eqb_neq _ _)), hax_close_fds, E by lia.
  cbn. assert (fd ∉ (list_to_set l : gset Z)) by (by rewrite elem_of_list_to_set). set_solver.
Qed.
Lemma destroy_vps_holds (vps : list (hvp K W)) l base k : holds_fds ((h_fd <$> vps) ++ l) base k ->
  holds_fds l base (fold_left (fun k vp => sys_Destroy (h_fd vp) k) vps k).
Proof.
  revert k. induction vps as [|vp vps IH]; intros k Hh; cbn in *; [done|]. apply IH. by apply sys_Destroy_fds.
Qed.

Lemma destroy_vps_closes (vps : list (hvp K W)) k : Forall (fun vp => h_fd vp <> -1) vps ->
  hax_fds (fold_left (fun k vp => sys_Destroy (h_fd vp) k) vps k) = hax_fds k ∖ list_to_set (h_fd <$> vps).
Proof.
  intros Hv. revert k. induction Hv as [|vp vps Hvp _ IH]; intros k; cbn; [set_solver|].
  rewrite IH. unfold sys_Destroy. rewrite (proj2 (Z.eqb_neq _ _) Hvp), hax_close_fds. set_solver.
Qed.

Lemma create_vps_holds n fd vm id (vps : list (hvp K W)) base k :
  holds_fds (fd :: (h_fd <$> vps)) base k ->
  let '(ok, vps', k') := HaxmVm.create_vps tunnel mem x w n fd vm id vps k in
  holds_fds (if (ok : bool) then fd :: (h_fd <$> vps') else h_fd <$> vps') base k'.
Proof.
  revert id vps k. induction n as [|n IH]; intros id vps k Hh; cbn [HaxmVm.create_vps]; [done|].
  pose proof (new_hvp_fds k) as E. pose proof (haxm_Initialize_fds fd vm id (new_hvp tunnel mem x k w)) as L.
  destruct (haxm_Initialize fd vm id _) as [[] vp]; cbn [negb opens] in *.
  - destruct L as (Hfd & Hn & Ek). rewrite E in Hn, Ek. apply IH.
    apply (holds_fds_perm (h_fd vp :: fd :: (h_fd <$> vps))).
    + rewrite fmap_app. cbn. rewrite Permutation_swap. f_equiv. by rewrite Permutation_cons_append.
    + by apply holds_fds_cons with k.
  - destruct L as [-> Ek]. unfold sys_Destroy at 1. cbn. apply sys_Destroy_fds.
    destruct Hh as (? & ? & Eh). split; [done|]. split; [done|]. congruence.
Qed.
#[export] Instance haxm_factory_laws : MachineFactoryLaws VMSpecifications (Z * list (hvp K W)) K.
Proof.
  refine {| held := hax_fds; owns vm := fst vm :: (h_fd <$> snd vm); failures_leak := false;
            valid vm := fst vm <> -1 /\ Forall (fun vp => h_fd vp <> -1) (snd vm) |}.
  - intros s k. cbn. unfold haxm_vm_Initialize, sys_vm_Initialize.
    assert (Hnone : forall k', hax_fds k' = hax_fds k -> exists lost : gset Z,
      (false = false -> lost = ∅) /\ lost ## hax_fds k /\ hax_fds k' = lost ∪ hax_fds k).
    { intros k' E. exists ∅. rewrite E. set_solver. }
    pose proof (hax_create_vm_fds fdHAXM k) as E1. destruct (HAX_IOCTL_CREATE_VM fdHAXM k) as [[r1 vm] k1]. cbn in E1.
    destruct (r1 =? -1); [by apply Hnone|]. pose proof (hax_open_vm_fds vm k1) as E2.
    destruct (open_vm vm k1) as [fd k2]. destruct (Z.eqb_spec fd (-1)).
    { apply Hnone. destruct E2 as [[_ E2]|]; [congruence|lia]. }
    destruct E2 as [[? _]|(Hfd & Hn & E2)]; [done|]. rewrite E1 in Hn, E2.
    match goal with |- context [if nz ?c then ?a else ?b] => set (q := if nz c then a else b);
      assert (Eq : hax_fds (snd q) = hax_fds k2) end.
    { unfold q, sys_ReportQEMUVersion. destruct (nz _); [|done]. rewrite succeeds_snd. apply hax_qemu_fds. }
    destruct q as [fast k3]. cbn in Eq.
    assert (Hh : holds_fds [fd] (hax_fds k) k3).
    { apply (holds_fds_cons fd [] _ k); [|done..|congruence]. split; [constructor|]. split; [constructor|]. cbn. set_solver. }
    pose proof (create_vps_holds (Z.to_nat (numProcessors s)) fd vm 0 [] _ _ Hh) as Hc.
    destruct (HaxmVm.create_vps _ _ _ _ _ _ _ _ _ _) as [[ok vps] k4]. destruct ok; cbn.
    + destruct Hc as (Hd & Hf & E). pose proof Hf as [_ Hf']%Forall_cons.
      split_and!; [done| |done| |done].
      * apply Forall_fmap in Hf'. eapply Forall_impl; [exact Hf'|]. cbn. lia.
      * eapply Forall_impl; [exact Hf|]. by intros ? [].
    + apply Hnone. destruct (destroy_vps_holds vps [] (hax_fds k) k4) as (_ & _ & ->); [by rewrite app_nil_r|]. cbn. set_solver.
  - intros [fd vps] k [Hfd Hv]. cbn [fst snd delete_machine haxm_factory] in *.
    unfold haxm_destroy_vm. unfold sys_Destroy at 1.
    rewrite (proj2 (Z.eqb_neq _ _) Hfd), hax_close_fds, destroy_vps_closes by done. cbn. set_solver.
Defined.

(** [~HaxmPlatform]: the machines, then the delegate, whose destructor is the system's. *)
Definition haxm_platform_destroy (sys_platform_destroy : Z -> K -> Z * K) (m_fd : Z)
    (st : system (Z * list (hvp K W)) K) : K :=
  snd (sys_platform_destroy m_fd (sys_kernel (sys_DestroyVMs (S:=VMSpecifications) st))).
End Haxm.

(** *** The system layers keep the promise *)
Section Layers.
Context {K : Type} (uninit : hax_tunnel_info) (uninit_id : Z).
Context (vm_name : Z -> option (list Z)) (vcpu_name : Z -> Z -> option (list Z)).
Lemma tunnels_snd (r : Z * hax_tunnel_info * K) :
  snd (let '(result, info, k) := r in (result, tunnels info, k)) = snd r.
Proof. by destruct r as [[? ?] ?]. Qed.
Definition posix_HAXMDescriptors `{PosixLaws K} :
  @HAXMDescriptors K (posix_HAXM uninit vcpu_name) (posix_HAXMachine uninit_id vm_name).
Proof.
  apply (@Build_HAXMDescriptors K (posix_HAXM uninit vcpu_name) (posix_HAXMachine uninit_id vm_name) fds_of);
    intros; cbn; rewrite ?tunnels_snd; try apply ioctl_fds; try apply ioctl_in_fds.
  - destruct (vm_name vm); [apply posix_open_fds|by left].
  - destruct (vcpu_name vm id); [apply posix_open_fds|by left].
  - apply posix_close_fds.
Defined.

Lemma result_of_snd {A} test (r : Z * A * K) : snd (result_of test r) = snd r.
Proof. by destruct r as [[? ?] ?]. Qed.
Lemma result_in_snd test (r : Z * K) : snd (result_in test r) = snd r.
Proof. by destruct r. Qed.
Definition windows_HAXMDescriptors `{Win32Laws K} :
  @HAXMDescriptors K (windows_HAXM uninit vcpu_name) (windows_HAXMachine uninit_id vm_name).
Proof.
  apply (@Build_HAXMDescriptors K (windows_HAXM uninit vcpu_name) (windows_HAXMachine uninit_id vm_name) handles_of);
    intros; cbn; rewrite ?tunnels_snd, ?result_of_snd, ?result_in_snd;
    try apply DeviceIoControl_handles; try apply DeviceIoControl_in_handles.
  - destruct (vm_name vm); [apply CreateFileW_handles|by left].
  - destruct (vcpu_name vm id); [apply CreateFileW_handles|by left].
  - apply CloseHandle_handles.
Defined.

(** After a POSIX platform on a descriptor above 0 (see [haxm_layers_release]) nothing is left. *)
Lemma posix_platform_closes {W} `{PosixLaws K} caps (tunnel : hax_tunnel) mem x (w : W) p0 (k0 : K) st m_fd :
  let _ := posix_HAXM uninit vcpu_name in
  let _ := posix_HAXMachine uninit_id vm_name in
  let _ := posix_HAXMDescriptors in
  let _ := haxm_factory caps m_fd tunnel mem x w in
  m_vms p0 = [] -> 0 < m_fd -> rtc (sys_step (S:=VMSpecifications)) (MkSystem p0 ∅ k0) st ->
  fds_of (haxm_platform_destroy caps m_fd tunnel mem x w Darwin.platform_destroy m_fd st) = fds_of k0 ∖ {[m_fd]}.
Proof.
  intros Hx Hm Hd Hf Hp Hfd Hr. destruct (inv_reachable (S:=VMSpecifications) p0 k0 st Hp Hr) as [lost Hi].
  pose proof (inv_destroy _ _ _ _ _ Hi) as Hk. rewrite (li_leak _ _ _ _ _ Hi eq_refl) in Hk.
  unfold haxm_platform_destroy, sys_DestroyVMs. fold Hf. destruct (fold_left _ _ _) as [os k]. destruct Hk as [_ Hk]. cbn in *.
  unfold Darwin.platform_destroy. rewrite (proj2 (Z.ltb_lt _ _) Hfd). cbn. rewrite posix_close_fds.
  change (fds_of k) with (held k). set_solver.
Qed.
End Layers.

(** ** WHPX

    A machine holds its partition; a creation that fails may lose one ([whpx_partition_leak]). *)
Section Whpx.
Context {K C W : Type} `{WHPXPartitionLaws K C}.
Context (features_exits : Z) (uninit : nat -> Z) (uninit_value : Z).
Context (zeroContext : exit_context C) (x : VMExitInfo) (w : W).
#[export] Instance whpx_factory : MachineFactory VMSpecifications (Z * list (wvp K C W)) K := {
  CreateVMImpl s := whpx_CreateVMImpl s features_exits uninit uninit_value zeroContext x w;
  delete_machine vm := delete_vm (fst vm) (snd vm)
}.
#[export] Instance whpx_factory_laws : MachineFactoryLaws VMSpecifications (Z * list (wvp K C W)) K.
Proof.
  refine {| held := partitions; owns vm := [fst vm]; failures_leak := true;
            valid vm := fst vm <> INVALID_HANDLE_VALUE |}.
  - intros s k. cbn. pose proof (whpx_partition_leak s features_exits uninit uninit_value zeroContext x w k) as L.
    destruct (whpx_CreateVMImpl _ _ _ _ _ _ _ _) as [[[h vps]|] k'].
    + destruct (whpx_vm_Initialize _ _ _ _ _ _ _ _) as [[[ok h0] vps0] k1]. destruct L as (-> & -> & -> & Hh & Hn & E).
      split_and!; [exact Hh|apply NoDup_singleton|by apply Forall_singleton|]. cbn. by rewrite union_empty_r_L.
    + destruct (whpx_vm_Initialize _ _ _ _ _ _ _ _) as [[[ok h0] vps0] k1].
      destruct L as (_ & [[E _]|(_ & p & _ & Hn & E)]); [exists ∅|exists {[p]}]; rewrite E; set_solver.
  - intros [h vps] k Hh. cbn in *. unfold delete_vm. apply Z.eqb_neq in Hh as ->. cbn.
    rewrite delete_partition, delete_vps_keeps. set_solver.
Defined.
End Whpx.

(** ** A concrete platform

    KVM with three descriptors left: a machine with one processor is created, a second one fails
    with its processor. *)
Module LifeDemo.
#[local] Existing Instance demo_KVMCreation.
#[local] Existing Instance demo_KVMDescriptors.
Definition features : PlatformFeatures := default_features (MkGPA 0 0 0).
Definition spec : VMSpecifications := MkSpecs 1 0 [] 0 [] 0 0xFFFBC000.
Definition factory : MachineFactory VMSpecifications (Z * list vp_handles) demo_kernel := kvm_factory features.
Definition laws : MachineFactoryLaws VMSpecifications (Z * list vp_handles) demo_kernel (H:=factory) := kvm_factory_laws features.
#[local] Existing Instance factory.
Definition start : system (Z * list vp_handles) demo_kernel := MkSystem (newPlatform (MkGPA 0 0 0)) ∅ (MkDemoKernel 3 {[7]}).
Definition first : system (Z * list vp_handles) demo_kernel := snd (sys_CreateVM 0x1000 spec start).
Definition second : system (Z * list vp_handles) demo_kernel := snd (sys_CreateVM 0x2000 spec first).
End LifeDemo.

Lemma platform_lifecycle_witness :
  m_vms (sys_platform LifeDemo.second) = [0x1000]
  /\ dk_open (sys_kernel LifeDemo.second) = {[7; 8; 9]}
  /\ dk_open (sys_kernel (sys_DestroyVMs (H:=LifeDemo.factory) LifeDemo.second)) = {[7]}.
Proof.
  destruct (platform_lifecycle (H0:=LifeDemo.laws) (newPlatform (MkGPA 0 0 0)) (MkDemoKernel 3 {[7]}) LifeDemo.second)
    as (_ & _ & (lost & Hl & _ & _ & _ & _ & _ & Hd) & _).
  - reflexivity.
  - apply (rtc_l _ _ LifeDemo.first); [|apply rtc_once]; apply (ss_create (H:=LifeDemo.factory)); vm_compute; reflexivity.
  - split; [vm_compute; reflexivity|]. split; [vm_compute; reflexivity|].
    rewrite (Hl eq_refl) in Hd. etrans; [exact Hd|]. vm_compute. reflexivity.
Defined.
