(* ===== verification/Hvf.v ===== *)
(** * The Hypervisor.framework platform (hvf_vp.cpp, hvf_vm.cpp, hvf_platform.cpp)

    An outline of a platform whose operations do nothing yet and report success.  It is modelled
    as it stands, as an instance of the interfaces that the other platforms implement, which
    shows what a client of the library gets from it. *)
From S2P Require Import Prelude Bits MemRegions VM Regs Status Vp Interrupts Debug Platform.

(** ** hvf_vp.cpp

    The object: its number, and the exit information of the base class. *)
Record hvf_vp := MkHvfVp { m_vcpuID : Z; hvf_exitInfo : VMExitInfo }.
Definition newHvFVirtualProcessor (vcpuID : Z) (x : VMExitInfo) : hvf_vp := MkHvfVp vcpuID x.
Definition hvf_vp_Initialize (s : hvf_vp) : bool * hvf_vp := (true, s).
Definition hvf_HandleExecResult (s : hvf_vp) : VPExecutionStatus * hvf_vp := (VPE_OK, s).
Definition hvf_RunImpl (s : hvf_vp) : VPExecutionStatus * hvf_vp := hvf_HandleExecResult s.
Definition hvf_StepImpl (s : hvf_vp) : VPExecutionStatus * hvf_vp :=
  let '(status, s) := hvf_RunImpl s in
  match status with
  | VPE_OK =>
      let '(result, s) := hvf_HandleExecResult s in
      (result, match reason (hvf_exitInfo s) with
               | Exit_SoftwareBreakpoint =>
                   MkHvfVp (m_vcpuID s) (MkVMExitInfo Exit_Step (details (hvf_exitInfo s)))
               | _ => s
               end)
  | _ => (status, s)
  end.
Definition hvf_PrepareInterrupt (vector : Z) (s : hvf_vp) : bool * hvf_vp := (true, s).
Definition hvf_InjectInterrupt (vector : Z) (s : hvf_vp) : VPOperationStatus * hvf_vp := (VP_OK, s).
Definition hvf_CanInjectInterrupt (s : hvf_vp) : bool := true.
Definition hvf_RequestInterruptWindow (s : hvf_vp) : hvf_vp := s.
#[export] Instance hvf_VPInterrupts : VPInterrupts hvf_vp := {
  RunImpl := hvf_RunImpl; StepImpl := hvf_StepImpl; PrepareInterrupt := hvf_PrepareInterrupt;
  InjectInterrupt := hvf_InjectInterrupt; CanInjectInterrupt := hvf_CanInjectInterrupt;
  RequestInterruptWindow := hvf_RequestInterruptWindow
}.

(** Registers.  The results of a read are the caller's variables, which are not written. *)
Definition hvf_RegRead (reg : Reg.t) (value : RegValue) : M hvf_vp RegValue := fun s => (inr value, s).
Definition hvf_RegWrite (reg : Reg.t) (value : RegValue) : M hvf_vp unit := fun s => (inr tt, s).
Definition hvf_RegReadN (regs : list Reg.t) (values : list RegValue) (s : hvf_vp)
    : VPOperationStatus * list RegValue * hvf_vp := (VP_OK, values, s).
Definition hvf_RegWriteN (regs : list Reg.t) (values : list RegValue) (s : hvf_vp)
    : VPOperationStatus * hvf_vp := (VP_OK, s).
Definition hvf_GetFPUControl (value : FPUControl) : M hvf_vp FPUControl := fun s => (inr value, s).
Definition hvf_SetFPUControl (value : FPUControl) : M hvf_vp unit := fun s => (inr tt, s).
Definition hvf_GetMXCSR (value : Z) : M hvf_vp Z := fun s => (inr value, s).
Definition hvf_SetMXCSR (value : Z) : M hvf_vp unit := fun s => (inr tt, s).
Definition hvf_GetMXCSRMask (value : Z) : M hvf_vp Z := fun s => (inr value, s).
Definition hvf_SetMXCSRMask (value : Z) : M hvf_vp unit := fun s => (inr tt, s).
Definition hvf_GetMSR (msr value : Z) : M hvf_vp Z := fun s => (inr value, s).
Definition hvf_SetMSR (msr value : Z) : M hvf_vp unit := fun s => (inr tt, s).
Definition hvf_GetMSRs (msrs values : list Z) (s : hvf_vp) : VPOperationStatus * list Z * hvf_vp :=
  (VP_OK, values, s).
Definition hvf_SetMSRs (msrs values : list Z) (s : hvf_vp) : VPOperationStatus * hvf_vp := (VP_OK, s).
#[export] Instance hvf_VPRegs : VPRegs hvf_vp := {
  RegRead := hvf_RegRead; RegWrite := hvf_RegWrite; RegReadN := hvf_RegReadN;
  RegWriteN := hvf_RegWriteN; GetMSR := hvf_GetMSR; SetMSR := hvf_SetMSR
}.

(** Breakpoints. *)
Definition hvf_EnableSoftwareBreakpoints (enable : bool) : M hvf_vp unit := fun s => (inr tt, s).
Definition hvf_SetHardwareBreakpoints (breakpoints : list HardwareBreakpoint) : M hvf_vp unit :=
  fun s => (inr tt, s).
Definition hvf_ClearHardwareBreakpoints : M hvf_vp unit := fun s => (inr tt, s).
Definition hvf_GetBreakpointAddress (address : Z) : M hvf_vp Z := fun s => (inr address, s).

(** ** hvf_vm.cpp

    The platform's part of the machine has no members. *)
Definition hvf_MapGuestMemoryImpl (baseAddress size flags memory : Z) (b : unit)
    : MemoryMappingStatus * unit := (MM_OK, b).
Definition hvf_UnmapGuestMemoryImpl (baseAddress size : Z) (b : unit) : MemoryMappingStatus * unit := (MM_OK, b).
Definition hvf_SetGuestMemoryFlagsImpl (baseAddress size flags : Z) (b : unit)
    : MemoryMappingStatus * unit := (MM_OK, b).
Definition hvf_QueryDirtyPagesImpl (baseAddress size bitmap bitmapSize : Z) (bm : unit * hmem)
    : DirtyPageTrackingStatus * (unit * hmem) := (DP_OK, bm).
Definition hvf_ClearDirtyPagesImpl (baseAddress size : Z) (b : unit)
    : DirtyPageTrackingStatus * unit := (DP_OK, b).
#[export] Instance hvf_VMBackend : VMBackend unit := {
  MapGuestMemoryImpl := hvf_MapGuestMemoryImpl;
  UnmapGuestMemoryImpl := hvf_UnmapGuestMemoryImpl;
  SetGuestMemoryFlagsImpl := hvf_SetGuestMemoryFlagsImpl;
  QueryDirtyPagesImpl := hvf_QueryDirtyPagesImpl;
  ClearDirtyPagesImpl := hvf_ClearDirtyPagesImpl
}.
Fixpoint hvf_create_vps (n : nat) (id : Z) (x : VMExitInfo) (vps : list hvf_vp) : bool * list hvf_vp :=
  match n with
  | O => (true, vps)
  | Datatypes.S n =>
      let '(ok, vp) := hvf_vp_Initialize (newHvFVirtualProcessor id x) in
      if negb ok then (false, vps) else hvf_create_vps n (u32 (id + 1)) x (vps ++ [vp])
  end.
Definition hvf_vm_Initialize (numProcessors : Z) (x : VMExitInfo) : bool * list hvf_vp :=
  hvf_create_vps (Z.to_nat numProcessors) 0 x [].

(** ** hvf_platform.cpp *)
Definition newHvFPlatform (info : HostInfo) (uninit : GPAFeatures) : PlatformInitStatus * PlatformFeatures :=
  let d := default_features uninit in
  (PI_OK,
   {| maxProcessorsPerVM := 1; maxProcessorsGlobal := 1;
      guestPhysicalAddress := MkGPA (maxBits (gpa info)) (maxAddress (gpa info)) (gpa_mask (gpa info));
      unrestrictedGuest := false; extendedPageTables := false; guestDebugging := false;
      guestMemoryProtection := guestMemoryProtection d; dirtyPageTracking := false;
      partialDirtyBitmap := false; largeMemoryAllocation := false; memoryAliasing := memoryAliasing d;
      memoryUnmapping := false; partialUnmapping := false; partialMMIOInstructions := false;
      floatingPointExtensions := host_fp info; extendedControlRegisters := ECR_None;
      extendedVMExits := EVE_None; exceptionExits := ExceptionCode_None; customCPUIDs := false;
      supportedCustomCPUIDs := supportedCustomCPUIDs d; guestTSCScaling := guestTSCScaling d |}).

(** ** What a client gets *)

(** The machine keeps its regions without any of them reaching a guest: mapping and unmapping
    succeed for all arguments that pass the checks of the base class, although the platform says that it cannot
    unmap. *)
Lemma hvf_map_always_succeeds {V W} large mask base size flags memory (vm : VirtualMachine unit V W) :
  let '(st, vm') := MapGuestMemory large mask base size flags memory vm in
  (st = MM_OK /\ m_memoryRegions vm' = m_memoryRegions vm ++ [MkMemoryRegion base size memory])
  \/ (st <> MM_OK /\ vm' = vm).
Proof.
  unfold MapGuestMemory. repeat (case_if; [by right|]). cbn. by left.
Qed.

(** The processor takes every interrupt without delay and loses it: each run removes one vector from
    the queue, and the platform's state, all that a guest could learn of it, is unchanged. *)
Lemma hvf_interrupts_are_lost (s : hvf_vp) v q :
  Run (MkVP s (v :: q)) = (VPE_OK, MkVP s q) /\ Run (MkVP s []) = (VPE_OK, MkVP s []).
Proof. done. Qed.

(** The mode that the base class computes is a function of its own uninitialised variables. *)
Lemma hvf_mode_is_uninitialised uninit s (m : hmem) :
  fst (GetExecutionMode uninit (s, m))
  = (if negb (nz (fget RV.u64 uninit &&& CR0_PE)) then Mode_RealAddress
     else if nz (fget RV.u64 uninit &&& RFLAGS_VM) then Mode_Virtual8086
     else if nz (fget RV.u64 uninit &&& EFER_LMA) then Mode_IA32e else Mode_Protected).
Proof. done. Qed.
