(* ===== verification/Bitmask.v ===== *)
(** * Bit-mask enumerations (util/bitmask_enum.hpp)

    The operators on enumerations that are marked as bit masks, and the checks of [BitmaskEnum].
    A value is that of the underlying type, of [w] bits: an unsigned type from 0 up, a signed one
    in two's complement.  The template is enabled for the types [is_bitmask_enum] names. *)
From S2P Require Import Prelude Bits MemRegions VM KvmVm HaxmVm WhpxVm.

(** The underlying type. *)
Record underlying := MkUnderlying { is_signed : bool; width : Z }.
Definition in_type (u : underlying) (x : Z) : Prop :=
  if is_signed u then - 2 ^ (width u - 1) <= x < 2 ^ (width u - 1) else 0 <= x < 2 ^ width u.
(** The conversion to the underlying type, as the result of an operator is converted back. *)
Definition wrap (u : underlying) (x : Z) : Z :=
  if is_signed u then (x + 2 ^ (width u - 1)) mod 2 ^ width u - 2 ^ (width u - 1) else x mod 2 ^ width u.

Section Operators.
Context (u : underlying).
Definition enum_or (lhs rhs : Z) : Z := wrap u (Z.lor lhs rhs).
Definition enum_and (lhs rhs : Z) : Z := wrap u (Z.land lhs rhs).
Definition enum_xor (lhs rhs : Z) : Z := wrap u (Z.lxor lhs rhs).
Definition enum_not (rhs : Z) : Z := wrap u (Z.lnot rhs).
(** The assignments: the new value of [lhs], which is also the result. *)
Definition enum_or_assign (lhs rhs : Z) : Z * Z := let lhs := enum_or lhs rhs in (lhs, lhs).
Definition enum_and_assign (lhs rhs : Z) : Z * Z := let lhs := enum_and lhs rhs in (lhs, lhs).
Definition enum_xor_assign (lhs rhs : Z) : Z * Z := let lhs := enum_xor lhs rhs in (lhs, lhs).

(** ** [BitmaskEnum] *)
Definition none : Z := 0.
Definition Any (value : Z) : bool := negb (value =? none).
Definition to_bool (value : Z) : bool := Any value.
Definition None_ (value : Z) : bool := value =? none.
Definition AnyOf (value mask : Z) : bool := negb (enum_and value mask =? none).
Definition AllOf (value mask : Z) : bool := enum_and value mask =? mask.
Definition NoneOf (value mask : Z) : bool := enum_and value mask =? none.
Definition AnyExcept (value mask : Z) : bool := negb (enum_and value (enum_not mask) =? none).
Definition NoneExcept (value mask : Z) : bool := enum_and value (enum_not mask) =? none.
End Operators.

(** ** The operators as operations on sets of bits *)

Definition underlying_ok (u : underlying) : Prop := 0 < width u.
(** The bits of a value of the type: a signed value has infinitely many equal bits above. *)
Lemma in_type_wrap u x : underlying_ok u -> in_type u (wrap u x).
Proof.
  intros Hw. unfold in_type, wrap, underlying_ok in *. assert (0 < 2 ^ width u) by lia.
  destruct (is_signed u); [|apply Z.mod_pos_bound; lia].
  pose proof (Z.mod_pos_bound (x + 2 ^ (width u - 1)) (2 ^ width u) ltac:(lia)).
  assert (2 ^ width u = 2 * 2 ^ (width u - 1)) by (rewrite <- Z.pow_succ_r by lia; f_equal; lia). lia.
Qed.
Lemma wrap_in_type u x : underlying_ok u -> in_type u x -> wrap u x = x.
Proof.
  intros Hw. unfold in_type, wrap, underlying_ok in *.
  destruct (is_signed u); intros Hx; [|apply Z.mod_small; lia].
  assert (2 ^ width u = 2 * 2 ^ (width u - 1)) by (rewrite <- Z.pow_succ_r by lia; f_equal; lia).
  rewrite Z.mod_small by lia. lia.
Qed.
Lemma bits_clear_above n x : 0 <= n -> (forall i, n <= i -> Z.testbit x i = false) <-> 0 <= x < 2 ^ n.
Proof.
  intros Hn. split.
  - intros Hb. replace x with (x mod 2 ^ n); [apply Z.mod_pos_bound; lia|].
    apply Z.bits_inj'. intros i Hi. rewrite Z.testbit_mod_pow2 by lia.
    destruct (Z.ltb_spec i n); [done|]. by rewrite Hb.
  - intros [H0 Hx] i Hi. destruct (Z.eq_dec x 0) as [->|Hne]; [apply Z.testbit_0_l|].
    apply Z.bits_above_log2; [lia|]. apply Z.log2_lt_pow2; [lia|].
    apply Z.lt_le_trans with (2 ^ n); [lia|]. apply Z.pow_le_mono_r; lia.
Qed.
(** Values of the type are those whose bits from the top one on are equal. *)
Lemma in_type_bits u x : underlying_ok u ->
  in_type u x <-> forall i, width u <= i -> Z.testbit x i = is_signed u && Z.testbit x (width u - 1).
Proof.
  unfold in_type, underlying_ok. intros Hw. destruct (is_signed u); cbn [andb]; [|by rewrite bits_clear_above by lia].
  set (n := width u - 1). assert (Hb : forall y, (forall i, width u <= i -> Z.testbit y i = Z.testbit y n)
                                                   -> Z.testbit y n = false -> 0 <= y < 2 ^ n).
  { intros y Hy E. apply bits_clear_above; [lia|]. intros i Hi. destruct (Z.eq_dec i n) as [->|]; [done|].
    rewrite Hy by lia. done. }
  split.
  - intros [H1 H2] i Hi. destruct (Z.le_gt_cases 0 x) as [H0|H0].
    + pose proof (proj2 (bits_clear_above n x ltac:(lia)) ltac:(lia)) as C. by rewrite !C by lia.
    + pose proof (proj2 (bits_clear_above n (Z.lnot x) ltac:(lia)) ltac:(unfold Z.lnot; lia)) as C.
      pose proof (C i ltac:(lia)) as Ci. pose proof (C n ltac:(lia)) as Cn. rewrite Z.lnot_spec in Ci, Cn by lia.
      apply negb_false_iff in Ci, Cn. congruence.
  - intros Hy. destruct (Bool.bool_dec (Z.testbit x n) true) as [E|E%not_true_is_false]; [|specialize (Hb x Hy E); lia].
    assert (Hl : 0 <= Z.lnot x < 2 ^ n); [|unfold Z.lnot in Hl; lia].
    apply Hb; [|rewrite Z.lnot_spec, E by lia; done].
    intros i Hi. rewrite !Z.lnot_spec, Hy by lia. done.
Qed.

Section Facts.
Context (u : underlying) (Hu : underlying_ok u).
Implicit Types x y : Z.
Lemma closed x : (forall i, width u <= i -> Z.testbit x i = is_signed u && Z.testbit x (width u - 1)) -> wrap u x = x.
Proof. intros Hb. apply wrap_in_type; [done|]. by apply in_type_bits. Qed.
Lemma enum_and_land x y : in_type u x -> in_type u y -> enum_and u x y = Z.land x y.
Proof.
  intros Hx Hy. apply closed. intros i Hi. rewrite !Z.land_spec.
  rewrite (proj1 (in_type_bits u x Hu) Hx i Hi), (proj1 (in_type_bits u y Hu) Hy i Hi). by destruct (is_signed u).
Qed.
Lemma enum_or_lor x y : in_type u x -> in_type u y -> enum_or u x y = Z.lor x y.
Proof.
  intros Hx Hy. apply closed. intros i Hi. rewrite !Z.lor_spec.
  rewrite (proj1 (in_type_bits u x Hu) Hx i Hi), (proj1 (in_type_bits u y Hu) Hy i Hi). by destruct (is_signed u).
Qed.
Lemma enum_xor_lxor x y : in_type u x -> in_type u y -> enum_xor u x y = Z.lxor x y.
Proof.
  intros Hx Hy. apply closed. intros i Hi. rewrite !Z.lxor_spec.
  rewrite (proj1 (in_type_bits u x Hu) Hx i Hi), (proj1 (in_type_bits u y Hu) Hy i Hi). by destruct (is_signed u).
Qed.
Lemma wrap_bits x i : 0 <= i < width u -> Z.testbit (wrap u x) i = Z.testbit x i.
Proof.
  intros Hi. unfold wrap. unfold underlying_ok in Hu.
  assert (Hm : forall y, Z.testbit (y mod 2 ^ width u) i = Z.testbit y i).
  { intros y. rewrite Z.testbit_mod_pow2 by lia. rewrite (proj2 (Z.ltb_lt i (width u))) by lia. done. }
  destruct (is_signed u); [|apply Hm]. set (h := 2 ^ (width u - 1)).
  rewrite <- Hm. rewrite Zminus_mod_idemp_l. rewrite Hm. f_equal. lia.
Qed.
Lemma enum_not_bits x i : 0 <= i < width u -> Z.testbit (enum_not u x) i = negb (Z.testbit x i).
Proof. intros Hi. unfold enum_not. rewrite wrap_bits by lia. rewrite Z.lnot_spec by lia. done. Qed.
(** Two values of the type are equal when their bits are. *)
Lemma type_ext x y : in_type u x -> in_type u y ->
  (forall i, 0 <= i < width u -> Z.testbit x i = Z.testbit y i) -> x = y.
Proof.
  intros Hx Hy Hb. apply Z.bits_inj'. intros i Hi. destruct (Z.lt_ge_cases i (width u)) as [Hl|Hl]; [by apply Hb|].
  rewrite (proj1 (in_type_bits u x Hu) Hx i Hl), (proj1 (in_type_bits u y Hu) Hy i Hl).
  unfold underlying_ok in Hu. by rewrite Hb by lia.
Qed.
Lemma none_bits x : in_type u x -> (x =? none) = false <-> exists i, 0 <= i < width u /\ Z.testbit x i = true.
Proof.
  intros Hx. rewrite Z.eqb_neq. split.
  - intros Hne. destruct (decide (Exists (fun i => Z.testbit x i = true) (seqZ 0 (width u)))) as [E|E].
    + apply Exists_exists in E as (i & Hi & Hb). exists i. split; [|done]. apply elem_of_seqZ in Hi. lia.
    + destruct Hne. apply type_ext; [done| |].
      { unfold in_type, none, underlying_ok in *. destruct (is_signed u); assert (0 < 2 ^ (width u - 1)) by lia; lia. }
      intros i Hi. unfold none. rewrite Z.testbit_0_l. destruct (Z.testbit x i) eqn:Eb; [|done].
      destruct E. apply Exists_exists. exists i. split; [apply elem_of_seqZ; lia|done].
  - intros (i & _ & Hb) ->. unfold none in Hb. by rewrite Z.testbit_0_l in Hb.
Qed.
End Facts.

(** The checks say what their comments say.  For every underlying type and all values of it,
    Any, None, AnyOf, AllOf, NoneOf, AnyExcept and NoneExcept hold exactly when the bits of the type
    are as the name tells, and the operators are the union, intersection, symmetric
    difference and complement of the sets of bits, within the type. *)
Theorem bitmask_checks u v m : underlying_ok u -> in_type u v -> in_type u m ->
  let bits P := forall i, 0 <= i < width u -> P i : bool in
  let some P := exists i, 0 <= i < width u /\ (P i : bool) in
  let V i := Z.testbit v i in
  let N i := Z.testbit m i in
  (Any v <-> some V) /\ (None_ v <-> bits (fun i => negb (V i)))
  /\ (AnyOf u v m <-> some (fun i => V i && N i))
  /\ (AllOf u v m <-> bits (fun i => implb (N i) (V i)))
  /\ (NoneOf u v m <-> bits (fun i => negb (V i && N i)))
  /\ (AnyExcept u v m <-> some (fun i => V i && negb (N i)))
  /\ (NoneExcept u v m <-> bits (fun i => implb (V i) (N i)))
  /\ (in_type u (enum_or u v m) /\ in_type u (enum_and u v m) /\ in_type u (enum_xor u v m) /\ in_type u (enum_not u v))
  /\ (forall i, 0 <= i < width u ->
        Z.testbit (enum_or u v m) i = V i || N i /\ Z.testbit (enum_and u v m) i = V i && N i
        /\ Z.testbit (enum_xor u v m) i = xorb (V i) (N i) /\ Z.testbit (enum_not u v) i = negb (V i)).
Proof.
  intros Hu Hv Hm bits some V N.
  assert (Hs : forall x (P : Z -> bool), in_type u x -> (forall i, 0 <= i < width u -> Z.testbit x i = P i) ->
            (negb (x =? none) <-> some P) /\ ((x =? none) <-> bits (fun i => negb (P i)))).
  { intros x P Hx HP. pose proof (none_bits u Hu x Hx) as B. split.
    - rewrite Is_true_true, negb_true_iff, B. split; intros (i & Hi & Hb); exists i; (split; [done|]).
      + rewrite <- HP by done. by apply Is_true_true.
      + rewrite HP by done. by apply Is_true_true.
    - rewrite Is_true_true. split.
      + intros E i Hi. rewrite <- HP by done. apply Is_true_true, negb_true_iff. destruct (Z.testbit x i) eqn:Eb; [|done].
        assert ((x =? none) = false) by (apply B; by exists i). congruence.
      + intros Hn. apply not_false_is_true. intros E. apply B in E as (i & Hi & Hb).
        specialize (Hn i Hi). cbn beta in Hn. rewrite <- HP, Hb in Hn by done. done. }
  assert (Hn : in_type u (enum_not u m)) by by apply in_type_wrap.
  assert (Ha : forall i, 0 <= i < width u -> Z.testbit (enum_and u v m) i = V i && N i)
    by (intros; rewrite enum_and_land by done; apply Z.land_spec).
  assert (He : forall i, 0 <= i < width u -> Z.testbit (enum_and u v (enum_not u m)) i = V i && negb (N i))
    by (intros; rewrite enum_and_land, Z.land_spec, enum_not_bits by done; done).
  assert (Hand : in_type u (enum_and u v m)) by by apply in_type_wrap.
  assert (Hexc : in_type u (enum_and u v (enum_not u m))) by by apply in_type_wrap.
  split; [by apply (Hs v V)|]. split; [by apply (Hs v V)|].
  split; [by apply (Hs _ (fun i => V i && N i))|]. split; [|split; [by apply (Hs _ (fun i => V i && N i))|]].
  { unfold AllOf. rewrite Is_true_true, Z.eqb_eq. split.
    - intros E i Hi. specialize (Ha i Hi). rewrite E in Ha. fold (N i) in Ha. by destruct (V i), (N i).
    - intros Hb. apply (type_ext u Hu); [done..|]. intros i Hi. specialize (Hb i Hi). cbn beta in Hb. rewrite Ha by done. fold (N i).
      by destruct (V i), (N i). }
  split; [by apply (Hs _ (fun i => V i && negb (N i)))|]. split.
  { unfold NoneExcept. rewrite (proj2 (Hs _ (fun i => V i && negb (N i)) Hexc He)). unfold bits.
    split; intros Hb i Hi; specialize (Hb i Hi); cbn beta in *; by destruct (V i), (N i). }
  split; [split_and!; by apply in_type_wrap|]. intros i Hi. rewrite enum_or_lor, enum_xor_lxor by done.
  split_and!; [apply Z.lor_spec|by apply Ha|apply Z.lxor_spec|by apply enum_not_bits].
Qed.

(** ** The memory flags

    The clients of [MemoryFlags] (of [uint32_t]) test them through these checks; their models test
    the bits directly, which is the same. *)
Definition memory_flags : underlying := MkUnderlying false 32.
Section MemoryFlags.
Context {K : Type} `{KVMMachine K} (flags : Z) (Hflags : in_type memory_flags flags).
Lemma memory_flag_tests m : in_type memory_flags m ->
  AnyOf memory_flags flags m = negb (Z.land flags m =? 0) /\ NoneOf memory_flags flags m = (Z.land flags m =? 0).
Proof. intros Hm. unfold AnyOf, NoneOf. by rewrite enum_and_land. Qed.
Lemma rom_flag_checks : rom_flag flags = if AnyOf memory_flags flags MF_Write then 0 else HAX_RAM_INFO_ROM.
Proof. by rewrite (proj1 (memory_flag_tests MF_Write ltac:(done))). Qed.
Lemma slot_flags_checks :
  slot_flags flags = Z.lor (if NoneOf memory_flags flags MF_Write then KVM_MEM_READONLY else 0)
                           (if AnyOf memory_flags flags MF_DirtyPageTracking then KVM_MEM_LOG_DIRTY_PAGES else 0).
Proof.
  unfold slot_flags. rewrite (proj2 (memory_flag_tests MF_Write ltac:(done))).
  rewrite (proj1 (memory_flag_tests MF_DirtyPageTracking ltac:(done))).
  by destruct (Z.land flags MF_Write =? 0), (Z.land flags MF_DirtyPageTracking =? 0); rewrite ?Z.lor_0_l, ?Z.lor_0_r.
Qed.
Lemma ToWHVFlags_checks rs5 :
  ToWHVFlags rs5 flags
  = Z.lor (Z.lor (Z.lor (if AnyOf memory_flags flags MF_Read then 1 else 0) (if AnyOf memory_flags flags MF_Write then 2 else 0))
                 (if AnyOf memory_flags flags MF_Execute then 4 else 0))
          (if AnyOf memory_flags flags MF_DirtyPageTracking && rs5 then 8 else 0).
Proof.
  unfold ToWHVFlags.
  rewrite (proj1 (memory_flag_tests MF_Read ltac:(done))), (proj1 (memory_flag_tests MF_Write ltac:(done))),
    (proj1 (memory_flag_tests MF_Execute ltac:(done))), (proj1 (memory_flag_tests MF_DirtyPageTracking ltac:(done))).
  unfold nz. by destruct (Z.land flags MF_Read =? 0), (Z.land flags MF_Write =? 0), (Z.land flags MF_Execute =? 0),
    (Z.land flags MF_DirtyPageTracking =? 0), rs5.
Qed.
End MemoryFlags.
