(* ===== verification/PlatformCheck.v ===== *)
(** * The platform list and the platform check application

    [PlatformFactories] of virt86.hpp, by the modules the build has, and the program
    apps/platform-check/src/main.cpp as a function from what it reads (the host information and, of each
    platform, its name, version, status and features) to its exit code and its output.  Flags are
    tested with the checks of Bitmask.v, at the underlying type of each enumeration. *)
From Stdlib Require Import Ascii String.
From stdpp Require Import strings pretty.
From S2P Require Import Prelude Platform Bitmask.
Open Scope string_scope.
Open Scope Z_scope.

(** ** virt86.hpp *)
Inductive platform_class := HaxmPlatform | WhpxPlatform | KvmPlatform | HvFPlatform.
Record build := MkBuild {
  VIRT86_HAXM_AVAILABLE : bool; VIRT86_WHPX_AVAILABLE : bool; VIRT86_KVM_AVAILABLE : bool; VIRT86_HVF_AVAILABLE : bool
}.
Definition PlatformFactories (b : build) : list platform_class :=
  (if VIRT86_HAXM_AVAILABLE b then [HaxmPlatform] else []) ++ (if VIRT86_WHPX_AVAILABLE b then [WhpxPlatform] else [])
  ++ (if VIRT86_KVM_AVAILABLE b then [KvmPlatform] else []) ++ (if VIRT86_HVF_AVAILABLE b then [HvFPlatform] else []).

(** ** Conversions of printf *)

Definition hex_digit (d : Z) : ascii := ascii_of_nat (Z.to_nat (if d <? 10 then 48 + d else 87 + d)).
(** The digits in front of [acc]; a value below [16 ^ n] has at most [n]. *)
Fixpoint hex_loop (n : nat) (v : Z) (acc : string) : string :=
  match n with
  | O => acc
  | S n => let acc := String (hex_digit (v mod 16)) acc in if v / 16 =? 0 then acc else hex_loop n (v / 16) acc
  end.
(** "%x" and PRIx64, "%08x" and "%u". *)
Definition fmt_x (v : Z) : string := hex_loop 16 v "".
Definition fmt_08x (v : Z) : string :=
  String.concat "" (repeat "0" (8 - String.length (fmt_x v))) +:+ fmt_x v.
Definition fmt_u (v : Z) : string := pretty (Z.to_N v).
Definition newline : string := String (ascii_of_nat 10) "".

(** ** Flags *)

Definition int64_enum : underlying := MkUnderlying true 64.
Definition uint64_enum : underlying := MkUnderlying false 64.
Definition int_enum : underlying := MkUnderlying true 32.
(** A run of [if (bm.AnyOf(mask)) printf(text)]. *)
Definition print_flags (u : underlying) (value : Z) (rows : list (Z * string)) : string :=
  String.concat "" (List.map (fun '(mask, text) => if AnyOf u value mask then text else "") rows).

Definition fp_names : list (Z * string) :=
  [(FP_MMX, " MMX"); (FP_SSE, " SSE"); (FP_SSE2, " SSE2"); (FP_SSE3, " SSE3"); (FP_SSSE3, " SSSE3");
   (FP_SSE4_1, " SSE4.1"); (FP_SSE4_2, " SSE4.2"); (FP_SSE4a, " SSE4a"); (FP_XOP, " XOP"); (FP_F16C, " F16C");
   (FP_FMA4, " FMA4"); (FP_AVX, " AVX"); (FP_FMA3, " FMA3"); (FP_AVX2, " AVX2")].
Definition avx512_names : list (Z * string) :=
  [(FP_AVX512DQ, " DQ"); (FP_AVX512IFMA, " IFMA"); (FP_AVX512PF, " PF"); (FP_AVX512ER, " ER"); (FP_AVX512CD, " CD");
   (FP_AVX512BW, " BW"); (FP_AVX512VL, " VL"); (FP_AVX512VBMI, " VBMI"); (FP_AVX512VBMI2, " VBMI2");
   (FP_AVX512GFNI, " GFNI"); (FP_AVX512VAES, " VAES"); (FP_AVX512VNNI, " VNNI"); (FP_AVX512BITALG, " BITALG");
   (FP_AVX512VPOPCNTDQ, " VPOPCNTDQ"); (FP_AVX512QVNNIW, " QVNNIW"); (FP_AVX512QFMA, " QFMA")].
Definition save_names : list (Z * string) := [(FP_FXSAVE, " FXSAVE"); (FP_XSAVE, " XSAVE")].
Definition printFPExts (fpExts : Z) : string :=
  if negb (to_bool fpExts) then " None"
  else print_flags int64_enum fpExts fp_names
       +:+ (if AnyOf int64_enum fpExts FP_AVX512F
            then " AVX-512[F" +:+ print_flags int64_enum fpExts avx512_names +:+ "]" else "")
       +:+ print_flags int64_enum fpExts save_names.

Definition cr_names : list (Z * string) := [(ECR_CR8, " CR8"); (ECR_XCR0, " XCR0"); (ECR_MXCSRMask, " MXCSR_MASK")].
Definition exit_names : list (Z * string) :=
  [(EVE_CPUID, " CPUID"); (EVE_MSRAccess, " MSRAccess"); (EVE_Exception, " Exception"); (EVE_TSCAccess, " TSCAccess")].
(** The enumerators of ExceptionCode, in the order of exception.hpp. *)
Definition exception_names : list (Z * string) :=
  [(1 <<< 0, " DivideErrorFault"); (1 <<< 1, " DebugTrapOrFault"); (1 <<< 3, " BreakpointTrap"); (1 <<< 4, " OverflowTrap");
   (1 <<< 5, " BoundRangeFault"); (1 <<< 6, " InvalidOpcodeFault"); (1 <<< 7, " DeviceNotAvailableFault");
   (1 <<< 8, " DoubleFaultAbort"); (1 <<< 10, " InvalidTaskStateSegmentFault"); (1 <<< 11, " SegmentNotPresentFault");
   (1 <<< 12, " StackFault"); (1 <<< 13, " GeneralProtectionFault"); (1 <<< 14, " PageFault");
   (1 <<< 16, " FloatingPointErrorFault"); (1 <<< 17, " AlignmentCheckFault"); (1 <<< 18, " MachineCheckAbort");
   (1 <<< 19, " SimdFloatingPointFault")].
Definition flags_or_none (u : underlying) (value : Z) (rows : list (Z * string)) : string :=
  if negb (to_bool value) then " None" else print_flags u value rows.

(** ** The report of one platform *)

Record platform := MkReport { GetName : string; GetInitStatus : PlatformInitStatus; GetVersion : string; GetFeatures : PlatformFeatures }.
Definition status_text (s : PlatformInitStatus) : string :=
  match s with
  | PI_OK => "Available" | PI_Failed => "Initialization failed" | PI_Uninitialized => "Uninitialized"
  | PI_Unavailable => "Unavailable" | PI_Unsupported => "Unsupported"
  end +:+ newline.
(** The misspelling is the program's. *)
Definition supported_1 (b : bool) : string := if b then "supported" else "unsuported".
Definition supported_2 (b : bool) : string := if b then "supported" else "unsupported".
Definition available (b : bool) : string := if b then "available" else "unavailable".
Definition feature_line (name value : string) : string := "    " +:+ name +:+ ": " +:+ value +:+ newline.
Definition cpuid_line (r : CPUIDResult) : string :=
  "      0x" +:+ fmt_08x (cpuid_function r) +:+ " = 0x" +:+ fmt_08x (eax r) +:+ "  0x" +:+ fmt_08x (ebx r)
  +:+ "  0x" +:+ fmt_08x (ecx r) +:+ "  0x" +:+ fmt_08x (edx r) +:+ newline.
Definition feature_text (f : PlatformFeatures) : string :=
  feature_line "Maximum number of VCPUs" (fmt_u (maxProcessorsPerVM f) +:+ " per VM, " +:+ fmt_u (maxProcessorsGlobal f) +:+ " global")
  +:+ feature_line "Maximum guest physical address" ("0x" +:+ fmt_x (maxAddress (guestPhysicalAddress f)))
  +:+ feature_line "Unrestricted guest" (supported_1 (unrestrictedGuest f))
  +:+ feature_line "Extended Page Tables" (supported_1 (extendedPageTables f))
  +:+ feature_line "Guest debugging" (available (guestDebugging f))
  +:+ feature_line "Memory protection" (available (guestMemoryProtection f))
  +:+ feature_line "Dirty page tracking" (available (dirtyPageTracking f))
  +:+ feature_line "Partial dirty bitmap" (supported_2 (partialDirtyBitmap f))
  +:+ feature_line "Large memory allocation" (supported_1 (largeMemoryAllocation f))
  +:+ feature_line "Memory aliasing" (supported_1 (memoryAliasing f))
  +:+ feature_line "Memory unmapping" (supported_1 (memoryUnmapping f))
  +:+ feature_line "Partial unmapping" (supported_1 (partialUnmapping f))
  +:+ feature_line "Partial MMIO instructions" (if partialMMIOInstructions f then "yes" else "no")
  +:+ feature_line "Guest TSC scaling" (supported_2 (guestTSCScaling f))
  +:+ feature_line "Custom CPUID results" (supported_2 (customCPUIDs f))
  +:+ (if customCPUIDs f && (0 <? Z.of_nat (length (supportedCustomCPUIDs f)))
       then "       Function        EAX         EBX         ECX         EDX" +:+ newline
            +:+ String.concat "" (List.map cpuid_line (supportedCustomCPUIDs f)) else "")
  +:+ "    Floating point extensions:" +:+ printFPExts (floatingPointExtensions f) +:+ newline
  +:+ "    Extended control registers:" +:+ flags_or_none int_enum (extendedControlRegisters f) cr_names +:+ newline
  +:+ "    Extended VM exits:" +:+ flags_or_none int_enum (extendedVMExits f) exit_names +:+ newline
  +:+ "    Exception exits:" +:+ flags_or_none uint64_enum (exceptionExits f) exception_names +:+ newline +:+ newline.
Definition platform_text (p : platform) : string :=
  GetName p +:+ " - " +:+ status_text (GetInitStatus p)
  +:+ match GetInitStatus p with
      | PI_OK => "  Version: " +:+ GetVersion p +:+ newline +:+ "  Features:" +:+ newline +:+ feature_text (GetFeatures p)
      | _ => newline
      end.

(** ** [main]: the exit code and the output; [Instance] gives each platform of the build. *)
Definition main (VIRT86_VERSION : string) (host : HostInfo) (b : build) (Instance : platform_class -> platform) : Z * string :=
  let header :=
    "virt86 Platform Checker " +:+ VIRT86_VERSION +:+ newline
    +:+ "Copyright (c) 2019 Ivan Roberto de Oliveira" +:+ newline +:+ newline
    +:+ "Host features:" +:+ newline
    +:+ "  Maximum guest physical address: 0x" +:+ fmt_x (maxAddress (gpa host)) +:+ newline
    +:+ "  Floating point extensions:" +:+ printFPExts (host_fp host) +:+ newline +:+ newline in
  match PlatformFactories b with
  | [] => (-1, header +:+ "No virtualization platforms are available on this system" +:+ newline)
  | factories =>
    (0, header +:+ "Virtualization platforms available on this system:" +:+ newline +:+ newline
        +:+ String.concat "" (List.map (fun f => platform_text (Instance f)) factories))
  end.

(** ** What can be read off the output *)

#[local] Arguments String.append : simpl nomatch.
Fixpoint no_space (s : string) : bool :=
  match s with "" => true | String c r => negb (Ascii.eqb c " ") && no_space r end.
(** A text of a flag: a space and a name without spaces. *)
Definition is_word (s : string) : bool := match s with String c r => Ascii.eqb c " " && no_space r | _ => false end.
Definition join (l : list string) : string := String.concat "" l.
Lemma join_cons w l : join (w :: l) = w +:+ join l.
Proof. unfold join. destruct l; [|done]. cbn. induction w as [|c w IH]; [done|]. cbn. by f_equal. Qed.
Lemma join_words_head l : Forall (fun w => is_word w = true) l -> l <> [] -> exists r, join l = String " " r.
Proof.
  intros Hl Hn. destruct l as [|w l]; [done|]. apply Forall_cons in Hl as [Hw _]. rewrite join_cons.
  destruct w as [|c w]; [done|]. cbn in Hw. apply andb_true_iff in Hw as [Hc%Ascii.eqb_eq _]. subst c. by eexists.
Qed.
Lemma split_at_space r r' t t' : no_space r = true -> no_space r' = true ->
  (t = "" \/ exists x, t = String " " x) -> (t' = "" \/ exists x, t' = String " " x) ->
  r +:+ t = r' +:+ t' -> r = r' /\ t = t'.
Proof.
  revert r'. induction r as [|c r IH]; intros [|c' r'] Hr Hr' Ht Ht' E; cbn in *.
  - done.
  - apply andb_true_iff in Hr' as [Hc _]. destruct Ht as [->|[x ->]]; [done|]. injection E as <- _. done.
  - apply andb_true_iff in Hr as [Hc _]. destruct Ht' as [->|[x ->]]; [done|]. injection E as -> _. done.
  - apply andb_true_iff in Hr as [_ Hr], Hr' as [_ Hr']. injection E as -> E.
    by destruct (IH r' Hr Hr' Ht Ht' E) as [-> ->].
Qed.
Lemma join_words_inj l l' : Forall (fun w => is_word w = true) l -> Forall (fun w => is_word w = true) l' ->
  join l = join l' -> l = l'.
Proof.
  assert (Hh : forall l, Forall (fun w => is_word w = true) l -> join l = "" \/ exists x, join l = String " " x).
  { intros [|w k] Hk; [by left|right]. by apply join_words_head. }
  revert l'. induction l as [|w l IH]; intros [|w' l'] Hl Hl' E; [done| | |].
  - destruct (join_words_head _ Hl' ltac:(done)) as [r Hr]. rewrite Hr in E. done.
  - destruct (join_words_head _ Hl ltac:(done)) as [r Hr]. rewrite Hr in E. done.
  - apply Forall_cons in Hl as [Hw Hl], Hl' as [Hw' Hl']. rewrite !join_cons in E.
    destruct w as [|c w]; [done|]. destruct w' as [|c' w']; [done|]. cbn in Hw, Hw'.
    apply andb_true_iff in Hw as [Hc%Ascii.eqb_eq Hw], Hw' as [Hc'%Ascii.eqb_eq Hw']. subst c c'. cbn in E. injection E as E.
    apply split_at_space in E as [-> E]; [|done|done|by apply Hh|by apply Hh]. f_equal. by apply IH.
Qed.
Lemma print_flags_join u value rows :
  print_flags u value rows = join (List.map snd (List.filter (fun r => AnyOf u value (fst r)) rows)).
Proof.
  unfold print_flags, join. induction rows as [|[m t] rows IH]; [done|].
  pose proof join_cons as J. unfold join in J. cbn [List.map List.filter fst snd]. rewrite J, IH.
  destruct (AnyOf u value m); [cbn [List.map]; by rewrite J|done].
Qed.
Definition good_rows (rows : list (Z * string)) : bool :=
  forallb (fun r => is_word (snd r)) rows && bool_decide (NoDup (List.map snd rows)).
Lemma print_flags_inj u rows value value' : good_rows rows = true ->
  print_flags u value rows = print_flags u value' rows <->
  Forall (fun r => AnyOf u value (fst r) = AnyOf u value' (fst r)) rows.
Proof.
  intros [Hw Hd%bool_decide_eq_true]%andb_true_iff. rewrite !print_flags_join. split.
  - intros E. apply join_words_inj in E.
    + revert Hd E. clear Hw. induction rows as [|[m t] rows IH]; intros Hd E; [done|]. cbn in Hd, E.
      apply NoDup_cons in Hd as [Ht Hd].
      assert (Hf : forall v l, ~ (t :: l = List.map snd (List.filter (fun r => AnyOf u v (fst r)) rows))).
      { intros v l El. apply Ht. assert (Hin : t ∈ List.map snd (List.filter (fun r => AnyOf u v (fst r)) rows))
          by (rewrite <- El; left).
        apply list_elem_of_In, in_map_iff in Hin as (r & <- & [Hr _]%filter_In). by apply list_elem_of_In, in_map. }
      cbn [fst] in *. destruct (AnyOf u value m) eqn:E1, (AnyOf u value' m) eqn:E2; cbn in E.
      * apply Forall_cons. cbn [fst]. split; [congruence|]. apply IH; [done|]. by injection E.
      * by destruct (Hf _ _ E).
      * by destruct (Hf _ _ (eq_sym E)).
      * apply Forall_cons. cbn [fst]. split; [congruence|]. by apply IH.
    + apply Forall_forall. intros w Hin%list_elem_of_In. apply in_map_iff in Hin as (r & <- & [Hr _]%filter_In).
      rewrite forallb_forall in Hw. by apply Hw.
    + apply Forall_forall. intros w Hin%list_elem_of_In. apply in_map_iff in Hin as (r & <- & [Hr _]%filter_In).
      rewrite forallb_forall in Hw. by apply Hw.
  - intros Hv. do 2 f_equal. clear Hw Hd. induction rows as [|r rows IH]; [done|]. apply Forall_cons in Hv as [Hr Hv].
    cbn. rewrite Hr, IH by done. done.
Qed.
(** Every table of the program can be read back: two values print the same text exactly when they agree on each
    of its flags. *)
Lemma printed_flags_readable u rows value value' :
  rows ∈ [fp_names; avx512_names; save_names; cr_names; exit_names; exception_names] ->
  print_flags u value rows = print_flags u value' rows <->
  Forall (fun r => AnyOf u value (fst r) = AnyOf u value' (fst r)) rows.
Proof.
  intros Hr. apply print_flags_inj.
  repeat (apply elem_of_cons in Hr as [->|Hr]; [vm_compute; reflexivity|]). by apply elem_of_nil in Hr.
Qed.

(** A value whose set bits have no names prints nothing, not even that there is none; an extension of
    AVX-512 without the foundation is such a value, and so is bit 2 of [ExceptionCode::All]. *)
Lemma unnamed_flags : printFPExts FP_AVX512DQ = "" /\ flags_or_none uint64_enum (1 <<< 2) exception_names = "".
Proof. split; vm_compute; reflexivity. Qed.
(** FXSAVE prints as both. *)
Lemma fxsave_prints_both : printFPExts FP_FXSAVE = " FXSAVE XSAVE".
Proof. vm_compute. reflexivity. Qed.
(** The program succeeds exactly in a build with a platform. *)
Lemma main_exit version host b Instance :
  fst (main version host b Instance) = (if bool_decide (PlatformFactories b = []) then -1 else 0)%Z
  /\ forall c, c ∈ PlatformFactories b <->
       match c with
       | HaxmPlatform => VIRT86_HAXM_AVAILABLE b = true | WhpxPlatform => VIRT86_WHPX_AVAILABLE b = true
       | KvmPlatform => VIRT86_KVM_AVAILABLE b = true | HvFPlatform => VIRT86_HVF_AVAILABLE b = true
       end.
Proof.
  split; [unfold main; by destruct (PlatformFactories b)|].
  destruct b as [[] [] [] []], c; cbn; rewrite ?elem_of_cons, ?elem_of_nil; intuition congruence.
Qed.
